(* ===== verification/_CoqProject ===== *)
-Q . S2P
Prelude.v
Files.v
Platform.v
Doubles.v
StreamTypes.v
Stats.v
StatsInfo.v
Constants.v
Uris.v
Options.v
Configs.v
Gst.v
Elements.v
Builders.v
Pipelines.v
PipelineSpec.v
Mosaic.v
BaseStream.v
Probes.v
Streams.v
MosaicStream.v
Signals.v
SignalSpec.v
StreamLife.v
Playlist.v
Timeshift.v
M3u8.v
Protocol.v
Controller.v
Commands.v
Users.v
Machine.v
LongDoubles.v
GpuStats.v
ServiceInfo.v
Slave.v
Daemon.v
Supervisor.v
DaemonRequests.v
Service.v
StreamProcess.v
EndToEnd.v
Subscribers.v
Http.v
