(* ===== verification/Prelude.v ===== *)
(** * A verification library for the iptv cloud server

    ** The program

    The program has two kinds of process. The _daemon_
    ([src/src/server/]) serves its clients, which configure it, over JSON-RPC;
    it serves subscribers, who log in with a device, over a second connection;
    and it serves the files of live streams and of films over HTTP. For each
    stream it forks a _stream process_ ([src/src/stream/]), which builds a
    GStreamer pipeline from the stream's configuration, restarts it when it
    fails, and writes statistics into shared memory and into a pipe to the
    daemon. The path of a configuration through the program is the order of the
    files below: the daemon validates a JSON text ([Options]), forks
    ([Slave.CreateChildStream]), the child makes a configuration object and a
    stream of it ([Configs]), builds the pipeline of that stream ([Builders],
    [Mosaic]), links the pads that appear while it starts ([Streams],
    [MosaicStream]), runs it ([BaseStream], [Timeshift], [Playlist]) under its
    controller ([Controller]), and reports ([Stats], [StatsInfo], [Protocol])
    to the daemon, whose handlers ([Slave]) tell the clients ([Commands]).

    ** The files and the code

    - [Prelude]: machine integers, the outcome monad, handlers, reachability,
      and lemmas on strings, maps and lists.
    - [Files]: the functions of the C library on files and lines.
    - [Platform]: the libraries [common] and json-c and the operating system.
    - [Doubles], [LongDoubles]: bounds on floating point numbers, for [M3u8] and
      for the load of the processors in [ServiceInfo].
    - [StreamTypes]: [src/src/base/types.h], [src/src/stream/stypes.cpp]:
      enumerations, recognition of URLs, names of elements and of chunks.
    - [Stats], [StatsInfo]: [src/src/base/channel_stats.cpp],
      [src/src/base/stream_struct.cpp], [src/src/stream_commands_info/].
    - [Constants]: the macros of [src/src/base/gst_constants.h],
      [config_fields.h] and [constants.h] that the modelled code uses.
    - [Uris]: [src/src/base/input_uri.cpp], [output_uri.cpp], [logo.cpp],
      [inputs_outputs.cpp] and [src/src/utils/].
    - [Options]: [src/src/server/options/options.cpp].
    - [Configs]: [src/src/stream/configs_factory.cpp], [streams_factory.cpp],
      [config.cpp] and [src/src/stream/streams/configs/].
    - [Gst], [Elements]: [src/src/stream/elements/], [src/src/stream/pad/] and
      [src/src/stream/ibase_builder.cpp]: elements, pipelines and the programs
      that fill them, with the logic in which these are specified.
    - [Builders], [Pipelines], [PipelineSpec]:
      [src/src/stream/streams/builders/]: the builders, the pieces of pipeline
      that each of their methods makes, and the theorems on whole pipelines.
    - [Mosaic]: [mosaic_stream_builder.cpp], which shares none of their code.
    - [BaseStream]: [src/src/stream/ibase_stream.cpp] and what the callbacks of
      [probes.cpp] do; [Probes]: the probes as objects that pads of GStreamer
      point to.
    - [Streams]: [src/src/stream/streams/] and [gstreamer_utils.cpp], what the
      streams do with decodebin and its pads.
    - [MosaicStream]: [src/src/stream/streams/mosaic_stream.cpp].
    - [Signals], [SignalSpec]: the functions that a stream gives to GStreamer and
      to GLib ([Element::RegisterCallback], the methods that connect signals, the
      static callbacks of the classes of streams) and takes back in its
      destructor; what its builder announces to it, for every class.
    - [StreamLife]: the constructor, [IBaseStream::Exec] and the destructor for
      every class.
    - [Playlist]: [playlist_encoding_stream.cpp] and [playlist_relay_stream.cpp].
    - [Timeshift]: [src/src/stream/timeshift.cpp] and
      [src/src/stream/streams/timeshift/].
    - [M3u8]: [src/src/utils/m3u8_reader.cpp], [m3u8_writer.cpp],
      [chunk_info.cpp], and the list of a catchup on disk.
    - [Protocol]: [src/src/base/stream_commands.cpp] and [src/src/protocol/].
    - [Controller]: [src/src/stream/stream_controller.cpp].
    - [Commands]: [src/src/server/daemon/commands.cpp] and
      [src/src/server/daemon/commands_info/].
    - [Users]: [src/src/server/subscribers/commands_info/user_info.cpp] and
      [src/src/server/sync_finder.cpp].
    - [Machine], [ServiceInfo]: [src/src/utils/utils.cpp] and
      [server_info.cpp]: what the daemon reads of its machine, and reports.
    - [GpuStats]: [src/src/server/gpu_stats/].
    - [Slave], [Daemon], [DaemonRequests]:
      [src/src/server/process_slave_wrapper.cpp], [child_stream.cpp],
      [daemon/client.cpp]: the handlers, then the theorems about all of them
      together and about each.
    - [Supervisor]: what the daemon promises, as a machine without pipes, timers
      and messages, and the theorem that the handlers of [Slave] refine it.
    - [Service]: [src/src/server/config.cpp], [daemon_slave.cpp] and
      [ProcessSlaveWrapper::Exec]: the configuration file, the process around
      the daemon, and its four servers.
    - [StreamProcess]: [src/src/stream/stream_wrapper.cpp], the process of a
      stream around [Controller], its messages to the daemon, and
      [src/src/stream/dumpers/].
    - [EndToEnd]: a request of a client, the validation, the fork and the process
      of the stream, put together.
    - [Subscribers]: [src/src/server/subscribers/].
    - [Http]: [src/src/server/http/handler.cpp] and
      [src/src/server/vods/handler.cpp], which are the same code.

    A comment [[file:first-last symbol]] before a definition gives the lines it
    translates, and definitions have the names of the code.

    ** How the code is modelled

    _State._ The attributes of a class are a record; a method is a function of
    the record. A method of one of the servers is a handler ([hact], in
    [Prelude]): it reads and writes the state of the server and lists, in order,
    the calls it makes on the outside world. When it returns an error, what it
    has written and sent until then stays, as in the code. The servers have one
    thread each, their event loop's, so that a handler is one step. The daemon
    as a whole is [Daemon.react], over one input per callback of the loop,
    and [Daemon.run], over a list of them; the beginning and the end of the loop,
    which set and remove the timers, are inputs too, as they are steps of
    [Subscribers.sub_step]. Only the controller of a stream has two threads that
    meet: [Controller] has them as a step relation whose steps are the accesses
    to the fields they share. The main thread is there with its two loops and the
    stream whose loop it runs; a stop is two steps, the one under the mutex and
    the message to the stream, which the stream takes only while its loop runs
    ([BaseStream.Quit]). The accesses to [origin_] are not guarded by the mutex:
    a stream that is deleted between the test and the message is left out.

    _Errors._ [Error] and [ErrnoError] are the left side of a sum. A [CHECK] or
    [NOTREACHED] that fails, a null pointer that is followed, a cast to the
    wrong class and [_exit] are an [Abort] of the outcome monad: a theorem that
    says when a function aborts is a theorem about the end of the process.
    Output on a log, and the [CHECK]s that a handler runs on its loop's thread,
    are left out; the level [CRITICAL_LOG], which may or may not end the
    process, is a parameter where it decides what happens next.

    _Integers._ Sums and conversions wrap at the width of the code's type
    ([u64], [u32], [u8], [i32]); the counters of the statistics and the
    arithmetic of restarts are stated with their wrap-around.

    _Termination._ All loops of the modelled code are recursions on the list or
    the string that they run over, but for two. The reader of [M3u8] has as
    fuel the length of the file and one more; [M3u8.Parse_returns] shows that
    it is enough for every file. The loop that reads the files of a playlist
    has fuel too: [Playlist.playlist_plays] shows that
    [enough] (two turns for each file, and two) ends it when the playlist
    does not loop, and [empty_loop_hangs] that no fuel does when it loops over
    empty files. The endless loops, the event loop of the daemon and
    [StreamController::Exec], are folds over the list of inputs and of answers,
    and the latter is a step relation too: for a stream that is no player
    [Controller.stop_terminates] bounds the steps that it has left after a stop,
    but for the callbacks of a stream that was being made when the stop came,
    which may be without end ([Controller.stop_can_be_lost]); the loop in which
    a player looks for a chunk may be too ([Controller.player_stop_missed]).

    _Libraries._ The code of [common], [fastotv], json-c, the parser of HTTP and
    the file system is not in the repository. Each is a class of operations,
    and what a theorem needs of their documented behaviour (a printed number is
    read back, an object has the field that was added last) a class of laws:
    [CommonLib], [HostLib], [UrlLib], [PathLib], [JsonC] in [Platform]; [GstLib] in [Gst]
    (which factories GStreamer has, which elements link, which pads are static)
    [MediaLib] in [Streams] (capabilities of a pad) and [SignalLib] in [Signals]
    (which signals an element has); the function [fopen] in
    [Playlist]; [RpcLib] and
    [FastotvLib] in [Protocol]; [FsLib] in [Commands]; [FastotvMethods] in
    [Subscribers]; [HttpLib] in [Http]. The numbers of the states that the
    sources of GStreamer and of the repository leave unnamed are
    [UnnamedCodes]. [Ref] has an instance of each that computes and obeys the
    laws; the witnesses run the program on it. What the system answers while a
    handler runs (a failed [fork], a pipe that does not write) is an argument,
    e.g. [Slave.os_answers], so that a theorem for all of them holds whatever
    the system does. JSON null is json-c's null pointer.

    ** The theorems

    - _The daemon, in every state it reaches_ ([Daemon]): its processes, their
      pipes and their identifiers stay consistent; a client is verified only
      after it sent the license; a client that is not verified gets nothing
      done; a message that cannot be read closes its connection and nothing
      else; and the message that ends the daemon.
    - _Each request of the daemon_ ([DaemonRequests]): the stop of the service,
      the start of a stream with the resources it takes on every failure of the
      system, the end of a stream, synchronisation of users and films.
    - _The process of the daemon_ ([Service]): its configuration file is read
      back; it runs with the lock on its pid file and the license of its
      machine; the option [--stop] ends it, and when the lack of a port does
      not.
    - _The statistics of the service_ ([Machine], [ServiceInfo]): the memory is
      what the kernel writes; they arrive as they were sent; the bandwidths for
      every clock; the load of the processors and its bounds; and the two reports
      that follow each other too closely.
    - _Subscribers_: the table of connections holds no deleted client as long
      as nobody activates twice, and how it comes to hold one otherwise; whom the
      pings remove; who is let in, exactly; what happens to a client who is
      removed.
    - _HTTP_: one answer per request, no descriptor left open, and which
      connections are closed.
    - _Configurations_: [Options.ValidateConfig_spec] gives the result of
      validation as a set of fields and [ValidateConfig_returns] says when it
      returns; [Configs] gives the class of the object for each type of
      stream, the aborts that remain possible after validation, and the casts
      that fit; [Uris.read_output_roundtrip] is the way of the outputs from one
      process to the other.
    - _A stream_: [BaseStream] has the decisions of its timer and the counting
      of bytes; [Timeshift] the numbering of chunks, with the guarantee that a
      recorder overwrites none; [Probes] that no pad calls a probe that was
      deleted and no probe uses a pad that is gone; [Controller] the waits between restarts, the
      bound on attempts, and what a stop does in every interleaving, also the
      one in which it is lost on the stream that is being built.
    - _The process of a stream_ ([StreamProcess]): its loop refines the two threads
      of [Controller]; a stream that fails again and again is made anew for ever
      and reported as frozen at the right times; a change of status reaches every
      client of the daemon; and how a process ends that cannot make a stream.
      [EndToEnd.accepted_stream_starts]: from a request that the daemon accepts to
      the process that makes the stream of the class that was asked for.
    - _Pipelines_ ([PipelineSpec], [Mosaic]): for each class of stream the
      elements and the links of its pipeline as a plain list made from the
      configuration, and exactly when there is a pipeline; that every output is
      reached by the media it is for; that the tiles of a mosaic are on the
      screen and apart; and the configurations that pass the validation and for
      which no pipeline is ever built.
    - _Pads_ ([Streams], [MosaicStream]): what decodebin is told to decode, and
      that from the configuration to the last pad each medium is linked once;
      each class of stream finds the configuration it casts to; the level meters
      stay in their tiles.
    - _Callbacks_ ([SignalSpec]): in the pipeline of every class of stream each
      signal is connected once, with the method it is meant for and through casts
      that fit, and nothing stays connected when the stream is gone.
      [StreamLife.stream_lives] puts this together with what a stream tells its
      controller, from its construction to its end.
    - _Playlists_: what a playlist plays, with an end of the stream in the place
      of each file that cannot be opened, and that a request for data returns.
      [M3u8]: the list of chunks that a catchup writes, whole or cut off by a
      write that fails, is read back by the next one; the reader returns for
      every file; a playlist with other ends of lines is refused.
    - _The daemon as a whole_ ([Supervisor]): every run of the daemon is a run
      of its specification, so that no stream runs twice, nothing is started
      before somebody has shown the license, and the ping removes exactly the
      trusted clients that do not take it.
    - _Messages_: round trips of the statistics, the parameters of the requests
      and the description of users; and what does not survive the trip (the
      traffic of a period, memory sizes beyond the range of [int]).
    - _Names_: [StreamTypes.match_digit_end_spec] is the equivalence of the
      matcher with the regular expression it stands for.

    Each theorem with hypotheses has a witness beside it, which applies it to a
    concrete run on [Ref].

    ** What is not modelled

    GStreamer itself: what elements do with data, its threads, and when they emit
    a signal or a bus message; these are the arguments of the handlers of
    [BaseStream], [Streams] and [MosaicStream], and [Signals] has which handler a
    signal reaches. A callback of a probe that is
    running while its stream is destroyed is left out of [Probes]: [exec_finish]
    in [BaseStream] has stopped the pipeline by then. Whether [FLAG_CREATE] empties
    a file that is there is up to the library [common]: [M3u8.WriteM3u8List] has
    what the file holds when it has been opened as an argument, and
    [M3u8.catchup_list_survives] is about a file that opening has left empty. Left out are the log of
    GStreamer, printing a logo, which no code calls, and the parameters of remote
    procedures ([user_request_info.cpp], [user_response_info.cpp] in
    [src/src/server/subscribers/rpc/]), which are not built. The files of [/proc]
    and the answers of the system calls are arguments of [Machine] and
    [ServiceInfo]; the making of a daemon (the double fork of [common]), the hash
    of the machine and the loading of the library of the streams are answers in
    [Service]; the loads that the libraries of graphics cards report are answers
    in [GpuStats]. *)

From stdpp Require Export base tactics prelude strings pretty gmap list sorting fin_maps.
From Stdlib Require Export ZArith Lia.

(** ** Notations and scopes *)

Create HintDb iptv.

Declare Scope iptv_scope.
Delimit Scope iptv_scope with iptv.

(** ** Machine integers

    A [w]-bit unsigned integer is a [Z] in [[0, 2^w)], a signed one a [Z] in
    [[-2^(w-1), 2^(w-1))]; [wrap] and [swrap] are the reductions that C++
    arithmetic and conversions perform. *)

Definition wrap (w z : Z) : Z := (z mod 2 ^ w)%Z.
Definition swrap (w z : Z) : Z :=
  let half := (2 ^ (w - 1))%Z in (wrap w (z + half) - half)%Z.

Abbreviation u8 := (wrap 8).
Abbreviation u32 := (wrap 32).
Abbreviation u64 := (wrap 64).
Abbreviation i32 := (swrap 32).
Abbreviation i64 := (swrap 64).

Definition in_u (w z : Z) : Prop := (0 <= z < 2 ^ w)%Z.
Definition in_s (w z : Z) : Prop := (- 2 ^ (w - 1) <= z < 2 ^ (w - 1))%Z.

Section MachineIntegers.
Local Open Scope Z_scope.

Lemma wrap_range w z : 0 <= w -> in_u w (wrap w z).
Proof. intros Hw. unfold in_u, wrap. apply Z.mod_pos_bound. lia. Qed.

Lemma wrap_small w z : in_u w z -> wrap w z = z.
Proof. unfold in_u, wrap. intros H. by apply Z.mod_small. Qed.

Lemma wrap_wrap w z : 0 <= w -> wrap w (wrap w z) = wrap w z.
Proof. intros Hw. apply wrap_small. by apply wrap_range. Qed.

Lemma wrap_add_l w a b : wrap w (wrap w a + b) = wrap w (a + b).
Proof. unfold wrap. by rewrite Zplus_mod_idemp_l. Qed.

Lemma wrap_sub_add w a b : wrap w (wrap w (a + b) - a) = wrap w b.
Proof.
  unfold wrap. rewrite Zminus_mod_idemp_l. f_equal. lia.
Qed.

Lemma swrap_range w z : 1 <= w -> in_s w (swrap w z).
Proof.
  intros Hw. unfold in_s, swrap, wrap.
  assert (Hp : 2 ^ w = 2 * 2 ^ (w - 1)).
  { rewrite <- Z.pow_succ_r by lia. f_equal. lia. }
  pose proof (Z.mod_pos_bound (z + 2 ^ (w - 1)) (2 ^ w) ltac:(lia)). lia.
Qed.

Lemma wrap_swrap w z : wrap w (swrap w z) = wrap w z.
Proof.
  unfold swrap, wrap. cbn zeta. rewrite Zminus_mod_idemp_l. f_equal. lia.
Qed.

(** A [uint64_t] that travels as an [int64_t] comes back. *)
Lemma u64_i64 z : in_u 64 z -> u64 (i64 z) = z.
Proof. intros H. rewrite wrap_swrap. by apply wrap_small. Qed.

Lemma swrap_small w z : 1 <= w -> in_s w z -> swrap w z = z.
Proof.
  unfold in_s, swrap, wrap. intros Hw H.
  assert (Hp : 2 ^ w = 2 * 2 ^ (w - 1)).
  { rewrite <- Z.pow_succ_r by lia. f_equal. lia. }
  rewrite Z.mod_small; lia.
Qed.
End MachineIntegers.

(** Unfolds the range predicates so that [lia] sees the bounds. *)
Ltac int_range := unfold in_u, in_s in *; cbn -[Z.add Z.sub Z.mul] in *; try lia.

(** ** Errors, aborts and the outcome monad

    [common::Error] and [common::ErrnoError] carry a text and, for the second,
    a code. A [CHECK] that fails, [NOTREACHED], a null dereference and a failed
    assertion of a library end the process; an access out of bounds or through a
    pointer cast to the wrong class has no defined behaviour. They are the third
    case of [outcome], with the reason; so is the regular end of a process by
    [_exit]. *)

Inductive errno_code := EAGAIN | EINVAL | ErrnoCode (z : Z).

Inductive error :=
| error_inval
| make_error (text : string)
| make_errno_error (text : string) (code : errno_code).

Inductive abort_reason :=
| CheckFailed (what : string)
| NotReached (what : string)
| CriticalLog (what : string)
| NullPointer (what : string)
| LibraryAssert (what : string)
| UndefinedBehaviour (what : string)
| Terminated (what : string)
| ProcessExit.

Inductive outcome (A : Type) :=
| Ok (a : A)
| Err (e : error)
| Abort (r : abort_reason).
Arguments Ok {A} a.
Arguments Err {A} e.
Arguments Abort {A} r.

#[export] Instance errno_code_eq_dec : EqDecision errno_code.
Proof. solve_decision. Defined.
#[export] Instance error_eq_dec : EqDecision error.
Proof. solve_decision. Defined.
#[export] Instance abort_reason_eq_dec : EqDecision abort_reason.
Proof. solve_decision. Defined.

#[export] Instance outcome_ret : MRet outcome := fun A a => Ok a.
#[export] Instance outcome_bind : MBind outcome := fun A B f m =>
  match m with Ok a => f a | Err e => Err e | Abort r => Abort r end.

Lemma Ok_inj {A} (a b : A) : Ok a = Ok b -> a = b.
Proof. congruence. Qed.

Definition is_abort {A} (m : outcome A) : bool :=
  match m with Abort _ => true | _ => false end.

Definition is_ok {A} (m : outcome A) : bool :=
  match m with Ok _ => true | _ => false end.

(** [CHECK(b)]. *)
Definition check (b : bool) (what : string) : outcome unit :=
  if b then Ok tt else Abort (CheckFailed what).

Lemma check_Ok b what u : check b what = Ok u <-> b = true.
Proof. by destruct b, u. Qed.
Lemma check_Abort b what r : check b what = Abort r <-> b = false /\ r = CheckFailed what.
Proof. destruct b; naive_solver. Qed.

Section OutcomeLaws.
Context {A B C : Type}.

Lemma outcome_bind_Ok (m : outcome A) (f : A -> outcome B) b :
  m ≫= f = Ok b <-> exists a, m = Ok a /\ f a = Ok b.
Proof. destruct m; cbn; naive_solver. Qed.

Lemma outcome_bind_Abort (m : outcome A) (f : A -> outcome B) r :
  m ≫= f = Abort r <-> m = Abort r \/ exists a, m = Ok a /\ f a = Abort r.
Proof. destruct m; cbn; naive_solver. Qed.

Lemma outcome_bind_assoc (m : outcome A) (f : A -> outcome B) (g : B -> outcome C) :
  (m ≫= f) ≫= g = m ≫= (fun a => f a ≫= g).
Proof. by destruct m. Qed.
End OutcomeLaws.

(** ** State and output

    Handlers of the servers change their own state and act on the outside
    world (write a response, close a descriptor, stop a child). [act S E A] is
    a state transformer that also lists, in order, the actions it performed. *)

Definition act (S E A : Type) : Type := S -> A * S * list E.

#[export] Instance act_ret {S E} : MRet (act S E) := fun A a s => (a, s, []).
#[export] Instance act_bind {S E} : MBind (act S E) := fun A B f m s =>
  let '(a, s1, es1) := m s in
  let '(b, s2, es2) := f a s1 in
  (b, s2, es1 ++ es2).

Definition emit {S E} (e : E) : act S E unit := fun s => (tt, s, [e]).
Definition gets {S E A} (f : S -> A) : act S E A := fun s => (f s, s, []).
Definition modify {S E} (f : S -> S) : act S E unit := fun s => (tt, f s, []).

Fixpoint act_iter {S E A} (f : A -> act S E unit) (l : list A) : act S E unit :=
  match l with
  | [] => mret tt
  | x :: l' => f x ;; act_iter f l'
  end.

Definition act_result {A S E} (r : A * S * list E) : A := r.1.1.
Definition act_state {A S E} (r : A * S * list E) : S := r.1.2.
Definition act_events {A S E} (r : A * S * list E) : list E := r.2.

Section ActLaws.
Context {S E : Type}.

Lemma act_bind_ret_l {A B} (a : A) (f : A -> act S E B) s :
  (mret a ≫= f) s = f a s.
Proof. unfold mbind, act_bind, mret, act_ret. by destruct (f a s) as [[??]?]. Qed.

(** A loop whose body only emits leaves the state alone and emits the
    concatenation of the bodies' events. *)
Lemma act_iter_emits {A} (f : A -> act S E unit) (g : S -> A -> list E) l s :
  (forall x, f x s = (tt, s, g s x)) ->
  act_iter f l s = (tt, s, l ≫= g s).
Proof.
  intros Hf. induction l as [|x l IH]; [done|]. cbn -[mbind].
  unfold mbind at 1, act_bind at 1. rewrite Hf, IH. done.
Qed.

(** An invariant of the state is kept by a loop whose body keeps it. *)
Lemma act_iter_inv {A} (P : S -> Prop) (f : A -> act S E unit) l s :
  (forall x s', P s' -> P (act_state (f x s'))) ->
  P s -> P (act_state (act_iter f l s)).
Proof.
  intros Hf. revert s. induction l as [|x l IH]; intros s Hs; [done|]. cbn -[mbind].
  unfold mbind, act_bind. specialize (Hf x s Hs).
  destruct (f x s) as [[[] s1] es1]. specialize (IH s1 Hf).
  by destruct (act_iter f l s1) as [[[] s2] es2].
Qed.
End ActLaws.

(** ** Handlers

    A handler of a server returns an error, changes the server's state and acts
    on the outside world; what it has done before it returns an error stays
    done. [hact S E A] keeps the state and the actions in all three cases. *)

Definition hact (S E A : Type) : Type := S -> outcome A * S * list E.

#[export] Instance hact_ret {S E} : MRet (hact S E) := fun A a s => (Ok a, s, []).
#[export] Instance hact_bind {S E} : MBind (hact S E) := fun A B f m s =>
  let '(r, s1, es1) := m s in
  match r with
  | Ok a => let '(r2, s2, es2) := f a s1 in (r2, s2, es1 ++ es2)
  | Err e => (Err e, s1, es1)
  | Abort r => (Abort r, s1, es1)
  end.

Definition hemit {S E} (e : E) : hact S E unit := fun s => (Ok tt, s, [e]).
Definition hgets {S E A} (f : S -> A) : hact S E A := fun s => (Ok (f s), s, []).
Definition hmodify {S E} (f : S -> S) : hact S E unit := fun s => (Ok tt, f s, []).
Definition hlift {S E A} (m : outcome A) : hact S E A := fun s => (m, s, []).
Definition hthrow {S E A} (e : error) : hact S E A := hlift (Err e).

(** [common::Error err = m(); ...]: the caller looks at the error itself. *)
Definition htry {S E A} (m : hact S E A) : hact S E (option error) := fun s =>
  let '(r, s1, es) := m s in
  match r with
  | Ok _ => (Ok None, s1, es)
  | Err e => (Ok (Some e), s1, es)
  | Abort r => (Abort r, s1, es)
  end.

Fixpoint hact_iter {S E A} (f : A -> hact S E unit) (l : list A) : hact S E unit :=
  match l with
  | [] => mret tt
  | x :: l' => f x ;; hact_iter f l'
  end.

Section HandlerLaws.
Context {S E : Type}.

(** A relation between states that every step keeps is kept by a sequence. *)
Definition keeps (R : S -> S -> list E -> Prop) {A} (m : hact S E A) : Prop :=
  forall s, R s (act_state (m s)) (act_events (m s)).

Class Keepable (R : S -> S -> list E -> Prop) : Prop := {
  keep_refl s : R s s [];
  keep_trans s1 s2 s3 es1 es2 : R s1 s2 es1 -> R s2 s3 es2 -> R s1 s3 (es1 ++ es2)
}.

Context (R : S -> S -> list E -> Prop) `{!Keepable R}.

Lemma keeps_ret {A} (a : A) : keeps R (mret a).
Proof. intros s. apply keep_refl. Qed.

Lemma keeps_bind {A B} (m : hact S E A) (f : A -> hact S E B) :
  keeps R m -> (forall a, keeps R (f a)) -> keeps R (m ≫= f).
Proof.
  intros Hm Hf s. specialize (Hm s). unfold mbind, hact_bind.
  destruct (m s) as [[[a|e|r] s1] es1]; [|done..].
  specialize (Hf a s1). destruct (f a s1) as [[r2 s2] es2]. by eapply keep_trans.
Qed.

Lemma keeps_gets {A} (f : S -> A) : keeps R (hgets f).
Proof. intros s. apply keep_refl. Qed.

Lemma keeps_lift {A} (m : outcome A) : keeps R (hlift m).
Proof. intros s. apply keep_refl. Qed.

Lemma keeps_throw {A} e : keeps R (hthrow (A:=A) e).
Proof. apply keeps_lift. Qed.

Lemma keeps_try {A} (m : hact S E A) : keeps R m -> keeps R (htry m).
Proof. intros Hm s. specialize (Hm s). unfold htry. by destruct (m s) as [[[a|e|r] s1] es1]. Qed.

Lemma keeps_iter {A} (f : A -> hact S E unit) l : (forall x, keeps R (f x)) -> keeps R (hact_iter f l).
Proof.
  intros Hf. induction l as [|x l IH]; [apply keeps_ret|]. apply keeps_bind; [apply Hf | by intros []].
Qed.

Lemma keeps_match_option {A B} (o : option A) (f : A -> hact S E B) (m : hact S E B) :
  (forall a, keeps R (f a)) -> keeps R m -> keeps R (match o with Some a => f a | None => m end).
Proof. by destruct o. Qed.

Lemma keeps_if {A} (b : bool) (m1 m2 : hact S E A) :
  keeps R m1 -> keeps R m2 -> keeps R (if b then m1 else m2).
Proof. by destruct b. Qed.
End HandlerLaws.

(** What a handler that has returned went through. *)
Lemma hact_bind_Ok {S E A B} (m : hact S E A) (f : A -> hact S E B) s b s2 es :
  (m ≫= f) s = (Ok b, s2, es) <->
  exists a s1 es1 es2, m s = (Ok a, s1, es1) /\ f a s1 = (Ok b, s2, es2) /\ es = es1 ++ es2.
Proof.
  unfold mbind, hact_bind. destruct (m s) as [[[a|e|r] s1] es1]; [|naive_solver..].
  destruct (f a s1) as [[r2 s2'] es2] eqn:Hf. split.
  - intros [= -> -> <-]. eauto 10.
  - intros (a' & s1' & es1' & es2' & [= <- <- <-] & Hf' & ->). by rewrite Hf in Hf'; simplify_eq.
Qed.

(** Splits a handler into its steps, for a relation that they all keep. *)
Ltac keeps_step :=
  first
    [ assumption
    | apply keeps_bind | apply keeps_ret | apply keeps_gets | apply keeps_lift | apply keeps_throw
    | apply keeps_try | apply keeps_iter | apply keeps_if | apply keeps_match_option
    | typeclasses eauto ].
Ltac keeps_solve := repeat first [ intros ? | keeps_step ].

(** ** Reachability

    The state machines of the development are step relations; [steps] is their
    reflexive and transitive closure. *)

Section Reachability.
Context {S : Type} (R : S -> S -> Prop).

Inductive steps : S -> S -> Prop :=
| steps_refl s : steps s s
| steps_step s1 s2 s3 : R s1 s2 -> steps s2 s3 -> steps s1 s3.

Lemma steps_trans s1 s2 s3 : steps s1 s2 -> steps s2 s3 -> steps s1 s3.
Proof. induction 1; eauto using steps. Qed.

Lemma steps_one s1 s2 : R s1 s2 -> steps s1 s2.
Proof. eauto using steps. Qed.

Lemma steps_inv (P : S -> Prop) s1 s2 :
  (forall a b, P a -> R a b -> P b) -> P s1 -> steps s1 s2 -> P s2.
Proof. intros HP H1. induction 1; eauto. Qed.
End Reachability.
#[export] Hint Constructors steps : iptv.

(** ** Strings

    [std::string] is [string]; characters are 8-bit. *)

Definition is_empty (s : string) : bool :=
  match s with EmptyString => true | _ => false end.

Lemma is_empty_true s : is_empty s = true <-> s = "".
Proof. by destruct s. Qed.

(** The value of a decimal digit. *)
Definition digit_val (c : Ascii.ascii) : option Z :=
  let n := Z.of_N (Ascii.N_of_ascii c) in
  if (48 <=? n)%Z && (n <=? 57)%Z then Some (n - 48)%Z else None.

Definition is_digit (c : Ascii.ascii) : bool := bool_decide (is_Some (digit_val c)).

Fixpoint digits_go (acc : Z) (s : string) : option Z :=
  match s with
  | EmptyString => Some acc
  | String c s' =>
      match digit_val c with
      | Some d => digits_go (acc * 10 + d)%Z s'
      | None => None
      end
  end.

(** A non-empty sequence of decimal digits, as a number. *)
Definition parse_dec (s : string) : option Z :=
  if is_empty s then None else digits_go 0 s.

(** [printf]'s [%lu], [%llu] and [%d] on a non-negative number. *)
Definition show_u (z : Z) : string := pretty (Z.to_N z).

Section Decimal.
Local Open Scope Z_scope.

Lemma digits_go_acc s acc z :
  digits_go acc s = Some z -> 0 <= acc -> acc <= z.
Proof.
  revert acc. induction s as [|c s IH]; intros acc H Hacc; cbn in H; [by simplify_eq|].
  destruct (digit_val c) as [d|] eqn:Hd; [|done].
  assert (0 <= d).
  { unfold digit_val in Hd. case_match eqn:Hb; [|done]. simplify_eq.
    apply andb_true_iff in Hb as [Hb _]. apply Z.leb_le in Hb. lia. }
  apply IH in H; lia.
Qed.

Lemma parse_dec_nonneg s z : parse_dec s = Some z -> 0 <= z.
Proof.
  unfold parse_dec. destruct (is_empty s); [done|]. intros H.
  by apply digits_go_acc in H.
Qed.

Lemma digit_val_pretty (n : N) : (n < 10)%N ->
  digit_val (pretty_N_char n) = Some (Z.of_N n).
Proof.
  intros Hn.
  destruct n as [|p]; [reflexivity|].
  do 4 (try destruct p as [p|p|]; try reflexivity; try lia).
Qed.

Lemma digits_go_pretty (n : N) s acc :
  exists k, 0 <= k /\
    digits_go acc (pretty_N_go n s) = digits_go (acc * 10 ^ k + Z.of_N n) s.
Proof.
  revert s. induction (N.lt_wf_0 n) as [n _ IH]; intros s.
  destruct (decide (n = 0%N)) as [->|Hn].
  { exists 0. split; [done|]. rewrite pretty_N_go_0, Z.pow_0_r. f_equal. lia. }
  rewrite pretty_N_go_step by lia.
  destruct (IH (n `div` 10)%N ltac:(apply N.div_lt; lia)
              (String (pretty_N_char (n `mod` 10)) s)) as (k & Hk & ->).
  exists (k + 1). split; [lia|]. cbn [digits_go].
  rewrite digit_val_pretty by (apply N.mod_lt; lia).
  f_equal. rewrite Z.pow_add_r, N2Z.inj_div, N2Z.inj_mod by lia. change (10 ^ 1) with 10.
  pose proof (Z.div_mod (Z.of_N n) 10 ltac:(lia)). lia.
Qed.

Lemma pretty_N_nonempty (n : N) : is_empty (pretty n) = false.
Proof.
  unfold pretty, pretty_N. case_decide as Hn; [done|].
  assert (Hne : forall m s, is_empty s = false -> is_empty (pretty_N_go m s) = false).
  { intros m. induction (N.lt_wf_0 m) as [m _ IH]; intros s Hs.
    destruct (decide (m = 0%N)) as [->|]; [by rewrite pretty_N_go_0|].
    rewrite pretty_N_go_step by lia. apply IH; [apply N.div_lt; lia | done]. }
  rewrite pretty_N_go_step by lia. by apply Hne.
Qed.

(** Reading back a number that was printed in decimal gives the number. *)
Lemma parse_show z : 0 <= z -> parse_dec (show_u z) = Some z.
Proof.
  intros Hz. unfold parse_dec, show_u. rewrite pretty_N_nonempty.
  unfold pretty, pretty_N. case_decide as Hn.
  { assert (z = 0) as -> by lia. reflexivity. }
  destruct (digits_go_pretty (Z.to_N z) "" 0) as (k & Hk & ->). cbn. f_equal. lia.
Qed.

Lemma show_u_inj a b : 0 <= a -> 0 <= b -> show_u a = show_u b -> a = b.
Proof.
  intros Ha Hb Heq. apply parse_show in Ha, Hb. rewrite Heq in Ha. congruence.
Qed.
End Decimal.


(** All characters of [s] satisfy [p]. *)
Fixpoint string_forallb (p : Ascii.ascii -> bool) (s : string) : bool :=
  match s with
  | EmptyString => true
  | String c s' => p c && string_forallb p s'
  end.

Lemma string_forallb_app p s t :
  string_forallb p (s +:+ t) = string_forallb p s && string_forallb p t.
Proof.
  induction s as [|c s IH]; [done|].
  change (String c s +:+ t) with (String c (s +:+ t)). cbn. by rewrite IH, andb_assoc.
Qed.

(** [std::string::find(c)] followed by the two [substr]: the text before and
    after the first occurrence of [c]. *)
Fixpoint split_first (sep : Ascii.ascii) (s : string) : option (string * string) :=
  match s with
  | EmptyString => None
  | String c s' =>
      if decide (c = sep) then Some ("", s')
      else '(k, v) ← split_first sep s'; Some (String c k, v)
  end.

(** [std::string::find_last_of(c)] followed by the two [substr]. *)
Fixpoint split_last (sep : Ascii.ascii) (s : string) : option (string * string) :=
  match s with
  | EmptyString => None
  | String c s' =>
      match split_last sep s' with
      | Some (k, v) => Some (String c k, v)
      | None => if decide (c = sep) then Some ("", s') else None
      end
  end.

Lemma split_first_spec sep s k v :
  split_first sep s = Some (k, v) <->
  s = k +:+ String sep v /\ string_forallb (fun c => bool_decide (c <> sep)) k = true.
Proof.
  revert k v. induction s as [|c s IH]; intros k v; cbn.
  { split; [done|]. intros [H _]. by destruct k. }
  case_decide as Hc.
  - subst c. split; [naive_solver|]. intros [H Hk]. destruct k as [|c' k].
    + by injection H as ->.
    + injection H as -> ->. cbn in Hk. by rewrite bool_decide_eq_false_2 in Hk by naive_solver.
  - destruct (split_first sep s) as [[k' v']|]; cbn.
    + split.
      * intros [= <- <-]. destruct (IH k' v') as [[-> Hk] _]; [done|].
        split; [done|]. cbn. by rewrite bool_decide_eq_true_2, Hk.
      * intros [H Hk]. destruct k as [|c' k]; [by injection H as ->|].
        injection H as -> ->. cbn in Hk. apply andb_true_iff in Hk as [_ Hk].
        destruct (IH k v) as [_ Hs]. specialize (Hs (conj eq_refl Hk)). by simplify_eq.
    + split; [done|]. intros [H Hk]. destruct k as [|c' k]; [by injection H as ->|].
      injection H as -> ->. cbn in Hk. apply andb_true_iff in Hk as [_ Hk].
      destruct (IH k v) as [_ Hs]. by specialize (Hs (conj eq_refl Hk)).
Qed.

Lemma split_first_None sep s :
  split_first sep s = None <-> string_forallb (fun c => bool_decide (c <> sep)) s = true.
Proof.
  induction s as [|c s IH]; cbn; [done|]. case_decide as Hc.
  - subst c. rewrite bool_decide_eq_false_2 by naive_solver. done.
  - rewrite bool_decide_eq_true_2 by done. cbn. rewrite <- IH.
    destruct (split_first sep s) as [[??]|]; naive_solver.
Qed.

Lemma string_app_cons c s t : String c s +:+ t = String c (s +:+ t).
Proof. done. Qed.

Lemma string_app_nil s : s +:+ "" = s.
Proof. induction s as [|c s IH]; [done|]. by rewrite string_app_cons, IH. Qed.

Lemma string_app_assoc s t u : (s +:+ t) +:+ u = s +:+ (t +:+ u).
Proof. induction s as [|c s IH]; [done|]. by rewrite !string_app_cons, IH. Qed.

Lemma string_length_app s t :
  String.length (s +:+ t) = String.length s + String.length t.
Proof. induction s as [|c s IH]; [done|]. rewrite string_app_cons. cbn. by rewrite IH. Qed.

Lemma split_last_None sep s :
  split_last sep s = None <-> string_forallb (fun c => bool_decide (c <> sep)) s = true.
Proof.
  induction s as [|c s IH]; cbn; [done|].
  destruct (split_last sep s) as [[k v]|].
  - split; [done|]. intros [_ H]%andb_true_iff. by apply IH in H.
  - rewrite (proj1 IH) by done. case_decide as Hc.
    + by rewrite bool_decide_eq_false_2 by naive_solver.
    + by rewrite bool_decide_eq_true_2.
Qed.

Lemma split_last_spec sep s k v :
  split_last sep s = Some (k, v) <->
  s = k +:+ String sep v /\ string_forallb (fun c => bool_decide (c <> sep)) v = true.
Proof.
  revert k v. induction s as [|c s IH]; intros k v; cbn.
  { split; [done|]. intros [H _]. by destruct k. }
  destruct (split_last sep s) as [[k' v']|] eqn:Hs.
  - destruct (proj1 (IH k' v') eq_refl) as [-> Hv']. split.
    + intros [= <- <-]. done.
    + intros [H Hv]. destruct k as [|c' k].
      * injection H as -> H. subst v. rewrite string_forallb_app in Hv.
        apply andb_true_iff in Hv as [_ Hv]. cbn in Hv.
        by rewrite bool_decide_eq_false_2 in Hv by naive_solver.
      * injection H as -> H. destruct (IH k v) as [_ Hr].
        rewrite H in Hr. specialize (Hr (conj eq_refl Hv)). by simplify_eq.
  - apply split_last_None in Hs. case_decide as Hc; split.
    + intros [= <- <-]. by subst.
    + intros [H Hv]. destruct k as [|c' k]; [by injection H as -> ->|].
      injection H as -> ->. rewrite string_forallb_app in Hs.
      apply andb_true_iff in Hs as [_ Hs]. cbn in Hs.
      by rewrite bool_decide_eq_false_2 in Hs by naive_solver.
    + done.
    + intros [H Hv]. destruct k as [|c' k]; [by injection H as ->|].
      injection H as -> ->. rewrite string_forallb_app in Hs.
      apply andb_true_iff in Hs as [_ Hs]. cbn in Hs.
      by rewrite bool_decide_eq_false_2 in Hs by naive_solver.
Qed.

(** Decimal texts. *)
Definition all_digits (s : string) : bool := string_forallb is_digit s.

Lemma digits_go_is_Some acc s : is_Some (digits_go acc s) <-> all_digits s = true.
Proof.
  revert acc. induction s as [|c s IH]; intros acc; cbn; [naive_solver|].
  unfold is_digit at 1. destruct (digit_val c) as [d|].
  - rewrite IH. done.
  - rewrite bool_decide_eq_false_2 by (by intros [? ?]). cbn. split; [|done]. by intros [? ?].
Qed.

Lemma show_u_digits z :
  (0 <= z)%Z -> is_empty (show_u z) = false /\ all_digits (show_u z) = true.
Proof.
  intros Hz. pose proof (parse_show z Hz) as H. unfold parse_dec in H.
  destruct (is_empty (show_u z)); [done|]. split; [done|].
  apply (digits_go_is_Some 0%Z). by eexists.
Qed.

(** A printed number has no character that is no digit. *)
Lemma show_u_no sep z :
  is_digit sep = false -> (0 <= z)%Z -> string_forallb (fun c => bool_decide (c <> sep)) (show_u z) = true.
Proof.
  intros Hsep Hz. destruct (show_u_digits z Hz) as [_ Hd]. revert Hd. unfold all_digits.
  induction (show_u z) as [|c s IH]; [done|]. cbn. intros [Hc Hs]%andb_true_iff.
  rewrite (IH Hs), andb_true_r. apply bool_decide_eq_true. intros ->. by rewrite Hc in Hsep.
Qed.

(** ** [std::map] with string keys

    Lookups and updates are those of [gmap string A]; iteration visits the
    entries in increasing key order, which [std_entries] computes. *)

Definition key_le {A} (x y : string * A) : Prop := String.le x.1 y.1.
#[export] Instance key_le_dec {A} (x y : string * A) : Decision (key_le x y).
Proof. unfold key_le. apply _. Defined.
#[export] Instance key_le_trans {A} : Transitive (@key_le A).
Proof. intros x y z ??. unfold key_le in *. by etrans. Qed.
#[export] Instance key_le_total {A} : Total (@key_le A).
Proof. intros x y. unfold key_le. apply String.le_total. Qed.

Definition std_entries {A} (m : gmap string A) : list (string * A) :=
  merge_sort key_le (map_to_list m).

Lemma std_entries_perm {A} (m : gmap string A) : std_entries m ≡ₚ map_to_list m.
Proof. apply merge_sort_Permutation. Qed.

Lemma std_entries_lookup {A} (m : gmap string A) k v :
  (k, v) ∈ std_entries m <-> m !! k = Some v.
Proof. rewrite std_entries_perm. apply elem_of_map_to_list. Qed.

Lemma std_entries_sorted {A} (m : gmap string A) : Sorted key_le (std_entries m).
Proof. apply Sorted_merge_sort. apply _. Qed.

(** ** Lists *)

Section Lists.
Context {A : Type}.

(** [for (auto x : l) if (p(x)) { found = x; break; }] *)
Lemma find_Some_elem (p : A -> bool) (l : list A) x :
  List.find p l = Some x -> x ∈ l /\ p x = true.
Proof. intros H. apply List.find_some in H as [H ?]. by apply list_elem_of_In in H. Qed.

(** [v.erase(it)] for the first element equal to [x]. *)
Fixpoint erase_first `{EqDecision A} (x : A) (l : list A) : list A :=
  match l with
  | [] => []
  | y :: l' => if decide (y = x) then l' else y :: erase_first x l'
  end.

Lemma erase_first_sublist `{EqDecision A} x (l : list A) : sublist (erase_first x l) l.
Proof.
  induction l as [|y l IH]; cbn; [constructor|]. case_decide; constructor; [done|done].
Qed.

Lemma erase_first_NoDup `{EqDecision A} x (l : list A) :
  NoDup l -> NoDup (erase_first x l) /\ x ∉ erase_first x l.
Proof.
  induction 1 as [|y l Hy Hl [IH1 IH2]]; cbn; [split; [constructor|set_solver]|].
  case_decide as Hd; [by subst|]. split.
  - constructor; [|done]. intros H. apply Hy.
    eapply elem_of_submseteq; [done|]. apply sublist_submseteq, erase_first_sublist.
  - rewrite not_elem_of_cons. naive_solver.
Qed.

(** A sublist of [l] gives sublists of its images. *)
Lemma sublist_fmap {B} (f : A -> B) (k l : list A) : sublist k l -> sublist (f <$> k) (f <$> l).
Proof. induction 1; cbn; by constructor. Qed.

Lemma sublist_omap {B} (f : A -> option B) (k l : list A) : sublist k l -> sublist (omap f k) (omap f l).
Proof.
  induction 1 as [|x k l Hs IH|x k l Hs IH]; cbn; [constructor| |]; destruct (f x); by try constructor.
Qed.
End Lists.

(** Filters. *)

Section Filters.
Context {A : Type} (P : A -> Prop) `{forall x, Decision (P x)}.

Lemma filter_every (l : list A) : (forall x, x ∈ l -> P x) -> filter P l = l.
Proof.
  induction l as [|x l IH]; intros Hl; [done|]. rewrite filter_cons_True by (apply Hl; by left).
  by rewrite IH by (intros y Hy; apply Hl; by right).
Qed.

Lemma filter_none (l : list A) : (forall x, x ∈ l -> ~ P x) -> filter P l = [].
Proof.
  induction l as [|x l IH]; intros Hl; [done|]. rewrite filter_cons_False by (apply Hl; by left).
  by rewrite IH by (intros y Hy; apply Hl; by right).
Qed.
End Filters.

Lemma filter_fmap {A B} (f : A -> B) (P : B -> Prop) `{!forall x, Decision (P x)} (l : list A) :
  filter P (f <$> l) = f <$> filter (fun x => P (f x)) l.
Proof. induction l as [|x l IH]; [done|]. cbn [fmap list_fmap]. rewrite !filter_cons. case_decide; cbn; by rewrite IH. Qed.

Lemma filter_iff_in {A} (P Q : A -> Prop) `{!forall x, Decision (P x), !forall x, Decision (Q x)} (l : list A) :
  (forall x, x ∈ l -> P x <-> Q x) -> filter P l = filter Q l.
Proof.
  induction l as [|x l IH]; intros Hl; [done|]. rewrite !filter_cons, IH by (intros y Hy; apply Hl; by right).
  destruct (Hl x) as [HPQ HQP]; [by left|]. repeat case_decide; tauto.
Qed.

Lemma bind_bind {A B C} (f : A -> list B) (g : B -> list C) l : l ≫= (fun x => f x ≫= g) = (l ≫= f) ≫= g.
Proof. induction l as [|x l IH]; [done|]. cbn. by rewrite bind_app, <-IH. Qed.

Lemma filter_one {A B} (f : A -> list B) (P : B -> Prop) `{!forall x, Decision (P x)} a l :
  NoDup l -> a ∈ l -> (forall y, y <> a -> filter P (f y) = []) -> filter P (l ≫= f) = filter P (f a).
Proof.
  intros Hd Ha Hy. assert (Hno : forall l', a ∉ l' -> filter P (l' ≫= f) = []).
  { induction l' as [|y l' IH]; intros Hn; [done|]. cbn. rewrite filter_app, Hy, IH; set_solver. }
  induction Hd as [|y l Hn Hd IH]; [by apply elem_of_nil in Ha|]. cbn. rewrite filter_app.
  apply elem_of_cons in Ha as [->|Ha]; [by rewrite (Hno l), app_nil_r|].
  rewrite (Hy y), IH; [done|done|]. intros ->. done.
Qed.

(** Case analysis on the innermost test of the goal, keeping its equation. *)
Ltac split_match := repeat (case_match; cbn in *; simplify_eq).
