(* ===== verification/Files.v ===== *)
(** * Files of the C library

    What the program does with [FILE*]: [fgets], [fseek], and the numbers that
    [sscanf] reads from a line. *)

From Stdlib Require Import Ascii.
From S2P Require Import Prelude.

(** ** A file that is read *)

(** A [FILE*]: the bytes and the position. *)
Record FILE := { f_data : string; f_pos : nat }.

Fixpoint str_drop (n : nat) (s : string) : string :=
  match n, s with
  | S n', String _ s' => str_drop n' s'
  | _, _ => s
  end.
Definition f_rest (f : FILE) : string := str_drop (f_pos f) (f_data f).

Definition newline : ascii := "010"%char.
Definition nul : ascii := "000"%char.

(** At most [n] bytes, up to the end of the line. *)
Fixpoint line_of (n : nat) (s : string) : string :=
  match n, s with
  | S n', String c s' => String c (if Ascii.eqb c newline then "" else line_of n' s')
  | _, _ => ""
  end.

(** [fgets(t, size, file)]. *)
Definition fgets (size : nat) (f : FILE) : option string * FILE :=
  match f_rest f with
  | EmptyString => (None, f)
  | rest =>
      let l := line_of (pred size) rest in
      (Some l, {| f_data := f_data f; f_pos := f_pos f + String.length l |})
  end.

(** [fseek(file, off, SEEK_SET)]; a negative offset is refused. *)
Definition fseek (f : FILE) (off : Z) : FILE :=
  if (off <? 0)%Z then f else {| f_data := f_data f; f_pos := Z.to_nat off |}.

(** [std::isspace] in the C locale. *)
Definition isspace (c : ascii) : bool :=
  let n := N_of_ascii c in ((9 <=? n)%N && (n <=? 13)%N) || (n =? 32)%N.

(** The C string in a buffer. *)
Fixpoint c_str (s : string) : string :=
  match s with
  | EmptyString => ""
  | String c s' => if Ascii.eqb c nul then "" else String c (c_str s')
  end.


Fixpoint strip_prefix (p s : string) : option string :=
  match p, s with
  | EmptyString, _ => Some s
  | String a p', String b s' => if Ascii.eqb a b then strip_prefix p' s' else None
  | _, _ => None
  end.

(** ** Numbers in a line

    The conversions of [sscanf] that the program uses: [%lu] and [%16llu], which
    pass over spaces, take a sign, and keep to a width; a text beyond the range
    reads as the largest number. *)

(** [n] spaces, and a text without those at its beginning. *)
Fixpoint spaces (n : nat) : string := match n with O => "" | S n => String " " (spaces n) end.

Fixpoint skip_spaces (s : string) : string :=
  match s with
  | String c s' => if isspace c then skip_spaces s' else s
  | EmptyString => ""
  end.

(** The digits at the beginning, [w] at most, and what follows. *)
Fixpoint take_digits (w : nat) (s : string) : string * string :=
  match w, s with
  | S w', String c s' => if is_digit c then let '(d, r) := take_digits w' s' in (String c d, r) else ("", s)
  | _, _ => ("", s)
  end.

Definition ULLONG_MAX : Z := 2 ^ 64 - 1.

Definition scan_digits (neg : bool) (w : nat) (s : string) : option (Z * string) :=
  let '(d, r) := take_digits w s in
  v ← parse_dec d;
  Some (if (ULLONG_MAX <? v)%Z then ULLONG_MAX else if neg : bool then wrap 64 (- v) else v, r).

Definition scan_u (w : nat) (s : string) : option (Z * string) :=
  match skip_spaces s with
  | String "-" s' => scan_digits true (pred w) s'
  | String "+" s' => scan_digits false (pred w) s'
  | s' => scan_digits false w s'
  end.

(** [n] numbers; what is read before the first that is missing. *)
Fixpoint scan_us (w n : nat) (s : string) : list Z :=
  match n with
  | O => []
  | S n => match scan_u w s with Some (v, r) => v :: scan_us w n r | None => [] end
  end.

(** [%s]: a word, and what follows. *)
Fixpoint take_word (s : string) : string * string :=
  match s with
  | String c s' => if isspace c then ("", s) else let '(w, r) := take_word s' in (String c w, r)
  | EmptyString => ("", "")
  end.
Definition scan_s (s : string) : option (string * string) :=
  let '(w, r) := take_word (skip_spaces s) in if is_empty w then None else Some (w, r).

(** [strstr(s, t)] finds something. *)
Fixpoint contains (t s : string) : bool :=
  match strip_prefix t s with
  | Some _ => true
  | None => match s with EmptyString => false | String _ s' => contains t s' end
  end.

(** ** Lemmas *)

Lemma strip_prefix_app p s : strip_prefix p (p +:+ s) = Some s.
Proof. induction p as [|c p IH]; [done|]. rewrite string_app_cons. cbn. by rewrite Ascii.eqb_refl. Qed.


(** A file read up to the end of [pre]. *)
Definition file_at (pre rest : string) : FILE :=
  {| f_data := pre +:+ rest; f_pos := String.length pre |}.

Lemma str_drop_app p s : str_drop (String.length p) (p +:+ s) = s.
Proof. induction p as [|c p IH]; [by destruct s|]. by rewrite string_app_cons. Qed.

Lemma file_at_rest pre rest : f_rest (file_at pre rest) = rest.
Proof. apply str_drop_app. Qed.

Lemma fgets_some size f :
  is_empty (f_rest f) = false ->
  fgets size f = (Some (line_of (pred size) (f_rest f)),
    {| f_data := f_data f; f_pos := f_pos f + String.length (line_of (pred size) (f_rest f)) |}).
Proof. unfold fgets. by destruct (f_rest f). Qed.

Lemma line_of_split n s : line_of n s +:+ str_drop (String.length (line_of n s)) s = s.
Proof.
  revert s. induction n as [|n IH]; intros [|c s]; [done..|]. cbn [line_of String.length str_drop].
  destruct (Ascii.eqb c newline); [by destruct s|]. rewrite string_app_cons. by rewrite IH.
Qed.

Lemma length_str_drop n s : String.length (str_drop n s) = String.length s - n.
Proof. revert s. induction n as [|n IH]; intros [|c s]; cbn; [done..|]. apply IH. Qed.

Lemma str_drop_add a b s : str_drop (a + b) s = str_drop b (str_drop a s).
Proof. revert s. induction a as [|a IH]; intros [|c s]; cbn; [by destruct b|done|by destruct b|apply IH]. Qed.

Lemma line_of_length n s : is_empty s = false -> 1 <= String.length (line_of (S n) s).
Proof. destruct s; [done|]. cbn. lia. Qed.


(** ** All lines *)

(** What [while (fgets(line, size, file))] sees. *)
Fixpoint fgets_all (fuel size : nat) (f : FILE) : list string :=
  match fuel with
  | O => []
  | S fuel =>
      match fgets size f with
      | (None, _) => []
      | (Some l, f) => l :: fgets_all fuel size f
      end
  end.
Definition lines_of (size : nat) (data : string) : list string :=
  fgets_all (S (String.length data)) size {| f_data := data; f_pos := 0 |}.

(** The fuel is enough: the lines are together the file. *)
Lemma fgets_all_concat fuel size f :
  2 <= size -> String.length (f_rest f) < fuel -> foldr String.append "" (fgets_all fuel size f) = f_rest f.
Proof.
  intros Hs. revert f. induction fuel as [|fuel IH]; intros f Hf; [lia|]. cbn [fgets_all].
  destruct (is_empty (f_rest f)) eqn:He.
  { unfold fgets. by destruct (f_rest f). }
  rewrite fgets_some by done. cbn [foldr]. set (l := line_of (pred size) (f_rest f)).
  assert (Hl : 1 <= String.length l).
  { subst l. destruct size as [|[|n]]; [lia..|]. by apply line_of_length. }
  set (f' := {| f_data := f_data f; f_pos := f_pos f + String.length l |}).
  assert (Hr : f_rest f' = str_drop (String.length l) (f_rest f)) by (unfold f_rest at 1; apply str_drop_add).
  rewrite IH.
  - rewrite Hr. subst l. apply line_of_split.
  - rewrite Hr, length_str_drop. destruct (f_rest f); [done|]. cbn [String.length] in *. lia.
Qed.

Lemma lines_of_concat size data : 2 <= size -> foldr String.append "" (lines_of size data) = data.
Proof. intros Hs. unfold lines_of. rewrite fgets_all_concat; [done|done|]. unfold f_rest. cbn. lia. Qed.

(** *** Files of whole lines *)

Definition no_newline (s : string) : Prop := string_forallb (fun c => bool_decide (c <> newline)) s = true.

Lemma line_of_line n l s :
  no_newline l -> String.length l < n -> line_of n (l +:+ String newline s) = l +:+ String newline "".
Proof.
  revert n. induction l as [|c l IH]; intros [|n] Hl Hn; cbn [String.length] in Hn; try lia; [done|].
  unfold no_newline in Hl. cbn [string_forallb] in Hl. apply andb_true_iff in Hl as [Hc Hl]. apply bool_decide_eq_true in Hc.
  rewrite !string_app_cons. cbn [line_of]. rewrite (proj2 (Ascii.eqb_neq _ _) Hc). by rewrite IH by (done || lia).
Qed.

Definition lines_text (ls : list string) : string := foldr (fun l s => l +:+ String newline s) "" ls.

Lemma length_string_app s t : String.length (s +:+ t) = String.length s + String.length t.
Proof. induction s as [|c s IH]; [done|]. rewrite string_app_cons. cbn. by rewrite IH. Qed.

Lemma fgets_all_lines size ls fuel f :
  Forall (fun l => no_newline l /\ S (String.length l) < size) ls -> f_rest f = lines_text ls ->
  String.length (lines_text ls) < fuel ->
  fgets_all fuel size f = (fun l => l +:+ String newline "") <$> ls.
Proof.
  intros Hls. revert fuel f. induction Hls as [|l ls [Hl Hn] _ IH]; intros [|fuel] f Hf Hfuel; try lia; cbn [fgets_all].
  { unfold fgets. by rewrite Hf. }
  cbn [lines_text foldr] in Hf, Hfuel. fold (lines_text ls) in Hf, Hfuel.
  assert (He : is_empty (f_rest f) = false) by (rewrite Hf; by destruct l).
  rewrite fgets_some, Hf, line_of_line by (done || lia). cbn [fmap list_fmap]. f_equal.
  rewrite length_string_app in Hfuel. cbn [String.length] in Hfuel.
  apply IH; [|lia]. unfold f_rest at 1. cbn [f_data f_pos]. rewrite str_drop_add.
  change (str_drop (f_pos f) (f_data f)) with (f_rest f). rewrite Hf.
  change (String newline (lines_text ls)) with (String newline "" +:+ lines_text ls).
  rewrite <-string_app_assoc. apply str_drop_app.
Qed.

(** A file of lines that fit is read line by line. *)
Lemma lines_of_lines size ls :
  Forall (fun l => no_newline l /\ S (String.length l) < size) ls ->
  lines_of size (lines_text ls) = (fun l => l +:+ String newline "") <$> ls.
Proof. intros Hls. unfold lines_of. apply fgets_all_lines; [done|done|lia]. Qed.

(** *** Numbers that were printed *)

Lemma skip_spaces_repeat n s : skip_spaces (spaces n +:+ s) = skip_spaces s.
Proof. induction n as [|n IH]; [done|]. cbn [spaces]. rewrite string_app_cons. by cbn. Qed.

Lemma take_digits_app w d r :
  all_digits d = true -> String.length d <= w -> match r with String c _ => is_digit c = false | EmptyString => True end ->
  take_digits w (d +:+ r) = (d, r).
Proof.
  revert w. unfold all_digits. induction d as [|c d IH]; intros w Hd Hw Hr.
  - change ("" +:+ r) with r. destruct w, r; [done..|]. cbn [take_digits]. by rewrite Hr.
  - cbn [string_forallb String.length] in Hd, Hw. apply andb_true_iff in Hd as [Hc Hd]. destruct w as [|w]; [lia|].
    rewrite string_app_cons. cbn [take_digits]. by rewrite Hc, IH by (done || lia).
Qed.

(** [%lu] reads a number back that [%lu] has printed, after any spaces. *)
Lemma scan_u_show w n z r :
  in_u 64 z -> String.length (show_u z) <= w -> match r with String c _ => is_digit c = false | EmptyString => True end ->
  scan_u w (spaces n +:+ (show_u z +:+ r)) = Some (z, r).
Proof.
  intros Hz Hw Hr. assert (Hz0 : (0 <= z)%Z) by apply Hz. destruct (show_u_digits z Hz0) as [Hne Hd].
  assert (Hs : scan_digits false w (show_u z +:+ r) = Some (z, r)).
  { unfold scan_digits. rewrite take_digits_app by done. rewrite parse_show by done. cbn.
    assert (Hm : (ULLONG_MAX <? z)%Z = false) by (apply Z.ltb_ge; unfold in_u, ULLONG_MAX in *; lia). by rewrite Hm. }
  unfold scan_u. rewrite skip_spaces_repeat. destruct (show_u z) as [|c s]; [done|].
  unfold all_digits in Hd. cbn [string_forallb] in Hd. apply andb_true_iff in Hd as [Hc _].
  rewrite string_app_cons in *. cbn [skip_spaces].
  assert (Hsp : isspace c = false) by (destruct c as [[] [] [] [] [] [] [] []]; (reflexivity || discriminate Hc)).
  rewrite Hsp. destruct c as [[] [] [] [] [] [] [] []]; (exact Hs || discriminate Hc).
Qed.

(** A text without nulls is what the buffer holds. *)
Definition no_nul (s : string) : bool := string_forallb (fun c => bool_decide (c <> nul)) s.

Lemma c_str_id s : no_nul s = true -> c_str s = s.
Proof.
  unfold no_nul. induction s as [|c s IH]; [done|]. cbn. intros [Hc Hs]%andb_true_iff.
  apply bool_decide_eq_true in Hc. by rewrite (proj2 (Ascii.eqb_neq _ _) Hc), IH.
Qed.
