(* ===== verification/Platform.v ===== *)
(** * The libraries the program is built on

    The [common] library (string conversions, URLs, paths), json-c and the
    operating system are not part of the repository. What the program uses of
    them is a parameter of the development: one class per library, and a class
    of laws where a theorem relies on documented behaviour of that library.
    [Ref] gives a concrete instance of each, on which the development's
    definitions compute and which satisfies the laws. *)

From Stdlib Require Import Ascii.
From Stdlib Require SpecFloat.
From S2P Require Import Prelude.

(** ** [double]

    IEEE 754 binary64 with rounding to nearest. *)

Definition double : Type := SpecFloat.spec_float.
Definition dbl_of_Z (z : Z) : double := SpecFloat.binary_normalize 53 1024 z 0 false.
Definition dbl_le (x y : double) : bool := SpecFloat.SFleb x y.
Definition dbl_mul (x y : double) : double := SpecFloat.SFmul 53 1024 x y.
Definition dbl_div (x y : double) : double := SpecFloat.SFdiv 53 1024 x y.

(** The double nearest to [n / d], for [n >= 0]. *)
Definition dbl_quot (n : Z) (d : positive) : double :=
  match n with
  | Zpos _ =>
      let '(m, e, l) := SpecFloat.SFdiv_core_binary 53 1024 n 0 (Zpos d) 0 in
      SpecFloat.binary_round_aux 53 1024 false m e l
  | _ => SpecFloat.S754_zero false
  end.

(** [n / 100] with two decimals. *)
Definition two_digits (n : Z) : string := if (n <? 10)%Z then "0" +:+ show_u n else show_u n.
Definition decimal2 (n : Z) : string := show_u (n / 100) +:+ "." +:+ two_digits (n mod 100).

(** [100 * m * 2^e] rounded to an integer, a half to the even one. *)
Definition hundredths (m : positive) (e : Z) : Z :=
  let n := (100 * Zpos m)%Z in
  if (0 <=? e)%Z then (n * 2 ^ e)%Z
  else
    let b := (2 ^ (- e))%Z in
    let q := (n / b)%Z in
    let r := (2 * (n mod b))%Z in
    if (r <? b)%Z || ((r =? b)%Z && Z.even q) then q else (q + 1)%Z.

(** [printf]'s [%.2f]. *)
Definition print_2f (d : double) : string :=
  let sign (s : bool) := if s then "-" else "" in
  match d with
  | SpecFloat.S754_zero s => sign s +:+ decimal2 0
  | SpecFloat.S754_finite s m e => sign s +:+ decimal2 (hundredths m e)
  | SpecFloat.S754_infinity s => sign s +:+ "inf"
  | SpecFloat.S754_nan => "nan"
  end.

(** [static_cast<uint64_t>(d)]: the fraction is dropped; a value out of the range
    of the type has no defined result. *)
Definition dbl_to_u64 (d : double) : outcome Z :=
  let in_range z := if (z <? 2 ^ 64)%Z then Ok z else Abort (UndefinedBehaviour "double to uint64_t") in
  match d with
  | SpecFloat.S754_zero _ => Ok 0%Z
  | SpecFloat.S754_finite false m e => in_range (Z.shiftl (Zpos m) e)
  | SpecFloat.S754_finite true m e =>
      if (Z.shiftl (Zpos m) e =? 0)%Z then Ok 0%Z else Abort (UndefinedBehaviour "double to uint64_t")
  | _ => Abort (UndefinedBehaviour "double to uint64_t")
  end.

(** ** common/convert2string.h

    [common::ConvertFromString(const std::string&, T* )] has an overload per
    type; it returns [false] and leaves its output alone on a text it does not
    accept ([None]). [size_t] is [uint64_t], [time_t] is [int64_t]. *)

Class CommonLib := {
  conv_bool : string -> option bool;
  conv_i32 : string -> option Z;
  conv_i64 : string -> option Z;
  conv_u8 : string -> option Z;
  conv_u16 : string -> option Z;
  conv_u32 : string -> option Z;
  conv_u64 : string -> option Z;
  conv_double : string -> option double;
  conv_size : string -> option (Z * Z);       (* common::draw::Size *)
  conv_point : string -> option (Z * Z);      (* common::draw::Point *)
  conv_rational : string -> option (Z * Z);   (* common::media::Rational *)
  conv_host_port : string -> option (string * Z); (* common::net::HostAndPort *)
  is_valid_path : string -> bool;             (* common::file_system::is_valid_path *)
  error_inval_text : string;                  (* common::make_error_inval()->GetDescription() *)
  point_default : Z * Z;                      (* common::draw::Point() *)
  size_default : Z * Z;                       (* common::draw::Size() *)
  size_is_valid : Z * Z -> bool;              (* common::draw::Size::IsValid() *)
  desire_bps : Type;                          (* common::media::DesireBytesPerSec *)
  desire_default : desire_bps;
  desire_to_string : desire_bps -> string;
  conv_desire : string -> option desire_bps;
  LOG_LEVEL_EMERG : Z;                        (* common::logging *)
  LOG_LEVEL_DEBUG : Z;
  u8_to_string : Z -> string;                 (* common::ConvertToString(uint8_t) *)
  bool_to_string : bool -> string;            (* common::ConvertToString(bool) *)
  critical_log_aborts : bool;                 (* CRITICAL_LOG() ends the process *)
  deserialize_rejects_null : bool             (* JsonSerializer::DeSerialize(nullptr) fails *)
}.

(** [CRITICAL_LOG() << what]. *)
Definition critical_log `{CommonLib} (what : string) : outcome unit :=
  if critical_log_aborts then Abort (CriticalLog what) else Ok tt.

(** The numeric overloads produce numbers of their type, and read back what
    [printf] writes. *)
Class CommonLibOk `{CommonLib} := {
  conv_u8_range s z : conv_u8 s = Some z -> in_u 8 z;
  conv_u64_range s z : conv_u64 s = Some z -> in_u 64 z;
  conv_i64_range s z : conv_i64 s = Some z -> in_s 64 z;
  conv_i32_range s z : conv_i32 s = Some z -> in_s 32 z;
  conv_u64_show z : in_u 64 z -> conv_u64 (show_u z) = Some z;
  conv_i32_show z : (0 <= z < 2 ^ 31)%Z -> conv_i32 (show_u z) = Some z;
  conv_i64_show z : (0 <= z < 2 ^ 63)%Z -> conv_i64 (show_u z) = Some z;
  conv_desire_print d : conv_desire (desire_to_string d) = Some d;
  conv_double_decimal n : (0 <= n)%Z -> conv_double (decimal2 n) = Some (dbl_quot n 100)
}.

(** [err->GetDescription()]. *)
Definition description `{CommonLib} (e : error) : string :=
  match e with
  | error_inval => error_inval_text
  | make_error t => t
  | make_errno_error t _ => t
  end.

(** ** common/net/types.h, common/logging *)

Class HostLib := {
  host_port_to_string : string * Z -> string;   (* common::ConvertToString(HostAndPort) *)
  host_port_default : string * Z;               (* common::net::HostAndPort() *)
  CreateLocalHost : Z -> string * Z;
  LOG_LEVEL_INFO : Z;
  text_to_log_level : string -> option Z
}.
Class HostLibOk `{CommonLib, HostLib} := {
  conv_host_port_print h : in_u 16 h.2 -> conv_host_port (host_port_to_string h) = Some h
}.

(** ** common/uri/url.h *)

Inductive url_scheme :=
| unknown | http | https | ftp | file | ws | udp | tcp | rtmp | dev.
#[export] Instance url_scheme_eq_dec : EqDecision url_scheme.
Proof. solve_decision. Defined.

Class UrlLib := {
  url : Type;
  url_eq_dec :: EqDecision url;
  url_empty : url;                       (* common::uri::Url() *)
  url_of_string : string -> url;         (* common::uri::Url(text) *)
  url_to_string : url -> string;         (* GetUrl(), common::ConvertToString(url) *)
  url_is_valid : url -> bool;
  url_get_scheme : url -> url_scheme;
  url_get_host : url -> string;
  url_get_hpath : url -> string;
  url_path : url -> string;              (* GetPath().GetPath() *)
  url_query : url -> string;             (* GetPath().GetQuery() *)
  url_file_name : url -> string          (* GetPath().GetFileName() *)
}.

(** A URL that was printed is read back. *)
Class UrlLibOk `{UrlLib} := {
  url_print_parse u : url_of_string (url_to_string u) = u
}.

(** ** common/file_system: directory paths *)

Class PathLib := {
  dir_path : string -> string;           (* ascii_directory_string_path(s).GetPath() *)
  dir_default : string                   (* ascii_directory_string_path().GetPath() *)
}.

(** ** json-c

    [json_object_get_int] reads a number beyond the range of [int] as the
    nearest [int].
    A [json_object*] is an [option json]: json-c represents the JSON value
    [null] by a null pointer. *)

Class JsonC `{CommonLib} := {
  json : Type;
  json_tokener_parse : string -> option json;
  json_is_object : json -> bool;
  json_object_get_ex : json -> string -> option (option json);
  json_entries : json -> option (list (string * option json)); (* object, in order *)
  json_get_string : json -> string;
  json_get_int : option json -> Z;
  json_get_int64 : option json -> Z;
  json_get_double : option json -> double;
  json_array : option json -> option (list (option json)); (* None: not an array *)
  json_new_object : json;
  json_new_string : string -> json;
  json_new_int : Z -> json;
  json_new_int64 : Z -> json;
  json_new_double : double -> json;
  json_new_array : list (option json) -> json;
  json_object_add : json -> string -> option json -> json;
  json_to_string : json -> string        (* json_object_to_json_string *)
}.

Definition clamp_int (z : Z) : Z := Z.max (- 2 ^ 31) (Z.min (2 ^ 31 - 1) z).

Class JsonCOk `{JsonC} := {
  json_get_ex_new k : json_object_get_ex json_new_object k = None;
  json_is_object_new : json_is_object json_new_object = true;
  json_is_object_add o k v : json_is_object (json_object_add o k v) = json_is_object o;
  json_get_ex_add o k v k' : json_is_object o = true ->
    json_object_get_ex (json_object_add o k v) k' =
    if decide (k = k') then Some v else json_object_get_ex o k';
  json_get_string_new s : json_get_string (json_new_string s) = s;
  json_get_int_new z : in_s 32 z -> json_get_int (Some (json_new_int z)) = z;
  json_get_int_new64 z : in_s 64 z -> json_get_int (Some (json_new_int64 z)) = clamp_int z;
  json_get_double_new d : json_get_double (Some (json_new_double d)) = d;
  json_get_int64_new z : in_s 64 z -> json_get_int64 (Some (json_new_int64 z)) = z;
  json_array_new l : json_array (Some (json_new_array l)) = Some l
}.

Section JsonHelpers.
Context `{JsonC}.

(** [std::string s = json_object_get_string(j)]: on a null pointer json-c
    returns a null [const char*], from which a [std::string] cannot be made. *)
Definition get_std_string (j : option json) : outcome string :=
  match j with
  | Some v => Ok (json_get_string v)
  | None => Abort (NullPointer "json_object_get_string")
  end.

(** [json_object_object_get_ex] on an object that may be null. *)
Definition jget (j : option json) (k : string) : option (option json) :=
  v ← j; json_object_get_ex v k.

(** [JsonSerializer::DeSerialize] around a class's [DoDeSerialize]. *)
Definition DeSerialize {A} (f : option json -> outcome A) (j : option json) : outcome A :=
  match j with
  | None => if deserialize_rejects_null then Err error_inval else f None
  | Some _ => f j
  end.

(** The optional fields of an object: [f v a] where the field is present. *)
Definition field {A} (j : option json) (k : string) (f : option json -> A -> A) (a : A) : A :=
  match jget j k with Some v => f v a | None => a end.

(** The same for a field whose reading may fail. *)
Definition field_m {A} (j : option json) (k : string)
    (f : option json -> A -> outcome A) (a : A) : outcome A :=
  match jget j k with Some v => f v a | None => Ok a end.

(** [json_object_array_length] asserts that its argument is an array. *)
Definition get_array (j : option json) : outcome (list (option json)) :=
  match json_array j with
  | Some l => Ok l
  | None => Abort (LibraryAssert "json_object_array_length")
  end.
End JsonHelpers.

(** ** Building objects

    A [SerializeFields] is a sequence of [json_object_object_add]; what a field
    of the result holds is the last value added under its name. *)

Section JsonBuild.
Context `{JsonC}.

Fixpoint json_add_all (out : json) (l : list (string * json)) : json :=
  match l with
  | [] => out
  | (k, v) :: l' => json_add_all (json_object_add out k (Some v)) l'
  end.

Fixpoint last_added (k : string) (l : list (string * json)) : option json :=
  match l with
  | [] => None
  | (k', v) :: l' =>
      match last_added k l' with
      | Some w => Some w
      | None => if String.eqb k' k then Some v else None
      end
  end.

Context `{!JsonCOk}.

Lemma json_add_all_lookup out l k :
  json_is_object out = true ->
  json_object_get_ex (json_add_all out l) k =
  match last_added k l with Some v => Some (Some v) | None => json_object_get_ex out k end.
Proof.
  revert out. induction l as [|[k' v] l IH]; intros out Ho; [done|]. cbn [json_add_all last_added].
  rewrite IH by (by rewrite json_is_object_add). destruct (last_added k l); [done|].
  rewrite json_get_ex_add by done. destruct (String.eqb_spec k' k); [by rewrite decide_True|].
  by rewrite decide_False.
Qed.

Lemma jget_new l k :
  jget (Some (json_add_all json_new_object l)) k = Some <$> last_added k l.
Proof.
  unfold jget. cbn. rewrite json_add_all_lookup by apply json_is_object_new.
  destruct (last_added k l); [done|]. apply json_get_ex_new.
Qed.
End JsonBuild.

(** Looks the fields of a built object up. *)
Ltac json_lookup :=
  rewrite ?jget_new; cbn [last_added String.eqb Ascii.eqb Bool.eqb fmap option_fmap option_map].

(** ** Reference instances *)

Module Ref.
(** Decimal numbers of a given range. *)
Definition parse_in (lo hi : Z) (s : string) : option Z :=
  z ← match s with
      | String "-"%char s' => Z.opp <$> parse_dec s'
      | _ => parse_dec s
      end;
  if ((lo <=? z) && (z <=? hi))%Z then Some z else None.

Lemma parse_in_range lo hi s z : parse_in lo hi s = Some z -> (lo <= z <= hi)%Z.
Proof.
  unfold parse_in. intros (z' & _ & Hz)%bind_Some. case_match eqn:Hb; [|done].
  simplify_eq. apply andb_true_iff in Hb as [H1 H2].
  apply Z.leb_le in H1, H2. lia.
Qed.

Lemma parse_in_show lo hi z :
  (lo <= 0 <= z)%Z -> (z <= hi)%Z -> parse_in lo hi (show_u z) = Some z.
Proof.
  intros Hlo Hhi. unfold parse_in.
  assert (Hp : match show_u z with
               | String "-"%char s' => Z.opp <$> parse_dec s'
               | _ => parse_dec (show_u z)
               end = parse_dec (show_u z)).
  { destruct (show_u z) as [|c s] eqn:Hs; [done|].
    assert (c <> "-"%char).
    { intros ->. pose proof (parse_show z ltac:(lia)) as Hd. rewrite Hs in Hd. done. }
    by destruct c as [[] [] [] [] [] [] [] []]. }
  rewrite Hp, parse_show by lia. cbn.
  by rewrite (proj2 (Z.leb_le lo z)), (proj2 (Z.leb_le z hi)) by lia.
Qed.

(** Two numbers around a separator. *)
Definition parse_pair (sep : Ascii.ascii) (s : string) : option (Z * Z) :=
  '(a, b) ← split_first sep s; x ← parse_dec a; y ← parse_dec b; Some (x, y).

(** An integer, or a number with two decimals. *)
Definition parse_double (s : string) : option double :=
  match dbl_of_Z <$> parse_in (- 2 ^ 53) (2 ^ 53) s with
  | Some d => Some d
  | None =>
      '(a, b) ← split_first "." s; n ← parse_dec a; h ← parse_dec b;
      if String.length b =? 2 then Some (dbl_quot (n * 100 + h) 100) else None
  end.

Definition common : CommonLib := {|
  conv_bool s := if decide (s = "true") then Some true
                 else if decide (s = "false") then Some false else None;
  conv_i32 := parse_in (- 2 ^ 31) (2 ^ 31 - 1);
  conv_i64 := parse_in (- 2 ^ 63) (2 ^ 63 - 1);
  conv_u8 := parse_in 0 (2 ^ 8 - 1);
  conv_u16 := parse_in 0 (2 ^ 16 - 1);
  conv_u32 := parse_in 0 (2 ^ 32 - 1);
  conv_u64 := parse_in 0 (2 ^ 64 - 1);
  conv_double := parse_double;
  conv_size := parse_pair "x";
  conv_point := parse_pair ",";
  conv_rational := parse_pair ":";
  conv_host_port s := '(h, p) ← split_last ":" s; z ← parse_dec p; Some (h, z);
  is_valid_path s := negb (is_empty s);
  error_inval_text := "Invalid argument";
  point_default := (0, 0);
  size_default := (0, 0);
  size_is_valid p := (0 <? p.1) && (0 <? p.2);
  desire_bps := string;
  desire_default := "";
  desire_to_string d := d;
  conv_desire := Some;
  LOG_LEVEL_EMERG := 0;
  LOG_LEVEL_DEBUG := 7;
  u8_to_string := show_u;
  bool_to_string b := if b then "true" else "false";
  critical_log_aborts := true;
  deserialize_rejects_null := true
|}%Z.

#[local] Existing Instance common.

Lemma parse_in_point lo hi a b : parse_in lo hi (a +:+ "." +:+ b) = None.
Proof.
  assert (Hd : forall x, parse_dec (x +:+ "." +:+ b) = None).
  { intros x. unfold parse_dec. case_match; [done|]. destruct (digits_go 0 _) as [z|] eqn:Hz; [|done].
    assert (is_Some (digits_go 0 (x +:+ "." +:+ b))) as Hs by (by exists z).
    apply digits_go_is_Some in Hs. unfold all_digits in Hs. rewrite string_forallb_app in Hs.
    by apply andb_true_iff in Hs as [_ Hs]. }
  unfold parse_in. pose proof (Hd a) as Ha. destruct a as [|c a]; [by rewrite Ha|].
  pose proof (Hd a) as Ha'. rewrite string_app_cons in *.
  destruct c as [[] [] [] [] [] [] [] []]; try (by rewrite Ha). change (parse_dec (a +:+ "." +:+ b) = None) in Ha'. by rewrite Ha'.
Qed.

Lemma two_digits_spec n :
  (0 <= n < 100)%Z -> String.length (two_digits n) = 2 /\ parse_dec (two_digits n) = Some n.
Proof.
  intros Hn. assert (Hall : forallb (fun k => let z := Z.of_nat k in
    bool_decide (String.length (two_digits z) = 2 /\ parse_dec (two_digits z) = Some z)) (seq 0 100) = true) by (vm_compute; reflexivity).
  rewrite forallb_forall in Hall. specialize (Hall (Z.to_nat n)). cbv zeta in Hall. rewrite Z2Nat.id in Hall by lia.
  eapply bool_decide_eq_true_1, Hall, in_seq; lia.
Qed.

Lemma parse_double_decimal n : (0 <= n)%Z -> parse_double (decimal2 n) = Some (dbl_quot n 100).
Proof.
  intros Hn. unfold parse_double, decimal2. rewrite parse_in_point. cbn [fmap option_fmap option_map].
  assert (Ha : (0 <= n / 100)%Z) by (apply Z.div_pos; lia).
  rewrite (proj2 (split_first_spec "." _ (show_u (n / 100)) (two_digits (n mod 100)))).
  2: { split; [done|]. by apply show_u_no. }
  destruct (two_digits_spec (n mod 100)) as [Hl Hp]; [apply Z.mod_pos_bound; lia|].
  cbn. rewrite parse_show, Hp by done. cbn. rewrite Hl. cbn [Nat.eqb].
  do 2 f_equal. pose proof (Z.div_mod n 100). lia.
Qed.

Lemma common_ok : CommonLibOk.
Proof.
  constructor; intros; try (by apply parse_double_decimal); cbn in *;
    repeat match goal with H : parse_in _ _ _ = Some _ |- _ => apply parse_in_range in H end;
    unfold in_u, in_s in *; try lia; try done; apply parse_in_show; lia.
Qed.

Definition hosts : HostLib := {|
  host_port_to_string h := h.1 +:+ ":" +:+ show_u h.2;
  host_port_default := ("", 0%Z);
  CreateLocalHost p := ("127.0.0.1", p);
  LOG_LEVEL_INFO := 6;
  text_to_log_level s := if decide (s = "DEBUG") then Some 7%Z else None
|}.
#[local] Existing Instance hosts.

Lemma hosts_ok : HostLibOk.
Proof.
  constructor. intros [h p] [Hp _]. cbn in *.
  change (":" +:+ show_u p) with (String ":" (show_u p)).
  rewrite (proj2 (split_last_spec ":" _ h (show_u p))).
  - cbn. by rewrite parse_show.
  - split; [done|]. by apply show_u_no.
Qed.

(** URLs as texts; the scheme is what precedes the first colon. *)
Definition scheme_of (s : string) : url_scheme :=
  match split_first ":" s with
  | Some ("http", _) => http
  | Some ("https", _) => https
  | Some ("ftp", _) => ftp
  | Some ("file", _) => file
  | Some ("ws", _) => ws
  | Some ("udp", _) => udp
  | Some ("tcp", _) => tcp
  | Some ("rtmp", _) => rtmp
  | Some ("dev", _) => dev
  | _ => unknown
  end.

(** What follows ["scheme://"]. *)
Definition after_scheme (s : string) : string :=
  match split_first ":" s with
  | Some (_, String "/"%char (String "/"%char r)) => r
  | _ => ""
  end.

Definition urls : UrlLib := {|
  url := string;
  url_empty := "";
  url_of_string s := s;
  url_to_string s := s;
  url_is_valid s := negb (is_empty s);
  url_get_scheme := scheme_of;
  url_get_host s := from_option fst (after_scheme s) (split_first "/" (after_scheme s));
  url_get_hpath s := from_option snd "" (split_first "/" (after_scheme s));
  url_path := after_scheme;
  url_query s := from_option snd "" (split_first "?" (after_scheme s));
  url_file_name s := from_option snd "" (split_last "/" (after_scheme s))
|}.

#[local] Existing Instance urls.

Lemma urls_ok : UrlLibOk.
Proof. by constructor. Qed.

Definition paths : PathLib := {| dir_path s := s; dir_default := "" |}.

(** JSON values; the text parser is a table, so that a witness fixes it. *)
#[warnings="-register-all"]
Inductive value :=
| JString (s : string)
| JInt (z : Z)
| JDouble (d : double)
| JArray (l : list (option value))
| JObject (l : list (string * option value)).

Fixpoint assoc (k : string) (l : list (string * option value)) : option (option value) :=
  match l with
  | [] => None
  | (k', v) :: l' => if decide (k' = k) then Some v else assoc k l'
  end.

Definition json_c (tbl : string -> option value) : JsonC := {|
  json := value;
  json_tokener_parse := tbl;
  json_object_get_ex j k := match j with JObject l => assoc k l | _ => None end;
  json_entries j := match j with JObject l => Some l | _ => None end;
  json_get_string j := match j with JString s => s | JInt z => show_u z | _ => "{}" end;
  json_is_object j := match j with JObject _ => true | _ => false end;
  json_get_int j := match j with Some (JInt z) => clamp_int z | _ => 0%Z end;
  json_get_int64 j := match j with Some (JInt z) => z | _ => 0%Z end;
  json_get_double j := match j with Some (JInt z) => dbl_of_Z z | Some (JDouble d) => d | _ => dbl_of_Z 0 end;
  json_array j := match j with Some (JArray l) => Some l | _ => None end;
  json_new_object := JObject [];
  json_new_string := JString;
  json_new_int := JInt;
  json_new_int64 := JInt;
  json_new_double := JDouble;
  json_new_array := JArray;
  json_object_add j k v := match j with JObject l => JObject ((k, v) :: l) | _ => j end;
  json_to_string _ := "{}"
|}.

Lemma json_c_ok tbl : @JsonCOk common (json_c tbl).
Proof.
  constructor; try done; try (intros []; done).
  intros z Hz. cbn. unfold clamp_int, in_s in *. f_equal. lia.
Qed.
End Ref.
