(* ===== verification/Doubles.v ===== *)
(** * Bounds on doubles

    Numbers without a sign stay finite through conversion from a 64-bit integer
    and through a division, as long as their exponents are far from the ends of
    the range; so that [printf] prints digits and a point. *)

From Stdlib Require SpecFloat.
From S2P Require Import Prelude Platform.
Import SpecFloat.
Section Finite.
Local Open Scope Z_scope.

(** Numbers without a sign, with bounds on the mantissa and the exponent. *)
Definition finite_upto (b e : Z) (d : double) : Prop :=
  d = S754_zero false \/ exists m x, d = S754_finite false m x /\ Zpos m <= 2 ^ b /\ x <= e.

Lemma digits2_pos_le p b : 0 <= b -> Zpos p <= 2 ^ b -> Zpos (digits2_pos p) <= b + 1.
Proof.
  intros Hb Hp. enough (2 ^ (Zpos (digits2_pos p) - 1) <= Zpos p) as Hd.
  { assert (2 ^ (Zpos (digits2_pos p) - 1) <= 2 ^ b) by lia. apply Z.pow_le_mono_r_iff in H; lia. }
  clear. induction p as [p IH|p IH|]; cbn [digits2_pos]; [| |done];
    rewrite Pos2Z.inj_succ; replace (Z.succ (Zpos (digits2_pos p)) - 1) with (Z.succ (Zpos (digits2_pos p) - 1)) by lia;
    rewrite Z.pow_succ_r by lia; lia.
Qed.

Lemma shr_1_spec r : 0 <= shr_m r -> 0 <= shr_m (shr_1 r) <= shr_m r.
Proof. destruct r as [[|[p|p|]|p] r s]; cbn; lia. Qed.

Lemma shr_spec r e n :
  0 <= shr_m r -> 0 <= shr_m (shr r e n).1 <= shr_m r /\ (shr r e n).2 = e + Z.max 0 n.
Proof.
  intros Hr. destruct n as [|p|p]; cbn [shr fst snd]; [lia| |lia].
  split; [|lia]. revert r Hr. induction p as [p IH|p IH|]; intros r Hr; cbn [iter_pos].
  - pose proof (shr_1_spec r Hr). destruct (IH (shr_1 r)); [lia|]. destruct (IH (iter_pos shr_1 p (shr_1 r))); lia.
  - destruct (IH r Hr). destruct (IH (iter_pos shr_1 p r)); lia.
  - by apply shr_1_spec.
Qed.

Lemma shr_fexp_spec m e l b :
  0 <= m <= 2 ^ b -> 0 <= b ->
  0 <= shr_m (shr_fexp 53 1024 m e l).1 <= m /\
  (shr_fexp 53 1024 m e l).2 <= Z.max (-1074) (e + b).
Proof.
  intros Hm Hb. unfold shr_fexp.
  assert (Hl : shr_m (shr_record_of_loc m l) = m) by (by destruct l as [|[]]).
  destruct (shr_spec (shr_record_of_loc m l) e (fexp 53 1024 (Zdigits2 m + e) - e)) as [H1 H2]; [lia|].
  rewrite Hl in H1. split; [done|]. rewrite H2. unfold fexp, emin.
  assert (Zdigits2 m <= b + 1). { destruct m as [|p|p]; cbn [Zdigits2]; [lia| |lia]. apply digits2_pos_le; lia. }
  lia.
Qed.

Lemma round_aux_finite m e l b :
  0 <= m <= 2 ^ b -> 0 <= b -> Z.max (-1074) (e + b) + (b + 1) <= 971 ->
  finite_upto (b + 1) (Z.max (-1074) (e + b) + (b + 1)) (binary_round_aux 53 1024 false m e l).
Proof.
  intros Hm Hb He. unfold binary_round_aux. pose proof (shr_fexp_spec m e l b Hm Hb) as [H1 H2].
  destruct (shr_fexp 53 1024 m e l) as [r1 e1]. cbn [fst snd] in H1, H2.
  set (m1 := round_nearest_even (shr_m r1) (loc_of_shr_record r1)).
  assert (Hm1 : 0 <= m1 <= 2 ^ (b + 1)).
  { rewrite Z.pow_add_r by lia. subst m1. assert (0 < 2 ^ b) by lia.
    unfold round_nearest_even. repeat case_match; lia. }
  pose proof (shr_fexp_spec m1 e1 loc_Exact (b + 1) Hm1 ltac:(lia)) as [H3 H4].
  destruct (shr_fexp 53 1024 m1 e1 loc_Exact) as [r2 e2]. cbn [fst snd] in H3, H4.
  destruct (shr_m r2) as [|p|p] eqn:Hp; [by left| |lia].
  rewrite (proj2 (Z.leb_le _ _)) by lia. right. exists p, e2. split_and!; [done|lia|lia].
Qed.

Lemma shl_pos p d : Zpos (Pos.iter xO p d) = Zpos p * 2 ^ Zpos d.
Proof.
  induction d as [|d IH] using Pos.peano_ind; [cbn; lia|].
  rewrite Pos.iter_succ, Pos2Z.inj_xO, IH, Pos2Z.inj_succ, Z.pow_succ_r by lia. lia.
Qed.

Lemma dbl_of_Z_finite z : in_u 64 z -> finite_upto 118 250 (dbl_of_Z z).
Proof.
  intros [Hz0 Hz]. unfold dbl_of_Z, binary_normalize. destruct z as [|p|p]; [by left| |lia].
  unfold binary_round. pose proof (digits2_pos_le p 64 ltac:(lia) ltac:(lia)) as Hd.
  set (ex := fexp 53 1024 _). assert (Hx : -1074 <= ex <= 12 /\ -53 <= ex) by (unfold ex, fexp, emin; lia).
  unfold shl_align. rewrite Z.sub_0_r.
  assert (Hf : forall m x, Zpos m <= 2 ^ 117 -> x <= 12 -> finite_upto 118 250 (binary_round_aux 53 1024 false (Zpos m) x loc_Exact)).
  { intros m x Hm Hxx. destruct (round_aux_finite (Zpos m) x loc_Exact 117 ltac:(lia) ltac:(lia) ltac:(lia)) as [H|(m' & x' & H & H1 & H2)];
      [by left|right]. exists m', x'. split_and!; [done|lia|lia]. }
  destruct ex as [|d|d]; [apply Hf; lia..|]. apply Hf; [|lia].
  rewrite shl_pos. transitivity (2 ^ 64 * 2 ^ 53); [|by rewrite <- Z.pow_add_r].
  apply Z.mul_le_mono_nonneg; [lia..|]. apply Z.pow_le_mono_r; lia.
Qed.

(** Division by a number of at most 53 bits. *)
Lemma dbl_div_finite x m e :
  finite_upto 118 250 x -> Zpos m <= 2 ^ 53 -> -100 <= e <= 0 ->
  finite_upto 300 900 (dbl_div x (S754_finite false m e)).
Proof.
  intros [->|(m1 & e1 & -> & Hm1 & He1)] Hm He; [by left|]. unfold dbl_div, SFdiv, SFdiv_core_binary.
  pose proof (digits2_pos_le m1 118 ltac:(lia) ltac:(lia)) as Hd1.
  pose proof (digits2_pos_le m 53 ltac:(lia) ltac:(lia)) as Hd2. cbn [Zdigits2].
  set (ex := Z.min _ _). set (s := e1 - e - ex).
  assert (Hs : 0 <= s <= 107 /\ ex <= 350) by (subst s ex; unfold fexp, emin; lia).
  set (m' := match s with Z0 => _ | Zpos _ => _ | Zneg _ => _ end).
  assert (Hm' : 0 <= m' <= 2 ^ 225).
  { assert (m' = Z.shiftl (Zpos m1) s) as -> by (subst m'; destruct s; [by rewrite Z.shiftl_0_r|done|lia]).
    rewrite Z.shiftl_mul_pow2 by lia. split; [apply Z.mul_nonneg_nonneg; [lia|]; apply Z.pow_nonneg; lia|].
    transitivity (2 ^ 118 * 2 ^ 107); [|by rewrite <- Z.pow_add_r].
    apply Z.mul_le_mono_nonneg; [lia..| |]; [apply Z.pow_nonneg; lia|apply Z.pow_le_mono_r; lia]. }
  pose proof (Z_div_mod m' (Zpos m) ltac:(lia)) as Hqr. destruct (Z.div_eucl m' (Zpos m)) as [q r].
  destruct Hqr as [Hq Hr]. assert (0 <= q <= 2 ^ 225) by nia. cbn [xorb].
  destruct (round_aux_finite q ex (new_location (Zpos m) r) 225 ltac:(lia) ltac:(lia) ltac:(lia)) as [H'|(m2 & x2 & H' & H1 & H2)];
    [by left|right]. exists m2, x2. split_and!; [done|lia|lia].
Qed.
Lemma hundredths_nonneg m e : 0 <= hundredths m e.
Proof.
  unfold hundredths. case_match eqn:He; [apply Z.mul_nonneg_nonneg; [lia|apply Z.pow_nonneg; lia]|].
  assert (0 <= 100 * Zpos m / 2 ^ (- e)) by (apply Z.div_pos; [lia|apply Z.pow_pos_nonneg; lia]).
  case_match; lia.
Qed.

(** What [%.2f] prints of a number without a sign, in hundredths. *)
Definition hundredths_of (d : double) : Z :=
  match d with S754_finite _ m e => hundredths m e | _ => 0 end.

Lemma hundredths_of_nonneg d : 0 <= hundredths_of d.
Proof. destruct d; try done. apply hundredths_nonneg. Qed.

Lemma print_2f_finite b e d : finite_upto b e d -> print_2f d = decimal2 (hundredths_of d).
Proof. by intros [->|(m & x & -> & _)]. Qed.
End Finite.
