(* ===== verification/StreamTypes.v ===== *)
(** * Names, codes and media types of the streams

    [src/src/base/types.h], [src/src/stream/stypes.h] and [src/src/stream/stypes.cpp]: the
    stream types and statuses, the recognition of the special URLs, the
    element and pad numbers that GStreamer object names end with, the file
    names of the chunks, and the classification of media types. *)

From Stdlib Require Import Ascii.
From S2P Require Import Prelude Platform.

(** ** Enumerations *)

(* [src/src/base/types.h:39-50 StreamType] *)
Inductive StreamType :=
| PROXY | RELAY | ENCODE | TIMESHIFT_PLAYER | TIMESHIFT_RECORDER | CATCHUP
| TEST_LIFE | VOD_RELAY | VOD_ENCODE | SCREEN.

(* [src/src/base/stream_struct.h:29-29 StreamStatus] *)
Inductive StreamStatus := NEW | INIT | STARTED | READY | PLAYING | FROZEN | WAITING.

(* [src/src/stream/stypes.h:115-115 SinkDeviceType] *)
Inductive SinkDeviceType := SCREEN_OUTPUT | DECKLINK_OUTPUT.

(* [src/src/stream/stypes.h:117-125 SupportedOtherType] *)
Inductive SupportedOtherType :=
| APPLICATION_HLS_TYPE | APPLICATION_ICY_TYPE | APPLICATION_TELETEXT_TYPE
| APPLICATION_GZIP_TYPE | SUBPICTURE_DVB_TYPE | IMAGE_PNG_TYPE | IMAGE_JPEG_TYPE.

(* [src/src/stream/stypes.h:127-130 SupportedDemuxer] *)
Inductive SupportedDemuxer := VIDEO_MPEGTS_DEMUXER | VIDEO_FLV_DEMUXER.

(* [src/src/stream/stypes.h:132-136 SupportedVideoCodec] *)
Inductive SupportedVideoCodec := VIDEO_H264_CODEC | VIDEO_MPEG_CODEC | VIDEO_H265_CODEC.

(* [src/src/stream/stypes.h:138-142 SupportedAudioCodec] *)
Inductive SupportedAudioCodec := AUDIO_MPEG_CODEC | AUDIO_AAC_CODEC | AUDIO_AC3_CODEC.

(* [src/src/stream/stypes.h:144-147 SupportedRawStream] *)
Inductive SupportedRawStream := VIDEO_RAW_STREAM | AUDIO_RAW_STREAM.

#[export] Instance StreamType_eq_dec : EqDecision StreamType.
Proof. solve_decision. Defined.
#[export] Instance StreamStatus_eq_dec : EqDecision StreamStatus.
Proof. solve_decision. Defined.
#[export] Instance SinkDeviceType_eq_dec : EqDecision SinkDeviceType.
Proof. solve_decision. Defined.

(** The codes that the enumerations have as integers. *)
(* [src/src/base/types.h:39-50 StreamType] *)
Definition stream_type_code (t : StreamType) : Z :=
  match t with
  | PROXY => 0 | RELAY => 1 | ENCODE => 2 | TIMESHIFT_PLAYER => 3
  | TIMESHIFT_RECORDER => 4 | CATCHUP => 5 | TEST_LIFE => 6 | VOD_RELAY => 7
  | VOD_ENCODE => 8 | SCREEN => 9
  end%Z.

(** [static_cast<StreamType>(u8)], on the codes the enumeration names. *)
Definition stream_type_of_code (z : Z) : option StreamType :=
  List.find (fun t => Z.eqb (stream_type_code t) z)
    [PROXY; RELAY; ENCODE; TIMESHIFT_PLAYER; TIMESHIFT_RECORDER; CATCHUP; TEST_LIFE;
     VOD_RELAY; VOD_ENCODE; SCREEN].

Lemma stream_type_code_of z t : stream_type_of_code z = Some t -> stream_type_code t = z.
Proof. intros [_ H]%find_Some_elem. by apply Z.eqb_eq in H. Qed.

Lemma stream_type_of_code_code t : stream_type_of_code (stream_type_code t) = Some t.
Proof. by destruct t. Qed.

(* [src/src/base/stream_struct.h:29-29 StreamStatus] *)
Definition status_code (st : StreamStatus) : Z :=
  match st with
  | NEW => 0 | INIT => 1 | STARTED => 2 | READY => 3 | PLAYING => 4 | FROZEN => 5 | WAITING => 6
  end%Z.

Definition status_of_code (z : Z) : option StreamStatus :=
  List.find (fun st => Z.eqb (status_code st) z)
    [NEW; INIT; STARTED; READY; PLAYING; FROZEN; WAITING].

Lemma status_of_code_code st : status_of_code (status_code st) = Some st.
Proof. by destruct st. Qed.

(** What [static_cast] makes of a code that names no enumerator is left open. *)
Class UnnamedCodes := {
  unnamed_type : Z -> StreamType;
  unnamed_status : Z -> StreamStatus
}.

Definition cast_type `{UnnamedCodes} (z : Z) : StreamType :=
  from_option id (unnamed_type z) (stream_type_of_code z).
Definition cast_status `{UnnamedCodes} (z : Z) : StreamStatus :=
  from_option id (unnamed_status z) (status_of_code z).

Definition ref_codes : UnnamedCodes :=
  {| unnamed_type _ := PROXY; unnamed_status _ := NEW |}.

Lemma cast_type_code `{UnnamedCodes} t : cast_type (stream_type_code t) = t.
Proof. unfold cast_type. by rewrite stream_type_of_code_code. Qed.
Lemma cast_status_code `{UnnamedCodes} st : cast_status (status_code st) = st.
Proof. unfold cast_status. by rewrite status_of_code_code. Qed.

(* [src/src/base/stream_struct.cpp:25-31 ConvertToString] *)
Definition status_to_string (st : StreamStatus) : string :=
  match st with
  | NEW => "New" | INIT => "Inited" | STARTED => "Started" | READY => "Ready"
  | PLAYING => "Streaming" | FROZEN => "Frozen" | WAITING => "Waiting"
  end.

(** ** Special URLs *)

Section Urls.
Context `{UrlLib}.

(* [src/src/stream/stypes.cpp:47-49 IsScreenUrl] *)
Definition IsScreenUrl (u : url) : bool := bool_decide (u = url_of_string "screen").

(* [src/src/stream/stypes.cpp:51-53 IsDecklinkUrl] *)
Definition IsDecklinkUrl (u : url) : bool := bool_decide (u = url_of_string "decklink").

(** [Some type] where the code returns [true]. *)
(* [src/src/stream/stypes.cpp:55-69 IsDeviceOutUrl] *)
Definition IsDeviceOutUrl (u : url) : option SinkDeviceType :=
  if IsScreenUrl u then Some SCREEN_OUTPUT
  else if IsDecklinkUrl u then Some DECKLINK_OUTPUT
  else None.

(* [src/src/stream/stypes.cpp:71-73 IsRecordingUrl] *)
Definition IsRecordingUrl (u : url) : bool := bool_decide (u = url_of_string "rec").

(* [src/src/stream/stypes.cpp:75-77 IsFakeUrl] *)
Definition IsFakeUrl (u : url) : bool := bool_decide (u = url_of_string "fake").
End Urls.

(** ** Element and pad numbers

    The regular expression [^([^_]+_)+([0-9]+)$] is first given by its meaning
    ([digit_end]), then by the matcher that the model runs. *)

Definition no_underscore (s : string) : bool :=
  string_forallb (fun c => bool_decide (c <> "_"%char)) s.

(** The texts of [([^_]+_)+]. *)
Inductive segments : string -> Prop :=
| segments_one s : s <> "" -> no_underscore s = true -> segments (s +:+ "_")
| segments_more s t : s <> "" -> no_underscore s = true -> segments t ->
    segments (s +:+ String "_" t).

(** [digit_end name num]: the expression matches [name] and its second group
    is [num]. *)
Inductive digit_end : string -> string -> Prop :=
| digit_end_intro p num : segments p -> num <> "" -> all_digits num = true ->
    digit_end (p +:+ num) num.

(** Whether the text is a non-empty sequence of non-empty parts separated by
    single underscores; [start] holds at the beginning of a part. *)
Fixpoint parts_ok (start : bool) (s : string) : bool :=
  match s with
  | EmptyString => negb start
  | String c s' =>
      if decide (c = "_"%char) then negb start && parts_ok true s'
      else parts_ok false s'
  end.

(* [src/src/stream/stypes.cpp:84-88 GetElementId] *)
Definition match_digit_end (name : string) : option string :=
  '(p, num) ← split_last "_" name;
  if parts_ok true p && negb (is_empty num) && all_digits num then Some num else None.

Section Ids.
Context `{CommonLib}.

(** [None] where the code returns [false]; [Some None] where it returns
    [true] without writing the number (a text out of the range of the type). *)
(* [src/src/stream/stypes.cpp:79-95 GetElementId] *)
Definition GetElementId (name : string) : option (option Z) :=
  match match_digit_end name with
  | Some num => Some (conv_u64 num)
  | None => None
  end.

(* [src/src/stream/stypes.cpp:97-113 GetPadId] *)
Definition GetPadId (name : string) : option (option Z) :=
  match match_digit_end name with
  | Some num => Some (conv_i32 num)
  | None => None
  end.

(** ** Chunk file names *)

(* [src/src/stream/stypes.h:90-90 TS_TEMPLATE] *)
Definition TS_TEMPLATE : string := "%05d.ts".

(* [src/src/stream/stypes.cpp:213-215 GenHttpTsTemplate] *)
Definition GenHttpTsTemplate (msec : Z) : string := show_u msec +:+ "_" +:+ TS_TEMPLATE.

(* [src/src/stream/stypes.cpp:217-219 GenVodHttpTsTemplate] *)
Definition GenVodHttpTsTemplate : string := TS_TEMPLATE.

(** The expression [^[0-9]+_([0-9]+).ts$]. The dot comes from [CHUNK_EXT]
    unescaped, so that it stands for any character that does not end a line;
    the text after the underscore determines the group. *)
Fixpoint strip_any_ts (s : string) : option string :=
  match s with
  | String c "ts" =>
      if decide (c = "010"%char) then None
      else if decide (c = "013"%char) then None
      else Some ""
  | String c s' => r ← strip_any_ts s'; Some (String c r)
  | EmptyString => None
  end.

(* [src/src/stream/stypes.cpp:226-228 GetIndexFromHttpTsTemplate] *)
Definition match_chunk_index (file_name : string) : option string :=
  '(a, b) ← split_first "_" file_name;
  num ← strip_any_ts b;
  if negb (is_empty a) && all_digits a && negb (is_empty num) && all_digits num
  then Some num else None.

(* [src/src/stream/stypes.cpp:221-236 GetIndexFromHttpTsTemplate] *)
Definition GetIndexFromHttpTsTemplate (file_name : string) : option Z :=
  num ← match_chunk_index file_name; conv_u64 num.
End Ids.

(** ** Media types *)

(* [src/src/stream/stypes.cpp:115-144 IsOtherFromType] *)
Definition IsOtherFromType (type : string) : option SupportedOtherType :=
  if is_empty type then None
  else if decide (type = "application/x-hls") then Some APPLICATION_HLS_TYPE
  else if decide (type = "application/x-icy") then Some APPLICATION_ICY_TYPE
  else if decide (type = "application/x-teletext") then Some APPLICATION_TELETEXT_TYPE
  else if decide (type = "application/x-gzip") then Some APPLICATION_GZIP_TYPE
  else if decide (type = "image/png") then Some IMAGE_PNG_TYPE
  else if decide (type = "image/jpeg") then Some IMAGE_JPEG_TYPE
  else if decide (type = "subpicture/x-dvb") then Some SUBPICTURE_DVB_TYPE
  else None.

(* [src/src/stream/stypes.cpp:146-160 IsDemuxerFromType] *)
Definition IsDemuxerFromType (type : string) : option SupportedDemuxer :=
  if is_empty type then None
  else if decide (type = "video/mpegts") then Some VIDEO_MPEGTS_DEMUXER
  else if decide (type = "video/x-flv") then Some VIDEO_FLV_DEMUXER
  else None.

(* [src/src/stream/stypes.cpp:162-179 IsVideoCodecFromType] *)
Definition IsVideoCodecFromType (type : string) : option SupportedVideoCodec :=
  if is_empty type then None
  else if decide (type = "video/mpeg") then Some VIDEO_MPEG_CODEC
  else if decide (type = "video/x-h264") then Some VIDEO_H264_CODEC
  else if decide (type = "video/x-h265") then Some VIDEO_H265_CODEC
  else None.

(* [src/src/stream/stypes.cpp:181-195 IsAudioCodecFromType] *)
Definition IsAudioCodecFromType (type : string) : option SupportedAudioCodec :=
  if is_empty type then None
  else if decide (type = "audio/mpeg") then Some AUDIO_MPEG_CODEC
  else if decide (type = "audio/x-ac3") then Some AUDIO_AC3_CODEC
  else None.

(* [src/src/stream/stypes.cpp:197-211 IsRawStreamFromType] *)
Definition IsRawStreamFromType (type : string) : option SupportedRawStream :=
  if is_empty type then None
  else if decide (type = "video/x-raw") then Some VIDEO_RAW_STREAM
  else if decide (type = "audio/x-raw") then Some AUDIO_RAW_STREAM
  else None.

(** ** The matchers implement the expressions *)

Lemma parts_ok_app s r : no_underscore s = true -> parts_ok false (s +:+ r) = parts_ok false r.
Proof.
  induction s as [|c s IH]; [done|]. rewrite string_app_cons. cbn.
  intros [Hc Hs]%andb_true_iff. apply bool_decide_eq_true in Hc.
  by rewrite decide_False, IH.
Qed.

Lemma parts_ok_part s r : s <> "" -> no_underscore s = true ->
  parts_ok true (s +:+ r) = parts_ok false r.
Proof.
  destruct s as [|c s]; [done|]. intros _. rewrite string_app_cons. cbn.
  intros [Hc Hs]%andb_true_iff. apply bool_decide_eq_true in Hc.
  by rewrite decide_False, parts_ok_app.
Qed.

Lemma segments_parts q : segments q -> exists p, q = p +:+ "_" /\ parts_ok true p = true.
Proof.
  induction 1 as [s Hs Hu | s t Hs Hu Ht (p & -> & IH)].
  - exists s. split; [done|]. rewrite <- (string_app_nil s). by rewrite parts_ok_part.
  - exists (s +:+ String "_" p). split; [by rewrite string_app_assoc|].
    by rewrite parts_ok_part.
Qed.

(** The part in front of the first underscore, if there is one. *)
Lemma first_part (p : string) :
  no_underscore p = true \/
  exists s t, p = s +:+ String "_" t /\ no_underscore s = true.
Proof.
  destruct (split_first "_" p) as [[s t]|] eqn:Hs.
  - right. exists s, t. by apply split_first_spec in Hs.
  - left. by apply split_first_None in Hs.
Qed.

Lemma parts_segments_lt n p :
  String.length p < n -> parts_ok true p = true -> segments (p +:+ "_").
Proof.
  revert p. induction n as [|n IH]; intros p Hn Hp; [lia|].
  destruct (first_part p) as [Hu | (s & t & -> & Hu)].
  - apply segments_one; [|done]. by intros ->.
  - destruct (decide (s = "")) as [->|Hs]; [done|].
    rewrite parts_ok_part in Hp by done. cbn in Hp.
    rewrite string_app_assoc. apply segments_more; [done..|]. apply IH; [|done].
    rewrite string_length_app in Hn. cbn in Hn. lia.
Qed.

Lemma parts_segments p : parts_ok true p = true -> segments (p +:+ "_").
Proof. apply (parts_segments_lt (S (String.length p))). lia. Qed.

Lemma is_digit_not_underscore c : is_digit c = true -> c <> "_"%char.
Proof. intros H ->. done. Qed.

Lemma string_forallb_impl (p q : ascii -> bool) s :
  (forall c, p c = true -> q c = true) -> string_forallb p s = true -> string_forallb q s = true.
Proof.
  intros Hpq. induction s as [|c s IH]; [done|]. cbn.
  intros [Hc Hs]%andb_true_iff. by rewrite (Hpq c Hc), IH.
Qed.

Lemma all_digits_no_underscore s : all_digits s = true -> no_underscore s = true.
Proof.
  apply string_forallb_impl. intros c Hc. apply bool_decide_eq_true.
  by apply is_digit_not_underscore.
Qed.

(** The matcher that GetElementId and GetPadId run accepts exactly the
    texts of [^([^_]+_)+([0-9]+)$] and returns its second group. *)
Theorem match_digit_end_spec name num :
  match_digit_end name = Some num <-> digit_end name num.
Proof.
  unfold match_digit_end. split.
  - intros ([p n] & Hs & H)%bind_Some. case_match eqn:Hb; [|done]. simplify_eq.
    apply andb_true_iff in Hb as [[Hp Hn]%andb_true_iff Hd].
    apply split_last_spec in Hs as [-> _].
    replace (p +:+ String "_" num) with ((p +:+ "_") +:+ num)
      by (by rewrite string_app_assoc).
    constructor; [|by intros ->|done]. by apply parts_segments.
  - intros [q n Hq Hn Hd]. destruct (segments_parts q Hq) as (p & -> & Hp).
    rewrite string_app_assoc. change ("_" +:+ n) with (String "_" n).
    rewrite (proj2 (split_last_spec "_" (p +:+ String "_" n) p n)).
    2: { split; [done|]. by apply all_digits_no_underscore. }
    cbn. rewrite Hp, Hd. by destruct n.
Qed.

(** The names that the builders give to elements, [prefix_%lu]. *)
Definition elem_name (prefix : string) (id : Z) : string := prefix +:+ "_" +:+ show_u id.

#[global] Arguments elem_name : simpl never.

Lemma match_digit_end_name prefix id :
  parts_ok true prefix = true -> (0 <= id)%Z ->
  match_digit_end (elem_name prefix id) = Some (show_u id).
Proof.
  intros Hp Hid. destruct (show_u_digits id Hid) as [Hne Hd].
  apply match_digit_end_spec. unfold elem_name. rewrite <- string_app_assoc.
  constructor; [by apply parts_segments| by intros H; rewrite H in Hne | done].
Qed.

(** An element named after a template of stypes.h and its number is given
    back that number by GetElementId. *)
Theorem GetElementId_elem_name `{CommonLibOk} prefix id :
  parts_ok true prefix = true -> in_u 64 id ->
  GetElementId (elem_name prefix id) = Some (Some id).
Proof.
  intros Hp Hid. unfold GetElementId.
  rewrite match_digit_end_name by (done || int_range). by rewrite conv_u64_show.
Qed.

Lemma GetElementId_elem_name_witness :
  parts_ok true "udb_conn_video" = true /\ in_u 64 12 /\
  @GetElementId Ref.common (elem_name "udb_conn_video" 12) = Some (Some 12%Z).
Proof.
  split; [reflexivity|]. split; [int_range|].
  apply (@GetElementId_elem_name Ref.common Ref.common_ok); [reflexivity|int_range].
Defined.

(** ** The media types are classified without overlap *)

(** How many of the five classifications accept a media type. *)
Definition accepts {A} (o : option A) : nat := match o with Some _ => 1 | None => 0 end.
Definition classifications (type : string) : nat :=
  accepts (IsOtherFromType type) + accepts (IsDemuxerFromType type) +
  accepts (IsVideoCodecFromType type) + accepts (IsAudioCodecFromType type) +
  accepts (IsRawStreamFromType type).

Lemma classifications_le_1 type : classifications type <= 1.
Proof.
  unfold classifications, IsOtherFromType, IsDemuxerFromType, IsVideoCodecFromType,
    IsAudioCodecFromType, IsRawStreamFromType.
  destruct (is_empty type); [cbn; lia|].
  repeat (case_decide; [subst; vm_compute; lia|]). cbn. lia.
Qed.

(** The chunk index expression also matches without the dot. *)
Example match_chunk_index_dot : match_chunk_index "10_00042.ts" = Some "00042".
Proof. reflexivity. Qed.
Example match_chunk_index_any : match_chunk_index "10_00042ts" = Some "0004".
Proof. reflexivity. Qed.
