(* ===== verification/Stats.v ===== *)
(** * Statistics of the channels and of the streams

    [src/src/base/channel_stats.cpp], [src/src/base/stream_struct.cpp] and their JSON
    form ([src/src/stream_commands_info/]), which a stream process sends to the
    daemon. A stream process keeps one [ChannelStats] per input and output; the
    controller computes speeds from checkpoints, and the daemon reads the
    serialized copy. *)

From S2P Require Import Prelude Platform StreamTypes.

Section Stats.
Context `{CommonLib}.

(** ** Channels *)

(* [src/src/base/channel_stats.h:50-58 ChannelStats] *)
Record ChannelStats := {
  cs_id : Z;
  cs_last_update_time : Z;
  cs_total_bytes : Z;
  cs_prev_total_bytes : Z;
  cs_bytes_per_second : Z;
  cs_desire : desire_bps
}.

(* [src/src/base/channel_stats.cpp:23-29 ChannelStats::ChannelStats] *)
Definition make_channel_stats (cid : Z) : ChannelStats :=
  {| cs_id := cid; cs_last_update_time := 0; cs_total_bytes := 0;
     cs_prev_total_bytes := 0; cs_bytes_per_second := 0; cs_desire := desire_default |}.

(* [src/src/base/channel_stats.cpp:39-41 ChannelStats::SetLastUpdateTime] *)
Definition SetLastUpdateTime (t : Z) (c : ChannelStats) : ChannelStats :=
  {| cs_id := cs_id c; cs_last_update_time := t; cs_total_bytes := cs_total_bytes c;
     cs_prev_total_bytes := cs_prev_total_bytes c;
     cs_bytes_per_second := cs_bytes_per_second c; cs_desire := cs_desire c |}.

(* [src/src/base/channel_stats.cpp:51-53 ChannelStats::SetPrevTotalBytes] *)
Definition SetPrevTotalBytes (bytes : Z) (c : ChannelStats) : ChannelStats :=
  {| cs_id := cs_id c; cs_last_update_time := cs_last_update_time c;
     cs_total_bytes := cs_total_bytes c; cs_prev_total_bytes := bytes;
     cs_bytes_per_second := cs_bytes_per_second c; cs_desire := cs_desire c |}.

(** A [size_t] difference wraps. *)
(* [src/src/base/channel_stats.cpp:55-57 ChannelStats::GetDiffTotalBytes] *)
Definition GetDiffTotalBytes (c : ChannelStats) : Z :=
  u64 (cs_total_bytes c - cs_prev_total_bytes c).

(* [src/src/base/channel_stats.cpp:71-73 ChannelStats::SetBps] *)
Definition SetBps (bps : Z) (c : ChannelStats) : ChannelStats :=
  {| cs_id := cs_id c; cs_last_update_time := cs_last_update_time c;
     cs_total_bytes := cs_total_bytes c; cs_prev_total_bytes := cs_prev_total_bytes c;
     cs_bytes_per_second := bps; cs_desire := cs_desire c |}.

(* [src/src/base/channel_stats.cpp:59-65 ChannelStats::UpdateBps] *)
Definition UpdateBps (sec : Z) (c : ChannelStats) : ChannelStats :=
  if decide (sec = 0%Z) then c else SetBps (GetDiffTotalBytes c / sec)%Z c.

(* [src/src/base/channel_stats.cpp:75-77 ChannelStats::UpdateCheckPoint] *)
Definition UpdateCheckPoint (c : ChannelStats) : ChannelStats :=
  SetPrevTotalBytes (cs_total_bytes c) c.

(** [now] is [common::time::current_utc_mstime()]. *)
(* [src/src/base/channel_stats.cpp:79-82 ChannelStats::SetTotalBytes] *)
Definition SetTotalBytes (now bytes : Z) (c : ChannelStats) : ChannelStats :=
  {| cs_id := cs_id c; cs_last_update_time := now; cs_total_bytes := bytes;
     cs_prev_total_bytes := cs_prev_total_bytes c;
     cs_bytes_per_second := cs_bytes_per_second c; cs_desire := cs_desire c |}.

(* [src/src/base/channel_stats.cpp:84-86 ChannelStats::SetDesireBytesPerSecond] *)
Definition SetDesireBytesPerSecond (d : desire_bps) (c : ChannelStats) : ChannelStats :=
  {| cs_id := cs_id c; cs_last_update_time := cs_last_update_time c;
     cs_total_bytes := cs_total_bytes c; cs_prev_total_bytes := cs_prev_total_bytes c;
     cs_bytes_per_second := cs_bytes_per_second c; cs_desire := d |}.

(** ** Streams *)

(* [src/src/base/stream_struct.h:34-39 StreamInfo] *)
Record StreamInfo := {
  si_id : string;
  si_type : StreamType;
  si_input : list Z;
  si_output : list Z
}.

(* [src/src/base/stream_struct.h:41-72 StreamStruct] *)
Record StreamStruct := {
  ss_id : string;
  ss_type : StreamType;
  ss_start_time : Z;
  ss_loop_start_time : Z;
  ss_restarts : Z;
  ss_status : StreamStatus;
  ss_input : list ChannelStats;
  ss_output : list ChannelStats
}.

(* [src/src/base/stream_struct.cpp:38-44 make_outputs] *)
Definition make_outputs (output : list Z) : list ChannelStats := make_channel_stats <$> output.

(* [src/src/base/stream_struct.cpp:46-52 make_inputs] *)
Definition make_inputs (input : list Z) : list ChannelStats := make_channel_stats <$> input.

(* [src/src/base/stream_struct.cpp:59-63 StreamStruct::StreamStruct] *)
Definition make_stream_struct (sha : StreamInfo) (start_time lst rest : Z) : StreamStruct :=
  {| ss_id := si_id sha; ss_type := si_type sha; ss_start_time := start_time;
     ss_loop_start_time := lst; ss_restarts := rest; ss_status := NEW;
     ss_input := make_inputs (si_input sha); ss_output := make_outputs (si_output sha) |}.

(* [src/src/base/stream_struct.cpp:82-84 StreamStruct::IsValid] *)
Definition StreamStruct_IsValid (s : StreamStruct) : bool := negb (is_empty (ss_id s)).

(** [timestamp_t] is signed. *)
(* [src/src/base/stream_struct.cpp:88-91 StreamStruct::WithoutRestartTime] *)
Definition WithoutRestartTime (now : Z) (s : StreamStruct) : Z :=
  i64 (now - ss_loop_start_time s).

Definition set_channels (f : ChannelStats -> ChannelStats) (s : StreamStruct) : StreamStruct :=
  {| ss_id := ss_id s; ss_type := ss_type s; ss_start_time := ss_start_time s;
     ss_loop_start_time := ss_loop_start_time s; ss_restarts := ss_restarts s;
     ss_status := ss_status s; ss_input := f <$> ss_input s; ss_output := f <$> ss_output s |}.

(* [src/src/base/stream_struct.cpp:93-100 StreamStruct::ResetDataWait] *)
Definition ResetDataWait (s : StreamStruct) : StreamStruct := set_channels UpdateCheckPoint s.

(** ** Properties of the counters *)

Definition channel_ok (c : ChannelStats) : Prop :=
  in_u 64 (cs_id c) /\ in_s 64 (cs_last_update_time c) /\ in_u 64 (cs_total_bytes c) /\
  in_u 64 (cs_prev_total_bytes c) /\ in_u 64 (cs_bytes_per_second c).

Lemma make_channel_stats_ok cid : in_u 64 cid -> channel_ok (make_channel_stats cid).
Proof. intros Hc. repeat split; int_range. Qed.

Lemma GetDiffTotalBytes_range c : in_u 64 (GetDiffTotalBytes c).
Proof. by apply wrap_range. Qed.

Lemma UpdateCheckPoint_diff c : GetDiffTotalBytes (UpdateCheckPoint c) = 0%Z.
Proof. unfold GetDiffTotalBytes, UpdateCheckPoint. cbn. by rewrite Z.sub_diag. Qed.

(** The counter of a channel may wrap around: after a checkpoint, [n]
    more bytes are a difference of [n], and the speed over [sec] seconds is
    [n / sec]; a period of zero seconds leaves the speed as it was. *)
Theorem UpdateBps_after_checkpoint c now n sec :
  in_u 64 n -> in_u 64 sec ->
  let c1 := SetTotalBytes now (u64 (cs_total_bytes c + n)) (UpdateCheckPoint c) in
  GetDiffTotalBytes c1 = n /\
  cs_bytes_per_second (UpdateBps sec c1) =
    (if decide (sec = 0) then cs_bytes_per_second c else n / sec)%Z.
Proof.
  intros Hn Hsec c1.
  assert (Hd : GetDiffTotalBytes c1 = n).
  { unfold GetDiffTotalBytes, c1. cbn. rewrite wrap_sub_add. by apply wrap_small. }
  split; [done|]. unfold UpdateBps. case_decide; [done|]. cbn -[Z.div]. by rewrite Hd.
Qed.

Lemma UpdateBps_ok c sec : in_u 64 sec -> channel_ok c -> channel_ok (UpdateBps sec c).
Proof.
  intros Hsec Hc. unfold UpdateBps. case_decide; [done|].
  destruct Hc as (?&?&?&?&_). repeat split; cbn -[Z.div Z.pow]; try int_range.
  - pose proof (GetDiffTotalBytes_range c). unfold in_u in *. apply Z.div_pos; lia.
  - pose proof (GetDiffTotalBytes_range c). unfold in_u in *.
    apply Z.le_lt_trans with (GetDiffTotalBytes c); [|lia]. apply Z.div_le_upper_bound; nia.
Qed.

Lemma ResetDataWait_diff s c :
  c ∈ ss_input (ResetDataWait s) \/ c ∈ ss_output (ResetDataWait s) -> GetDiffTotalBytes c = 0%Z.
Proof.
  intros [Hc|Hc]; cbn in Hc; apply list_elem_of_fmap in Hc as (c' & -> & _);
    apply UpdateCheckPoint_diff.
Qed.
End Stats.

Lemma UpdateBps_after_checkpoint_witness :
  in_u 64 1000 /\ in_u 64 4 /\
  let c := @make_channel_stats Ref.common 1 in
  let c1 := SetTotalBytes 7 (u64 (cs_total_bytes c + 1000)) (UpdateCheckPoint c) in
  GetDiffTotalBytes c1 = 1000%Z /\ cs_bytes_per_second (UpdateBps 4 c1) = 250%Z.
Proof.
  split; [int_range|]. split; [int_range|].
  destruct (@UpdateBps_after_checkpoint Ref.common (@make_channel_stats Ref.common 1) 7 1000 4)
    as [Hd Hb]; [int_range|int_range|].
  split; [exact Hd | exact Hb].
Defined.
