(* ===== verification/StatsInfo.v ===== *)
(** * The JSON form of the statistics

    [src/src/stream_commands_info/details/channel_stats_info.cpp] and
    [src/src/stream_commands_info/statistic_info.cpp]. The theorems say what the
    daemon has after a statistic has travelled from a stream process to it. *)

From S2P Require Import Prelude Platform StreamTypes Stats.

Section StatsInfo.
Context `{JsonC, UnnamedCodes}.

(** ** ChannelStatsInfo *)

(* [src/src/stream_commands_info/details/channel_stats_info.cpp:37-58 ChannelStatsInfo::SerializeFields] *)
Definition channel_SerializeFields (c : ChannelStats) (out : json) : json :=
  json_add_all out
    [ ("id", json_new_int64 (i64 (cs_id c)));
      ("last_update_time", json_new_int64 (cs_last_update_time c));
      ("prev_total_bytes", json_new_int64 (i64 (cs_prev_total_bytes c)));
      ("total_bytes", json_new_int64 (i64 (cs_prev_total_bytes c)));
      ("bps", json_new_int64 (i64 (cs_bytes_per_second c)));
      ("dbps", json_new_string (desire_to_string (cs_desire c))) ].

(** [JsonSerializer::Serialize(json_object** )]: the fields in a new object. *)
Definition channel_Serialize (c : ChannelStats) : json :=
  channel_SerializeFields c json_new_object.

(* [src/src/stream_commands_info/details/channel_stats_info.cpp:60-101 ChannelStatsInfo::DoDeSerialize] *)
Definition channel_DoDeSerialize (now : Z) (serialized : option json) : outcome ChannelStats :=
  match jget serialized "id" with
  | None => Err error_inval
  | Some jid =>
      let stats := make_channel_stats (u64 (json_get_int64 jid)) in
      let stats := field serialized "last_update_time"
        (fun jlut => SetLastUpdateTime (json_get_int64 jlut)) stats in
      let stats := field serialized "prev_total_bytes"
        (fun jptb => SetPrevTotalBytes (u64 (json_get_int64 jptb))) stats in
      let stats := field serialized "total_bytes"
        (fun jtb => SetTotalBytes now (u64 (json_get_int64 jtb))) stats in
      let stats := field serialized "bps"
        (fun jbps => SetBps (u64 (json_get_int64 jbps))) stats in
      match jget serialized "dbps" with
      | None => Ok stats
      | Some jdbps =>
          s ← get_std_string jdbps;
          match conv_desire s with
          | Some d => Ok (SetDesireBytesPerSecond d stats)
          | None => Ok stats
          end
      end
  end.

(** ** StatisticInfo *)

(* [src/src/stream_commands_info/statistic_info.h:37-41 StatisticInfo] *)
Record StatisticInfo := {
  st_stream_struct : StreamStruct;
  st_cpu_load : double;
  st_rss_bytes : Z;
  st_timestamp : Z
}.

(** The loops that serialize channels never skip one: their serialization
    does not fail. *)
(* [src/src/stream_commands_info/statistic_info.cpp:65-108 StatisticInfo::SerializeFields] *)
Definition statistic_SerializeFields (st : StatisticInfo) (out : json) : outcome json :=
  let s := st_stream_struct st in
  if negb (StreamStruct_IsValid s) then Err error_inval
  else
    let jinput_streams := json_new_array ((fun c => Some (channel_Serialize c)) <$> ss_input s) in
    let joutput_streams := json_new_array ((fun c => Some (channel_Serialize c)) <$> ss_output s) in
    Ok (json_add_all out
      [ ("id", json_new_string (ss_id s));
        ("type", json_new_int (stream_type_code (ss_type s)));
        ("input_streams", jinput_streams);
        ("output_streams", joutput_streams);
        ("loop_start_time", json_new_int64 (ss_loop_start_time s));
        ("rss", json_new_int64 (i64 (st_rss_bytes st)));
        ("cpu", json_new_double (st_cpu_load st));
        ("status", json_new_int64 (status_code (ss_status s)));
        ("restarts", json_new_int64 (i64 (ss_restarts s)));
        ("start_time", json_new_int64 (ss_start_time s));
        ("timestamp", json_new_int64 (st_timestamp st)) ]).

(** The channels of an array, from the last to the first; those that do not
    parse are left out. *)
(* [src/src/stream_commands_info/statistic_info.cpp:129-139 StatisticInfo::DoDeSerialize] *)
Fixpoint channels_DeSerialize (now : Z) (rev_items : list (option json)) : outcome (list ChannelStats) :=
  match rev_items with
  | [] => Ok []
  | jin :: rest =>
      match DeSerialize (channel_DoDeSerialize now) jin with
      | Ok c => cs ← channels_DeSerialize now rest; Ok (c :: cs)
      | Err _ => channels_DeSerialize now rest
      | Abort r => Abort r
      end
  end.

Definition channels_field (now : Z) (serialized : option json) (k : string) : outcome (list ChannelStats) :=
  match jget serialized k with
  | None => Ok []
  | Some j => items ← get_array j; channels_DeSerialize now (rev items)
  end.

(* [src/src/stream_commands_info/statistic_info.cpp:110-212 StatisticInfo::DoDeSerialize] *)
Definition statistic_DoDeSerialize (now : Z) (serialized : option json) : outcome StatisticInfo :=
  match jget serialized "id" with
  | None => Err error_inval
  | Some jid =>
  cid ← get_std_string jid;
  match jget serialized "type" with
  | None => Err error_inval
  | Some jtype =>
  let type := cast_type (u8 (json_get_int jtype)) in
  input ← channels_field now serialized "input_streams";
  output ← channels_field now serialized "output_streams";
  let st := field serialized "status"
    (fun j _ => cast_status (json_get_int j)) NEW in
  let cpu_load := field serialized "cpu" (fun j _ => json_get_double j) (dbl_of_Z 0) in
  let rss := field serialized "rss" (fun j _ => u64 (json_get_int j)) 0%Z in
  let time := field serialized "timestamp" (fun j _ => json_get_int64 j) 0%Z in
  let start_time := field serialized "start_time" (fun j _ => json_get_int64 j) 0%Z in
  let restarts := field serialized "restarts" (fun j _ => u64 (json_get_int64 j)) 0%Z in
  let loop_start_time := field serialized "loop_start_time" (fun j _ => json_get_int64 j) 0%Z in
  let strct := {| ss_id := cid; ss_type := type; ss_start_time := start_time;
                  ss_loop_start_time := loop_start_time; ss_restarts := restarts;
                  ss_status := st; ss_input := input; ss_output := output |} in
  Ok {| st_stream_struct := strct; st_cpu_load := cpu_load;
        st_rss_bytes := rss; st_timestamp := time |}
  end
  end.
End StatsInfo.

Section StatsInfoTheorems.
Context `{JsonCOk, !CommonLibOk, UnnamedCodes}.

(** What the receiver has for a channel: its byte counter is the previous
    checkpoint, and its time of update is the time of reception. *)
Definition received (now : Z) (c : ChannelStats) : ChannelStats :=
  SetTotalBytes now (cs_prev_total_bytes c) c.

(** A channel's statistic that is sent and read back keeps its id, its
    checkpoint, its speed and its desired speed, but its total is replaced by
    the checkpoint and its update time by the time of reading. *)
Lemma channel_roundtrip now c :
  channel_ok c ->
  channel_DoDeSerialize now (Some (channel_Serialize c)) = Ok (received now c).
Proof.
  intros (Hid & Hlut & Htot & Hprev & Hbps).
  unfold channel_DoDeSerialize, field, channel_Serialize, channel_SerializeFields.
  json_lookup. cbn -[Z.pow].
  rewrite !json_get_int64_new by (done || by apply swrap_range).
  rewrite !u64_i64 by done. cbn -[Z.pow].
  by rewrite json_get_string_new, conv_desire_print.
Qed.

(** The daemon can never see the traffic of a period: the difference of
    the counters it receives is zero whatever the channel has counted. *)
Theorem received_diff now c c' :
  channel_ok c ->
  channel_DoDeSerialize now (Some (channel_Serialize c)) = Ok c' ->
  GetDiffTotalBytes c' = 0%Z.
Proof.
  intros Hc. rewrite channel_roundtrip by done. intros [= <-].
  unfold GetDiffTotalBytes. cbn. by rewrite Z.sub_diag.
Qed.

Definition stream_ok (s : StreamStruct) : Prop :=
  ss_id s <> "" /\ in_s 64 (ss_start_time s) /\ in_s 64 (ss_loop_start_time s) /\
  in_u 64 (ss_restarts s) /\ Forall channel_ok (ss_input s) /\ Forall channel_ok (ss_output s).

Lemma channels_roundtrip now cs :
  Forall channel_ok cs ->
  channels_DeSerialize now ((fun c => Some (channel_Serialize c)) <$> cs) =
  Ok (received now <$> cs).
Proof.
  induction 1 as [|c cs Hc _ IH]; [done|]. cbn [fmap list_fmap channels_DeSerialize DeSerialize].
  by rewrite channel_roundtrip, IH.
Qed.

Lemma channels_reversed now cs :
  Forall channel_ok cs ->
  channels_DeSerialize now (rev ((fun c => Some (channel_Serialize c)) <$> cs)) =
  Ok (received now <$> rev cs).
Proof.
  intros Hcs. rewrite <- channels_roundtrip by (by rewrite rev_alt, <- reverse_alt || by apply List.Forall_rev).
  f_equal. symmetry. apply List.map_rev.
Qed.

(** What the daemon has of a statistic. *)
Definition received_statistic (now : Z) (st : StatisticInfo) : StatisticInfo :=
  let s := st_stream_struct st in
  {| st_stream_struct :=
       {| ss_id := ss_id s; ss_type := ss_type s; ss_start_time := ss_start_time s;
          ss_loop_start_time := ss_loop_start_time s; ss_restarts := ss_restarts s;
          ss_status := ss_status s;
          ss_input := received now <$> rev (ss_input s);
          ss_output := received now <$> rev (ss_output s) |};
     st_cpu_load := st_cpu_load st;
     st_rss_bytes := u64 (clamp_int (i64 (st_rss_bytes st)));
     st_timestamp := st_timestamp st |}.

Lemma statistic_read now st out :
  stream_ok (st_stream_struct st) -> in_u 64 (st_rss_bytes st) -> in_s 64 (st_timestamp st) ->
  statistic_SerializeFields st json_new_object = Ok out ->
  statistic_DoDeSerialize now (Some out) = Ok (received_statistic now st).
Proof.
  intros (Hid & Hst & Hlst & Hr & Hin & Hout) Hrss Hts. unfold statistic_SerializeFields.
  destruct (negb _); [done|]. intros <-%Ok_inj. destruct st as [s cpu rss ts].
  cbn [st_stream_struct st_cpu_load st_rss_bytes st_timestamp] in *.
  unfold statistic_DoDeSerialize, channels_field, field.
  json_lookup. cbn -[Z.pow clamp_int stream_type_code status_code cast_type cast_status]. unfold get_array. rewrite !json_array_new. cbn -[Z.pow clamp_int stream_type_code status_code cast_type cast_status].
  rewrite !(channels_reversed now) by done. cbn -[Z.pow clamp_int stream_type_code status_code cast_type cast_status].
  rewrite json_get_string_new, json_get_int_new, json_get_double_new by
    (destruct (ss_type s); int_range).
  rewrite (json_get_int_new64 (status_code _)) by (destruct (ss_status s); int_range).
  rewrite json_get_int_new64, !json_get_int64_new by (done || by apply swrap_range).
  rewrite u64_i64 by done.
  replace (clamp_int (status_code (ss_status s))) with (status_code (ss_status s))
    by (by destruct (ss_status s)).
  replace (u8 (stream_type_code (ss_type s))) with (stream_type_code (ss_type s))
    by (by destruct (ss_type s)).
  by rewrite cast_type_code, cast_status_code.
Qed.

(** A statistic that was received can be sent on. *)
Lemma received_channel_ok now c : in_s 64 now -> channel_ok c -> channel_ok (received now c).
Proof. intros Hn (Hid & Hlut & Htot & Hprev & Hbps). by refine (conj _ (conj _ (conj _ (conj _ _)))). Qed.

Lemma received_channels_ok now cs :
  in_s 64 now -> Forall channel_ok cs -> Forall channel_ok (received now <$> rev cs).
Proof.
  intros Hn Hcs. apply Forall_fmap. apply List.Forall_rev. eapply Forall_impl; [exact Hcs|].
  intros c Hc. by apply received_channel_ok.
Qed.

Lemma received_statistic_ok now st :
  in_s 64 now -> stream_ok (st_stream_struct st) -> in_u 64 (st_rss_bytes st) ->
  stream_ok (st_stream_struct (received_statistic now st)) /\ in_u 64 (st_rss_bytes (received_statistic now st)).
Proof.
  intros Hn (Hid & Hst & Hlst & Hr & Hin & Hout) Hrss. split; [|apply wrap_range; lia].
  refine (conj _ (conj _ (conj _ (conj _ (conj _ _))))); try done; by apply received_channels_ok.
Qed.

(** C39: a statistic that a stream process sends is read by the daemon with
    the same stream, type, status, restarts and times; the channels come in
    the opposite order, each as [received], and the memory size is cut to
    the range of [int]. *)
Theorem statistic_roundtrip now st out :
  stream_ok (st_stream_struct st) -> in_u 64 (st_rss_bytes st) -> in_s 64 (st_timestamp st) ->
  statistic_SerializeFields st json_new_object = Ok out ->
  let s := st_stream_struct st in
  statistic_DoDeSerialize now (Some out) = Ok
    {| st_stream_struct :=
         {| ss_id := ss_id s; ss_type := ss_type s; ss_start_time := ss_start_time s;
            ss_loop_start_time := ss_loop_start_time s; ss_restarts := ss_restarts s;
            ss_status := ss_status s;
            ss_input := received now <$> rev (ss_input s);
            ss_output := received now <$> rev (ss_output s) |};
       st_cpu_load := st_cpu_load st;
       st_rss_bytes := u64 (clamp_int (i64 (st_rss_bytes st)));
       st_timestamp := st_timestamp st |}.
Proof. intros Hs Hr Ht Ho. by apply statistic_read. Qed.
End StatsInfoTheorems.

(** ** The theorems at a concrete statistic *)

Section Witnesses.
#[local] Existing Instance Ref.common.
#[local] Existing Instance ref_codes.
#[local] Instance ref_json : JsonC := Ref.json_c (fun _ => None).

Definition sample_channel : ChannelStats :=
  {| cs_id := 3; cs_last_update_time := 1500; cs_total_bytes := 5000;
     cs_prev_total_bytes := 4000; cs_bytes_per_second := 100; cs_desire := "" |}.

Definition sample_statistic : StatisticInfo :=
  {| st_stream_struct :=
       {| ss_id := "s1"; ss_type := ENCODE; ss_start_time := 1; ss_loop_start_time := 2;
          ss_restarts := 3; ss_status := PLAYING;
          ss_input := [sample_channel]; ss_output := [make_channel_stats 7; sample_channel] |};
     st_cpu_load := dbl_of_Z 1; st_rss_bytes := 5000000000; st_timestamp := 9 |}.

Lemma sample_channel_ok : channel_ok sample_channel.
Proof. repeat split; int_range. Qed.

Lemma sample_stream_ok : stream_ok (st_stream_struct sample_statistic).
Proof.
  assert (Hn : channel_ok (make_channel_stats 7)) by (apply make_channel_stats_ok; int_range).
  pose proof sample_channel_ok.
  refine (conj _ (conj _ (conj _ (conj _ (conj _ _))))); try int_range; [done|..];
    cbn; repeat constructor; try done; apply Hn || int_range.
Qed.

Lemma received_diff_witness :
  channel_ok sample_channel /\ GetDiffTotalBytes sample_channel = 1000%Z /\
  exists c', channel_DoDeSerialize 1600 (Some (channel_Serialize sample_channel)) = Ok c' /\
    GetDiffTotalBytes c' = 0%Z.
Proof.
  split; [exact sample_channel_ok|]. split; [reflexivity|].
  eexists. split; [reflexivity|].
  apply (@received_diff Ref.common ref_json (Ref.json_c_ok _) Ref.common_ok 1600 sample_channel);
    [exact sample_channel_ok | reflexivity].
Defined.

Lemma statistic_roundtrip_witness :
  exists out st, statistic_SerializeFields sample_statistic json_new_object = Ok out /\
    statistic_DoDeSerialize 1600 (Some out) = Ok st /\ st_rss_bytes st = 2147483647%Z.
Proof.
  eexists. eexists. split; [reflexivity|]. split.
  - apply (@statistic_roundtrip Ref.common ref_json (Ref.json_c_ok _) Ref.common_ok ref_codes
             1600 sample_statistic);
      [exact sample_stream_ok | int_range | int_range | reflexivity].
  - reflexivity.
Defined.
End Witnesses.
