(* ===== verification/Constants.v ===== *)
(** * Names of GStreamer elements and of configuration fields

    The macros of [src/src/base/gst_constants.h], [src/src/base/config_fields.h]
    and [src/src/base/constants.h] as strings, and the tables of
    [src/src/base/gst_constants.cpp]. *)

From S2P Require Import Prelude.

(** ** Element factories and encoder parameters *)

(* [src/src/base/gst_constants.h:19-19 DECODEBIN] *)
Definition DECODEBIN : string := "decodebin".
(* [src/src/base/gst_constants.h:20-20 FAKE_SINK] *)
Definition FAKE_SINK : string := "fakesink".
(* [src/src/base/gst_constants.h:21-21 TEST_SINK] *)
Definition TEST_SINK : string := "testsink".
(* [src/src/base/gst_constants.h:22-22 VIDEO_TEST_SRC] *)
Definition VIDEO_TEST_SRC : string := "videotestsrc".
(* [src/src/base/gst_constants.h:23-23 AUDIO_TEST_SRC] *)
Definition AUDIO_TEST_SRC : string := "audiotestsrc".
(* [src/src/base/gst_constants.h:24-24 VIDEO_SCREEN_SINK] *)
Definition VIDEO_SCREEN_SINK : string := "autovideosink".
(* [src/src/base/gst_constants.h:25-25 AUDIO_SCREEN_SINK] *)
Definition AUDIO_SCREEN_SINK : string := "autoaudiosink".
(* [src/src/base/gst_constants.h:26-26 QUEUE] *)
Definition QUEUE : string := "queue".
(* [src/src/base/gst_constants.h:27-27 QUEUE2] *)
Definition QUEUE2 : string := "queue2".
(* [src/src/base/gst_constants.h:28-28 H264_PARSE] *)
Definition H264_PARSE : string := "h264parse".
(* [src/src/base/gst_constants.h:29-29 H265_PARSE] *)
Definition H265_PARSE : string := "h265parse".
(* [src/src/base/gst_constants.h:30-30 MPEG_VIDEO_PARSE] *)
Definition MPEG_VIDEO_PARSE : string := "mpegvideoparse".
(* [src/src/base/gst_constants.h:31-31 AAC_PARSE] *)
Definition AAC_PARSE : string := "aacparse".
(* [src/src/base/gst_constants.h:32-32 AC3_PARSE] *)
Definition AC3_PARSE : string := "ac3parse".
(* [src/src/base/gst_constants.h:33-33 MPEG_AUDIO_PARSE] *)
Definition MPEG_AUDIO_PARSE : string := "mpegaudioparse".
(* [src/src/base/gst_constants.h:34-34 TEE] *)
Definition TEE : string := "tee".
(* [src/src/base/gst_constants.h:35-35 FLV_MUX] *)
Definition FLV_MUX : string := "flvmux".
(* [src/src/base/gst_constants.h:36-36 MPEGTS_MUX] *)
Definition MPEGTS_MUX : string := "mpegtsmux".
(* [src/src/base/gst_constants.h:37-37 FILE_SINK] *)
Definition FILE_SINK : string := "filesink".
(* [src/src/base/gst_constants.h:38-38 RTP_MUX] *)
Definition RTP_MUX : string := "rtpmux".
(* [src/src/base/gst_constants.h:39-39 RTP_MPEG2_PAY] *)
Definition RTP_MPEG2_PAY : string := "rtpmp2tpay".
(* [src/src/base/gst_constants.h:40-40 RTP_H264_PAY] *)
Definition RTP_H264_PAY : string := "rtph264pay".
(* [src/src/base/gst_constants.h:41-41 RTP_H265_PAY] *)
Definition RTP_H265_PAY : string := "rtph265pay".
(* [src/src/base/gst_constants.h:42-42 RTP_AAC_PAY] *)
Definition RTP_AAC_PAY : string := "rtpmp4apay".
(* [src/src/base/gst_constants.h:43-43 RTP_AC3_PAY] *)
Definition RTP_AC3_PAY : string := "rtpac3pay".
(* [src/src/base/gst_constants.h:44-44 V4L2_SRC] *)
Definition V4L2_SRC : string := "v4l2src".
(* [src/src/base/gst_constants.h:45-45 SPLIT_MUX_SINK] *)
Definition SPLIT_MUX_SINK : string := "splitmuxsink".
(* [src/src/base/gst_constants.h:46-46 ALSA_SRC] *)
Definition ALSA_SRC : string := "alsasrc".
(* [src/src/base/gst_constants.h:47-47 MULTIFILE_SRC] *)
Definition MULTIFILE_SRC : string := "multifilesrc".
(* [src/src/base/gst_constants.h:48-48 APP_SRC] *)
Definition APP_SRC : string := "appsrc".
(* [src/src/base/gst_constants.h:49-49 FILE_SRC] *)
Definition FILE_SRC : string := "filesrc".
(* [src/src/base/gst_constants.h:50-50 IMAGE_FREEZE] *)
Definition IMAGE_FREEZE : string := "imagefreeze".
(* [src/src/base/gst_constants.h:51-51 CAPS_FILTER] *)
Definition CAPS_FILTER : string := "capsfilter".
(* [src/src/base/gst_constants.h:52-52 AUDIO_CONVERT] *)
Definition AUDIO_CONVERT : string := "audioconvert".
(* [src/src/base/gst_constants.h:53-53 RG_VOLUME] *)
Definition RG_VOLUME : string := "rgvolume".
(* [src/src/base/gst_constants.h:54-54 VOLUME] *)
Definition VOLUME : string := "volume".
(* [src/src/base/gst_constants.h:55-55 FAAC] *)
Definition FAAC : string := "faac".
(* [src/src/base/gst_constants.h:56-56 VOAAC_ENC] *)
Definition VOAAC_ENC : string := "voaacenc".
(* [src/src/base/gst_constants.h:57-57 AUDIO_RESAMPLE] *)
Definition AUDIO_RESAMPLE : string := "audioresample".
(* [src/src/base/gst_constants.h:58-58 LAME_MP3_ENC] *)
Definition LAME_MP3_ENC : string := "lamemp3enc".
(* [src/src/base/gst_constants.h:59-59 VIDEO_CONVERT] *)
Definition VIDEO_CONVERT : string := "videoconvert".
(* [src/src/base/gst_constants.h:60-60 AV_DEINTERLACE] *)
Definition AV_DEINTERLACE : string := "avdeinterlace".
(* [src/src/base/gst_constants.h:61-61 DEINTERLACE] *)
Definition DEINTERLACE : string := "deinterlace".
(* [src/src/base/gst_constants.h:62-62 ASPECT_RATIO] *)
Definition ASPECT_RATIO : string := "aspectratiocrop".
(* [src/src/base/gst_constants.h:63-63 UDP_SINK] *)
Definition UDP_SINK : string := "udpsink".
(* [src/src/base/gst_constants.h:64-64 TCP_SERVER_SINK] *)
Definition TCP_SERVER_SINK : string := "tcpserversink".
(* [src/src/base/gst_constants.h:65-65 RTMP_SINK] *)
Definition RTMP_SINK : string := "rtmpsink".
(* [src/src/base/gst_constants.h:66-66 HLS_SINK] *)
Definition HLS_SINK : string := "hlssink".
(* [src/src/base/gst_constants.h:67-67 SOUP_HTTP_SRC] *)
Definition SOUP_HTTP_SRC : string := "souphttpsrc".
(* [src/src/base/gst_constants.h:68-68 VIDEO_SCALE] *)
Definition VIDEO_SCALE : string := "videoscale".
(* [src/src/base/gst_constants.h:69-69 VIDEO_RATE] *)
Definition VIDEO_RATE : string := "videorate".
(* [src/src/base/gst_constants.h:70-70 MULTIFILE_SINK] *)
Definition MULTIFILE_SINK : string := "multifilesink".
(* [src/src/base/gst_constants.h:72-72 NV_H264_ENC] *)
Definition NV_H264_ENC : string := "nvh264enc".
(* [src/src/base/gst_constants.h:74-74 NV_H264_ENC_PRESET] *)
Definition NV_H264_ENC_PRESET : string := "nvh264enc.preset".
(* [src/src/base/gst_constants.h:76-76 MSDK_H264_ENC] *)
Definition MSDK_H264_ENC : string := "msdkh264enc".
(* [src/src/base/gst_constants.h:78-78 X264_ENC] *)
Definition X264_ENC : string := "x264enc".
(* [src/src/base/gst_constants.h:80-80 X264_ENC_SPEED_PRESET] *)
Definition X264_ENC_SPEED_PRESET : string := "x264enc.speed-preset".
(* [src/src/base/gst_constants.h:81-81 X264_ENC_THREADS] *)
Definition X264_ENC_THREADS : string := "x264enc.threads".
(* [src/src/base/gst_constants.h:82-82 X264_ENC_TUNE] *)
Definition X264_ENC_TUNE : string := "x264enc.tune".
(* [src/src/base/gst_constants.h:83-83 X264_ENC_KEY_INT_MAX] *)
Definition X264_ENC_KEY_INT_MAX : string := "x264enc.key-int-max".
(* [src/src/base/gst_constants.h:84-84 X264_ENC_RC_LOOKAHED] *)
Definition X264_ENC_RC_LOOKAHED : string := "x264enc.rc-lookahead".
(* [src/src/base/gst_constants.h:85-85 X264_ENC_QP_MAX] *)
Definition X264_ENC_QP_MAX : string := "x264enc.qp-max".
(* [src/src/base/gst_constants.h:86-86 X264_ENC_PASS] *)
Definition X264_ENC_PASS : string := "x264enc.pass".
(* [src/src/base/gst_constants.h:87-87 X264_ENC_ME] *)
Definition X264_ENC_ME : string := "x264enc.me".
(* [src/src/base/gst_constants.h:88-88 X264_ENC_PROFILE] *)
Definition X264_ENC_PROFILE : string := "x264enc.profile".
(* [src/src/base/gst_constants.h:89-89 X264_ENC_STREAM_FORMAT] *)
Definition X264_ENC_STREAM_FORMAT : string := "x264enc.stream-format".
(* [src/src/base/gst_constants.h:90-90 X264_ENC_OPTION_STRING] *)
Definition X264_ENC_OPTION_STRING : string := "x264enc.option-string".
(* [src/src/base/gst_constants.h:91-91 X264_ENC_INTERLACED] *)
Definition X264_ENC_INTERLACED : string := "x264enc.interlaced".
(* [src/src/base/gst_constants.h:92-92 X264_ENC_DCT8X8] *)
Definition X264_ENC_DCT8X8 : string := "x264enc.dct8x8".
(* [src/src/base/gst_constants.h:93-93 X264_ENC_B_ADAPT] *)
Definition X264_ENC_B_ADAPT : string := "x264enc.b-adapt".
(* [src/src/base/gst_constants.h:94-94 X264_ENC_BYTE_STREAM] *)
Definition X264_ENC_BYTE_STREAM : string := "x264enc.byte-stream".
(* [src/src/base/gst_constants.h:95-95 X264_ENC_CABAC] *)
Definition X264_ENC_CABAC : string := "x264enc.cabac".
(* [src/src/base/gst_constants.h:96-96 X264_ENC_SLICED_THREADS] *)
Definition X264_ENC_SLICED_THREADS : string := "x264enc.sliced-threads".
(* [src/src/base/gst_constants.h:97-97 X264_ENC_VBV_BUF_CAPACITY] *)
Definition X264_ENC_VBV_BUF_CAPACITY : string := "x264enc.vbv-buf-capacity".
(* [src/src/base/gst_constants.h:98-98 X264_ENC_QUANTIZER] *)
Definition X264_ENC_QUANTIZER : string := "x264enc.quantizer".
(* [src/src/base/gst_constants.h:100-100 X265_ENC] *)
Definition X265_ENC : string := "x265enc".
(* [src/src/base/gst_constants.h:102-102 MPEG2_ENC] *)
Definition MPEG2_ENC : string := "mpeg2enc".
(* [src/src/base/gst_constants.h:105-105 EAVC_ENC] *)
Definition EAVC_ENC : string := "eavcenc".
(* [src/src/base/gst_constants.h:107-107 EAVC_ENC_PRESET] *)
Definition EAVC_ENC_PRESET : string := "eavcenc.preset".
(* [src/src/base/gst_constants.h:108-108 EAVC_ENC_PROFILE] *)
Definition EAVC_ENC_PROFILE : string := "eavcenc.profile".
(* [src/src/base/gst_constants.h:109-109 EAVC_ENC_PERFORMANCE] *)
Definition EAVC_ENC_PERFORMANCE : string := "eavcenc.performance".
(* [src/src/base/gst_constants.h:110-110 EAVC_ENC_BITRATE_MODE] *)
Definition EAVC_ENC_BITRATE_MODE : string := "eavcenc.bitrate-mode".
(* [src/src/base/gst_constants.h:111-111 EAVC_ENC_BITRATE_PASS] *)
Definition EAVC_ENC_BITRATE_PASS : string := "eavcenc.bitrate-pass".
(* [src/src/base/gst_constants.h:112-112 EAVC_ENC_BITRATE_MAX] *)
Definition EAVC_ENC_BITRATE_MAX : string := "eavcenc.bitrate-max".
(* [src/src/base/gst_constants.h:113-113 EAVC_ENC_VBV_SIZE] *)
Definition EAVC_ENC_VBV_SIZE : string := "eavcenc.vbv-size".
(* [src/src/base/gst_constants.h:114-114 EAVC_ENC_PICTURE_MODE] *)
Definition EAVC_ENC_PICTURE_MODE : string := "eavcenc.picture-mode".
(* [src/src/base/gst_constants.h:115-115 EAVC_ENC_ENTROPY_MODE] *)
Definition EAVC_ENC_ENTROPY_MODE : string := "eavcenc.entropy-mode".
(* [src/src/base/gst_constants.h:116-116 EAVC_ENC_GOP_MAX_BCOUNT] *)
Definition EAVC_ENC_GOP_MAX_BCOUNT : string := "eavcenc.gop-max-bcount".
(* [src/src/base/gst_constants.h:117-117 EAVC_ENC_GOP_MAX_LENGTH] *)
Definition EAVC_ENC_GOP_MAX_LENGTH : string := "eavcenc.gop-max-length".
(* [src/src/base/gst_constants.h:118-118 EAVC_ENC_GOP_MIN_LENGTH] *)
Definition EAVC_ENC_GOP_MIN_LENGTH : string := "eavcenc.gop-min-length".
(* [src/src/base/gst_constants.h:119-119 EAVC_ENC_LEVEL] *)
Definition EAVC_ENC_LEVEL : string := "eavcenc.level".
(* [src/src/base/gst_constants.h:120-120 EAVC_ENC_DEBLOCK_MODE] *)
Definition EAVC_ENC_DEBLOCK_MODE : string := "eavcenc.deblock-mode".
(* [src/src/base/gst_constants.h:121-121 EAVC_ENC_DEBLOCK_ALPHA] *)
Definition EAVC_ENC_DEBLOCK_ALPHA : string := "eavcenc.deblock-alpha".
(* [src/src/base/gst_constants.h:122-122 EAVC_ENC_DEBLOCK_BETA] *)
Definition EAVC_ENC_DEBLOCK_BETA : string := "eavcenc.deblock-beta".
(* [src/src/base/gst_constants.h:123-123 EAVC_ENC_INITIAL_DELAY] *)
Definition EAVC_ENC_INITIAL_DELAY : string := "eavcenc.initial-param".
(* [src/src/base/gst_constants.h:124-124 EAVC_ENC_FIELD_ORDER] *)
Definition EAVC_ENC_FIELD_ORDER : string := "eavcenc.field-order".
(* [src/src/base/gst_constants.h:125-125 EAVC_ENC_GOP_ADAPTIVE] *)
Definition EAVC_ENC_GOP_ADAPTIVE : string := "eavcenc.gop-adaptive".
(* [src/src/base/gst_constants.h:127-127 OPEN_H264_ENC] *)
Definition OPEN_H264_ENC : string := "openh264enc".
(* [src/src/base/gst_constants.h:129-129 OPEN_H264_ENC_MUTLITHREAD] *)
Definition OPEN_H264_ENC_MUTLITHREAD : string := "openh264enc.multi-thread".
(* [src/src/base/gst_constants.h:130-130 OPEN_H264_ENC_RATE_CONTROL] *)
Definition OPEN_H264_ENC_RATE_CONTROL : string := "openh264enc.rate-control".
(* [src/src/base/gst_constants.h:131-131 OPEN_H264_ENC_GOP_SIZE] *)
Definition OPEN_H264_ENC_GOP_SIZE : string := "openh264enc.gop-size".
(* [src/src/base/gst_constants.h:132-132 OPEN_H264_ENC_COMPLEXITY] *)
Definition OPEN_H264_ENC_COMPLEXITY : string := "openh264enc.complexity".
(* [src/src/base/gst_constants.h:134-134 UDP_SRC] *)
Definition UDP_SRC : string := "udpsrc".
(* [src/src/base/gst_constants.h:135-135 RTMP_SRC] *)
Definition RTMP_SRC : string := "rtmpsrc".
(* [src/src/base/gst_constants.h:136-136 TCP_SERVER_SRC] *)
Definition TCP_SERVER_SRC : string := "tcpserversrc".
(* [src/src/base/gst_constants.h:138-138 VAAPI_H264_ENC] *)
Definition VAAPI_H264_ENC : string := "vaapih264enc".
(* [src/src/base/gst_constants.h:140-140 VAAPI_H264_ENC_KEYFRAME_PERIOD] *)
Definition VAAPI_H264_ENC_KEYFRAME_PERIOD : string := "vaapih264enc.keyframe-period".
(* [src/src/base/gst_constants.h:141-141 VAAPI_H264_ENC_TUNE] *)
Definition VAAPI_H264_ENC_TUNE : string := "vaapih264enc.tune".
(* [src/src/base/gst_constants.h:142-142 VAAPI_H264_ENC_MAX_BFRAMES] *)
Definition VAAPI_H264_ENC_MAX_BFRAMES : string := "vaapih264enc.max-bframes".
(* [src/src/base/gst_constants.h:143-143 VAAPI_H264_ENC_NUM_SLICES] *)
Definition VAAPI_H264_ENC_NUM_SLICES : string := "vaapih264enc.num-slices".
(* [src/src/base/gst_constants.h:144-144 VAAPI_H264_ENC_INIT_QP] *)
Definition VAAPI_H264_ENC_INIT_QP : string := "vaapih264enc.init-qp".
(* [src/src/base/gst_constants.h:145-145 VAAPI_H264_ENC_MIN_QP] *)
Definition VAAPI_H264_ENC_MIN_QP : string := "vaapih264enc.min-qp".
(* [src/src/base/gst_constants.h:146-146 VAAPI_H264_ENC_RATE_CONTROL] *)
Definition VAAPI_H264_ENC_RATE_CONTROL : string := "vaapih264enc.rate-control".
(* [src/src/base/gst_constants.h:147-147 VAAPI_H264_ENC_CABAC] *)
Definition VAAPI_H264_ENC_CABAC : string := "vaapih264enc.cabac".
(* [src/src/base/gst_constants.h:148-148 VAAPI_H264_ENC_DCT8X8] *)
Definition VAAPI_H264_ENC_DCT8X8 : string := "vaapih264enc.dct8x8".
(* [src/src/base/gst_constants.h:149-149 VAAPI_H264_ENC_B_ADAPT] *)
Definition VAAPI_H264_ENC_B_ADAPT : string := "vaapih264enc.b-adapt".
(* [src/src/base/gst_constants.h:150-150 VAAPI_H264_ENC_CPB_LENGTH] *)
Definition VAAPI_H264_ENC_CPB_LENGTH : string := "vaapih264enc.cpb-length".
(* [src/src/base/gst_constants.h:152-152 VAAPI_MPEG2_ENC] *)
Definition VAAPI_MPEG2_ENC : string := "vaapimpeg2enc".
(* [src/src/base/gst_constants.h:153-153 VAAPI_DECODEBIN] *)
Definition VAAPI_DECODEBIN : string := "vaapidecodebin".
(* [src/src/base/gst_constants.h:154-154 VAAPI_POST_PROC] *)
Definition VAAPI_POST_PROC : string := "vaapipostproc".
(* [src/src/base/gst_constants.h:156-156 GDK_PIXBUF_OVERLAY] *)
Definition GDK_PIXBUF_OVERLAY : string := "gdkpixbufoverlay".
(* [src/src/base/gst_constants.h:157-157 VIDEO_BOX] *)
Definition VIDEO_BOX : string := "videobox".
(* [src/src/base/gst_constants.h:158-158 VIDEO_MIXER] *)
Definition VIDEO_MIXER : string := "videomixer".
(* [src/src/base/gst_constants.h:159-159 AUDIO_MIXER] *)
Definition AUDIO_MIXER : string := "audiomixer".
(* [src/src/base/gst_constants.h:160-160 INTERLEAVE] *)
Definition INTERLEAVE : string := "interleave".
(* [src/src/base/gst_constants.h:161-161 DEINTERLEAVE] *)
Definition DEINTERLEAVE : string := "deinterleave".
(* [src/src/base/gst_constants.h:162-162 CAIRO_OVERLAY] *)
Definition CAIRO_OVERLAY : string := "cairooverlay".
(* [src/src/base/gst_constants.h:163-163 VIDEO_CROP] *)
Definition VIDEO_CROP : string := "videocrop".
(* [src/src/base/gst_constants.h:164-164 SPECTRUM] *)
Definition SPECTRUM : string := "spectrum".
(* [src/src/base/gst_constants.h:165-165 LEVEL] *)
Definition LEVEL : string := "level".
(* [src/src/base/gst_constants.h:166-166 HLS_DEMUX] *)
Definition HLS_DEMUX : string := "hlsdemux".
(* [src/src/base/gst_constants.h:167-167 VIDEO_DECK_SINK] *)
Definition VIDEO_DECK_SINK : string := "decklinkvideosink".
(* [src/src/base/gst_constants.h:168-168 AUDIO_DECK_SINK] *)
Definition AUDIO_DECK_SINK : string := "decklinkaudiosink".
(* [src/src/base/gst_constants.h:169-169 INTERLACE] *)
Definition INTERLACE : string := "interlace".
(* [src/src/base/gst_constants.h:170-170 AUTO_VIDEO_CONVERT] *)
Definition AUTO_VIDEO_CONVERT : string := "autovideoconvert".
(* [src/src/base/gst_constants.h:171-171 TS_PARSE] *)
Definition TS_PARSE : string := "tsparse".
(* [src/src/base/gst_constants.h:172-172 AVDEC_H264] *)
Definition AVDEC_H264 : string := "avdec_h264".
(* [src/src/base/gst_constants.h:173-173 TS_DEMUX] *)
Definition TS_DEMUX : string := "tsdemux".
(* [src/src/base/gst_constants.h:175-175 AVDEC_AC3] *)
Definition AVDEC_AC3 : string := "avdec_ac3".
(* [src/src/base/gst_constants.h:176-176 AVDEC_AC3_FIXED] *)
Definition AVDEC_AC3_FIXED : string := "avdec_ac3_fixed".
(* [src/src/base/gst_constants.h:177-177 AVDEC_AAC] *)
Definition AVDEC_AAC : string := "avdec_aac".
(* [src/src/base/gst_constants.h:178-178 AVDEC_AAC_FIXED] *)
Definition AVDEC_AAC_FIXED : string := "avdec_aac_fixed".
(* [src/src/base/gst_constants.h:179-179 SOUP_HTTP_CLIENT_SINK] *)
Definition SOUP_HTTP_CLIENT_SINK : string := "souphttpclientsink".
(* [src/src/base/gst_constants.h:181-181 MFX_H264_ENC] *)
Definition MFX_H264_ENC : string := "mfxh264enc".
(* [src/src/base/gst_constants.h:183-183 MFX_H264_ENC_PRESET] *)
Definition MFX_H264_ENC_PRESET : string := "mfxh264enc.preset".
(* [src/src/base/gst_constants.h:184-184 MFX_H264_GOP_SIZE] *)
Definition MFX_H264_GOP_SIZE : string := "mfxh264enc.gop-size".
(* [src/src/base/gst_constants.h:185-185 MFX_VPP] *)
Definition MFX_VPP : string := "mfxvpp".
(* [src/src/base/gst_constants.h:186-186 MFX_H264_DEC] *)
Definition MFX_H264_DEC : string := "mfxh264dec".

(** ** Fields of a configuration *)

(* [src/src/base/config_fields.h:17-17 FEEDBACK_DIR_FIELD] *)
Definition FEEDBACK_DIR_FIELD : string := "feedback_directory".
(* [src/src/base/config_fields.h:18-18 LOG_LEVEL_FIELD] *)
Definition LOG_LEVEL_FIELD : string := "log_level".
(* [src/src/base/config_fields.h:19-19 ID_FIELD] *)
Definition ID_FIELD : string := "id".
(* [src/src/base/config_fields.h:20-20 TYPE_FIELD] *)
Definition TYPE_FIELD : string := "type".
(* [src/src/base/config_fields.h:21-21 AUTO_EXIT_TIME_FIELD] *)
Definition AUTO_EXIT_TIME_FIELD : string := "auto_exit_time".
(* [src/src/base/config_fields.h:23-23 INPUT_FIELD] *)
Definition INPUT_FIELD : string := "input".
(* [src/src/base/config_fields.h:24-24 OUTPUT_FIELD] *)
Definition OUTPUT_FIELD : string := "output".
(* [src/src/base/config_fields.h:25-25 HAVE_VIDEO_FIELD] *)
Definition HAVE_VIDEO_FIELD : string := "have_video".
(* [src/src/base/config_fields.h:26-26 HAVE_AUDIO_FIELD] *)
Definition HAVE_AUDIO_FIELD : string := "have_audio".
(* [src/src/base/config_fields.h:27-27 DEINTERLACE_FIELD] *)
Definition DEINTERLACE_FIELD : string := "deinterlace".
(* [src/src/base/config_fields.h:28-28 FRAME_RATE_FIELD] *)
Definition FRAME_RATE_FIELD : string := "framerate".
(* [src/src/base/config_fields.h:29-29 AUDIO_CHANNELS_FIELD] *)
Definition AUDIO_CHANNELS_FIELD : string := "audio_channels".
(* [src/src/base/config_fields.h:30-30 VOLUME_FIELD] *)
Definition VOLUME_FIELD : string := "volume".
(* [src/src/base/config_fields.h:31-31 VIDEO_PARSER_FIELD] *)
Definition VIDEO_PARSER_FIELD : string := "video_parser".
(* [src/src/base/config_fields.h:32-32 AUDIO_PARSER_FIELD] *)
Definition AUDIO_PARSER_FIELD : string := "audio_parser".
(* [src/src/base/config_fields.h:33-33 VIDEO_CODEC_FIELD] *)
Definition VIDEO_CODEC_FIELD : string := "video_codec".
(* [src/src/base/config_fields.h:34-34 AUDIO_CODEC_FIELD] *)
Definition AUDIO_CODEC_FIELD : string := "audio_codec".
(* [src/src/base/config_fields.h:35-35 AUDIO_SELECT_FIELD] *)
Definition AUDIO_SELECT_FIELD : string := "audio_select".
(* [src/src/base/config_fields.h:36-36 TIMESHIFT_DIR_FIELD] *)
Definition TIMESHIFT_DIR_FIELD : string := "timeshift_dir".
(* [src/src/base/config_fields.h:37-37 TIMESHIFT_CHUNK_LIFE_TIME_FIELD] *)
Definition TIMESHIFT_CHUNK_LIFE_TIME_FIELD : string := "timeshift_chunk_life_time".
(* [src/src/base/config_fields.h:38-38 TIMESHIFT_DELAY_FIELD] *)
Definition TIMESHIFT_DELAY_FIELD : string := "timeshift_delay".
(* [src/src/base/config_fields.h:39-39 TIMESHIFT_CHUNK_DURATION_FIELD] *)
Definition TIMESHIFT_CHUNK_DURATION_FIELD : string := "timeshift_chunk_duration".
(* [src/src/base/config_fields.h:40-40 CLEANUP_TS_FIELD] *)
Definition CLEANUP_TS_FIELD : string := "cleanup_ts".
(* [src/src/base/config_fields.h:41-41 LOGO_FIELD] *)
Definition LOGO_FIELD : string := "logo".
(* [src/src/base/config_fields.h:42-42 LOOP_FIELD] *)
Definition LOOP_FIELD : string := "loop".
(* [src/src/base/config_fields.h:43-43 AVFORMAT_FIELD] *)
Definition AVFORMAT_FIELD : string := "avformat".
(* [src/src/base/config_fields.h:44-44 RESTART_ATTEMPTS_FIELD] *)
Definition RESTART_ATTEMPTS_FIELD : string := "restart_attempts".
(* [src/src/base/config_fields.h:45-45 DELAY_TIME_FIELD] *)
Definition DELAY_TIME_FIELD : string := "delay_time".
(* [src/src/base/config_fields.h:46-46 SIZE_FIELD] *)
Definition SIZE_FIELD : string := "size".
(* [src/src/base/config_fields.h:47-47 VIDEO_BIT_RATE_FIELD] *)
Definition VIDEO_BIT_RATE_FIELD : string := "video_bitrate".
(* [src/src/base/config_fields.h:48-48 AUDIO_BIT_RATE_FIELD] *)
Definition AUDIO_BIT_RATE_FIELD : string := "audio_bitrate".
(* [src/src/base/config_fields.h:49-49 MAIN_PROFILE_FIELD] *)
Definition MAIN_PROFILE_FIELD : string := "mainprofile".
(* [src/src/base/config_fields.h:50-50 MAIN_PROFILE_EXTERNAL_FIELD] *)
Definition MAIN_PROFILE_EXTERNAL_FIELD : string := "mainprofile_external".
(* [src/src/base/config_fields.h:51-51 ASPECT_RATIO_FIELD] *)
Definition ASPECT_RATIO_FIELD : string := "aspect_ratio".
(* [src/src/base/config_fields.h:52-52 RELAY_AUDIO_FIELD] *)
Definition RELAY_AUDIO_FIELD : string := "relay_audio".
(* [src/src/base/config_fields.h:53-53 RELAY_VIDEO_FIELD] *)
Definition RELAY_VIDEO_FIELD : string := "relay_video".
(* [src/src/base/config_fields.h:55-55 DECKLINK_VIDEO_MODE_FILELD] *)
Definition DECKLINK_VIDEO_MODE_FILELD : string := "decklink_video_mode".

(** ** Tables *)

(* [src/src/base/gst_constants.cpp:17-18 kSupportedVideoParsers] *)
Definition kSupportedVideoParsers : list string := [TS_PARSE; H264_PARSE; H265_PARSE].

(* [src/src/base/gst_constants.cpp:20-21 kSupportedAudioParsers] *)
Definition kSupportedAudioParsers : list string := [MPEG_AUDIO_PARSE; AAC_PARSE; AC3_PARSE].

(* [src/src/base/gst_constants.cpp:23-25 kSupportedVideoEncoders] *)
Definition kSupportedVideoEncoders : list string :=
  [EAVC_ENC; OPEN_H264_ENC; X264_ENC; NV_H264_ENC; VAAPI_H264_ENC; VAAPI_MPEG2_ENC; MFX_H264_ENC;
   X265_ENC; MSDK_H264_ENC].

(* [src/src/base/gst_constants.cpp:26-27 kSupportedAudioEncoders] *)
Definition kSupportedAudioEncoders : list string := [LAME_MP3_ENC; FAAC; VOAAC_ENC].
