(* ===== verification/Uris.v ===== *)
(** * Inputs, outputs and logos of a stream

    [src/src/base/input_uri.cpp], [src/src/base/output_uri.cpp],
    [src/src/base/logo.cpp], [src/src/base/inputs_outputs.cpp] and the reading of
    arguments in [src/src/utils/]: the JSON texts that a stream's configuration
    holds and the values that the stream process makes of them. *)

From Stdlib Require Import Ascii.
From S2P Require Import Prelude Platform.

(** ** Arguments *)

(* [src/src/utils/arg_reader.h:24-24 ArgsMap] *)
Abbreviation ArgsMap := (gmap string string).

(* [src/src/utils/arg_reader.cpp:22-31 GetKeyValue] *)
Definition GetKeyValue (line : string) (separator : ascii) : string * string :=
  match split_first separator line with
  | Some (key, value) => (key, value)
  | None => (line, "")
  end.

(** The conversion is that of the type the code reads: [conv] may end the
    process, as the JSON conversions below do. *)
(* [src/src/utils/arg_converter.h:30-48 ArgsGetValue] *)
Definition ArgsGetValue {T} (conv : string -> outcome (option T)) (args : ArgsMap) (key : string)
    : outcome (option T) :=
  match args !! key with
  | None => Ok None
  | Some s => conv s
  end.

(** [ArgsGetValue] at the types of the [common] library, whose conversions
    return. *)
Definition args_get {T} (conv : string -> option T) (args : ArgsMap) (key : string) : option T :=
  s ← args !! key; conv s.

(* [src/src/utils/arg_converter.cpp:20-27 ConvertFromString] *)
Definition conv_string (from : string) : option string := Some from.

Section Uris.
Context `{JsonC} `{UrlLib} `{PathLib}.

(** ** InputUri *)

(** [user_agent_t] is an enumeration whose codes GSTREAMER, VLC and FFMPEG
    are 0, 1 and 2; the code casts any integer to it. *)
(* [src/src/base/input_uri.h:51-55 InputUri] *)
Record InputUri := {
  iu_id : Z;
  iu_input : url;
  iu_user_agent : Z
}.

(* [src/src/base/input_uri.cpp:30-33 InputUri::InputUri] *)
Definition input_uri_default : InputUri :=
  {| iu_id := 0; iu_input := url_empty; iu_user_agent := 0 |}.

(* [src/src/base/input_uri.cpp:59-61 InputUri::Equals] *)
Definition InputUri_Equals (a b : InputUri) : bool :=
  bool_decide (iu_id a = iu_id b) && bool_decide (iu_input a = iu_input b).

(* [src/src/base/input_uri.cpp:63-86 InputUri::DoDeSerialize] *)
Definition InputUri_DoDeSerialize (serialized : option json) : outcome InputUri :=
  let res := field serialized "id"
    (fun jid r => {| iu_id := u64 (json_get_int64 jid); iu_input := iu_input r;
                     iu_user_agent := iu_user_agent r |}) input_uri_default in
  res ← field_m serialized "uri"
    (fun juri r => s ← get_std_string juri;
       Ok {| iu_id := iu_id r; iu_input := url_of_string s; iu_user_agent := iu_user_agent r |}) res;
  let res := field serialized "user_agent"
    (fun ja r => {| iu_id := iu_id r; iu_input := iu_input r; iu_user_agent := json_get_int ja |}) res in
  Ok res.

(* [src/src/base/input_uri.cpp:88-95 InputUri::SerializeFields] *)
Definition InputUri_SerializeFields (u : InputUri) (out : json) : json :=
  json_add_all out
    [ ("id", json_new_int64 (i64 (iu_id u)));
      ("uri", json_new_string (url_to_string (iu_input u)));
      ("user_agent", json_new_int (iu_user_agent u)) ].

(* [src/src/base/input_uri.cpp:97-99 IsTestInputUrl] *)
Definition IsTestInputUrl (u : InputUri) : bool := bool_decide (iu_input u = url_of_string "test").

(** ** OutputUri *)

(* [src/src/base/output_uri.h:49-52 OutputUri] *)
Record OutputUri := {
  ou_id : Z;
  ou_output : url;
  ou_http_root : string
}.

(* [src/src/base/output_uri.cpp:30-33 OutputUri::OutputUri] *)
Definition output_uri_default : OutputUri :=
  {| ou_id := 0; ou_output := url_empty; ou_http_root := dir_default |}.

(* [src/src/base/output_uri.cpp:59-61 OutputUri::Equals] *)
Definition OutputUri_Equals (a b : OutputUri) : bool :=
  bool_decide (ou_id a = ou_id b) && bool_decide (ou_output a = ou_output b)
  && bool_decide (ou_http_root a = ou_http_root b).

(* [src/src/base/output_uri.cpp:63-87 OutputUri::DoDeSerialize] *)
Definition OutputUri_DoDeSerialize (serialized : option json) : outcome OutputUri :=
  let res := field serialized "id"
    (fun jid r => {| ou_id := u64 (json_get_int64 jid); ou_output := ou_output r;
                     ou_http_root := ou_http_root r |}) output_uri_default in
  res ← field_m serialized "uri"
    (fun juri r => s ← get_std_string juri;
       Ok {| ou_id := ou_id r; ou_output := url_of_string s; ou_http_root := ou_http_root r |}) res;
  field_m serialized "http_root"
    (fun jr r => s ← get_std_string jr;
       Ok {| ou_id := ou_id r; ou_output := ou_output r; ou_http_root := dir_path s |}) res.

(* [src/src/base/output_uri.cpp:89-98 OutputUri::SerializeFields] *)
Definition OutputUri_SerializeFields (u : OutputUri) (out : json) : json :=
  json_add_all out
    [ ("id", json_new_int64 (i64 (ou_id u)));
      ("uri", json_new_string (url_to_string (ou_output u)));
      ("http_root", json_new_string (ou_http_root u)) ].

(* [src/src/base/output_uri.cpp:100-102 IsTestOutputUrl] *)
Definition IsTestOutputUrl (u : OutputUri) : bool := bool_decide (ou_output u = url_of_string "test").

(** ** Lists of inputs and outputs *)

(** The elements that deserialize, in order. *)
(* [src/src/base/inputs_outputs.cpp:50-57 ConvertFromString] *)
Fixpoint deserialize_all {A} (f : option json -> outcome A) (items : list (option json))
    : outcome (list A) :=
  match items with
  | [] => Ok []
  | jurl :: rest =>
      match DeSerialize f jurl with
      | Ok u => us ← deserialize_all f rest; Ok (u :: us)
      | Err _ => deserialize_all f rest
      | Abort r => Abort r
      end
  end.

Definition conv_urls {A} (f : option json -> outcome A) (text : string) : outcome (option (list A)) :=
  match json_tokener_parse text with
  | None => Ok None
  | Some obj =>
      match jget (Some obj) "urls" with
      | None => Ok None
      | Some jurls => items ← get_array jurls; us ← deserialize_all f items; Ok (Some us)
      end
  end.

(* [src/src/base/inputs_outputs.cpp:31-61 ConvertFromString] *)
Definition conv_output (output_urls : string) : outcome (option (list OutputUri)) :=
  conv_urls OutputUri_DoDeSerialize output_urls.

(* [src/src/base/inputs_outputs.cpp:63-93 ConvertFromString] *)
Definition conv_input (input_urls : string) : outcome (option (list InputUri)) :=
  conv_urls InputUri_DoDeSerialize input_urls.

(* [src/src/base/inputs_outputs.cpp:98-110 read_input] *)
Definition read_input (config : ArgsMap) : outcome (option (list InputUri)) :=
  ArgsGetValue conv_input config "input".

(* [src/src/base/inputs_outputs.cpp:112-124 read_output] *)
Definition read_output (config : ArgsMap) : outcome (option (list OutputUri)) :=
  ArgsGetValue conv_output config "output".

(** ** Logo *)

(* [src/src/base/logo.h:44-48 Logo] *)
Record Logo := {
  logo_path : url;
  logo_position : Z * Z;
  logo_alpha : double
}.

(* [src/src/base/logo.cpp:32-35 Logo::Logo] *)
Definition logo_default : Logo :=
  {| logo_path := url_empty; logo_position := point_default; logo_alpha := dbl_of_Z 0 |}.

(* [src/src/base/logo.cpp:37-39 Logo::IsValid] *)
Definition Logo_IsValid (l : Logo) : bool := url_is_valid (logo_path l).

(* [src/src/base/logo.cpp:79-114 ConvertFromString] *)
Definition conv_logo (from : string) : outcome (option Logo) :=
  match json_tokener_parse from with
  | None => Ok None
  | Some obj =>
      let obj := Some obj in
      res ← field_m obj "path"
        (fun j r => s ← get_std_string j;
           Ok {| logo_path := url_of_string s; logo_position := logo_position r;
                 logo_alpha := logo_alpha r |}) logo_default;
      res ← field_m obj "position"
        (fun j r => s ← get_std_string j;
           match conv_point s with
           | Some pt => Ok {| logo_path := logo_path r; logo_position := pt; logo_alpha := logo_alpha r |}
           | None => Ok r
           end) res;
      let res := field obj "alpha"
        (fun j r => {| logo_path := logo_path r; logo_position := logo_position r;
                       logo_alpha := json_get_double j |}) res in
      Ok (Some res)
  end.
End Uris.

#[export] Instance InputUri_eq_dec `{UrlLib} : EqDecision InputUri.
Proof. solve_decision. Defined.
#[export] Instance OutputUri_eq_dec `{UrlLib} : EqDecision OutputUri.
Proof. solve_decision. Defined.

Section UrisTheorems.
Context `{JsonCOk} `{UrlLibOk} `{PathLib}.

Lemma InputUri_roundtrip u :
  in_u 64 (iu_id u) -> in_s 32 (iu_user_agent u) ->
  InputUri_DoDeSerialize (Some (InputUri_SerializeFields u json_new_object)) = Ok u.
Proof.
  intros Hid Hua. unfold InputUri_DoDeSerialize, field, field_m, InputUri_SerializeFields.
  json_lookup. destruct u. cbn -[Z.pow] in *.
  rewrite json_get_int64_new, json_get_int_new, json_get_string_new, url_print_parse, u64_i64
    by (done || by apply swrap_range).
  done.
Qed.

Lemma OutputUri_roundtrip u :
  in_u 64 (ou_id u) -> dir_path (ou_http_root u) = ou_http_root u ->
  OutputUri_DoDeSerialize (Some (OutputUri_SerializeFields u json_new_object)) = Ok u.
Proof.
  intros Hid Hr. unfold OutputUri_DoDeSerialize, field, field_m, OutputUri_SerializeFields.
  json_lookup. destruct u. cbn -[Z.pow] in *.
  by rewrite json_get_int64_new, !json_get_string_new, url_print_parse, u64_i64, Hr
    by (done || by apply swrap_range).
Qed.

(** The text of a configuration's [input] or [output]. *)
Definition urls_object {A} (ser : A -> json -> json) (us : list A) : json :=
  json_add_all json_new_object
    [("urls", json_new_array ((fun u => Some (ser u json_new_object)) <$> us))].

Lemma deserialize_all_ok {A} (f : option json -> outcome A) ser (us : list A) :
  Forall (fun u => f (Some (ser u json_new_object)) = Ok u) us ->
  deserialize_all f ((fun u => Some (ser u json_new_object)) <$> us) = Ok us.
Proof.
  induction 1 as [|u us Hu _ IH]; [done|]. cbn. by rewrite Hu, IH.
Qed.

Lemma conv_urls_print {A} (f : option json -> outcome A) ser text (us : list A) :
  json_tokener_parse text = Some (urls_object ser us) ->
  Forall (fun u => f (Some (ser u json_new_object)) = Ok u) us ->
  conv_urls f text = Ok (Some us).
Proof.
  intros Hp Hus. unfold conv_urls, urls_object in *. rewrite Hp. json_lookup.
  unfold get_array. rewrite json_array_new. cbn -[deserialize_all].
  by rewrite deserialize_all_ok.
Qed.

(** The outputs that a configuration lists are read back, in order and
    with nothing lost, from the text that their serializations make. *)
Theorem read_output_roundtrip config text us :
  json_tokener_parse text = Some (urls_object OutputUri_SerializeFields us) ->
  Forall (fun u => in_u 64 (ou_id u) /\ dir_path (ou_http_root u) = ou_http_root u) us ->
  config !! "output" = Some text ->
  read_output config = Ok (Some us).
Proof.
  intros Hp Hus Hc. unfold read_output, ArgsGetValue. rewrite Hc.
  apply (conv_urls_print _ OutputUri_SerializeFields); [done|].
  eapply Forall_impl; [done|]. intros u [??]. by apply OutputUri_roundtrip.
Qed.

(** The same for the inputs. *)
Theorem read_input_roundtrip config text us :
  json_tokener_parse text = Some (urls_object InputUri_SerializeFields us) ->
  Forall (fun u => in_u 64 (iu_id u) /\ in_s 32 (iu_user_agent u)) us ->
  config !! "input" = Some text ->
  read_input config = Ok (Some us).
Proof.
  intros Hp Hus Hc. unfold read_input, ArgsGetValue. rewrite Hc.
  apply (conv_urls_print _ InputUri_SerializeFields); [done|].
  eapply Forall_impl; [done|]. intros u [??]. by apply InputUri_roundtrip.
Qed.
End UrisTheorems.

(** ** The theorems at concrete configurations *)

Section Witnesses.
#[local] Existing Instance Ref.common.
#[local] Existing Instance Ref.urls.
#[local] Existing Instance Ref.paths.

Definition sample_outputs : list OutputUri :=
  [ {| ou_id := 1; ou_output := "http://127.0.0.1/a/master.m3u8"; ou_http_root := "/tmp/a" |};
    {| ou_id := 2; ou_output := "udp://225.0.0.1:5000"; ou_http_root := "" |} ].

Definition sample_inputs : list InputUri :=
  [ {| iu_id := 5; iu_input := "http://host/list.m3u8"; iu_user_agent := 1 |} ].

(** Reading the text ["out"] gives the serialized outputs, ["in"] the inputs. *)
#[local] Instance sample_json : JsonC :=
  Ref.json_c (fun s =>
    if decide (s = "out") then
      Some (@urls_object _ (Ref.json_c (fun _ => None)) _
        (@OutputUri_SerializeFields _ (Ref.json_c (fun _ => None)) _) sample_outputs)
    else if decide (s = "in") then
      Some (@urls_object _ (Ref.json_c (fun _ => None)) _
        (@InputUri_SerializeFields _ (Ref.json_c (fun _ => None)) _) sample_inputs)
    else None).

Lemma read_output_roundtrip_witness :
  read_output {["output" := "out"]} = Ok (Some sample_outputs).
Proof.
  apply (@read_output_roundtrip Ref.common sample_json (Ref.json_c_ok _)
           Ref.urls Ref.urls_ok Ref.paths {["output" := "out"]} "out").
  - reflexivity.
  - repeat constructor; int_range.
  - reflexivity.
Defined.

Lemma read_input_roundtrip_witness :
  read_input {["input" := "in"]} = Ok (Some sample_inputs).
Proof.
  apply (@read_input_roundtrip Ref.common sample_json (Ref.json_c_ok _)
           Ref.urls Ref.urls_ok {["input" := "in"]} "in").
  - reflexivity.
  - repeat constructor; int_range.
  - reflexivity.
Defined.
End Witnesses.
