(* ===== verification/Options.v ===== *)
(** * Validation of a stream's configuration

    [src/src/server/options/options.cpp]: the daemon receives the configuration
    of a stream as a JSON text, keeps the options it knows whose values are
    valid, and starts the stream with them. *)

From S2P Require Import Prelude Platform StreamTypes Constants Uris.

(* [src/src/server/options/options.h:27-27 Validity] *)
Inductive Validity := VALID | INVALID | FATAL.
#[export] Instance Validity_eq_dec : EqDecision Validity.
Proof. solve_decision. Defined.

Section Options.
Context `{JsonC} `{UrlLib} `{PathLib}.
Local Open Scope Z_scope.

(** The validators of [output] and [logo] read JSON and may end the process;
    the others always return. *)
(* [src/src/server/options/options.h:29-31 option_t] *)
Definition option_t : Type := string * (string -> outcome Validity).

(** ** Validators *)

(** [common::ConvertFromString(value, &out) ? VALID : INVALID]. *)
Definition accepted {A} (r : option A) : Validity :=
  match r with Some _ => VALID | None => INVALID end.

(** The loops over the tables of supported names. *)
Definition supported (names : list string) (value : string) : Validity :=
  if List.existsb (String.eqb value) names then VALID else INVALID.

(* [src/src/server/options/options.cpp:45-53 validate_range] *)
Definition validate_range {T} (conv : string -> option T) (le : T -> T -> bool)
    (value : string) (min max : T) (is_fatal : bool) : outcome Validity :=
  match conv value with
  | Some i => if le min i && le i max then Ok VALID
              else Ok (if is_fatal then FATAL else INVALID)
  | None => Ok (if is_fatal then FATAL else INVALID)
  end.

Definition validate_range_int := validate_range conv_i32 Z.leb.

(* [src/src/server/options/options.cpp:55-62 validate_is_positive] *)
Definition validate_is_positive (value : string) (is_fatal : bool) : outcome Validity :=
  match conv_i64 value with
  | Some i => if 0 <=? i then Ok VALID else Ok (if is_fatal then FATAL else INVALID)
  | None => Ok (if is_fatal then FATAL else INVALID)
  end.

(** The validators that list the values they allow. *)
Definition validate_allowed (allowed_values : list Z) (value : string) : outcome Validity :=
  match conv_i32 value with
  | None => Ok INVALID
  | Some v => Ok (if List.existsb (fun i => i =? v) allowed_values then VALID else INVALID)
  end.

(* [src/src/server/options/options.cpp:41-43 dont_validate] *)
Definition dont_validate (value : string) : outcome Validity :=
  Ok VALID.

(* [src/src/server/options/options.cpp:64-66 validate_id] *)
Definition validate_id (value : string) : outcome Validity :=
  Ok (if is_empty value then INVALID else VALID).

(* [src/src/server/options/options.cpp:68-71 validate_input] *)
Definition validate_input (value : string) : outcome Validity :=
  Ok VALID.

(* [src/src/server/options/options.cpp:73-79 validate_output] *)
Definition validate_output (value : string) : outcome Validity :=
  output ← conv_output value; Ok (accepted output).

(* [src/src/server/options/options.cpp:81-83 validate_restart_attempts] *)
Definition validate_restart_attempts (value : string) : outcome Validity :=
  validate_range conv_u64 Z.leb value 1 (2 ^ 64 - 1) false.

(* [src/src/server/options/options.cpp:85-87 validate_feedback_dir] *)
Definition validate_feedback_dir (value : string) : outcome Validity :=
  Ok (if is_valid_path value then VALID else INVALID).

(* [src/src/server/options/options.cpp:89-91 validate_timeshift_dir] *)
Definition validate_timeshift_dir (value : string) : outcome Validity :=
  Ok (if is_valid_path value then VALID else FATAL).

(* [src/src/server/options/options.cpp:93-95 validate_timeshift_chunk_life_time] *)
Definition validate_timeshift_chunk_life_time (value : string) : outcome Validity :=
  validate_range_int value 0 (12 * 24 * 3600) false.

(* [src/src/server/options/options.cpp:97-99 validate_timeshift_delay] *)
Definition validate_timeshift_delay (value : string) : outcome Validity :=
  validate_range_int value 0 (12 * 24 * 3600) false.

(* [src/src/server/options/options.cpp:101-109 validate_video_parser] *)
Definition validate_video_parser (value : string) : outcome Validity :=
  Ok (supported kSupportedVideoParsers value).

(* [src/src/server/options/options.cpp:111-119 validate_audio_parser] *)
Definition validate_audio_parser (value : string) : outcome Validity :=
  Ok (supported kSupportedAudioParsers value).

(* [src/src/server/options/options.cpp:121-129 validate_video_codec] *)
Definition validate_video_codec (value : string) : outcome Validity :=
  Ok (supported kSupportedVideoEncoders value).

(* [src/src/server/options/options.cpp:131-139 validate_audio_codec] *)
Definition validate_audio_codec (value : string) : outcome Validity :=
  Ok (supported kSupportedAudioEncoders value).

(* [src/src/server/options/options.cpp:141-143 validate_type] *)
Definition validate_type (value : string) : outcome Validity :=
  validate_range conv_u8 Z.leb value (stream_type_code PROXY) (stream_type_code SCREEN) false.

(* [src/src/server/options/options.cpp:145-148 validate_log_level] *)
Definition validate_log_level (value : string) : outcome Validity :=
  validate_range_int value LOG_LEVEL_EMERG LOG_LEVEL_DEBUG false.

(* [src/src/server/options/options.cpp:150-152 validate_volume] *)
Definition validate_volume (value : string) : outcome Validity :=
  validate_range conv_double dbl_le value (dbl_of_Z 0) (dbl_of_Z 10) false.

(* [src/src/server/options/options.cpp:154-156 validate_delay_time] *)
Definition validate_delay_time (value : string) : outcome Validity :=
  validate_is_positive value false.

(* [src/src/server/options/options.cpp:158-160 validate_timeshift_chunk_duration] *)
Definition validate_timeshift_chunk_duration (value : string) : outcome Validity :=
  validate_is_positive value false.

(* [src/src/server/options/options.cpp:162-164 validate_auto_exit_time] *)
Definition validate_auto_exit_time (value : string) : outcome Validity :=
  validate_is_positive value false.

(* [src/src/server/options/options.cpp:166-169 validate_size] *)
Definition validate_size (value : string) : outcome Validity :=
  Ok (accepted (conv_size value)).

(* [src/src/server/options/options.cpp:171-174 validate_cleanupts] *)
Definition validate_cleanupts (value : string) : outcome Validity :=
  Ok (accepted (conv_bool value)).

(* [src/src/server/options/options.cpp:176-179 validate_logo] *)
Definition validate_logo (value : string) : outcome Validity :=
  logo ← conv_logo value; Ok (accepted logo).

(* [src/src/server/options/options.cpp:181-183 validate_framerate] *)
Definition validate_framerate (value : string) : outcome Validity :=
  validate_is_positive value false.

(* [src/src/server/options/options.cpp:185-188 validate_aspect_ratio] *)
Definition validate_aspect_ratio (value : string) : outcome Validity :=
  Ok (accepted (conv_rational value)).

(* [src/src/server/options/options.cpp:190-192 validate_decklink_video_mode] *)
Definition validate_decklink_video_mode (value : string) : outcome Validity :=
  validate_range_int value 0 30 false.

(* [src/src/server/options/options.cpp:194-196 validate_video_bitrate] *)
Definition validate_video_bitrate (value : string) : outcome Validity :=
  validate_is_positive value false.

(* [src/src/server/options/options.cpp:198-200 validate_audio_bitrate] *)
Definition validate_audio_bitrate (value : string) : outcome Validity :=
  validate_is_positive value false.

(* [src/src/server/options/options.cpp:202-204 validate_audio_channels] *)
Definition validate_audio_channels (value : string) : outcome Validity :=
  validate_is_positive value false.

(* [src/src/server/options/options.cpp:206-209 validate_audio_select] *)
Definition validate_audio_select (value : string) : outcome Validity :=
  Ok (accepted (conv_i32 value)).

(* [src/src/server/options/options.cpp:211-213 validate_mfxh264_preset] *)
Definition validate_mfxh264_preset (value : string) : outcome Validity :=
  validate_range_int value 0 7 false.

(* [src/src/server/options/options.cpp:215-217 validate_mfxh264_gopsize] *)
Definition validate_mfxh264_gopsize (value : string) : outcome Validity :=
  validate_range_int value 0 65535 false.

(* [src/src/server/options/options.cpp:219-221 validate_nvh264_preset] *)
Definition validate_nvh264_preset (value : string) : outcome Validity :=
  validate_range conv_u16 Z.leb value 0 (2 ^ 16 - 1) false.

(* [src/src/server/options/options.cpp:225-227 validate_x264_speed_preset] *)
Definition validate_x264_speed_preset (value : string) : outcome Validity :=
  validate_range_int value 0 10 false.

(* [src/src/server/options/options.cpp:229-231 validate_x264_threads] *)
Definition validate_x264_threads (value : string) : outcome Validity :=
  validate_range_int value 0 (2 ^ 31 - 1) false.

(* [src/src/server/options/options.cpp:233-246 validate_x264_tune] *)
Definition validate_x264_tune (value : string) : outcome Validity :=
  validate_allowed [0; 1; 2; 4] value.

(* [src/src/server/options/options.cpp:248-250 validate_x264_key_int_max] *)
Definition validate_x264_key_int_max (value : string) : outcome Validity :=
  validate_range_int value 0 (2 ^ 31 - 1) false.

(* [src/src/server/options/options.cpp:252-254 validate_x264_vbv_buf_capacity] *)
Definition validate_x264_vbv_buf_capacity (value : string) : outcome Validity :=
  validate_range_int value 0 10000 false.

(* [src/src/server/options/options.cpp:256-258 validate_x264_rc_lookahead] *)
Definition validate_x264_rc_lookahead (value : string) : outcome Validity :=
  validate_range_int value 0 250 false.

(* [src/src/server/options/options.cpp:260-262 validate_x264_qp_max] *)
Definition validate_x264_qp_max (value : string) : outcome Validity :=
  validate_range_int value 0 51 false.

(* [src/src/server/options/options.cpp:264-277 validate_x264_pass] *)
Definition validate_x264_pass (value : string) : outcome Validity :=
  validate_allowed [0; 4; 5; 17; 18; 19] value.

(* [src/src/server/options/options.cpp:279-281 validate_x264_me] *)
Definition validate_x264_me (value : string) : outcome Validity :=
  validate_range_int value 0 4 false.

(* [src/src/server/options/options.cpp:285-287 validate_vaapih264_keyframe_period] *)
Definition validate_vaapih264_keyframe_period (value : string) : outcome Validity :=
  validate_range_int value 0 300 false.

(* [src/src/server/options/options.cpp:289-301 validate_vaapih264_tune] *)
Definition validate_vaapih264_tune (value : string) : outcome Validity :=
  validate_allowed [0; 1; 3] value.

(* [src/src/server/options/options.cpp:303-305 validate_vaapih264_max_bframes] *)
Definition validate_vaapih264_max_bframes (value : string) : outcome Validity :=
  validate_range_int value 0 10 false.

(* [src/src/server/options/options.cpp:307-309 validate_vaapih264_num_slices] *)
Definition validate_vaapih264_num_slices (value : string) : outcome Validity :=
  validate_range_int value 1 200 false.

(* [src/src/server/options/options.cpp:311-313 validate_vaapih264_init_qp] *)
Definition validate_vaapih264_init_qp (value : string) : outcome Validity :=
  validate_range_int value 1 51 false.

(* [src/src/server/options/options.cpp:315-317 validate_vaapih264_min_qp] *)
Definition validate_vaapih264_min_qp (value : string) : outcome Validity :=
  validate_range_int value 1 51 false.

(* [src/src/server/options/options.cpp:319-332 validate_vaapih264_rate_control] *)
Definition validate_vaapih264_rate_control (value : string) : outcome Validity :=
  validate_allowed [1; 2; 4; 5] value.

(* [src/src/server/options/options.cpp:334-336 validate_vaapih264_cpb_length] *)
Definition validate_vaapih264_cpb_length (value : string) : outcome Validity :=
  validate_range_int value 0 10000 false.

(* [src/src/server/options/options.cpp:338-340 dummy_validator_integer] *)
Definition dummy_validator_integer (value : string) : outcome Validity :=
  validate_range_int value (- 2 ^ 31) (2 ^ 31 - 1) false.

(* [src/src/server/options/options.cpp:342-344 dummy_validator_string] *)
Definition dummy_validator_string (value : string) : outcome Validity :=
  Ok (if is_empty value then INVALID else VALID).


(** ** The table of options *)

(** The constructor refuses two options of the same name. *)
(* [src/src/server/options/options.cpp:348-359 ConstantOptions::ConstantOptions] *)
Fixpoint ConstantOptions_push (done l : list option_t) : outcome (list option_t) :=
  match l with
  | [] => Ok done
  | opt :: l' =>
      if List.existsb (fun opt2 => String.eqb opt2.1 opt.1) done
      then Abort (NotReached "Only unique options")
      else ConstantOptions_push (done ++ [opt]) l'
  end.

Definition ConstantOptions (l : list option_t) : outcome (list option_t) :=
  ConstantOptions_push [] l.

(* [src/src/server/options/options.cpp:422-513 FindOption] *)
Definition ALLOWED_OPTIONS : list option_t :=
  [(ID_FIELD, validate_id);
   (TYPE_FIELD, validate_type);
   (FEEDBACK_DIR_FIELD, validate_feedback_dir);
   (LOG_LEVEL_FIELD, validate_log_level);
   (INPUT_FIELD, validate_input);
   (OUTPUT_FIELD, validate_output);
   (RESTART_ATTEMPTS_FIELD, validate_restart_attempts);
   (AUTO_EXIT_TIME_FIELD, validate_auto_exit_time);
   (TIMESHIFT_DIR_FIELD, validate_timeshift_dir);
   (TIMESHIFT_CHUNK_LIFE_TIME_FIELD, validate_timeshift_chunk_life_time);
   (TIMESHIFT_DELAY_FIELD, validate_timeshift_delay);
   (MAIN_PROFILE_FIELD, dont_validate);
   (MAIN_PROFILE_EXTERNAL_FIELD, dont_validate);
   (VOLUME_FIELD, validate_volume);
   (DELAY_TIME_FIELD, validate_delay_time);
   (TIMESHIFT_CHUNK_DURATION_FIELD, validate_timeshift_chunk_duration);
   (VIDEO_PARSER_FIELD, validate_video_parser);
   (AUDIO_PARSER_FIELD, validate_audio_parser);
   (AUDIO_CODEC_FIELD, validate_audio_codec);
   (VIDEO_CODEC_FIELD, validate_video_codec);
   (HAVE_VIDEO_FIELD, dont_validate);
   (HAVE_AUDIO_FIELD, dont_validate);
   (DEINTERLACE_FIELD, dont_validate);
   (RELAY_AUDIO_FIELD, dont_validate);
   (RELAY_VIDEO_FIELD, dont_validate);
   (LOOP_FIELD, dont_validate);
   (AVFORMAT_FIELD, dont_validate);
   (SIZE_FIELD, validate_size);
   (CLEANUP_TS_FIELD, validate_cleanupts);
   (LOGO_FIELD, validate_logo);
   (FRAME_RATE_FIELD, validate_framerate);
   (ASPECT_RATIO_FIELD, validate_aspect_ratio);
   (VIDEO_BIT_RATE_FIELD, validate_video_bitrate);
   (AUDIO_BIT_RATE_FIELD, validate_audio_bitrate);
   (AUDIO_CHANNELS_FIELD, validate_audio_channels);
   (AUDIO_SELECT_FIELD, validate_audio_select);
   (DECKLINK_VIDEO_MODE_FILELD, validate_decklink_video_mode);
   (NV_H264_ENC_PRESET, validate_nvh264_preset);
   (MFX_H264_ENC_PRESET, validate_mfxh264_preset);
   (MFX_H264_GOP_SIZE, validate_mfxh264_gopsize);
   (X264_ENC_SPEED_PRESET, validate_x264_speed_preset);
   (X264_ENC_THREADS, validate_x264_threads);
   (X264_ENC_TUNE, validate_x264_tune);
   (X264_ENC_KEY_INT_MAX, validate_x264_key_int_max);
   (X264_ENC_VBV_BUF_CAPACITY, validate_x264_vbv_buf_capacity);
   (X264_ENC_RC_LOOKAHED, validate_x264_rc_lookahead);
   (X264_ENC_QP_MAX, validate_x264_qp_max);
   (X264_ENC_PASS, validate_x264_pass);
   (X264_ENC_ME, validate_x264_me);
   (X264_ENC_PROFILE, dummy_validator_string);
   (X264_ENC_STREAM_FORMAT, dummy_validator_string);
   (X264_ENC_OPTION_STRING, dont_validate);
   (X264_ENC_INTERLACED, dont_validate);
   (X264_ENC_DCT8X8, dont_validate);
   (X264_ENC_B_ADAPT, dont_validate);
   (X264_ENC_BYTE_STREAM, dont_validate);
   (X264_ENC_CABAC, dont_validate);
   (X264_ENC_SLICED_THREADS, dont_validate);
   (X264_ENC_QUANTIZER, dont_validate);
   (VAAPI_H264_ENC_KEYFRAME_PERIOD, validate_vaapih264_keyframe_period);
   (VAAPI_H264_ENC_TUNE, validate_vaapih264_tune);
   (VAAPI_H264_ENC_MAX_BFRAMES, validate_vaapih264_max_bframes);
   (VAAPI_H264_ENC_NUM_SLICES, validate_vaapih264_num_slices);
   (VAAPI_H264_ENC_INIT_QP, validate_vaapih264_init_qp);
   (VAAPI_H264_ENC_MIN_QP, validate_vaapih264_min_qp);
   (VAAPI_H264_ENC_RATE_CONTROL, validate_vaapih264_rate_control);
   (VAAPI_H264_ENC_CABAC, dont_validate);
   (VAAPI_H264_ENC_DCT8X8, dont_validate);
   (VAAPI_H264_ENC_CPB_LENGTH, validate_vaapih264_cpb_length);
   (OPEN_H264_ENC_MUTLITHREAD, dont_validate);
   (OPEN_H264_ENC_COMPLEXITY, dummy_validator_integer);
   (OPEN_H264_ENC_RATE_CONTROL, dummy_validator_integer);
   (OPEN_H264_ENC_GOP_SIZE, dummy_validator_integer);
   (EAVC_ENC_PRESET, dummy_validator_integer);
   (EAVC_ENC_PROFILE, dummy_validator_integer);
   (EAVC_ENC_PERFORMANCE, dummy_validator_integer);
   (EAVC_ENC_BITRATE_MODE, dummy_validator_integer);
   (EAVC_ENC_BITRATE_PASS, dummy_validator_integer);
   (EAVC_ENC_BITRATE_MAX, dummy_validator_integer);
   (EAVC_ENC_VBV_SIZE, dummy_validator_integer);
   (EAVC_ENC_PICTURE_MODE, dummy_validator_integer);
   (EAVC_ENC_ENTROPY_MODE, dummy_validator_integer);
   (EAVC_ENC_GOP_MAX_BCOUNT, dummy_validator_integer);
   (EAVC_ENC_GOP_MAX_LENGTH, dummy_validator_integer);
   (EAVC_ENC_GOP_MIN_LENGTH, dummy_validator_integer);
   (EAVC_ENC_LEVEL, dummy_validator_integer);
   (EAVC_ENC_DEBLOCK_MODE, dummy_validator_integer);
   (EAVC_ENC_DEBLOCK_ALPHA, dummy_validator_integer);
   (EAVC_ENC_DEBLOCK_BETA, dummy_validator_integer);
   (EAVC_ENC_INITIAL_DELAY, dummy_validator_integer);
   (EAVC_ENC_FIELD_ORDER, dummy_validator_integer);
   (EAVC_ENC_GOP_ADAPTIVE, dont_validate)].

Definition find_in (options : list option_t) (key : string) : option option_t :=
  List.find (fun cur => String.eqb cur.1 key) options.

(* [src/src/server/options/options.cpp:363-377 FindCmdOption] *)
Definition FindCmdOption (key : string) : outcome (option option_t) :=
  ALLOWED_CMD_OPTIONS ← ConstantOptions []; Ok (find_in ALLOWED_CMD_OPTIONS key).

(* [src/src/server/options/options.cpp:417-522 FindOption] *)
Definition FindOption (key : string) : outcome (option option_t) :=
  options ← ConstantOptions ALLOWED_OPTIONS; Ok (find_in options key).

(** ** ValidateConfig *)

(** [val ? json_object_get_string(val) : "null"] *)
Definition value_text (val : option json) : string :=
  match val with Some v => json_get_string v | None => "null" end.

(** One turn of the loop over the fields. *)
(* [src/src/server/options/options.cpp:390-411 ValidateConfig] *)
Definition validate_field (options : ArgsMap) (kv : string * option json) : outcome ArgsMap :=
  let '(key, val) := kv in
  option ← FindOption key;
  match option with
  | None => Ok options
  | Some option =>
      let value_str := value_text val in
      v ← option.2 value_str;
      match v with
      | VALID => Ok (<[key := value_str]> options)
      | INVALID => Ok options
      | FATAL => critical_log ("Invalid value of option " +:+ key) ;; Ok options
      end
  end.

Fixpoint validate_fields (options : ArgsMap) (l : list (string * option json)) : outcome ArgsMap :=
  match l with
  | [] => Ok options
  | kv :: l' => options' ← validate_field options kv; validate_fields options' l'
  end.

(** The loop's macro takes the table of an object: on a null pointer or on a
    value of another type there is none. *)
(* [src/src/server/options/options.cpp:379-415 ValidateConfig] *)
Definition ValidateConfig (full_config : string) : outcome ArgsMap :=
  (if is_empty full_config then critical_log "Invalid config data!" else Ok tt) ;;
  let obj := json_tokener_parse full_config in
  (match obj with None => critical_log "Invalid config data!" | Some _ => Ok tt end) ;;
  match obj ≫= json_entries with
  | None => Abort (NullPointer "json_object_object_foreach")
  | Some l => validate_fields ∅ l
  end.
End Options.

(** ** The table is well formed *)

Section OptionsTheorems.
Context `{JsonC} `{UrlLib} `{PathLib}.

Lemma existsb_key (l : list option_t) k :
  List.existsb (fun o => String.eqb o.1 k) l = true <-> k ∈ l.*1.
Proof.
  rewrite List.existsb_exists, list_elem_of_fmap. split.
  - intros (o & Ho & He). exists o. apply String.eqb_eq in He. by rewrite list_elem_of_In.
  - intros (o & -> & Ho). exists o. rewrite String.eqb_refl, <- list_elem_of_In. done.
Qed.

Lemma ConstantOptions_push_spec (l dn : list option_t) :
  NoDup (dn.*1) ->
  (NoDup ((dn ++ l).*1) /\ ConstantOptions_push dn l = Ok (dn ++ l)) \/
  (~ NoDup ((dn ++ l).*1) /\ is_abort (ConstantOptions_push dn l) = true).
Proof.
  revert dn. induction l as [|o l IH]; intros dn Hd; cbn.
  { left. by rewrite app_nil_r. }
  destruct (List.existsb (fun o2 => String.eqb o2.1 o.1) dn) eqn:He.
  - right. split; [|done]. apply existsb_key in He. rewrite fmap_app, NoDup_app. cbn.
    intros (_ & Hx & _). apply (Hx _ He). by left.
  - assert (Hn : o.1 ∉ dn.*1) by (intros Hi; apply existsb_key in Hi; congruence).
    specialize (IH (dn ++ [o])). rewrite <- app_assoc in IH. apply IH.
    rewrite fmap_app, NoDup_app. cbn. split_and!; [done| |apply NoDup_singleton].
    intros k Hk [->|Hf]%elem_of_cons; [done|by apply elem_of_nil in Hf].
Qed.

Lemma ConstantOptions_ok l : NoDup (l.*1) -> ConstantOptions l = Ok l.
Proof.
  intros Hl. destruct (ConstantOptions_push_spec l [] ltac:(constructor)) as [[_ H']|[H' _]];
    [done|by cbn in H'].
Qed.

Lemma ALLOWED_OPTIONS_NoDup : NoDup (ALLOWED_OPTIONS.*1).
Proof.
  cbn [fmap list_fmap ALLOWED_OPTIONS fst].
  refine (bool_decide_unpack _ _). vm_compute. exact I.
Qed.

Lemma FindOption_find key : FindOption key = Ok (find_in ALLOWED_OPTIONS key).
Proof. unfold FindOption. by rewrite ConstantOptions_ok by apply ALLOWED_OPTIONS_NoDup. Qed.

#[local] Arguments find_in : simpl never.

Lemma find_in_elem l key o : find_in l key = Some o -> o ∈ l /\ o.1 = key.
Proof. intros [Ho He]%find_Some_elem. apply String.eqb_eq in He. done. Qed.

Lemma find_in_complete l o : NoDup (l.*1) -> o ∈ l -> find_in l o.1 = Some o.
Proof.
  unfold find_in. induction l as [|o' l IH]; cbn; intros Hn Ho; [by apply elem_of_nil in Ho|].
  apply NoDup_cons in Hn as [Hn Hl]. apply elem_of_cons in Ho as [<-|Ho].
  - by rewrite String.eqb_refl.
  - destruct (String.eqb_spec o'.1 o.1) as [He|_]; [|by apply IH].
    destruct Hn. rewrite He. apply list_elem_of_fmap. eauto.
Qed.

(** The table of options has no name twice, so that building it never
    stops the daemon, and looking a key up finds the option of that name
    exactly when the table has one. *)
Theorem FindOption_spec key o :
  (exists r, FindOption key = Ok r) /\
  (FindOption key = Ok (Some o) <-> o ∈ ALLOWED_OPTIONS /\ o.1 = key).
Proof.
  rewrite FindOption_find. split; [by eexists|]. split.
  - intros [= Ho]. by apply find_in_elem.
  - intros [Ho <-]. by rewrite find_in_complete by (done || apply ALLOWED_OPTIONS_NoDup).
Qed.

(** ** What the validators may return *)

Lemma validate_range_Ok {T} (conv : string -> option T) le v mn mx :
  exists r, validate_range conv le v mn mx false = Ok r /\ r <> FATAL.
Proof. unfold validate_range. split_match; eexists; split; done. Qed.

Lemma validate_is_positive_Ok v :
  exists r, validate_is_positive v false = Ok r /\ r <> FATAL.
Proof. unfold validate_is_positive. split_match; eexists; split; done. Qed.

Lemma validate_allowed_Ok l v : exists r, validate_allowed l v = Ok r /\ r <> FATAL.
Proof. unfold validate_allowed. split_match; eexists; split; done. Qed.

Lemma supported_not_FATAL l v : supported l v <> FATAL.
Proof. unfold supported. by case_match. Qed.

Lemma accepted_not_FATAL {A} (r : option A) : accepted r <> FATAL.
Proof. by destruct r. Qed.

(** Every option but these three is judged without ending the process, and
    never as fatal. *)
Definition harmless (o : option_t) : Prop :=
  o.1 = OUTPUT_FIELD \/ o.1 = LOGO_FIELD \/ o.1 = TIMESHIFT_DIR_FIELD \/
  forall v, exists r, o.2 v = Ok r /\ r <> FATAL.
End OptionsTheorems.

Ltac term_head t := match t with ?f _ => term_head f | _ => t end.

Ltac validator_ok :=
  first
    [ right; right; right; intros v; cbn [snd];
      match goal with |- exists r, ?t = _ /\ _ => let f := term_head t in unfold f end;
      try unfold validate_range_int;
      first
        [ apply validate_range_Ok
        | apply validate_is_positive_Ok
        | apply validate_allowed_Ok
        | eexists; split; [reflexivity|]; first [apply supported_not_FATAL | apply accepted_not_FATAL | done]
        | eexists; split; [reflexivity|]; by case_match ]
    | left; reflexivity
    | right; left; reflexivity
    | right; right; left; reflexivity ].

Section OptionsValidation.
Context `{JsonC} `{UrlLib} `{PathLib}.

#[local] Arguments find_in : simpl never.

Lemma ALLOWED_OPTIONS_harmless : Forall harmless ALLOWED_OPTIONS.
Proof. unfold ALLOWED_OPTIONS. repeat (constructor; [validator_ok|]). constructor. Qed.

(** ** What a validated configuration holds *)

(** The option of name [k] accepts the text [v]. *)
Definition valid_value (k v : string) : Prop :=
  exists o, o ∈ ALLOWED_OPTIONS /\ o.1 = k /\ o.2 v = Ok VALID.

Lemma validate_field_inv m k j m' :
  validate_field m (k, j) = Ok m' ->
  (valid_value k (value_text j) /\ m' = <[k := value_text j]> m) \/
  (~ valid_value k (value_text j) /\ m' = m).
Proof.
  unfold validate_field. rewrite FindOption_find. cbn.
  assert (Hv : forall o, find_in ALLOWED_OPTIONS k = Some o -> o.2 (value_text j) <> Ok VALID ->
    ~ valid_value k (value_text j)).
  { intros o Ho Hne (o' & Ho' & <- & Hok).
    rewrite find_in_complete in Ho by (done || apply ALLOWED_OPTIONS_NoDup). congruence. }
  destruct (find_in ALLOWED_OPTIONS k) as [o|] eqn:Ho.
  - specialize (Hv o eq_refl). apply find_in_elem in Ho as [Ho Hk].
    destruct (o.2 (value_text j)) as [[]| |] eqn:Hr; cbn; try done.
    + intros [= <-]. left. split; [|done]. by exists o.
    + intros [= <-]. right. split; [by apply Hv|done].
    + unfold critical_log. destruct critical_log_aborts; [done|]. intros [= <-].
      right. split; [by apply Hv|done].
  - intros [= <-]. right. split; [|done]. intros (o & Hin & <- & _).
    by rewrite find_in_complete in Ho by (done || apply ALLOWED_OPTIONS_NoDup).
Qed.

Lemma validate_fields_spec l m m' :
  NoDup (l.*1) -> (forall k, k ∈ l.*1 -> m !! k = None) ->
  validate_fields m l = Ok m' ->
  forall k v, m' !! k = Some v <->
    m !! k = Some v \/ exists j, (k, j) ∈ l /\ v = value_text j /\ valid_value k v.
Proof.
  revert m. induction l as [|[k0 j0] l IH]; intros m Hn Hm; cbn.
  { intros [= <-] k v. split; [by left|]. by intros [?|(? & []%elem_of_nil & _)]. }
  intros (m1 & Hf & Hl)%outcome_bind_Ok k v. apply NoDup_cons in Hn as [Hk0 Hn].
  assert (Hm0 : m !! k0 = None) by (apply Hm; by left).
  assert (Hm1 : forall k', k' ∈ l.*1 -> m1 !! k' = None).
  { intros k' Hk'. assert (m !! k' = None) by (apply Hm; by right).
    apply validate_field_inv in Hf as [[_ ->]|[_ ->]]; [|done].
    rewrite lookup_insert_ne; [done|]. by intros ->. }
  rewrite (IH m1 Hn Hm1 Hl). setoid_rewrite elem_of_cons.
  apply validate_field_inv in Hf as [[Hv ->]|[Hv ->]].
  - split.
    + intros [[[<- <-]|[_ Hx]]%lookup_insert_Some|(j & Hj & ? & ?)]; eauto 8.
    + intros [Hx|(j & [[= -> ->]|Hj] & -> & Hj')]; [left|left|right; by exists j].
      * rewrite lookup_insert_ne; [done|]. intros ->. congruence.
      * by rewrite lookup_insert_eq.
  - split.
    + intros [Hx|(j & Hj & ? & ?)]; eauto 8.
    + intros [Hx|(j & [[= -> ->]|Hj] & -> & Hj')]; [by left|done|right; by exists j].
Qed.

(** C22: the validated configuration holds exactly the fields of the JSON
    object whose name is an option and whose text that option's validator
    accepts, each with its text. *)
Theorem ValidateConfig_spec full_config obj l m :
  json_tokener_parse full_config = Some obj -> json_entries obj = Some l -> NoDup (l.*1) ->
  ValidateConfig full_config = Ok m ->
  forall k v, m !! k = Some v <->
    exists j, (k, j) ∈ l /\ v = value_text j /\ valid_value k v.
Proof.
  intros Hp He Hn. unfold ValidateConfig. rewrite Hp. cbn. rewrite He.
  intros (_ & _ & Hv)%outcome_bind_Ok k v.
  rewrite (validate_fields_spec l ∅ m) by (done || intros; apply lookup_empty).
  rewrite lookup_empty. naive_solver.
Qed.

Lemma validate_fields_valid l m m' :
  (forall k v, m !! k = Some v -> valid_value k v) -> validate_fields m l = Ok m' ->
  forall k v, m' !! k = Some v -> valid_value k v.
Proof.
  revert m. induction l as [|[k1 j1] l IH]; cbn; intros m Hm; [by intros [= <-]|].
  intros (m1 & Hf & Hl)%outcome_bind_Ok. apply (IH m1); [|done].
  apply validate_field_inv in Hf as [[Hv1 ->]|[_ ->]]; [|done].
  intros k' v' [[<- <-]|[_ ?]]%lookup_insert_Some; auto.
Qed.

Lemma ValidateConfig_valid full_config m k v :
  ValidateConfig full_config = Ok m -> m !! k = Some v -> valid_value k v.
Proof.
  unfold ValidateConfig. intros (_ & _ & (_ & _ & Hv)%outcome_bind_Ok)%outcome_bind_Ok.
  destruct (json_tokener_parse full_config ≫= json_entries) as [l|]; [|done].
  apply (validate_fields_valid l ∅ m); [|done]. intros ??. by rewrite lookup_empty.
Qed.

(** The validator of a named option. *)
Lemma valid_value_find k v f :
  find_in ALLOWED_OPTIONS k = Some (k, f) -> valid_value k v -> f v = Ok VALID.
Proof.
  intros Hf (o & Ho & <- & Hv).
  rewrite find_in_complete in Hf by (done || apply ALLOWED_OPTIONS_NoDup).
  destruct o as [k' f']. cbn in *. congruence.
Qed.

(** ** When the daemon survives *)

Definition safe_field (kv : string * option json) : Prop :=
  kv.1 <> OUTPUT_FIELD /\ kv.1 <> LOGO_FIELD /\
  (kv.1 = TIMESHIFT_DIR_FIELD -> is_valid_path (value_text kv.2) = true).

Lemma validate_timeshift_dir_elem o :
  o ∈ ALLOWED_OPTIONS -> o.1 = TIMESHIFT_DIR_FIELD -> o.2 = validate_timeshift_dir.
Proof.
  intros Ho Hk. assert (Hf : find_in ALLOWED_OPTIONS o.1 = Some o).
  { apply find_in_complete; [apply ALLOWED_OPTIONS_NoDup | done]. }
  rewrite Hk in Hf. unfold find_in in Hf. cbn in Hf. by simplify_eq.
Qed.

Lemma validate_field_safe m kv : safe_field kv -> exists m', validate_field m kv = Ok m'.
Proof.
  destruct kv as [k j]. intros (Hout & Hlogo & Hts). cbn in Hout, Hlogo, Hts.
  unfold validate_field. rewrite FindOption_find. cbn.
  destruct (find_in ALLOWED_OPTIONS k) as [o|] eqn:Ho; [|by eexists].
  apply find_in_elem in Ho as [Ho Hk].
  assert (Hr : exists r, o.2 (value_text j) = Ok r /\ r <> FATAL).
  { pose proof (proj1 (Forall_forall _ _) ALLOWED_OPTIONS_harmless o Ho) as [H'|[H'|[H'|H']]];
      [congruence|congruence| |by apply H'].
    rewrite (validate_timeshift_dir_elem o Ho H'). unfold validate_timeshift_dir.
    rewrite Hts by congruence. by exists VALID. }
  destruct Hr as ([] & -> & Hne); cbn; [by eexists|by eexists|done].
Qed.

(** Validation of a JSON object returns, unless a field is [output] or
    [logo], whose texts are parsed as JSON in turn, or a [timeshift_dir] that
    is not a path, which is the only value judged fatal. *)
Theorem ValidateConfig_returns full_config obj l :
  full_config <> "" -> json_tokener_parse full_config = Some obj ->
  json_entries obj = Some l -> Forall safe_field l ->
  exists m, ValidateConfig full_config = Ok m.
Proof.
  intros Hne Hp He Hs. unfold ValidateConfig. rewrite Hp.
  destruct full_config; [done|]. cbn -[validate_fields]. rewrite He. cbn -[validate_fields].
  clear He. generalize (∅ : ArgsMap) as m. induction Hs as [|kv l Hkv _ IH]; intros m; [by eexists|].
  cbn -[validate_field]. destruct (validate_field_safe m kv Hkv) as [m' ->]. apply IH.
Qed.
End OptionsValidation.

(** ** The theorems at a concrete configuration *)

Section Witnesses.
#[local] Existing Instance Ref.common.
#[local] Existing Instance Ref.urls.
#[local] Existing Instance Ref.paths.

Definition sample_fields : list (string * option Ref.value) :=
  [("id", Some (Ref.JString "s1")); ("type", Some (Ref.JInt 2)); ("volume", Some (Ref.JInt 11));
   ("restart_attempts", Some (Ref.JInt 5)); ("unknown", None);
   ("timeshift_dir", Some (Ref.JString "/tmp"))].

#[local] Instance options_json : JsonC :=
  Ref.json_c (fun s => if decide (s = "config") then Some (Ref.JObject sample_fields) else None).

Definition sample_config : ArgsMap :=
  <["timeshift_dir" := "/tmp"]> (<["restart_attempts" := "5"]> (<["type" := "2"]> {["id" := "s1"]})).

Lemma ValidateConfig_spec_witness :
  ValidateConfig "config" = Ok sample_config /\
  forall k v, sample_config !! k = Some v <->
    exists j, (k, j) ∈ sample_fields /\ v = value_text j /\ valid_value k v.
Proof.
  split; [reflexivity|].
  apply (@ValidateConfig_spec Ref.common options_json Ref.urls Ref.paths "config"
           (Ref.JObject sample_fields) sample_fields); [reflexivity|reflexivity| |reflexivity].
  refine (bool_decide_unpack _ _). vm_compute. exact I.
Defined.

Lemma ValidateConfig_returns_witness : exists m, ValidateConfig "config" = Ok m.
Proof.
  apply (@ValidateConfig_returns Ref.common options_json Ref.urls Ref.paths "config"
           (Ref.JObject sample_fields) sample_fields); [done|reflexivity|reflexivity|].
  repeat constructor; done.
Defined.
End Witnesses.
