(* ===== verification/Configs.v ===== *)
(** * Configurations of the stream processes

    [src/src/stream/config.cpp], [src/src/stream/streams/configs/],
    [src/src/stream/configs_factory.cpp] and [src/src/stream/streams_factory.cpp]:
    from the arguments that the daemon validated ([Options]) to the object of
    the class that the stream's type needs. *)

From S2P Require Import Prelude Platform StreamTypes Constants Uris Options.

Section Configs.
Context `{JsonC} `{UrlLib} `{PathLib} `{UnnamedCodes}.

(** ** The classes of configurations

    A derived class is a record with its base as the first field. *)

(* [src/src/stream/config.h:43-50 Config] *)
Record Config := {
  c_type : StreamType;
  c_max_restart_attempts : Z;
  c_ttl_sec : option Z;
  c_input : list InputUri;
  c_output : list OutputUri
}.

(* [src/src/stream/streams/configs/audio_video_config.h:49-54 AudioVideoConfig] *)
Record AudioVideoConfig := {
  av_base : Config;
  av_have_video : bool;
  av_have_audio : bool;
  av_audio_select : option Z;
  av_avformat : bool;
  av_loop : bool
}.

(* [src/src/stream/streams/configs/relay_config.h:23-38 RelayConfig] *)
Record RelayConfig := {
  r_base : AudioVideoConfig;
  r_video_parser : string;
  r_audio_parser : string
}.

(* [src/src/stream/streams/configs/relay_config.h:40-50 VodRelayConfig] *)
Record VodRelayConfig := { vr_base : RelayConfig; vr_cleanup_ts : bool }.

(* [src/src/stream/streams/configs/relay_config.h:52-62 TimeshiftConfig] *)
Record TimeshiftConfig := { ts_base : RelayConfig; ts_chunk_duration : Z }.

(* [src/src/stream/streams/configs/encoding_config.h:87-112 EncodingConfig] *)
Record EncodingConfig := {
  e_base : AudioVideoConfig;
  e_deinterlace : option bool;
  e_frame_rate : option Z;
  e_volume : option double;
  e_video_encoder : string;
  e_audio_encoder : string;
  e_audio_channels_count : option Z;
  e_video_encoder_args : gmap string Z;
  e_video_encoder_str_args : gmap string string;
  e_size : Z * Z;
  e_video_bit_rate : option Z;
  e_audio_bit_rate : option Z;
  e_logo : Logo;
  e_decklink_video_mode : Z;
  e_aspect_ratio : option (Z * Z);
  e_relay_video : bool;
  e_relay_audio : bool
}.

(* [src/src/stream/streams/configs/encoding_config.h:114-124 VodEncodeConfig] *)
Record VodEncodeConfig := { ve_base : EncodingConfig; ve_cleanup_ts : bool }.

(** What a [Config*] points to. *)
Inductive config_object :=
| ObjAudioVideo (c : AudioVideoConfig)
| ObjRelay (c : RelayConfig)
| ObjVodRelay (c : VodRelayConfig)
| ObjTimeshift (c : TimeshiftConfig)
| ObjEncoding (c : EncodingConfig)
| ObjVodEncode (c : VodEncodeConfig).

(** ** Constructors *)

(* [src/src/stream/config.cpp:20-21 Config::Config] *)
Definition make_base_config (type : StreamType) (max_restart_attempts : Z)
    (input : list InputUri) (output : list OutputUri) : Config :=
  {| c_type := type; c_max_restart_attempts := max_restart_attempts; c_ttl_sec := None;
     c_input := input; c_output := output |}.

(* [src/src/stream/config.cpp:27-29 Config::Equals] *)
Definition Config_Equals (a b : Config) : bool :=
  bool_decide (c_type a = c_type b) &&
  bool_decide (length (c_input a) = length (c_input b)) &&
  forallb (fun p => InputUri_Equals p.1 p.2) (zip (c_input a) (c_input b)) &&
  bool_decide (length (c_output a) = length (c_output b)) &&
  forallb (fun p => OutputUri_Equals p.1 p.2) (zip (c_output a) (c_output b)).

(* [src/src/stream/config.cpp:59-61 Config::SetTimeToLigeStream] *)
Definition SetTimeToLigeStream (ttl : option Z) (c : Config) : Config :=
  {| c_type := c_type c; c_max_restart_attempts := c_max_restart_attempts c; c_ttl_sec := ttl;
     c_input := c_input c; c_output := c_output c |}.

(* [src/src/stream/streams/configs/audio_video_config.cpp:23-29 AudioVideoConfig::AudioVideoConfig] *)
Definition make_audio_video_config (c : Config) : AudioVideoConfig :=
  {| av_base := c; av_have_video := true; av_have_audio := true; av_audio_select := None;
     av_avformat := false; av_loop := false |}.

(* [src/src/stream/streams/configs/audio_video_config.cpp:71-83 AudioVideoConfig::IsVod] *)
Definition IsVod (c : AudioVideoConfig) : bool :=
  if av_loop c then false
  else match c_input (av_base c) with
       | [u] => bool_decide (url_get_scheme (iu_input u) = file)
       | _ => false
       end.

(* [src/src/stream/streams/configs/relay_config.cpp:29-30 RelayConfig::RelayConfig] *)
Definition make_relay_config (c : AudioVideoConfig) : RelayConfig :=
  {| r_base := c; r_video_parser := H264_PARSE; r_audio_parser := AAC_PARSE |}.

(* [src/src/stream/streams/configs/relay_config.cpp:48-48 VodRelayConfig::VodRelayConfig] *)
Definition make_vod_relay_config (c : RelayConfig) : VodRelayConfig :=
  {| vr_base := c; vr_cleanup_ts := false |}.

(* [src/src/stream/streams/configs/relay_config.cpp:58-59 TimeshiftConfig::TimeshiftConfig] *)
Definition make_timeshift_config (c : RelayConfig) : TimeshiftConfig :=
  {| ts_base := c; ts_chunk_duration := 120 |}.

(* [src/src/stream/streams/configs/encoding_config.cpp:31-48 EncodingConfig::EncodingConfig] *)
Definition make_encoding_config (c : AudioVideoConfig) : EncodingConfig :=
  {| e_base := c; e_deinterlace := None; e_frame_rate := None; e_volume := None;
     e_video_encoder := X264_ENC; e_audio_encoder := FAAC; e_audio_channels_count := None;
     e_video_encoder_args := ∅; e_video_encoder_str_args := ∅; e_size := size_default;
     e_video_bit_rate := None; e_audio_bit_rate := None; e_logo := logo_default;
     e_decklink_video_mode := 1; e_aspect_ratio := None; e_relay_video := false;
     e_relay_audio := false |}.

(* [src/src/stream/streams/configs/encoding_config.cpp:198-198 VodEncodeConfig::VodEncodeConfig] *)
Definition make_vod_encode_config (c : EncodingConfig) : VodEncodeConfig :=
  {| ve_base := c; ve_cleanup_ts := false |}.

(** ** Encoder arguments *)

(** [std::map::insert] keeps an entry that exists. *)
(* [src/src/stream/configs_factory.cpp:35-45 CheckAndSetValue] *)
Definition CheckAndSetValue {T} (conv : string -> option T) (args : ArgsMap) (name : string)
    (map : gmap string T) : gmap string T :=
  match args_get conv args name with
  | Some result => match map !! name with Some _ => map | None => <[name := result]> map end
  | None => map
  end.

Definition SetIfTrue (args : ArgsMap) (name : string) (map : gmap string Z) : gmap string Z :=
  match args_get conv_bool args name with
  | Some true => <[name := 1%Z]> map
  | _ => map
  end.

(* [src/src/stream/configs_factory.cpp:47-138 InitVideoEncodersWithArgs] *)
Definition InitVideoEncodersWithArgs (config : ArgsMap) : gmap string Z * gmap string string :=
  let args := ∅ in
  let str_args := ∅ in
  let args := CheckAndSetValue conv_u32 config NV_H264_ENC_PRESET args in
  let args := CheckAndSetValue conv_u32 config MFX_H264_ENC_PRESET args in
  let args := CheckAndSetValue conv_u32 config MFX_H264_GOP_SIZE args in
  let args := CheckAndSetValue conv_u32 config X264_ENC_SPEED_PRESET args in
  let args := CheckAndSetValue conv_u32 config X264_ENC_THREADS args in
  let args := CheckAndSetValue conv_u32 config X264_ENC_TUNE args in
  let args := CheckAndSetValue conv_u32 config X264_ENC_KEY_INT_MAX args in
  let args := CheckAndSetValue conv_u32 config X264_ENC_VBV_BUF_CAPACITY args in
  let args := CheckAndSetValue conv_u32 config X264_ENC_RC_LOOKAHED args in
  let args := CheckAndSetValue conv_u32 config X264_ENC_QP_MAX args in
  let args := CheckAndSetValue conv_u32 config X264_ENC_PASS args in
  let args := CheckAndSetValue conv_u32 config X264_ENC_ME args in
  let args := CheckAndSetValue conv_u32 config X264_ENC_SLICED_THREADS args in
  let args := CheckAndSetValue conv_u32 config X264_ENC_B_ADAPT args in
  let args := CheckAndSetValue conv_u32 config X264_ENC_BYTE_STREAM args in
  let args := CheckAndSetValue conv_u32 config X264_ENC_QUANTIZER args in
  let str_args := CheckAndSetValue conv_string config X264_ENC_PROFILE str_args in
  let str_args := CheckAndSetValue conv_string config X264_ENC_STREAM_FORMAT str_args in
  let str_args := CheckAndSetValue conv_string config X264_ENC_OPTION_STRING str_args in
  let args := SetIfTrue config X264_ENC_INTERLACED args in
  let args := SetIfTrue config X264_ENC_DCT8X8 args in
  let args := CheckAndSetValue conv_u32 config VAAPI_H264_ENC_KEYFRAME_PERIOD args in
  let args := CheckAndSetValue conv_u32 config VAAPI_H264_ENC_TUNE args in
  let args := CheckAndSetValue conv_u32 config VAAPI_H264_ENC_MAX_BFRAMES args in
  let args := CheckAndSetValue conv_u32 config VAAPI_H264_ENC_NUM_SLICES args in
  let args := CheckAndSetValue conv_u32 config VAAPI_H264_ENC_INIT_QP args in
  let args := CheckAndSetValue conv_u32 config VAAPI_H264_ENC_MIN_QP args in
  let args := CheckAndSetValue conv_u32 config VAAPI_H264_ENC_RATE_CONTROL args in
  let args := CheckAndSetValue conv_u32 config VAAPI_H264_ENC_CABAC args in
  let args := CheckAndSetValue conv_u32 config VAAPI_H264_ENC_DCT8X8 args in
  let args := CheckAndSetValue conv_u32 config VAAPI_H264_ENC_CPB_LENGTH args in
  let args := CheckAndSetValue conv_u32 config OPEN_H264_ENC_MUTLITHREAD args in
  let args := CheckAndSetValue conv_u32 config OPEN_H264_ENC_COMPLEXITY args in
  let args := CheckAndSetValue conv_u32 config OPEN_H264_ENC_RATE_CONTROL args in
  let args := CheckAndSetValue conv_u32 config OPEN_H264_ENC_GOP_SIZE args in
  let args := CheckAndSetValue conv_u32 config EAVC_ENC_PRESET args in
  let args := CheckAndSetValue conv_u32 config EAVC_ENC_PROFILE args in
  let args := CheckAndSetValue conv_u32 config EAVC_ENC_PERFORMANCE args in
  let args := CheckAndSetValue conv_u32 config EAVC_ENC_BITRATE_MODE args in
  let args := CheckAndSetValue conv_u32 config EAVC_ENC_BITRATE_PASS args in
  let args := CheckAndSetValue conv_u32 config EAVC_ENC_BITRATE_MAX args in
  let args := CheckAndSetValue conv_u32 config EAVC_ENC_VBV_SIZE args in
  let args := CheckAndSetValue conv_u32 config EAVC_ENC_PICTURE_MODE args in
  let args := CheckAndSetValue conv_u32 config EAVC_ENC_ENTROPY_MODE args in
  let args := CheckAndSetValue conv_u32 config EAVC_ENC_GOP_MAX_BCOUNT args in
  let args := CheckAndSetValue conv_u32 config EAVC_ENC_GOP_MAX_LENGTH args in
  let args := CheckAndSetValue conv_u32 config EAVC_ENC_GOP_MIN_LENGTH args in
  let args := CheckAndSetValue conv_u32 config EAVC_ENC_LEVEL args in
  let args := CheckAndSetValue conv_u32 config EAVC_ENC_DEBLOCK_MODE args in
  let args := CheckAndSetValue conv_u32 config EAVC_ENC_DEBLOCK_ALPHA args in
  let args := CheckAndSetValue conv_u32 config EAVC_ENC_DEBLOCK_BETA args in
  let args := CheckAndSetValue conv_u32 config EAVC_ENC_INITIAL_DELAY args in
  let args := CheckAndSetValue conv_u32 config EAVC_ENC_FIELD_ORDER args in
  let args := SetIfTrue config EAVC_ENC_GOP_ADAPTIVE args in
  (args, str_args).

(** ** make_config *)

Definition get_or {T} (conv : string -> option T) (args : ArgsMap) (key : string) (d : T) : T :=
  default d (args_get conv args key).

(* [src/src/stream/configs_factory.cpp:185-209 make_config] *)
Definition read_audio_video (a : ArgsMap) (conf : Config) : AudioVideoConfig :=
  let d := make_audio_video_config conf in
  {| av_base := conf;
     av_have_video := get_or conv_bool a HAVE_VIDEO_FIELD (av_have_video d);
     av_have_audio := get_or conv_bool a HAVE_AUDIO_FIELD (av_have_audio d);
     av_audio_select :=
       match args_get conv_i32 a AUDIO_SELECT_FIELD with
       | Some s => Some s
       | None => av_audio_select d
       end;
     av_avformat := get_or conv_bool a AVFORMAT_FIELD (av_avformat d);
     av_loop := get_or conv_bool a LOOP_FIELD (av_loop d) |}.

(* [src/src/stream/configs_factory.cpp:216-225 make_config] *)
Definition read_relay (a : ArgsMap) (aconf : AudioVideoConfig) : RelayConfig :=
  let d := make_relay_config aconf in
  {| r_base := aconf;
     r_video_parser := get_or conv_string a VIDEO_PARSER_FIELD (r_video_parser d);
     r_audio_parser := get_or conv_string a AUDIO_PARSER_FIELD (r_audio_parser d) |}.

(** An optional value that the arguments may set. *)
Definition get_opt {T} (conv : string -> option T) (args : ArgsMap) (key : string)
    (d : option T) : option T :=
  match args_get conv args key with Some v => Some v | None => d end.

(* [src/src/stream/configs_factory.cpp:240-312 make_config] *)
Definition read_encoding (a : ArgsMap) (aconf : AudioVideoConfig) : outcome EncodingConfig :=
  let d := make_encoding_config aconf in
  logo ← ArgsGetValue conv_logo a LOGO_FIELD;
  let '(video_encoder_args, video_encoder_str_args) := InitVideoEncodersWithArgs a in
  Ok {| e_base := aconf;
        e_deinterlace := get_opt conv_bool a DEINTERLACE_FIELD (e_deinterlace d);
        e_frame_rate := get_opt conv_i32 a FRAME_RATE_FIELD (e_frame_rate d);
        e_volume := get_opt conv_double a VOLUME_FIELD (e_volume d);
        e_video_encoder := get_or conv_string a VIDEO_CODEC_FIELD (e_video_encoder d);
        e_audio_encoder := get_or conv_string a AUDIO_CODEC_FIELD (e_audio_encoder d);
        e_audio_channels_count := get_opt conv_i32 a AUDIO_CHANNELS_FIELD (e_audio_channels_count d);
        e_video_encoder_args := video_encoder_args;
        e_video_encoder_str_args := video_encoder_str_args;
        e_size := get_or conv_size a SIZE_FIELD (e_size d);
        e_video_bit_rate := get_opt conv_i32 a VIDEO_BIT_RATE_FIELD (e_video_bit_rate d);
        e_audio_bit_rate := get_opt conv_i32 a AUDIO_BIT_RATE_FIELD (e_audio_bit_rate d);
        e_logo := default (e_logo d) logo;
        e_decklink_video_mode := get_or conv_u8 a DECKLINK_VIDEO_MODE_FILELD (e_decklink_video_mode d);
        e_aspect_ratio := get_opt conv_rational a ASPECT_RATIO_FIELD (e_aspect_ratio d);
        e_relay_video := get_or conv_bool a RELAY_VIDEO_FIELD (e_relay_video d);
        e_relay_audio := get_or conv_bool a RELAY_AUDIO_FIELD (e_relay_audio d) |}.

(** The part of [make_config] that chooses the class. *)
(* [src/src/stream/configs_factory.cpp:211-349 make_config] *)
Definition make_typed_config (a : ArgsMap) (stream_type : Z) (aconf : AudioVideoConfig)
    : outcome config_object :=
  let isa t := bool_decide (stream_type = stream_type_code t) in
  if isa SCREEN then Ok (ObjAudioVideo aconf)
  else if isa RELAY || isa TIMESHIFT_PLAYER || isa TEST_LIFE || isa VOD_RELAY then
    let rconfig := read_relay a aconf in
    if isa VOD_RELAY then
      let vconf := make_vod_relay_config rconfig in
      Ok (ObjVodRelay {| vr_base := rconfig;
                         vr_cleanup_ts := get_or conv_bool a CLEANUP_TS_FIELD (vr_cleanup_ts vconf) |})
    else Ok (ObjRelay rconfig)
  else if isa ENCODE || isa VOD_ENCODE then
    econfig ← read_encoding a aconf;
    if isa VOD_ENCODE then
      let vconf := make_vod_encode_config econfig in
      Ok (ObjVodEncode {| ve_base := econfig;
                          ve_cleanup_ts := get_or conv_bool a CLEANUP_TS_FIELD (ve_cleanup_ts vconf) |})
    else Ok (ObjEncoding econfig)
  else if isa TIMESHIFT_RECORDER || isa CATCHUP then
    let rel := read_relay a aconf in
    let tconf := make_timeshift_config rel in
    let d := get_or conv_i64 a TIMESHIFT_CHUNK_DURATION_FIELD (ts_chunk_duration tconf) in
    check (bool_decide (d <> 0%Z)) "Avoid division by zero" ;;
    Ok (ObjTimeshift {| ts_base := rel; ts_chunk_duration := d |})
  else Err (make_error ("Unknown stream type: " +:+ u8_to_string stream_type)).

(* [src/src/stream/configs_factory.cpp:142-350 make_config] *)
Definition make_config (a : ArgsMap) : outcome config_object :=
  match args_get conv_u8 a TYPE_FIELD with
  | None => Err (make_error ("Define " +:+ TYPE_FIELD +:+ " variable and make it valid"))
  | Some stream_type =>
  if decide (stream_type = stream_type_code PROXY) then
    Err (make_error "Proxy streams not handled for now")
  else
  input ← read_input a;
  match input with
  | None => Err (make_error ("Define " +:+ INPUT_FIELD +:+ " variable and make it valid"))
  | Some input_urls =>
  let is_multi_input := bool_decide (1 < length input_urls) in
  let isa t := bool_decide (stream_type = stream_type_code t) in
  let is_timeshift_and_rec :=
    (isa TIMESHIFT_RECORDER && negb is_multi_input) || (isa CATCHUP && negb is_multi_input) in
  output_urls ←
    (if is_timeshift_and_rec then Ok []
     else output ← read_output a;
          match output with
          | None => Err (make_error ("Define " +:+ OUTPUT_FIELD +:+ " variable and make it valid"))
          | Some o => Ok o
          end);
  let max_restart_attempts := get_or conv_u64 a RESTART_ATTEMPTS_FIELD 10%Z in
  check (0 <? max_restart_attempts)%Z "restart attempts must be grether than 0" ;;
  let conf := make_base_config (cast_type stream_type) max_restart_attempts input_urls output_urls in
  let conf := match args_get conv_i64 a AUTO_EXIT_TIME_FIELD with
              | Some ttl_sec => SetTimeToLigeStream (Some ttl_sec) conf
              | None => conf
              end in
  make_typed_config a stream_type (read_audio_video a conf)
  end
  end.

(** ** CreateStream *)

(** The classes of streams. *)
Inductive stream_class :=
| PlaylistRelayStream | RelayStream | PlaylistEncodingStream | MosaicStream | TestInputStream
| DeviceStream | EncodingOnlyAudioStream | EncodingOnlyVideoStream | EncodingStream
| TimeShiftPlayerStream | TimeShiftRecorderStream | CatchupStream | TestLifeStream
| VodRelayStream | VodEncodeStream.

(** [static_cast<const T*>(config)], where the object must be a [T]. *)
Definition as_relay (c : config_object) : outcome RelayConfig :=
  match c with
  | ObjRelay r => Ok r
  | ObjVodRelay v => Ok (vr_base v)
  | ObjTimeshift t => Ok (ts_base t)
  | _ => Abort (UndefinedBehaviour "static_cast to RelayConfig")
  end.
Definition as_vod_relay (c : config_object) : outcome VodRelayConfig :=
  match c with ObjVodRelay v => Ok v | _ => Abort (UndefinedBehaviour "static_cast to VodRelayConfig") end.
Definition as_timeshift (c : config_object) : outcome TimeshiftConfig :=
  match c with ObjTimeshift t => Ok t | _ => Abort (UndefinedBehaviour "static_cast to TimeshiftConfig") end.
Definition as_encoding (c : config_object) : outcome EncodingConfig :=
  match c with
  | ObjEncoding e => Ok e
  | ObjVodEncode v => Ok (ve_base v)
  | _ => Abort (UndefinedBehaviour "static_cast to EncodingConfig")
  end.
Definition as_vod_encode (c : config_object) : outcome VodEncodeConfig :=
  match c with ObjVodEncode v => Ok v | _ => Abort (UndefinedBehaviour "static_cast to VodEncodeConfig") end.

Definition audio_video_of (c : config_object) : AudioVideoConfig :=
  match c with
  | ObjAudioVideo a => a
  | ObjRelay r => r_base r
  | ObjVodRelay v => r_base (vr_base v)
  | ObjTimeshift t => r_base (ts_base t)
  | ObjEncoding e => e_base e
  | ObjVodEncode v => e_base (ve_base v)
  end.

Definition config_of (c : config_object) : Config := av_base (audio_video_of c).

Definition all_files (input : list InputUri) : bool :=
  forallb (fun u => bool_decide (url_get_scheme (iu_input u) = file)) input.

Definition not_reached {A} : outcome A := Abort (NotReached "StreamsFactory::CreateStream").

(* [src/src/stream/streams_factory.cpp:40-126 StreamsFactory::CreateStream] *)
Definition CreateStream (config : config_object) : outcome stream_class :=
  let input := c_input (config_of config) in
  match c_type (config_of config) with
  | PROXY => not_reached
  | RELAY =>
      as_relay config ;;
      if decide (1 < length input) then
        if all_files input then Ok PlaylistRelayStream else not_reached
      else Ok RelayStream
  | ENCODE =>
      econfig ← as_encoding config;
      if decide (1 < length input) then
        if all_files input then Ok PlaylistEncodingStream else Ok MosaicStream
      else
        match input with
        | [] => Abort (UndefinedBehaviour "input[0]")
        | iuri :: _ =>
            if IsTestInputUrl iuri then Ok TestInputStream
            else if decide (url_get_scheme (iu_input iuri) = dev) then Ok DeviceStream
            else if e_relay_video econfig then Ok EncodingOnlyAudioStream
            else if e_relay_audio econfig then Ok EncodingOnlyVideoStream
            else Ok EncodingStream
        end
  | TIMESHIFT_PLAYER => as_relay config ;; Ok TimeShiftPlayerStream
  | TIMESHIFT_RECORDER => as_timeshift config ;; Ok TimeShiftRecorderStream
  | CATCHUP => as_timeshift config ;; Ok CatchupStream
  | TEST_LIFE => as_relay config ;; Ok TestLifeStream
  | VOD_RELAY =>
      vconfig ← as_vod_relay config;
      if IsVod (r_base (vr_base vconfig)) then Ok VodRelayStream else not_reached
  | VOD_ENCODE =>
      vconfig ← as_vod_encode config;
      if IsVod (e_base (ve_base vconfig)) then Ok VodEncodeStream else not_reached
  | SCREEN => not_reached
  end.
End Configs.

(** ** The class of a configuration is the one its type needs *)

Section ConfigsTheorems.
Context `{JsonC} `{UrlLib} `{PathLib} `{UnnamedCodes}.

Definition right_class (t : StreamType) (c : config_object) : Prop :=
match t, c with
| SCREEN, ObjAudioVideo _
| (RELAY | TIMESHIFT_PLAYER | TEST_LIFE), ObjRelay _
| VOD_RELAY, ObjVodRelay _
| ENCODE, ObjEncoding _
| VOD_ENCODE, ObjVodEncode _
| (TIMESHIFT_RECORDER | CATCHUP), ObjTimeshift _ => True
| _, _ => False
end.

Lemma is_code z t : bool_decide (z = stream_type_code t) = true -> z = stream_type_code t.
Proof. apply bool_decide_eq_true. Qed.

Lemma make_typed_config_Ok a z aconf c :
z <> stream_type_code PROXY -> make_typed_config a z aconf = Ok c ->
exists t, z = stream_type_code t /\ right_class t c /\ audio_video_of c = aconf.
Proof.
intros Hp. unfold make_typed_config.
destruct (bool_decide (z = stream_type_code SCREEN)) eqn:E1.
{ intros [= <-]. apply is_code in E1. by exists SCREEN. }
destruct (bool_decide (z = stream_type_code VOD_RELAY)) eqn:E2.
{ rewrite !orb_true_r. intros [= <-]. apply is_code in E2. by exists VOD_RELAY. }
destruct (_ || _ || _ || _)%bool eqn:E3.
{ intros [= <-]. rewrite orb_false_r in E3. apply orb_true_iff in E3 as [[E3|E3]%orb_true_iff|E3];
    apply is_code in E3; subst z; eexists; (split; [reflexivity|done]). }
destruct (bool_decide (z = stream_type_code VOD_ENCODE)) eqn:E4.
{ rewrite orb_true_r. intros (e & He & [= <-])%outcome_bind_Ok. apply is_code in E4.
  exists VOD_ENCODE. split; [done|]. split; [done|]. unfold read_encoding in He.
  apply outcome_bind_Ok in He as (? & _ & He). case_match. by simplify_eq. }
rewrite orb_false_r. destruct (bool_decide (z = stream_type_code ENCODE)) eqn:E5.
{ intros (e & He & [= <-])%outcome_bind_Ok. apply is_code in E5.
  exists ENCODE. split; [done|]. split; [done|]. unfold read_encoding in He.
  apply outcome_bind_Ok in He as (? & _ & He). case_match. by simplify_eq. }
destruct (bool_decide (z = stream_type_code TIMESHIFT_RECORDER) ||
          bool_decide (z = stream_type_code CATCHUP))%bool eqn:E6; [|done].
intros (_ & _ & [= <-])%outcome_bind_Ok.
apply orb_true_iff in E6 as [E6|E6]; apply is_code in E6; subst z; eexists; (split; [reflexivity|done]).
Qed.

Lemma read_audio_video_base a conf : av_base (read_audio_video a conf) = conf.
Proof. done. Qed.

Lemma make_config_Ok a c :
make_config a = Ok c ->
right_class (c_type (config_of c)) c /\ c_type (config_of c) <> PROXY /\
(0 < c_max_restart_attempts (config_of c))%Z /\
c_max_restart_attempts (config_of c) = get_or conv_u64 a RESTART_ATTEMPTS_FIELD 10%Z.
Proof.
unfold make_config. destruct (args_get conv_u8 a TYPE_FIELD) as [z|]; [|done].
case_decide as Hp; [done|]. intros ([input|] & _ & Hc)%outcome_bind_Ok; [|done].
apply outcome_bind_Ok in Hc as (output & _ & Hc).
apply outcome_bind_Ok in Hc as ([] & Hr%check_Ok & Hc). apply Z.ltb_lt in Hr.
apply make_typed_config_Ok in Hc as (t & -> & Hcl & Hav); [|done].
unfold config_of. rewrite Hav, read_audio_video_base.
assert (Ht : forall conf, (match args_get conv_i64 a AUTO_EXIT_TIME_FIELD with
  | Some s => SetTimeToLigeStream (Some s) conf | None => conf end) =
  {| c_type := c_type conf; c_max_restart_attempts := c_max_restart_attempts conf;
     c_ttl_sec := match args_get conv_i64 a AUTO_EXIT_TIME_FIELD with
                  | Some s => Some s | None => c_ttl_sec conf end;
     c_input := c_input conf; c_output := c_output conf |}).
{ intros []. by case_match. }
rewrite Ht. cbn -[get_or cast_type stream_type_code]. rewrite cast_type_code. repeat split; try done.
intros ->. by destruct Hp.
Qed.

(** [make_config] makes an object of the class that the type of the
  stream needs, and never one whose number of restart attempts is zero. *)
Theorem make_config_class a c :
make_config a = Ok c ->
right_class (c_type (config_of c)) c /\ (0 < c_max_restart_attempts (config_of c))%Z.
Proof. intros Hc. by apply make_config_Ok in Hc as (? & _ & ? & _). Qed.

(** When a stream can be made of a configuration. *)
Definition playable (c : config_object) : Prop :=
let input := c_input (config_of c) in
match c_type (config_of c) with
| RELAY => length input <= 1 \/ all_files input = true
| ENCODE => input <> []
| VOD_RELAY | VOD_ENCODE => IsVod (audio_video_of c) = true
| PROXY | SCREEN => False
| _ => True
end.

(** The casts of [CreateStream] fit the objects of [make_config]: a
  stream is made exactly from the playable configurations, and otherwise
  the process stops at a [NOTREACHED] or, with no input, reads out of
  bounds. *)
Theorem CreateStream_spec a c :
make_config a = Ok c ->
(playable c <-> exists s, CreateStream c = Ok s) /\
(~ playable c -> CreateStream c = not_reached \/
                 CreateStream c = Abort (UndefinedBehaviour "input[0]")).
Proof.
intros (Hcl & _)%make_config_Ok. unfold playable, CreateStream, config_of in *.
destruct c as [x|x|x|x|x|x]; cbn in *; destruct (c_type _) eqn:Ht; try done; cbn;
  repeat case_match; simplify_eq.
all: try (naive_solver lia).
all: assert (c_input (av_base (e_base x)) <> []) by (intros Hn; apply (f_equal length) in Hn; cbn in Hn; lia).
all: naive_solver.
Qed.

(** The configuration of a timeshift player is not a [TimeshiftConfig],
  the class to which [StreamController::Exec] casts it to read the duration
  of a chunk. *)
Theorem timeshift_player_cast a c :
make_config a = Ok c -> c_type (config_of c) = TIMESHIFT_PLAYER ->
as_timeshift c = Abort (UndefinedBehaviour "static_cast to TimeshiftConfig").
Proof.
intros (Hcl & _)%make_config_Ok Ht. rewrite Ht in Hcl. by destruct c.
Qed.

(** ** Validated configurations *)

Lemma valid_restart_attempts v :
valid_value RESTART_ATTEMPTS_FIELD v -> exists z, conv_u64 v = Some z /\ (1 <= z)%Z.
Proof.
intros Hv%(valid_value_find _ _ validate_restart_attempts); [|reflexivity].
unfold validate_restart_attempts, validate_range in Hv.
destruct (conv_u64 v) as [z|]; [|done]. case_match eqn:Hz; [|done].
apply andb_true_iff in Hz as [Hz _]. apply Z.leb_le in Hz. by exists z.
Qed.

Lemma valid_output v : valid_value OUTPUT_FIELD v -> exists o, conv_output v = Ok (Some o).
Proof.
intros Hv%(valid_value_find _ _ validate_output); [|reflexivity].
unfold validate_output in Hv. apply outcome_bind_Ok in Hv as ([o|] & -> & ?); [by exists o|done].
Qed.

Lemma valid_logo v : valid_value LOGO_FIELD v -> exists l, conv_logo v = Ok (Some l).
Proof.
intros Hv%(valid_value_find _ _ validate_logo); [|reflexivity].
unfold validate_logo in Hv. apply outcome_bind_Ok in Hv as ([o|] & -> & ?); [by exists o|done].
Qed.

Section Validated.
Context (text : string) (a : ArgsMap) (Ha : ValidateConfig text = Ok a).

Lemma validated_restart_attempts : (0 < get_or conv_u64 a RESTART_ATTEMPTS_FIELD 10)%Z.
Proof.
  unfold get_or, args_get. destruct (a !! RESTART_ATTEMPTS_FIELD) as [v|] eqn:Hv; cbn; [|lia].
  apply (ValidateConfig_valid text) in Hv; [|done].
  apply valid_restart_attempts in Hv as (z & -> & Hz). cbn. lia.
Qed.

Lemma validated_output : exists o, read_output a = Ok o.
Proof.
  unfold read_output, ArgsGetValue. destruct (a !! "output") as [v|] eqn:Hv; [|by eexists].
  apply (ValidateConfig_valid text) in Hv; [|done].
  apply valid_output in Hv as (o & ->). by eexists.
Qed.

Lemma validated_encoding aconf : exists e, read_encoding a aconf = Ok e.
Proof.
  unfold read_encoding, ArgsGetValue. destruct (a !! LOGO_FIELD) as [v|] eqn:Hv; cbn.
  - apply (ValidateConfig_valid text) in Hv; [|done].
    apply valid_logo in Hv as (o & ->). cbn. by eexists.
  - by eexists.
Qed.

Lemma validated_typed z aconf r :
  make_typed_config a z aconf = Abort r ->
  r = CheckFailed "Avoid division by zero" /\
  args_get conv_i64 a TIMESHIFT_CHUNK_DURATION_FIELD = Some 0%Z.
Proof.
  unfold make_typed_config. destruct (validated_encoding aconf) as [e ->].
  repeat case_match; cbn; try done.
  intros [[Hd ->]%check_Abort|([] & _ & ?)]%outcome_bind_Abort; [|done].
  split; [done|]. apply bool_decide_eq_false in Hd. unfold get_or in Hd. cbn in Hd.
  destruct (args_get conv_i64 a TIMESHIFT_CHUNK_DURATION_FIELD) as [d|]; cbn in Hd.
  - f_equal. by destruct (decide (d = 0%Z)).
  - by destruct Hd.
Qed.
End Validated.

(** C19: on arguments that the daemon validated, [make_config] ends the
  process in two cases only: the text of [input], which no validator
  parses, or a chunk duration of zero, which its validator accepts. The
  checks on the restart attempts, the outputs and the logo cannot fail. *)
Theorem make_config_validated_abort text a r :
ValidateConfig text = Ok a -> make_config a = Abort r ->
read_input a = Abort r \/
(r = CheckFailed "Avoid division by zero" /\
 args_get conv_i64 a TIMESHIFT_CHUNK_DURATION_FIELD = Some 0%Z).
Proof.
intros Ha. unfold make_config. destruct (args_get conv_u8 a TYPE_FIELD) as [z|]; [|done].
case_decide as Hp; [done|].
intros [?|([input|] & _ & Hc)]%outcome_bind_Abort; [by left| |done]. right.
destruct (validated_output text a Ha) as [o Ho].
apply outcome_bind_Abort in Hc as [Hc|(outs & _ & Hc)].
{ rewrite Ho in Hc. case_match; [done|]. cbn in Hc. by destruct o. }
apply outcome_bind_Abort in Hc as [[Hc _]%check_Abort|([] & _ & Hc)].
{ apply Z.ltb_ge in Hc. pose proof (validated_restart_attempts text a Ha). lia. }
by eapply validated_typed.
Qed.
End ConfigsTheorems.

(** ** The theorems at concrete configurations *)

Section Witnesses.
#[local] Existing Instance Ref.common.
#[local] Existing Instance Ref.urls.
#[local] Existing Instance Ref.paths.
#[local] Existing Instance ref_codes.

(** The JSON texts of the witnesses: configurations by name, and two [input]
    texts. *)
Definition texts (s : string) : option Ref.value :=
  let str k v := (k, Some (Ref.JString v)) in
  let url u := Some (Ref.JObject [str "uri" u]) in
  if decide (s = "in") then Some (Ref.JObject [("urls", Some (Ref.JArray [url "http://h/a"]))])
  else if decide (s = "recorder") then
    Some (Ref.JObject [str "type" "4"; str "input" "in"; str "timeshift_chunk_duration" "0"])
  else if decide (s = "player") then
    Some (Ref.JObject [str "type" "3"; str "input" "in"; str "output" "in"])
  else None.

#[local] Instance configs_json : JsonC := Ref.json_c texts.

Definition player_args : ArgsMap :=
  <["output" := "in"]> (<["input" := "in"]> {["type" := "3"]}).

Definition player_config : config_object :=
  match make_config player_args with
  | Ok c => c
  | _ => ObjAudioVideo (make_audio_video_config (make_base_config SCREEN 1 [] []))
  end.

Lemma make_config_class_witness :
  make_config player_args = Ok player_config /\
  right_class (c_type (config_of player_config)) player_config /\
  (0 < c_max_restart_attempts (config_of player_config))%Z.
Proof.
  split; [reflexivity|].
  apply (@make_config_class Ref.common configs_json Ref.urls Ref.paths ref_codes player_args).
  reflexivity.
Defined.

Lemma CreateStream_spec_witness :
  playable player_config /\ exists s, CreateStream player_config = Ok s.
Proof.
  assert (Hp : playable player_config) by exact I. split; [exact Hp|].
  apply (@CreateStream_spec Ref.common configs_json Ref.urls Ref.paths ref_codes player_args
           player_config); [reflexivity | exact Hp].
Defined.

Lemma timeshift_player_cast_witness :
  ValidateConfig "player" = Ok player_args /\
  as_timeshift player_config = Abort (UndefinedBehaviour "static_cast to TimeshiftConfig").
Proof.
  split; [reflexivity|].
  apply (@timeshift_player_cast Ref.common configs_json Ref.urls Ref.paths ref_codes player_args);
    reflexivity.
Defined.

Definition recorder_args : ArgsMap :=
  <["timeshift_chunk_duration" := "0"]> (<["input" := "in"]> {["type" := "4"]}).

Lemma make_config_validated_abort_witness :
  make_config recorder_args = Abort (CheckFailed "Avoid division by zero") /\
  (read_input recorder_args = Abort (CheckFailed "Avoid division by zero") \/
   (CheckFailed "Avoid division by zero" = CheckFailed "Avoid division by zero" /\
    args_get conv_i64 recorder_args TIMESHIFT_CHUNK_DURATION_FIELD = Some 0%Z)).
Proof.
  split; [reflexivity|].
  apply (@make_config_validated_abort Ref.common configs_json Ref.urls Ref.paths ref_codes
           "recorder"); reflexivity.
Defined.
End Witnesses.
