(* ===== verification/Gst.v ===== *)
(** * GStreamer pipelines

    [src/src/stream/elements/element.cpp], [src/src/stream/pad/pad.cpp],
    [src/src/stream/ibase_builder.cpp] and [src/src/stream/gstreamer_utils.cpp]:
    the wrapper of an element, and the pipeline that a builder fills. A builder
    is a program over the pipeline ([build]); [builds] is the logic in which the
    builders are specified.

    GStreamer itself is not part of the repository: which factories it has, what
    a bin accepts and which elements can be linked is the class [GstLib]. *)

From S2P Require Import Prelude Platform StreamTypes Constants.

(** ** Types of elements *)

(* [src/src/stream/elements/element.h:34-126 SupportedElements] *)
Inductive SupportedElements :=
| ELEMENT_DECODEBIN | ELEMENT_FAKE_SINK | ELEMENT_TEST_SINK | ELEMENT_VIDEO_TEST_SRC
| ELEMENT_AUDIO_TEST_SRC | ELEMENT_VIDEO_SCREEN_SINK | ELEMENT_AUDIO_SCREEN_SINK | ELEMENT_QUEUE
| ELEMENT_QUEUE2 | ELEMENT_H264_PARSE | ELEMENT_H265_PARSE | ELEMENT_MPEG_VIDEO_PARSE
| ELEMENT_AAC_PARSE | ELEMENT_AC3_PARSE | ELEMENT_MPEG_AUDIO_PARSE | ELEMENT_TEE
| ELEMENT_FLV_MUX | ELEMENT_MPEGTS_MUX | ELEMENT_FILE_SINK | ELEMENT_RTP_MUX
| ELEMENT_RTP_MPEG2_PAY | ELEMENT_RTP_H264_PAY | ELEMENT_RTP_H265_PAY | ELEMENT_RTP_AAC_PAY
| ELEMENT_RTP_AC3_PAY | ELEMENT_V4L2_SRC | ELEMENT_SPLIT_MUX_SINK | ELEMENT_ALSA_SRC
| ELEMENT_MULTIFILE_SRC | ELEMENT_APP_SRC | ELEMENT_FILE_SRC | ELEMENT_IMAGE_FREEZE
| ELEMENT_CAPS_FILTER | ELEMENT_AUDIO_CONVERT | ELEMENT_RG_VOLUME | ELEMENT_VOLUME
| ELEMENT_FAAC | ELEMENT_VOAAC_ENC | ELEMENT_AUDIO_RESAMPLE | ELEMENT_LAME_MP3_ENC
| ELEMENT_VIDEO_CONVERT | ELEMENT_ASPECT_RATIO | ELEMENT_DEINTERLACE | ELEMENT_AV_DEINTERLACE
| ELEMENT_UDP_SINK | ELEMENT_TCP_SERVER_SINK | ELEMENT_RTMP_SINK | ELEMENT_HLS_SINK
| ELEMENT_MULTIFILE_SINK | ELEMENT_SOUP_HTTP_SRC | ELEMENT_VIDEO_SCALE | ELEMENT_VIDEO_RATE
| ELEMENT_NV_H264_ENC | ELEMENT_MSDK_H264_ENC | ELEMENT_X264_ENC | ELEMENT_X265_ENC
| ELEMENT_MPEG2_ENC | ELEMENT_EAVC_ENC | ELEMENT_OPEN_H264_ENC | ELEMENT_UDP_SRC
| ELEMENT_TCP_SERVER_SRC | ELEMENT_RTMP_SRC | ELEMENT_VAAPI_H264_ENC | ELEMENT_VAAPI_MPEG2_ENC
| ELEMENT_MFX_H264_ENC | ELEMENT_GDK_PIXBUF_OVERLAY | ELEMENT_VIDEO_BOX | ELEMENT_VIDEO_MIXER
| ELEMENT_AUDIO_MIXER | ELEMENT_INTERLEAVE | ELEMENT_DEINTERLEAVE | ELEMENT_CAIRO_OVERLAY
| ELEMENT_VIDEO_CROP | ELEMENT_SPECTRUM | ELEMENT_LEVEL | ELEMENT_HLS_DEMUX
| ELEMENT_VIDEO_DECK_SINK | ELEMENT_AUDIO_DECK_SINK | ELEMENT_INTERLACE
| ELEMENT_AUTO_VIDEO_CONVERT | ELEMENT_TS_PARSE | ELEMENT_AVDEC_H264 | ELEMENT_TS_DEMUX
| ELEMENT_AVDEC_AC3 | ELEMENT_AVDEC_AC3_FIXED | ELEMENT_SOUP_HTTP_CLIENT_SINK
| ELEMENT_VAAPI_DECODEBIN | ELEMENT_VAAPI_POST_PROC | ELEMENT_MFX_VPP | ELEMENT_MFX_H264_DEC.
(* [src/src/stream/elements/element.cpp:336-425 ElementsTraits] *)
Definition ElementsTraits_name (el : SupportedElements) : string :=
  match el with
  | ELEMENT_DECODEBIN => DECODEBIN | ELEMENT_FAKE_SINK => FAKE_SINK
  | ELEMENT_TEST_SINK => TEST_SINK | ELEMENT_VIDEO_TEST_SRC => VIDEO_TEST_SRC
  | ELEMENT_AUDIO_TEST_SRC => AUDIO_TEST_SRC | ELEMENT_VIDEO_SCREEN_SINK => VIDEO_SCREEN_SINK
  | ELEMENT_AUDIO_SCREEN_SINK => AUDIO_SCREEN_SINK | ELEMENT_QUEUE => QUEUE
  | ELEMENT_QUEUE2 => QUEUE2 | ELEMENT_H264_PARSE => H264_PARSE
  | ELEMENT_H265_PARSE => H265_PARSE | ELEMENT_MPEG_VIDEO_PARSE => MPEG_VIDEO_PARSE
  | ELEMENT_AAC_PARSE => AAC_PARSE | ELEMENT_AC3_PARSE => AC3_PARSE
  | ELEMENT_MPEG_AUDIO_PARSE => MPEG_AUDIO_PARSE | ELEMENT_TEE => TEE
  | ELEMENT_FLV_MUX => FLV_MUX | ELEMENT_MPEGTS_MUX => MPEGTS_MUX
  | ELEMENT_FILE_SINK => FILE_SINK | ELEMENT_RTP_MUX => RTP_MUX
  | ELEMENT_RTP_MPEG2_PAY => RTP_MPEG2_PAY | ELEMENT_RTP_H264_PAY => RTP_H264_PAY
  | ELEMENT_RTP_H265_PAY => RTP_H265_PAY | ELEMENT_RTP_AAC_PAY => RTP_AAC_PAY
  | ELEMENT_RTP_AC3_PAY => RTP_AC3_PAY | ELEMENT_V4L2_SRC => V4L2_SRC
  | ELEMENT_SPLIT_MUX_SINK => SPLIT_MUX_SINK | ELEMENT_ALSA_SRC => ALSA_SRC
  | ELEMENT_MULTIFILE_SRC => MULTIFILE_SRC | ELEMENT_APP_SRC => APP_SRC
  | ELEMENT_FILE_SRC => FILE_SRC | ELEMENT_IMAGE_FREEZE => IMAGE_FREEZE
  | ELEMENT_CAPS_FILTER => CAPS_FILTER | ELEMENT_AUDIO_CONVERT => AUDIO_CONVERT
  | ELEMENT_RG_VOLUME => RG_VOLUME | ELEMENT_VOLUME => VOLUME | ELEMENT_FAAC => FAAC
  | ELEMENT_VOAAC_ENC => VOAAC_ENC | ELEMENT_AUDIO_RESAMPLE => AUDIO_RESAMPLE
  | ELEMENT_LAME_MP3_ENC => LAME_MP3_ENC | ELEMENT_VIDEO_CONVERT => VIDEO_CONVERT
  | ELEMENT_ASPECT_RATIO => ASPECT_RATIO | ELEMENT_DEINTERLACE => DEINTERLACE
  | ELEMENT_AV_DEINTERLACE => AV_DEINTERLACE | ELEMENT_UDP_SINK => UDP_SINK
  | ELEMENT_TCP_SERVER_SINK => TCP_SERVER_SINK | ELEMENT_RTMP_SINK => RTMP_SINK
  | ELEMENT_HLS_SINK => HLS_SINK | ELEMENT_MULTIFILE_SINK => MULTIFILE_SINK
  | ELEMENT_SOUP_HTTP_SRC => SOUP_HTTP_SRC | ELEMENT_VIDEO_SCALE => VIDEO_SCALE
  | ELEMENT_VIDEO_RATE => VIDEO_RATE | ELEMENT_NV_H264_ENC => NV_H264_ENC
  | ELEMENT_MSDK_H264_ENC => MSDK_H264_ENC | ELEMENT_X264_ENC => X264_ENC
  | ELEMENT_X265_ENC => X265_ENC | ELEMENT_MPEG2_ENC => MPEG2_ENC | ELEMENT_EAVC_ENC => EAVC_ENC
  | ELEMENT_OPEN_H264_ENC => OPEN_H264_ENC | ELEMENT_UDP_SRC => UDP_SRC
  | ELEMENT_TCP_SERVER_SRC => TCP_SERVER_SRC | ELEMENT_RTMP_SRC => RTMP_SRC
  | ELEMENT_VAAPI_H264_ENC => VAAPI_H264_ENC | ELEMENT_VAAPI_MPEG2_ENC => VAAPI_MPEG2_ENC
  | ELEMENT_MFX_H264_ENC => MFX_H264_ENC | ELEMENT_GDK_PIXBUF_OVERLAY => GDK_PIXBUF_OVERLAY
  | ELEMENT_VIDEO_BOX => VIDEO_BOX | ELEMENT_VIDEO_MIXER => VIDEO_MIXER
  | ELEMENT_AUDIO_MIXER => AUDIO_MIXER | ELEMENT_INTERLEAVE => INTERLEAVE
  | ELEMENT_DEINTERLEAVE => DEINTERLEAVE | ELEMENT_CAIRO_OVERLAY => CAIRO_OVERLAY
  | ELEMENT_VIDEO_CROP => VIDEO_CROP | ELEMENT_SPECTRUM => SPECTRUM | ELEMENT_LEVEL => LEVEL
  | ELEMENT_HLS_DEMUX => HLS_DEMUX | ELEMENT_VIDEO_DECK_SINK => VIDEO_DECK_SINK
  | ELEMENT_AUDIO_DECK_SINK => AUDIO_DECK_SINK | ELEMENT_INTERLACE => INTERLACE
  | ELEMENT_AUTO_VIDEO_CONVERT => AUTO_VIDEO_CONVERT | ELEMENT_TS_PARSE => TS_PARSE
  | ELEMENT_AVDEC_H264 => AVDEC_H264 | ELEMENT_TS_DEMUX => TS_DEMUX
  | ELEMENT_AVDEC_AC3 => AVDEC_AC3 | ELEMENT_AVDEC_AC3_FIXED => AVDEC_AC3_FIXED
  | ELEMENT_SOUP_HTTP_CLIENT_SINK => SOUP_HTTP_CLIENT_SINK
  | ELEMENT_VAAPI_DECODEBIN => VAAPI_DECODEBIN | ELEMENT_VAAPI_POST_PROC => VAAPI_POST_PROC
  | ELEMENT_MFX_VPP => MFX_VPP | ELEMENT_MFX_H264_DEC => MFX_H264_DEC
  end.

(** ** Elements and their properties *)

(** The overloads of [SetProperty]; [GCaps] is a [GstCaps] of one structure. *)
#[warnings="-register-all"]
Inductive gvalue :=
| GBool (b : bool)
| GFloat (d : double)
| GDouble (d : double)
| GInt (z : Z)
| GUint (z : Z)
| GUint8 (z : Z)
| GUint16 (z : Z)
| GUint64 (z : Z)
| GString (s : string)
| GFraction (num den : Z)
| GCaps (media : string) (fields : list (string * gvalue))
| GPointer (what : string).

(** An [Element] object; [el_id] is its address, [el_valid] tells whether
    [element_] is a null pointer. *)
(* [src/src/stream/elements/element.h:181-185 Element] *)
Record element := {
  el_id : nat;
  el_type : SupportedElements;
  el_name : string;
  el_valid : bool
}.

(* [src/src/stream/elements/element.cpp:36-38 Element::GetPluginName] *)
Definition GetPluginName (el : element) : string := ElementsTraits_name (el_type el).

(** What the program uses of GStreamer. *)
Class GstLib := {
  gst_element_factory_make : string -> string -> bool;    (* by type and name: not null *)
  gst_bin_add : list element -> element -> bool;
  gst_element_link : list (element * element) -> element -> element -> bool;
  gst_has_static_pad : SupportedElements -> string -> bool;
  gst_has_request_pad : SupportedElements -> string -> bool
}.

(** A bin takes no null pointer and no second element of a name. *)
Class GstLibOk `{GstLib} := {
  gst_bin_add_ok l el :
    gst_bin_add l el = true -> el_valid el = true /\ el_name el ∉ (el_name <$> l)
}.

(** A GStreamer that has all plugins and refuses only what it must. *)
Definition gst_complete `{GstLib} : Prop :=
  (forall type name, gst_element_factory_make type name = true) /\
  (forall l el, el_valid el = true -> el_name el ∉ (el_name <$> l) -> gst_bin_add l el = true) /\
  (forall links a b, gst_element_link links a b = true).

(** ** Builders *)

(** [pl_line] is [pipeline_elements_], which holds what the bin holds. *)
(* [src/src/stream/ibase_builder.h:65-68 IBaseBuilder] *)
Record pipeline := {
  pl_next : nat;
  pl_props : list (nat * string * gvalue);
  pl_line : list element;
  pl_links : list (element * element)
}.

(* [src/src/stream/ibase_builder.cpp:32-33 IBaseBuilder::IBaseBuilder] *)
Definition pipeline_empty : pipeline :=
  {| pl_next := 0; pl_props := []; pl_line := []; pl_links := [] |}.

(** What the mosaic stream is told about its tiles. *)
(* [src/src/stream/streams/mosaic_options.h:28-32 AudioChannelInfo] *)
Record AudioChannelInfo := { rms_dB : double; peak_dB : double; decay_dB : double }.
(* [src/src/stream/streams/mosaic_options.h:34-37 ImageInfo] *)
Record ImageInfo := { img_x_y : Z * Z; img_size : Z * Z }.
(* [src/src/stream/streams/mosaic_options.h:44-47 StreamInfo] *)
Record MosaicStreamInfo := { img : ImageInfo; sound_channels : list AudioChannelInfo }.
(* [src/src/stream/streams/mosaic_options.h:49-56 MosaicImageOptions] *)
Record MosaicImageOptions := { screen_size : Z * Z; right_padding : Z; sreams : list MosaicStreamInfo }.

(** What a builder tells its observer, the stream. *)
(* [src/src/stream/ibase_builder_observer.h:28-34 IBaseBuilderObserver] *)
Inductive build_event :=
| OnInpudSrcPadCreated (scheme : url_scheme) (el : element) (id : Z)
| OnOutputSinkPadCreated (scheme : url_scheme) (el : element) (id : Z)
| OnDecodebinCreated (el : element)
| OnCairoCreated (el : element) (options : MosaicImageOptions)
| OnAppSrcCreatedCreated (el : element)
| OnSplitmuxsinkCreated (el : element)
| OnPadLinked (src sink : element) (pad : string)
| OnPadProperty (el : element) (pad property : string) (v : gvalue)
| OnElementRemoved (el : element).

Abbreviation build := (hact pipeline build_event).

(* [src/src/stream/gst_types.h:29-32 Connector] *)
Record Connector := { conn_video : option element; conn_audio : option element }.

Section Builders.
Context `{CommonLib} `{GstLib}.

Definition set_pl_line (l : list element) (s : pipeline) : pipeline :=
  {| pl_next := pl_next s; pl_props := pl_props s; pl_line := l; pl_links := pl_links s |}.
Definition set_pl_links (l : list (element * element)) (s : pipeline) : pipeline :=
  {| pl_next := pl_next s; pl_props := pl_props s; pl_line := pl_line s; pl_links := l |}.
Definition set_pl_props (l : list (nat * string * gvalue)) (s : pipeline) : pipeline :=
  {| pl_next := pl_next s; pl_props := l; pl_line := pl_line s; pl_links := pl_links s |}.

(* [src/src/stream/gstreamer_utils.cpp:24-31 make_element_safe] *)
Definition make_element_safe (type name : string) : outcome bool :=
  if gst_element_factory_make type name then Ok true
  else critical_log ("Cannot create '" +:+ type +:+ "' named: " +:+ name) ;; Ok false.

(** [new ElementX(name)]. *)
(* [src/src/stream/elements/element.cpp:79-85 Element::Element] *)
Definition make_element (type : SupportedElements) (name : string) : build element :=
  valid ← hlift (make_element_safe (ElementsTraits_name type) name);
  id ← hgets pl_next;
  hmodify (fun s => {| pl_next := S (pl_next s); pl_props := pl_props s;
                       pl_line := pl_line s; pl_links := pl_links s |}) ;;
  mret {| el_id := id; el_type := type; el_name := name; el_valid := valid |}.

(** [g_object_set] on a null pointer only warns. *)
(* [src/src/stream/elements/element.cpp:112-166 Element::SetProperty] *)
Definition SetProperty (el : element) (property : string) (val : gvalue) : build unit :=
  if el_valid el then hmodify (fun s => set_pl_props (pl_props s ++ [(el_id el, property, val)]) s)
  else mret tt.

(* [src/src/stream/elements/element.cpp:168-170 Element::SetFractionProperty] *)
Definition SetFractionProperty (el : element) (property : string) (num den : Z) : build unit :=
  SetProperty el property (GFraction num den).

(** A method that is called through a pointer. *)
Definition deref (el : option element) : build element :=
  match el with
  | Some e => mret e
  | None => hlift (Abort (NullPointer "Element"))
  end.

(** [StaticPad(name)->IsValid()]. *)
(* [src/src/stream/elements/element.cpp:52-59 Element::StaticPad] *)
Definition StaticPad (el : element) (name : string) : bool :=
  el_valid el && gst_has_static_pad (el_type el) name.

(* [src/src/stream/elements/element.cpp:61-68 Element::RequestPad] *)
Definition RequestPad (el : element) (name : string) : bool :=
  el_valid el && gst_has_request_pad (el_type el) name.

(* [src/src/stream/ibase_builder.cpp:52-58 IBaseBuilder::ElementAdd] *)
Definition ElementAdd (elem : element) : build unit :=
  line ← hgets pl_line;
  hlift (check (gst_bin_add line elem) ("Can't added " +:+ GetPluginName elem)) ;;
  hmodify (fun s => set_pl_line (pl_line s ++ [elem]) s).

(* [src/src/stream/ibase_builder.cpp:60-64 IBaseBuilder::ElementLink] *)
Definition ElementLink (src dest : option element) : build unit :=
  s ← deref src;
  d ← deref dest;
  links ← hgets pl_links;
  hlift (check (gst_element_link links s d)
    ("Can't linked " +:+ GetPluginName s +:+ " to " +:+ GetPluginName d)) ;;
  hmodify (fun p => set_pl_links (pl_links p ++ [(s, d)]) p).

(** An element is taken out of the bin only if it is there. *)
(* [src/src/stream/ibase_builder.cpp:66-74 IBaseBuilder::ElementRemove] *)
Definition ElementRemove (elem : element) : build unit :=
  line ← hgets pl_line;
  hlift (check (existsb (fun e => Nat.eqb (el_id e) (el_id elem)) line) "gst_bin_remove") ;;
  hmodify (fun s => set_pl_line (List.filter (fun e => negb (Nat.eqb (el_id e) (el_id elem))) (pl_line s)) s) ;;
  hemit (OnElementRemoved elem).

(* [src/src/stream/ibase_builder.cpp:76-79 IBaseBuilder::ElementLinkRemove] *)
Definition ElementLinkRemove (src dest : element) : build unit :=
  hmodify (fun s => set_pl_links
    (List.filter (fun l => negb (Nat.eqb (el_id l.1) (el_id src) && Nat.eqb (el_id l.2) (el_id dest)))
       (pl_links s)) s).

(* [src/src/stream/ibase_builder.cpp:41-50 IBaseBuilder::GetElementByName] *)
Definition GetElementByName (line : list element) (name : string) : outcome element :=
  match List.find (fun el => String.eqb (el_name el) name) line with
  | Some el => Ok el
  | None => Abort (NotReached ("Not founded element name: " +:+ name))
  end.

(* [src/src/stream/ibase_builder.cpp:103-107 IBaseBuilder::HandleInputSrcPadCreated] *)
Definition HandleInputSrcPadCreated (scheme : url_scheme) (el : element) (id : Z) : build unit :=
  hemit (OnInpudSrcPadCreated scheme el id).

(* [src/src/stream/ibase_builder.cpp:109-113 IBaseBuilder::HandleOutputSinkPadCreated] *)
Definition HandleOutputSinkPadCreated (scheme : url_scheme) (el : element) (id : Z) : build unit :=
  hemit (OnOutputSinkPadCreated scheme el id).

(** The observer is told about a pad that exists. *)
Definition watch_src (scheme : url_scheme) (el : element) (id : Z) : build unit :=
  if StaticPad el "src" then HandleInputSrcPadCreated scheme el id else mret tt.
Definition watch_sink (scheme : url_scheme) (el : element) (id : Z) : build unit :=
  if StaticPad el "sink" then HandleOutputSinkPadCreated scheme el id else mret tt.
End Builders.

#[global] Arguments make_element : simpl never.
#[global] Arguments SetProperty : simpl never.
#[global] Arguments ElementAdd : simpl never.
#[global] Arguments ElementLink : simpl never.
#[global] Arguments watch_src : simpl never.
#[global] Arguments watch_sink : simpl never.

(** ** Chains *)

(** The links of elements that are connected one after the other. *)
Fixpoint chain_links (l : list string) : list (string * string) :=
  match l with
  | a :: (b :: _) as l' => (a, b) :: chain_links l'
  | _ => []
  end.

#[global] Arguments chain_links : simpl never.

Lemma chain_links_cons a b l : chain_links (a :: b :: l) = (a, b) :: chain_links (b :: l).
Proof. done. Qed.

Lemma last_cons {A} (a : A) l x : List.last (a :: l) x = List.last l a.
Proof.
  revert a x. induction l as [|b l IH]; intros a x; [done|].
  change (List.last (a :: b :: l) x) with (List.last (b :: l) x). by rewrite !IH.
Qed.

Lemma chain_links_app x c1 c2 :
  chain_links (x :: c1 ++ c2) = chain_links (x :: c1) ++ chain_links (List.last c1 x :: c2).
Proof.
  revert x. induction c1 as [|a c1 IH]; intros x; [done|].
  rewrite last_cons, chain_links_cons, <- !app_comm_cons, chain_links_cons. by rewrite IH.
Qed.

Lemma last_app_default {A} (c1 c2 : list A) x : List.last (c1 ++ c2) x = List.last c2 (List.last c1 x).
Proof. revert x. induction c1 as [|a c1 IH]; intros x; [done|]. by rewrite <- app_comm_cons, !last_cons, IH. Qed.

(** ** A logic for builders

    [builds m ns ls P]: whenever [m] returns, it has put elements of the names
    [ns] into the pipeline and made the links [ls], which are given by names and
    in any order, and its result satisfies [P]; on a GStreamer that has all
    plugins [m] does return, unless a name would be taken twice; and a pipeline
    without two elements of a name keeps that. *)

Definition pl_names (s : pipeline) : list string := el_name <$> pl_line s.
Definition link_names (s : pipeline) : list (string * string) :=
  (fun l => (el_name l.1, el_name l.2)) <$> pl_links s.

Section BuildLogic.
Context `{CommonLib} `{GstLib}.

Definition builds {A} (m : build A) (ns : list string) (ls : list (string * string)) (P : A -> Prop) : Prop :=
  forall s, match m s with
            | (Ok a, s', _) =>
                pl_names s' ≡ₚ pl_names s ++ ns /\ link_names s' ≡ₚ link_names s ++ ls /\ P a /\
                (NoDup (pl_names s) -> NoDup (pl_names s'))
            | (Err _, _, _) => False
            | (Abort _, _, _) => gst_complete -> NoDup (pl_names s ++ ns) -> False
            end.

(** [stuck m]: [m] never returns. *)
Definition stuck {A} (m : build A) : Prop := forall s, is_ok (m s).1.1 = false.

(** An element of a name; it is there if GStreamer has all plugins. *)
Definition named (name : string) (el : element) : Prop :=
  el_name el = name /\ (gst_complete -> el_valid el = true).
Definition conn_named (name : string) (el : option element) : Prop :=
  exists e, el = Some e /\ named name e.

(** [realizes m ok ns ls P]: [m] builds this if [ok], and never returns if not. *)
Definition realizes {A} (m : build A) (ok : bool) (ns : list string) (ls : list (string * string))
    (P : A -> Prop) : Prop :=
  if ok then builds m ns ls P else stuck m.

(** [m] continues the line that ends in [x] with the elements [c]; [N] tells
    how its result names the new end. *)
Definition extends {A} (N : string -> A -> Prop) (m : build A) (ok : bool) (x : string) (c : list string) : Prop :=
  realizes m ok c (chain_links (x :: c)) (N (List.last c x)).

Lemma builds_ret {A} (a : A) (P : A -> Prop) : P a -> builds (mret a) [] [] P.
Proof. intros Ha s. cbn. by rewrite !app_nil_r. Qed.

Lemma builds_bind {A B} (m : build A) (f : A -> build B) n1 n2 l1 l2 P Q :
  builds m n1 l1 P -> (forall a, P a -> builds (f a) n2 l2 Q) ->
  builds (m ≫= f) (n1 ++ n2) (l1 ++ l2) Q.
Proof.
  intros Hm Hf s. specialize (Hm s). unfold mbind, hact_bind.
  destruct (m s) as [[[a|e|r] s1] es1]; [|done|].
  - destruct Hm as (Hn & Hl & Ha & Hd). specialize (Hf a Ha s1).
    destruct (f a s1) as [[[b|e|r] s2] es2]; [|done|].
    + destruct Hf as (Hn2 & Hl2 & Hb & Hd2). split_and!; [|..|tauto].
      * by rewrite Hn2, Hn, <- app_assoc.
      * by rewrite Hl2, Hl, <- app_assoc.
      * done.
    + intros Hc Hd'. apply Hf; [done|]. by rewrite Hn, <- app_assoc.
  - intros Hc Hd. apply Hm; [done|]. rewrite app_assoc in Hd. by apply NoDup_app in Hd as [? _].
Qed.

Lemma builds_conv {A} (m : build A) n n' l l' (P Q : A -> Prop) :
  builds m n l P -> n ≡ₚ n' -> l ≡ₚ l' -> (forall a, P a -> Q a) -> builds m n' l' Q.
Proof.
  intros Hm Hn Hl HQ s. specialize (Hm s). destruct (m s) as [[[a|e|r] s1] es1]; [|done|].
  - rewrite <- Hn, <- Hl. naive_solver.
  - by rewrite <- Hn.
Qed.

Lemma builds_perm {A} (m : build A) n n' l l' P :
  builds m n l P -> n ≡ₚ n' -> l ≡ₚ l' -> builds m n' l' P.
Proof. intros ???. by eapply builds_conv. Qed.

Lemma builds_weaken {A} (m : build A) n l (P Q : A -> Prop) :
  builds m n l P -> (forall a, P a -> Q a) -> builds m n l Q.
Proof. intros ??. by eapply builds_conv. Qed.

Lemma builds_ret_bind {A B} (a : A) (f : A -> build B) n l Q :
  builds (f a) n l Q -> builds (mret a ≫= f) n l Q.
Proof. intros Hf. eapply (builds_bind (mret a) f [] n [] l (eq a)); [by apply builds_ret|]. by intros ? <-. Qed.

Lemma builds_assoc {A B C} (m : build A) (g : A -> build B) (f : B -> build C) n l Q :
  builds (m ≫= fun a => g a ≫= f) n l Q -> builds ((m ≫= g) ≫= f) n l Q.
Proof.
  intros Hm s. specialize (Hm s). unfold mbind, hact_bind in *.
  destruct (m s) as [[[a|e|r] s1] es1]; [|done|done].
  destruct (g a s1) as [[[b|e|r] s2] es2]; [|done|done].
  by destruct (f b s2) as [[[]]].
Qed.

(** A step that neither adds nor links. *)
Lemma builds_skip {A B} (m : build A) (f : A -> build B) n l P Q :
  builds m [] [] P -> (forall a, P a -> builds (f a) n l Q) -> builds (m ≫= f) n l Q.
Proof. intros Hm Hf. exact (builds_bind m f [] n [] l P Q Hm Hf). Qed.

Lemma builds_last {A B} (m : build A) (f : A -> build B) n l P Q :
  builds m n l P -> (forall a, P a -> builds (f a) [] [] Q) -> builds (m ≫= f) n l Q.
Proof. intros Hm Hf. eapply builds_perm; [by eapply builds_bind|by rewrite app_nil_r..]. Qed.

Lemma builds_if {A} (b : bool) (m1 m2 : build A) n1 n2 l1 l2 P :
  builds m1 n1 l1 P -> builds m2 n2 l2 P ->
  builds (if b then m1 else m2) (if b then n1 else n2) (if b then l1 else l2) P.
Proof. by destruct b. Qed.

Lemma builds_iter {A} (f : A -> build unit) (l : list A) (ns : A -> list string) ls :
  (forall x, x ∈ l -> builds (f x) (ns x) (ls x) (fun _ => True)) ->
  builds (hact_iter f l) (l ≫= ns) (l ≫= ls) (fun _ => True).
Proof.
  induction l as [|x l IH]; intros Hf; [by apply builds_ret|]. cbn [hact_iter].
  rewrite !bind_cons. eapply builds_bind; [apply Hf; by left|]. intros _ _. apply IH.
  intros y Hy. apply Hf. by right.
Qed.

Lemma builds_modify (f : pipeline -> pipeline) :
  (forall s, pl_line (f s) = pl_line s) -> (forall s, pl_links (f s) = pl_links s) ->
  builds (hmodify f) [] [] (fun _ => True).
Proof. intros Hf Hg s. cbn. unfold pl_names, link_names. by rewrite Hf, Hg, !app_nil_r. Qed.

Lemma builds_emit (e : build_event) : builds (hemit e) [] [] (fun _ => True).
Proof. intros s. cbn. by rewrite !app_nil_r. Qed.

Lemma builds_lift {A} (m : outcome A) a (P : A -> Prop) : m = Ok a -> P a -> builds (hlift m) [] [] P.
Proof. intros -> Ha s. cbn. by rewrite !app_nil_r. Qed.

Lemma builds_realizes {A} (m : build A) ns ls P : builds m ns ls P -> realizes m true ns ls P.
Proof. done. Qed.

Lemma stuck_abort {A} r : stuck (hlift (Abort r) : build A).
Proof. done. Qed.

Lemma stuck_bind {A B} (m : build A) (f : A -> build B) : stuck m -> stuck (m ≫= f).
Proof.
  intros Hm s. specialize (Hm s). unfold mbind, hact_bind. by destruct (m s) as [[[]]].
Qed.

Lemma stuck_bind_r {A B} (m : build A) (f : A -> build B) n l P :
  builds m n l P -> (forall a, P a -> stuck (f a)) -> stuck (m ≫= f).
Proof.
  intros Hm Hf s. specialize (Hm s). unfold mbind, hact_bind.
  destruct (m s) as [[[a|e|r] s1] es1]; [|done|done]. destruct Hm as (_ & _ & Ha & _).
  specialize (Hf a Ha s1). by destruct (f a s1) as [[[]]].
Qed.

Lemma realizes_bind {A B} (m : build A) (f : A -> build B) ok1 ok2 n1 n2 l1 l2 P Q :
  realizes m ok1 n1 l1 P -> (forall a, P a -> realizes (f a) ok2 n2 l2 Q) ->
  realizes (m ≫= f) (ok1 && ok2) (n1 ++ n2) (l1 ++ l2) Q.
Proof.
  intros Hm Hf. destruct ok1; cbn in Hm |- *; [|by apply stuck_bind].
  destruct ok2; [by eapply builds_bind | by eapply stuck_bind_r].
Qed.

(** The same where only one of the two steps may refuse. *)
Lemma realizes_then {A B} (m : build A) (f : A -> build B) ok n1 n2 l1 l2 P Q :
  realizes m ok n1 l1 P -> (forall a, P a -> builds (f a) n2 l2 Q) ->
  realizes (m ≫= f) ok (n1 ++ n2) (l1 ++ l2) Q.
Proof. intros Hm Hf. rewrite <- (andb_true_r ok). by eapply realizes_bind. Qed.

Lemma builds_then {A B} (m : build A) (f : A -> build B) ok n1 n2 l1 l2 P Q :
  builds m n1 l1 P -> (forall a, P a -> realizes (f a) ok n2 l2 Q) ->
  realizes (m ≫= f) ok (n1 ++ n2) (l1 ++ l2) Q.
Proof. intros Hm Hf. exact (realizes_bind m f true ok n1 n2 l1 l2 P Q Hm Hf). Qed.

(** A step that neither adds nor links. *)
Lemma realizes_skip {A B} (m : build A) (f : A -> build B) ok1 ok2 n l P Q :
  realizes m ok1 [] [] P -> (forall a, P a -> realizes (f a) ok2 n l Q) ->
  realizes (m ≫= f) (ok1 && ok2) n l Q.
Proof. intros Hm Hf. exact (realizes_bind m f ok1 ok2 [] n [] l P Q Hm Hf). Qed.

Lemma realizes_last {A B} (m : build A) (f : A -> build B) ok n l P Q :
  realizes m ok n l P -> (forall a, P a -> builds (f a) [] [] Q) -> realizes (m ≫= f) ok n l Q.
Proof.
  intros Hm Hf. rewrite <- (app_nil_r n), <- (app_nil_r l). by eapply realizes_then.
Qed.

Lemma realizes_conv {A} (m : build A) ok ok' n n' l l' (P Q : A -> Prop) :
  realizes m ok n l P -> ok = ok' -> (ok = true -> n ≡ₚ n' /\ l ≡ₚ l' /\ forall a, P a -> Q a) ->
  realizes m ok' n' l' Q.
Proof.
  intros Hm <- H'. destruct ok; [|done]. destruct H' as (? & ? & ?); [done|]. by eapply builds_conv.
Qed.

Lemma realizes_if {A} (b : bool) (m1 m2 : build A) ok1 ok2 n1 n2 l1 l2 P :
  realizes m1 ok1 n1 l1 P -> realizes m2 ok2 n2 l2 P ->
  realizes (if b then m1 else m2) (if b then ok1 else ok2) (if b then n1 else n2) (if b then l1 else l2) P.
Proof. by destruct b. Qed.

Lemma realizes_iter {A} (f : A -> build unit) (l : list A) (ok : A -> bool) ns ls :
  (forall x, x ∈ l -> realizes (f x) (ok x) (ns x) (ls x) (fun _ => True)) ->
  realizes (hact_iter f l) (forallb ok l) (l ≫= ns) (l ≫= ls) (fun _ => True).
Proof.
  induction l as [|x l IH]; intros Hf; [by apply builds_ret|]. cbn [hact_iter forallb].
  rewrite !bind_cons. eapply realizes_bind; [apply Hf; by left|]. intros _ _. apply IH.
  intros y Hy. apply Hf. by right.
Qed.

Lemma extends_ret {A} (N : string -> A -> Prop) a x : N x a -> extends N (mret a) true x [].
Proof. apply builds_ret. Qed.

Lemma extends_bind {A B} (N1 : string -> A -> Prop) (N2 : string -> B -> Prop) m (f : A -> build B)
    ok1 ok2 x c1 c2 :
  extends N1 m ok1 x c1 -> (forall a, N1 (List.last c1 x) a -> extends N2 (f a) ok2 (List.last c1 x) c2) ->
  extends N2 (m ≫= f) (ok1 && ok2) x (c1 ++ c2).
Proof.
  unfold extends. intros Hm Hf. rewrite chain_links_app, last_app_default. by eapply realizes_bind.
Qed.

Lemma extends_if {A} (N : string -> A -> Prop) (b : bool) (m1 m2 : build A) ok1 ok2 x c1 c2 :
  extends N m1 ok1 x c1 -> extends N m2 ok2 x c2 ->
  extends N (if b then m1 else m2) (if b then ok1 else ok2) x (if b then c1 else c2).
Proof. by destruct b. Qed.

Lemma extends_weaken {A} (N1 N2 : string -> A -> Prop) m ok x c :
  extends N1 m ok x c -> (forall y a, N1 y a -> N2 y a) -> extends N2 m ok x c.
Proof. intros Hm HN. eapply realizes_conv; [done..|]. intros _. naive_solver. Qed.

(** [only m P]: [m] returns nothing but results of [P]. *)
Definition only {A} (m : build A) (P : A -> Prop) : Prop := forall s a, (m s).1.1 = Ok a -> P a.

Lemma only_ret {A} (a : A) (P : A -> Prop) : P a -> only (mret a) P.
Proof. intros Ha s a' Hs. cbn in Hs. by simplify_eq. Qed.

Lemma only_bind {A B} (m : build A) (f : A -> build B) P Q :
  only m P -> (forall a, P a -> only (f a) Q) -> only (m ≫= f) Q.
Proof.
  intros Hm Hf s b. specialize (Hm s). unfold mbind, hact_bind.
  destruct (m s) as [[[a|e|r] s1] es1]; [|done|done]. specialize (Hf a (Hm a eq_refl) s1 b).
  by destruct (f a s1) as [[[]]].
Qed.

Lemma only_any {A} (m : build A) : only m (fun _ => True).
Proof. by intros s a _. Qed.

Lemma only_bind_r {A B} (m : build A) (f : A -> build B) Q :
  (forall a, only (f a) Q) -> only (m ≫= f) Q.
Proof. intros Hf. eapply only_bind; [apply only_any|]. intros a _. apply Hf. Qed.

Lemma only_stuck {A} (m : build A) P : stuck m -> only m P.
Proof. intros Hm s a Ha. specialize (Hm s). by rewrite Ha in Hm. Qed.

Lemma stuck_only {A B} (m : build A) (f : A -> build B) P :
  only m P -> (forall a, P a -> stuck (f a)) -> stuck (m ≫= f).
Proof.
  intros Hm Hf s. specialize (Hm s). unfold mbind, hact_bind.
  destruct (m s) as [[[a|e|r] s1] es1]; [|done|done]. specialize (Hf a (Hm a eq_refl) s1).
  by destruct (f a s1) as [[[]]].
Qed.

Lemma stuck_after {A B} (m : build A) (f : A -> build B) : (forall a, stuck (f a)) -> stuck (m ≫= f).
Proof. intros Hf. eapply stuck_only; [apply only_any|]. by intros a _. Qed.

(** A link from or to a null pointer. *)
Lemma ElementLink_null dest : stuck (ElementLink None dest).
Proof. done. Qed.

Lemma make_element_builds type name :
  builds (make_element type name) [] [] (fun el => named name el /\ el_type el = type).
Proof.
  intros s. unfold make_element, make_element_safe, mbind, hact_bind, hlift.
  destruct (gst_element_factory_make _ _) eqn:Hf; cbn; unfold pl_names, link_names; cbn.
  - rewrite !app_nil_r. by repeat split.
  - destruct (critical_log _) eqn:Hl; cbn.
    + rewrite !app_nil_r. repeat split; try done. intros (Hc & _). by rewrite Hc in Hf.
    + unfold critical_log in Hl. by destruct critical_log_aborts.
    + intros (Hc & _) _. by rewrite Hc in Hf.
Qed.

Lemma SetProperty_builds el p v : builds (SetProperty el p v) [] [] (fun _ => True).
Proof. unfold SetProperty. destruct (el_valid el); [by apply builds_modify | by apply builds_ret]. Qed.

Lemma watch_src_builds sch el id : builds (watch_src sch el id) [] [] (fun _ => True).
Proof. unfold watch_src. destruct (StaticPad el "src"); [apply builds_emit | by apply builds_ret]. Qed.
Lemma watch_sink_builds sch el id : builds (watch_sink sch el id) [] [] (fun _ => True).
Proof. unfold watch_sink. destruct (StaticPad el "sink"); [apply builds_emit | by apply builds_ret]. Qed.

Lemma ElementLink_builds a b s d :
  conn_named a s -> conn_named b d -> builds (ElementLink s d) [] [(a, b)] (fun _ => True).
Proof.
  intros (es & -> & Hs & Hvs) (ed & -> & Hd & Hvd) p.
  unfold ElementLink, deref, mbind, hact_bind, mret, hact_ret, hgets, hlift, check; cbn.
  destruct (gst_element_link _ _ _) eqn:Hl; cbn; unfold pl_names, link_names; cbn.
  - rewrite fmap_app, app_nil_r. cbn. by rewrite Hs, Hd.
  - intros (_ & _ & Hc) _. by rewrite Hc in Hl.
Qed.

Context `{!GstLibOk}.

Lemma ElementAdd_builds name el : named name el -> builds (ElementAdd el) [name] [] (fun _ => True).
Proof.
  intros (Hn & Hv) s. unfold ElementAdd, mbind, hact_bind, hgets, hlift, check; cbn.
  destruct (gst_bin_add _ _) eqn:Ha; cbn; unfold pl_names, link_names; cbn.
  - rewrite fmap_app, !app_nil_r. cbn. rewrite Hn. apply gst_bin_add_ok in Ha as [_ Ha].
    split_and!; [done..|]. intros Hd. apply NoDup_app. split_and!; [done| |apply NoDup_singleton].
    intros x Hx ->%list_elem_of_singleton. by rewrite Hn in Ha.
  - intros Hc Hd. apply NoDup_app in Hd as (_ & Hd & _). pose proof Hc as (_ & Hadd & _).
    rewrite Hadd in Ha; [done|by apply Hv|]. rewrite Hn. intros Hx. by apply (Hd _ Hx), list_elem_of_singleton.
Qed.
End BuildLogic.


(** ** A reference instance *)

Module RefGst.
(** A GStreamer with every plugin, pad and link. *)
Definition gst : GstLib := {|
  gst_element_factory_make _ _ := true;
  gst_bin_add l el := el_valid el && negb (bool_decide (el_name el ∈ (el_name <$> l)));
  gst_element_link _ _ _ := true;
  gst_has_static_pad _ _ := true;
  gst_has_request_pad _ _ := true
|}.

Lemma gst_ok : @GstLibOk gst.
Proof. constructor. intros l el Ha. cbn in Ha. apply andb_true_iff in Ha as [Hv Hn]. by case_bool_decide. Qed.

Lemma gst_full : @gst_complete gst.
Proof. split_and!; [done| |done]. intros l el Hv Hn. cbn. rewrite Hv. by rewrite bool_decide_eq_false_2. Qed.
End RefGst.
