(* ===== verification/Elements.v ===== *)
(** * Elements of the pipelines

    [src/src/stream/elements/]: the properties that the classes of elements set,
    the constructors by kind of element, and the short lines of elements
    (converters, scaling, encoders) that the builders share. *)

From Stdlib Require Import Ascii.
From S2P Require Import Prelude Platform StreamTypes Constants Uris Gst.

(** ** Names

    A template [X_NAME_1U] of stypes.h is printed with a number of an element. *)

(* [src/src/stream/stypes.h:28-28 VIDEO_TEE_NAME_1U] *)
Definition VIDEO_TEE_NAME_1U : Z -> string := elem_name "video_tee".
(* [src/src/stream/stypes.h:29-29 AUDIO_TEE_NAME_1U] *)
Definition AUDIO_TEE_NAME_1U : Z -> string := elem_name "audio_tee".
(* [src/src/stream/stypes.h:31-31 UDB_VIDEO_NAME_1U] *)
Definition UDB_VIDEO_NAME_1U : Z -> string := elem_name "udb_conn_video".
(* [src/src/stream/stypes.h:32-32 UDB_AUDIO_NAME_1U] *)
Definition UDB_AUDIO_NAME_1U : Z -> string := elem_name "udb_conn_audio".
(* [src/src/stream/stypes.h:34-34 POST_PROC_NAME_1U] *)
Definition POST_PROC_NAME_1U : Z -> string := elem_name "post_proc".
(* [src/src/stream/stypes.h:35-35 VIDEO_LOGO_NAME_1U] *)
Definition VIDEO_LOGO_NAME_1U : Z -> string := elem_name "videologo".
(* [src/src/stream/stypes.h:36-36 DEINTERLACE_NAME_1U] *)
Definition DEINTERLACE_NAME_1U : Z -> string := elem_name "deinterlace".
(* [src/src/stream/stypes.h:37-37 ASPECT_RATIO_NAME_1U] *)
Definition ASPECT_RATIO_NAME_1U : Z -> string := elem_name "aspect_ratio".
(* [src/src/stream/stypes.h:38-38 VIDEO_CONVERT_NAME_1U] *)
Definition VIDEO_CONVERT_NAME_1U : Z -> string := elem_name "video_convert".
(* [src/src/stream/stypes.h:41-41 AUDIO_CONVERT_NAME_1U] *)
Definition AUDIO_CONVERT_NAME_1U : Z -> string := elem_name "audio_convert".
(* [src/src/stream/stypes.h:42-42 VOLUME_NAME_1U] *)
Definition VOLUME_NAME_1U : Z -> string := elem_name "volume".
(* [src/src/stream/stypes.h:44-44 VIDEOMIXER_NAME_1U] *)
Definition VIDEOMIXER_NAME_1U : Z -> string := elem_name "videomixer".
(* [src/src/stream/stypes.h:45-45 INTERLIVE_NAME_1U] *)
Definition INTERLIVE_NAME_1U : Z -> string := elem_name "interlive".
(* [src/src/stream/stypes.h:46-46 CAIRO_NAME_1U] *)
Definition CAIRO_NAME_1U : Z -> string := elem_name "cairo".
(* [src/src/stream/stypes.h:49-49 AUDIO_CONVERT_CAPS_FILTER_NAME_1U] *)
Definition AUDIO_CONVERT_CAPS_FILTER_NAME_1U : Z -> string := elem_name "audio_convert_capsfilter".
(* [src/src/stream/stypes.h:51-51 SRC_NAME_1U] *)
Definition SRC_NAME_1U : Z -> string := elem_name "src".
(* [src/src/stream/stypes.h:53-53 VIDEO_CODEC_NAME_1U] *)
Definition VIDEO_CODEC_NAME_1U : Z -> string := elem_name "video_codec".
(* [src/src/stream/stypes.h:54-54 AUDIO_CODEC_NAME_1U] *)
Definition AUDIO_CODEC_NAME_1U : Z -> string := elem_name "audio_codec".
(* [src/src/stream/stypes.h:56-56 VIDEO_CAPS_DEVICE_NAME_1U] *)
Definition VIDEO_CAPS_DEVICE_NAME_1U : Z -> string := elem_name "video_caps_device".
(* [src/src/stream/stypes.h:57-57 VIDEO_SCALE_CAPS_FILTER_NAME_1U] *)
Definition VIDEO_SCALE_CAPS_FILTER_NAME_1U : Z -> string := elem_name "videoscale_capsfilter".
(* [src/src/stream/stypes.h:58-58 VIDEO_X264ENC_CAPS_FILTER_STREAM_FORMAT_NAME_1U] *)
Definition VIDEO_X264ENC_CAPS_FILTER_STREAM_FORMAT_NAME_1U : Z -> string := elem_name "x264enc_capsfilter_stream_format".
(* [src/src/stream/stypes.h:59-59 VIDEO_X264ENC_CAPS_FILTER_PROFILE_NAME_1U] *)
Definition VIDEO_X264ENC_CAPS_FILTER_PROFILE_NAME_1U : Z -> string := elem_name "x264enc_capsfilter_profile".
(* [src/src/stream/stypes.h:60-60 VIDEO_SCALE_NAME_1U] *)
Definition VIDEO_SCALE_NAME_1U : Z -> string := elem_name "videoscale".
(* [src/src/stream/stypes.h:61-61 VIDEO_BOX_NAME_1U] *)
Definition VIDEO_BOX_NAME_1U : Z -> string := elem_name "videobox".
(* [src/src/stream/stypes.h:62-62 VIDEO_RATE_CAPS_FILTER_NAME_1U] *)
Definition VIDEO_RATE_CAPS_FILTER_NAME_1U : Z -> string := elem_name "videorate_capsfilter".
(* [src/src/stream/stypes.h:63-63 VIDEO_RATE_NAME_1U] *)
Definition VIDEO_RATE_NAME_1U : Z -> string := elem_name "videorate".
(* [src/src/stream/stypes.h:65-65 AUDIO_RESAMPLE_NAME_1U] *)
Definition AUDIO_RESAMPLE_NAME_1U : Z -> string := elem_name "audioresample".
(* [src/src/stream/stypes.h:66-66 MPEG_AUDIO_PARSE_NAME_1U] *)
Definition MPEG_AUDIO_PARSE_NAME_1U : Z -> string := elem_name "mpegaudioparse".
(* [src/src/stream/stypes.h:68-68 DECODEBIN_NAME_1U] *)
Definition DECODEBIN_NAME_1U : Z -> string := elem_name "decodebin".
(* [src/src/stream/stypes.h:74-74 SINK_NAME_1U] *)
Definition SINK_NAME_1U : Z -> string := elem_name "sink".
(* [src/src/stream/stypes.h:75-75 AUDIO_SINK_NAME_1U] *)
Definition AUDIO_SINK_NAME_1U : Z -> string := elem_name "audio_sink".
(* [src/src/stream/stypes.h:76-76 VIDEO_SINK_NAME_1U] *)
Definition VIDEO_SINK_NAME_1U : Z -> string := elem_name "video_sink".
(* [src/src/stream/stypes.h:78-78 AUDIO_PARSER_NAME_1U] *)
Definition AUDIO_PARSER_NAME_1U : Z -> string := elem_name "audio_parser".
(* [src/src/stream/stypes.h:79-79 VIDEO_PARSER_NAME_1U] *)
Definition VIDEO_PARSER_NAME_1U : Z -> string := elem_name "video_parser".
(* [src/src/stream/stypes.h:80-80 MUXER_NAME_1U] *)
Definition MUXER_NAME_1U : Z -> string := elem_name "muxer".
(* [src/src/stream/stypes.h:82-82 AUDIO_PAY_NAME_1U] *)
Definition AUDIO_PAY_NAME_1U : Z -> string := elem_name "audio_pay".
(* [src/src/stream/stypes.h:83-83 VIDEO_PAY_NAME_1U] *)
Definition VIDEO_PAY_NAME_1U : Z -> string := elem_name "video_pay".
(* [src/src/stream/stypes.h:85-85 VIDEO_TEE_QUEUE_NAME_1U] *)
Definition VIDEO_TEE_QUEUE_NAME_1U : Z -> string := elem_name "video_tee_queue".
(* [src/src/stream/stypes.h:86-86 AUDIO_TEE_QUEUE_NAME_1U] *)
Definition AUDIO_TEE_QUEUE_NAME_1U : Z -> string := elem_name "audio_tee_queue".
(* [src/src/stream/stypes.h:88-88 AUDIO_LEVEL_NAME_1U] *)
Definition AUDIO_LEVEL_NAME_1U : Z -> string := elem_name "level".

(** ** Setters

    One method per property. The width and the sign of the argument select the
    overload of [SetProperty]; [gboolean] is an [int]. *)

Section Setters.
Context `{CommonLib} `{GstLib}.

(* [src/src/stream/elements/element.cpp:208-210 ElementDecodebin::SetUseBuffering] *)
Definition ElementDecodebin_SetUseBuffering (el : element) (use_buffering : bool) : build unit :=
  SetProperty el "use-buffering" (GBool use_buffering).
(* [src/src/stream/elements/element.cpp:228-230 ElementQueue::SetMaxSizeBuffers] *)
Definition ElementQueue_SetMaxSizeBuffers (el : element) (val : Z) : build unit :=
  SetProperty el "max-size-buffers" (GUint val).
(* [src/src/stream/elements/element.cpp:232-234 ElementQueue::SetMaxSizeTime] *)
Definition ElementQueue_SetMaxSizeTime (el : element) (val : Z) : build unit :=
  SetProperty el "max-size-time" (GUint val).
(* [src/src/stream/elements/element.cpp:236-238 ElementQueue::SetMaxSizeBytes] *)
Definition ElementQueue_SetMaxSizeBytes (el : element) (val : Z) : build unit :=
  SetProperty el "max-size-bytes" (GUint64 val).
(* [src/src/stream/elements/element.cpp:244-246 ElementQueue2::SetMaxSizeBuffers] *)
Definition ElementQueue2_SetMaxSizeBuffers (el : element) (val : Z) : build unit :=
  SetProperty el "max-size-buffers" (GUint val).
(* [src/src/stream/elements/element.cpp:248-250 ElementQueue2::SetMaxSizeTime] *)
Definition ElementQueue2_SetMaxSizeTime (el : element) (val : Z) : build unit :=
  SetProperty el "max-size-time" (GUint64 val).
(* [src/src/stream/elements/element.cpp:252-254 ElementQueue2::SetMaxSizeBytes] *)
Definition ElementQueue2_SetMaxSizeBytes (el : element) (val : Z) : build unit :=
  SetProperty el "max-size-bytes" (GUint val).
(* [src/src/stream/elements/element.cpp:256-258 ElementQueue2::SetUseBuffering] *)
Definition ElementQueue2_SetUseBuffering (el : element) (use_buffering : bool) : build unit :=
  SetProperty el "use-buffering" (GBool use_buffering).
(* [src/src/stream/elements/element.cpp:260-262 ElementAvdecH264::SetMaxThreads] *)
Definition ElementAvdecH264_SetMaxThreads (el : element) (threads : Z) : build unit :=
  SetProperty el "max-threads" (GInt threads).
(* [src/src/stream/elements/element.cpp:264-266 ElementAvdecH264::SetSkipFrame] *)
Definition ElementAvdecH264_SetSkipFrame (el : element) (skip_frame : Z) : build unit :=
  SetProperty el "skip-frame" (GInt skip_frame).
(* [src/src/stream/elements/element.cpp:268-270 ElementAvdecH264::SetOutputCorrupt] *)
Definition ElementAvdecH264_SetOutputCorrupt (el : element) (output_corrupt : bool) : build unit :=
  SetProperty el "output-corrupt" (GInt (if output_corrupt then 1 else 0)%Z).
(* [src/src/stream/elements/element.cpp:272-274 ElementVaapiPostProc::SetDinterlaceMode] *)
Definition ElementVaapiPostProc_SetDinterlaceMode (el : element) (deinterlace_method : Z) : build unit :=
  SetProperty el "deinterlace-method" (GInt deinterlace_method).
(* [src/src/stream/elements/element.cpp:276-278 ElementVaapiPostProc::SetFormat] *)
Definition ElementVaapiPostProc_SetFormat (el : element) (format : Z) : build unit :=
  SetProperty el "format" (GInt format).
(* [src/src/stream/elements/element.cpp:280-282 ElementVaapiPostProc::SetWidth] *)
Definition ElementVaapiPostProc_SetWidth (el : element) (width : Z) : build unit :=
  SetProperty el "width" (GUint width).
(* [src/src/stream/elements/element.cpp:284-286 ElementVaapiPostProc::SetHeight] *)
Definition ElementVaapiPostProc_SetHeight (el : element) (height : Z) : build unit :=
  SetProperty el "height" (GUint height).
(* [src/src/stream/elements/element.cpp:288-290 ElementVaapiPostProc::SetForceAspectRatio] *)
Definition ElementVaapiPostProc_SetForceAspectRatio (el : element) (ratio : bool) : build unit :=
  SetProperty el "force-aspect-ratio" (GBool ratio).
(* [src/src/stream/elements/element.cpp:292-294 ElementVaapiPostProc::SetScaleMethod] *)
Definition ElementVaapiPostProc_SetScaleMethod (el : element) (met : Z) : build unit :=
  SetProperty el "scale-method" (GUint met).
(* [src/src/stream/elements/element.cpp:296-298 ElementVaapiPostProc::SetDeinerlaceMethod] *)
Definition ElementVaapiPostProc_SetDeinerlaceMethod (el : element) (met : Z) : build unit :=
  SetProperty el "deinterlace-method" (GUint met).
(* [src/src/stream/elements/element.cpp:300-302 ElementVaapiPostProc::SetDenoise] *)
Definition ElementVaapiPostProc_SetDenoise (el : element) (denoise : double) : build unit :=
  SetProperty el "denoise" (GFloat denoise).
(* [src/src/stream/elements/element.cpp:304-306 ElementVaapiPostProc::SetSkinToneEnhancement] *)
Definition ElementVaapiPostProc_SetSkinToneEnhancement (el : element) (val : bool) : build unit :=
  SetProperty el "skin-tone-enhancement" (GBool val).
(* [src/src/stream/elements/element.cpp:308-310 ElementMFXVpp::SetForceAspectRatio] *)
Definition ElementMFXVpp_SetForceAspectRatio (el : element) (ratio : bool) : build unit :=
  SetProperty el "force-aspect-ratio" (GBool ratio).
(* [src/src/stream/elements/element.cpp:312-314 ElementMFXVpp::SetWidth] *)
Definition ElementMFXVpp_SetWidth (el : element) (width : Z) : build unit :=
  SetProperty el "width" (GInt width).
(* [src/src/stream/elements/element.cpp:316-318 ElementMFXVpp::SetHeight] *)
Definition ElementMFXVpp_SetHeight (el : element) (height : Z) : build unit :=
  SetProperty el "height" (GInt height).
(* [src/src/stream/elements/element.cpp:324-326 ElementMFXVpp::SetDinterlaceMode] *)
Definition ElementMFXVpp_SetDinterlaceMode (el : element) (mode : Z) : build unit :=
  SetProperty el "deinterlace-mode" (GInt mode).
(* [src/src/stream/elements/element.cpp:328-330 ElementMFXH264Decode::SetLiveMode] *)
Definition ElementMFXH264Decode_SetLiveMode (el : element) (mode : bool) : build unit :=
  SetProperty el "live-mode" (GBool mode).
(* [src/src/stream/elements/element.cpp:332-334 ElementTsDemux::SetParsePrivateSections] *)
Definition ElementTsDemux_SetParsePrivateSections (el : element) (parse_private_sections : bool) : build unit :=
  SetProperty el "parse-private-sections" (GInt (if parse_private_sections then 1 else 0)%Z).
(* [src/src/stream/elements/audio/audio.cpp:22-24 ElementVolume::SetVolume] *)
Definition ElementVolume_SetVolume (el : element) (volume : double) : build unit :=
  SetProperty el "volume" (GDouble volume).
(* [src/src/stream/elements/audio/audio.cpp:26-28 ElementRGVolume::SetPreAmp] *)
Definition ElementRGVolume_SetPreAmp (el : element) (volume : double) : build unit :=
  SetProperty el "pre-amp" (GDouble volume).
(* [src/src/stream/elements/audio/audio.cpp:30-32 ElementSpectrum::SetBands] *)
Definition ElementSpectrum_SetBands (el : element) (bands : Z) : build unit :=
  SetProperty el "bands" (GUint bands).
(* [src/src/stream/elements/audio/audio.cpp:34-36 ElementSpectrum::SetTheshold] *)
Definition ElementSpectrum_SetTheshold (el : element) (threshold : Z) : build unit :=
  SetProperty el "threshold" (GInt threshold).
(* [src/src/stream/elements/audio/audio.cpp:38-40 ElementSpectrum::SetPostMessage] *)
Definition ElementSpectrum_SetPostMessage (el : element) (pm : bool) : build unit :=
  SetProperty el "post-messages" (GInt (if pm then 1 else 0)%Z).
(* [src/src/stream/elements/audio/audio.cpp:42-44 ElementSpectrum::SetMessagePhase] *)
Definition ElementSpectrum_SetMessagePhase (el : element) (mp : bool) : build unit :=
  SetProperty el "message-phase" (GInt (if mp then 1 else 0)%Z).
(* [src/src/stream/elements/encoders/audio_encoders.cpp:33-35 ElementFAAC::SetRateControl] *)
Definition ElementFAAC_SetRateControl (el : element) (brtype : Z) : build unit :=
  SetProperty el "rate-control" (GUint brtype).
(* [src/src/stream/elements/encoders/audio_encoders.cpp:37-39 ElementMP3Enc::SetTarget] *)
Definition ElementMP3Enc_SetTarget (el : element) (target : Z) : build unit :=
  SetProperty el "target" (GUint target).
(* [src/src/stream/elements/encoders/video_encoders.cpp:100-102 ElementMFXH264Enc::SetIDRInterval] *)
Definition ElementMFXH264Enc_SetIDRInterval (el : element) (idr : Z) : build unit :=
  SetProperty el "idr-interval" (GUint idr).
(* [src/src/stream/elements/muxer/muxer.cpp:51-53 ElementFLVMux::SetStreamable] *)
Definition ElementFLVMux_SetStreamable (el : element) (streamable : bool) : build unit :=
  SetProperty el "streamable" (GBool streamable).
(* [src/src/stream/elements/parser/video_parsers.cpp:24-26 ElementH264Parse::SetConfigInterval] *)
Definition ElementH264Parse_SetConfigInterval (el : element) (interval : Z) : build unit :=
  SetProperty el "config-interval" (GInt interval).
(* [src/src/stream/elements/parser/video_parsers.cpp:28-30 ElementH264Parse::SetDisablePassthrough] *)
Definition ElementH264Parse_SetDisablePassthrough (el : element) (pass : bool) : build unit :=
  SetProperty el "disable-passthrough" (GInt (if pass then 1 else 0)%Z).
(* [src/src/stream/elements/parser/video_parsers.cpp:32-34 ElementH265Parse::SetConfigInterval] *)
Definition ElementH265Parse_SetConfigInterval (el : element) (interval : Z) : build unit :=
  SetProperty el "config-interval" (GUint interval).
(* [src/src/stream/elements/sink/http.cpp:53-55 ElementHLSSink::SetLocation] *)
Definition ElementHLSSink_SetLocation (el : element) (location : string) : build unit :=
  SetProperty el "location" (GString location).
(* [src/src/stream/elements/sink/http.cpp:57-59 ElementHLSSink::SetPlayLocation] *)
Definition ElementHLSSink_SetPlayLocation (el : element) (play_location : string) : build unit :=
  SetProperty el "playlist-location" (GString play_location).
(* [src/src/stream/elements/sink/http.cpp:61-63 ElementHLSSink::SetTargetDuration] *)
Definition ElementHLSSink_SetTargetDuration (el : element) (duration : Z) : build unit :=
  SetProperty el "target-duration" (GUint duration).
(* [src/src/stream/elements/sink/http.cpp:65-67 ElementHLSSink::SetPlayListRoot] *)
Definition ElementHLSSink_SetPlayListRoot (el : element) (play_root : string) : build unit :=
  SetProperty el "playlist-root" (GString play_root).
(* [src/src/stream/elements/sink/http.cpp:69-71 ElementHLSSink::SetPlaylistLenght] *)
Definition ElementHLSSink_SetPlaylistLenght (el : element) (duration : Z) : build unit :=
  SetProperty el "playlist-length" (GUint duration).
(* [src/src/stream/elements/sink/http.cpp:73-75 ElementHLSSink::SetMaxFiles] *)
Definition ElementHLSSink_SetMaxFiles (el : element) (max_files : Z) : build unit :=
  SetProperty el "max-files" (GUint max_files).
(* [src/src/stream/elements/sink/http.cpp:77-79 ElementSoupHttpSink::SetLocation] *)
Definition ElementSoupHttpSink_SetLocation (el : element) (location : string) : build unit :=
  SetProperty el "location" (GString location).
(* [src/src/stream/elements/sink/rtmp.cpp:24-26 ElementRtmpSink::SetLocation] *)
Definition ElementRtmpSink_SetLocation (el : element) (location : string) : build unit :=
  SetProperty el "location" (GString location).
(* [src/src/stream/elements/sink/screen.cpp:22-24 ElementVideoDeckSink::SetMode] *)
Definition ElementVideoDeckSink_SetMode (el : element) (mode : Z) : build unit :=
  SetProperty el "mode" (GUint8 mode).
(* [src/src/stream/elements/sink/sink.cpp:41-43 ElementSplitMuxSink::SetMaxSizeTime] *)
Definition ElementSplitMuxSink_SetMaxSizeTime (el : element) (val : Z) : build unit :=
  SetProperty el "max-size-time" (GUint64 val).
(* [src/src/stream/elements/sink/sink.cpp:45-47 ElementSplitMuxSink::SetSendKeyFrameRequest] *)
Definition ElementSplitMuxSink_SetSendKeyFrameRequest (el : element) (send : bool) : build unit :=
  SetProperty el "send-keyframe-requests" (GInt (if send then 1 else 0)%Z).
(* [src/src/stream/elements/sink/tcp.cpp:24-26 ElementTCPServerSink::SetHost] *)
Definition ElementTCPServerSink_SetHost (el : element) (host : string) : build unit :=
  SetProperty el "host" (GString host).
(* [src/src/stream/elements/sink/tcp.cpp:28-30 ElementTCPServerSink::SetPort] *)
Definition ElementTCPServerSink_SetPort (el : element) (port : Z) : build unit :=
  SetProperty el "port" (GUint16 port).
(* [src/src/stream/elements/sink/udp.cpp:24-26 ElementUDPSink::SetHost] *)
Definition ElementUDPSink_SetHost (el : element) (host : string) : build unit :=
  SetProperty el "host" (GString host).
(* [src/src/stream/elements/sink/udp.cpp:28-30 ElementUDPSink::SetPort] *)
Definition ElementUDPSink_SetPort (el : element) (port : Z) : build unit :=
  SetProperty el "port" (GUint16 port).
(* [src/src/stream/elements/sources/alsasrc.cpp:24-26 ElementAlsaSrc::SetDevice] *)
Definition ElementAlsaSrc_SetDevice (el : element) (device : string) : build unit :=
  SetProperty el "device" (GString device).
(* [src/src/stream/elements/sources/httpsrc.cpp:22-24 ElementSoupHTTPSrc::SetIsLive] *)
Definition ElementSoupHTTPSrc_SetIsLive (el : element) (live : bool) : build unit :=
  SetProperty el "is-live" (GBool live).
(* [src/src/stream/elements/sources/httpsrc.cpp:26-28 ElementSoupHTTPSrc::SetTimeOut] *)
Definition ElementSoupHTTPSrc_SetTimeOut (el : element) (secs : Z) : build unit :=
  SetProperty el "timeout" (GInt secs).
(* [src/src/stream/elements/sources/httpsrc.cpp:30-32 ElementSoupHTTPSrc::SetUserAgent] *)
Definition ElementSoupHTTPSrc_SetUserAgent (el : element) (agent : string) : build unit :=
  SetProperty el "user-agent" (GString agent).
(* [src/src/stream/elements/sources/multifilesrc.cpp:22-24 ElementMultiFileSrc::SetIndex] *)
Definition ElementMultiFileSrc_SetIndex (el : element) (index : Z) : build unit :=
  SetProperty el "index" (GInt index).
(* [src/src/stream/elements/sources/multifilesrc.cpp:26-28 ElementMultiFileSrc::SetLoop] *)
Definition ElementMultiFileSrc_SetLoop (el : element) (loop : bool) : build unit :=
  SetProperty el "loop" (GBool loop).
(* [src/src/stream/elements/sources/rtmpsrc.cpp:24-26 ElementRTMPSrc::SetTimeOut] *)
Definition ElementRTMPSrc_SetTimeOut (el : element) (secs : Z) : build unit :=
  SetProperty el "timeout" (GInt secs).
(* [src/src/stream/elements/sources/tcpsrc.cpp:22-24 ElementTCPSrc::SetHost] *)
Definition ElementTCPSrc_SetHost (el : element) (host : string) : build unit :=
  SetProperty el "host" (GString host).
(* [src/src/stream/elements/sources/tcpsrc.cpp:26-28 ElementTCPSrc::SetPort] *)
Definition ElementTCPSrc_SetPort (el : element) (port : Z) : build unit :=
  SetProperty el "port" (GUint16 port).
(* [src/src/stream/elements/sources/udpsrc.cpp:22-24 ElementUDPSrc::SetUri] *)
Definition ElementUDPSrc_SetUri (el : element) (uri : string) : build unit :=
  SetProperty el "uri" (GString uri).
(* [src/src/stream/elements/sources/udpsrc.cpp:26-28 ElementUDPSrc::SetAddress] *)
Definition ElementUDPSrc_SetAddress (el : element) (host : string) : build unit :=
  SetProperty el "address" (GString host).
(* [src/src/stream/elements/sources/udpsrc.cpp:30-32 ElementUDPSrc::SetPort] *)
Definition ElementUDPSrc_SetPort (el : element) (port : Z) : build unit :=
  SetProperty el "port" (GUint16 port).
(* [src/src/stream/elements/sources/v4l2src.cpp:22-24 ElementV4L2Src::SetDevice] *)
Definition ElementV4L2Src_SetDevice (el : element) (device : string) : build unit :=
  SetProperty el "device" (GString device).
(* [src/src/stream/elements/video/video.cpp:26-28 ElementGDKPixBufOverlay::SetOffsetX] *)
Definition ElementGDKPixBufOverlay_SetOffsetX (el : element) (x : Z) : build unit :=
  SetProperty el "offset-x" (GInt x).
(* [src/src/stream/elements/video/video.cpp:30-32 ElementGDKPixBufOverlay::SetOffsetY] *)
Definition ElementGDKPixBufOverlay_SetOffsetY (el : element) (y : Z) : build unit :=
  SetProperty el "offset-y" (GInt y).
(* [src/src/stream/elements/video/video.cpp:34-36 ElementGDKPixBufOverlay::SetLocation] *)
Definition ElementGDKPixBufOverlay_SetLocation (el : element) (location : string) : build unit :=
  SetProperty el "location" (GString location).
(* [src/src/stream/elements/video/video.cpp:38-40 ElementGDKPixBufOverlay::SetAlpha] *)
Definition ElementGDKPixBufOverlay_SetAlpha (el : element) (alpha : double) : build unit :=
  SetProperty el "alpha" (GDouble alpha).
(* [src/src/stream/elements/video/video.cpp:42-44 ElementDeinterlace::SetMethod] *)
Definition ElementDeinterlace_SetMethod (el : element) (method : Z) : build unit :=
  SetProperty el "method" (GInt method).
(* [src/src/stream/elements/element.cpp:240-242 ElementCapsFilter::SetCaps] *)
Definition ElementCapsFilter_SetCaps (el : element) (caps : gvalue) : build unit :=
  SetProperty el "caps" caps.
(* [src/src/stream/elements/element.cpp:320-322 ElementMFXVpp::SetFrameRate] *)
Definition ElementMFXVpp_SetFrameRate (el : element) (framerate : Z) : build unit :=
  SetFractionProperty el "framerate" framerate 1.
(* [src/src/stream/elements/video/video.cpp:46-48 ElementAspectRatio::SetAspectRatio] *)
Definition ElementAspectRatio_SetAspectRatio (el : element) (rat : Z * Z) : build unit :=
  SetFractionProperty el "aspect-ratio" rat.1 rat.2.
(* [src/src/stream/elements/sink/sink.cpp:37-39 ElementSplitMuxSink::SetMuxer] *)
Definition ElementSplitMuxSink_SetMuxer (el muxer : element) : build unit :=
  SetProperty el "muxer" (GPointer (el_name muxer)).
(* [src/src/stream/elements/sink/sink.cpp:33-35 ElementSplitMuxSink::SetSink] *)
Definition ElementSplitMuxSink_SetSink (el sink : element) : build unit :=
  SetProperty el "sink" (GPointer (el_name sink)).
(* [src/src/stream/elements/sources/sources.h:39-39 ElementLocation::SetLocation] *)
Definition ElementLocation_SetLocation (el : element) (location : string) : build unit :=
  SetProperty el "location" (GString location).
(* [src/src/stream/elements/sink/sink.h:72-72 ElementSync::SetSync] *)
Definition ElementSync_SetSync (el : element) (sync : bool) : build unit :=
  SetProperty el "sync" (GBool sync).
(* [src/src/stream/elements/pay/pay.h:30-30 ElementRtpPay::SetPt] *)
Definition ElementRtpPay_SetPt (el : element) (pt : Z) : build unit :=
  SetProperty el "pt" (GUint pt).
(* [src/src/stream/elements/encoders/audio_encoders.h:41-41 SetBitRate] *)
Definition ElementAudioEncoder_SetBitRate (el : element) (bitrate : Z) : build unit :=
  SetProperty el "bitrate" (GInt bitrate).
End Setters.

(** ** Sources *)

Section Elements.
Context `{JsonC} `{UrlLib} `{PathLib} `{GstLib}.

(** An argument of [int] range times 1024, as the encoders of some plug-ins
    want their rate: an [int] that overflows has no defined value. *)
Definition i32_mul (a b : Z) : outcome Z :=
  if ((- 2 ^ 31 <=? a * b) && (a * b <? 2 ^ 31))%Z then Ok (a * b)%Z
  else Abort (UndefinedBehaviour "int overflow").

(* [src/src/stream/elements/sources/sources.h:42-45 make_sources] *)
Definition make_sources (el : SupportedElements) (source_id : Z) : build element :=
  make_element el (SRC_NAME_1U source_id).

(* [src/src/stream/elements/sources/filesrc.cpp:22-26 make_file_src] *)
Definition make_file_src (location : string) (input_id : Z) : build element :=
  file_src ← make_sources ELEMENT_FILE_SRC input_id;
  ElementLocation_SetLocation file_src location ;;
  mret file_src.

(* [src/src/stream/elements/sources/httpsrc.cpp:34-45 make_http_src] *)
Definition make_http_src (location : string) (user_agent : option string) (timeout_secs : Z)
    (input_id : Z) : build element :=
  http_src ← make_sources ELEMENT_SOUP_HTTP_SRC input_id;
  ElementLocation_SetLocation http_src location ;;
  ElementSoupHTTPSrc_SetTimeOut http_src timeout_secs ;;
  match user_agent with
  | Some agent => ElementSoupHTTPSrc_SetUserAgent http_src agent
  | None => mret tt
  end ;;
  mret http_src.

(* [src/src/stream/elements/sources/udpsrc.cpp:34-39 make_udp_src] *)
Definition make_udp_src (host : string * Z) (input_id : Z) : build element :=
  udpsrc ← make_sources ELEMENT_UDP_SRC input_id;
  ElementUDPSrc_SetAddress udpsrc host.1 ;;
  ElementUDPSrc_SetPort udpsrc host.2 ;;
  mret udpsrc.

(* [src/src/stream/elements/sources/rtmpsrc.cpp:28-33 make_rtmp_src] *)
Definition make_rtmp_src (location : string) (timeout_secs input_id : Z) : build element :=
  rtmp_src ← make_sources ELEMENT_RTMP_SRC input_id;
  ElementLocation_SetLocation rtmp_src location ;;
  ElementRTMPSrc_SetTimeOut rtmp_src timeout_secs ;;
  mret rtmp_src.

(* [src/src/stream/elements/sources/tcpsrc.cpp:30-35 make_tcp_server_src] *)
Definition make_tcp_server_src (location : string * Z) (input_id : Z) : build element :=
  tcpsrc ← make_sources ELEMENT_TCP_SERVER_SRC input_id;
  ElementTCPSrc_SetHost tcpsrc location.1 ;;
  ElementTCPSrc_SetPort tcpsrc location.2 ;;
  mret tcpsrc.

(* [src/src/stream/elements/sources/v4l2src.cpp:26-30 make_v4l2_src] *)
Definition make_v4l2_src (device : string) (input_id : Z) : build element :=
  v4l2sr ← make_sources ELEMENT_V4L2_SRC input_id;
  ElementV4L2Src_SetDevice v4l2sr device ;;
  mret v4l2sr.

(* [src/src/stream/elements/sources/alsasrc.cpp:28-32 make_alsa_src] *)
Definition make_alsa_src (device : string) (input_id : Z) : build element :=
  alsa ← make_sources ELEMENT_ALSA_SRC input_id;
  ElementAlsaSrc_SetDevice alsa device ;;
  mret alsa.

(* [src/src/stream/elements/sources/appsrc.cpp:36-38 make_app_src] *)
Definition make_app_src (input_id : Z) : build element := make_sources ELEMENT_APP_SRC input_id.

(* [src/src/stream/elements/sources/multifilesrc.h:29-33 MultiFileSrcInfo] *)
Record MultiFileSrcInfo := { mf_location : string; mf_index : Z; mf_loop : bool }.

(* [src/src/stream/elements/sources/multifilesrc.cpp:30-36 make_multifile_src] *)
Definition make_multifile_src (info : MultiFileSrcInfo) (input_id : Z) : build element :=
  multifile_src ← make_sources ELEMENT_MULTIFILE_SRC input_id;
  ElementLocation_SetLocation multifile_src (mf_location info) ;;
  ElementMultiFileSrc_SetIndex multifile_src (mf_index info) ;;
  ElementMultiFileSrc_SetLoop multifile_src (mf_loop info) ;;
  mret multifile_src.

(** The codes of [user_agent_t]. *)
(* [src/src/base/input_uri.h:30-30 UserAgent] *)
Definition ua_VLC : Z := 1.
(* [src/src/base/input_uri.h:30-30 UserAgent] *)
Definition ua_FFMPEG : Z := 2.

(* [src/src/stream/elements/sources/build_input.cpp:35-74 make_src] *)
Definition make_src (uri : InputUri) (input_id timeout_secs : Z) : build element :=
  let url := iu_input uri in
  match url_get_scheme url with
  | file => make_file_src (url_path url) input_id
  | http | https =>
      let agent :=
        if (iu_user_agent uri =? ua_VLC)%Z then Some "VLC/3.0.1 LibVLC/3.0.1"
        else if (iu_user_agent uri =? ua_FFMPEG)%Z then Some "Lavf/58.27.103"
        else None in
      make_http_src (url_to_string url) agent timeout_secs input_id
  | udp =>
      let host_str := url_get_host url in
      match conv_host_port host_str with
      | None => hlift (Abort (NotReached ("Unknownt input url: " +:+ host_str)))
      | Some host => make_udp_src host input_id
      end
  | rtmp => make_rtmp_src (url_to_string url) timeout_secs input_id
  | tcp =>
      let host_str := url_get_host url in
      match conv_host_port host_str with
      | None => hlift (Abort (NotReached ("Unknownt input url: " +:+ host_str)))
      | Some host => make_tcp_server_src host input_id
      end
  | _ => hlift (Abort (NotReached ("Unknownt input url: " +:+ url_to_string url)))
  end.

(** ** Sinks *)

(* [src/src/stream/elements/sink/sink.h:75-78 make_video_sink] *)
Definition make_video_sink (el : SupportedElements) (id : Z) : build element :=
  make_element el (VIDEO_SINK_NAME_1U id).
(* [src/src/stream/elements/sink/sink.h:80-83 make_audio_sink] *)
Definition make_audio_sink (el : SupportedElements) (id : Z) : build element :=
  make_element el (AUDIO_SINK_NAME_1U id).
(* [src/src/stream/elements/sink/sink.h:85-88 make_sink] *)
Definition make_sink (el : SupportedElements) (id : Z) : build element :=
  make_element el (SINK_NAME_1U id).

(* [src/src/stream/elements/sink/fake.cpp:22-26 make_fake_sink] *)
Definition make_fake_sink (sink_id : Z) : build element :=
  fake_sink ← make_sink ELEMENT_FAKE_SINK sink_id;
  ElementSync_SetSync fake_sink true ;;
  mret fake_sink.

(* [src/src/stream/elements/sink/test.cpp:22-26 make_test_sink] *)
Definition make_test_sink (sink_id : Z) : build element :=
  test_sink ← make_sink ELEMENT_TEST_SINK sink_id;
  ElementSync_SetSync test_sink true ;;
  mret test_sink.

(* [src/src/stream/elements/sink/udp.cpp:32-37 make_udp_sink] *)
Definition make_udp_sink (host : string * Z) (sink_id : Z) : build element :=
  udp_out ← make_sink ELEMENT_UDP_SINK sink_id;
  ElementUDPSink_SetHost udp_out host.1 ;;
  ElementUDPSink_SetPort udp_out host.2 ;;
  mret udp_out.

(* [src/src/stream/elements/sink/tcp.cpp:32-37 make_tcp_server_sink] *)
Definition make_tcp_server_sink (host : string * Z) (sink_id : Z) : build element :=
  tcp_out ← make_sink ELEMENT_TCP_SERVER_SINK sink_id;
  ElementTCPServerSink_SetHost tcp_out host.1 ;;
  ElementTCPServerSink_SetPort tcp_out host.2 ;;
  mret tcp_out.

(* [src/src/stream/elements/sink/rtmp.cpp:28-32 make_rtmp_sink] *)
Definition make_rtmp_sink (sink_id : Z) (output : string) : build element :=
  rtmp_out ← make_sink ELEMENT_RTMP_SINK sink_id;
  ElementRtmpSink_SetLocation rtmp_out output ;;
  mret rtmp_out.

(* [src/src/stream/elements/sink/screen.cpp:26-29 make_video_screen_sink] *)
Definition make_video_screen_sink (sink_id : Z) : build element :=
  make_video_sink ELEMENT_VIDEO_SCREEN_SINK sink_id.
(* [src/src/stream/elements/sink/screen.cpp:31-34 make_audio_screen_sink] *)
Definition make_audio_screen_sink (sink_id : Z) : build element :=
  make_audio_sink ELEMENT_AUDIO_SCREEN_SINK sink_id.
(* [src/src/stream/elements/sink/screen.cpp:36-39 make_video_deck_sink] *)
Definition make_video_deck_sink (sink_id : Z) : build element :=
  make_video_sink ELEMENT_VIDEO_DECK_SINK sink_id.
(* [src/src/stream/elements/sink/screen.cpp:41-44 make_audio_deck_sink] *)
Definition make_audio_deck_sink (sink_id : Z) : build element :=
  make_audio_sink ELEMENT_AUDIO_DECK_SINK sink_id.
(* [src/src/stream/elements/sink/screen.cpp:46-54 make_video_device_sink] *)
Definition make_video_device_sink (d : SinkDeviceType) (sink_id : Z) : build element :=
  match d with
  | SCREEN_OUTPUT => make_video_screen_sink sink_id
  | DECKLINK_OUTPUT => make_video_deck_sink sink_id
  end.
(* [src/src/stream/elements/sink/screen.cpp:56-64 make_audio_device_sink] *)
Definition make_audio_device_sink (d : SinkDeviceType) (sink_id : Z) : build element :=
  match d with
  | SCREEN_OUTPUT => make_audio_screen_sink sink_id
  | DECKLINK_OUTPUT => make_audio_deck_sink sink_id
  end.

(* [src/src/stream/elements/sink/http.h:32-38 HlsOutput] *)
Record HlsOutput := {
  hls_location : string;
  hls_play_locataion : string;
  hls_playlist_root : string;
  hls_paylist_length : Z;
  hls_max_files : Z
}.

(** [now] is [current_utc_mstime()]. *)
(* [src/src/stream/elements/sink/http.cpp:26-38 MakeHlsOutput] *)
Definition MakeHlsOutput (now : Z) (uri : url) (http_root filename : string) : HlsOutput :=
  {| hls_location := http_root +:+ GenHttpTsTemplate now;
     hls_play_locataion := http_root +:+ filename;
     hls_playlist_root := url_get_hpath uri;
     hls_paylist_length := 5;
     hls_max_files := 10 |}.

(* [src/src/stream/elements/sink/http.cpp:40-51 MakeVodHlsOutput] *)
Definition MakeVodHlsOutput (uri : url) (http_root filename : string) : HlsOutput :=
  {| hls_location := http_root +:+ GenVodHttpTsTemplate;
     hls_play_locataion := http_root +:+ filename;
     hls_playlist_root := url_get_hpath uri;
     hls_paylist_length := 0;
     hls_max_files := 0 |}.

(* [src/src/stream/stypes.h:26-26 TS_DURATION] *)
Definition TS_DURATION : Z := 10.

(* [src/src/stream/elements/sink/http.cpp:87-95 make_http_sink] *)
Definition make_http_sink (sink_id : Z) (output : HlsOutput) : build element :=
  hls_out ← make_sink ELEMENT_HLS_SINK sink_id;
  ElementHLSSink_SetLocation hls_out (hls_location output) ;;
  ElementHLSSink_SetPlayLocation hls_out (hls_play_locataion output) ;;
  ElementHLSSink_SetTargetDuration hls_out TS_DURATION ;;
  ElementHLSSink_SetPlaylistLenght hls_out (hls_paylist_length output) ;;
  ElementHLSSink_SetMaxFiles hls_out (hls_max_files output) ;;
  mret hls_out.

(* [src/src/stream/elements/sink/http.cpp:81-85 make_http_soup_sink] *)
Definition make_http_soup_sink (sink_id : Z) (location : string) : build element :=
  hls_out ← make_sink ELEMENT_SOUP_HTTP_CLIENT_SINK sink_id;
  ElementSoupHttpSink_SetLocation hls_out location ;;
  mret hls_out.

(* [src/src/stream/elements/sink/build_output.cpp:33-74 build_output] *)
Definition build_output (now : Z) (output : OutputUri) (sink_id : Z) (is_vod : bool) : build element :=
  let uri := ou_output output in
  match url_get_scheme uri with
  | udp =>
      let url := url_get_host uri in
      match conv_host_port url with
      | None => hlift (Abort (NotReached ("Unknownt output url: " +:+ url)))
      | Some host => make_udp_sink host sink_id
      end
  | tcp =>
      let url := url_get_host uri in
      match conv_host_port url with
      | None => hlift (Abort (NotReached ("Unknownt output url: " +:+ url)))
      | Some host => make_tcp_server_sink host sink_id
      end
  | rtmp => make_rtmp_sink sink_id (url_to_string uri)
  | http =>
      let http_root := ou_http_root output in
      let filename := url_file_name uri in
      if is_empty filename then
        hlift (Abort (NotReached "Empty playlist name, please create urls like http://localhost/master.m3u8!"))
      else
        make_http_sink sink_id
          (if is_vod then MakeVodHlsOutput uri http_root filename
           else MakeHlsOutput now uri http_root filename)
  | _ => hlift (Abort (NotReached ("Unknownt output url: " +:+ url_to_string uri)))
  end.

(** ** Multiplexers, parsers and payloaders

    An overload that is a template over the class has [_t] after its name. *)

(* [src/src/stream/elements/muxer/muxer.h:44-47 make_muxer] *)
Definition make_muxer_t (el : SupportedElements) (muxer_id : Z) : build element :=
  make_element el (MUXER_NAME_1U muxer_id).

(* [src/src/stream/elements/muxer/muxer.cpp:22-26 make_flvmux] *)
Definition make_flvmux (streamable : bool) (muxer_id : Z) : build element :=
  flvmux ← make_muxer_t ELEMENT_FLV_MUX muxer_id;
  ElementFLVMux_SetStreamable flvmux streamable ;;
  mret flvmux.

(* [src/src/stream/elements/muxer/muxer.cpp:28-30 make_mpegtsmux] *)
Definition make_mpegtsmux (muxer_id : Z) : build element := make_muxer_t ELEMENT_MPEGTS_MUX muxer_id.

(* [src/src/stream/elements/muxer/muxer.cpp:32-34 make_rtpmux] *)
Definition make_rtpmux (muxer_id : Z) : build element := make_muxer_t ELEMENT_RTP_MUX muxer_id.

(* [src/src/stream/elements/muxer/muxer.cpp:36-49 make_muxer] *)
Definition make_muxer (scheme : url_scheme) (muxer_id : Z) : build element :=
  match scheme with
  | rtmp => make_flvmux true muxer_id
  | udp => make_rtpmux muxer_id
  | tcp => make_mpegtsmux muxer_id
  | http => make_mpegtsmux muxer_id
  | _ => hlift (Abort (NotReached "Unknown output scheme: "))
  end.

(* [src/src/stream/elements/parser/audio_parsers.h:48-51 make_audio_parser] *)
Definition make_audio_parser_t (el : SupportedElements) (parser_id : Z) : build element :=
  make_element el (AUDIO_PARSER_NAME_1U parser_id).
(* [src/src/stream/elements/parser/audio_parsers.cpp:26-28 make_aac_parser] *)
Definition make_aac_parser (parser_id : Z) : build element :=
  make_audio_parser_t ELEMENT_AAC_PARSE parser_id.
(* [src/src/stream/elements/parser/audio_parsers.cpp:30-32 make_mpeg_parser] *)
Definition make_mpeg_parser (parser_id : Z) : build element :=
  make_audio_parser_t ELEMENT_MPEG_AUDIO_PARSE parser_id.
(* [src/src/stream/elements/parser/audio_parsers.cpp:34-36 make_ac3_parser] *)
Definition make_ac3_parser (parser_id : Z) : build element :=
  make_audio_parser_t ELEMENT_AC3_PARSE parser_id.

(** The [if] chains that compare a name with the plug-in names of classes. *)
Fixpoint class_of_name (classes : list SupportedElements) (name : string) : option SupportedElements :=
  match classes with
  | [] => None
  | el :: rest => if String.eqb name (ElementsTraits_name el) then Some el else class_of_name rest name
  end.

(* [src/src/stream/elements/parser/audio_parsers.cpp:38-49 make_audio_parser] *)
Definition make_audio_parser (parser name : string) : build element :=
  match class_of_name [ELEMENT_AAC_PARSE; ELEMENT_AC3_PARSE; ELEMENT_MPEG_AUDIO_PARSE] parser with
  | Some el => make_element el name
  | None => hlift (Abort (NotReached ("Please register new audio parser type: " +:+ parser)))
  end.

(* [src/src/stream/elements/parser/video_parsers.h:59-62 make_video_parser] *)
Definition make_video_parser_t (el : SupportedElements) (parser_id : Z) : build element :=
  make_element el (VIDEO_PARSER_NAME_1U parser_id).
(* [src/src/stream/elements/parser/video_parsers.cpp:36-38 make_mpeg2_parser] *)
Definition make_mpeg2_parser (parser_id : Z) : build element :=
  make_video_parser_t ELEMENT_MPEG_VIDEO_PARSE parser_id.
(* [src/src/stream/elements/parser/video_parsers.cpp:40-42 make_ts_parser] *)
Definition make_ts_parser (parser_id : Z) : build element :=
  make_video_parser_t ELEMENT_TS_PARSE parser_id.
(* [src/src/stream/elements/parser/video_parsers.cpp:44-47 make_h264_parser] *)
Definition make_h264_parser (parser_id : Z) : build element :=
  make_video_parser_t ELEMENT_H264_PARSE parser_id.
(* [src/src/stream/elements/parser/video_parsers.cpp:49-51 make_h265_parser] *)
Definition make_h265_parser (parser_id : Z) : build element :=
  make_video_parser_t ELEMENT_H265_PARSE parser_id.

(* [src/src/stream/elements/parser/video_parsers.cpp:53-66 make_video_parser] *)
Definition make_video_parser (parser name : string) : build element :=
  match class_of_name
          [ELEMENT_H264_PARSE; ELEMENT_H265_PARSE; ELEMENT_MPEG_VIDEO_PARSE; ELEMENT_TS_PARSE] parser with
  | Some el => make_element el name
  | None => hlift (Abort (NotReached ("Please register new video parser type: " +:+ parser)))
  end.

(* [src/src/stream/elements/pay/audio_pay.h:43-46 make_audio_pay] *)
Definition make_audio_pay_t (el : SupportedElements) (pay_id : Z) : build element :=
  make_element el (AUDIO_PAY_NAME_1U pay_id).
(* [src/src/stream/elements/pay/audio_pay.cpp:22-26 make_aac_pay] *)
Definition make_aac_pay (pt pay_id : Z) : build element :=
  aac_pay ← make_audio_pay_t ELEMENT_RTP_AAC_PAY pay_id;
  ElementRtpPay_SetPt aac_pay pt ;; mret aac_pay.
(* [src/src/stream/elements/pay/audio_pay.cpp:28-32 make_ac3_pay] *)
Definition make_ac3_pay (pt pay_id : Z) : build element :=
  aac_pay ← make_audio_pay_t ELEMENT_RTP_AC3_PAY pay_id;
  ElementRtpPay_SetPt aac_pay pt ;; mret aac_pay.

(* [src/src/stream/elements/pay/audio_pay.cpp:34-43 make_audio_pay] *)
Definition make_audio_pay_named (pay name : string) : build element :=
  match class_of_name [ELEMENT_RTP_AAC_PAY; ELEMENT_RTP_AC3_PAY] pay with
  | Some el => make_element el name
  | None => hlift (Abort (NotReached ""))
  end.

(* [src/src/stream/elements/pay/video_pay.h:51-54 make_video_pay] *)
Definition make_video_pay_t (el : SupportedElements) (pay_id : Z) : build element :=
  make_element el (VIDEO_PAY_NAME_1U pay_id).
(* [src/src/stream/elements/pay/video_pay.cpp:22-26 make_mpeg2_pay] *)
Definition make_mpeg2_pay (pt pay_id : Z) : build element :=
  h264_pay ← make_video_pay_t ELEMENT_RTP_MPEG2_PAY pay_id;
  ElementRtpPay_SetPt h264_pay pt ;; mret h264_pay.
(* [src/src/stream/elements/pay/video_pay.cpp:28-32 make_h264_pay] *)
Definition make_h264_pay (pt pay_id : Z) : build element :=
  h264_pay ← make_video_pay_t ELEMENT_RTP_H264_PAY pay_id;
  ElementRtpPay_SetPt h264_pay pt ;; mret h264_pay.
(* [src/src/stream/elements/pay/video_pay.cpp:34-38 make_h265_pay] *)
Definition make_h265_pay (pt pay_id : Z) : build element :=
  h265_pay ← make_video_pay_t ELEMENT_RTP_H265_PAY pay_id;
  ElementRtpPay_SetPt h265_pay pt ;; mret h265_pay.

(* [src/src/stream/elements/pay/video_pay.cpp:40-51 make_video_pay] *)
Definition make_video_pay_named (pay name : string) : build element :=
  match class_of_name [ELEMENT_RTP_H264_PAY; ELEMENT_RTP_H265_PAY; ELEMENT_RTP_MPEG2_PAY] pay with
  | Some el => make_element el name
  | None => hlift (Abort (NotReached ""))
  end.

(** ** Audio encoders and converters *)

(* [src/src/stream/elements/encoders/audio_encoders.h:69-72 make_audio_encoder] *)
Definition make_audio_encoder_t (el : SupportedElements) (encoder_id : Z) : build element :=
  make_element el (AUDIO_CODEC_NAME_1U encoder_id).
(* [src/src/stream/elements/encoders/audio_encoders.cpp:41-43 make_aac_encoder] *)
Definition make_aac_encoder (encoder_id : Z) : build element :=
  make_audio_encoder_t ELEMENT_FAAC encoder_id.
(* [src/src/stream/elements/encoders/audio_encoders.cpp:45-47 make_voaac_encoder] *)
Definition make_voaac_encoder (encoder_id : Z) : build element :=
  make_audio_encoder_t ELEMENT_VOAAC_ENC encoder_id.
(* [src/src/stream/elements/encoders/audio_encoders.cpp:49-51 make_mp3_encoder] *)
Definition make_mp3_encoder (encoder_id : Z) : build element :=
  make_audio_encoder_t ELEMENT_FAAC encoder_id.

(** The overload without a rate. *)
(* [src/src/stream/elements/encoders/audio_encoders.cpp:80-94 make_audio_encoder] *)
Definition make_audio_encoder_2 (codec name : string) : build element :=
  match class_of_name [ELEMENT_FAAC; ELEMENT_VOAAC_ENC; ELEMENT_LAME_MP3_ENC] codec with
  | Some el => make_element el name
  | None => hlift (Abort (NotReached ("Please register new audio encoder type: " +:+ codec)))
  end.

(* [src/src/stream/elements/encoders/audio_encoders.cpp:53-78 make_audio_encoder] *)
Definition make_audio_encoder (codec name : string) (audiorate : option Z) : build element :=
  if String.eqb codec FAAC then
    aac ← make_element ELEMENT_FAAC name;
    match audiorate with
    | Some rate =>
        ElementFAAC_SetRateControl aac 2 ;;
        r ← hlift (i32_mul rate 1024);
        ElementAudioEncoder_SetBitRate aac r
    | None => mret tt
    end ;;
    mret aac
  else if String.eqb codec VOAAC_ENC then
    aac ← make_element ELEMENT_VOAAC_ENC name;
    match audiorate with
    | Some rate =>
        r ← hlift (i32_mul rate 1024);
        ElementAudioEncoder_SetBitRate aac r
    | None => mret tt
    end ;;
    mret aac
  else if String.eqb codec LAME_MP3_ENC then
    mp3 ← make_element ELEMENT_LAME_MP3_ENC name;
    match audiorate with
    | Some rate =>
        ElementMP3Enc_SetTarget mp3 1 ;;
        ElementAudioEncoder_SetBitRate mp3 rate
    | None => mret tt
    end ;;
    mret mp3
  else hlift (Abort (NotReached ("Please register new audio encoder type: " +:+ codec))).

(* [src/src/stream/elements/encoders/audio_encoders.cpp:96-127 build_audio_converters] *)
Definition build_audio_converters (volume : option double) (achannels : option Z)
    (audio_convert_id : Z) : build (element * element) :=
  audio_convert ← make_element ELEMENT_AUDIO_CONVERT (AUDIO_CONVERT_NAME_1U audio_convert_id);
  ElementAdd audio_convert ;;
  last ← match achannels with
         | Some n =>
             caps ← make_element ELEMENT_CAPS_FILTER (AUDIO_CONVERT_CAPS_FILTER_NAME_1U audio_convert_id);
             ElementCapsFilter_SetCaps caps (GCaps "audio/x-raw" [("channels", GInt n)]) ;;
             ElementAdd caps ;;
             ElementLink (Some audio_convert) (Some caps) ;;
             mret caps
         | None => mret audio_convert
         end;
  match volume with
  | Some v =>
      vol ← make_element ELEMENT_VOLUME (VOLUME_NAME_1U audio_convert_id);
      ElementVolume_SetVolume vol v ;;
      ElementAdd vol ;;
      ElementLink (Some last) (Some vol) ;;
      mret (audio_convert, vol)
  | None => mret (audio_convert, last)
  end.

(* [src/src/stream/elements/encoders/audio_encoders.cpp:129-131 IsAACEncoder] *)
Definition IsAACEncoder (encoder : string) : bool :=
  String.eqb encoder FAAC || String.eqb encoder VOAAC_ENC.

(** ** Video encoders and converters *)

(** [key.substr(0, pos)] and [key.substr(pos + 1)] at the first dot: without
    one, [pos + 1] is zero and both are the key. *)
Definition split_dot (key : string) : string * string :=
  match split_first "."%char key with Some (prefix, param) => (prefix, param) | None => (key, key) end.

(* [src/src/stream/elements/encoders/video_encoders.cpp:38-53 setup_encoder_params] *)
Definition setup_encoder_params (video_args : gmap string Z) (avc : element) : build unit :=
  hact_iter (fun '(key, value) =>
    let '(prefix, param) := split_dot key in
    if negb (String.eqb prefix (GetPluginName avc)) then mret tt
    else SetProperty avc param (GUint value)) (std_entries video_args).

(** One turn of the loop: [last] is what the line ends in. *)
(* [src/src/stream/elements/encoders/video_encoders.cpp:61-93 setup_encoder_str_params] *)
Definition setup_encoder_str_param (avc : element) (encoder_id : Z) (last : element)
    (kv : string * string) : build element :=
  let '(key, value) := kv in
  let '(enc_name, param) := split_dot key in
  if negb (String.eqb enc_name (GetPluginName avc)) then mret last
  else if String.eqb key X264_ENC_PROFILE then
    caps ← make_element ELEMENT_CAPS_FILTER (VIDEO_X264ENC_CAPS_FILTER_PROFILE_NAME_1U encoder_id);
    ElementAdd caps ;;
    ElementCapsFilter_SetCaps caps (GCaps "video/x-h264" [("profile", GString value)]) ;;
    ElementLink (Some last) (Some caps) ;;
    mret caps
  else if String.eqb key X264_ENC_STREAM_FORMAT then
    caps ← make_element ELEMENT_CAPS_FILTER (VIDEO_X264ENC_CAPS_FILTER_STREAM_FORMAT_NAME_1U encoder_id);
    ElementAdd caps ;;
    ElementCapsFilter_SetCaps caps (GCaps "video/x-h264" [("stream-format", GString value)]) ;;
    ElementLink (Some last) (Some caps) ;;
    mret caps
  else
    SetProperty avc param (GString value) ;; mret last.

(** [for (x : l) last = f(last, x);] *)
Fixpoint build_fold {A} (f : element -> A -> build element) (last : element) (l : list A) : build element :=
  match l with
  | [] => mret last
  | x :: l' => last' ← f last x; build_fold f last' l'
  end.

(* [src/src/stream/elements/encoders/video_encoders.cpp:55-96 setup_encoder_str_params] *)
Definition setup_encoder_str_params (video_str_args : gmap string string) (avc : element)
    (encoder_id : Z) : build element :=
  build_fold (setup_encoder_str_param avc encoder_id) avc (std_entries video_str_args).

(* [src/src/stream/elements/encoders/video_encoders.cpp:104-120 build_video_scale] *)
Definition build_video_scale (width height : Z) (link_to : option element) (video_scale_id : Z) : build element :=
  videoscale ← make_element ELEMENT_VIDEO_SCALE (VIDEO_SCALE_NAME_1U video_scale_id);
  capsfilter ← make_element ELEMENT_CAPS_FILTER (VIDEO_SCALE_CAPS_FILTER_NAME_1U video_scale_id);
  ElementAdd videoscale ;;
  ElementAdd capsfilter ;;
  ElementCapsFilter_SetCaps capsfilter (GCaps "video/x-raw" [("width", GInt width); ("height", GInt height)]) ;;
  ElementLink link_to (Some videoscale) ;;
  ElementLink (Some videoscale) (Some capsfilter) ;;
  mret capsfilter.

(* [src/src/stream/elements/encoders/video_encoders.cpp:122-137 build_video_framerate] *)
Definition build_video_framerate (framerate : Z) (link_to : option element) (video_framerate_id : Z) : build element :=
  videorate ← make_element ELEMENT_VIDEO_RATE (VIDEO_RATE_NAME_1U video_framerate_id);
  capsfilter ← make_element ELEMENT_CAPS_FILTER (VIDEO_RATE_CAPS_FILTER_NAME_1U video_framerate_id);
  ElementAdd videorate ;;
  ElementAdd capsfilter ;;
  ElementCapsFilter_SetCaps capsfilter (GCaps "video/x-raw" [("framerate", GFraction framerate 1)]) ;;
  ElementLink link_to (Some videorate) ;;
  ElementLink (Some videorate) (Some capsfilter) ;;
  mret capsfilter.

(* [src/src/stream/elements/encoders/video_encoders.h:100-103 make_video_encoder] *)
Definition make_video_encoder_t (el : SupportedElements) (encoder_id : Z) : build element :=
  make_element el (VIDEO_CODEC_NAME_1U encoder_id).
(* [src/src/stream/elements/encoders/video_encoders.cpp:139-141 make_h264_encoder] *)
Definition make_h264_encoder (encoder_id : Z) : build element := make_video_encoder_t ELEMENT_X264_ENC encoder_id.
(* [src/src/stream/elements/encoders/video_encoders.cpp:143-145 make_h265_encoder] *)
Definition make_h265_encoder (encoder_id : Z) : build element := make_video_encoder_t ELEMENT_X265_ENC encoder_id.
(* [src/src/stream/elements/encoders/video_encoders.cpp:147-149 make_mpeg2_encoder] *)
Definition make_mpeg2_encoder (encoder_id : Z) : build element := make_video_encoder_t ELEMENT_MPEG2_ENC encoder_id.
(* [src/src/stream/elements/encoders/video_encoders.cpp:151-153 make_eavc_encoder] *)
Definition make_eavc_encoder (encoder_id : Z) : build element := make_video_encoder_t ELEMENT_EAVC_ENC encoder_id.
(* [src/src/stream/elements/encoders/video_encoders.cpp:155-157 make_openh264_encoder] *)
Definition make_openh264_encoder (encoder_id : Z) : build element := make_video_encoder_t ELEMENT_OPEN_H264_ENC encoder_id.
(* [src/src/stream/elements/encoders/video_encoders.cpp:159-161 make_vaapi_h264_encoder] *)
Definition make_vaapi_h264_encoder (encoder_id : Z) : build element := make_video_encoder_t ELEMENT_VAAPI_H264_ENC encoder_id.
(* [src/src/stream/elements/encoders/video_encoders.cpp:163-165 make_vaapi_mpeg2_encoder] *)
Definition make_vaapi_mpeg2_encoder (encoder_id : Z) : build element := make_video_encoder_t ELEMENT_VAAPI_MPEG2_ENC encoder_id.
(* [src/src/stream/elements/encoders/video_encoders.cpp:167-169 make_mfx_h264_encoder] *)
Definition make_mfx_h264_encoder (encoder_id : Z) : build element := make_video_encoder_t ELEMENT_MFX_H264_ENC encoder_id.
(* [src/src/stream/elements/encoders/video_encoders.cpp:171-173 make_nv_x264_encoder] *)
Definition make_nv_x264_encoder (encoder_id : Z) : build element := make_video_encoder_t ELEMENT_NV_H264_ENC encoder_id.
(* [src/src/stream/elements/encoders/video_encoders.cpp:175-177 make_msdk_h264_encoder] *)
Definition make_msdk_h264_encoder (encoder_id : Z) : build element := make_video_encoder_t ELEMENT_MSDK_H264_ENC encoder_id.

(** The classes of video encoders, in the order of the [if] chain. *)
Definition video_encoder_classes : list SupportedElements :=
  [ELEMENT_X264_ENC; ELEMENT_X265_ENC; ELEMENT_MPEG2_ENC; ELEMENT_VAAPI_H264_ENC; ELEMENT_VAAPI_MPEG2_ENC;
   ELEMENT_MFX_H264_ENC; ELEMENT_OPEN_H264_ENC; ELEMENT_EAVC_ENC; ELEMENT_NV_H264_ENC; ELEMENT_MSDK_H264_ENC].

(* [src/src/stream/elements/encoders/video_encoders.cpp:179-206 make_video_encoder] *)
Definition make_video_encoder (codec name : string) : build element :=
  match class_of_name video_encoder_classes codec with
  | Some el => make_element el name
  | None => hlift (Abort (NotReached ("Please register new video encoder type: " +:+ codec)))
  end.

(* [src/src/stream/elements/video/video.cpp:50-61 make_video_deinterlace] *)
Definition make_video_deinterlace (deinterlace name : string) : build element :=
  if String.eqb deinterlace AV_DEINTERLACE then make_element ELEMENT_AV_DEINTERLACE name
  else if String.eqb deinterlace DEINTERLACE then
    deint ← make_element ELEMENT_DEINTERLACE name;
    ElementDeinterlace_SetMethod deint 5 ;;
    mret deint
  else hlift (Abort (NotReached ("make_video_deinterlace: " +:+ deinterlace))).

(* [src/src/stream/elements/encoders/video_encoders.cpp:208-225 build_video_convert] *)
Definition build_video_convert (deinterlace : option bool) (video_convert_id : Z) : build (element * element) :=
  video_convert ← make_element ELEMENT_VIDEO_CONVERT (VIDEO_CONVERT_NAME_1U video_convert_id);
  ElementAdd video_convert ;;
  if default false deinterlace then
    deinter ← make_video_deinterlace AV_DEINTERLACE (DEINTERLACE_NAME_1U video_convert_id);
    ElementAdd deinter ;;
    ElementLink (Some video_convert) (Some deinter) ;;
    mret (video_convert, deinter)
  else mret (video_convert, video_convert).

(** The properties that the bit rate sets. *)
(* [src/src/stream/elements/encoders/video_encoders.cpp:237-255 build_video_encoder] *)
Definition set_video_bitrate (codec_element : element) (rate : Z) : build unit :=
  let isa el := String.eqb (GetPluginName codec_element) (ElementsTraits_name el) in
  if isa ELEMENT_EAVC_ENC then
    r ← hlift (i32_mul rate 1024);
    SetProperty codec_element "bitrate-avg" (GInt r)
  else
    bitrate ← (if isa ELEMENT_OPEN_H264_ENC then hlift (i32_mul rate 1024)
               else if isa ELEMENT_NV_H264_ENC then
                 SetProperty codec_element "rc-mode" (GInt 2) ;; mret rate
               else if isa ELEMENT_VAAPI_H264_ENC then
                 SetProperty codec_element "rate-control" (GInt 2) ;; mret rate
               else if isa ELEMENT_MFX_H264_ENC then
                 SetProperty codec_element "rate-control" (GInt 1) ;; mret rate
               else mret rate);
    SetProperty codec_element "bitrate" (GInt bitrate).

(* [src/src/stream/elements/encoders/video_encoders.cpp:227-261 build_video_encoder] *)
Definition build_video_encoder (codec : string) (video_bitrate : option Z) (video_args : gmap string Z)
    (video_str_args : gmap string string) (encoder_id : Z) : build (element * element) :=
  codec_element ← make_video_encoder codec (VIDEO_CODEC_NAME_1U encoder_id);
  ElementAdd codec_element ;;
  match video_bitrate with
  | Some rate => set_video_bitrate codec_element rate
  | None => mret tt
  end ;;
  setup_encoder_params video_args codec_element ;;
  last ← setup_encoder_str_params video_str_args codec_element encoder_id;
  mret (codec_element, last).

(* [src/src/stream/elements/encoders/video_encoders.cpp:263-267 IsH264Encoder] *)
Definition IsH264Encoder (encoder : string) : bool :=
  String.eqb encoder X264_ENC || String.eqb encoder VAAPI_H264_ENC || String.eqb encoder OPEN_H264_ENC ||
  String.eqb encoder NV_H264_ENC || String.eqb encoder MFX_H264_ENC.
End Elements.
