(* ===== verification/Builders.v ===== *)
(** * Builders of pipelines

    [src/src/stream/streams/builders/]: for each kind of stream, the elements
    that its builder makes of a configuration and the links between them.
    [gst_builder] is the interface of a builder that derives from
    [GstBaseBuilder]; [InitPipeline] is proved about in [Pipelines] against it. *)

From S2P Require Import Prelude Platform StreamTypes Constants Uris Options Configs Gst Elements.

(** What the code calls [elements_line_t]; an entry may be a null pointer. *)
Abbreviation elements_line_t := (list (option element)).

Definition set_conn_video (el : option element) (c : Connector) : Connector :=
  {| conn_video := el; conn_audio := conn_audio c |}.
Definition set_conn_audio (el : option element) (c : Connector) : Connector :=
  {| conn_video := conn_video c; conn_audio := el |}.

Section Builders.
Context `{JsonC} `{UrlLib} `{PathLib} `{UnnamedCodes} `{GstLib}.

(** The clock, where the name of a chunk takes it. *)
Variable now : Z.

(** ** The encoder of a configuration *)

(* [src/src/stream/gst_types.h:34-34 EncoderType] *)
Inductive EncoderType := GPU_MFX | GPU_VAAPI | CPU.

(* [src/src/stream/gst_types.cpp:22-39 GetEncoderType] *)
Definition GetEncoderType (encoder : string) : option EncoderType :=
  if is_empty encoder then None
  else if String.eqb encoder MFX_H264_ENC then Some GPU_MFX
  else if String.eqb encoder VAAPI_H264_ENC || String.eqb encoder VAAPI_MPEG2_ENC then Some GPU_VAAPI
  else Some CPU.

(* [src/src/stream/streams/configs/encoding_config.cpp:106-114 EncodingConfig::IsGpu] *)
Definition IsGpu (c : EncodingConfig) : bool :=
  match GetEncoderType (e_video_encoder c) with
  | Some GPU_MFX | Some GPU_VAAPI => true
  | _ => false
  end.

(* [src/src/stream/streams/configs/encoding_config.cpp:116-124 EncodingConfig::IsMfxGpu] *)
Definition IsMfxGpu (c : EncodingConfig) : bool :=
  match GetEncoderType (e_video_encoder c) with Some GPU_MFX => true | _ => false end.

(** ** The interface *)

(* [src/src/stream/streams/builders/gst_base_builder.h:28-41 GstBaseBuilder] *)
Record gst_builder := {
  BuildInput : build Connector;
  BuildUdbConnections : Connector -> build Connector;
  BuildPostProc : Connector -> build Connector;
  BuildConverter : Connector -> build Connector;
  BuildOutput : Connector -> build Connector
}.

(* [src/src/stream/streams/builders/gst_base_builder.cpp:24-31 GstBaseBuilder::InitPipeline] *)
Definition InitPipeline (b : gst_builder) : build bool :=
  conn ← BuildInput b;
  conn ← BuildUdbConnections b conn;
  conn ← BuildPostProc b conn;
  conn ← BuildConverter b conn;
  BuildOutput b conn ;;
  mret true.

(** [CreatePipeLine]: the pipeline that the builder filled, or nothing. *)
(* [src/src/stream/ibase_builder.cpp:115-127 IBaseBuilder::CreatePipeLine] *)
Definition CreatePipeLine (init : build bool) : outcome (option pipeline) * list build_event :=
  let '(r, s, es) := init pipeline_empty in
  (match r with
   | Ok true => Ok (Some s)
   | Ok false => Ok None
   | Err e => Err e
   | Abort a => Abort a
   end, es).

(* [src/src/stream/ibase_stream.cpp:666-668 IBaseStream::IsVod] *)
Definition stream_IsVod (c : Config) : bool :=
  match c_type c with VOD_ENCODE | VOD_RELAY => true | _ => false end.

(* [src/src/stream/ibase_builder.cpp:97-101 IBaseBuilder::CreateSink] *)
Definition CreateSink (c : Config) (output : OutputUri) (sink_id : Z) : build element :=
  build_output now output sink_id (stream_IsVod c).

(* [src/src/stream/ibase_builder.cpp:85-95 IBaseBuilder::BuildGenericOutput] *)
Definition BuildGenericOutput (c : Config) (output : OutputUri) (sink_id : Z) : build element :=
  sink ← CreateSink c output sink_id;
  watch_sink (url_get_scheme (ou_output output)) sink sink_id ;;
  mret sink.

(** ** Streams around a decodebin *)

(* [src/src/stream/streams/builders/src_decodebin_stream_builder.cpp:36-47 make_video_pay] *)
Definition src_make_video_pay (vcodec : SupportedVideoCodec) (pay_id : Z) : build element :=
  match vcodec with
  | VIDEO_H264_CODEC => make_h264_pay 96 pay_id
  | VIDEO_H265_CODEC => make_h265_pay 96 pay_id
  | VIDEO_MPEG_CODEC => make_mpeg2_pay 96 pay_id
  end.

(* [src/src/stream/streams/builders/src_decodebin_stream_builder.cpp:49-60 make_audio_pay] *)
Definition src_make_audio_pay (acodec : SupportedAudioCodec) (pay_id : Z) : build element :=
  match acodec with
  | AUDIO_AAC_CODEC => make_aac_pay 97 pay_id
  | AUDIO_AC3_CODEC => make_ac3_pay 97 pay_id
  | AUDIO_MPEG_CODEC => make_mpeg2_pay 97 pay_id
  end.

(* [src/src/stream/ibase_stream.h:64-64 src_timeout_sec] *)
Definition src_timeout_sec : Z := 120.

(** [prepared[0]] of an empty vector has no defined behaviour. *)
Definition first_input (c : Config) : build InputUri :=
  match c_input c with
  | uri :: _ => mret uri
  | [] => hlift (Abort (UndefinedBehaviour "input[0]"))
  end.

(* [src/src/stream/streams/builders/src_decodebin_stream_builder.cpp:85-98 SrcDecodeStreamBuilder::BuildInputSrc] *)
Definition SrcDecode_BuildInputSrc (c : Config) : build element :=
  uri ← first_input c;
  src ← make_src uri 0 src_timeout_sec;
  watch_src (url_get_scheme (iu_input uri)) src 0 ;;
  ElementAdd src ;;
  mret src.

(* [src/src/stream/streams/builders/src_decodebin_stream_builder.cpp:78-83 SrcDecodeStreamBuilder::HandleDecodebinCreated] *)
Definition HandleDecodebinCreated (decodebin : element) : build unit :=
  hemit (OnDecodebinCreated decodebin).

(* [src/src/stream/streams/builders/src_decodebin_stream_builder.cpp:68-76 SrcDecodeStreamBuilder::BuildInput] *)
Definition SrcDecode_BuildInput (BuildInputSrc : build element) : build Connector :=
  src ← BuildInputSrc;
  decodebin ← make_element ELEMENT_DECODEBIN (DECODEBIN_NAME_1U 0);
  ElementAdd decodebin ;;
  ElementLink (Some src) (Some decodebin) ;;
  HandleDecodebinCreated decodebin ;;
  mret {| conn_video := None; conn_audio := None |}.

(* [src/src/stream/streams/builders/src_decodebin_stream_builder.cpp:100-103 SrcDecodeStreamBuilder::BuildVideoUdbConnection] *)
Definition SrcDecode_BuildVideoUdbConnection : build element :=
  make_element ELEMENT_QUEUE (UDB_VIDEO_NAME_1U 0).

(* [src/src/stream/streams/builders/src_decodebin_stream_builder.cpp:105-108 SrcDecodeStreamBuilder::BuildAudioUdbConnection] *)
Definition SrcDecode_BuildAudioUdbConnection : build element :=
  make_element ELEMENT_QUEUE (UDB_AUDIO_NAME_1U 0).

Definition is_null {A} (o : option A) : bool := match o with None => true | Some _ => false end.

(* [src/src/stream/streams/builders/src_decodebin_stream_builder.cpp:110-127 SrcDecodeStreamBuilder::BuildUdbConnections] *)
Definition SrcDecode_BuildUdbConnections (config : AudioVideoConfig)
    (BuildVideoUdbConnection BuildAudioUdbConnection : build element) (conn : Connector) : build Connector :=
  hlift (check (is_null (conn_video conn)) "Must be video empty channel.") ;;
  hlift (check (is_null (conn_audio conn)) "Must be audio empty channel.") ;;
  conn ← (if av_have_video config then
            vudb ← BuildVideoUdbConnection;
            ElementAdd vudb ;;
            mret (set_conn_video (Some vudb) conn)
          else mret conn);
  if av_have_audio config then
    audb ← BuildAudioUdbConnection;
    ElementAdd audb ;;
    mret (set_conn_audio (Some audb) conn)
  else mret conn.

(** The queue of an output behind the tee, with a payloader for an RTP output. *)
Definition link_output {C} (queue : string) (codec : outcome C) (make_pay : C -> build element)
    (from : option element) (is_rtp_out : bool) (mux : element) : build unit :=
  tee_queue ← make_element ELEMENT_QUEUE queue;
  ElementAdd tee_queue ;;
  ElementLink from (Some tee_queue) ;;
  next ← (if is_rtp_out then
            c ← hlift codec;
            rtp_pay ← make_pay c;
            ElementAdd rtp_pay ;;
            ElementLink (Some tee_queue) (Some rtp_pay) ;;
            mret rtp_pay
          else mret tee_queue);
  ElementLink (Some next) (Some mux).

(* [src/src/stream/streams/builders/src_decodebin_stream_builder.cpp:146-161 SrcDecodeStreamBuilder::BuildOutput] *)
Definition link_video_output (GetVideoCodecType : outcome SupportedVideoCodec) (i : Z)
    : option element -> bool -> element -> build unit :=
  link_output (VIDEO_TEE_QUEUE_NAME_1U i) GetVideoCodecType (fun vcodec => src_make_video_pay vcodec i).

(* [src/src/stream/streams/builders/src_decodebin_stream_builder.cpp:163-178 SrcDecodeStreamBuilder::BuildOutput] *)
Definition link_audio_output (GetAudioCodecType : outcome SupportedAudioCodec) (i : Z)
    : option element -> bool -> element -> build unit :=
  link_output (AUDIO_TEE_QUEUE_NAME_1U i) GetAudioCodecType (fun acodec => src_make_audio_pay acodec i).

(** [i] with [out[i]], for the loops over the outputs. *)
Definition enumerate {A} (l : list A) : list (Z * A) := imap (fun i x => (Z.of_nat i, x)) l.

(** One turn of the loop over the outputs. *)
(* [src/src/stream/streams/builders/src_decodebin_stream_builder.cpp:132-183 SrcDecodeStreamBuilder::BuildOutput] *)
Definition SrcDecode_output (config : AudioVideoConfig) (GetVideoCodecType : outcome SupportedVideoCodec)
    (GetAudioCodecType : outcome SupportedAudioCodec) (conn : Connector) (io : Z * OutputUri) : build unit :=
  let '(i, output) := io in
  match IsDeviceOutUrl (ou_output output) with
  | Some _ => hlift (critical_log "Decklink not supported for encoding based streams!")
  | None =>
      let scheme := url_get_scheme (ou_output output) in
      let is_rtp_out := bool_decide (scheme = udp) in
      mux ← make_muxer scheme i;
      ElementAdd mux ;;
      (if av_have_video config then link_video_output GetVideoCodecType i (conn_video conn) is_rtp_out mux
       else mret tt) ;;
      (if av_have_audio config then link_audio_output GetAudioCodecType i (conn_audio conn) is_rtp_out mux
       else mret tt) ;;
      sink ← BuildGenericOutput (av_base config) output i;
      ElementAdd sink ;;
      ElementLink (Some mux) (Some sink)
  end.

(* [src/src/stream/streams/builders/src_decodebin_stream_builder.cpp:129-185 SrcDecodeStreamBuilder::BuildOutput] *)
Definition SrcDecode_BuildOutput (config : AudioVideoConfig) (GetVideoCodecType : outcome SupportedVideoCodec)
    (GetAudioCodecType : outcome SupportedAudioCodec) (conn : Connector) : build Connector :=
  hact_iter (SrcDecode_output config GetVideoCodecType GetAudioCodecType conn)
    (enumerate (c_output (av_base config))) ;;
  mret conn.

(** ** Encoding streams *)

(** [ElementLink(conn.video, line.front()); conn.video = line.back();] unless
    the line is empty. *)
Definition link_line (from : option element) (line : elements_line_t) : build (option element) :=
  match line with
  | [] => mret from
  | front :: _ => ElementLink from front ;; mret (List.last line None)
  end.

Definition link_made_line (from : option element) (make_line : build elements_line_t) : build (option element) :=
  line ← make_line;
  link_line from line.

(** Adds an element behind another. *)
Definition append_element (mk : build element) (from : option element) : build (option element) :=
  el ← mk;
  ElementAdd el ;;
  ElementLink from (Some el) ;;
  mret (Some el).

(* [src/src/stream/streams/builders/encoding/encoding_stream_builder.cpp:63-76 EncodingStreamBuilder::GetVideoCodecType] *)
Definition Encoding_GetVideoCodecType (conf : EncodingConfig) : outcome SupportedVideoCodec :=
  let vcodec := e_video_encoder conf in
  if IsH264Encoder vcodec then Ok VIDEO_H264_CODEC
  else if String.eqb vcodec X265_ENC then Ok VIDEO_H265_CODEC
  else if String.eqb vcodec MPEG2_ENC then Ok VIDEO_MPEG_CODEC
  else Abort (NotReached "").

(* [src/src/stream/streams/builders/encoding/encoding_stream_builder.cpp:78-89 EncodingStreamBuilder::GetAudioCodecType] *)
Definition Encoding_GetAudioCodecType (conf : EncodingConfig) : outcome SupportedAudioCodec :=
  let acodec := e_audio_encoder conf in
  if IsAACEncoder acodec then Ok AUDIO_AAC_CODEC
  else if String.eqb acodec LAME_MP3_ENC then Ok AUDIO_MPEG_CODEC
  else Abort (NotReached "").

(** The element of a GPU encoder's post-processing; it is not [last]. *)
(* [src/src/stream/streams/builders/encoding/encoding_stream_builder.cpp:145-168 EncodingStreamBuilder::BuildVideoPostProc] *)
Definition build_gpu_post_proc (conf : EncodingConfig) (video_id : Z) : build element :=
  if IsMfxGpu conf then
    post ← make_element ELEMENT_MFX_VPP (POST_PROC_NAME_1U video_id);
    ElementMFXVpp_SetForceAspectRatio post false ;;
    (if size_is_valid (e_size conf) then
       ElementMFXVpp_SetWidth post (e_size conf).1 ;;
       ElementMFXVpp_SetHeight post (e_size conf).2
     else mret tt) ;;
    match e_frame_rate conf with
    | Some framerate => ElementMFXVpp_SetFrameRate post framerate
    | None => mret tt
    end ;;
    match e_deinterlace conf with
    | Some _ => ElementMFXVpp_SetDinterlaceMode post 1
    | None => mret tt
    end ;;
    mret post
  else
    post ← make_element ELEMENT_VAAPI_POST_PROC (POST_PROC_NAME_1U video_id);
    match e_deinterlace conf with
    | Some _ => mret tt
    | None => ElementVaapiPostProc_SetDinterlaceMode post 2
    end ;;
    ElementVaapiPostProc_SetFormat post 2 ;;
    ElementVaapiPostProc_SetForceAspectRatio post false ;;
    mret post.

(** Scaling, aspect ratio and frame rate behind the converter. *)
(* [src/src/stream/streams/builders/encoding/encoding_stream_builder.cpp:176-192 EncodingStreamBuilder::BuildVideoPostProc] *)
Definition build_cpu_post_proc (conf : EncodingConfig) (video_id : Z) (last : element) : build element :=
  last ← (if size_is_valid (e_size conf) then
            build_video_scale (e_size conf).1 (e_size conf).2 (Some last) video_id
          else mret last);
  last ← match e_aspect_ratio conf with
         | Some aratio =>
             aspect_ratio ← make_element ELEMENT_ASPECT_RATIO (ASPECT_RATIO_NAME_1U video_id);
             ElementAspectRatio_SetAspectRatio aspect_ratio aratio ;;
             ElementAdd aspect_ratio ;;
             ElementLink (Some last) (Some aspect_ratio) ;;
             mret aspect_ratio
         | None => mret last
         end;
  match e_frame_rate conf with
  | Some framerate => build_video_framerate framerate (Some last) video_id
  | None => mret last
  end.

(* [src/src/stream/streams/builders/encoding/encoding_stream_builder.cpp:195-216 EncodingStreamBuilder::BuildVideoPostProc] *)
Definition build_logo (logo : Logo) (video_id : Z) (last : option element) : build (option element) :=
  if Logo_IsValid logo then
    videologo ← make_element ELEMENT_GDK_PIXBUF_OVERLAY (VIDEO_LOGO_NAME_1U video_id);
    match url_get_scheme (logo_path logo) with
    | file => ElementGDKPixBufOverlay_SetLocation videologo (url_path (logo_path logo))
    | _ => hlift (Abort (NotReached ""))
    end ;;
    ElementGDKPixBufOverlay_SetOffsetX videologo (logo_position logo).1 ;;
    ElementGDKPixBufOverlay_SetOffsetY videologo (logo_position logo).2 ;;
    ElementGDKPixBufOverlay_SetAlpha videologo (logo_alpha logo) ;;
    ElementAdd videologo ;;
    ElementLink last (Some videologo) ;;
    mret (Some videologo)
  else mret last.

(* [src/src/stream/streams/builders/encoding/encoding_stream_builder.cpp:137-219 EncodingStreamBuilder::BuildVideoPostProc] *)
Definition Encoding_BuildVideoPostProc (conf : EncodingConfig) (video_id : Z) : build elements_line_t :=
  '(first, last) ←
    (if IsGpu conf then
       first ← build_gpu_post_proc conf video_id;
       ElementAdd first ;;
       mret (first, None)
     else
       first_last ← build_video_convert (e_deinterlace conf) video_id;
       last ← build_cpu_post_proc conf video_id first_last.2;
       mret (first_last.1, Some last));
  last ← build_logo (e_logo conf) video_id last;
  mret [Some first; last].

(* [src/src/stream/streams/builders/encoding/encoding_stream_builder.cpp:221-228 EncodingStreamBuilder::BuildAudioPostProc] *)
Definition Encoding_BuildAudioPostProc (conf : EncodingConfig) (audio_id : Z) : build elements_line_t :=
  first_last ← build_audio_converters (e_volume conf) (e_audio_channels_count conf) audio_id;
  mret [Some first_last.1; Some first_last.2].

(* [src/src/stream/streams/builders/encoding/encoding_stream_builder.cpp:230-238 EncodingStreamBuilder::BuildVideoConverter] *)
Definition Encoding_BuildVideoConverter (conf : EncodingConfig) (video_id : Z) : build elements_line_t :=
  video_encoder ← build_video_encoder (e_video_encoder conf) (e_video_bit_rate conf)
                    (e_video_encoder_args conf) (e_video_encoder_str_args conf) video_id;
  mret [Some video_encoder.1; Some video_encoder.2].

(* [src/src/stream/streams/builders/encoding/encoding_stream_builder.cpp:240-266 EncodingStreamBuilder::BuildAudioConverter] *)
Definition Encoding_BuildAudioConverter (conf : EncodingConfig) (audio_id : Z) : build elements_line_t :=
  let audio_encoder_str := e_audio_encoder conf in
  enc ← make_audio_encoder audio_encoder_str (AUDIO_CODEC_NAME_1U audio_id) (e_audio_bit_rate conf);
  ElementAdd enc ;;
  if String.eqb audio_encoder_str LAME_MP3_ENC then
    audioresample ← make_element ELEMENT_AUDIO_RESAMPLE (AUDIO_RESAMPLE_NAME_1U audio_id);
    mpegaudioparse ← make_element ELEMENT_MPEG_AUDIO_PARSE (MPEG_AUDIO_PARSE_NAME_1U audio_id);
    ElementAdd audioresample ;;
    ElementAdd mpegaudioparse ;;
    ElementLink (Some audioresample) (Some enc) ;;
    ElementLink (Some enc) (Some mpegaudioparse) ;;
    mret [Some audioresample; Some mpegaudioparse]
  else mret [Some enc; Some enc].

(** The four methods that the classes derived from [EncodingStreamBuilder]
    override. *)
Record encoding_lines := {
  BuildVideoPostProc : Z -> build elements_line_t;
  BuildAudioPostProc : Z -> build elements_line_t;
  BuildVideoConverter : Z -> build elements_line_t;
  BuildAudioConverter : Z -> build elements_line_t
}.

(* [src/src/stream/streams/builders/encoding/encoding_stream_builder.h:29-44 EncodingStreamBuilder] *)
Definition encoding_lines_all (conf : EncodingConfig) : encoding_lines := {|
  BuildVideoPostProc := Encoding_BuildVideoPostProc conf;
  BuildAudioPostProc := Encoding_BuildAudioPostProc conf;
  BuildVideoConverter := Encoding_BuildVideoConverter conf;
  BuildAudioConverter := Encoding_BuildAudioConverter conf
|}.

(* [src/src/stream/streams/builders/encoding/encoding_only_audio_stream_builder.cpp:22-33 EncodingOnlyAudioStreamBuilder] *)
Definition encoding_lines_only_audio (conf : EncodingConfig) : encoding_lines := {|
  BuildVideoPostProc := fun _ => mret [];
  BuildAudioPostProc := Encoding_BuildAudioPostProc conf;
  BuildVideoConverter := fun _ => mret [];
  BuildAudioConverter := Encoding_BuildAudioConverter conf
|}.

(* [src/src/stream/streams/builders/encoding/encoding_only_video_stream_builder.cpp:22-33 EncodingOnlyVideoStreamBuilder] *)
Definition encoding_lines_only_video (conf : EncodingConfig) : encoding_lines := {|
  BuildVideoPostProc := Encoding_BuildVideoPostProc conf;
  BuildAudioPostProc := fun _ => mret [];
  BuildVideoConverter := Encoding_BuildVideoConverter conf;
  BuildAudioConverter := fun _ => mret []
|}.

(** A step on the connection of each medium that the stream has. *)
Definition map_conn (config : AudioVideoConfig) (fv fa : option element -> build (option element))
    (conn : Connector) : build Connector :=
  conn ← (if av_have_video config then
            v ← fv (conn_video conn);
            mret (set_conn_video v conn)
          else mret conn);
  if av_have_audio config then
    a ← fa (conn_audio conn);
    mret (set_conn_audio a conn)
  else mret conn.

(* [src/src/stream/streams/builders/encoding/encoding_stream_builder.cpp:41-61 EncodingStreamBuilder::BuildPostProc] *)
Definition Encoding_BuildPostProc (config : EncodingConfig) (l : encoding_lines) : Connector -> build Connector :=
  map_conn (e_base config)
    (fun v => link_made_line v (BuildVideoPostProc l 0))
    (fun a => link_made_line a (BuildAudioPostProc l 0)).

(* [src/src/stream/streams/builders/encoding/encoding_stream_builder.cpp:93-112 EncodingStreamBuilder::BuildConverter] *)
Definition Encoding_video_converter (config : EncodingConfig) (l : encoding_lines) (v : option element)
    : build (option element) :=
  v ← link_made_line v (BuildVideoConverter l 0);
  v ← (if IsH264Encoder (e_video_encoder config) then append_element (make_h264_parser 0) v else mret v);
  append_element (make_element ELEMENT_TEE (VIDEO_TEE_NAME_1U 0)) v.

(* [src/src/stream/streams/builders/encoding/encoding_stream_builder.cpp:114-133 EncodingStreamBuilder::BuildConverter] *)
Definition Encoding_audio_converter (config : EncodingConfig) (l : encoding_lines) (a : option element)
    : build (option element) :=
  a ← link_made_line a (BuildAudioConverter l 0);
  a ← (if IsAACEncoder (e_audio_encoder config) then append_element (make_aac_parser 0) a else mret a);
  append_element (make_element ELEMENT_TEE (AUDIO_TEE_NAME_1U 0)) a.

(* [src/src/stream/streams/builders/encoding/encoding_stream_builder.cpp:91-135 EncodingStreamBuilder::BuildConverter] *)
Definition Encoding_BuildConverter (config : EncodingConfig) (l : encoding_lines) : Connector -> build Connector :=
  map_conn (e_base config) (Encoding_video_converter config l) (Encoding_audio_converter config l).

(** [EncodingStreamBuilder] with the lines of one of its classes and with the
    source that the class makes. *)
(* [src/src/stream/streams/builders/encoding/encoding_stream_builder.h:29-44 EncodingStreamBuilder] *)
Definition encoding_builder (config : EncodingConfig) (l : encoding_lines) (BuildInputSrc : build element) : gst_builder := {|
  BuildInput := SrcDecode_BuildInput BuildInputSrc;
  BuildUdbConnections := SrcDecode_BuildUdbConnections (e_base config)
    SrcDecode_BuildVideoUdbConnection SrcDecode_BuildAudioUdbConnection;
  BuildPostProc := Encoding_BuildPostProc config l;
  BuildConverter := Encoding_BuildConverter config l;
  BuildOutput := SrcDecode_BuildOutput (e_base config)
    (Encoding_GetVideoCodecType config) (Encoding_GetAudioCodecType config)
|}.

(* [src/src/stream/streams/builders/encoding/encoding_stream_builder.cpp:38-39 EncodingStreamBuilder::EncodingStreamBuilder] *)
Definition EncodingStreamBuilder (config : EncodingConfig) : gst_builder :=
  encoding_builder config (encoding_lines_all config) (SrcDecode_BuildInputSrc (av_base (e_base config))).

(* [src/src/stream/streams/builders/encoding/encoding_only_audio_stream_builder.cpp:22-23 EncodingOnlyAudioStreamBuilder::EncodingOnlyAudioStreamBuilder] *)
Definition EncodingOnlyAudioStreamBuilder (config : EncodingConfig) : gst_builder :=
  encoding_builder config (encoding_lines_only_audio config) (SrcDecode_BuildInputSrc (av_base (e_base config))).

(* [src/src/stream/streams/builders/encoding/encoding_only_video_stream_builder.cpp:22-23 EncodingOnlyVideoStreamBuilder::EncodingOnlyVideoStreamBuilder] *)
Definition EncodingOnlyVideoStreamBuilder (config : EncodingConfig) : gst_builder :=
  encoding_builder config (encoding_lines_only_video config) (SrcDecode_BuildInputSrc (av_base (e_base config))).

(** The source of the playlist streams. *)
(* [src/src/stream/streams/builders/encoding/playlist_encoding_stream_builder.cpp:32-44 PlaylistEncodingStreamBuilder::BuildInputSrc] *)
Definition Playlist_BuildInputSrc : build element :=
  appsrc ← make_app_src 0;
  watch_src file appsrc 0 ;;
  ElementAdd appsrc ;;
  hemit (OnAppSrcCreatedCreated appsrc) ;;
  mret appsrc.

(* [src/src/stream/streams/builders/encoding/playlist_encoding_stream_builder.cpp:28-30 PlaylistEncodingStreamBuilder::PlaylistEncodingStreamBuilder] *)
Definition PlaylistEncodingStreamBuilder (config : EncodingConfig) : gst_builder :=
  encoding_builder config (encoding_lines_all config) Playlist_BuildInputSrc.

(** ** Encoding streams with other ends *)

(** A source of its own with a watched pad. *)
Definition add_watched_src (mk : build element) (scheme : url_scheme) (id : Z) : build element :=
  el ← mk;
  ElementAdd el ;;
  watch_src scheme el id ;;
  mret el.

(* [src/src/stream/streams/builders/encoding/device_stream_builder.cpp:35-75 DeviceStreamBuilder::BuildInput] *)
Definition Device_BuildInput (config : EncodingConfig) : build Connector :=
  diuri ← first_input (av_base (e_base config));
  let duri := iu_input diuri in
  video ← (if av_have_video (e_base config) then
             video ← add_watched_src (make_v4l2_src (url_path duri) 0) (url_get_scheme duri) 0;
             capsfilter ← make_element ELEMENT_CAPS_FILTER (VIDEO_CAPS_DEVICE_NAME_1U 0);
             ElementAdd capsfilter ;;
             ElementCapsFilter_SetCaps capsfilter
               (GCaps "video/x-raw" [("width", GInt 1920); ("height", GInt 1080)]) ;;
             ElementLink (Some video) (Some capsfilter) ;;
             mret (Some capsfilter)
           else mret None);
  audio ← (if av_have_audio (e_base config) then
             el ← add_watched_src (make_alsa_src (url_query duri) 1) (url_get_scheme duri) 1; mret (Some el)
           else mret None);
  mret {| conn_video := video; conn_audio := audio |}.

(** [BuildUdbConnections] is inherited. *)
(* [src/src/stream/streams/builders/encoding/device_stream_builder.cpp:32-33 DeviceStreamBuilder::DeviceStreamBuilder] *)
Definition DeviceStreamBuilder (config : EncodingConfig) : gst_builder := {|
  BuildInput := Device_BuildInput config;
  BuildUdbConnections := SrcDecode_BuildUdbConnections (e_base config)
    SrcDecode_BuildVideoUdbConnection SrcDecode_BuildAudioUdbConnection;
  BuildPostProc := Encoding_BuildPostProc config (encoding_lines_all config);
  BuildConverter := Encoding_BuildConverter config (encoding_lines_all config);
  BuildOutput := SrcDecode_BuildOutput (e_base config)
    (Encoding_GetVideoCodecType config) (Encoding_GetAudioCodecType config)
|}.

(** The test sources of the streams of [inputs]. *)
Definition test_sources (config : AudioVideoConfig) (video_name audio_name : string) : build Connector :=
  video ← (if av_have_video config then
             el ← add_watched_src (make_element ELEMENT_VIDEO_TEST_SRC video_name) unknown 0; mret (Some el)
           else mret None);
  audio ← (if av_have_audio config then
             el ← add_watched_src (make_element ELEMENT_AUDIO_TEST_SRC audio_name) unknown 0; mret (Some el)
           else mret None);
  mret {| conn_video := video; conn_audio := audio |}.

(* [src/src/stream/streams/builders/test/test_input_stream_builder.cpp:30-54 TestInputStreamBuilder::BuildInput] *)
Definition TestInput_BuildInput (config : EncodingConfig) : build Connector :=
  test_sources (e_base config) "video_src" "audio_src".

(* [src/src/stream/streams/builders/test/test_input_stream_builder.cpp:56-58 TestInputStreamBuilder::BuildUdbConnections] *)
Definition TestInput_BuildUdbConnections (conn : Connector) : build Connector := mret conn.

(* [src/src/stream/streams/builders/test/test_input_stream_builder.cpp:27-28 TestInputStreamBuilder::TestInputStreamBuilder] *)
Definition TestInputStreamBuilder (config : EncodingConfig) : gst_builder := {|
  BuildInput := TestInput_BuildInput config;
  BuildUdbConnections := TestInput_BuildUdbConnections;
  BuildPostProc := Encoding_BuildPostProc config (encoding_lines_all config);
  BuildConverter := Encoding_BuildConverter config (encoding_lines_all config);
  BuildOutput := SrcDecode_BuildOutput (e_base config)
    (Encoding_GetVideoCodecType config) (Encoding_GetAudioCodecType config)
|}.

(** A sink that ends one side of a stream; a null [from] is not linked. *)
Definition add_watched_sink (mk : build element) (id : Z) (from : option element) : build unit :=
  el ← mk;
  ElementAdd el ;;
  watch_sink unknown el id ;;
  match from with
  | Some f => ElementLink (Some f) (Some el)
  | None => mret tt
  end.

(* [src/src/stream/streams/builders/encoding/fake_stream_builder.cpp:33-62 FakeStreamBuilder::BuildFakeOutput] *)
Definition Fake_BuildFakeOutput (config : AudioVideoConfig) (conn : Connector) : build Connector :=
  (if av_have_video config then add_watched_sink (make_fake_sink 0) 0 (conn_video conn) else mret tt) ;;
  (if av_have_audio config then add_watched_sink (make_fake_sink 1) 0 (conn_audio conn) else mret tt) ;;
  mret conn.

(* [src/src/stream/streams/builders/encoding/fake_stream_builder.cpp:26-27 FakeStreamBuilder::FakeStreamBuilder] *)
Definition FakeStreamBuilder (config : EncodingConfig) : gst_builder := {|
  BuildInput := SrcDecode_BuildInput (SrcDecode_BuildInputSrc (av_base (e_base config)));
  BuildUdbConnections := SrcDecode_BuildUdbConnections (e_base config)
    SrcDecode_BuildVideoUdbConnection SrcDecode_BuildAudioUdbConnection;
  BuildPostProc := Encoding_BuildPostProc config (encoding_lines_all config);
  BuildConverter := Encoding_BuildConverter config (encoding_lines_all config);
  BuildOutput := Fake_BuildFakeOutput (e_base config)
|}.

(** ** Relay streams *)

(* [src/src/stream/streams/builders/relay/relay_stream_builder.cpp:32-34 RelayStreamBuilder::BuildPostProc] *)
Definition Relay_BuildPostProc (conn : Connector) : build Connector := mret conn.

(* [src/src/stream/streams/builders/relay/relay_stream_builder.cpp:36-42 RelayStreamBuilder::BuildVideoUdbConnection] *)
Definition Relay_BuildVideoUdbConnection (rconfig : RelayConfig) : build element :=
  make_video_parser (r_video_parser rconfig) (UDB_VIDEO_NAME_1U 0).

(* [src/src/stream/streams/builders/relay/relay_stream_builder.cpp:44-50 RelayStreamBuilder::BuildAudioUdbConnection] *)
Definition Relay_BuildAudioUdbConnection (rconfig : RelayConfig) : build element :=
  make_audio_parser (r_audio_parser rconfig) (UDB_AUDIO_NAME_1U 0).

(* [src/src/stream/streams/builders/relay/relay_stream_builder.cpp:52-65 RelayStreamBuilder::GetVideoCodecType] *)
Definition Relay_GetVideoCodecType (conf : RelayConfig) : outcome SupportedVideoCodec :=
  let vparser := r_video_parser conf in
  if String.eqb vparser H264_PARSE then Ok VIDEO_H264_CODEC
  else if String.eqb vparser H265_PARSE then Ok VIDEO_H265_CODEC
  else if String.eqb vparser TS_PARSE then Ok VIDEO_MPEG_CODEC
  else Abort (NotReached "").

(* [src/src/stream/streams/builders/relay/relay_stream_builder.cpp:67-80 RelayStreamBuilder::GetAudioCodecType] *)
Definition Relay_GetAudioCodecType (conf : RelayConfig) : outcome SupportedAudioCodec :=
  let aparser := r_audio_parser conf in
  if String.eqb aparser AAC_PARSE then Ok AUDIO_AAC_CODEC
  else if String.eqb aparser MPEG_AUDIO_PARSE then Ok AUDIO_MPEG_CODEC
  else if String.eqb aparser AC3_PARSE then Ok AUDIO_AC3_CODEC
  else Abort (NotReached "").

(* [src/src/stream/streams/builders/relay/relay_stream_builder.cpp:82-97 RelayStreamBuilder::BuildConverter] *)
Definition Relay_BuildConverter (config : RelayConfig) : Connector -> build Connector :=
  map_conn (r_base config)
    (append_element (make_element ELEMENT_TEE (VIDEO_TEE_NAME_1U 0)))
    (append_element (make_element ELEMENT_TEE (AUDIO_TEE_NAME_1U 0))).

(** [RelayStreamBuilder] with the source, the converter and the output of one
    of its classes. *)
(* [src/src/stream/streams/builders/relay/relay_stream_builder.h:26-38 RelayStreamBuilder] *)
Definition relay_builder (config : RelayConfig) (BuildInputSrc : build element)
    (converter output : Connector -> build Connector) : gst_builder := {|
  BuildInput := SrcDecode_BuildInput BuildInputSrc;
  BuildUdbConnections := SrcDecode_BuildUdbConnections (r_base config)
    (Relay_BuildVideoUdbConnection config) (Relay_BuildAudioUdbConnection config);
  BuildPostProc := Relay_BuildPostProc;
  BuildConverter := converter;
  BuildOutput := output
|}.

Definition Relay_BuildOutput (config : RelayConfig) : Connector -> build Connector :=
  SrcDecode_BuildOutput (r_base config) (Relay_GetVideoCodecType config) (Relay_GetAudioCodecType config).

(* [src/src/stream/streams/builders/relay/relay_stream_builder.cpp:29-30 RelayStreamBuilder::RelayStreamBuilder] *)
Definition RelayStreamBuilder (config : RelayConfig) : gst_builder :=
  relay_builder config (SrcDecode_BuildInputSrc (av_base (r_base config)))
    (Relay_BuildConverter config) (Relay_BuildOutput config).

(* [src/src/stream/streams/builders/relay/playlist_relay_stream_builder.cpp:38-50 PlaylistRelayStreamBuilder::BuildInputSrc] *)
Definition PlaylistRelay_BuildInputSrc : build element := Playlist_BuildInputSrc.

(* [src/src/stream/streams/builders/relay/playlist_relay_stream_builder.cpp:28-29 PlaylistRelayStreamBuilder::PlaylistRelayStreamBuilder] *)
Definition PlaylistRelayStreamBuilder (config : RelayConfig) : gst_builder :=
  relay_builder config PlaylistRelay_BuildInputSrc (Relay_BuildConverter config) (Relay_BuildOutput config).

(* [src/src/stream/streams/builders/test/test_life_stream_builder.cpp:34-63 TestLifeStreamBuilder::BuildTestOutput] *)
Definition TestLife_BuildTestOutput (config : RelayConfig) (conn : Connector) : build Connector :=
  (if av_have_video (r_base config) then add_watched_sink (make_test_sink 0) 0 (conn_video conn) else mret tt) ;;
  (if av_have_audio (r_base config) then add_watched_sink (make_test_sink 1) 0 (conn_audio conn) else mret tt) ;;
  mret conn.

(* [src/src/stream/streams/builders/test/test_life_stream_builder.cpp:27-28 TestLifeStreamBuilder::TestLifeStreamBuilder] *)
Definition TestLifeStreamBuilder (config : RelayConfig) : gst_builder :=
  relay_builder config (SrcDecode_BuildInputSrc (av_base (r_base config)))
    (Relay_BuildConverter config) (TestLife_BuildTestOutput config).

(** ** Timeshift streams *)

(** [start_chunk_index] is a [uint64_t] that is stored in an [int]. *)
(* [src/src/stream/streams/builders/timeshift/timeshift_player_stream_builder.cpp:32-40 TimeShiftPlayerBuilder::BuildInputSrc] *)
Definition TimeShiftPlayer_BuildInputSrc (timshift_dir : string) (start_chunk_index : Z) : build element :=
  multifilesrc ← make_multifile_src
    {| mf_location := timshift_dir +:+ "%llu.ts"; mf_index := i32 start_chunk_index; mf_loop := false |} 0;
  ElementAdd multifilesrc ;;
  mret multifilesrc.

(* [src/src/stream/streams/builders/timeshift/timeshift_player_stream_builder.cpp:26-30 TimeShiftPlayerBuilder::TimeShiftPlayerBuilder] *)
Definition TimeShiftPlayerBuilder (timshift_dir : string) (start_chunk_index : Z) (config : RelayConfig) : gst_builder :=
  relay_builder config (TimeShiftPlayer_BuildInputSrc timshift_dir start_chunk_index)
    (Relay_BuildConverter config) (Relay_BuildOutput config).

(* [src/src/stream/streams/builders/timeshift/timeshift_recorder_stream_builder.h:19-19 SPLIT_SINK_NAME_1U] *)
Definition SPLIT_SINK_NAME_1U : Z -> string := elem_name "splitmuxsink".

(** The result of the link itself is only asserted in a debug build. *)
(* [src/src/stream/streams/timeshift/timeshift_recorder_stream.cpp:33-50 link_to_multiplexer] *)
Definition link_to_multiplexer (src : option element) (sink : element) (pad_name : string) : build unit :=
  src ← deref src;
  if negb (StaticPad src "src") then mret tt
  else if negb (RequestPad sink pad_name) then mret tt
  else hemit (OnPadLinked src sink pad_name).

(** [GetTimeShiftChunkDuration() * GST_SECOND], both [int64_t]. *)
Definition chunk_nsec (duration : Z) : outcome Z :=
  let d := (duration * 1000000000)%Z in
  if ((- 2 ^ 63 <=? d) && (d <? 2 ^ 63))%Z then Ok (u64 d)
  else Abort (UndefinedBehaviour "int64_t overflow").

(** The part of [OnSplitmuxsinkCreated] that chooses the chunk is in
    [Timeshift], the registration of its callback in [Signals]; this is its
    linking of the two pads. *)
(* [src/src/stream/streams/timeshift/timeshift_recorder_stream.cpp:87-88 TimeShiftRecorderStream::OnSplitmuxsinkCreated] *)
Definition link_splitmuxsink (conn : Connector) (sink : element) : build unit :=
  link_to_multiplexer (conn_audio conn) sink "audio_%u" ;;
  link_to_multiplexer (conn_video conn) sink "video".

(* [src/src/stream/streams/builders/timeshift/timeshift_recorder_stream_builder.cpp:53-59 TimeShiftRecorderStreamBuilder::HandleSplitmuxsinkCreated] *)
Definition HandleSplitmuxsinkCreated (conn : Connector) (sink : element) : build unit :=
  hemit (OnSplitmuxsinkCreated sink) ;; link_splitmuxsink conn sink.

(* [src/src/stream/streams/builders/timeshift/timeshift_recorder_stream_builder.cpp:33-47 TimeShiftRecorderStreamBuilder::BuildOutput] *)
Definition TimeShiftRecorder_BuildOutput (tconf : TimeshiftConfig) (conn : Connector) : build Connector :=
  splitmuxsink ← make_element ELEMENT_SPLIT_MUX_SINK (SPLIT_SINK_NAME_1U 0);
  ElementAdd splitmuxsink ;;
  mpegtsmux ← make_mpegtsmux 0;
  mst_nsec ← hlift (chunk_nsec (ts_chunk_duration tconf));
  ElementSplitMuxSink_SetMuxer splitmuxsink mpegtsmux ;;
  ElementSplitMuxSink_SetMaxSizeTime splitmuxsink mst_nsec ;;
  HandleSplitmuxsinkCreated conn splitmuxsink ;;
  mret conn.

(* [src/src/stream/streams/builders/timeshift/timeshift_recorder_stream_builder.cpp:49-51 TimeShiftRecorderStreamBuilder::BuildConverter] *)
Definition TimeShiftRecorder_BuildConverter (conn : Connector) : build Connector := mret conn.

(* [src/src/stream/streams/builders/timeshift/timeshift_recorder_stream_builder.cpp:29-31 TimeShiftRecorderStreamBuilder::TimeShiftRecorderStreamBuilder] *)
Definition TimeShiftRecorderStreamBuilder (config : TimeshiftConfig) : gst_builder :=
  relay_builder (ts_base config) (SrcDecode_BuildInputSrc (av_base (r_base (ts_base config))))
    TimeShiftRecorder_BuildConverter (TimeShiftRecorder_BuildOutput config).

(* [src/src/stream/streams/builders/timeshift/catchup_stream_builder.cpp:22-23 CatchupStreamBuilder::CatchupStreamBuilder] *)
Definition CatchupStreamBuilder (config : TimeshiftConfig) : gst_builder := TimeShiftRecorderStreamBuilder config.

(** ** Screen *)

(* [src/src/stream/streams/builders/screen_stream_builder.cpp:34-58 ScreenStreamBuilder::BuildInput] *)
Definition Screen_BuildInput (config : AudioVideoConfig) : build Connector :=
  test_sources config (elem_name "video_src" 0) (elem_name "audio_src" 0).

(* [src/src/stream/streams/builders/screen_stream_builder.cpp:60-62 ScreenStreamBuilder::BuildUdbConnections] *)
Definition Screen_BuildUdbConnections (conn : Connector) : build Connector := mret conn.
(* [src/src/stream/streams/builders/screen_stream_builder.cpp:64-66 ScreenStreamBuilder::BuildPostProc] *)
Definition Screen_BuildPostProc (conn : Connector) : build Connector := mret conn.
(* [src/src/stream/streams/builders/screen_stream_builder.cpp:68-70 ScreenStreamBuilder::BuildConverter] *)
Definition Screen_BuildConverter (conn : Connector) : build Connector := mret conn.

(* [src/src/stream/streams/builders/screen_stream_builder.cpp:72-104 ScreenStreamBuilder::BuildOutput] *)
Definition Screen_BuildOutput (aconf : AudioVideoConfig) (conn : Connector) : build Connector :=
  hact_iter (fun '(i, _) =>
    (if av_have_video aconf then add_watched_sink (make_video_screen_sink i) i (conn_video conn) else mret tt) ;;
    (if av_have_audio aconf then add_watched_sink (make_audio_screen_sink (i + 1)) i (conn_audio conn) else mret tt))
    (enumerate (c_output (av_base aconf))) ;;
  mret conn.

(* [src/src/stream/streams/builders/screen_stream_builder.cpp:31-32 ScreenStreamBuilder::ScreenStreamBuilder] *)
Definition ScreenStreamBuilder (config : AudioVideoConfig) : gst_builder := {|
  BuildInput := Screen_BuildInput config;
  BuildUdbConnections := Screen_BuildUdbConnections;
  BuildPostProc := Screen_BuildPostProc;
  BuildConverter := Screen_BuildConverter;
  BuildOutput := Screen_BuildOutput config
|}.
End Builders.
