(* ===== verification/Pipelines.v ===== *)
(** * What the builders build

    For the classes of [Builders]: the names of the elements and the links
    between them that a configuration gives, when the builder returns at all. *)

From S2P Require Import Prelude Platform StreamTypes Constants Uris Options Configs Gst Elements Builders.

(** A line of elements by its two ends. *)
Definition line_ends `{GstLib} (first : string) (tail : list string) (r : element * element) : Prop :=
  named first r.1 /\ named (List.last tail first) r.2.

(** ** Tactics

    [build_steps] runs through a sequence of primitive steps; what is left are
    the permutations of names and links, and the property of the result. *)

Ltac build_named :=
  first [ eassumption
        | match goal with H : named _ _ /\ _ |- _ => exact (proj1 H) end
        | eexists; split; [reflexivity | first [eassumption | match goal with H : named _ _ /\ _ |- _ => exact (proj1 H) end]] ].

Ltac build_prim :=
  lazymatch goal with
  | |- builds (ElementAdd _) _ _ _ => eapply ElementAdd_builds; build_named
  | |- builds (ElementLink _ _) _ _ _ => eapply ElementLink_builds; build_named
  | |- builds (make_element _ _) _ _ _ => eapply make_element_builds
  | |- builds (hemit _) _ _ _ => eapply builds_emit
  | |- builds (watch_src _ _ _) _ _ _ => eapply watch_src_builds
  | |- builds (watch_sink _ _ _) _ _ _ => eapply watch_sink_builds
  | |- builds (match ?o with _ => _ end) _ _ _ => destruct o; build_prim
  | |- builds (_ ≫= _) _ _ _ => eapply builds_skip; [build_prim | intros; cbn beta; build_prim]
  | |- builds (mret tt) _ _ _ => exact (builds_ret tt (fun _ => True) I)
  | |- _ => first [eapply SetProperty_builds | eapply make_element_builds]
  end.

Ltac build_steps :=
  lazymatch goal with
  | |- builds (mret _) _ _ _ => eapply builds_ret
  | |- builds (mret _ ≫= _) _ _ _ => apply builds_ret_bind; cbn beta; build_steps
  | |- builds ((_ ≫= _) ≫= _) _ _ _ => apply builds_assoc; cbn beta; build_steps
  | |- builds (_ ≫= _) _ _ _ => eapply builds_bind; [build_prim | intros ? ?; cbn beta in *; build_steps]
  | |- _ => try build_prim
  end.

(** What is known of a result: the names of its elements. *)
Ltac build_result :=
  try unfold line_ends; cbn [fst snd List.last]; first [build_named | split; build_result].

Ltac build_all :=
  eapply builds_perm; [build_steps; try build_result | cbn; try (unfold chain_links; solve_Permutation)..].

(** The same for a step whose definition is not yet unfolded. *)
Ltac head_of t := lazymatch t with ?f _ => head_of f | _ => t end.
Ltac build_unfold :=
  lazymatch goal with |- builds ?m _ _ _ => let h := head_of m in unfold h end.

(** ** Elements

    The constructors give an element of the name that the template tells;
    what a constructor refuses is a boolean of its arguments. *)

Section Makers.
Context `{JsonC} `{UrlLib} `{PathLib} `{UnnamedCodes} `{GstLib} `{!GstLibOk}.

Lemma make_named_builds type name : builds (make_element type name) [] [] (named name).
Proof. eapply builds_weaken; [apply make_element_builds|]. naive_solver. Qed.

Lemma make_file_src_builds l id : builds (make_file_src l id) [] [] (named (SRC_NAME_1U id)).
Proof. build_unfold. build_all. Qed.
Lemma make_http_src_builds l a t id : builds (make_http_src l a t id) [] [] (named (SRC_NAME_1U id)).
Proof. build_unfold. build_all. Qed.
Lemma make_udp_src_builds h id : builds (make_udp_src h id) [] [] (named (SRC_NAME_1U id)).
Proof. build_unfold. build_all. Qed.
Lemma make_rtmp_src_builds l t id : builds (make_rtmp_src l t id) [] [] (named (SRC_NAME_1U id)).
Proof. build_unfold. build_all. Qed.
Lemma make_tcp_server_src_builds h id : builds (make_tcp_server_src h id) [] [] (named (SRC_NAME_1U id)).
Proof. build_unfold. build_all. Qed.
Lemma make_multifile_src_builds i id : builds (make_multifile_src i id) [] [] (named (SRC_NAME_1U id)).
Proof. build_unfold. build_all. Qed.
Lemma make_udp_sink_builds h id : builds (make_udp_sink h id) [] [] (named (SINK_NAME_1U id)).
Proof. build_unfold. build_all. Qed.
Lemma make_tcp_server_sink_builds h id : builds (make_tcp_server_sink h id) [] [] (named (SINK_NAME_1U id)).
Proof. build_unfold. build_all. Qed.
Lemma make_rtmp_sink_builds id o : builds (make_rtmp_sink id o) [] [] (named (SINK_NAME_1U id)).
Proof. build_unfold. build_all. Qed.
Lemma make_http_sink_builds id o : builds (make_http_sink id o) [] [] (named (SINK_NAME_1U id)).
Proof. build_unfold. build_all. Qed.
Lemma make_flvmux_builds b id : builds (make_flvmux b id) [] [] (named (MUXER_NAME_1U id)).
Proof. build_unfold. build_all. Qed.

(** A URL that [make_src] has a source for. *)
Definition src_ok (u : InputUri) : bool :=
  match url_get_scheme (iu_input u) with
  | file | http | https | rtmp => true
  | udp | tcp => negb (is_null (conv_host_port (url_get_host (iu_input u))))
  | _ => false
  end.

Lemma make_src_realizes u id t : realizes (make_src u id t) (src_ok u) [] [] (named (SRC_NAME_1U id)).
Proof.
  unfold make_src, src_ok. destruct (url_get_scheme _); try apply stuck_abort;
    [apply make_http_src_builds.. | apply make_file_src_builds | | | apply make_rtmp_src_builds];
    (destruct (conv_host_port _); [cbn | apply stuck_abort]);
    [apply make_udp_src_builds | apply make_tcp_server_src_builds].
Qed.

(** An output that [make_muxer] and [build_output] know. *)
Definition mux_ok (s : url_scheme) : bool :=
  match s with rtmp | udp | tcp | http => true | _ => false end.
Definition sink_ok (o : OutputUri) : bool :=
  match url_get_scheme (ou_output o) with
  | udp | tcp => negb (is_null (conv_host_port (url_get_host (ou_output o))))
  | rtmp => true
  | http => negb (is_empty (url_file_name (ou_output o)))
  | _ => false
  end.

Lemma make_muxer_realizes s id : realizes (make_muxer s id) (mux_ok s) [] [] (named (MUXER_NAME_1U id)).
Proof.
  destruct s; try apply stuck_abort; [..|apply make_flvmux_builds]; apply make_named_builds.
Qed.

Lemma build_output_realizes now o id vod :
  realizes (build_output now o id vod) (sink_ok o) [] [] (named (SINK_NAME_1U id)).
Proof.
  unfold build_output, sink_ok. destruct (url_get_scheme _); try apply stuck_abort;
    [destruct (is_empty _); [apply stuck_abort | apply make_http_sink_builds] | | | apply make_rtmp_sink_builds];
    (destruct (conv_host_port _); [cbn | apply stuck_abort]);
    [apply make_udp_sink_builds | apply make_tcp_server_sink_builds].
Qed.

Lemma BuildGenericOutput_realizes now c o id :
  realizes (BuildGenericOutput now c o id) (sink_ok o) [] [] (named (SINK_NAME_1U id)).
Proof.
  apply (realizes_then _ _ _ [] [] [] [] _ _ (build_output_realizes now o id _)).
  intros el Hel. cbn. build_all.
Qed.

Lemma class_of_name_Some l name el : class_of_name l name = Some el -> ElementsTraits_name el = name.
Proof. induction l as [|c l IH]; cbn; [done|]. destruct (String.eqb_spec name (ElementsTraits_name c)); naive_solver. Qed.

(** The parsers that a relay stream may name. *)
Definition video_parser_ok (parser : string) : bool :=
  existsb (String.eqb parser) [H264_PARSE; H265_PARSE; MPEG_VIDEO_PARSE; TS_PARSE].
Definition audio_parser_ok (parser : string) : bool :=
  existsb (String.eqb parser) [AAC_PARSE; AC3_PARSE; MPEG_AUDIO_PARSE].

Lemma class_of_name_ok l name :
  negb (is_null (class_of_name l name)) = existsb (String.eqb name) (ElementsTraits_name <$> l).
Proof. induction l as [|c l IH]; cbn; [done|]. by destruct (String.eqb name _). Qed.

Lemma make_by_class l name n (r : abort_reason) :
  realizes (match class_of_name l name with Some el => make_element el n | None => hlift (Abort r) end)
    (existsb (String.eqb name) (ElementsTraits_name <$> l)) [] []
    (fun el => named n el /\ GetPluginName el = name).
Proof.
  rewrite <- class_of_name_ok. destruct (class_of_name l name) as [el|] eqn:Hc; [|apply stuck_abort].
  eapply builds_weaken; [apply make_element_builds|]. intros e [Hn Ht]. split; [done|].
  unfold GetPluginName. rewrite Ht. by eapply class_of_name_Some.
Qed.

Lemma make_video_parser_realizes parser n :
  realizes (make_video_parser parser n) (video_parser_ok parser) [] [] (named n).
Proof. eapply realizes_conv; [apply make_by_class | done | naive_solver]. Qed.
Lemma make_audio_parser_realizes parser n :
  realizes (make_audio_parser parser n) (audio_parser_ok parser) [] [] (named n).
Proof. eapply realizes_conv; [apply make_by_class | done | naive_solver]. Qed.

Lemma src_make_video_pay_builds c i : builds (src_make_video_pay c i) [] [] (named (VIDEO_PAY_NAME_1U i)).
Proof. destruct c; cbn; build_unfold; build_all. Qed.

(** The payloader of MPEG audio is the one of MPEG video, by name too. *)
Definition audio_pay_name (c : SupportedAudioCodec) (i : Z) : string :=
  match c with AUDIO_MPEG_CODEC => VIDEO_PAY_NAME_1U i | _ => AUDIO_PAY_NAME_1U i end.
Lemma src_make_audio_pay_builds c i : builds (src_make_audio_pay c i) [] [] (named (audio_pay_name c i)).
Proof. destruct c; cbn; build_unfold; build_all. Qed.

(** ** Encoders *)

Definition i32_mul_ok (a b : Z) : bool := ((- 2 ^ 31 <=? a * b) && (a * b <? 2 ^ 31))%Z.

Lemma i32_mul_realizes a b : realizes (hlift (i32_mul a b)) (i32_mul_ok a b) [] [] (fun _ => True).
Proof. unfold i32_mul, i32_mul_ok. destruct (_ && _)%Z; [by eapply builds_lift | apply stuck_abort]. Qed.

(** The bit rates that the encoder takes in bits fit an [int]. *)
Definition audio_encoder_ok (codec : string) (rate : option Z) : bool :=
  if String.eqb codec FAAC || String.eqb codec VOAAC_ENC then from_option (fun r => i32_mul_ok r 1024) true rate
  else String.eqb codec LAME_MP3_ENC.

(** A constructor, a setting that may fail, and the element. *)
Lemma make_then_set type n (set : element -> build unit) ok :
  (forall el, realizes (set el) ok [] [] (fun _ => True)) ->
  realizes (el ← make_element type n; set el ;; mret el) ok [] [] (named n).
Proof.
  intros Hset. apply (builds_then _ _ ok [] [] [] [] _ _ (make_named_builds type n)).
  intros el Hel. apply (realizes_then _ _ ok [] [] [] [] _ _ (Hset el)).
  intros _ _. by apply builds_ret.
Qed.

Lemma make_audio_encoder_realizes codec n rate :
  realizes (make_audio_encoder codec n rate) (audio_encoder_ok codec rate) [] [] (named n).
Proof.
  unfold make_audio_encoder, audio_encoder_ok.
  destruct (String.eqb codec FAAC); [|destruct (String.eqb codec VOAAC_ENC); [|destruct (String.eqb codec LAME_MP3_ENC)]];
    cbn [orb]; [apply make_then_set; intros el; destruct rate as [r|]; [|by apply builds_ret].. | apply stuck_abort].
  - apply (builds_then _ _ _ [] [] [] [] (fun _ => True)); [apply SetProperty_builds|]. intros _ _.
    apply (realizes_then _ _ _ [] [] [] [] _ _ (i32_mul_realizes r 1024)). intros z _. apply SetProperty_builds.
  - apply (realizes_then _ _ _ [] [] [] [] _ _ (i32_mul_realizes r 1024)). intros z _. apply SetProperty_builds.
  - cbn. build_prim.
Qed.

(** [build_audio_converters]: the volume behind the channels behind the
    converter. *)
Definition audio_convert_tail (volume : option double) (achannels : option Z) (id : Z) : list string :=
  (if achannels is Some _ then [AUDIO_CONVERT_CAPS_FILTER_NAME_1U id] else []) ++
  (if volume is Some _ then [VOLUME_NAME_1U id] else []).

Lemma build_audio_converters_builds volume achannels id :
  let a := AUDIO_CONVERT_NAME_1U id in
  let tail := audio_convert_tail volume achannels id in
  builds (build_audio_converters volume achannels id) (a :: tail) (chain_links (a :: tail)) (line_ends a tail).
Proof.
  unfold build_audio_converters, audio_convert_tail. destruct achannels, volume; cbn -[elem_name]; build_all.
Qed.

Lemma builds_setters {A} (f : A -> build unit) l :
  (forall x, builds (f x) [] [] (fun _ => True)) -> builds (hact_iter f l) [] [] (fun _ => True).
Proof.
  intros Hf. eapply builds_perm; [apply (builds_iter f l (fun _ => []) (fun _ => [])); naive_solver|..];
    induction l; done.
Qed.

Lemma setup_encoder_params_builds args avc : builds (setup_encoder_params args avc) [] [] (fun _ => True).
Proof.
  apply builds_setters. intros [key value]. destruct (split_dot key).
  destruct (negb _); [by apply builds_ret | apply SetProperty_builds].
Qed.

Lemma extends_fold {A} (f : element -> A -> build element) (c : A -> list string) l x el :
  (forall y last a, named y last -> extends named (f last a) true y (c a)) ->
  named x el -> extends named (build_fold f el l) true x (l ≫= c).
Proof.
  intros Hf. revert x el. induction l as [|a l IH]; intros x el Hel; [by apply extends_ret|].
  cbn [build_fold]. rewrite bind_cons. apply (extends_bind named named _ _ true true); [by apply Hf|].
  intros last Hl. by apply IH.
Qed.

(** The caps filters that the parameters of an encoder ask for. *)
Definition str_param_caps (codec : string) (id : Z) (kv : string * string) : list string :=
  if negb (String.eqb (split_dot kv.1).1 codec) then []
  else if String.eqb kv.1 X264_ENC_PROFILE then [VIDEO_X264ENC_CAPS_FILTER_PROFILE_NAME_1U id]
  else if String.eqb kv.1 X264_ENC_STREAM_FORMAT then [VIDEO_X264ENC_CAPS_FILTER_STREAM_FORMAT_NAME_1U id]
  else [].
Definition encoder_caps (codec : string) (args : gmap string string) (id : Z) : list string :=
  std_entries args ≫= str_param_caps codec id.

Lemma setup_encoder_str_params_extends args avc id x :
  named x avc ->
  extends named (setup_encoder_str_params args avc id) true x (encoder_caps (GetPluginName avc) args id).
Proof.
  apply extends_fold. intros y last [key value] Hy. unfold setup_encoder_str_param, str_param_caps. cbn [fst snd].
  destruct (split_dot key) as [enc param]. cbn [fst].
  destruct (negb _); [by apply extends_ret|].
  destruct (String.eqb key X264_ENC_PROFILE); [|destruct (String.eqb key X264_ENC_STREAM_FORMAT)];
    unfold extends; cbn [realizes]; build_all.
Qed.

Lemma build_video_scale_extends w h x last id :
  named x last ->
  extends named (build_video_scale w h (Some last) id) true x
    [VIDEO_SCALE_NAME_1U id; VIDEO_SCALE_CAPS_FILTER_NAME_1U id].
Proof. intros Hl. unfold extends, build_video_scale. cbn [realizes]. build_all. Qed.

Lemma build_video_framerate_extends r x last id :
  named x last ->
  extends named (build_video_framerate r (Some last) id) true x
    [VIDEO_RATE_NAME_1U id; VIDEO_RATE_CAPS_FILTER_NAME_1U id].
Proof. intros Hl. unfold extends, build_video_framerate. cbn [realizes]. build_all. Qed.

(** [build_video_convert]. *)
Definition video_convert_tail (deinterlace : option bool) (id : Z) : list string :=
  if default false deinterlace then [DEINTERLACE_NAME_1U id] else [].

Lemma build_video_convert_builds deinterlace id :
  let a := VIDEO_CONVERT_NAME_1U id in
  let tail := video_convert_tail deinterlace id in
  builds (build_video_convert deinterlace id) (a :: tail) (chain_links (a :: tail)) (line_ends a tail).
Proof.
  unfold build_video_convert, video_convert_tail. destruct (default false deinterlace); cbn zeta;
    unfold make_video_deinterlace; cbn -[elem_name]; build_all.
Qed.

(** The rate of an encoder that takes it in bits fits an [int]. *)
Definition video_bitrate_ok (codec : string) (rate : option Z) : bool :=
  if String.eqb codec EAVC_ENC || String.eqb codec OPEN_H264_ENC
  then from_option (fun r => i32_mul_ok r 1024) true rate else true.

Lemma set_video_bitrate_realizes avc rate :
  realizes (set_video_bitrate avc rate) (video_bitrate_ok (GetPluginName avc) (Some rate)) [] [] (fun _ => True).
Proof.
  unfold set_video_bitrate, video_bitrate_ok. cbn zeta.
  destruct (String.eqb _ (ElementsTraits_name ELEMENT_EAVC_ENC)) eqn:He;
    [|destruct (String.eqb _ (ElementsTraits_name ELEMENT_OPEN_H264_ENC)) eqn:Ho]; cbn in He |- *; rewrite He; cbn.
  1: apply (realizes_then _ _ _ [] [] [] [] _ _ (i32_mul_realizes rate 1024)); intros; apply SetProperty_builds.
  1: cbn in Ho; rewrite Ho;
    apply (realizes_then _ _ _ [] [] [] [] _ _ (i32_mul_realizes rate 1024)); intros; apply SetProperty_builds.
  cbn in Ho. rewrite Ho. cbn. repeat destruct (String.eqb _ _); build_all.
Qed.

(** [build_video_encoder]. *)
Definition video_encoder_ok (codec : string) (rate : option Z) : bool :=
  existsb (String.eqb codec) (ElementsTraits_name <$> video_encoder_classes) && video_bitrate_ok codec rate.

Lemma build_video_encoder_realizes codec rate args str_args id :
  let a := VIDEO_CODEC_NAME_1U id in
  let tail := encoder_caps codec str_args id in
  realizes (build_video_encoder codec rate args str_args id) (video_encoder_ok codec rate)
    (a :: tail) (chain_links (a :: tail)) (line_ends a tail).
Proof.
  cbn zeta. set (a := VIDEO_CODEC_NAME_1U id). unfold build_video_encoder, video_encoder_ok.
  apply (realizes_skip _ _ _ _ _ _ _ _ (make_by_class _ codec _ _)). intros avc [Hn <-].
  set (tail := encoder_caps (GetPluginName avc) str_args id).
  apply (builds_then _ _ _ [a] tail [] (chain_links (a :: tail)) (fun _ => True)); [by apply ElementAdd_builds|].
  intros _ _.
  assert (Hr : realizes (match rate with Some r => set_video_bitrate avc r | None => mret tt end)
                 (video_bitrate_ok (GetPluginName avc) rate) [] [] (fun _ => True)).
  { destruct rate as [r|]; [apply set_video_bitrate_realizes|]. unfold video_bitrate_ok. cbn.
    destruct (_ || _); by apply builds_ret. }
  rewrite <- (andb_true_r (video_bitrate_ok _ _)). apply (realizes_skip _ _ _ _ _ _ _ _ Hr). intros _ _.
  apply (builds_skip _ _ _ _ _ _ (setup_encoder_params_builds args avc)). intros _ _.
  eapply builds_last; [apply (setup_encoder_str_params_extends str_args avc id a Hn)|].
  intros last Hl. by apply builds_ret.
Qed.

(** ** Lines and connections *)

Definition line_named (a z : string) (line : elements_line_t) : Prop :=
  exists e1 e2, line = [Some e1; Some e2] /\ named a e1 /\ named z e2.

(** A line that is made on its own. *)
Definition makes_line (m : build elements_line_t) (ok : bool) (a : string) (c : list string) : Prop :=
  realizes m ok (a :: c) (chain_links (a :: c)) (line_named a (List.last c a)).

Lemma makes_line_ends (m : build (element * element)) ok a c :
  realizes m ok (a :: c) (chain_links (a :: c)) (line_ends a c) ->
  makes_line (r ← m; mret [Some r.1; Some r.2]) ok a c.
Proof.
  intros Hm. unfold makes_line. eapply realizes_last; [exact Hm|]. intros [e1 e2] [Hf Hz]. apply builds_ret. by exists e1, e2.
Qed.

(** The two ways in which a line is linked behind another element. *)
Lemma link_line_extends m ok x a c from :
  makes_line m ok a c -> conn_named x from ->
  extends conn_named (link_made_line from m) ok x (a :: c).
Proof.
  intros Hm Hx. unfold extends. eapply (realizes_conv _ _ _ _ _ _ _ (conn_named (List.last c a))).
  - eapply (realizes_then _ _ ok (a :: c) [] (chain_links (a :: c)) [(x, a)]); [exact Hm|].
    intros line (e1 & e2 & -> & Hf & Hz). cbn [link_line List.last]. eapply builds_last.
    + apply ElementLink_builds; [done|]. by exists e1.
    + intros _ _. apply builds_ret. by exists e2.
  - done.
  - intros _. rewrite last_cons, chain_links_cons. split_and!; [by rewrite app_nil_r | | naive_solver].
    by rewrite Permutation_app_comm.
Qed.

Lemma link_empty_extends x from :
  conn_named x from -> extends conn_named (link_made_line from (mret [])) true x [].
Proof. intros Hx. unfold extends. cbn. apply builds_ret_bind. by apply builds_ret. Qed.

Lemma append_element_extends mk n x from :
  builds mk [] [] (named n) -> conn_named x from -> extends conn_named (append_element mk from) true x [n].
Proof.
  intros Hm Hx. unfold extends, append_element. cbn [realizes].
  eapply builds_skip; [exact Hm|]. intros el Hel. build_all.
Qed.

(** What a connection of the media that a stream has is named. *)
Definition conn_ok (config : AudioVideoConfig) (xv xa : string) (conn : Connector) : Prop :=
  (av_have_video config = true -> conn_named xv (conn_video conn)) /\
  (av_have_audio config = true -> conn_named xa (conn_audio conn)).

Definition when {A} (b : bool) (l : list A) : list A := if b then l else [].

(** A step of a builder: it extends the line of each medium. *)
Definition conn_step (config : AudioVideoConfig) (f : Connector -> build Connector) (okv oka : bool)
    (xv xa : string) (cv ca : list string) : Prop :=
  forall conn, conn_ok config xv xa conn ->
  realizes (f conn)
    (implb (av_have_video config) okv && implb (av_have_audio config) oka)
    (when (av_have_video config) cv ++ when (av_have_audio config) ca)
    (when (av_have_video config) (chain_links (xv :: cv)) ++ when (av_have_audio config) (chain_links (xa :: ca)))
    (conn_ok config (List.last cv xv) (List.last ca xa)).

Lemma conn_step_ret config xv xa : conn_step config mret true true xv xa [] [].
Proof. intros conn Hc. destruct (av_have_video config), (av_have_audio config); by apply builds_ret. Qed.

Lemma map_conn_step config fv fa okv oka xv xa cv ca :
  (av_have_video config = true -> forall el, conn_named xv el -> extends conn_named (fv el) okv xv cv) ->
  (av_have_audio config = true -> forall el, conn_named xa el -> extends conn_named (fa el) oka xa ca) ->
  conn_step config (map_conn config fv fa) okv oka xv xa cv ca.
Proof.
  intros Hv Ha conn [Hcv Hca]. unfold map_conn.
  eapply realizes_bind with
    (P := fun c => (av_have_video config = true -> conn_named (List.last cv xv) (conn_video c)) /\
                   conn_audio c = conn_audio conn).
  - destruct (av_have_video config) eqn:Hhv; cbn; [|apply builds_ret; by split].
    eapply realizes_last; [apply Hv; [done|by apply Hcv]|]. intros v Hvn. apply builds_ret. by split.
  - intros c [Hvn Hac]. destruct (av_have_audio config) eqn:Hha; cbn; [|apply builds_ret; split; [done|congruence]].
    eapply realizes_last; [apply Ha; [done|rewrite Hac; by apply Hca]|]. intros a Han. apply builds_ret. by split.
Qed.

(** ** The input and the ends of a decodebin *)

Definition input_ok (c : Config) : bool := match c_input c with u :: _ => src_ok u | [] => false end.

Lemma SrcDecode_BuildInputSrc_realizes c :
  realizes (SrcDecode_BuildInputSrc c) (input_ok c) [SRC_NAME_1U 0] [] (named (SRC_NAME_1U 0)).
Proof.
  unfold SrcDecode_BuildInputSrc, first_input, input_ok. destruct (c_input c) as [|u l]; [apply stuck_bind, stuck_abort|].
  rewrite <- (andb_true_l (src_ok u)). apply (realizes_skip _ _ _ _ _ _ (eq u)); [by apply builds_ret|]. intros ? <-.
  rewrite <- (andb_true_r (src_ok u)). apply (realizes_skip _ _ _ _ _ _ _ _ (make_src_realizes u 0 src_timeout_sec)).
  intros el Hel. cbn. build_all.
Qed.

Lemma Playlist_BuildInputSrc_builds :
  builds Playlist_BuildInputSrc [SRC_NAME_1U 0] [] (named (SRC_NAME_1U 0)).
Proof. unfold Playlist_BuildInputSrc, make_app_src, make_sources. build_all. Qed.

Definition null_conn : Connector := {| conn_video := None; conn_audio := None |}.

Lemma SrcDecode_BuildInput_realizes src ok :
  realizes src ok [SRC_NAME_1U 0] [] (named (SRC_NAME_1U 0)) ->
  realizes (SrcDecode_BuildInput src) ok [SRC_NAME_1U 0; DECODEBIN_NAME_1U 0]
    [(SRC_NAME_1U 0, DECODEBIN_NAME_1U 0)] (eq null_conn).
Proof.
  intros Hs. apply (realizes_then _ _ ok [SRC_NAME_1U 0] [DECODEBIN_NAME_1U 0] [] [(SRC_NAME_1U 0, DECODEBIN_NAME_1U 0)] _ _ Hs).
  intros el Hel. unfold HandleDecodebinCreated. eapply builds_perm; [build_steps; done | cbn; solve_Permutation..].
Qed.

Lemma SrcDecode_BuildUdbConnections_realizes config bv ba okv oka :
  realizes bv okv [] [] (named (UDB_VIDEO_NAME_1U 0)) -> realizes ba oka [] [] (named (UDB_AUDIO_NAME_1U 0)) ->
  realizes (SrcDecode_BuildUdbConnections config bv ba null_conn)
    (implb (av_have_video config) okv && implb (av_have_audio config) oka)
    (when (av_have_video config) [UDB_VIDEO_NAME_1U 0] ++ when (av_have_audio config) [UDB_AUDIO_NAME_1U 0]) []
    (conn_ok config (UDB_VIDEO_NAME_1U 0) (UDB_AUDIO_NAME_1U 0)).
Proof.
  intros Hv Ha. unfold SrcDecode_BuildUdbConnections. cbn [conn_video conn_audio null_conn is_null check].
  do 2 (apply (realizes_skip _ _ true _ _ _ (fun _ => True)); [by eapply builds_lift|]; intros _ _).
  apply (realizes_bind _ _ _ _ _ _ [] [] (fun c => av_have_video config = true -> conn_named (UDB_VIDEO_NAME_1U 0) (conn_video c))).
  - destruct (av_have_video config); cbn; [|by apply builds_ret].
    apply (realizes_then _ _ okv [] _ [] [] _ _ Hv). intros el Hel. eapply builds_perm; [build_steps|done..].
    intros _. by exists el.
  - intros c Hc. destruct (av_have_audio config) eqn:Hha; cbn; [|apply builds_ret; split; [done|congruence]].
    apply (realizes_then _ _ oka [] _ [] [] _ _ Ha). intros el Hel. eapply builds_perm; [build_steps|done..].
    split; [done|]. intros _. by exists el.
Qed.

(** ** The outputs behind the tees *)

Definition is_rtp (o : OutputUri) : bool := bool_decide (url_get_scheme (ou_output o) = udp).

Definition branch {C} (queue : string) (codec : outcome C) (pay : C -> string) (rtp : bool) : list string :=
  queue :: when rtp (match codec with Ok c => [pay c] | _ => [] end).

Lemma link_output_realizes {C} queue (codec : outcome C) make_pay pay v xv rtp mux m :
  (forall c, builds (make_pay c) [] [] (named (pay c))) -> conn_named xv v -> named m mux ->
  realizes (link_output queue codec make_pay v rtp mux) (implb rtp (is_ok codec))
    (branch queue codec pay rtp) (chain_links (xv :: branch queue codec pay rtp ++ [m])) (fun _ => True).
Proof.
  intros Hpay Hv Hm. unfold link_output, branch.
  set (b := when rtp (match codec with Ok c => [pay c] | _ => [] end)).
  eapply realizes_conv with (ok := implb rtp (is_ok codec)) (P := fun _ => True); [|done|].
  - eapply builds_then with (P := named queue); [apply make_named_builds|]. intros q Hq.
    eapply builds_then; [by apply ElementAdd_builds|]. intros _ _.
    eapply builds_then; [apply ElementLink_builds; [exact Hv|by exists q]|]. intros _ _.
    eapply realizes_then with (P := named (List.last b queue)) (n1 := b) (l1 := chain_links (queue :: b)).
    + subst b. destruct rtp; cbn [implb when]; [|by apply builds_ret].
      destruct codec as [c|e|r]; cbn [is_ok realizes]; [|done|done].
      apply builds_ret_bind. eapply builds_skip; [apply Hpay|]. intros p Hp. build_all.
    + intros next Hnext. apply ElementLink_builds; [by exists next | by exists mux].
  - intros _. subst b. destruct rtp, codec; cbn [when app]; done.
Qed.

Definition video_branch (vcodec : outcome SupportedVideoCodec) (i : Z) (rtp : bool) : list string :=
  branch (VIDEO_TEE_QUEUE_NAME_1U i) vcodec (fun _ => VIDEO_PAY_NAME_1U i) rtp.
Definition audio_branch (acodec : outcome SupportedAudioCodec) (i : Z) (rtp : bool) : list string :=
  branch (AUDIO_TEE_QUEUE_NAME_1U i) acodec (fun c => audio_pay_name c i) rtp.

(** The elements and links of one output. *)
Definition output_names (config : AudioVideoConfig) vcodec acodec (io : Z * OutputUri) : list string :=
  let '(i, o) := io in
  if IsDeviceOutUrl (ou_output o) is Some _ then []
  else [MUXER_NAME_1U i] ++
       when (av_have_video config) (video_branch vcodec i (is_rtp o)) ++
       when (av_have_audio config) (audio_branch acodec i (is_rtp o)) ++ [SINK_NAME_1U i].
Definition output_links (config : AudioVideoConfig) vcodec acodec (io : Z * OutputUri) : list (string * string) :=
  let '(i, o) := io in
  if IsDeviceOutUrl (ou_output o) is Some _ then []
  else when (av_have_video config)
         (chain_links (VIDEO_TEE_NAME_1U 0 :: video_branch vcodec i (is_rtp o) ++ [MUXER_NAME_1U i])) ++
       when (av_have_audio config)
         (chain_links (AUDIO_TEE_NAME_1U 0 :: audio_branch acodec i (is_rtp o) ++ [MUXER_NAME_1U i])) ++
       [(MUXER_NAME_1U i, SINK_NAME_1U i)].

(** What an output needs: a multiplexer, a payloader for each medium of an RTP
    stream, a sink. *)
Definition output_ok (config : AudioVideoConfig) (vcodec : outcome SupportedVideoCodec)
    (acodec : outcome SupportedAudioCodec) (io : Z * OutputUri) : bool :=
  let '(_, o) := io in
  if IsDeviceOutUrl (ou_output o) is Some _ then negb critical_log_aborts
  else mux_ok (url_get_scheme (ou_output o)) &&
       (implb (av_have_video config) (implb (is_rtp o) (is_ok vcodec)) &&
        (implb (av_have_audio config) (implb (is_rtp o) (is_ok acodec)) && sink_ok o)).

(** A step that is done only for a medium that the stream has. *)
Lemma realizes_when b (m : build unit) ok ns ls :
  (b = true -> realizes m ok ns ls (fun _ => True)) ->
  realizes (if b then m else mret tt) (implb b ok) (when b ns) (when b ls) (fun _ => True).
Proof. destruct b; cbn; [by intros Hm; apply Hm|]. intros _. by apply builds_ret. Qed.

Lemma SrcDecode_output_realizes now config vcodec acodec conn io :
  conn_ok config (VIDEO_TEE_NAME_1U 0) (AUDIO_TEE_NAME_1U 0) conn ->
  realizes (SrcDecode_output now config vcodec acodec conn io) (output_ok config vcodec acodec io)
    (output_names config vcodec acodec io) (output_links config vcodec acodec io) (fun _ => True).
Proof.
  destruct io as [i o]. intros [Hv Ha]. unfold SrcDecode_output, output_ok, output_names, output_links.
  destruct (IsDeviceOutUrl (ou_output o)).
  { unfold critical_log. destruct critical_log_aborts; [apply stuck_abort | by eapply builds_lift]. }
  cbn zeta. fold (is_rtp o). apply (realizes_skip _ _ _ _ _ _ _ _ (make_muxer_realizes _ i)). intros mux Hmux.
  eapply builds_then with (l1 := []); [by apply ElementAdd_builds|]. intros _ _.
  eapply realizes_bind with (P := fun _ => True).
  { apply realizes_when. intros Hhv. apply link_output_realizes; [intros; apply src_make_video_pay_builds|by apply Hv|done]. }
  intros _ _. eapply realizes_bind with (P := fun _ => True).
  { apply realizes_when. intros Hha. apply link_output_realizes; [intros; apply src_make_audio_pay_builds|by apply Ha|done]. }
  intros _ _. eapply realizes_then with (n1 := []) (l1 := []); [apply BuildGenericOutput_realizes|].
  intros sink Hsink. build_all.
Qed.

Lemma SrcDecode_BuildOutput_realizes now config vcodec acodec conn :
  conn_ok config (VIDEO_TEE_NAME_1U 0) (AUDIO_TEE_NAME_1U 0) conn ->
  let outs := enumerate (c_output (av_base config)) in
  realizes (SrcDecode_BuildOutput now config vcodec acodec conn) (forallb (output_ok config vcodec acodec) outs)
    (outs ≫= output_names config vcodec acodec) (outs ≫= output_links config vcodec acodec) (fun _ => True).
Proof.
  intros Hc outs. eapply realizes_last; [|intros _ _; by apply builds_ret].
  apply realizes_iter. intros io _. by apply SrcDecode_output_realizes.
Qed.

(** ** The pipeline around a decodebin *)

(** The elements before the outputs. *)
Definition stream_line (config : AudioVideoConfig) (cv ca : list string) : list string :=
  [SRC_NAME_1U 0; DECODEBIN_NAME_1U 0] ++
  when (av_have_video config) (UDB_VIDEO_NAME_1U 0 :: cv) ++
  when (av_have_audio config) (UDB_AUDIO_NAME_1U 0 :: ca).

Definition pipeline_names (config : AudioVideoConfig) vcodec acodec (cv ca : list string) : list string :=
  stream_line config cv ca ++
  (enumerate (c_output (av_base config)) ≫= output_names config vcodec acodec).

Definition pipeline_links (config : AudioVideoConfig) vcodec acodec (cv ca : list string) : list (string * string) :=
  [(SRC_NAME_1U 0, DECODEBIN_NAME_1U 0)] ++
  when (av_have_video config) (chain_links (UDB_VIDEO_NAME_1U 0 :: cv)) ++
  when (av_have_audio config) (chain_links (UDB_AUDIO_NAME_1U 0 :: ca)) ++
  (enumerate (c_output (av_base config)) ≫= output_links config vcodec acodec).

Lemma last_snoc {A} (l : list A) a x : List.last (l ++ [a]) x = a.
Proof. by rewrite last_app_default. Qed.

(** A builder of the shape of [SrcDecodeStreamBuilder]: [cv1], [ca1] are what
    the post-processing adds, [cv2], [ca2] what the converter adds before the
    tees. *)
Lemma decodebin_pipeline now config src bv ba post conv vcodec acodec ok okv oka okv1 oka1 okv2 oka2 cv1 ca1 cv2 ca2 :
  realizes src ok [SRC_NAME_1U 0] [] (named (SRC_NAME_1U 0)) ->
  realizes bv okv [] [] (named (UDB_VIDEO_NAME_1U 0)) ->
  realizes ba oka [] [] (named (UDB_AUDIO_NAME_1U 0)) ->
  conn_step config post okv1 oka1 (UDB_VIDEO_NAME_1U 0) (UDB_AUDIO_NAME_1U 0) cv1 ca1 ->
  conn_step config conv okv2 oka2 (List.last cv1 (UDB_VIDEO_NAME_1U 0)) (List.last ca1 (UDB_AUDIO_NAME_1U 0))
    (cv2 ++ [VIDEO_TEE_NAME_1U 0]) (ca2 ++ [AUDIO_TEE_NAME_1U 0]) ->
  realizes
    (InitPipeline {| BuildInput := SrcDecode_BuildInput src;
                     BuildUdbConnections := SrcDecode_BuildUdbConnections config bv ba;
                     BuildPostProc := post; BuildConverter := conv;
                     BuildOutput := SrcDecode_BuildOutput now config vcodec acodec |})
    (ok && (implb (av_have_video config) (okv && okv1 && okv2) &&
            (implb (av_have_audio config) (oka && oka1 && oka2) &&
             forallb (output_ok config vcodec acodec) (enumerate (c_output (av_base config))))))
    (pipeline_names config vcodec acodec (cv1 ++ cv2 ++ [VIDEO_TEE_NAME_1U 0]) (ca1 ++ ca2 ++ [AUDIO_TEE_NAME_1U 0]))
    (pipeline_links config vcodec acodec (cv1 ++ cv2 ++ [VIDEO_TEE_NAME_1U 0]) (ca1 ++ ca2 ++ [AUDIO_TEE_NAME_1U 0]))
    (eq true).
Proof.
  intros Hsrc Hbv Hba Hpost Hconv.
  eapply (realizes_conv _ _ _ _ _ _ _ (eq true)).
  - unfold InitPipeline. cbn [BuildInput BuildUdbConnections BuildPostProc BuildConverter BuildOutput].
    eapply realizes_bind; [by apply SrcDecode_BuildInput_realizes|]. intros ? <-.
    eapply realizes_bind; [by apply SrcDecode_BuildUdbConnections_realizes|]. intros c1 Hc1.
    eapply realizes_bind; [by apply Hpost|]. intros c2 Hc2.
    eapply realizes_bind; [by apply Hconv|]. intros c3 Hc3. rewrite !last_snoc in Hc3.
    eapply realizes_last; [by apply SrcDecode_BuildOutput_realizes|]. intros _ _. by apply builds_ret.
  - destruct ok, (av_have_video config), (av_have_audio config), okv, okv1, okv2, oka, oka1, oka2; done.
  - intros _. unfold pipeline_names, pipeline_links, stream_line. rewrite !chain_links_app, !app_comm_cons.
    split_and!; [destruct (av_have_video config), (av_have_audio config); cbn [when]; solve_Permutation..|done].
Qed.

(** ** Relay streams *)

Definition relay_ok (ok : bool) (config : RelayConfig) : bool :=
  let c := r_base config in
  ok && (implb (av_have_video c) (video_parser_ok (r_video_parser config)) &&
         (implb (av_have_audio c) (audio_parser_ok (r_audio_parser config)) &&
          forallb (output_ok c (Relay_GetVideoCodecType config) (Relay_GetAudioCodecType config))
            (enumerate (c_output (av_base c))))).
Definition relay_names (config : RelayConfig) : list string :=
  pipeline_names (r_base config) (Relay_GetVideoCodecType config) (Relay_GetAudioCodecType config)
    [VIDEO_TEE_NAME_1U 0] [AUDIO_TEE_NAME_1U 0].
Definition relay_links (config : RelayConfig) : list (string * string) :=
  pipeline_links (r_base config) (Relay_GetVideoCodecType config) (Relay_GetAudioCodecType config)
    [VIDEO_TEE_NAME_1U 0] [AUDIO_TEE_NAME_1U 0].

Lemma relay_pipeline now config src ok :
  realizes src ok [SRC_NAME_1U 0] [] (named (SRC_NAME_1U 0)) ->
  realizes (InitPipeline (relay_builder config src (Relay_BuildConverter config) (Relay_BuildOutput now config)))
    (relay_ok ok config) (relay_names config) (relay_links config) (eq true).
Proof.
  intros Hsrc. eapply (realizes_conv _ _ _ _ _ _ _ (eq true)).
  - unfold relay_builder, Relay_BuildOutput. eapply (decodebin_pipeline now (r_base config)) with
      (cv1 := []) (ca1 := []) (cv2 := []) (ca2 := []) (okv1 := true) (oka1 := true) (okv2 := true) (oka2 := true).
    + exact Hsrc.
    + apply make_video_parser_realizes.
    + apply make_audio_parser_realizes.
    + apply conn_step_ret.
    + apply map_conn_step; intros _ el Hel; (apply append_element_extends; [apply make_named_builds|done]).
  - by rewrite !andb_true_r.
  - done.
Qed.

(** ** Encoding streams *)

(** The elements of the lines of [EncodingStreamBuilder], and what the lines
    need. A logo is read from a file. *)
Definition video_post_tail (conf : EncodingConfig) : list string :=
  video_convert_tail (e_deinterlace conf) 0 ++
  (when (size_is_valid (e_size conf)) [VIDEO_SCALE_NAME_1U 0; VIDEO_SCALE_CAPS_FILTER_NAME_1U 0] ++
   (if e_aspect_ratio conf is Some _ then [ASPECT_RATIO_NAME_1U 0] else []) ++
   (if e_frame_rate conf is Some _ then [VIDEO_RATE_NAME_1U 0; VIDEO_RATE_CAPS_FILTER_NAME_1U 0] else [])) ++
  when (Logo_IsValid (e_logo conf)) [VIDEO_LOGO_NAME_1U 0].
Definition logo_ok (logo : Logo) : bool :=
  implb (Logo_IsValid logo) (bool_decide (url_get_scheme (logo_path logo) = file)).

Lemma build_cpu_post_proc_extends conf x last :
  named x last ->
  extends named (build_cpu_post_proc conf 0 last) true x
    (when (size_is_valid (e_size conf)) [VIDEO_SCALE_NAME_1U 0; VIDEO_SCALE_CAPS_FILTER_NAME_1U 0] ++
     (if e_aspect_ratio conf is Some _ then [ASPECT_RATIO_NAME_1U 0] else []) ++
     (if e_frame_rate conf is Some _ then [VIDEO_RATE_NAME_1U 0; VIDEO_RATE_CAPS_FILTER_NAME_1U 0] else [])).
Proof.
  intros Hx. unfold build_cpu_post_proc. apply (extends_bind named named _ _ true true).
  { destruct (size_is_valid _); [by apply build_video_scale_extends | by apply extends_ret]. }
  intros el1 Hel1. apply (extends_bind named named _ _ true true).
  { destruct (e_aspect_ratio conf); [|by apply extends_ret]. unfold extends. cbn [realizes]. build_all. }
  intros el2 Hel2. destruct (e_frame_rate conf); [by apply build_video_framerate_extends | by apply extends_ret].
Qed.

Lemma build_logo_extends logo x last :
  conn_named x last ->
  extends conn_named (build_logo logo 0 last) (logo_ok logo) x (when (Logo_IsValid logo) [VIDEO_LOGO_NAME_1U 0]).
Proof.
  intros Hx. unfold build_logo, logo_ok. destruct (Logo_IsValid logo); [|by apply extends_ret].
  cbn [when implb]. unfold extends. case_bool_decide as Hs; cbn [realizes].
  - rewrite Hs. build_all.
  - eapply stuck_bind_r; [apply make_named_builds|]. intros el _. apply stuck_bind.
    destruct (url_get_scheme _); done.
Qed.

Lemma Encoding_BuildVideoPostProc_line conf :
  IsGpu conf = false ->
  makes_line (Encoding_BuildVideoPostProc conf 0) (logo_ok (e_logo conf)) (VIDEO_CONVERT_NAME_1U 0) (video_post_tail conf).
Proof.
  intros Hg. unfold Encoding_BuildVideoPostProc, video_post_tail, makes_line. rewrite Hg.
  set (t1 := video_convert_tail _ _). set (t2 := when (size_is_valid _) _ ++ _).
  set (t3 := when (Logo_IsValid _) _). set (a := VIDEO_CONVERT_NAME_1U 0).
  rewrite (chain_links_app a t1), (chain_links_app (List.last t1 a) t2), !last_app_default.
  eapply (realizes_conv _ _ _ _ _ _ _ (line_named a (List.last t3 (List.last t2 (List.last t1 a))))).
  - eapply (builds_then _ _ (logo_ok (e_logo conf)) ((a :: t1) ++ t2) t3)
      with (P := fun r => named a r.1 /\ conn_named (List.last t2 (List.last t1 a)) r.2).
    + eapply builds_bind; [apply build_video_convert_builds|]. intros [e1 e2] [He1 He2]. cbn [fst snd] in *.
      eapply builds_last; [by apply build_cpu_post_proc_extends|]. intros e3 He3. apply builds_ret.
      split; [done|]. by exists e3.
    + intros [e1 e2] [He1 He2]. eapply realizes_last; [by apply build_logo_extends|].
      intros e3 (e & -> & He). apply builds_ret. by exists e1, e.
  - done.
  - intros _. split_and!; [by rewrite <- app_assoc|by rewrite <- app_assoc|done].
Qed.

Lemma Encoding_BuildAudioPostProc_line conf :
  makes_line (Encoding_BuildAudioPostProc conf 0) true (AUDIO_CONVERT_NAME_1U 0)
    (audio_convert_tail (e_volume conf) (e_audio_channels_count conf) 0).
Proof. apply makes_line_ends, build_audio_converters_builds. Qed.

Lemma Encoding_BuildVideoConverter_line conf :
  makes_line (Encoding_BuildVideoConverter conf 0) (video_encoder_ok (e_video_encoder conf) (e_video_bit_rate conf))
    (VIDEO_CODEC_NAME_1U 0) (encoder_caps (e_video_encoder conf) (e_video_encoder_str_args conf) 0).
Proof. apply makes_line_ends, build_video_encoder_realizes. Qed.

(** An MP3 encoder is put between a resampler and a parser. *)
Definition is_mp3 (conf : EncodingConfig) : bool := String.eqb (e_audio_encoder conf) LAME_MP3_ENC.
Definition audio_codec_chain (conf : EncodingConfig) : list string :=
  if is_mp3 conf then [AUDIO_RESAMPLE_NAME_1U 0; AUDIO_CODEC_NAME_1U 0; MPEG_AUDIO_PARSE_NAME_1U 0]
  else [AUDIO_CODEC_NAME_1U 0].

Lemma Encoding_BuildAudioConverter_line conf a c :
  audio_codec_chain conf = a :: c ->
  makes_line (Encoding_BuildAudioConverter conf 0)
    (audio_encoder_ok (e_audio_encoder conf) (e_audio_bit_rate conf)) a c.
Proof.
  unfold audio_codec_chain, is_mp3. intros Hac. unfold Encoding_BuildAudioConverter, makes_line.
  cbn zeta. rewrite <- (andb_true_r (audio_encoder_ok _ _)).
  apply (realizes_skip _ _ _ _ _ _ _ _ (make_audio_encoder_realizes _ _ _)). intros enc Henc. cbn [realizes].
  destruct (String.eqb _ LAME_MP3_ENC); simplify_eq.
  - eapply builds_perm; [build_steps; eexists _, _; (split; [done|]); split; build_named|..];
      cbn; unfold chain_links; solve_Permutation.
  - eapply builds_perm; [build_steps; by exists enc, enc|done..].
Qed.

(** The lines that a class of [EncodingStreamBuilder] makes; an empty line is
    that of a method which an only-audio or only-video class overrides. *)
Definition makes (m : build elements_line_t) (ok : bool) (c : list string) : Prop :=
  (m = mret [] /\ ok = true /\ c = []) \/ (exists a c', c = a :: c' /\ makes_line m ok a c').

Lemma makes_extends m ok c x from :
  makes m ok c -> conn_named x from -> extends conn_named (link_made_line from m) ok x c.
Proof. intros [(-> & -> & ->)|(a & c' & -> & Hm)] Hx; [by apply link_empty_extends | by apply link_line_extends]. Qed.

Record encoding_chains := {
  ch_video_post : list string; ch_video_codec : list string; ch_video_ok : bool * bool;
  ch_audio_post : list string; ch_audio_codec : list string; ch_audio_ok : bool * bool
}.

Definition lines_make (c : AudioVideoConfig) (l : encoding_lines) (ch : encoding_chains) : Prop :=
  (av_have_video c = true ->
     makes (BuildVideoPostProc l 0) (ch_video_ok ch).1 (ch_video_post ch) /\
     makes (BuildVideoConverter l 0) (ch_video_ok ch).2 (ch_video_codec ch)) /\
  (av_have_audio c = true ->
     makes (BuildAudioPostProc l 0) (ch_audio_ok ch).1 (ch_audio_post ch) /\
     makes (BuildAudioConverter l 0) (ch_audio_ok ch).2 (ch_audio_codec ch)).

(** The whole lines of a stream, from the element behind the decodebin to the
    tee. *)
Definition video_chain (conf : EncodingConfig) (ch : encoding_chains) : list string :=
  ch_video_post ch ++ (ch_video_codec ch ++ when (IsH264Encoder (e_video_encoder conf)) [VIDEO_PARSER_NAME_1U 0]) ++
  [VIDEO_TEE_NAME_1U 0].
Definition audio_chain (conf : EncodingConfig) (ch : encoding_chains) : list string :=
  ch_audio_post ch ++ (ch_audio_codec ch ++ when (IsAACEncoder (e_audio_encoder conf)) [AUDIO_PARSER_NAME_1U 0]) ++
  [AUDIO_TEE_NAME_1U 0].

Definition encoding_ok (ok : bool) (conf : EncodingConfig) (ch : encoding_chains) : bool :=
  let c := e_base conf in
  ok && (implb (av_have_video c) ((ch_video_ok ch).1 && (ch_video_ok ch).2) &&
         (implb (av_have_audio c) ((ch_audio_ok ch).1 && (ch_audio_ok ch).2) &&
          forallb (output_ok c (Encoding_GetVideoCodecType conf) (Encoding_GetAudioCodecType conf))
            (enumerate (c_output (av_base c))))).
Definition encoding_names (conf : EncodingConfig) (ch : encoding_chains) : list string :=
  pipeline_names (e_base conf) (Encoding_GetVideoCodecType conf) (Encoding_GetAudioCodecType conf)
    (video_chain conf ch) (audio_chain conf ch).
Definition encoding_links (conf : EncodingConfig) (ch : encoding_chains) : list (string * string) :=
  pipeline_links (e_base conf) (Encoding_GetVideoCodecType conf) (Encoding_GetAudioCodecType conf)
    (video_chain conf ch) (audio_chain conf ch).

(** The codec's line, its parser and the tee. *)
Lemma converter_extends mk ok c parser pname tee x from (b : bool) :
  makes mk ok c -> builds parser [] [] (named pname) -> conn_named x from ->
  extends conn_named
    (v ← link_made_line from mk;
     v ← (if b then append_element parser v else mret v);
     append_element (make_element ELEMENT_TEE tee) v) ok x ((c ++ when b [pname]) ++ [tee]).
Proof.
  intros Hm Hp Hx.
  rewrite <- (app_assoc c), <- (andb_true_r ok).
  eapply extends_bind; [by apply makes_extends|]. intros v Hv.
  apply (extends_bind conn_named conn_named _ _ true true).
  - destruct b; [by apply append_element_extends | by apply extends_ret].
  - intros v' Hv'. apply append_element_extends; [apply make_named_builds|done].
Qed.

Lemma encoding_pipeline now config l ch src ok :
  lines_make (e_base config) l ch ->
  realizes src ok [SRC_NAME_1U 0] [] (named (SRC_NAME_1U 0)) ->
  realizes (InitPipeline (encoding_builder now config l src))
    (encoding_ok ok config ch) (encoding_names config ch) (encoding_links config ch) (eq true).
Proof.
  intros (Hv & Ha) Hsrc. eapply (realizes_conv _ _ _ _ _ _ _ (eq true)).
  - unfold encoding_builder. eapply (decodebin_pipeline now (e_base config)) with (okv := true) (oka := true).
    + exact Hsrc.
    + apply make_named_builds.
    + apply make_named_builds.
    + apply map_conn_step; intros Hm el Hel; apply makes_extends; try done; [by apply Hv|by apply Ha].
    + apply map_conn_step; intros Hm el Hel; (apply converter_extends; [|apply make_named_builds|done]); [by apply Hv|by apply Ha].
  - unfold encoding_ok. by destruct (ch_video_ok ch), (ch_audio_ok ch).
  - intros _. unfold encoding_names, encoding_links, video_chain, audio_chain. by rewrite <- !app_assoc.
Qed.
End Makers.
