(* ===== verification/PipelineSpec.v ===== *)
(** * The pipelines of the streams

    The theorems about [CreatePipeLine] for the classes of streams: what the
    pipeline is, when there is none, and the configurations that end the
    process. *)

From Stdlib Require Import Ascii.
From S2P Require Import Prelude Platform StreamTypes Constants Uris Options Configs Gst Elements Builders Pipelines.

(** ** Names *)

(** A name of a template is read back as its prefix and its number. *)
Lemma elem_name_split p i : (0 <= i)%Z -> split_last "_" (elem_name p i) = Some (p, show_u i).
Proof.
  intros Hi. apply split_last_spec. split; [done|].
  apply all_digits_no_underscore. by apply show_u_digits.
Qed.

Lemma elem_name_inj p q i j : (0 <= i)%Z -> (0 <= j)%Z -> elem_name p i = elem_name q j -> p = q /\ i = j.
Proof.
  intros Hi Hj Heq. pose proof (elem_name_split p i Hi) as Hp. rewrite Heq, elem_name_split in Hp by done.
  simplify_eq. split; [done|]. pose proof (parse_show i Hi) as Hs.
  pose proof (parse_show j Hj). congruence.
Qed.

Definition name_prefix (n : string) : string := from_option fst "" (split_last "_" n).

Lemma name_prefix_elem p i : (0 <= i)%Z -> name_prefix (elem_name p i) = p.
Proof. intros Hi. unfold name_prefix. by rewrite elem_name_split. Qed.

(** The elements that a stream has once: any pipeline takes some of them. *)
Definition single_names : list string :=
  [SRC_NAME_1U 0; DECODEBIN_NAME_1U 0; UDB_VIDEO_NAME_1U 0; VIDEO_CONVERT_NAME_1U 0; DEINTERLACE_NAME_1U 0;
   VIDEO_SCALE_NAME_1U 0; VIDEO_SCALE_CAPS_FILTER_NAME_1U 0; ASPECT_RATIO_NAME_1U 0; VIDEO_RATE_NAME_1U 0;
   VIDEO_RATE_CAPS_FILTER_NAME_1U 0; VIDEO_LOGO_NAME_1U 0; VIDEO_CODEC_NAME_1U 0;
   VIDEO_X264ENC_CAPS_FILTER_PROFILE_NAME_1U 0; VIDEO_X264ENC_CAPS_FILTER_STREAM_FORMAT_NAME_1U 0;
   VIDEO_PARSER_NAME_1U 0; VIDEO_TEE_NAME_1U 0; UDB_AUDIO_NAME_1U 0; AUDIO_CONVERT_NAME_1U 0;
   AUDIO_CONVERT_CAPS_FILTER_NAME_1U 0; VOLUME_NAME_1U 0; AUDIO_RESAMPLE_NAME_1U 0; AUDIO_CODEC_NAME_1U 0;
   MPEG_AUDIO_PARSE_NAME_1U 0; AUDIO_PARSER_NAME_1U 0; AUDIO_TEE_NAME_1U 0].

(** The prefixes of the elements that a stream has per output. *)
Definition output_prefixes : list string :=
  ["muxer"; "video_tee_queue"; "audio_tee_queue"; "video_pay"; "audio_pay"; "sink"].

(** The elements of groups of prefixes, each group with a number of its own. *)
Definition group_names {A} (idx : A -> Z) (prefs : A -> list string) (l : list A) : list string :=
  l ≫= fun x => (fun p => elem_name p (idx x)) <$> prefs x.

Lemma group_names_elem {A} (idx : A -> Z) prefs (l : list A) n :
  n ∈ group_names idx prefs l <-> exists x p, x ∈ l /\ p ∈ prefs x /\ n = elem_name p (idx x).
Proof.
  unfold group_names. rewrite list_elem_of_bind. setoid_rewrite list_elem_of_fmap. naive_solver.
Qed.

Lemma group_names_NoDup {A} (idx : A -> Z) prefs (l : list A) :
  (forall x, x ∈ l -> (0 <= idx x)%Z /\ NoDup (prefs x)) -> NoDup (idx <$> l) -> NoDup (group_names idx prefs l).
Proof.
  induction l as [|x l IH]; intros Hx Hd; [constructor|]. cbn in Hd. apply NoDup_cons in Hd as [Hn Hd].
  unfold group_names. rewrite bind_cons. apply NoDup_app. split_and!.
  - destruct (Hx x) as [Hi Hp]; [by left|]. apply NoDup_fmap_2_strong; [|done].
    intros p q _ _ Heq. by apply elem_name_inj in Heq as [? _].
  - intros n (p & -> & Hp)%list_elem_of_fmap (y & q & Hy & Hq & Heq)%group_names_elem. apply Hn.
    apply elem_name_inj in Heq as [_ Heq]; [|apply Hx; by left|apply Hx; by right].
    apply list_elem_of_fmap. eauto.
  - apply IH; [|done]. intros y Hy. apply Hx. by right.
Qed.

Lemma single_names_NoDup : NoDup single_names.
Proof. apply (bool_decide_unpack _). vm_compute. done. Qed.

Lemma single_names_prefix : Forall (fun n => name_prefix n ∉ output_prefixes) single_names.
Proof. apply (bool_decide_unpack _). vm_compute. done. Qed.

Lemma NoDup_submseteq_of {A} (l k : list A) : l ⊆+ k -> NoDup k -> NoDup l.
Proof. intros (k' & Hk)%submseteq_Permutation. rewrite Hk. by intros [? _]%NoDup_app. Qed.

Lemma submseteq_bind_elem {A B} (f : A -> list B) (l : list A) x : x ∈ l -> f x ⊆+ l ≫= f.
Proof.
  intros Hx. apply singleton_submseteq_l in Hx. apply (bind_submseteq f) in Hx.
  cbn in Hx. by rewrite app_nil_r in Hx.
Qed.

Section Names.
Context `{JsonC} `{UrlLib} `{PathLib} `{UnnamedCodes} `{GstLib} `{!GstLibOk}.

(** The prefixes of the elements of one output. *)
Definition output_prefs (config : AudioVideoConfig) (vcodec : outcome SupportedVideoCodec)
    (acodec : outcome SupportedAudioCodec) (o : OutputUri) : list string :=
  if IsDeviceOutUrl (ou_output o) is Some _ then []
  else ["muxer"] ++
       when (av_have_video config)
         ("video_tee_queue" :: when (is_rtp o) (if vcodec is Ok _ then ["video_pay"] else [])) ++
       when (av_have_audio config)
         ("audio_tee_queue" :: when (is_rtp o)
            (match acodec with Ok AUDIO_MPEG_CODEC => ["video_pay"] | Ok _ => ["audio_pay"] | _ => [] end)) ++
       ["sink"].

Lemma output_names_prefs config vcodec acodec i o :
  output_names config vcodec acodec (i, o) = (fun p => elem_name p i) <$> output_prefs config vcodec acodec o.
Proof.
  unfold output_names, output_prefs, video_branch, audio_branch, branch.
  destruct (IsDeviceOutUrl (ou_output o)); [done|].
  destruct (av_have_video config), (av_have_audio config), (is_rtp o), vcodec, acodec as [[]| |]; reflexivity.
Qed.

(** Two payloaders of one name: an RTP output with video and MPEG audio. *)
Definition pay_conflict (config : AudioVideoConfig) (vcodec : outcome SupportedVideoCodec)
    (acodec : outcome SupportedAudioCodec) (o : OutputUri) : bool :=
  is_null (IsDeviceOutUrl (ou_output o)) && is_rtp o && av_have_video config && av_have_audio config &&
  is_ok vcodec && (if acodec is Ok AUDIO_MPEG_CODEC then true else false).

Lemma output_prefs_NoDup config vcodec acodec o :
  NoDup (output_prefs config vcodec acodec o) <-> pay_conflict config vcodec acodec o = false.
Proof.
  unfold output_prefs, pay_conflict. destruct (IsDeviceOutUrl (ou_output o)); [by split; [|constructor]|].
  destruct (is_rtp o), (av_have_video config), (av_have_audio config), vcodec, acodec as [[]| |]; cbn;
    (split; [try done; intros Hn; by apply (bool_decide_pack _) in Hn
            |try done; intros _; apply (bool_decide_unpack _); vm_compute; done]).
Qed.

Lemma output_prefs_in config vcodec acodec o p : p ∈ output_prefs config vcodec acodec o -> p ∈ output_prefixes.
Proof.
  rewrite !list_elem_of_In. unfold output_prefs, output_prefixes.
  destruct (IsDeviceOutUrl (ou_output o)); [done|].
  destruct (is_rtp o), (av_have_video config), (av_have_audio config), vcodec, acodec as [[]| |]; cbn; tauto.
Qed.

Lemma elem_of_enumerate {A} (l : list A) i x :
  (i, x) ∈ enumerate l <-> exists k, i = Z.of_nat k /\ l !! k = Some x.
Proof.
  unfold enumerate. rewrite elem_of_lookup_imap. split; [intros (k & y & Heq & Hk)|intros (k & -> & Hk)]; naive_solver.
Qed.

Lemma enumerate_fst_NoDup {A} (l : list A) : NoDup (enumerate l).*1.
Proof.
  unfold enumerate. apply NoDup_alt. intros i j z. rewrite !list_lookup_fmap, !list_lookup_imap.
  destruct (l !! i), (l !! j); cbn; intros [= Hi] [= Hj]. apply Nat2Z.inj. by rewrite Hi.
Qed.

(** The names of all elements are different exactly if no output has the
    conflict. *)
Lemma pipeline_names_NoDup config vcodec acodec cv ca :
  stream_line config cv ca ⊆+ single_names ->
  NoDup (pipeline_names config vcodec acodec cv ca) <->
  Forall (fun o => pay_conflict config vcodec acodec o = false) (c_output (av_base config)).
Proof.
  unfold pipeline_names. intros Hf.
  rewrite Forall_forall. split.
  - intros (_ & _ & Hd)%NoDup_app o (k & Hk)%list_elem_of_lookup.
    apply output_prefs_NoDup. eapply NoDup_fmap_1. rewrite <- (output_names_prefs _ _ _ (Z.of_nat k)).
    eapply NoDup_submseteq_of; [|exact Hd]. apply submseteq_bind_elem, elem_of_enumerate. by exists k.
  - intros Hc. apply NoDup_app. split_and!.
    + eapply NoDup_submseteq_of; [exact Hf|apply single_names_NoDup].
    + intros n Hn ([i o] & Hno & Hio)%list_elem_of_bind. rewrite output_names_prefs in Hno.
      apply list_elem_of_fmap in Hno as (p & -> & Hp).
      pose proof single_names_prefix as Hs. rewrite Forall_forall in Hs.
      apply (Hs (elem_name p i)); [by eapply elem_of_submseteq|].
      rewrite name_prefix_elem; [by eapply output_prefs_in|].
      apply elem_of_enumerate in Hio as (k & -> & _). lia.
    + replace (_ ≫= _) with
        (group_names fst (fun io => output_prefs config vcodec acodec io.2) (enumerate (c_output (av_base config)))).
      2:{ apply list_bind_ext; [|done]. intros [i o]. symmetry. apply output_names_prefs. }
      apply group_names_NoDup; [|apply enumerate_fst_NoDup].
      intros [i o] (k & -> & Hk)%elem_of_enumerate. split; [cbn; lia|].
      apply output_prefs_NoDup, Hc, list_elem_of_lookup. by exists k.
Qed.

(** ** The lines of an encoding stream *)

Lemma when_sub {A} b (l k : list A) : l ⊆+ k -> when b l ⊆+ k.
Proof. destruct b; [done|]. intros _. apply submseteq_nil_l. Qed.

Lemma if_Some_sub {A B} (o : option B) (l k : list A) : l ⊆+ k -> (if o is Some _ then l else []) ⊆+ k.
Proof. destruct o; [done|]. intros _. apply submseteq_nil_l. Qed.

Lemma encoder_caps_sub codec args :
  encoder_caps codec args 0 ⊆+
  [VIDEO_X264ENC_CAPS_FILTER_PROFILE_NAME_1U 0; VIDEO_X264ENC_CAPS_FILTER_STREAM_FORMAT_NAME_1U 0].
Proof.
  assert (Hone : forall kv n, n ∈ str_param_caps codec 0 kv ->
    n = (if String.eqb kv.1 X264_ENC_PROFILE then VIDEO_X264ENC_CAPS_FILTER_PROFILE_NAME_1U 0
         else VIDEO_X264ENC_CAPS_FILTER_STREAM_FORMAT_NAME_1U 0) /\
    (kv.1 = X264_ENC_PROFILE \/ kv.1 = X264_ENC_STREAM_FORMAT)).
  { intros [k v] n. unfold str_param_caps. cbn [fst]. destruct (negb _); [by intros ?%not_elem_of_nil|].
    destruct (String.eqb_spec k X264_ENC_PROFILE); [intros ->%list_elem_of_singleton; by auto|].
    destruct (String.eqb_spec k X264_ENC_STREAM_FORMAT); [intros ->%list_elem_of_singleton; by auto|].
    by intros ?%not_elem_of_nil. }
  apply NoDup_submseteq.
  - apply NoDup_bind.
    + intros [k v] [k' v'] n Hin Hin' Hn Hn'. apply Hone in Hn as [-> Hk], Hn' as [Heq Hk']. cbn [fst] in *.
      assert (k = k') as <-.
      { destruct Hk as [->| ->], Hk' as [->| ->]; try done; vm_compute in Heq; done. }
      apply std_entries_lookup in Hin, Hin'. congruence.
    + intros [k v] _. unfold str_param_caps. repeat destruct (String.eqb _ _); cbn; repeat constructor; by intros ?%not_elem_of_nil.
    + rewrite std_entries_perm. apply NoDup_map_to_list.
  - intros n (kv & Hn & _)%list_elem_of_bind. apply Hone in Hn as [-> _]. case_match; set_solver.
Qed.

Definition single_video_post : list string :=
  VIDEO_CONVERT_NAME_1U 0 :: [DEINTERLACE_NAME_1U 0] ++
  ([VIDEO_SCALE_NAME_1U 0; VIDEO_SCALE_CAPS_FILTER_NAME_1U 0] ++ [ASPECT_RATIO_NAME_1U 0] ++
   [VIDEO_RATE_NAME_1U 0; VIDEO_RATE_CAPS_FILTER_NAME_1U 0]) ++ [VIDEO_LOGO_NAME_1U 0].
Definition single_video_codec : list string :=
  VIDEO_CODEC_NAME_1U 0 ::
  [VIDEO_X264ENC_CAPS_FILTER_PROFILE_NAME_1U 0; VIDEO_X264ENC_CAPS_FILTER_STREAM_FORMAT_NAME_1U 0].
Definition single_audio_post : list string :=
  AUDIO_CONVERT_NAME_1U 0 :: [AUDIO_CONVERT_CAPS_FILTER_NAME_1U 0] ++ [VOLUME_NAME_1U 0].
Definition single_audio_codec : list string :=
  [AUDIO_RESAMPLE_NAME_1U 0; AUDIO_CODEC_NAME_1U 0; MPEG_AUDIO_PARSE_NAME_1U 0].

Ltac sub_pieces :=
  repeat first [ apply submseteq_skip | apply submseteq_app | reflexivity
               | apply when_sub | apply if_Some_sub ].

Lemma video_post_sub conf : VIDEO_CONVERT_NAME_1U 0 :: video_post_tail conf ⊆+ single_video_post.
Proof.
  unfold video_post_tail, single_video_post, video_convert_tail. destruct (default _ _); sub_pieces; apply submseteq_nil_l.
Qed.
Lemma audio_post_sub conf :
  AUDIO_CONVERT_NAME_1U 0 :: audio_convert_tail (e_volume conf) (e_audio_channels_count conf) 0 ⊆+ single_audio_post.
Proof. unfold audio_convert_tail, single_audio_post. sub_pieces. Qed.
Lemma audio_codec_sub conf : audio_codec_chain conf ⊆+ single_audio_codec.
Proof.
  unfold audio_codec_chain, single_audio_codec. destruct (is_mp3 conf); [done|].
  apply submseteq_cons, submseteq_skip, submseteq_nil_l.
Qed.

(** The lines take no more than the single names. *)
Definition chains_single (ch : encoding_chains) : Prop :=
  ch_video_post ch ⊆+ single_video_post /\ ch_video_codec ch ⊆+ single_video_codec /\
  ch_audio_post ch ⊆+ single_audio_post /\ ch_audio_codec ch ⊆+ single_audio_codec.

Lemma encoding_line_single conf ch :
  chains_single ch ->
  stream_line (e_base conf) (video_chain conf ch) (audio_chain conf ch) ⊆+ single_names.
Proof.
  intros (Hvp & Hvc & Hap & Hac).
  transitivity ([SRC_NAME_1U 0; DECODEBIN_NAME_1U 0] ++
    (UDB_VIDEO_NAME_1U 0 :: single_video_post ++ (single_video_codec ++ [VIDEO_PARSER_NAME_1U 0]) ++ [VIDEO_TEE_NAME_1U 0]) ++
    (UDB_AUDIO_NAME_1U 0 :: single_audio_post ++ (single_audio_codec ++ [AUDIO_PARSER_NAME_1U 0]) ++ [AUDIO_TEE_NAME_1U 0]));
    [|reflexivity].
  unfold stream_line, video_chain, audio_chain.
  repeat first [assumption | apply submseteq_skip | apply submseteq_app | reflexivity | apply when_sub].
Qed.

(** ** The classes of encoding streams *)

Definition video_all (conf : EncodingConfig) : list string * list string * (bool * bool) :=
  (VIDEO_CONVERT_NAME_1U 0 :: video_post_tail conf,
   VIDEO_CODEC_NAME_1U 0 :: encoder_caps (e_video_encoder conf) (e_video_encoder_str_args conf) 0,
   (logo_ok (e_logo conf), video_encoder_ok (e_video_encoder conf) (e_video_bit_rate conf))).
Definition audio_all (conf : EncodingConfig) : list string * list string * (bool * bool) :=
  (AUDIO_CONVERT_NAME_1U 0 :: audio_convert_tail (e_volume conf) (e_audio_channels_count conf) 0,
   audio_codec_chain conf, (true, audio_encoder_ok (e_audio_encoder conf) (e_audio_bit_rate conf))).
(** A medium that is not encoded. *)
Definition relayed : list string * list string * (bool * bool) := ([], [], (true, true)).

Definition chains (v a : list string * list string * (bool * bool)) : encoding_chains := {|
  ch_video_post := v.1.1; ch_video_codec := v.1.2; ch_video_ok := v.2;
  ch_audio_post := a.1.1; ch_audio_codec := a.1.2; ch_audio_ok := a.2
|}.

Lemma video_all_makes conf :
  IsGpu conf = false ->
  makes (Encoding_BuildVideoPostProc conf 0) (video_all conf).2.1 (video_all conf).1.1 /\
  makes (Encoding_BuildVideoConverter conf 0) (video_all conf).2.2 (video_all conf).1.2.
Proof.
  intros Hg. split; right; eexists _, _; (split; [done|]).
  - by apply Encoding_BuildVideoPostProc_line.
  - apply Encoding_BuildVideoConverter_line.
Qed.

Lemma audio_all_makes conf :
  makes (Encoding_BuildAudioPostProc conf 0) (audio_all conf).2.1 (audio_all conf).1.1 /\
  makes (Encoding_BuildAudioConverter conf 0) (audio_all conf).2.2 (audio_all conf).1.2.
Proof.
  split; right.
  - eexists _, _. split; [done|]. apply Encoding_BuildAudioPostProc_line.
  - unfold audio_all. cbn [fst snd]. destruct (audio_codec_chain conf) as [|a c] eqn:Hac.
    + unfold audio_codec_chain in Hac. by destruct (is_mp3 conf).
    + exists a, c. split; [done|]. by apply Encoding_BuildAudioConverter_line.
Qed.

Lemma relayed_makes : makes (mret []) relayed.2.1 relayed.1.1.
Proof. by left. Qed.

Lemma video_all_sub conf :
  (video_all conf).1.1 ⊆+ single_video_post /\ (video_all conf).1.2 ⊆+ single_video_codec.
Proof. split; [apply video_post_sub|]. apply submseteq_skip, encoder_caps_sub. Qed.
Lemma audio_all_sub conf :
  (audio_all conf).1.1 ⊆+ single_audio_post /\ (audio_all conf).1.2 ⊆+ single_audio_codec.
Proof. split; [apply audio_post_sub|apply audio_codec_sub]. Qed.

(** ** What a builder gives *)

(** [pipeline_is r ok ns ls]: a pipeline that [CreatePipeLine] returns has the
    elements [ns] and the links [ls], no two elements of a name, and is returned
    only if [ok]; on a GStreamer with all plugins it is returned if [ok]. *)
Definition pipeline_is (r : outcome (option pipeline) * list build_event) (ok : bool)
    (ns : list string) (ls : list (string * string)) : Prop :=
  match r.1 with
  | Ok (Some p) => ok = true /\ pl_names p ≡ₚ ns /\ link_names p ≡ₚ ls /\ NoDup (pl_names p)
  | Ok None => False
  | _ => gst_complete -> ok = false
  end.

Lemma CreatePipeLine_is m ok (P : bool) ns ls :
  realizes m ok ns ls (eq true) -> (NoDup ns <-> P = true) ->
  pipeline_is (CreatePipeLine m) (ok && P) ns ls.
Proof.
  intros Hm HP. unfold pipeline_is, CreatePipeLine. destruct ok; cbn [realizes andb] in *;
    specialize (Hm pipeline_empty); destruct (m pipeline_empty) as [[[b|e|r] s] es]; cbn in *; try done.
  - destruct Hm as (Hn & Hl & <- & Hd). rewrite Hn in Hd. split_and!; [|done..|].
    + apply HP, Hd. constructor.
    + rewrite Hn. apply Hd. constructor.
  - intros Hc. destruct P; [|done]. exfalso. apply Hm; [done|]. by apply HP.
Qed.

Definition no_conflict (config : AudioVideoConfig) vcodec acodec : bool :=
  forallb (fun o => negb (pay_conflict config vcodec acodec o)) (c_output (av_base config)).

Lemma no_conflict_spec config vcodec acodec cv ca :
  stream_line config cv ca ⊆+ single_names ->
  NoDup (pipeline_names config vcodec acodec cv ca) <-> no_conflict config vcodec acodec = true.
Proof.
  intros Hs. rewrite pipeline_names_NoDup by done. unfold no_conflict. rewrite forallb_forall, Forall_forall.
  setoid_rewrite list_elem_of_In. by setoid_rewrite negb_true_iff.
Qed.

Lemma encoding_is now conf l v a src ok :
  (av_have_video (e_base conf) = true ->
     makes (BuildVideoPostProc l 0) v.2.1 v.1.1 /\ makes (BuildVideoConverter l 0) v.2.2 v.1.2) ->
  (av_have_audio (e_base conf) = true ->
     makes (BuildAudioPostProc l 0) a.2.1 a.1.1 /\ makes (BuildAudioConverter l 0) a.2.2 a.1.2) ->
  v.1.1 ⊆+ single_video_post /\ v.1.2 ⊆+ single_video_codec ->
  a.1.1 ⊆+ single_audio_post /\ a.1.2 ⊆+ single_audio_codec ->
  realizes src ok [SRC_NAME_1U 0] [] (named (SRC_NAME_1U 0)) ->
  pipeline_is (CreatePipeLine (InitPipeline (encoding_builder now conf l src)))
    (encoding_ok ok conf (chains v a) &&
     no_conflict (e_base conf) (Encoding_GetVideoCodecType conf) (Encoding_GetAudioCodecType conf))
    (encoding_names conf (chains v a)) (encoding_links conf (chains v a)).
Proof.
  intros Hv1 Ha1 [Hv3 Hv4] [Ha3 Ha4] Hsrc. apply CreatePipeLine_is.
  - by apply encoding_pipeline.
  - by apply no_conflict_spec, encoding_line_single.
Qed.

Lemma encoding_pipeline_is now conf :
  av_have_video (e_base conf) && IsGpu conf = false ->
  let ch := chains (video_all conf) (audio_all conf) in
  pipeline_is (CreatePipeLine (InitPipeline (EncodingStreamBuilder now conf)))
    (encoding_ok (input_ok (av_base (e_base conf))) conf ch &&
     no_conflict (e_base conf) (Encoding_GetVideoCodecType conf) (Encoding_GetAudioCodecType conf))
    (encoding_names conf ch) (encoding_links conf ch).
Proof.
  intros Hg ch. apply encoding_is; [intros Hv; apply video_all_makes; by rewrite Hv in Hg|intros _; apply audio_all_makes|apply video_all_sub|apply audio_all_sub|].
  apply SrcDecode_BuildInputSrc_realizes.
Qed.

(** C25: an encoding stream whose encoder needs no GPU, or that has no video: its pipeline is the source
    with its decodebin, one line of elements per medium (post-processing,
    encoder, parser, tee) and, per output, a queue for each medium (with a
    payloader for RTP), a multiplexer and a sink, linked in this order and
    nothing else. There is such a pipeline exactly if the input, the encoders
    with their bit rates, the logo and each output have an element, and no
    RTP output carries video beside MPEG audio. *)
Theorem encoding_pipeline_spec now conf :
  av_have_video (e_base conf) && IsGpu conf = false ->
  let ch := chains (video_all conf) (audio_all conf) in
  pipeline_is (CreatePipeLine (InitPipeline (EncodingStreamBuilder now conf)))
    (encoding_ok (input_ok (av_base (e_base conf))) conf ch &&
     no_conflict (e_base conf) (Encoding_GetVideoCodecType conf) (Encoding_GetAudioCodecType conf))
    (encoding_names conf ch) (encoding_links conf ch).
Proof. apply encoding_pipeline_is. Qed.

(** The same lines behind the source of a playlist. *)
Lemma playlist_encoding_pipeline_spec now conf :
  av_have_video (e_base conf) && IsGpu conf = false ->
  let ch := chains (video_all conf) (audio_all conf) in
  pipeline_is (CreatePipeLine (InitPipeline (PlaylistEncodingStreamBuilder now conf)))
    (encoding_ok true conf ch &&
     no_conflict (e_base conf) (Encoding_GetVideoCodecType conf) (Encoding_GetAudioCodecType conf))
    (encoding_names conf ch) (encoding_links conf ch).
Proof.
  intros Hg ch. apply encoding_is; [intros Hv; apply video_all_makes; by rewrite Hv in Hg|intros _; apply audio_all_makes|apply video_all_sub|apply audio_all_sub|].
  apply Playlist_BuildInputSrc_builds.
Qed.

(** A stream that encodes one medium relays the other: its line is the parser of
    the encoder's format and the tee. *)
Lemma only_audio_pipeline_spec now conf :
  let ch := chains relayed (audio_all conf) in
  pipeline_is (CreatePipeLine (InitPipeline (EncodingOnlyAudioStreamBuilder now conf)))
    (encoding_ok (input_ok (av_base (e_base conf))) conf ch &&
     no_conflict (e_base conf) (Encoding_GetVideoCodecType conf) (Encoding_GetAudioCodecType conf))
    (encoding_names conf ch) (encoding_links conf ch).
Proof.
  intros ch. apply encoding_is; [intros _; split; apply relayed_makes|intros _; apply audio_all_makes| |apply audio_all_sub|].
  - split; apply submseteq_nil_l.
  - apply SrcDecode_BuildInputSrc_realizes.
Qed.

Lemma only_video_pipeline_spec now conf :
  av_have_video (e_base conf) && IsGpu conf = false ->
  let ch := chains (video_all conf) relayed in
  pipeline_is (CreatePipeLine (InitPipeline (EncodingOnlyVideoStreamBuilder now conf)))
    (encoding_ok (input_ok (av_base (e_base conf))) conf ch &&
     no_conflict (e_base conf) (Encoding_GetVideoCodecType conf) (Encoding_GetAudioCodecType conf))
    (encoding_names conf ch) (encoding_links conf ch).
Proof.
  intros Hg ch. apply encoding_is; [intros Hv; apply video_all_makes; by rewrite Hv in Hg|intros _; split; apply relayed_makes|apply video_all_sub| |].
  - split; apply submseteq_nil_l.
  - apply SrcDecode_BuildInputSrc_realizes.
Qed.

(** ** Relay streams *)

Lemma relay_is now config src ok :
  realizes src ok [SRC_NAME_1U 0] [] (named (SRC_NAME_1U 0)) ->
  pipeline_is
    (CreatePipeLine (InitPipeline (relay_builder config src (Relay_BuildConverter config) (Relay_BuildOutput now config))))
    (relay_ok ok config && no_conflict (r_base config) (Relay_GetVideoCodecType config) (Relay_GetAudioCodecType config))
    (relay_names config) (relay_links config).
Proof.
  intros Hsrc. apply CreatePipeLine_is; [by apply relay_pipeline|].
  apply no_conflict_spec. unfold stream_line.
  destruct (av_have_video _), (av_have_audio _); apply (bool_decide_unpack _); vm_compute; done.
Qed.

(** A relay stream: behind the decodebin each medium has the parser that the
    configuration names and a tee, the outputs are those of an encoding stream.
    There is such a pipeline exactly if the input, the parsers and each output
    have an element, and no RTP output carries video beside MPEG audio. *)
Theorem relay_pipeline_spec now config :
  pipeline_is (CreatePipeLine (InitPipeline (RelayStreamBuilder now config)))
    (relay_ok (input_ok (av_base (r_base config))) config &&
     no_conflict (r_base config) (Relay_GetVideoCodecType config) (Relay_GetAudioCodecType config))
    (relay_names config) (relay_links config).
Proof. apply relay_is, SrcDecode_BuildInputSrc_realizes. Qed.

Lemma timeshift_player_pipeline_spec now dir index config :
  pipeline_is (CreatePipeLine (InitPipeline (TimeShiftPlayerBuilder now dir index config)))
    (relay_ok true config &&
     no_conflict (r_base config) (Relay_GetVideoCodecType config) (Relay_GetAudioCodecType config))
    (relay_names config) (relay_links config).
Proof.
  apply relay_is. unfold TimeShiftPlayer_BuildInputSrc. cbn [realizes].
  eapply builds_skip; [apply make_multifile_src_builds|]. intros el Hel. build_all.
Qed.

(** ** Streams without a pipeline *)

Definition no_pipeline (r : outcome (option pipeline) * list build_event) : Prop := is_ok r.1 = false.

Lemma stuck_no_pipeline m : stuck m -> no_pipeline (CreatePipeLine m).
Proof.
  intros Hm. specialize (Hm pipeline_empty). unfold no_pipeline, CreatePipeLine.
  by destruct (m pipeline_empty) as [[[[]| |]]].
Qed.

Lemma stuck_no_pipeline' m p : (CreatePipeLine m).1 = Ok p -> ~ stuck m.
Proof. intros Hp Hm%stuck_no_pipeline. unfold no_pipeline in Hm. by rewrite Hp in Hm. Qed.

(** The post-processing of a GPU leaves no last element. *)
Lemma gpu_post_proc_null conf :
  IsGpu conf = true -> only (Encoding_BuildVideoPostProc conf 0) (fun line => exists e, line = [Some e; None]).
Proof.
  intros Hg. unfold Encoding_BuildVideoPostProc. rewrite Hg.
  eapply only_bind with (P := fun r => r.2 = None).
  { apply only_bind_r. intros e. apply only_bind_r. intros _. by apply only_ret. }
  intros [e o] Ho. cbn in Ho. subst o.
  eapply only_bind with (P := fun o => o = None); [|intros o ->; apply only_ret; by exists e].
  unfold build_logo. destruct (Logo_IsValid _); [|by apply only_ret].
  do 6 (apply only_bind_r; intros ?). apply only_stuck, stuck_bind, ElementLink_null.
Qed.

Lemma gpu_map_conn conf fa v :
  av_have_video (e_base conf) = true -> IsGpu conf = true -> BuildVideoPostProc v = Encoding_BuildVideoPostProc conf ->
  forall conn, only (map_conn (e_base conf) (fun x => link_made_line x (BuildVideoPostProc v 0)) fa conn)
    (fun c => conn_video c = None).
Proof.
  intros Hv Hg Hl conn. unfold map_conn, link_made_line. rewrite Hv, Hl.
  eapply only_bind with (P := fun c => conn_video c = None).
  - eapply only_bind with (P := fun o => o = None); [|intros o ->; by apply only_ret].
    eapply only_bind; [by apply gpu_post_proc_null|]. intros line (e & ->). cbn [link_line List.last].
    apply only_bind_r. intros _. by apply only_ret.
  - intros c Hc. destruct (av_have_audio _); [|by apply only_ret].
    apply only_bind_r. intros a. by apply only_ret.
Qed.

Lemma gpu_stuck now conf l src :
  av_have_video (e_base conf) = true -> IsGpu conf = true ->
  BuildVideoPostProc l = Encoding_BuildVideoPostProc conf ->
  BuildVideoConverter l = Encoding_BuildVideoConverter conf ->
  stuck (InitPipeline (encoding_builder now conf l src)).
Proof.
  intros Hv Hg Hl Hc. unfold InitPipeline. do 2 (apply stuck_after; intros ?).
  eapply stuck_only; [by apply gpu_map_conn|]. intros conn Hn.
  apply stuck_bind. cbn [BuildConverter encoding_builder]. unfold Encoding_BuildConverter, map_conn. rewrite Hv.
  apply stuck_bind, stuck_bind. unfold Encoding_video_converter. apply stuck_bind. unfold link_made_line. rewrite Hc, Hn.
  eapply stuck_only with (P := fun line => line <> []).
  - unfold Encoding_BuildVideoConverter. apply only_bind_r. intros r. by apply only_ret.
  - intros [|front line] Hne; [done|]. apply stuck_bind, ElementLink_null.
Qed.

(** An encoding stream with video whose encoder is one of a GPU
    (mfxh264enc, vaapih264enc, vaapimpeg2enc, which the validation of a
    configuration accepts) never has a pipeline: the post-processing returns a
    null pointer as its last element, which is linked to the encoder. *)
Theorem gpu_encoding_fails now conf :
  av_have_video (e_base conf) = true -> IsGpu conf = true ->
  no_pipeline (CreatePipeLine (InitPipeline (EncodingStreamBuilder now conf))) /\
  no_pipeline (CreatePipeLine (InitPipeline (EncodingOnlyVideoStreamBuilder now conf))) /\
  no_pipeline (CreatePipeLine (InitPipeline (PlaylistEncodingStreamBuilder now conf))).
Proof. intros Hv Hg. split_and!; apply stuck_no_pipeline; by apply gpu_stuck. Qed.

(** A device stream never has a pipeline: its input already connects the
    media, and the inherited BuildUdbConnections checks that they are not
    connected. *)
Theorem device_stream_fails now conf :
  av_have_video (e_base conf) || av_have_audio (e_base conf) = true ->
  no_pipeline (CreatePipeLine (InitPipeline (DeviceStreamBuilder now conf))).
Proof.
  intros Hm. apply stuck_no_pipeline. unfold InitPipeline. cbn [BuildInput BuildUdbConnections DeviceStreamBuilder].
  eapply stuck_only with (P := fun c => is_null (conn_video c) && is_null (conn_audio c) = false).
  - unfold Device_BuildInput. apply only_bind_r. intros uri. cbn zeta.
    eapply only_bind with (P := fun v => is_null v = negb (av_have_video (e_base conf))).
    { destruct (av_have_video _); [|by apply only_ret].
      apply only_bind_r. intros ?. do 4 (apply only_bind_r; intros ?). by apply only_ret. }
    intros v Hv. eapply only_bind with (P := fun a => is_null a = negb (av_have_audio (e_base conf))).
    { destruct (av_have_audio _); [|by apply only_ret]. apply only_bind_r. intros ?. by apply only_ret. }
    intros a Ha. apply only_ret. cbn. rewrite Hv, Ha. by destruct (av_have_video _), (av_have_audio _).
  - intros [v a] Hc. apply stuck_bind. unfold SrcDecode_BuildUdbConnections. cbn [conn_video conn_audio] in *.
    destruct v; [by apply stuck_bind|]. destruct a; [|done]. apply stuck_after. intros _. by apply stuck_bind.
Qed.

(** Both media are linked to the splitmuxsink, a missing one through a null
    pointer. *)
Lemma recorder_needs_both_media conf :
  av_have_video (r_base (ts_base conf)) && av_have_audio (r_base (ts_base conf)) = false ->
  stuck (InitPipeline (TimeShiftRecorderStreamBuilder conf)).
Proof.
  intros Hm. unfold InitPipeline, TimeShiftRecorderStreamBuilder, relay_builder.
  cbn [BuildInput BuildUdbConnections BuildPostProc BuildConverter BuildOutput].
  eapply stuck_only with (P := eq null_conn).
  { unfold SrcDecode_BuildInput. do 5 (apply only_bind_r; intros ?). by apply only_ret. }
  intros ? <-. eapply stuck_only with (P := fun c => is_null (conn_video c) || is_null (conn_audio c) = true).
  { unfold SrcDecode_BuildUdbConnections. do 2 (apply only_bind_r; intros ?).
    eapply only_bind with (P := fun c => is_null (conn_video c) = negb (av_have_video (r_base (ts_base conf))) /\
                                         is_null (conn_audio c) = true).
    - destruct (av_have_video _); [|by apply only_ret]. do 2 (apply only_bind_r; intros ?). by apply only_ret.
    - intros c [Hv Ha]. destruct (av_have_audio _).
      + do 2 (apply only_bind_r; intros ?). apply only_ret. cbn. rewrite Hv.
        by destruct (av_have_video _).
      + apply only_ret. by rewrite Ha, orb_true_r. }
  intros c Hc. unfold Relay_BuildPostProc, TimeShiftRecorder_BuildConverter.
  do 2 (eapply stuck_only with (P := eq c); [by apply only_ret|]; intros ? <-).
  apply stuck_bind. unfold TimeShiftRecorder_BuildOutput. do 6 (apply stuck_after; intros ?).
  apply stuck_bind. unfold HandleSplitmuxsinkCreated, link_splitmuxsink. apply stuck_after; intros _.
  destruct c as [[ev|] [ea|]]; [done|by apply stuck_bind|by apply stuck_after|by apply stuck_bind].
Qed.

(** ** Connections *)

Lemma GetElementByName_Ok line name :
  name ∈ (el_name <$> line) -> exists el, GetElementByName line name = Ok el.
Proof.
  unfold GetElementByName. intros (el & -> & Hin)%list_elem_of_fmap.
  destruct (List.find _ line) as [el'|] eqn:Hf; [by exists el'|].
  apply list_elem_of_In in Hin. apply (List.find_none _ _ Hf) in Hin. by rewrite String.eqb_refl in Hin.
Qed.

Definition linked (ls : list (string * string)) (a b : string) : Prop := (a, b) ∈ ls.

Lemma chain_linked (x : string) c ls :
  chain_links (x :: c) ⊆ ls -> rtc (linked ls) x (List.last c x).
Proof.
  revert x. induction c as [|y c IH]; intros x Hs; [done|]. rewrite last_cons.
  rewrite chain_links_cons in Hs. eapply rtc_l; [|apply IH]; [apply Hs|]; set_solver.
Qed.

Lemma chain_linked_snoc (x y : string) c ls :
  chain_links (x :: c ++ [y]) ⊆ ls -> rtc (linked ls) x y.
Proof. intros Hs%chain_linked. by rewrite last_snoc in Hs. Qed.

(** Every output that is no device gets each medium of the stream. *)
Lemma pipeline_feeds config vcodec acodec cv ca i o ls :
  ls ≡ₚ pipeline_links config vcodec acodec (cv ++ [VIDEO_TEE_NAME_1U 0]) (ca ++ [AUDIO_TEE_NAME_1U 0]) ->
  (i, o) ∈ enumerate (c_output (av_base config)) -> IsDeviceOutUrl (ou_output o) = None ->
  (av_have_video config = true -> rtc (linked ls) (UDB_VIDEO_NAME_1U 0) (SINK_NAME_1U i)) /\
  (av_have_audio config = true -> rtc (linked ls) (UDB_AUDIO_NAME_1U 0) (SINK_NAME_1U i)).
Proof.
  intros Hls Hio Hd.
  assert (Hout : output_links config vcodec acodec (i, o) ⊆ ls).
  { intros l Hl. rewrite Hls. unfold pipeline_links. rewrite !elem_of_app. do 3 right.
    apply list_elem_of_bind. by exists (i, o). }
  unfold output_links in Hout. rewrite Hd in Hout.
  assert (Hin : forall b xs l, xs ⊆ l -> b = true -> forall x : string * string, x ∈ xs -> x ∈ when b l)
    by (intros b xs l Hs -> x; apply Hs).
  assert (Hsink : linked ls (MUXER_NAME_1U i) (SINK_NAME_1U i)) by (apply Hout; rewrite !elem_of_app; set_solver).
  split; intros Hm.
  - transitivity (VIDEO_TEE_NAME_1U 0).
    { eapply chain_linked_snoc. intros l Hl. rewrite Hls. unfold pipeline_links. rewrite !elem_of_app.
      right; left. by eapply Hin. }
    transitivity (MUXER_NAME_1U i); [|by apply rtc_once].
    apply (chain_linked_snoc _ _ (video_branch vcodec i (is_rtp o))). intros l Hl. apply Hout. rewrite !elem_of_app.
    left. by eapply Hin.
  - transitivity (AUDIO_TEE_NAME_1U 0).
    { eapply chain_linked_snoc. intros l Hl. rewrite Hls. unfold pipeline_links. rewrite !elem_of_app.
      right; right; left. by eapply Hin. }
    transitivity (MUXER_NAME_1U i); [|by apply rtc_once].
    apply (chain_linked_snoc _ _ (audio_branch acodec i (is_rtp o))). intros l Hl. apply Hout. rewrite !elem_of_app.
    right; left. by eapply Hin.
Qed.

Lemma encoding_not_gpu now conf p :
  (CreatePipeLine (InitPipeline (EncodingStreamBuilder now conf))).1 = Ok (Some p) ->
  av_have_video (e_base conf) && IsGpu conf = false.
Proof.
  intros Hp. apply andb_false_iff. destruct (av_have_video _) eqn:Hv; [|by left]. right.
  destruct (IsGpu conf) eqn:Hi; [|done]. destruct (stuck_no_pipeline' _ _ Hp). by apply gpu_stuck.
Qed.

(** The elements that a stream links the pads of its decodebin to. *)
Lemma encoding_entries now conf p :
  (CreatePipeLine (InitPipeline (EncodingStreamBuilder now conf))).1 = Ok (Some p) ->
  (av_have_video (e_base conf) = true -> exists el, GetElementByName (pl_line p) (UDB_VIDEO_NAME_1U 0) = Ok el) /\
  (av_have_audio (e_base conf) = true -> exists el, GetElementByName (pl_line p) (UDB_AUDIO_NAME_1U 0) = Ok el).
Proof.
  intros Hp. pose proof (encoding_pipeline_is now conf (encoding_not_gpu now conf p Hp)) as Hs.
  unfold pipeline_is in Hs. rewrite Hp in Hs. destruct Hs as (_ & Hn & _).
  split; intros Hm; apply GetElementByName_Ok; fold (pl_names p); rewrite Hn;
    unfold encoding_names, pipeline_names, stream_line; rewrite Hm; cbn [when]; set_solver.
Qed.

(** C26: in the pipeline of an encoding stream every output that is no device is
    fed: from the element behind the decodebin, which the stream finds by its
    name when a pad appears, a path of links leads to the sink of the output. *)
Theorem outputs_are_fed now conf p i o :
  (CreatePipeLine (InitPipeline (EncodingStreamBuilder now conf))).1 = Ok (Some p) ->
  (i, o) ∈ enumerate (c_output (av_base (e_base conf))) -> IsDeviceOutUrl (ou_output o) = None ->
  (av_have_video (e_base conf) = true ->
     (exists el, GetElementByName (pl_line p) (UDB_VIDEO_NAME_1U 0) = Ok el) /\
     rtc (linked (link_names p)) (UDB_VIDEO_NAME_1U 0) (SINK_NAME_1U i)) /\
  (av_have_audio (e_base conf) = true ->
     (exists el, GetElementByName (pl_line p) (UDB_AUDIO_NAME_1U 0) = Ok el) /\
     rtc (linked (link_names p)) (UDB_AUDIO_NAME_1U 0) (SINK_NAME_1U i)).
Proof.
  intros Hp Hio Hd.
  pose proof (encoding_pipeline_is now conf (encoding_not_gpu now conf p Hp)) as Hs. unfold pipeline_is in Hs.
  rewrite Hp in Hs. destruct Hs as (_ & _ & Hl & _). unfold encoding_links, video_chain, audio_chain in Hl.
  rewrite !app_assoc in Hl. pose proof (pipeline_feeds _ _ _ _ _ i o _ Hl Hio Hd) as [Hfv Hfa].
  pose proof (encoding_entries now conf p Hp) as [Hev Hea]. split; intros Hm; split; auto.
Qed.

(** ** RTP *)

Lemma pipeline_is_none r ok ns ls : pipeline_is r ok ns ls -> ok = false -> no_pipeline r.
Proof. unfold pipeline_is, no_pipeline. destruct r.1 as [[p|]| |]; naive_solver. Qed.

Lemma no_conflict_false config vcodec acodec o :
  o ∈ c_output (av_base config) -> pay_conflict config vcodec acodec o = true -> no_conflict config vcodec acodec = false.
Proof.
  intros Ho Hp. apply not_true_is_false. unfold no_conflict. rewrite forallb_forall. intros Hf.
  apply list_elem_of_In in Ho. specialize (Hf o Ho). by rewrite Hp in Hf.
Qed.

Lemma output_not_ok config vcodec acodec o :
  o ∈ c_output (av_base config) -> output_ok config vcodec acodec (0%Z, o) = false ->
  forallb (output_ok config vcodec acodec) (enumerate (c_output (av_base config))) = false.
Proof.
  intros (k & Hk)%list_elem_of_lookup Hok. apply not_true_is_false. rewrite forallb_forall. intros Hf.
  specialize (Hf (Z.of_nat k, o)). cbn in Hf, Hok. rewrite Hok in Hf.
  discriminate Hf. apply list_elem_of_In, elem_of_enumerate. by exists k.
Qed.

(** An encoding stream with video never has a pipeline for an RTP output if
    its encoder is eavcenc, vaapimpeg2enc or msdkh264enc, which the validation
    accepts but for which no payloader is known, or if it also has audio in
    MP3, whose payloader takes the name of the video's. *)
Theorem rtp_outputs_fail now conf o :
  o ∈ c_output (av_base (e_base conf)) -> IsDeviceOutUrl (ou_output o) = None -> is_rtp o = true ->
  av_have_video (e_base conf) = true ->
  e_video_encoder conf ∈ [EAVC_ENC; VAAPI_MPEG2_ENC; MSDK_H264_ENC] \/
  (av_have_audio (e_base conf) = true /\ e_audio_encoder conf = LAME_MP3_ENC) ->
  no_pipeline (CreatePipeLine (InitPipeline (EncodingStreamBuilder now conf))).
Proof.
  intros Ho Hd Hr Hv Hcase. destruct (IsGpu conf) eqn:Hg; [apply stuck_no_pipeline; by apply gpu_stuck|].
  eapply pipeline_is_none; [apply encoding_pipeline_is; by rewrite Hg, andb_false_r|].
  assert (Hvc : is_ok (Encoding_GetVideoCodecType conf) = false ->
    forallb (output_ok (e_base conf) (Encoding_GetVideoCodecType conf) (Encoding_GetAudioCodecType conf))
      (enumerate (c_output (av_base (e_base conf)))) = false).
  { intros Hn. eapply output_not_ok; [done|]. cbn. by rewrite Hd, Hr, Hv, Hn, !andb_false_r. }
  destruct Hcase as [He|[Ha He]].
  - apply andb_false_iff. left. unfold encoding_ok. rewrite Hvc; [by rewrite !andb_false_r|].
    unfold Encoding_GetVideoCodecType. repeat (apply elem_of_cons in He as [->|He]; [done|]). set_solver.
  - destruct (is_ok (Encoding_GetVideoCodecType conf)) eqn:Hn.
    + apply andb_false_iff. right. eapply no_conflict_false; [done|]. unfold pay_conflict.
      rewrite Hd, Hr, Hv, Ha, Hn. unfold Encoding_GetAudioCodecType. by rewrite He.
    + apply andb_false_iff. left. unfold encoding_ok. by rewrite Hvc, !andb_false_r.
Qed.

(** ** Timeshift recorders *)

Definition chunk_nsec_ok (d : Z) : bool := is_ok (chunk_nsec d).

Lemma link_to_multiplexer_builds x src sink pad :
  conn_named x src -> builds (link_to_multiplexer src sink pad) [] [] (fun _ => True).
Proof.
  intros (el & -> & _). unfold link_to_multiplexer. cbn [deref]. apply builds_ret_bind.
  repeat case_match; [by apply builds_ret..|apply builds_emit].
Qed.

Lemma recorder_pipeline conf :
  let c := r_base (ts_base conf) in
  av_have_video c = true -> av_have_audio c = true ->
  realizes (InitPipeline (TimeShiftRecorderStreamBuilder conf))
    (input_ok (av_base c) && (video_parser_ok (r_video_parser (ts_base conf)) &&
       audio_parser_ok (r_audio_parser (ts_base conf)) && chunk_nsec_ok (ts_chunk_duration conf)))
    [SRC_NAME_1U 0; DECODEBIN_NAME_1U 0; UDB_VIDEO_NAME_1U 0; UDB_AUDIO_NAME_1U 0; SPLIT_SINK_NAME_1U 0]
    [(SRC_NAME_1U 0, DECODEBIN_NAME_1U 0)] (eq true).
Proof.
  intros c Hv Ha. unfold InitPipeline, TimeShiftRecorderStreamBuilder, relay_builder.
  cbn [BuildInput BuildUdbConnections BuildPostProc BuildConverter BuildOutput]. fold c.
  eapply (realizes_bind _ _ _ _ [_; _] [_; _; _] [_] []).
  { apply SrcDecode_BuildInput_realizes, SrcDecode_BuildInputSrc_realizes. }
  intros ? <-. eapply (realizes_bind _ _ _ _ [_; _] [_] [] []).
  { pose proof (SrcDecode_BuildUdbConnections_realizes c _ _ _ _
      (make_video_parser_realizes (r_video_parser (ts_base conf)) (UDB_VIDEO_NAME_1U 0))
      (make_audio_parser_realizes (r_audio_parser (ts_base conf)) (UDB_AUDIO_NAME_1U 0))) as Hu.
    rewrite Hv, Ha in Hu. exact Hu. }
  intros conn [Hcv Hca]. specialize (Hcv Hv). specialize (Hca Ha).
  unfold Relay_BuildPostProc, TimeShiftRecorder_BuildConverter.
  do 2 (apply (realizes_skip _ _ true _ _ _ (eq conn)); [by apply builds_ret|]; intros ? <-).
  eapply realizes_last; [|intros _ _; by apply (builds_ret true)].
  unfold TimeShiftRecorder_BuildOutput.
  eapply (builds_then _ _ _ [] [_] [] []); [apply make_named_builds|]. intros sink Hs.
  eapply (builds_then _ _ _ [_] [] [] []); [by apply ElementAdd_builds|]. intros _ _.
  eapply (builds_then _ _ _ [] [] [] []); [apply make_named_builds|]. intros mux _.
  eapply (realizes_then _ _ _ [] [] [] []) with (P := fun _ => True).
  { unfold chunk_nsec_ok. destruct (chunk_nsec _) eqn:Hc; cbn; [by eapply builds_lift|done|done]. }
  intros ns _. do 2 (eapply builds_skip; [apply SetProperty_builds|]; intros _ _).
  eapply builds_skip with (P := fun _ => True); [|intros _ _; by apply (builds_ret conn (fun _ => True))].
  unfold HandleSplitmuxsinkCreated, link_splitmuxsink. eapply builds_skip; [apply builds_emit|]. intros _ _.
  eapply builds_skip; [exact (link_to_multiplexer_builds _ _ _ _ Hca)|]. intros _ _.
  exact (link_to_multiplexer_builds _ _ _ _ Hcv).
Qed.

(** A timeshift recorder (or a catchup): the source with its decodebin, a
    parser per medium and the splitmuxsink, to whose pads the stream links the
    parsers. There is such a pipeline exactly if the stream has both video and
    audio, the input and the parsers have an element and the length of a chunk in
    nanoseconds fits an int64_t. *)
Theorem recorder_pipeline_spec conf :
  let c := r_base (ts_base conf) in
  pipeline_is (CreatePipeLine (InitPipeline (TimeShiftRecorderStreamBuilder conf)))
    (av_have_video c && av_have_audio c &&
     (input_ok (av_base c) && (video_parser_ok (r_video_parser (ts_base conf)) &&
        audio_parser_ok (r_audio_parser (ts_base conf)) && chunk_nsec_ok (ts_chunk_duration conf))))
    [SRC_NAME_1U 0; DECODEBIN_NAME_1U 0; UDB_VIDEO_NAME_1U 0; UDB_AUDIO_NAME_1U 0; SPLIT_SINK_NAME_1U 0]
    [(SRC_NAME_1U 0, DECODEBIN_NAME_1U 0)].
Proof.
  intros c. set (ok := input_ok _ && _). rewrite <- (andb_true_r (_ && ok)).
  apply CreatePipeLine_is; [|split; [done|intros _; apply (bool_decide_unpack _); vm_compute; done]].
  destruct (av_have_video c && av_have_audio c) eqn:Hm; cbn [andb].
  - apply andb_true_iff in Hm as [Hv Ha]. by apply recorder_pipeline.
  - by apply recorder_needs_both_media.
Qed.
End Names.

(** ** Witnesses *)

Section Witnesses.
#[local] Existing Instances Ref.common Ref.urls Ref.paths ref_codes RefGst.gst RefGst.gst_ok.
#[local] Instance wit_json : JsonC := Ref.json_c (fun _ => None).

Definition wit_in : InputUri := {| iu_id := 1; iu_input := "http://host/in.ts"; iu_user_agent := 0 |}%Z.
Definition wit_out (u : string) : OutputUri := {| ou_id := 1; ou_output := u; ou_http_root := "/hls/" |}%Z.
Definition wit_av (t : StreamType) (outs : list string) : AudioVideoConfig :=
  make_audio_video_config (make_base_config t 10 [wit_in] (wit_out <$> outs)).
Definition wit_encoding (venc aenc : string) (outs : list string) : EncodingConfig :=
  let d := make_encoding_config (wit_av ENCODE outs) in
  {| e_base := e_base d; e_deinterlace := Some true; e_frame_rate := Some 25%Z; e_volume := Some (dbl_of_Z 1);
     e_video_encoder := venc; e_audio_encoder := aenc; e_audio_channels_count := Some 2%Z;
     e_video_encoder_args := e_video_encoder_args d;
     e_video_encoder_str_args := <[X264_ENC_PROFILE := "high"]> ∅;
     e_size := (640, 480)%Z; e_video_bit_rate := Some 1500%Z; e_audio_bit_rate := Some 128%Z; e_logo := e_logo d;
     e_decklink_video_mode := e_decklink_video_mode d; e_aspect_ratio := Some (16, 9)%Z;
     e_relay_video := false; e_relay_audio := false |}.

Definition wit_conf := wit_encoding X264_ENC FAAC ["udp://host:1234"; "http://host/live.m3u8"].

(** The hypotheses hold, and there is a pipeline. *)
Lemma encoding_pipeline_spec_witness :
  av_have_video (e_base wit_conf) && IsGpu wit_conf = false /\
  is_ok (CreatePipeLine (InitPipeline (EncodingStreamBuilder 0 wit_conf))).1 = true /\
  (let ch := chains (video_all wit_conf) (audio_all wit_conf) in
   pipeline_is (CreatePipeLine (InitPipeline (EncodingStreamBuilder 0 wit_conf)))
    (encoding_ok (input_ok (av_base (e_base wit_conf))) wit_conf ch &&
     no_conflict (e_base wit_conf) (Encoding_GetVideoCodecType wit_conf) (Encoding_GetAudioCodecType wit_conf))
    (encoding_names wit_conf ch) (encoding_links wit_conf ch)).
Proof.
  split; [vm_compute; reflexivity|]. split; [vm_compute; reflexivity|].
  apply (encoding_pipeline_spec 0 wit_conf). vm_compute. reflexivity.
Defined.

Definition wit_relay : RelayConfig := make_relay_config (wit_av RELAY ["rtmp://host/app"; "tcp://host:99"]).

Lemma relay_pipeline_spec_witness :
  is_ok (CreatePipeLine (InitPipeline (RelayStreamBuilder 0 wit_relay))).1 = true /\
  pipeline_is (CreatePipeLine (InitPipeline (RelayStreamBuilder 0 wit_relay)))
    (relay_ok (input_ok (av_base (r_base wit_relay))) wit_relay &&
     no_conflict (r_base wit_relay) (Relay_GetVideoCodecType wit_relay) (Relay_GetAudioCodecType wit_relay))
    (relay_names wit_relay) (relay_links wit_relay).
Proof. split; [vm_compute; reflexivity|]. apply (relay_pipeline_spec 0 wit_relay). Defined.

Definition wit_recorder : TimeshiftConfig := make_timeshift_config (make_relay_config (wit_av TIMESHIFT_RECORDER [])).

Lemma recorder_pipeline_spec_witness :
  is_ok (CreatePipeLine (InitPipeline (TimeShiftRecorderStreamBuilder wit_recorder))).1 = true /\
  (let c := r_base (ts_base wit_recorder) in
   pipeline_is (CreatePipeLine (InitPipeline (TimeShiftRecorderStreamBuilder wit_recorder)))
    (av_have_video c && av_have_audio c &&
     (input_ok (av_base c) && (video_parser_ok (r_video_parser (ts_base wit_recorder)) &&
        audio_parser_ok (r_audio_parser (ts_base wit_recorder)) && chunk_nsec_ok (ts_chunk_duration wit_recorder))))
    [SRC_NAME_1U 0; DECODEBIN_NAME_1U 0; UDB_VIDEO_NAME_1U 0; UDB_AUDIO_NAME_1U 0; SPLIT_SINK_NAME_1U 0]
    [(SRC_NAME_1U 0, DECODEBIN_NAME_1U 0)]).
Proof. split; [vm_compute; reflexivity|]. apply (recorder_pipeline_spec wit_recorder). Defined.

Definition wit_gpu := wit_encoding VAAPI_H264_ENC FAAC ["udp://host:1234"].

Lemma gpu_encoding_fails_witness :
  av_have_video (e_base wit_gpu) = true /\ IsGpu wit_gpu = true /\
  no_pipeline (CreatePipeLine (InitPipeline (EncodingStreamBuilder 0 wit_gpu))).
Proof.
  split; [reflexivity|]. split; [vm_compute; reflexivity|].
  destruct (gpu_encoding_fails 0 wit_gpu) as (Hp & _); [reflexivity|vm_compute; reflexivity|exact Hp].
Defined.

Lemma device_stream_fails_witness :
  av_have_video (e_base wit_conf) || av_have_audio (e_base wit_conf) = true /\
  no_pipeline (CreatePipeLine (InitPipeline (DeviceStreamBuilder 0 wit_conf))).
Proof. split; [reflexivity|]. apply device_stream_fails. reflexivity. Defined.

Definition wit_mp3 := wit_encoding X264_ENC LAME_MP3_ENC ["udp://host:1234"].

Lemma rtp_outputs_fail_witness :
  no_pipeline (CreatePipeLine (InitPipeline (EncodingStreamBuilder 0 wit_mp3))).
Proof.
  apply (rtp_outputs_fail 0 wit_mp3 (wit_out "udp://host:1234")).
  - left.
  - vm_compute; reflexivity.
  - vm_compute; reflexivity.
  - reflexivity.
  - right. split; reflexivity.
Defined.

(** The second output of the stream is fed. *)
Lemma outputs_are_fed_witness :
  exists p, rtc (linked (link_names p)) (UDB_VIDEO_NAME_1U 0) (SINK_NAME_1U 1).
Proof.
  destruct (CreatePipeLine (InitPipeline (EncodingStreamBuilder 0 wit_conf))).1 as [[p|]| |] eqn:Hp;
    [|vm_compute in Hp; discriminate Hp..].
  exists p. apply (outputs_are_fed 0 wit_conf p 1 (wit_out "http://host/live.m3u8") Hp);
    [right; left | vm_compute; reflexivity | reflexivity].
Defined.
End Witnesses.
