(* ===== verification/Mosaic.v ===== *)
(** * Mosaic streams

    [src/src/stream/streams/builders/mosaic_stream_builder.cpp] and
    [src/src/stream/streams/mosaic_options.cpp]: several inputs mixed into one
    picture, each in its tile, and one sound; every output has encoders of its
    own. The stream itself, which draws the levels of the sound, is
    [MosaicStream]. *)

From S2P Require Import Prelude Platform StreamTypes Constants Uris Options Configs Gst Elements Builders Pipelines PipelineSpec.

Section MosaicBuilder.
Context `{JsonC} `{UrlLib} `{PathLib} `{UnnamedCodes} `{GstLib}.
Variable now : Z.

(* [src/src/stream/streams/mosaic_options.cpp:25-27 MosaicImageOptions::isValid] *)
Definition MosaicImageOptions_isValid (o : MosaicImageOptions) : bool :=
  negb ((screen_size o).1 =? 0)%Z && negb ((screen_size o).2 =? 0)%Z.

(** [common::MemSPrintf("mux_" VIDEO_SCALE_NAME_1U, id)]. *)
Definition MUX_VIDEO_SCALE_NAME : Z -> string := elem_name "mux_videoscale".
Definition MUX_VIDEO_SCALE_CAPS_FILTER_NAME : Z -> string := elem_name "mux_videoscale_capsfilter".

(* [src/src/stream/streams/builders/mosaic_stream_builder.cpp:45-61 build_mux_video_scale] *)
Definition build_mux_video_scale (sz : Z * Z) (link_to : option element) (video_scale_id : Z) : build element :=
  videoscale ← make_element ELEMENT_VIDEO_SCALE (MUX_VIDEO_SCALE_NAME video_scale_id);
  capsfilter ← make_element ELEMENT_CAPS_FILTER (MUX_VIDEO_SCALE_CAPS_FILTER_NAME video_scale_id);
  ElementAdd videoscale ;;
  ElementAdd capsfilter ;;
  ElementCapsFilter_SetCaps capsfilter (GCaps "video/x-raw" [("width", GInt sz.1); ("height", GInt sz.2)]) ;;
  ElementLink link_to (Some videoscale) ;;
  ElementLink (Some videoscale) (Some capsfilter) ;;
  mret capsfilter.

(** ** The tiles *)

(** [options.screen_size] and [options.right_padding]. *)
(* [src/src/stream/streams/builders/mosaic_stream_builder.cpp:75-77 MosaicStreamBuilder::InitPipeline] *)
Definition mosaic_screen : Z * Z := (1280, 720)%Z.
Definition mosaic_right_padding : Z := 100.

(** Rows and columns. *)
(* [src/src/stream/streams/builders/mosaic_stream_builder.cpp:78-97 MosaicStreamBuilder::InitPipeline] *)
Definition mosaic_grid (sz : nat) : option (Z * Z) :=
  (if Nat.eqb sz 1 then Some (1, 1)
   else if Nat.eqb sz 2 then Some (2, 1)
   else if Nat.eqb sz 4 then Some (2, 2)
   else if Nat.eqb sz 9 then Some (3, 3)
   else if Nat.eqb sz 16 then Some (4, 4)
   else None)%Z.

(** The image of the input in row [r] and column [c]. *)
(* [src/src/stream/streams/builders/mosaic_stream_builder.cpp:130-145 MosaicStreamBuilder::InitPipeline] *)
Definition tile (rows cols r c : Z) : ImageInfo :=
  let w := (mosaic_screen.1 / cols)%Z in
  let h := (mosaic_screen.2 / rows)%Z in
  {| img_x_y := (c * w, r * h)%Z; img_size := (w, h) |}.

(* [src/src/stream/streams/builders/mosaic_stream_builder.cpp:127-150 MosaicStreamBuilder::InitPipeline] *)
Definition build_tile (vmix : element) (image : ImageInfo) (i : Z) : build unit :=
  video_queue ← make_element ELEMENT_QUEUE (UDB_VIDEO_NAME_1U i);
  ElementAdd video_queue ;;
  scale ← build_mux_video_scale (img_size image) (Some video_queue) i;
  video_box ← make_element ELEMENT_VIDEO_BOX (VIDEO_BOX_NAME_1U i);
  ElementAdd video_box ;;
  ElementLink (Some scale) (Some video_box) ;;
  SetProperty video_box "border-alpha" (GDouble (dbl_of_Z 1)) ;;
  ElementLink (Some video_box) (Some vmix) ;;
  let pad_name := elem_name "sink" i in
  if StaticPad vmix pad_name then
    hemit (OnPadProperty vmix pad_name "xpos" (GInt (img_x_y image).1)) ;;
    hemit (OnPadProperty vmix pad_name "ypos" (GInt (img_x_y image).2))
  else mret tt.

(* [src/src/stream/streams/builders/mosaic_stream_builder.cpp:154-162 MosaicStreamBuilder::InitPipeline] *)
Definition build_level (amix : element) (i : Z) : build unit :=
  audio_queue ← make_element ELEMENT_QUEUE (UDB_AUDIO_NAME_1U i);
  ElementAdd audio_queue ;;
  spec ← make_element ELEMENT_LEVEL (AUDIO_LEVEL_NAME_1U i);
  ElementAdd spec ;;
  ElementLink (Some audio_queue) (Some spec) ;;
  ElementLink (Some spec) (Some amix).

(** [prepared[i]]. *)
(* [src/src/stream/streams/builders/mosaic_stream_builder.cpp:111-111 MosaicStreamBuilder::InitPipeline] *)
Definition nth_input (c : Config) (i : Z) : build InputUri :=
  match c_input c !! Z.to_nat i with
  | Some uri => mret uri
  | None => hlift (Abort (UndefinedBehaviour "prepared[i]"))
  end.

(** [ImageInfo()]. *)
Definition no_image : ImageInfo := {| img_x_y := (0, 0)%Z; img_size := (0, 0)%Z |}.

(** The body of the loops. *)
(* [src/src/stream/streams/builders/mosaic_stream_builder.cpp:109-177 MosaicStreamBuilder::InitPipeline] *)
Definition mosaic_input (config : EncodingConfig) (vmix amix : element) (rows cols r c i : Z) : build MosaicStreamInfo :=
  uri ← nth_input (av_base (e_base config)) i;
  src ← make_src uri i src_timeout_sec;
  watch_src (url_get_scheme (iu_input uri)) src i ;;
  ElementAdd src ;;
  decodebin ← make_element ELEMENT_DECODEBIN (DECODEBIN_NAME_1U i);
  ElementAdd decodebin ;;
  ElementLink (Some src) (Some decodebin) ;;
  HandleDecodebinCreated decodebin ;;
  image ← (if av_have_video (e_base config) then
             build_tile vmix (tile rows cols r c) i ;;
             mret (tile rows cols r c)
           else mret no_image);
  (if av_have_audio (e_base config) then build_level amix i else mret tt) ;;
  mret {| img := image; sound_channels := [] |}.

(** The inner loop ends at the last input; the index goes on in the next row. *)
(* [src/src/stream/streams/builders/mosaic_stream_builder.cpp:108-182 MosaicStreamBuilder::InitPipeline] *)
Fixpoint mosaic_cols (cell : Z -> Z -> build MosaicStreamInfo) (sz : nat) (cs : list Z) (i : Z)
    : build (Z * list MosaicStreamInfo) :=
  match cs with
  | [] => mret (i, [])
  | c :: cs' =>
      stream ← cell c i;
      let i := (i + 1)%Z in
      if (i =? Z.of_nat sz)%Z then mret (i, [stream])
      else '(i, streams) ← mosaic_cols cell sz cs' i; mret (i, stream :: streams)
  end.

(* [src/src/stream/streams/builders/mosaic_stream_builder.cpp:106-183 MosaicStreamBuilder::InitPipeline] *)
Fixpoint mosaic_rows (cell : Z -> Z -> Z -> build MosaicStreamInfo) (sz : nat) (cols : Z) (rs : list Z) (i : Z)
    : build (list MosaicStreamInfo) :=
  match rs with
  | [] => mret []
  | r :: rs' =>
      '(i, streams) ← mosaic_cols (cell r) sz (seqZ 0 cols) i;
      rest ← mosaic_rows cell sz cols rs' i;
      mret (streams ++ rest)
  end.

(** ** The outputs *)

(* [src/src/stream/streams/builders/mosaic_stream_builder.cpp:237-245 MosaicStreamBuilder::BuildOutput] *)
Definition mosaic_video_device_sink (config : EncodingConfig) (dt : SinkDeviceType) (i : Z) : build element :=
  video_sink ← make_video_device_sink dt i;
  (if bool_decide (dt = DECKLINK_OUTPUT) && negb (e_decklink_video_mode config =? 1)%Z then
     ElementVideoDeckSink_SetMode video_sink (e_decklink_video_mode config)
   else mret tt) ;;
  mret video_sink.

(** A queue behind the tee and the sink of a device behind it. *)
(* [src/src/stream/streams/builders/mosaic_stream_builder.cpp:230-252 MosaicStreamBuilder::BuildOutput] *)
Definition mosaic_device_branch (queue : string) (mk : build element) (i : Z) (from : option element) : build unit :=
  tee_queue ← make_element ELEMENT_QUEUE queue;
  ElementAdd tee_queue ;;
  ElementLink from (Some tee_queue) ;;
  add_watched_sink mk i (Some tee_queue).

(* [src/src/stream/streams/builders/mosaic_stream_builder.cpp:229-271 MosaicStreamBuilder::BuildOutput] *)
Definition mosaic_device_output (config : EncodingConfig) (dt : SinkDeviceType) (i : Z)
    (video audio : option element) : build unit :=
  (if av_have_video (e_base config) then
     mosaic_device_branch (VIDEO_TEE_QUEUE_NAME_1U i) (mosaic_video_device_sink config dt i) i video
   else mret tt) ;;
  (if av_have_audio (e_base config) then
     mosaic_device_branch (AUDIO_TEE_QUEUE_NAME_1U i) (make_audio_device_sink dt i) i audio
   else mret tt).

(* [src/src/stream/streams/builders/mosaic_stream_builder.cpp:313-322 MosaicStreamBuilder::BuildOutput] *)
Definition mosaic_video_pay (vcodec : string) (i : Z) : build element :=
  if IsH264Encoder vcodec then make_h264_pay 96 i
  else if String.eqb vcodec X265_ENC then make_h265_pay 96 i
  else if String.eqb vcodec MPEG2_ENC then make_mpeg2_pay 96 i
  else hlift (Abort (NotReached "")).

(** Aspect ratio and frame rate of one output. *)
(* [src/src/stream/streams/builders/mosaic_stream_builder.cpp:290-304 MosaicStreamBuilder::BuildOutput] *)
Definition mosaic_post_proc (config : EncodingConfig) (i : Z) (last : option element) : build (option element) :=
  last ← match e_aspect_ratio config with
         | Some aratio =>
             append_element
               (aspect_ratio ← make_element ELEMENT_ASPECT_RATIO (ASPECT_RATIO_NAME_1U i);
                ElementAspectRatio_SetAspectRatio aspect_ratio aratio ;;
                mret aspect_ratio) last
         | None => mret last
         end;
  match e_frame_rate config with
  | Some framerate =>
      if IsMfxGpu config then mret last
      else el ← build_video_framerate framerate last i; mret (Some el)
  | None => mret last
  end.

(** The encoder takes no bit rate from the configuration. *)
(* [src/src/stream/streams/builders/mosaic_stream_builder.cpp:306-310 MosaicStreamBuilder::BuildOutput] *)
Definition mosaic_video_encoder (config : EncodingConfig) (i : Z) : build elements_line_t :=
  r ← build_video_encoder (e_video_encoder config) None (e_video_encoder_args config)
        (e_video_encoder_str_args config) i;
  mret [Some r.1; Some r.2].

(* [src/src/stream/streams/builders/mosaic_stream_builder.cpp:283-335 MosaicStreamBuilder::BuildOutput] *)
Definition mosaic_video_branch (config : EncodingConfig) (i : Z) (is_rtp_out : bool) (from : option element)
    (mux : element) : build unit :=
  let vcodec := e_video_encoder config in
  next ← append_element (make_element ELEMENT_QUEUE (VIDEO_TEE_QUEUE_NAME_1U i)) from;
  last ← mosaic_post_proc config i next;
  next ← link_made_line last (mosaic_video_encoder config i);
  next ← (if is_rtp_out then append_element (mosaic_video_pay vcodec i) next else mret next);
  next ← (if IsH264Encoder vcodec then append_element (make_h264_parser i) next else mret next);
  ElementLink next (Some mux).

(* [src/src/stream/streams/builders/mosaic_stream_builder.cpp:346-367 MosaicStreamBuilder::BuildOutput] *)
Definition mosaic_audio_encoder (config : EncodingConfig) (i : Z) (next : option element) : build (option element) :=
  let audio_encoder_str := e_audio_encoder config in
  audio_encoder ← make_audio_encoder audio_encoder_str (AUDIO_CODEC_NAME_1U i) None;
  ElementAdd audio_encoder ;;
  if String.eqb audio_encoder_str LAME_MP3_ENC then
    audioresample ← make_element ELEMENT_AUDIO_RESAMPLE (AUDIO_RESAMPLE_NAME_1U i);
    mpegaudioparse ← make_element ELEMENT_MPEG_AUDIO_PARSE (MPEG_AUDIO_PARSE_NAME_1U i);
    ElementAdd audioresample ;;
    ElementAdd mpegaudioparse ;;
    ElementLink next (Some audioresample) ;;
    ElementLink (Some audioresample) (Some audio_encoder) ;;
    ElementLink (Some audio_encoder) (Some mpegaudioparse) ;;
    mret (Some mpegaudioparse)
  else
    ElementLink next (Some audio_encoder) ;;
    mret (Some audio_encoder).

(* [src/src/stream/streams/builders/mosaic_stream_builder.cpp:339-376 MosaicStreamBuilder::BuildOutput] *)
Definition mosaic_audio_branch (config : EncodingConfig) (i : Z) (is_rtp_out : bool) (from : option element)
    (mux : element) : build unit :=
  next ← append_element (make_element ELEMENT_QUEUE (AUDIO_TEE_QUEUE_NAME_1U i)) from;
  next ← mosaic_audio_encoder config i next;
  next ← (if is_rtp_out then append_element (make_aac_pay 97 i) next else mret next);
  ElementLink next (Some mux).

(** One turn of the loop over the outputs. *)
(* [src/src/stream/streams/builders/mosaic_stream_builder.cpp:225-381 MosaicStreamBuilder::BuildOutput] *)
Definition mosaic_output (config : EncodingConfig) (video audio : option element) (io : Z * OutputUri) : build unit :=
  let '(i, output) := io in
  match IsDeviceOutUrl (ou_output output) with
  | Some dt => mosaic_device_output config dt i video audio
  | None =>
      let scheme := url_get_scheme (ou_output output) in
      let is_rtp_out := bool_decide (scheme = udp) in
      mux ← make_muxer scheme i;
      ElementAdd mux ;;
      (if av_have_video (e_base config) then mosaic_video_branch config i is_rtp_out video mux else mret tt) ;;
      (if av_have_audio (e_base config) then mosaic_audio_branch config i is_rtp_out audio mux else mret tt) ;;
      sink ← BuildGenericOutput now (av_base (e_base config)) output i;
      ElementAdd sink ;;
      ElementLink (Some mux) (Some sink)
  end.

(* [src/src/stream/streams/builders/mosaic_stream_builder.cpp:220-383 MosaicStreamBuilder::BuildOutput] *)
Definition Mosaic_BuildOutput (config : EncodingConfig) (video audio : option element) : build unit :=
  hact_iter (mosaic_output config video audio) (enumerate (c_output (av_base (e_base config)))).

(** ** The whole *)

(** The mixed picture with its overlay. *)
(* [src/src/stream/streams/builders/mosaic_stream_builder.cpp:187-202 MosaicStreamBuilder::InitPipeline] *)
Definition mosaic_video_line (config : EncodingConfig) (options : MosaicImageOptions) (video : option element)
    : build (option element) :=
  cairo ← make_element ELEMENT_CAIRO_OVERLAY (CAIRO_NAME_1U 0);
  ElementAdd cairo ;;
  ElementLink video (Some cairo) ;;
  hemit (OnCairoCreated cairo options) ;;
  first_last ← build_video_convert (e_deinterlace config) 0;
  ElementLink (Some cairo) (Some first_last.1) ;;
  append_element (make_element ELEMENT_TEE (VIDEO_TEE_NAME_1U 0)) (Some first_last.2).

(* [src/src/stream/streams/builders/mosaic_stream_builder.cpp:205-214 MosaicStreamBuilder::InitPipeline] *)
Definition mosaic_audio_line (config : EncodingConfig) (audio : option element) : build (option element) :=
  first_last ← build_audio_converters (e_volume config) (e_audio_channels_count config) 0;
  ElementLink audio (Some first_last.1) ;;
  append_element (make_element ELEMENT_TEE (AUDIO_TEE_NAME_1U 0)) (Some first_last.2).

(** The mixers and the inputs. *)
(* [src/src/stream/streams/builders/mosaic_stream_builder.cpp:99-183 MosaicStreamBuilder::InitPipeline] *)
Definition mosaic_inputs (config : EncodingConfig) (rows cols : Z) : build (element * element * MosaicImageOptions) :=
  vmix ← make_element ELEMENT_VIDEO_MIXER (VIDEOMIXER_NAME_1U 0);
  ElementAdd vmix ;;
  amix ← make_element ELEMENT_AUDIO_MIXER (INTERLIVE_NAME_1U 0);
  ElementAdd amix ;;
  streams ← mosaic_rows (fun r c i => mosaic_input config vmix amix rows cols r c i)
              (length (c_input (av_base (e_base config)))) cols (seqZ 0 rows) 0;
  mret (vmix, amix, {| screen_size := mosaic_screen; right_padding := mosaic_right_padding; sreams := streams |}).

(* [src/src/stream/streams/builders/mosaic_stream_builder.cpp:70-218 MosaicStreamBuilder::InitPipeline] *)
Definition Mosaic_InitPipeline (config : EncodingConfig) : build bool :=
  match mosaic_grid (length (c_input (av_base (e_base config)))) with
  | None => mret false
  | Some (rows, cols) =>
      '(vmix, amix, options) ← mosaic_inputs config rows cols;
      conn ← map_conn (e_base config) (mosaic_video_line config options) (mosaic_audio_line config)
               {| conn_video := Some vmix; conn_audio := Some amix |};
      Mosaic_BuildOutput config (conn_video conn) (conn_audio conn) ;;
      mret true
  end.
End MosaicBuilder.

(** ** What the builder builds *)

Section MosaicPipeline.
Context `{JsonC} `{UrlLib} `{PathLib} `{UnnamedCodes} `{GstLib} `{!GstLibOk}.
Variable now : Z.

Definition tile_chain (i : Z) : list string :=
  [UDB_VIDEO_NAME_1U i; MUX_VIDEO_SCALE_NAME i; MUX_VIDEO_SCALE_CAPS_FILTER_NAME i; VIDEO_BOX_NAME_1U i].
Definition level_chain (i : Z) : list string := [UDB_AUDIO_NAME_1U i; AUDIO_LEVEL_NAME_1U i].

Lemma build_tile_builds vmix image i :
  named (VIDEOMIXER_NAME_1U 0) vmix ->
  builds (build_tile vmix image i) (tile_chain i) (chain_links (tile_chain i ++ [VIDEOMIXER_NAME_1U 0])) (fun _ => True).
Proof.
  intros Hm. unfold build_tile, build_mux_video_scale, ElementCapsFilter_SetCaps. build_all.
Qed.

Lemma build_level_builds amix i :
  named (INTERLIVE_NAME_1U 0) amix ->
  builds (build_level amix i) (level_chain i) (chain_links (level_chain i ++ [INTERLIVE_NAME_1U 0])) (fun _ => True).
Proof. intros Hm. unfold build_level. build_all. Qed.

Definition mosaic_input_names (config : AudioVideoConfig) (i : Z) : list string :=
  [SRC_NAME_1U i; DECODEBIN_NAME_1U i] ++
  when (av_have_video config) (tile_chain i) ++ when (av_have_audio config) (level_chain i).
Definition mosaic_input_links (config : AudioVideoConfig) (i : Z) : list (string * string) :=
  [(SRC_NAME_1U i, DECODEBIN_NAME_1U i)] ++
  when (av_have_video config) (chain_links (tile_chain i ++ [VIDEOMIXER_NAME_1U 0])) ++
  when (av_have_audio config) (chain_links (level_chain i ++ [INTERLIVE_NAME_1U 0])).
Definition nth_input_ok (c : Config) (i : Z) : bool :=
  from_option src_ok false (c_input c !! Z.to_nat i).

(** What the stream is told about an input. *)
Definition tile_info (config : AudioVideoConfig) (rows cols r c : Z) : MosaicStreamInfo :=
  {| img := if av_have_video config then tile rows cols r c else no_image; sound_channels := [] |}.

Lemma mosaic_input_realizes config vmix amix rows cols r c i :
  named (VIDEOMIXER_NAME_1U 0) vmix -> named (INTERLIVE_NAME_1U 0) amix ->
  realizes (mosaic_input config vmix amix rows cols r c i) (nth_input_ok (av_base (e_base config)) i)
    (mosaic_input_names (e_base config) i) (mosaic_input_links (e_base config) i)
    (eq (tile_info (e_base config) rows cols r c)).
Proof.
  intros Hv Ha. unfold mosaic_input, nth_input, nth_input_ok, mosaic_input_names, mosaic_input_links, tile_info.
  destruct (c_input _ !! _) as [uri|]; [|apply stuck_bind, stuck_abort]. cbn [from_option].
  rewrite <- (andb_true_l (src_ok uri)). apply (realizes_skip _ _ true _ _ _ (eq uri)); [by apply builds_ret|]. intros ? <-.
  apply (realizes_then _ _ _ [] _ [] _ _ _ (make_src_realizes uri i src_timeout_sec)). intros src Hs.
  eapply builds_skip; [apply watch_src_builds|]. intros _ _.
  eapply (builds_bind _ _ [_] _ []); [by apply ElementAdd_builds|]. intros _ _.
  eapply builds_skip; [apply make_named_builds|]. intros dec Hd.
  eapply (builds_bind _ _ [_] _ []); [by apply ElementAdd_builds|]. intros _ _.
  eapply (builds_bind _ _ [] _ [_]); [apply ElementLink_builds; [by exists src|by exists dec]|]. intros _ _.
  eapply builds_skip; [apply builds_emit|]. intros _ _.
  eapply (builds_bind _ _ _ _ _ _ (eq (if av_have_video (e_base config) then tile rows cols r c else no_image))).
  { destruct (av_have_video _); [|by apply builds_ret].
    eapply builds_last; [by apply build_tile_builds|]. intros _ _. by apply builds_ret. }
  intros ? <-. eapply builds_last with (P := fun _ => True); [|intros _ _; by apply builds_ret].
  destruct (av_have_audio _); [by apply build_level_builds|by apply builds_ret].
Qed.

(** The loops run over the cells in the order of the inputs. *)
Lemma mosaic_cols_realizes (cell : Z -> Z -> build MosaicStreamInfo) sz ok ns ls info cs i :
  (forall c k, realizes (cell c k) (ok k) (ns k) (ls k) (eq (info c))) ->
  (i + Z.of_nat (length cs) <= Z.of_nat sz)%Z ->
  realizes (mosaic_cols cell sz cs i) (forallb ok (seqZ i (Z.of_nat (length cs))))
    (seqZ i (Z.of_nat (length cs)) ≫= ns) (seqZ i (Z.of_nat (length cs)) ≫= ls)
    (eq ((i + Z.of_nat (length cs))%Z, info <$> cs)).
Proof.
  intros Hcell. revert i. induction cs as [|c cs IH]; intros i Hle.
  { cbn. rewrite Z.add_0_r. by apply builds_ret. }
  cbn [length] in *. rewrite Nat2Z.inj_succ in *. rewrite seqZ_cons, Z.pred_succ by lia.
  cbn [forallb mosaic_cols]. rewrite !bind_cons. eapply realizes_bind; [apply Hcell|]. intros ? <-. cbn zeta.
  destruct (Z.eqb_spec (i + 1) (Z.of_nat sz)) as [He|He].
  - destruct cs; [|cbn [length] in Hle; lia]. cbn. by apply builds_ret.
  - eapply realizes_last; [apply (IH (Z.succ i)); lia|]. intros ? <-. apply builds_ret. f_equal. lia.
Qed.

Lemma mosaic_rows_realizes (cell : Z -> Z -> Z -> build MosaicStreamInfo) sz ok ns ls info cols rs i :
  (forall r c k, realizes (cell r c k) (ok k) (ns k) (ls k) (eq (info r c))) -> (0 <= cols)%Z ->
  (i + Z.of_nat (length rs) * cols <= Z.of_nat sz)%Z ->
  realizes (mosaic_rows cell sz cols rs i) (forallb ok (seqZ i (Z.of_nat (length rs) * cols)))
    (seqZ i (Z.of_nat (length rs) * cols) ≫= ns) (seqZ i (Z.of_nat (length rs) * cols) ≫= ls)
    (eq (rs ≫= fun r => info r <$> seqZ 0 cols)).
Proof.
  intros Hcell Hc. revert i. induction rs as [|r rs IH]; intros i Hle.
  { cbn. by apply builds_ret. }
  cbn [length] in *. rewrite Nat2Z.inj_succ, Z.mul_succ_l, Z.add_comm in *. rewrite seqZ_app by lia.
  cbn [mosaic_rows]. rewrite forallb_app, !bind_app, bind_cons.
  assert (Hl : Z.of_nat (length (seqZ 0 cols)) = cols) by (rewrite length_seqZ; lia).
  eapply realizes_bind.
  { pose proof (mosaic_cols_realizes (cell r) sz ok ns ls (info r) (seqZ 0 cols) i (Hcell r)) as Hm.
    rewrite Hl in Hm. apply Hm. lia. }
  intros ? <-. eapply realizes_last; [apply IH; lia|]. intros ? <-. by apply builds_ret.
Qed.

Lemma mosaic_grid_size sz rows cols :
  mosaic_grid sz = Some (rows, cols) -> (0 <= cols)%Z /\ (0 <= rows)%Z /\ (rows * cols = Z.of_nat sz)%Z.
Proof.
  unfold mosaic_grid.
  repeat match goal with |- context [Nat.eqb sz ?n] => destruct (Nat.eqb_spec sz n) as [->|_]; [intros [= <- <-]; lia|] end.
  done.
Qed.

Lemma nth_input_all c :
  forallb (nth_input_ok c) (seqZ 0 (Z.of_nat (length (c_input c)))) = forallb src_ok (c_input c).
Proof.
  apply eq_true_iff_eq. rewrite !forallb_forall. split.
  - intros Hf u (k & Hk)%list_elem_of_In%list_elem_of_lookup.
    specialize (Hf (Z.of_nat k)). unfold nth_input_ok in Hf. rewrite Nat2Z.id, Hk in Hf. apply Hf, list_elem_of_In, elem_of_seqZ.
    apply lookup_lt_Some in Hk. lia.
  - intros Hf k (Hk0 & Hk)%list_elem_of_In%elem_of_seqZ. unfold nth_input_ok.
    destruct (c_input c !! Z.to_nat k) as [u|] eqn:Hu; cbn.
    + apply Hf, list_elem_of_In. by eapply list_elem_of_lookup_2.
    + apply lookup_ge_None in Hu. lia.
Qed.

(** The tiles of the inputs, row by row. *)
Definition mosaic_options (config : AudioVideoConfig) (rows cols : Z) : MosaicImageOptions := {|
  screen_size := mosaic_screen; right_padding := mosaic_right_padding;
  sreams := seqZ 0 rows ≫= fun r => tile_info config rows cols r <$> seqZ 0 cols
|}.

Lemma mosaic_inputs_realizes config rows cols :
  let c := av_base (e_base config) in
  let ids := seqZ 0 (Z.of_nat (length (c_input c))) in
  mosaic_grid (length (c_input c)) = Some (rows, cols) ->
  realizes (mosaic_inputs config rows cols) (forallb src_ok (c_input c))
    ([VIDEOMIXER_NAME_1U 0; INTERLIVE_NAME_1U 0] ++ (ids ≫= mosaic_input_names (e_base config)))
    (ids ≫= mosaic_input_links (e_base config))
    (fun r => named (VIDEOMIXER_NAME_1U 0) r.1.1 /\ named (INTERLIVE_NAME_1U 0) r.1.2 /\
              r.2 = mosaic_options (e_base config) rows cols).
Proof.
  intros c ids Hg. apply mosaic_grid_size in Hg as (Hc & Hr & Hsz). unfold mosaic_inputs.
  eapply (builds_then _ _ _ [] _ []); [apply make_named_builds|]. intros vmix Hv.
  eapply (builds_then _ _ _ [_] _ []); [by apply ElementAdd_builds|]. intros _ _.
  eapply (builds_then _ _ _ [] _ []); [apply make_named_builds|]. intros amix Ha.
  eapply (builds_then _ _ _ [_] _ []); [by apply ElementAdd_builds|]. intros _ _.
  rewrite <- nth_input_all.
  assert (Hl : (Z.of_nat (length (seqZ 0 rows)) * cols)%Z = Z.of_nat (length (c_input c))) by (rewrite length_seqZ; lia).
  pose proof (mosaic_rows_realizes (fun r c i => mosaic_input config vmix amix rows cols r c i) (length (c_input c))
    (nth_input_ok c) (mosaic_input_names (e_base config)) (mosaic_input_links (e_base config))
    (tile_info (e_base config) rows cols) cols (seqZ 0 rows) 0) as Hm.
  rewrite Hl in Hm. eapply realizes_last.
  { apply Hm; [intros; by apply mosaic_input_realizes|lia..]. }
  intros ? <-. by apply builds_ret.
Qed.

(** ** The lines and the outputs *)

Definition mosaic_video_tail (config : EncodingConfig) : list string :=
  [CAIRO_NAME_1U 0; VIDEO_CONVERT_NAME_1U 0] ++ video_convert_tail (e_deinterlace config) 0 ++ [VIDEO_TEE_NAME_1U 0].
Definition mosaic_audio_tail (config : EncodingConfig) : list string :=
  [AUDIO_CONVERT_NAME_1U 0] ++ audio_convert_tail (e_volume config) (e_audio_channels_count config) 0 ++
  [AUDIO_TEE_NAME_1U 0].

(** A line that is linked behind [from] and ends in a tee. *)
Lemma line_tee_extends (mk : build (element * element)) a tail x from tee :
  builds mk (a :: tail) (chain_links (a :: tail)) (line_ends a tail) -> conn_named x from ->
  extends conn_named
    (first_last ← mk;
     ElementLink from (Some first_last.1) ;;
     append_element (make_element ELEMENT_TEE tee) (Some first_last.2)) true x ((a :: tail) ++ [tee]).
Proof.
  intros Hm Hx. unfold extends. rewrite last_snoc. cbn [realizes].
  eapply builds_perm.
  - eapply builds_bind; [exact Hm|]. intros [e1 e2] [He1 He2]. cbn [fst snd] in *.
    eapply builds_bind; [apply ElementLink_builds; [exact Hx|by exists e1]|]. intros _ _.
    apply (append_element_extends _ _ (List.last tail a)); [apply make_named_builds|by exists e2].
  - by cbn.
  - cbn [app]. rewrite (chain_links_cons x a), (chain_links_app a tail). solve_Permutation.
Qed.

Lemma mosaic_video_line_extends config options x from :
  conn_named x from -> extends conn_named (mosaic_video_line config options from) true x (mosaic_video_tail config).
Proof.
  intros Hx. unfold mosaic_video_line, mosaic_video_tail.
  set (t := video_convert_tail _ _ ++ _). unfold extends. cbn [app realizes]. rewrite !last_cons, !chain_links_cons.
  eapply builds_skip; [apply make_named_builds|]. intros cairo Hc.
  eapply (builds_bind _ _ [_] _ []); [by apply ElementAdd_builds|]. intros _ _.
  eapply (builds_bind _ _ [] _ [_]); [apply ElementLink_builds; [done|by exists cairo]|]. intros _ _.
  eapply builds_skip; [apply builds_emit|]. intros _ _.
  pose proof (line_tee_extends (build_video_convert (e_deinterlace config) 0) (VIDEO_CONVERT_NAME_1U 0)
    (video_convert_tail (e_deinterlace config) 0) (CAIRO_NAME_1U 0) (Some cairo) (VIDEO_TEE_NAME_1U 0)) as Hl.
  unfold extends in Hl. cbn [app realizes] in Hl. rewrite last_cons, chain_links_cons in Hl.
  apply Hl; [apply build_video_convert_builds|by exists cairo].
Qed.

Lemma mosaic_audio_line_extends config x from :
  conn_named x from -> extends conn_named (mosaic_audio_line config from) true x (mosaic_audio_tail config).
Proof. intros Hx. apply line_tee_extends; [apply build_audio_converters_builds|done]. Qed.

Definition mosaic_post_chain (config : EncodingConfig) (i : Z) : list string :=
  (if e_aspect_ratio config is Some _ then [ASPECT_RATIO_NAME_1U i] else []) ++
  (if e_frame_rate config is Some _ then
     when (negb (IsMfxGpu config)) [VIDEO_RATE_NAME_1U i; VIDEO_RATE_CAPS_FILTER_NAME_1U i] else []).
Definition mosaic_codec_chain (config : EncodingConfig) (i : Z) : list string :=
  VIDEO_CODEC_NAME_1U i :: encoder_caps (e_video_encoder config) (e_video_encoder_str_args config) i.
Definition mosaic_video_chain (config : EncodingConfig) (i : Z) (rtp : bool) : list string :=
  [VIDEO_TEE_QUEUE_NAME_1U i] ++ mosaic_post_chain config i ++ mosaic_codec_chain config i ++
  when rtp [VIDEO_PAY_NAME_1U i] ++ when (IsH264Encoder (e_video_encoder config)) [VIDEO_PARSER_NAME_1U i].
Definition mosaic_encoder_chain (config : EncodingConfig) (i : Z) : list string :=
  if String.eqb (e_audio_encoder config) LAME_MP3_ENC
  then [AUDIO_RESAMPLE_NAME_1U i; AUDIO_CODEC_NAME_1U i; MPEG_AUDIO_PARSE_NAME_1U i] else [AUDIO_CODEC_NAME_1U i].
Definition mosaic_audio_chain (config : EncodingConfig) (i : Z) (rtp : bool) : list string :=
  [AUDIO_TEE_QUEUE_NAME_1U i] ++ mosaic_encoder_chain config i ++ when rtp [AUDIO_PAY_NAME_1U i].

Lemma extends_when (m : option element -> build (option element)) b x from c ok :
  conn_named x from -> (b = true -> extends conn_named (m from) ok x c) ->
  extends conn_named (if b then m from else mret from) (implb b ok) x (when b c).
Proof. intros Hx Hm. destruct b; [by apply Hm|by apply extends_ret]. Qed.

Lemma mosaic_post_proc_extends config i x from :
  conn_named x from -> extends conn_named (mosaic_post_proc config i from) true x (mosaic_post_chain config i).
Proof.
  intros Hx. unfold mosaic_post_proc, mosaic_post_chain. apply (extends_bind conn_named conn_named _ _ true true).
  { destruct (e_aspect_ratio config) as [a|]; [|by apply extends_ret].
    apply append_element_extends; [|done]. unfold ElementAspectRatio_SetAspectRatio. build_all. }
  intros last Hl. destruct (e_frame_rate config) as [r|]; [|by apply extends_ret].
  destruct (IsMfxGpu config); [by apply extends_ret|]. destruct Hl as (el & -> & Hel).
  unfold extends. eapply realizes_last; [by apply build_video_framerate_extends|]. intros e He. apply builds_ret. by exists e.
Qed.

Lemma mosaic_video_pay_realizes vcodec i :
  realizes (mosaic_video_pay vcodec i)
    (IsH264Encoder vcodec || String.eqb vcodec X265_ENC || String.eqb vcodec MPEG2_ENC) [] [] (named (VIDEO_PAY_NAME_1U i)).
Proof.
  unfold mosaic_video_pay. destruct (IsH264Encoder vcodec); [apply (src_make_video_pay_builds VIDEO_H264_CODEC)|].
  destruct (String.eqb vcodec X265_ENC); [apply (src_make_video_pay_builds VIDEO_H265_CODEC)|].
  destruct (String.eqb vcodec MPEG2_ENC); [apply (src_make_video_pay_builds VIDEO_MPEG_CODEC)|apply stuck_abort].
Qed.

Lemma append_realizes_extends mk ok n x from :
  realizes mk ok [] [] (named n) -> conn_named x from -> extends conn_named (append_element mk from) ok x [n].
Proof.
  intros Hm Hx. destruct ok; [by apply append_element_extends|]. by apply stuck_bind.
Qed.

Definition mosaic_pay_ok (config : EncodingConfig) : bool := is_ok (Encoding_GetVideoCodecType config).

Lemma mosaic_pay_ok_spec config :
  mosaic_pay_ok config =
  IsH264Encoder (e_video_encoder config) || String.eqb (e_video_encoder config) X265_ENC ||
  String.eqb (e_video_encoder config) MPEG2_ENC.
Proof.
  unfold mosaic_pay_ok, Encoding_GetVideoCodecType. cbn zeta.
  destruct (IsH264Encoder _), (String.eqb _ X265_ENC), (String.eqb _ MPEG2_ENC); reflexivity.
Qed.

(** A line that ends in an element [mx] which is already there. *)
Definition leads_to {A} (m : build A) (ok : bool) (x : string) (c : list string) (mx : string) : Prop :=
  realizes m ok c (chain_links (x :: c ++ [mx])) (fun _ => True).

Lemma leads_to_bind {A B} (N : string -> A -> Prop) (m : build A) (f : A -> build B) ok1 ok2 x c1 c2 mx :
  extends N m ok1 x c1 -> (forall a, N (List.last c1 x) a -> leads_to (f a) ok2 (List.last c1 x) c2 mx) ->
  leads_to (m ≫= f) (ok1 && ok2) x (c1 ++ c2) mx.
Proof.
  unfold extends, leads_to. intros Hm Hf. rewrite <- app_assoc, chain_links_app. by eapply realizes_bind.
Qed.

Lemma leads_to_mux x next mx mux :
  conn_named x next -> named mx mux -> leads_to (ElementLink next (Some mux)) true x [] mx.
Proof. intros Hn Hm. apply ElementLink_builds; [done|by exists mux]. Qed.

Lemma mosaic_video_encoder_line config i :
  makes_line (mosaic_video_encoder config i) (video_encoder_ok (e_video_encoder config) None)
    (VIDEO_CODEC_NAME_1U i) (encoder_caps (e_video_encoder config) (e_video_encoder_str_args config) i).
Proof. apply makes_line_ends, build_video_encoder_realizes. Qed.

Lemma mosaic_video_branch_leads config i rtp x from mux :
  conn_named x from -> named (MUXER_NAME_1U i) mux ->
  leads_to (mosaic_video_branch config i rtp from mux)
    (video_encoder_ok (e_video_encoder config) None && implb rtp (mosaic_pay_ok config)) x
    (mosaic_video_chain config i rtp) (MUXER_NAME_1U i).
Proof.
  intros Hx Hm. unfold mosaic_video_branch, mosaic_video_chain. cbn zeta.
  apply (leads_to_bind conn_named _ _ true); [apply append_element_extends; [apply make_named_builds|done]|].
  intros q Hq. apply (leads_to_bind conn_named _ _ true); [by apply mosaic_post_proc_extends|].
  intros p Hp. eapply (leads_to_bind conn_named).
  { apply link_line_extends; [apply mosaic_video_encoder_line|done]. }
  intros e He. rewrite <- (andb_true_r (implb _ _)). eapply (leads_to_bind conn_named).
  { apply extends_when; [done|]. intros _. apply append_realizes_extends; [|done].
    rewrite mosaic_pay_ok_spec. apply mosaic_video_pay_realizes. }
  intros y Hy. rewrite <- (app_nil_r (when (IsH264Encoder _) _)), <- (andb_true_r true).
  eapply (leads_to_bind conn_named); [|intros z Hz; by apply leads_to_mux].
  destruct (IsH264Encoder _); [apply append_element_extends; [apply make_named_builds|done]|by apply extends_ret].
Qed.

Lemma mosaic_audio_encoder_extends config i x from :
  conn_named x from ->
  extends conn_named (mosaic_audio_encoder config i from) (audio_encoder_ok (e_audio_encoder config) None) x
    (mosaic_encoder_chain config i).
Proof.
  intros Hx. unfold mosaic_audio_encoder, mosaic_encoder_chain, extends. cbn zeta.
  rewrite <- (andb_true_r (audio_encoder_ok _ _)).
  apply (realizes_skip _ _ _ _ _ _ _ _ (make_audio_encoder_realizes _ _ _)). intros enc Henc. cbn [realizes].
  destruct (String.eqb _ LAME_MP3_ENC); build_all.
Qed.

Lemma mosaic_audio_branch_leads config i rtp x from mux :
  conn_named x from -> named (MUXER_NAME_1U i) mux ->
  leads_to (mosaic_audio_branch config i rtp from mux) (audio_encoder_ok (e_audio_encoder config) None) x
    (mosaic_audio_chain config i rtp) (MUXER_NAME_1U i).
Proof.
  intros Hx Hm. unfold mosaic_audio_branch, mosaic_audio_chain.
  apply (leads_to_bind conn_named _ _ true (audio_encoder_ok (e_audio_encoder config) None));
    [apply append_element_extends; [apply make_named_builds|done]|].
  intros q Hq. rewrite <- (andb_true_r (audio_encoder_ok _ _)).
  eapply (leads_to_bind conn_named); [by apply mosaic_audio_encoder_extends|].
  intros e He. rewrite <- (app_nil_r (when rtp _)). apply (leads_to_bind conn_named _ _ true true);
    [|intros z Hz; by apply leads_to_mux].
  destruct rtp; [apply append_element_extends; [apply (src_make_audio_pay_builds AUDIO_AAC_CODEC)|done]|by apply extends_ret].
Qed.

Definition mosaic_device_chain (queue sink : string) : list string := [queue; sink].

Lemma mosaic_device_branch_builds queue sink mk i x from :
  builds mk [] [] (named sink) -> conn_named x from ->
  builds (mosaic_device_branch queue mk i from) (mosaic_device_chain queue sink)
    (chain_links (x :: mosaic_device_chain queue sink)) (fun _ => True).
Proof.
  intros Hmk Hx. unfold mosaic_device_branch, mosaic_device_chain, add_watched_sink.
  eapply builds_perm; [|done|reflexivity].
  eapply builds_skip; [apply make_named_builds|]. intros q Hq.
  eapply (builds_bind _ _ [_] _ []); [by apply ElementAdd_builds|]. intros _ _.
  eapply (builds_bind _ _ [] _ [_]); [apply ElementLink_builds; [done|by exists q]|]. intros _ _.
  eapply builds_skip; [exact Hmk|]. intros el Hel. build_all.
Qed.

Lemma mosaic_video_device_sink_builds config dt i :
  builds (mosaic_video_device_sink config dt i) [] [] (named (VIDEO_SINK_NAME_1U i)).
Proof.
  unfold mosaic_video_device_sink. eapply builds_skip with (P := named (VIDEO_SINK_NAME_1U i)).
  { destruct dt; apply make_named_builds. }
  intros el Hel. build_all.
Qed.

Lemma make_audio_device_sink_builds dt i :
  builds (make_audio_device_sink dt i) [] [] (named (AUDIO_SINK_NAME_1U i)).
Proof. destruct dt; apply make_named_builds. Qed.

(** The elements and links of one output, and what it needs. *)
Definition mosaic_output_names (config : EncodingConfig) (io : Z * OutputUri) : list string :=
  let '(i, o) := io in
  let c := e_base config in
  if IsDeviceOutUrl (ou_output o) is Some _ then
    when (av_have_video c) [VIDEO_TEE_QUEUE_NAME_1U i; VIDEO_SINK_NAME_1U i] ++
    when (av_have_audio c) [AUDIO_TEE_QUEUE_NAME_1U i; AUDIO_SINK_NAME_1U i]
  else [MUXER_NAME_1U i] ++ when (av_have_video c) (mosaic_video_chain config i (is_rtp o)) ++
       when (av_have_audio c) (mosaic_audio_chain config i (is_rtp o)) ++ [SINK_NAME_1U i].
Definition mosaic_output_links (config : EncodingConfig) (io : Z * OutputUri) : list (string * string) :=
  let '(i, o) := io in
  let c := e_base config in
  if IsDeviceOutUrl (ou_output o) is Some _ then
    when (av_have_video c) (chain_links [VIDEO_TEE_NAME_1U 0; VIDEO_TEE_QUEUE_NAME_1U i; VIDEO_SINK_NAME_1U i]) ++
    when (av_have_audio c) (chain_links [AUDIO_TEE_NAME_1U 0; AUDIO_TEE_QUEUE_NAME_1U i; AUDIO_SINK_NAME_1U i])
  else when (av_have_video c)
         (chain_links (VIDEO_TEE_NAME_1U 0 :: mosaic_video_chain config i (is_rtp o) ++ [MUXER_NAME_1U i])) ++
       when (av_have_audio c)
         (chain_links (AUDIO_TEE_NAME_1U 0 :: mosaic_audio_chain config i (is_rtp o) ++ [MUXER_NAME_1U i])) ++
       [(MUXER_NAME_1U i, SINK_NAME_1U i)].
Definition mosaic_output_ok (config : EncodingConfig) (io : Z * OutputUri) : bool :=
  let '(_, o) := io in
  let c := e_base config in
  if IsDeviceOutUrl (ou_output o) is Some _ then true
  else mux_ok (url_get_scheme (ou_output o)) &&
       (implb (av_have_video c)
          (video_encoder_ok (e_video_encoder config) None && implb (is_rtp o) (mosaic_pay_ok config)) &&
        (implb (av_have_audio c) (audio_encoder_ok (e_audio_encoder config) None) && sink_ok o)).

Lemma mosaic_output_realizes config video audio io :
  conn_ok (e_base config) (VIDEO_TEE_NAME_1U 0) (AUDIO_TEE_NAME_1U 0) {| conn_video := video; conn_audio := audio |} ->
  realizes (mosaic_output now config video audio io) (mosaic_output_ok config io)
    (mosaic_output_names config io) (mosaic_output_links config io) (fun _ => True).
Proof.
  destruct io as [i o]. intros [Hv Ha]. unfold mosaic_output, mosaic_output_ok, mosaic_output_names, mosaic_output_links.
  cbn [conn_video conn_audio] in *. destruct (IsDeviceOutUrl (ou_output o)) as [dt|].
  { unfold mosaic_device_output. eapply (realizes_bind _ _ true true) with (P := fun _ => True).
    - destruct (av_have_video _); [|by apply builds_ret].
      apply mosaic_device_branch_builds; [apply mosaic_video_device_sink_builds|by apply Hv].
    - intros _ _. destruct (av_have_audio _); [|by apply builds_ret].
      apply mosaic_device_branch_builds; [apply make_audio_device_sink_builds|by apply Ha]. }
  cbn zeta. fold (is_rtp o). apply (realizes_skip _ _ _ _ _ _ _ _ (make_muxer_realizes _ i)). intros mux Hmux.
  eapply builds_then with (l1 := []); [by apply ElementAdd_builds|]. intros _ _.
  eapply realizes_bind with (P := fun _ => True).
  { apply realizes_when. intros Hhv. apply mosaic_video_branch_leads; [by apply Hv|done]. }
  intros _ _. eapply realizes_bind with (P := fun _ => True).
  { apply realizes_when. intros Hha. apply mosaic_audio_branch_leads; [by apply Ha|done]. }
  intros _ _. eapply realizes_then with (n1 := []) (l1 := []); [apply BuildGenericOutput_realizes|].
  intros sink Hsink. build_all.
Qed.

(** ** The whole pipeline *)

Definition mosaic_ids (config : EncodingConfig) : list Z :=
  seqZ 0 (Z.of_nat (length (c_input (av_base (e_base config))))).
Definition mosaic_outs (config : EncodingConfig) : list (Z * OutputUri) :=
  enumerate (c_output (av_base (e_base config))).

Definition mosaic_ok (config : EncodingConfig) : bool :=
  forallb src_ok (c_input (av_base (e_base config))) && forallb (mosaic_output_ok config) (mosaic_outs config).
Definition mosaic_names (config : EncodingConfig) : list string :=
  let c := e_base config in
  ([VIDEOMIXER_NAME_1U 0; INTERLIVE_NAME_1U 0] ++
   when (av_have_video c) (mosaic_video_tail config) ++ when (av_have_audio c) (mosaic_audio_tail config)) ++
  (mosaic_ids config ≫= mosaic_input_names c) ++ (mosaic_outs config ≫= mosaic_output_names config).
Definition mosaic_links (config : EncodingConfig) : list (string * string) :=
  let c := e_base config in
  (mosaic_ids config ≫= mosaic_input_links c) ++
  when (av_have_video c) (chain_links (VIDEOMIXER_NAME_1U 0 :: mosaic_video_tail config)) ++
  when (av_have_audio c) (chain_links (INTERLIVE_NAME_1U 0 :: mosaic_audio_tail config)) ++
  (mosaic_outs config ≫= mosaic_output_links config).

Lemma Mosaic_InitPipeline_realizes config rows cols :
  mosaic_grid (length (c_input (av_base (e_base config)))) = Some (rows, cols) ->
  realizes (Mosaic_InitPipeline now config) (mosaic_ok config) (mosaic_names config) (mosaic_links config) (eq true).
Proof.
  intros Hg. unfold Mosaic_InitPipeline. rewrite Hg. eapply (realizes_conv _ _ _ _ _ _ _ (eq true)).
  - eapply realizes_bind; [by apply mosaic_inputs_realizes|]. intros [[vmix amix] options] (Hv & Ha & _).
    cbn [fst snd] in Hv, Ha. eapply realizes_bind.
    { apply (map_conn_step (e_base config) _ _ true true (VIDEOMIXER_NAME_1U 0) (INTERLIVE_NAME_1U 0)
               (mosaic_video_tail config) (mosaic_audio_tail config));
        [intros _ el Hel; by apply mosaic_video_line_extends|intros _ el Hel; by apply mosaic_audio_line_extends|].
      split; intros _; [by exists vmix|by exists amix]. }
    intros conn [Hcv Hca]. unfold mosaic_video_tail in Hcv. unfold mosaic_audio_tail in Hca.
    rewrite !app_assoc, last_snoc in Hcv, Hca.
    eapply realizes_last; [|intros _ _; by apply (builds_ret true (eq true))].
    apply realizes_iter with (ok := mosaic_output_ok config) (ns := mosaic_output_names config)
      (ls := mosaic_output_links config). intros io _. apply mosaic_output_realizes. split; [exact Hcv|exact Hca].
  - unfold mosaic_ok. by destruct (av_have_video _), (av_have_audio _).
  - intros _. unfold mosaic_names, mosaic_links, mosaic_ids, mosaic_outs. split_and!; [|by rewrite <- !app_assoc|done].
    rewrite <- !app_assoc. apply Permutation_app_head. rewrite !app_assoc. apply Permutation_app_tail.
    rewrite <- !app_assoc, Permutation_app_comm. by rewrite <- !app_assoc.
Qed.

(** ** Names *)

(** The caps filters of an encoder, by their prefixes. *)
Definition str_param_prefs (codec : string) (kv : string * string) : list string :=
  if negb (String.eqb (split_dot kv.1).1 codec) then []
  else if String.eqb kv.1 X264_ENC_PROFILE then ["x264enc_capsfilter_profile"]
  else if String.eqb kv.1 X264_ENC_STREAM_FORMAT then ["x264enc_capsfilter_stream_format"]
  else [].
Definition caps_prefs (codec : string) (args : gmap string string) : list string :=
  std_entries args ≫= str_param_prefs codec.

Lemma encoder_caps_prefs codec args i :
  encoder_caps codec args i = (fun p => elem_name p i) <$> caps_prefs codec args.
Proof.
  unfold encoder_caps, caps_prefs. induction (std_entries args) as [|kv l IH]; [done|].
  rewrite !bind_cons, fmap_app, IH. f_equal. unfold str_param_caps, str_param_prefs.
  destruct (negb _); [done|]. destruct (String.eqb _ X264_ENC_PROFILE); [done|]. by destruct (String.eqb _ X264_ENC_STREAM_FORMAT).
Qed.

Lemma caps_prefs_sub codec args :
  caps_prefs codec args ⊆+ ["x264enc_capsfilter_profile"; "x264enc_capsfilter_stream_format"].
Proof.
  pose proof (encoder_caps_sub codec args) as Hs. rewrite encoder_caps_prefs in Hs. apply NoDup_submseteq.
  - eapply (NoDup_fmap_1 (fun p => elem_name p 0)). eapply NoDup_submseteq_of; [exact Hs|].
    apply (bool_decide_unpack _). vm_compute. done.
  - intros p Hp. unfold caps_prefs in Hp. apply list_elem_of_bind in Hp as (kv & Hp & _).
    unfold str_param_prefs in Hp. repeat case_match; set_solver.
Qed.

Definition mosaic_single_prefs : list string :=
  ["videomixer"; "interlive"] ++ (["cairo"; "video_convert"] ++ ["deinterlace"] ++ ["video_tee"]) ++
  (["audio_convert"] ++ (["audio_convert_capsfilter"] ++ ["volume"]) ++ ["audio_tee"]).
Definition mosaic_input_prefs : list string :=
  ["src"; "decodebin"] ++ ["udb_conn_video"; "mux_videoscale"; "mux_videoscale_capsfilter"; "videobox"] ++
  ["udb_conn_audio"; "level"].
Definition mosaic_output_prefs : list string :=
  ["muxer"] ++
  (["video_tee_queue"] ++ (["aspect_ratio"] ++ ["videorate"; "videorate_capsfilter"]) ++
   ("video_codec" :: ["x264enc_capsfilter_profile"; "x264enc_capsfilter_stream_format"]) ++
   ["video_pay"] ++ ["video_parser"]) ++
  (["audio_tee_queue"] ++ ["audioresample"; "audio_codec"; "mpegaudioparse"] ++ ["audio_pay"]) ++ ["sink"].
Definition device_prefs : list string := ["video_tee_queue"; "video_sink"] ++ ["audio_tee_queue"; "audio_sink"].

Definition input_prefs (config : AudioVideoConfig) : list string :=
  ["src"; "decodebin"] ++
  when (av_have_video config) ["udb_conn_video"; "mux_videoscale"; "mux_videoscale_capsfilter"; "videobox"] ++
  when (av_have_audio config) ["udb_conn_audio"; "level"].
Definition out_prefs (config : EncodingConfig) (o : OutputUri) : list string :=
  let c := e_base config in
  if IsDeviceOutUrl (ou_output o) is Some _ then
    when (av_have_video c) ["video_tee_queue"; "video_sink"] ++ when (av_have_audio c) ["audio_tee_queue"; "audio_sink"]
  else ["muxer"] ++
    when (av_have_video c)
      (["video_tee_queue"] ++
       ((if e_aspect_ratio config is Some _ then ["aspect_ratio"] else []) ++
        (if e_frame_rate config is Some _ then when (negb (IsMfxGpu config)) ["videorate"; "videorate_capsfilter"] else [])) ++
       ("video_codec" :: caps_prefs (e_video_encoder config) (e_video_encoder_str_args config)) ++
       when (is_rtp o) ["video_pay"] ++ when (IsH264Encoder (e_video_encoder config)) ["video_parser"]) ++
    when (av_have_audio c)
      (["audio_tee_queue"] ++
       (if String.eqb (e_audio_encoder config) LAME_MP3_ENC
        then ["audioresample"; "audio_codec"; "mpegaudioparse"] else ["audio_codec"]) ++
       when (is_rtp o) ["audio_pay"]) ++ ["sink"].

Lemma fmap_when {A B} (f : A -> B) b l : f <$> when b l = when b (f <$> l).
Proof. by destruct b. Qed.
Lemma fmap_if_Some {A B C} (f : A -> B) (o : option C) l :
  f <$> (if o is Some _ then l else []) = (if o is Some _ then f <$> l else []).
Proof. by destruct o. Qed.

Lemma mosaic_input_names_prefs config i :
  mosaic_input_names config i = (fun p => elem_name p i) <$> input_prefs config.
Proof. unfold mosaic_input_names, input_prefs. by destruct (av_have_video _), (av_have_audio _). Qed.

Lemma mosaic_output_names_prefs config i o :
  mosaic_output_names config (i, o) = (fun p => elem_name p i) <$> out_prefs config o.
Proof.
  unfold mosaic_output_names, out_prefs. cbn zeta. destruct (IsDeviceOutUrl (ou_output o)).
  { by destruct (av_have_video _), (av_have_audio _). }
  unfold mosaic_video_chain, mosaic_audio_chain, mosaic_post_chain, mosaic_codec_chain, mosaic_encoder_chain.
  rewrite encoder_caps_prefs, !fmap_app, !fmap_when, !fmap_app, !fmap_when, fmap_if_Some, fmap_cons.
  destruct (e_frame_rate config), (IsMfxGpu config), (String.eqb (e_audio_encoder config) LAME_MP3_ENC); done.
Qed.

Ltac sub_prefs :=
  repeat first
    [ reflexivity | apply caps_prefs_sub
    | lazymatch goal with
      | |- when _ _ ⊆+ _ => apply when_sub
      | |- (_ ++ _) ⊆+ (_ ++ _) => apply submseteq_app
      | |- (_ :: _) ⊆+ (_ :: _) => apply submseteq_skip
      | |- (if ?o is Some _ then _ else _) ⊆+ _ => apply if_Some_sub
      end ].

Lemma input_prefs_sub config : input_prefs config ⊆+ mosaic_input_prefs.
Proof. unfold input_prefs, mosaic_input_prefs. sub_prefs. Qed.

Lemma out_prefs_sub config o :
  out_prefs config o ⊆+ mosaic_output_prefs \/ out_prefs config o ⊆+ device_prefs.
Proof.
  unfold out_prefs, mosaic_output_prefs, device_prefs. cbn zeta. destruct (IsDeviceOutUrl _); [right; sub_prefs|left].
  sub_prefs. destruct (String.eqb _ LAME_MP3_ENC); [done|]. apply submseteq_cons, submseteq_skip, submseteq_nil_l.
Qed.

Lemma mosaic_head_sub config :
  [VIDEOMIXER_NAME_1U 0; INTERLIVE_NAME_1U 0] ++
  when (av_have_video (e_base config)) (mosaic_video_tail config) ++
  when (av_have_audio (e_base config)) (mosaic_audio_tail config)
  ⊆+ (fun p => elem_name p 0) <$> mosaic_single_prefs.
Proof.
  unfold mosaic_single_prefs. rewrite !fmap_app. unfold mosaic_video_tail, mosaic_audio_tail, audio_convert_tail, video_convert_tail.
  repeat (apply submseteq_app; sub_prefs). by destruct (default _ _); [|apply submseteq_nil_l].
Qed.

(** The three kinds of names have different prefixes. *)
Lemma prefs_disjoint :
  Forall (fun p => (p ∉ mosaic_input_prefs) /\ (p ∉ (mosaic_output_prefs ++ device_prefs))) mosaic_single_prefs /\
  Forall (fun p => p ∉ (mosaic_output_prefs ++ device_prefs)) mosaic_input_prefs /\
  NoDup mosaic_single_prefs /\ NoDup mosaic_input_prefs /\ NoDup mosaic_output_prefs /\ NoDup device_prefs.
Proof. apply (bool_decide_unpack _). vm_compute. done. Qed.

Lemma out_prefs_in config o p : p ∈ out_prefs config o -> p ∈ mosaic_output_prefs ++ device_prefs.
Proof.
  intros Hp. apply elem_of_app. destruct (out_prefs_sub config o) as [Hs|Hs]; [left|right];
    exact (elem_of_submseteq _ _ _ Hp Hs).
Qed.

Lemma mosaic_names_NoDup config : NoDup (mosaic_names config).
Proof.
  destruct prefs_disjoint as (Hd1 & Hd2 & Hn1 & Hn2 & Hn3 & Hn4). rewrite Forall_forall in Hd1, Hd2.
  set (ids := mosaic_ids config). set (outs := mosaic_outs config).
  unfold mosaic_names. cbn zeta. fold ids outs.
  replace (ids ≫= mosaic_input_names (e_base config)) with
    (group_names (fun i => i) (fun _ => input_prefs (e_base config)) ids).
  2:{ apply list_bind_ext; [|done]. intros i. symmetry. apply mosaic_input_names_prefs. }
  replace (outs ≫= mosaic_output_names config) with (group_names fst (fun io => out_prefs config io.2) outs).
  2:{ apply list_bind_ext; [|done]. intros [i o]. symmetry. apply mosaic_output_names_prefs. }
  assert (Hids : forall i, i ∈ ids -> (0 <= i)%Z) by (intros i Hi%elem_of_seqZ; lia).
  assert (Houts : forall io, io ∈ outs -> (0 <= io.1)%Z) by (intros [i o] (k & -> & _)%elem_of_enumerate; cbn; lia).
  assert (Hhead : forall n, n ∈ [VIDEOMIXER_NAME_1U 0; INTERLIVE_NAME_1U 0] ++
      when (av_have_video (e_base config)) (mosaic_video_tail config) ++
      when (av_have_audio (e_base config)) (mosaic_audio_tail config) -> exists p, p ∈ mosaic_single_prefs /\ n = elem_name p 0).
  { intros n Hn. pose proof (elem_of_submseteq _ _ _ Hn (mosaic_head_sub config)) as (p & -> & Hp)%list_elem_of_fmap. by exists p. }
  apply NoDup_app. split_and!.
  - eapply NoDup_submseteq_of; [apply mosaic_head_sub|]. apply NoDup_fmap_2_strong; [|done].
    intros p q _ _ Heq. by apply elem_name_inj in Heq as [? _].
  - intros n (p & Hp & ->)%Hhead. specialize (Hd1 p Hp) as [Hi Ho].
    intros [(i & q & Hi' & Hq & Heq)%group_names_elem|(io & q & Hio & Hq & Heq)%group_names_elem]%elem_of_app.
    + apply elem_name_inj in Heq as [-> _]; [|lia|by auto]. apply Hi. exact (elem_of_submseteq _ _ _ Hq (input_prefs_sub _)).
    + apply elem_name_inj in Heq as [-> _]; [|lia|by auto]. apply Ho. by eapply out_prefs_in.
  - apply NoDup_app. split_and!.
    + apply group_names_NoDup; [|by rewrite list_fmap_id; apply NoDup_seqZ].
      intros i Hi. split; [by auto|]. by eapply NoDup_submseteq_of; [apply input_prefs_sub|].
    + intros n (i & p & Hi & Hp & ->)%group_names_elem (io & q & Hio & Hq & Heq)%group_names_elem.
      apply elem_name_inj in Heq as [-> _]; [|by auto..].
      apply (Hd2 q); [exact (elem_of_submseteq _ _ _ Hp (input_prefs_sub _))|by eapply out_prefs_in].
    + apply group_names_NoDup; [|apply enumerate_fst_NoDup]. intros io Hio. split; [by auto|].
      destruct (out_prefs_sub config io.2); by eapply NoDup_submseteq_of.
Qed.

(** C27: a mosaic of 1, 2, 4, 9 or 16 inputs: each input has a decodebin, behind
    which its video runs through a scaler and a box into the video mixer and its
    audio through a level meter into the audio mixer; the mixed picture runs
    through the overlay, the mixed sound through converters, into tees; and each
    output has its own queues, encoders, payloaders and multiplexer, or the
    screen's. There is such a pipeline exactly if every input and output has its
    elements. For any other number of inputs there is none, without an abort. *)
Theorem mosaic_pipeline_spec config :
  match mosaic_grid (length (c_input (av_base (e_base config)))) with
  | Some _ => pipeline_is (CreatePipeLine (Mosaic_InitPipeline now config)) (mosaic_ok config)
                (mosaic_names config) (mosaic_links config)
  | None => CreatePipeLine (Mosaic_InitPipeline now config) = (Ok None, [])
  end.
Proof.
  destruct (mosaic_grid _) as [[rows cols]|] eqn:Hg.
  - rewrite <- (andb_true_r (mosaic_ok config)). apply CreatePipeLine_is; [by eapply Mosaic_InitPipeline_realizes|].
    split; [done|]. intros _. apply mosaic_names_NoDup.
  - unfold Mosaic_InitPipeline. by rewrite Hg.
Qed.

(** ** The tiles on the screen *)

Definition inside (outer inner : ImageInfo) : bool :=
  let '(x, y) := img_x_y inner in
  let '(X, Y) := img_x_y outer in
  ((X <=? x) && (Y <=? y) && (x + (img_size inner).1 <=? X + (img_size outer).1) &&
   (y + (img_size inner).2 <=? Y + (img_size outer).2))%Z.
Definition apart (a b : ImageInfo) : bool :=
  let '(x, y) := img_x_y a in
  let '(u, v) := img_x_y b in
  ((x + (img_size a).1 <=? u) || (u + (img_size b).1 <=? x) ||
   (y + (img_size a).2 <=? v) || (v + (img_size b).2 <=? y))%Z.
Definition screen (o : MosaicImageOptions) : ImageInfo := {| img_x_y := (0, 0)%Z; img_size := screen_size o |}.

(** Each tile lies on the screen, is wide enough for the level bars, and is
    apart from those after it. *)
Fixpoint tiles_apart (o : MosaicImageOptions) (l : list ImageInfo) : bool :=
  match l with
  | [] => true
  | t :: l' =>
      inside (screen o) t && (right_padding o <? (img_size t).1)%Z && (0 <? (img_size t).2)%Z &&
      forallb (apart t) l' && tiles_apart o l'
  end.

Lemma tiles_apart_spec o l :
  tiles_apart o l = true ->
  (forall i t, l !! i = Some t -> inside (screen o) t = true /\ (right_padding o < (img_size t).1)%Z /\ (0 < (img_size t).2)%Z) /\
  (forall i j t u, l !! i = Some t -> l !! j = Some u -> i < j -> apart t u = true).
Proof.
  induction l as [|t l IH]; cbn; [by split|]. rewrite !andb_true_iff. intros ((((Hi & Hw) & Hh) & Ha) & Hl).
  specialize (IH Hl) as (IH1 & IH2). split.
  - intros [|i] t' Ht; cbn in Ht; [simplify_eq; split_and!; [done|lia..]|by eapply IH1].
  - intros [|i] [|j] t' u Ht Hu Hij; cbn in Ht, Hu; try lia; [|eapply IH2; eauto; lia].
    simplify_eq. rewrite forallb_forall in Ha. apply Ha, list_elem_of_In. by eapply list_elem_of_lookup_2.
Qed.

Lemma mosaic_options_apart config n rows cols :
  mosaic_grid n = Some (rows, cols) -> av_have_video config = true ->
  length (sreams (mosaic_options config rows cols)) = n /\
  tiles_apart (mosaic_options config rows cols) (img <$> sreams (mosaic_options config rows cols)) = true.
Proof.
  unfold mosaic_grid, mosaic_options, tile_info. intros Hg Hv. rewrite Hv. revert Hg.
  repeat match goal with
         | |- context [Nat.eqb n ?k] =>
             destruct (Nat.eqb_spec n k) as [->|_]; [intros [= <- <-]; split; vm_compute; reflexivity|]
         end.
  done.
Qed.

Lemma realizes_only {A} (m : build A) ok ns ls P : realizes m ok ns ls P -> only m P.
Proof.
  intros Hm. destruct ok; [|by apply only_stuck]. intros s a Ha. specialize (Hm s).
  destruct (m s) as [[[b|e|r] s'] es]; cbn in Ha; simplify_eq. tauto.
Qed.

(** C28: the tiles that the mosaic's builder gives to the mixer and to the
    overlay: one per input, each on the screen of 1280 by 720, higher than
    nothing and wider than the bars that are drawn into it, and no two of them
    overlap. *)
Theorem mosaic_tiles_apart config rows cols s vmix amix options :
  mosaic_grid (length (c_input (av_base (e_base config)))) = Some (rows, cols) ->
  av_have_video (e_base config) = true ->
  (mosaic_inputs config rows cols s).1.1 = Ok (vmix, amix, options) ->
  length (sreams options) = length (c_input (av_base (e_base config))) /\
  (forall i t, sreams options !! i = Some t ->
     inside (screen options) (img t) = true /\ (right_padding options < (img_size (img t)).1)%Z /\ (0 < (img_size (img t)).2)%Z) /\
  (forall i j t u, sreams options !! i = Some t -> sreams options !! j = Some u -> i < j -> apart (img t) (img u) = true).
Proof.
  intros Hg Hv Hm. pose proof (realizes_only _ _ _ _ _ (mosaic_inputs_realizes config rows cols Hg) s _ Hm) as (_ & _ & Ho).
  cbn [snd] in Ho. subst options. destruct (mosaic_options_apart (e_base config) _ rows cols Hg Hv) as [Hlen Hap].
  split; [done|]. apply tiles_apart_spec in Hap as [Hin Hap]. split.
  - intros i t Ht. apply (Hin i). by rewrite list_lookup_fmap, Ht.
  - intros i j t u Ht Hu. apply (Hap i j); by rewrite list_lookup_fmap, ?Ht, ?Hu.
Qed.

(** ** Every input reaches every output *)

Definition video_end (io : Z * OutputUri) : string :=
  if IsDeviceOutUrl (ou_output io.2) is Some _ then VIDEO_SINK_NAME_1U io.1 else SINK_NAME_1U io.1.
Definition audio_end (io : Z * OutputUri) : string :=
  if IsDeviceOutUrl (ou_output io.2) is Some _ then AUDIO_SINK_NAME_1U io.1 else SINK_NAME_1U io.1.

Lemma chain_in x c y ls (ps : list (string * string)) :
  ps ⊆ ls -> chain_links (x :: c ++ [y]) ⊆ ps -> rtc (linked ls) x y.
Proof. intros Hs Hc. apply (chain_linked_snoc _ _ c). set_solver. Qed.

Lemma mosaic_output_feeds config ls io :
  mosaic_output_links config io ⊆ ls ->
  (av_have_video (e_base config) = true -> rtc (linked ls) (VIDEO_TEE_NAME_1U 0) (video_end io)) /\
  (av_have_audio (e_base config) = true -> rtc (linked ls) (AUDIO_TEE_NAME_1U 0) (audio_end io)).
Proof.
  destruct io as [i o]. intros Hs. unfold mosaic_output_links in Hs. unfold video_end, audio_end. cbn [fst snd] in *.
  cbn zeta in Hs. destruct (IsDeviceOutUrl (ou_output o)).
  - split; intros Hm; rewrite Hm in Hs; cbn [when] in Hs.
    + apply (chain_in _ [VIDEO_TEE_QUEUE_NAME_1U i] _ _ _ Hs). set_solver.
    + apply (chain_in _ [AUDIO_TEE_QUEUE_NAME_1U i] _ _ _ Hs). set_solver.
  - assert (Hmux : rtc (linked ls) (MUXER_NAME_1U i) (SINK_NAME_1U i)) by (apply rtc_once, Hs; set_solver).
    split; intros Hm; rewrite Hm in Hs; cbn [when] in Hs; (transitivity (MUXER_NAME_1U i); [|exact Hmux]).
    + apply (chain_in _ (mosaic_video_chain config i (is_rtp o)) _ _ _ Hs). set_solver.
    + apply (chain_in _ (mosaic_audio_chain config i (is_rtp o)) _ _ _ Hs). set_solver.
Qed.

Lemma mosaic_input_feeds config ls i :
  mosaic_input_links config i ⊆ ls ->
  (av_have_video config = true -> rtc (linked ls) (UDB_VIDEO_NAME_1U i) (VIDEOMIXER_NAME_1U 0)) /\
  (av_have_audio config = true -> rtc (linked ls) (UDB_AUDIO_NAME_1U i) (INTERLIVE_NAME_1U 0)).
Proof.
  unfold mosaic_input_links. intros Hs. split; intros Hm; rewrite Hm in Hs; cbn [when] in Hs.
  - apply (chain_in _ [MUX_VIDEO_SCALE_NAME i; MUX_VIDEO_SCALE_CAPS_FILTER_NAME i; VIDEO_BOX_NAME_1U i] _ _ _ Hs). set_solver.
  - apply (chain_in _ [AUDIO_LEVEL_NAME_1U i] _ _ _ Hs). set_solver.
Qed.

(** In the pipeline of a mosaic the video of every input, from the element
    that its decodebin's pad is linked to, has a path of links to the sink of
    every output, and so has the audio. *)
Theorem mosaic_mixes config p k io :
  (CreatePipeLine (Mosaic_InitPipeline now config)).1 = Ok (Some p) ->
  k ∈ mosaic_ids config -> io ∈ mosaic_outs config ->
  (av_have_video (e_base config) = true -> rtc (linked (link_names p)) (UDB_VIDEO_NAME_1U k) (video_end io)) /\
  (av_have_audio (e_base config) = true -> rtc (linked (link_names p)) (UDB_AUDIO_NAME_1U k) (audio_end io)).
Proof.
  intros Hp Hk Hio. destruct (mosaic_grid (length (c_input (av_base (e_base config))))) as [[rows cols]|] eqn:Hg.
  2:{ unfold Mosaic_InitPipeline in Hp. by rewrite Hg in Hp. }
  assert (Hl : link_names p ≡ₚ mosaic_links config).
  { pose proof (CreatePipeLine_is _ _ true _ _ (Mosaic_InitPipeline_realizes config rows cols Hg)
      (conj (fun _ => eq_refl) (fun _ => mosaic_names_NoDup config))) as Hs.
    unfold pipeline_is in Hs. rewrite Hp in Hs. tauto. }
  assert (Hsub : mosaic_links config ⊆ link_names p) by (intros l; by rewrite Hl).
  assert (Hi : mosaic_input_links (e_base config) k ⊆ link_names p).
  { intros l Hl'. apply Hsub. unfold mosaic_links. apply elem_of_app. left. apply list_elem_of_bind. by exists k. }
  assert (Ho : mosaic_output_links config io ⊆ link_names p).
  { intros l Hl'. apply Hsub. unfold mosaic_links. rewrite !elem_of_app. do 3 right. apply list_elem_of_bind. by exists io. }
  apply mosaic_input_feeds in Hi as [Hiv Hia]. apply mosaic_output_feeds in Ho as [Hov Hoa].
  unfold mosaic_links in Hsub. cbn zeta in Hsub.
  split; intros Hm; rewrite Hm in Hsub; cbn [when] in Hsub.
  - transitivity (VIDEOMIXER_NAME_1U 0); [by auto|]. transitivity (VIDEO_TEE_NAME_1U 0); [|by auto].
    apply (chain_in _ ([CAIRO_NAME_1U 0; VIDEO_CONVERT_NAME_1U 0] ++ video_convert_tail (e_deinterlace config) 0) _ _ _ Hsub).
    rewrite <- app_assoc. unfold mosaic_video_tail. set_solver.
  - transitivity (INTERLIVE_NAME_1U 0); [by auto|]. transitivity (AUDIO_TEE_NAME_1U 0); [|by auto].
    apply (chain_in _ ([AUDIO_CONVERT_NAME_1U 0] ++ audio_convert_tail (e_volume config) (e_audio_channels_count config) 0) _ _ _ Hsub).
    rewrite <- app_assoc. unfold mosaic_audio_tail. set_solver.
Qed.
End MosaicPipeline.

(** ** Witnesses *)

Section Witnesses.
#[local] Existing Instances Ref.common Ref.urls Ref.paths ref_codes RefGst.gst RefGst.gst_ok.
#[local] Instance wit_mosaic_json : JsonC := Ref.json_c (fun _ => None).

Definition wit_mosaic_in (u : string) : InputUri := {| iu_id := 1; iu_input := u; iu_user_agent := 0 |}%Z.
Definition wit_mosaic_out (u : string) : OutputUri := {| ou_id := 1; ou_output := u; ou_http_root := "/hls/" |}%Z.
Definition wit_mosaic : EncodingConfig := make_encoding_config (make_audio_video_config
  (make_base_config ENCODE 10 (wit_mosaic_in <$> ["http://h/1"; "http://h/2"; "file:///3"; "udp://h:4"])
     (wit_mosaic_out <$> ["http://host/live.m3u8"; "screen"]))).

(** The pipeline is there. *)
Lemma mosaic_pipeline_spec_witness :
  is_ok (CreatePipeLine (Mosaic_InitPipeline 0 wit_mosaic)).1 = true /\ mosaic_ok wit_mosaic = true /\
  pipeline_is (CreatePipeLine (Mosaic_InitPipeline 0 wit_mosaic)) (mosaic_ok wit_mosaic) (mosaic_names wit_mosaic) (mosaic_links wit_mosaic).
Proof.
  split; [vm_compute; reflexivity|]. split; [vm_compute; reflexivity|].
  assert (Hg : mosaic_grid (length (c_input (av_base (e_base wit_mosaic)))) = Some (2, 2)%Z) by (vm_compute; reflexivity).
  pose proof (mosaic_pipeline_spec 0 wit_mosaic) as Hp. rewrite Hg in Hp. exact Hp.
Defined.

Lemma mosaic_tiles_apart_witness :
  exists vmix amix options,
    (mosaic_inputs wit_mosaic 2 2 pipeline_empty).1.1 = Ok (vmix, amix, options) /\
    length (sreams options) = 4.
Proof.
  destruct (mosaic_inputs wit_mosaic 2 2 pipeline_empty).1.1 as [[[vmix amix] options]| |] eqn:Hm;
    [|vm_compute in Hm; discriminate Hm..].
  exists vmix, amix, options. split; [reflexivity|].
  apply (mosaic_tiles_apart wit_mosaic 2 2 pipeline_empty vmix amix options); [reflexivity|reflexivity|exact Hm].
Defined.

(** The last input is seen on the screen. *)
Lemma mosaic_mixes_witness :
  exists p, rtc (linked (link_names p)) (UDB_VIDEO_NAME_1U 3) (VIDEO_SINK_NAME_1U 1).
Proof.
  destruct (CreatePipeLine (Mosaic_InitPipeline 0 wit_mosaic)).1 as [[p|]| |] eqn:Hp; [|vm_compute in Hp; discriminate Hp..].
  exists p. apply (mosaic_mixes 0 wit_mosaic p 3 (1%Z, wit_mosaic_out "screen") Hp).
  - vm_compute. do 3 right. left.
  - vm_compute. right. left.
  - reflexivity.
Defined.
End Witnesses.
