(* ===== verification/BaseStream.v ===== *)
(** * A running stream

    [src/src/stream/ibase_stream.cpp] and [src/src/stream/probes.cpp]. The state
    of [IBaseStream] is a record; its methods are transformers of it that also
    list what they tell the client and the pipeline. GStreamer is not modelled:
    a bus message or a probe's event is an argument of the handler that
    receives it. *)

From S2P Require Import Prelude Platform StreamTypes Stats.

(* [src/src/stream/ibase_stream.h:38-38 ExitStatus] *)
Inductive ExitStatus := EXIT_SELF | EXIT_INNER.

#[export] Instance ExitStatus_eq_dec : EqDecision ExitStatus.
Proof. solve_decision. Defined.

(** The constants of [ibase_stream.h] and [ibase_stream.cpp]. *)
(* [src/src/stream/ibase_stream.h:61-66 no_data_panic_sec] *)
Definition no_data_panic_sec : Z := 60.
(* [src/src/stream/config.h:24-24 report_delay_sec] *)
Definition report_delay_sec : Z := 10.
(* [src/src/stream/ibase_stream.cpp:40-40 MIN_OUT_DATA] *)
Definition MIN_OUT_DATA : Z := 4 * 1024 * 60.
(* [src/src/stream/ibase_stream.cpp:41-41 MIN_IN_DATA] *)
Definition MIN_IN_DATA : Z := 4 * 1024 * 60.
(* [src/src/stream/ibase_stream.h:60-60 InitedFlag] *)
Definition INITED_VIDEO : Z := 1.
(* [src/src/stream/ibase_stream.h:60-60 InitedFlag] *)
Definition INITED_AUDIO : Z := 2.

(** ** Probes *)

(* [src/src/stream/probes.h:33-42 Consistency] *)
Record Consistency := {
  k_segment : bool;
  k_eos : bool;
  k_expect_flush : bool;
  k_flushing : bool;
  k_saw_stream_start : bool;
  k_saw_serialized_event : bool
}.

(* [src/src/stream/probes.cpp:22-28 Consistency::Consistency] *)
Definition consistency_init : Consistency :=
  {| k_segment := false; k_eos := false; k_expect_flush := false; k_flushing := false;
     k_saw_stream_start := false; k_saw_serialized_event := false |}.

Inductive probe_kind := PROBE_IN | PROBE_OUT.

(* [src/src/stream/probes.h:66-72 Probe] *)
Record Probe := { p_kind : probe_kind; p_id : Z; p_consistency : Consistency }.

(** The downstream events that the callbacks tell apart; [serialized] is
    [GST_EVENT_IS_SERIALIZED]. *)
Inductive gst_event :=
| FLUSH_START | FLUSH_STOP | STREAM_START | CAPS | SEGMENT | EOS
| SEEK (flush : bool) | OTHER_EVENT.

(* [src/src/stream/probes.cpp:122-192 Probe::source_callback_probe_buffer] *)
Definition source_event (event : gst_event) (serialized : bool) (c : Consistency) : Consistency :=
  let c1 :=
    match event with
    | FLUSH_START =>
        {| k_segment := k_segment c; k_eos := k_eos c; k_expect_flush := k_expect_flush c;
           k_flushing := true; k_saw_stream_start := k_saw_stream_start c;
           k_saw_serialized_event := k_saw_serialized_event c |}
    | FLUSH_STOP =>
        {| k_segment := k_segment c; k_eos := k_eos c; k_expect_flush := false;
           k_flushing := false; k_saw_stream_start := k_saw_stream_start c;
           k_saw_serialized_event := k_saw_serialized_event c |}
    | STREAM_START =>
        {| k_segment := k_segment c; k_eos := k_eos c; k_expect_flush := k_expect_flush c;
           k_flushing := k_flushing c; k_saw_stream_start := true;
           k_saw_serialized_event := k_saw_serialized_event c |}
    | SEGMENT =>
        {| k_segment := true; k_eos := false; k_expect_flush := k_expect_flush c;
           k_flushing := k_flushing c; k_saw_stream_start := k_saw_stream_start c;
           k_saw_serialized_event := k_saw_serialized_event c |}
    | EOS =>
        {| k_segment := false; k_eos := true; k_expect_flush := k_expect_flush c;
           k_flushing := k_flushing c; k_saw_stream_start := k_saw_stream_start c;
           k_saw_serialized_event := k_saw_serialized_event c |}
    | CAPS | SEEK _ | OTHER_EVENT => c
    end in
  if serialized then
    {| k_segment := k_segment c1; k_eos := k_eos c1; k_expect_flush := k_expect_flush c1;
       k_flushing := k_flushing c1; k_saw_stream_start := k_saw_stream_start c1;
       k_saw_serialized_event := true |}
  else c1.

(* [src/src/stream/probes.cpp:221-257 Probe::sink_callback_probe_buffer] *)
Definition sink_event (event : gst_event) (c : Consistency) : Consistency :=
  match event with
  | SEEK flush =>
      {| k_segment := k_segment c; k_eos := k_eos c; k_expect_flush := flush;
         k_flushing := k_flushing c; k_saw_stream_start := k_saw_stream_start c;
         k_saw_serialized_event := k_saw_serialized_event c |}
  | SEGMENT =>
      {| k_segment := true; k_eos := false; k_expect_flush := k_expect_flush c;
         k_flushing := k_flushing c; k_saw_stream_start := k_saw_stream_start c;
         k_saw_serialized_event := k_saw_serialized_event c |}
  | EOS =>
      {| k_segment := false; k_eos := true; k_expect_flush := k_expect_flush c;
         k_flushing := k_flushing c; k_saw_stream_start := k_saw_stream_start c;
         k_saw_serialized_event := k_saw_serialized_event c |}
  | _ => c
  end.

(** [it->second.eos &= state.eos] over the probes, by element number. *)
(* [src/src/stream/ibase_stream.cpp:248-258 IBaseStream::CountInputEOS] *)
Definition eos_statuses (probes : list Probe) : gmap Z bool :=
  fold_left (fun m p =>
    match m !! p_id p with
    | Some eos => <[p_id p := eos && k_eos (p_consistency p)]> m
    | None => <[p_id p := k_eos (p_consistency p)]> m
    end) probes ∅.

(** Both counters have this body, over the input or the output probes. *)
(* [src/src/stream/ibase_stream.cpp:246-267 IBaseStream::CountInputEOS] *)
Definition CountInputEOS (probe_in : list Probe) : nat :=
  length (List.filter (fun kv => kv.2) (map_to_list (eos_statuses probe_in))).

(* [src/src/stream/ibase_stream.cpp:269-290 IBaseStream::CountOutEOS] *)
Definition CountOutEOS (probe_out : list Probe) : nat :=
  length (List.filter (fun kv => kv.2) (map_to_list (eos_statuses probe_out))).

Section BaseStream.
Context `{CommonLib}.

(** ** State and actions *)

(* [src/src/stream/ibase_stream.h:168-181 IBaseStream] *)
Record stream := {
  s_stats : StreamStruct;
  s_status_tick : Z;
  s_no_data_panic_tick : Z;
  s_last_exit_status : ExitStatus;
  s_is_live : bool;
  s_flags : Z;
  s_desire_flags : Z;
  s_loop_running : bool  (* g_main_loop_is_running(loop_) *)
}.

(** The members of a new stream. Its status and its counters are in [stats], which
    the process keeps from one stream to the next. *)
(* [src/src/stream/ibase_stream.cpp:164-178 IBaseStream::IBaseStream] *)
Definition new_stream (stats : StreamStruct) : stream :=
  {| s_stats := stats; s_status_tick := 0; s_no_data_panic_tick := 0; s_last_exit_status := EXIT_INNER;
     s_is_live := false; s_flags := 0; s_desire_flags := 0; s_loop_running := false |}.

(** What a stream does to its client and its pipeline. *)
Inductive stream_event :=
| OnStatusChanged (st : StreamStatus)
| OnTimeoutUpdated
| OnPipelineEOS
| PipelineState (st : string).

Abbreviation smethod := (act stream stream_event).

Definition set_stats (st : StreamStruct) (s : stream) : stream :=
  {| s_stats := st; s_status_tick := s_status_tick s;
     s_no_data_panic_tick := s_no_data_panic_tick s;
     s_last_exit_status := s_last_exit_status s; s_is_live := s_is_live s;
     s_flags := s_flags s; s_desire_flags := s_desire_flags s;
     s_loop_running := s_loop_running s |}.

Definition set_ticks (status panic : Z) (s : stream) : stream :=
  {| s_stats := s_stats s; s_status_tick := status; s_no_data_panic_tick := panic;
     s_last_exit_status := s_last_exit_status s; s_is_live := s_is_live s;
     s_flags := s_flags s; s_desire_flags := s_desire_flags s;
     s_loop_running := s_loop_running s |}.

Definition set_flags (f : Z) (s : stream) : stream :=
  {| s_stats := s_stats s; s_status_tick := s_status_tick s;
     s_no_data_panic_tick := s_no_data_panic_tick s;
     s_last_exit_status := s_last_exit_status s; s_is_live := s_is_live s;
     s_flags := f; s_desire_flags := s_desire_flags s; s_loop_running := s_loop_running s |}.

Definition set_live (b : bool) (s : stream) : stream :=
  {| s_stats := s_stats s; s_status_tick := s_status_tick s;
     s_no_data_panic_tick := s_no_data_panic_tick s;
     s_last_exit_status := s_last_exit_status s; s_is_live := b;
     s_flags := s_flags s; s_desire_flags := s_desire_flags s;
     s_loop_running := s_loop_running s |}.

Definition set_loop (running : bool) (exit : ExitStatus) (s : stream) : stream :=
  {| s_stats := s_stats s; s_status_tick := s_status_tick s;
     s_no_data_panic_tick := s_no_data_panic_tick s;
     s_last_exit_status := exit; s_is_live := s_is_live s;
     s_flags := s_flags s; s_desire_flags := s_desire_flags s; s_loop_running := running |}.

Definition with_status (st : StreamStatus) (x : StreamStruct) : StreamStruct :=
  {| ss_id := ss_id x; ss_type := ss_type x; ss_start_time := ss_start_time x;
     ss_loop_start_time := ss_loop_start_time x; ss_restarts := ss_restarts x;
     ss_status := st; ss_input := ss_input x; ss_output := ss_output x |}.

Definition with_loop_start (t : Z) (x : StreamStruct) : StreamStruct :=
  {| ss_id := ss_id x; ss_type := ss_type x; ss_start_time := ss_start_time x;
     ss_loop_start_time := t; ss_restarts := ss_restarts x;
     ss_status := ss_status x; ss_input := ss_input x; ss_output := ss_output x |}.

Definition with_restarts (n : Z) (x : StreamStruct) : StreamStruct :=
  {| ss_id := ss_id x; ss_type := ss_type x; ss_start_time := ss_start_time x;
     ss_loop_start_time := ss_loop_start_time x; ss_restarts := n;
     ss_status := ss_status x; ss_input := ss_input x; ss_output := ss_output x |}.

Definition with_channels (i o : list ChannelStats) (x : StreamStruct) : StreamStruct :=
  {| ss_id := ss_id x; ss_type := ss_type x; ss_start_time := ss_start_time x;
     ss_loop_start_time := ss_loop_start_time x; ss_restarts := ss_restarts x;
     ss_status := ss_status x; ss_input := i; ss_output := o |}.

(** ** Methods *)

(** Seconds since the stream was started; C++ division truncates. *)
(* [src/src/stream/ibase_stream.cpp:491-494 IBaseStream::GetElipsedTime] *)
Definition GetElipsedTime (now : Z) (s : stream) : Z :=
  Z.quot (now - ss_start_time (s_stats s)) 1000.

(* [src/src/stream/ibase_stream.cpp:654-660 IBaseStream::SetStatus] *)
Definition SetStatus (status : StreamStatus) : smethod unit :=
  modify (fun s => set_stats (with_status status (s_stats s)) s) ;;
  emit (OnStatusChanged status).

(* [src/src/stream/ibase_stream.cpp:472-475 IBaseStream::ResetDataWait] *)
Definition stream_ResetDataWait (now : Z) : smethod unit :=
  modify (fun s =>
    set_stats (ResetDataWait (s_stats s))
      (set_ticks (s_status_tick s) (GetElipsedTime now s + no_data_panic_sec)%Z s)).

(** The reaction to the application message of [Quit], which GStreamer delivers
    while the message is posted. *)
(* [src/src/stream/ibase_stream.cpp:500-522 IBaseStream::HandleSyncBusMessageReceived] *)
Definition HandleSyncExitMessage (exit_status : ExitStatus) : smethod unit :=
  modify (fun s => if s_loop_running s then set_loop false exit_status s else s).

(* [src/src/stream/ibase_stream.cpp:477-485 IBaseStream::Quit] *)
Definition Quit (status : ExitStatus) : smethod unit := HandleSyncExitMessage status.

(* [src/src/stream/ibase_stream.cpp:524-527 IBaseStream::OnOutputDataFailed] *)
Definition OnOutputDataFailed : smethod unit := Quit EXIT_INNER.

(* [src/src/stream/ibase_stream.cpp:529-531 IBaseStream::OnOutputDataOK] *)
Definition OnOutputDataOK (now : Z) : smethod unit := stream_ResetDataWait now.

(* [src/src/stream/ibase_stream.cpp:533-536 IBaseStream::OnInputDataFailed] *)
Definition OnInputDataFailed : smethod unit := Quit EXIT_INNER.

(* [src/src/stream/ibase_stream.cpp:538-538 IBaseStream::OnInputDataOK] *)
Definition OnInputDataOK : smethod unit := mret tt.

(** The virtual methods of a class; [now] is the time at which they run. *)
Record virtuals := {
  v_OnInputDataFailed : Z -> smethod unit;
  v_OnOutputDataFailed : Z -> smethod unit
}.

Definition base_virtuals : virtuals :=
  {| v_OnInputDataFailed _ := OnInputDataFailed; v_OnOutputDataFailed _ := OnOutputDataFailed |}.

(** A player of a timeshift goes on without input. *)
(* [src/src/stream/streams/timeshift/timeshift_player_stream.cpp:43-45 TimeShiftPlayerStream::OnInputDataFailed] *)
Definition player_virtuals : virtuals :=
  {| v_OnInputDataFailed _ := OnInputDataOK; v_OnOutputDataFailed _ := OnOutputDataFailed |}.

(** A recorder has no output. *)
(* [src/src/stream/streams/timeshift/timeshift_recorder_stream.cpp:124-126 TimeShiftRecorderStream::OnOutputDataFailed] *)
Definition recorder_virtuals : virtuals :=
  {| v_OnInputDataFailed _ := OnInputDataFailed; v_OnOutputDataFailed := OnOutputDataOK |}.

(* [src/src/stream/ibase_stream.cpp:662-664 IBaseStream::IsActive] *)
Definition IsActive (s : stream) : bool := bool_decide (ss_status (s_stats s) <> INIT).

(* [src/src/stream/ibase_stream.cpp:666-668 IBaseStream::IsVod] *)
Definition stream_IsVod (s : stream) : bool :=
  bool_decide (ss_type (s_stats s) = VOD_ENCODE) || bool_decide (ss_type (s_stats s) = VOD_RELAY).

(** A [size_t] total of the differences. *)
Definition total_diff (cs : list ChannelStats) : Z :=
  fold_left (fun acc c => u64 (acc + GetDiffTotalBytes c)) cs 0%Z.

(** The [size_t] seconds since the last checkpoint. *)
(* [src/src/stream/ibase_stream.cpp:541-542 IBaseStream::HandleMainTimerTick] *)
Definition tick_diff (now : Z) (s : stream) : Z :=
  u64 ((no_data_panic_sec - s_no_data_panic_tick s + GetElipsedTime now s) + 1).

(** [now'] is the time of the second reading of the clock. *)
(* [src/src/stream/ibase_stream.cpp:540-605 IBaseStream::HandleMainTimerTick] *)
Definition HandleMainTimerTick (v : virtuals) (now now' : Z) : smethod unit :=
  up_time ← gets (GetElipsedTime now);
  diff ← gets (tick_diff now);
  st ← gets s_stats;
  let checkpoint_diff_in_total := total_diff (ss_input st) in
  let checkpoint_diff_out_total := total_diff (ss_output st) in
  modify (fun s => set_stats
    (with_channels (UpdateBps diff <$> ss_input st) (UpdateBps diff <$> ss_output st) (s_stats s)) s) ;;
  panic ← gets s_no_data_panic_tick;
  (if (panic <? up_time)%Z then
     (if (checkpoint_diff_in_total <? MIN_IN_DATA)%Z then v_OnInputDataFailed v now'
      else OnInputDataOK) ;;
     (if (checkpoint_diff_out_total <? MIN_OUT_DATA)%Z then v_OnOutputDataFailed v now'
      else OnOutputDataOK now')
   else mret tt) ;;
  active ← gets IsActive;
  status_tick ← gets s_status_tick;
  if active && (status_tick <=? up_time)%Z then
    modify (fun s => set_ticks (up_time + report_delay_sec)%Z (s_no_data_panic_tick s) s) ;;
    emit OnTimeoutUpdated
  else mret tt.

(* [src/src/stream/ibase_stream.cpp:455-457 IBaseStream::Stop] *)
Definition Stop : smethod unit := emit (PipelineState "NULL").

(* [src/src/stream/ibase_stream.cpp:459-461 IBaseStream::Pause] *)
Definition Pause : smethod unit := emit (PipelineState "PAUSED").

(** [live] tells whether the pipeline answered [GST_STATE_CHANGE_NO_PREROLL]. *)
(* [src/src/stream/ibase_stream.cpp:463-470 IBaseStream::Play] *)
Definition Play (live : bool) : smethod unit :=
  emit (PipelineState "PLAYING") ;;
  if live then modify (set_live true) else mret tt.

(* [src/src/stream/ibase_stream.cpp:444-453 IBaseStream::Restart] *)
Definition Restart (now : Z) (live : bool) : smethod unit :=
  modify (fun s => set_stats (with_loop_start now (s_stats s)) s) ;;
  stream_ResetDataWait now ;;
  Pause ;;
  SetStatus INIT ;;
  Play live ;;
  modify (fun s => set_stats (with_restarts (u64 (ss_restarts (s_stats s) + 1)) (s_stats s)) s).

(** [Exec] up to [g_main_loop_run], when the pipeline could be built. *)
(* [src/src/stream/ibase_stream.cpp:321-336 IBaseStream::Exec] *)
Definition exec_start (now : Z) (live : bool) : smethod unit :=
  SetStatus INIT ;;
  modify (fun s => set_stats (with_loop_start now (s_stats s)) s) ;;
  stream_ResetDataWait now ;;
  Play live ;;
  modify (fun s => set_loop true (s_last_exit_status s) s).

(** [Exec] after [g_main_loop_run] has returned. *)
(* [src/src/stream/ibase_stream.cpp:337-349 IBaseStream::Exec] *)
Definition exec_finish : smethod ExitStatus :=
  SetStatus INIT ;;
  Stop ;;
  modify (fun s => set_stats (with_restarts (u64 (ss_restarts (s_stats s) + 1)) (s_stats s)) s) ;;
  gets s_last_exit_status.

(** The messages of the bus that change the stream or reach its client, but for
    that of a changed duration, which is below; [client] is the client's
    [OnPipelineEOS]. *)
Inductive bus_message := STATE_CHANGED (from_pipeline : bool) (new_state : string) | BUS_EOS | BUS_OTHER.

(* [src/src/stream/ibase_stream.cpp:607-652 IBaseStream::HandleAsyncBusMessageReceived] *)
Definition HandleAsyncBusMessageReceived (client : smethod unit) (message : bus_message) : smethod unit :=
  match message with
  | STATE_CHANGED true new_state =>
      if decide (new_state = "NULL") then SetStatus INIT
      else if decide (new_state = "READY") then SetStatus READY
      else if decide (new_state = "PLAYING") then SetStatus PLAYING
      else mret tt
  | STATE_CHANGED false _ => mret tt
  | BUS_EOS => emit OnPipelineEOS ;; client
  | BUS_OTHER => mret tt
  end.

(* [src/src/stream/ibase_stream.cpp:428-434 IBaseStream::SetAudioInited] *)
Definition SetAudioInited (val : bool) : smethod unit :=
  modify (fun s => set_flags (if val then Z.lor (s_flags s) INITED_AUDIO
                              else Z.land (s_flags s) INITED_AUDIO) s).

(* [src/src/stream/ibase_stream.cpp:436-442 IBaseStream::SetVideoInited] *)
Definition SetVideoInited (val : bool) : smethod unit :=
  modify (fun s => set_flags (if val then Z.lor (s_flags s) INITED_VIDEO
                              else Z.land (s_flags s) (Z.lnot INITED_VIDEO)) s).

(* [src/src/stream/ibase_stream.cpp:356-358 IBaseStream::IsAudioInited] *)
Definition IsAudioInited (s : stream) : bool := negb (Z.land (s_flags s) INITED_AUDIO =? 0)%Z.

(* [src/src/stream/ibase_stream.cpp:360-362 IBaseStream::IsVideoInited] *)
Definition IsVideoInited (s : stream) : bool := negb (Z.land (s_flags s) INITED_VIDEO =? 0)%Z.

(** Adds [size] bytes to the channel [id] of a list, when there is one. *)
Definition add_bytes (now size id : Z) (cs : list ChannelStats) : list ChannelStats :=
  if (id <? Z.of_nat (length cs))%Z then
    alter (fun c => SetTotalBytes now (u64 (cs_total_bytes c + size)) c) (Z.to_nat id) cs
  else cs.

(* [src/src/stream/ibase_stream.cpp:732-744 IBaseStream::UpdateStats] *)
Definition UpdateStats (now : Z) (probe : Probe) (size : Z) : smethod unit :=
  modify (fun s =>
    let st := s_stats s in
    match p_kind probe with
    | PROBE_IN => set_stats (with_channels (add_bytes now size (p_id probe) (ss_input st)) (ss_output st) st) s
    | PROBE_OUT => set_stats (with_channels (ss_input st) (add_bytes now size (p_id probe) (ss_output st)) st) s
    end).

(** *** Data at a pad *)

(** What passes a pad, with the sizes of the buffers. *)
Inductive probe_data :=
| ProbeBuffer (size : Z)
| ProbeBufferList (sizes : list Z)
| ProbeEvent (event : gst_event) (serialized : bool)
| ProbeUnknown.

Definition set_consistency (c : Consistency) (p : Probe) : Probe :=
  {| p_kind := p_kind p; p_id := p_id p; p_consistency := c |}.

(** At the pad of a source; a list of buffers is not known here. The result is
    the probe. *)
(* [src/src/stream/probes.cpp:110-200 Probe::source_callback_probe_buffer] *)
Definition source_callback_probe_buffer (now : Z) (probe : Probe) (data : probe_data) : smethod Probe :=
  match data with
  | ProbeBuffer size => UpdateStats now probe size ;; mret probe
  | ProbeEvent event serialized => mret (set_consistency (source_event event serialized (p_consistency probe)) probe)
  | ProbeBufferList _ | ProbeUnknown => mret probe
  end.

(* [src/src/stream/probes.cpp:202-267 Probe::sink_callback_probe_buffer] *)
Definition sink_callback_probe_buffer (now : Z) (probe : Probe) (data : probe_data) : smethod Probe :=
  match data with
  | ProbeBuffer size => UpdateStats now probe size ;; mret probe
  | ProbeBufferList sizes => act_iter (UpdateStats now probe) sizes ;; mret probe
  | ProbeEvent event _ => mret (set_consistency (sink_event event (p_consistency probe)) probe)
  | ProbeUnknown => mret probe
  end.

(** *** A changed duration

    The duration of the source, in nanoseconds, is counted as bytes of the
    probes that stand at the positions of the inputs over HTTP; [http_inputs]
    tells which these are, from position [i] on. *)
(* [src/src/stream/ibase_stream.cpp:618-626 IBaseStream::HandleAsyncBusMessageReceived] *)
Fixpoint HandleDurationChanged (now : Z) (probe_in : list Probe) (duration : Z) (i : nat) (http_inputs : list bool)
    : outcome (smethod unit) :=
  match http_inputs with
  | [] => Ok (mret tt)
  | is_http :: rest =>
      if is_http : bool then
        match probe_in !! i with
        | None => Abort (UndefinedBehaviour "probe_in_[i]")
        | Some probe =>
            more ← HandleDurationChanged now probe_in duration (S i) rest;
            Ok (UpdateStats now probe (u64 duration) ;; more)
        end
      else HandleDurationChanged now probe_in duration (S i) rest
  end.
End BaseStream.

(** ** Properties *)

Section BaseStreamTheorems.
Context `{CommonLib}.
Abbreviation smethod := (act stream stream_event).

(** The nanoseconds of a duration are added to the bytes that an input over HTTP
    has received. *)
Theorem duration_is_counted now p duration s c cs :
  p_kind p = PROBE_IN -> p_id p = 0%Z -> ss_input (s_stats s) = c :: cs ->
  exists m, HandleDurationChanged now [p] duration 0 [true] = Ok m /\
    ss_input (s_stats (act_state (m s))) = SetTotalBytes now (u64 (cs_total_bytes c + u64 duration)) c :: cs.
Proof.
  intros Hk Hi Hc. eexists. split; [reflexivity|]. unfold UpdateStats, mbind, act_bind, modify, mret, act_ret, act_state.
  cbn -[add_bytes u64]. rewrite Hk, Hi. cbn -[add_bytes u64]. rewrite Hc. unfold add_bytes.
  by rewrite (proj2 (Z.ltb_lt _ _)) by (cbn; lia).
Qed.

(** Runs a sequence of actions on a state that is known. *)
Ltac run_act := unfold mbind, act_bind, mret, act_ret, modify, gets, emit, act_state, act_events,
  act_result in *; cbn -[Z.add Z.sub Z.quot Z.ltb Z.leb u64 tick_diff GetElipsedTime UpdateBps ResetDataWait].

Definition set_bps (diff : Z) (s : stream) : stream :=
  set_stats (with_channels (UpdateBps diff <$> ss_input (s_stats s))
    (UpdateBps diff <$> ss_output (s_stats s)) (s_stats s)) s.

Definition in_failed (s : stream) : bool := (total_diff (ss_input (s_stats s)) <? MIN_IN_DATA)%Z.
Definition out_failed (s : stream) : bool := (total_diff (ss_output (s_stats s)) <? MIN_OUT_DATA)%Z.

(** The checkpoint's part of the tick. *)
Definition tick_checkpoint (v : virtuals) (now now' : Z) (s : stream) : smethod unit :=
  if (s_no_data_panic_tick s <? GetElipsedTime now s)%Z then
    (if in_failed s then v_OnInputDataFailed v now' else OnInputDataOK) ;;
    (if out_failed s then v_OnOutputDataFailed v now' else OnOutputDataOK now')
  else mret tt.

(** The report's part of the tick, on the state after the checkpoint. *)
Definition tick_report (up_time : Z) (s : stream) : stream :=
  if IsActive s && (s_status_tick s <=? up_time)%Z
  then set_ticks (up_time + report_delay_sec)%Z (s_no_data_panic_tick s) s else s.

Lemma tick_state v now now' s :
  act_state (HandleMainTimerTick v now now' s) =
  tick_report (GetElipsedTime now s)
    (act_state (tick_checkpoint v now now' s (set_bps (tick_diff now s) s))).
Proof.
  unfold HandleMainTimerTick, tick_checkpoint, tick_report, in_failed, out_failed, set_bps.
  unfold mbind, act_bind, mret, act_ret, modify, gets, emit, act_state. cbn -[IsActive].
  destruct (_ <? _)%Z; cbn -[IsActive].
  - destruct (total_diff _ <? MIN_IN_DATA)%Z; cbn -[IsActive];
      [destruct (v_OnInputDataFailed v now' _) as [[[] s1] e1]|];
      (destruct (total_diff _ <? MIN_OUT_DATA)%Z; cbn -[IsActive];
        [destruct (v_OnOutputDataFailed v now' _) as [[[] s2] e2]|];
        by destruct (_ && _)).
  - by destruct (_ && _).
Qed.

Lemma tick_report_loop up s : s_loop_running (tick_report up s) = s_loop_running s /\
  s_last_exit_status (tick_report up s) = s_last_exit_status s /\
  s_stats (tick_report up s) = s_stats s /\
  s_no_data_panic_tick (tick_report up s) = s_no_data_panic_tick s.
Proof. unfold tick_report. by destruct (_ && _). Qed.

(** When a minute has gone by since the last checkpoint and the inputs have
    received less than the minimum, the tick ends the main loop with the status
    that makes the controller count a failure. *)
Theorem tick_no_input_quits s now now' :
  s_loop_running s = true ->
  (s_no_data_panic_tick s < GetElipsedTime now s)%Z ->
  (total_diff (ss_input (s_stats s)) < MIN_IN_DATA)%Z ->
  let s' := act_state (HandleMainTimerTick base_virtuals now now' s) in
  s_loop_running s' = false /\ s_last_exit_status s' = EXIT_INNER.
Proof.
  intros Hrun Hup Hin s'. unfold s'. rewrite tick_state.
  destruct (tick_report_loop (GetElipsedTime now s)
    (act_state (tick_checkpoint base_virtuals now now' s (set_bps (tick_diff now s) s)))) as (-> & -> & _).
  unfold tick_checkpoint, in_failed. rewrite (proj2 (Z.ltb_lt _ _) Hup), (proj2 (Z.ltb_lt _ _) Hin).
  run_act. rewrite Hrun. run_act. destruct (out_failed s); run_act; done.
Qed.

(** When inputs and outputs have both moved enough data, the tick keeps the
    stream running, makes the counters of every channel a new checkpoint and
    sets the next one a minute ahead. *)
Theorem tick_healthy s now now' :
  (s_no_data_panic_tick s < GetElipsedTime now s)%Z ->
  (MIN_IN_DATA <= total_diff (ss_input (s_stats s)))%Z ->
  (MIN_OUT_DATA <= total_diff (ss_output (s_stats s)))%Z ->
  let s' := act_state (HandleMainTimerTick base_virtuals now now' s) in
  s_loop_running s' = s_loop_running s /\
  s_no_data_panic_tick s' = (GetElipsedTime now' s + no_data_panic_sec)%Z /\
  Forall (fun c => GetDiffTotalBytes c = 0%Z) (ss_input (s_stats s') ++ ss_output (s_stats s')).
Proof.
  intros Hup Hin Hout s'. unfold s'. rewrite tick_state.
  destruct (tick_report_loop (GetElipsedTime now s)
    (act_state (tick_checkpoint base_virtuals now now' s (set_bps (tick_diff now s) s)))) as (-> & _ & -> & ->).
  unfold tick_checkpoint, in_failed, out_failed.
  rewrite (proj2 (Z.ltb_lt _ _) Hup), (proj2 (Z.ltb_ge _ _) Hin), (proj2 (Z.ltb_ge _ _) Hout).
  run_act. split; [done|]. split; [done|].
  apply Forall_forall. intros c Hc. apply elem_of_app in Hc.
  by eapply ResetDataWait_diff.
Qed.

(** Between checkpoints a tick changes the speeds only: the main loop, the
    exit status, the checkpoints and the byte counters stay as they are. *)
Theorem tick_between_checkpoints v s now now' :
  (GetElipsedTime now s <= s_no_data_panic_tick s)%Z ->
  let s' := act_state (HandleMainTimerTick v now now' s) in
  s_loop_running s' = s_loop_running s /\ s_last_exit_status s' = s_last_exit_status s /\
  s_no_data_panic_tick s' = s_no_data_panic_tick s /\
  GetDiffTotalBytes <$> ss_input (s_stats s') = GetDiffTotalBytes <$> ss_input (s_stats s) /\
  GetDiffTotalBytes <$> ss_output (s_stats s') = GetDiffTotalBytes <$> ss_output (s_stats s).
Proof.
  intros Hup s'. unfold s'. rewrite tick_state.
  destruct (tick_report_loop (GetElipsedTime now s)
    (act_state (tick_checkpoint v now now' s (set_bps (tick_diff now s) s)))) as (-> & -> & -> & ->).
  unfold tick_checkpoint. rewrite (proj2 (Z.ltb_ge _ _) Hup). run_act.
  assert (Hd : forall cs : list ChannelStats, GetDiffTotalBytes <$> (UpdateBps (tick_diff now s) <$> cs) =
    GetDiffTotalBytes <$> cs).
  { intros cs. rewrite <- list_fmap_compose. apply list_fmap_ext. intros _ c _. cbn.
    unfold UpdateBps. by case_decide. }
  by rewrite !Hd.
Qed.

(** The division by the seconds since the last checkpoint is never one by
    zero: it is made only when more than a minute has gone by. *)
Theorem tick_diff_positive s now :
  in_s 63 (s_no_data_panic_tick s) -> in_s 63 (GetElipsedTime now s) ->
  (s_no_data_panic_tick s < GetElipsedTime now s)%Z ->
  (no_data_panic_sec < tick_diff now s)%Z.
Proof.
  intros Ht He Hlt. unfold tick_diff, no_data_panic_sec, in_s in *.
  rewrite wrap_small; [lia|]. unfold in_u. cbn in *. lia.
Qed.

(** The first [Quit] decides how a stream ends: it stops the main loop with
    its status, and a later one changes nothing. *)
Theorem first_quit_wins s a b :
  s_loop_running s = true ->
  act_state ((Quit a ;; Quit b) s) = set_loop false a s.
Proof. intros Hs. run_act. rewrite Hs. run_act. done. Qed.

(** A quit that comes before the main loop runs is forgotten. *)
Lemma early_quit_lost s a :
  s_loop_running s = false -> act_state (Quit a s) = s.
Proof. intros Hs. run_act. by rewrite Hs. Qed.

(** [SetAudioInited(false)] does not clear the audio flag, it clears every
    other one; [SetVideoInited(false)] clears the video flag only. *)
Theorem SetInited_false s :
  IsAudioInited (act_state (SetAudioInited false s)) = IsAudioInited s /\
  IsVideoInited (act_state (SetAudioInited false s)) = false /\
  IsVideoInited (act_state (SetVideoInited false s)) = false /\
  IsAudioInited (act_state (SetVideoInited false s)) = IsAudioInited s.
Proof.
  run_act. unfold IsAudioInited, IsVideoInited. cbn -[Z.land Z.lnot]. split_and!.
  - by rewrite <- Z.land_assoc.
  - by rewrite <- Z.land_assoc, Z.land_0_r.
  - by rewrite <- Z.land_assoc, Z.land_0_r.
  - rewrite <- Z.land_assoc. done.
Qed.

(** Bytes that a probe sees are added, modulo the width of the counter, to
    the channel of its element and to no other, and a probe of an element that
    has no channel adds nothing. *)
Theorem add_bytes_spec now size id cs i :
  (0 <= id)%Z ->
  add_bytes now size id cs !! i =
  if decide (Z.of_nat i = id)
  then (fun c => SetTotalBytes now (u64 (cs_total_bytes c + size)) c) <$> cs !! i
  else cs !! i.
Proof.
  intros Hid. unfold add_bytes. case_decide as Hi.
  - subst id. destruct (_ <? _)%Z eqn:Hl.
    + rewrite Nat2Z.id. apply list_lookup_alter_eq.
    + apply Z.ltb_ge in Hl. by rewrite lookup_ge_None_2 by lia.
  - destruct (_ <? _)%Z; [|done]. apply list_lookup_alter_ne. lia.
Qed.
End BaseStreamTheorems.

(** ** End of stream *)

(** All the probes of an element have seen the end of the stream. *)
Definition element_at_eos (probes : list Probe) (id : Z) : bool :=
  forallb (fun p => negb (p_id p =? id)%Z || k_eos (p_consistency p)) probes.

Lemma eos_statuses_snoc l p :
  eos_statuses (l ++ [p]) =
  match eos_statuses l !! p_id p with
  | Some eos => <[p_id p := eos && k_eos (p_consistency p)]> (eos_statuses l)
  | None => <[p_id p := k_eos (p_consistency p)]> (eos_statuses l)
  end.
Proof. unfold eos_statuses. by rewrite fold_left_app. Qed.

Lemma eos_statuses_lookup l id :
  eos_statuses l !! id =
  if decide (id ∈ p_id <$> l) then Some (element_at_eos l id) else None.
Proof.
  induction l as [|p l IH] using rev_ind; [done|].
  rewrite eos_statuses_snoc, fmap_app. unfold element_at_eos in *. rewrite forallb_app. cbn [forallb fmap list_fmap].
  rewrite andb_true_r. destruct (decide (p_id p = id)) as [<-|Hne].
  - rewrite Z.eqb_refl. cbn. rewrite (decide_True (P := p_id p ∈ _ ++ _)) by set_solver.
    rewrite IH. case_decide as Hin; rewrite lookup_insert_eq; [done|]. f_equal.
    replace (forallb _ l) with true; [done|]. symmetry. apply forallb_forall.
    intros q Hq. rewrite <- list_elem_of_In in Hq. apply orb_true_iff. left. apply negb_true_iff, Z.eqb_neq.
    intros He. apply Hin. apply list_elem_of_fmap. exists q. done.
  - rewrite (proj2 (Z.eqb_neq _ _) Hne). cbn. rewrite andb_true_r.
    rewrite (decide_ext (id ∈ (p_id <$> l) ++ [p_id p]) (id ∈ p_id <$> l)) by set_solver.
    rewrite <- IH. destruct (eos_statuses l !! p_id p); by rewrite lookup_insert_ne.
Qed.

(** The number of inputs at the end of the stream is the number of
    elements all of whose probes have seen it. *)
Theorem CountInputEOS_spec probes :
  CountInputEOS probes =
  length (List.filter (element_at_eos probes) (remove_dups (p_id <$> probes))).
Proof.
  unfold CountInputEOS.
  assert (Hp : map_to_list (eos_statuses probes) ≡ₚ
    (fun id => (id, element_at_eos probes id)) <$> remove_dups (p_id <$> probes)).
  { apply NoDup_Permutation.
    - apply NoDup_map_to_list.
    - apply NoDup_fmap; [intros ?? [= ->]; done|]. apply NoDup_remove_dups.
    - intros [id b]. rewrite elem_of_map_to_list. split.
      + rewrite eos_statuses_lookup. case_decide as Hin; [|done]. intros [= <-].
        apply list_elem_of_fmap. exists id. split; [done|]. by apply elem_of_remove_dups.
      + intros (id' & [= -> ->] & Hin)%list_elem_of_fmap. apply (proj1 (elem_of_remove_dups _ _)) in Hin.
        rewrite eos_statuses_lookup. by case_decide. }
  assert (Hf : forall l l' : list (Z * bool), l ≡ₚ l' ->
    length (List.filter (fun kv => kv.2) l) = length (List.filter (fun kv => kv.2) l')).
  { induction 1 as [|[? []]|[? []] [? []]|]; cbn; lia. }
  rewrite (Hf _ _ Hp). clear Hp. induction (remove_dups _) as [|id l IH]; [done|].
  cbn. destruct (element_at_eos probes id); cbn; by rewrite IH.
Qed.

(** ** The theorems at concrete streams *)

Section Witnesses.
#[local] Existing Instance Ref.common.

(** A stream with one input and one output, started at time 0, whose next
    checkpoint is at second 60 and which has moved [n] bytes each way. *)
Definition sample_stream (n : Z) : stream :=
  {| s_stats :=
       {| ss_id := "s1"; ss_type := ENCODE; ss_start_time := 0; ss_loop_start_time := 0;
          ss_restarts := 0; ss_status := PLAYING;
          ss_input := [SetTotalBytes 5 n (make_channel_stats 0)];
          ss_output := [SetTotalBytes 5 n (make_channel_stats 0)] |};
     s_status_tick := 0; s_no_data_panic_tick := 60; s_last_exit_status := EXIT_INNER;
     s_is_live := false; s_flags := 0; s_desire_flags := 0; s_loop_running := true |}.

Lemma tick_no_input_quits_witness :
  s_loop_running (act_state (HandleMainTimerTick base_virtuals 61000 61000 (sample_stream 1000))) = false.
Proof.
  apply (@tick_no_input_quits Ref.common (sample_stream 1000) 61000 61000);
    [reflexivity | vm_compute; reflexivity | vm_compute; reflexivity].
Defined.

Lemma tick_healthy_witness :
  s_no_data_panic_tick
    (act_state (HandleMainTimerTick base_virtuals 61000 61000 (sample_stream 1000000))) = 121%Z.
Proof.
  destruct (@tick_healthy Ref.common (sample_stream 1000000) 61000 61000) as (_ & Ht & _);
    [vm_compute; reflexivity | vm_compute; discriminate | vm_compute; discriminate |].
  exact Ht.
Defined.

Lemma tick_between_checkpoints_witness :
  s_loop_running (act_state (HandleMainTimerTick base_virtuals 5000 5000 (sample_stream 10))) = true.
Proof.
  destruct (@tick_between_checkpoints Ref.common base_virtuals (sample_stream 10) 5000 5000)
    as (Hr & _); [vm_compute; discriminate|]. exact Hr.
Defined.

Lemma tick_diff_positive_witness : (no_data_panic_sec < tick_diff 61000 (sample_stream 10))%Z.
Proof.
  apply (@tick_diff_positive Ref.common (sample_stream 10) 61000);
    [vm_compute; split; discriminate || reflexivity | vm_compute; split; discriminate || reflexivity
    | vm_compute; reflexivity].
Defined.

Lemma first_quit_wins_witness :
  s_last_exit_status (act_state ((Quit EXIT_SELF ;; Quit EXIT_INNER) (sample_stream 10))) = EXIT_SELF.
Proof.
  assert (Hs : s_loop_running (sample_stream 10) = true) by reflexivity.
  rewrite (@first_quit_wins Ref.common (sample_stream 10) EXIT_SELF EXIT_INNER Hs). reflexivity.
Defined.

Lemma add_bytes_spec_witness :
  add_bytes 9 100 1 [make_channel_stats 0; make_channel_stats 1] !! 1 =
  Some (SetTotalBytes 9 100 (make_channel_stats 1)).
Proof.
  rewrite (@add_bytes_spec Ref.common 9 100 1 [make_channel_stats 0; make_channel_stats 1] 1)
    by discriminate.
  reflexivity.
Defined.
End Witnesses.
