(* ===== verification/Probes.v ===== *)
(** * The life of the probes

    [src/src/stream/probes.cpp] and the parts of [src/src/stream/ibase_stream.cpp]
    that make and delete probes. A [Probe] is an object of the stream; a pad of
    GStreamer that it is linked to keeps its address, as the user data of its
    callbacks. The two sides are one store here: which objects live, and which
    addresses the pads hold. *)

From S2P Require Import Prelude Platform StreamTypes Stats BaseStream.

Inductive pad_direction := PadUnknown | PadSrc | PadSink.

Section Probes.
Context `{CommonLib}.

(** ** The store *)

(** [pb_probe] has the attributes that [BaseStream] works with. *)
(* [src/src/stream/probes.h:44-74 Probe] *)
Record probe_object := { pb_probe : Probe; pb_id_buffer : Z; pb_pad : option nat }.

(** [pw_hooks] is GStreamer's: the numbers under which a pad has callbacks, and
    their user data; [pw_gone]: the pads that it has deleted. [pw_objects]: the probes that live, by address. *)
Record pad_world := {
  pw_hooks : gmap (nat * Z) nat;
  pw_gone : gset nat;
  pw_objects : gmap nat probe_object;
  pw_next : nat;
  pw_probe_in : list nat;
  pw_probe_out : list nat;
  pw_stream : stream
}.

Definition world_init (s : stream) : pad_world :=
  {| pw_hooks := ∅; pw_gone := ∅; pw_objects := ∅; pw_next := 0; pw_probe_in := []; pw_probe_out := []; pw_stream := s |}.

Definition set_hooks (f : gmap (nat * Z) nat -> gmap (nat * Z) nat) (w : pad_world) : pad_world :=
  {| pw_hooks := f (pw_hooks w); pw_gone := pw_gone w; pw_objects := pw_objects w; pw_next := pw_next w;
     pw_probe_in := pw_probe_in w; pw_probe_out := pw_probe_out w; pw_stream := pw_stream w |}.
Definition set_objects (f : gmap nat probe_object -> gmap nat probe_object) (w : pad_world) : pad_world :=
  {| pw_hooks := pw_hooks w; pw_gone := pw_gone w; pw_objects := f (pw_objects w); pw_next := pw_next w;
     pw_probe_in := pw_probe_in w; pw_probe_out := pw_probe_out w; pw_stream := pw_stream w |}.
Definition set_lists (i o : list nat) (w : pad_world) : pad_world :=
  {| pw_hooks := pw_hooks w; pw_gone := pw_gone w; pw_objects := pw_objects w; pw_next := pw_next w;
     pw_probe_in := i; pw_probe_out := o; pw_stream := pw_stream w |}.
Definition set_pw_stream (s : stream) (w : pad_world) : pad_world :=
  {| pw_hooks := pw_hooks w; pw_gone := pw_gone w; pw_objects := pw_objects w; pw_next := pw_next w;
     pw_probe_in := pw_probe_in w; pw_probe_out := pw_probe_out w; pw_stream := s |}.

Definition add_gone (pad : nat) (w : pad_world) : pad_world :=
  {| pw_hooks := pw_hooks w; pw_gone := {[pad]} ∪ pw_gone w; pw_objects := pw_objects w; pw_next := pw_next w;
     pw_probe_in := pw_probe_in w; pw_probe_out := pw_probe_out w; pw_stream := pw_stream w |}.

(** Following the address of an object that was deleted has no defined result. *)
Definition probe_at (p : nat) (w : pad_world) : outcome probe_object :=
  match pw_objects w !! p with Some o => Ok o | None => Abort (UndefinedBehaviour "use of a deleted Probe") end.

(** Nor has following that of a pad. *)
Definition live_pad (pad : nat) (w : pad_world) : outcome unit :=
  if decide (pad ∈ pw_gone w) then Abort (UndefinedBehaviour "use of a deleted GstPad") else Ok tt.

(** ** Probes *)

(** GStreamer's: the direction of a pad. *)
Context (direction : nat -> pad_direction).

(* [src/src/stream/probes.cpp:30-33 Probe::Probe] *)
Definition new_probe (name : probe_kind) (id : Z) (w : pad_world) : nat * pad_world :=
  let o := {| pb_probe := {| p_kind := name; p_id := id; p_consistency := consistency_init |};
              pb_id_buffer := 0; pb_pad := None |} in
  (pw_next w,
   {| pw_hooks := pw_hooks w; pw_gone := pw_gone w; pw_objects := <[pw_next w := o]> (pw_objects w); pw_next := S (pw_next w);
      pw_probe_in := pw_probe_in w; pw_probe_out := pw_probe_out w; pw_stream := pw_stream w |}).

(* [src/src/stream/probes.cpp:80-83 Probe::ClearInner] *)
Definition ClearInner (p : nat) (w : pad_world) : outcome pad_world :=
  o ← probe_at p w;
  Ok (set_objects <[p := {| pb_probe := pb_probe o; pb_id_buffer := 0; pb_pad := None |}]> w).

(* [src/src/stream/probes.cpp:105-108 Probe::destroy_callback_probe] *)
Definition destroy_callback_probe (user_data : nat) (w : pad_world) : outcome pad_world := ClearInner user_data w.

(** GStreamer takes a callback off a pad, and then tells its owner. *)
Definition drop_callback (pad : nat) (id : Z) (w : pad_world) : outcome pad_world :=
  match pw_hooks w !! (pad, id) with
  | None => Ok w
  | Some user_data => destroy_callback_probe user_data (set_hooks (delete (pad, id)) w)
  end.

Fixpoint drop_callbacks (pad : nat) (ids : list Z) (w : pad_world) : outcome pad_world :=
  match ids with [] => Ok w | id :: ids => w ← drop_callback pad id w; drop_callbacks pad ids w end.
Definition pad_ids (pad : nat) (w : pad_world) : list Z :=
  (fun x => x.1.2) <$> filter (fun x => x.1.1 = pad) (map_to_list (pw_hooks w)).

(** A pad goes with the last reference to it: GStreamer takes its callbacks off. *)
Definition gst_pad_gone (pad : nat) (w : pad_world) : outcome pad_world :=
  w ← drop_callbacks pad (pad_ids pad w) w; Ok (add_gone pad w).

Definition gst_pad_remove_probe (pad : nat) (id : Z) (w : pad_world) : outcome pad_world :=
  live_pad pad w ;; drop_callback pad id w.

(* [src/src/stream/probes.cpp:72-78 Probe::Clear] *)
Definition Clear (p : nat) (w : pad_world) : outcome pad_world :=
  o ← probe_at p w;
  match pb_pad o with
  | None => Ok w
  | Some pad => gst_pad_remove_probe pad (pb_id_buffer o) w
  end.

(** [answer]: the number that [gst_pad_add_probe] gives, or zero when it adds
    nothing. *)
(* [src/src/stream/probes.cpp:43-70 Probe::Link] *)
Definition Link (p : nat) (pad : option nat) (answer : Z) (w : pad_world) : outcome pad_world :=
  match pad with
  | None => Ok w
  | Some pad =>
      w ← Clear p w;
      live_pad pad w ;;
      match direction pad with
      | PadUnknown => Abort (NotReached "direction of a pad")
      | PadSrc | PadSink =>
          if (answer =? 0)%Z then critical_log "Cannot add probe" ;; Ok w
          else
            o ← probe_at p w;
            Ok (set_objects <[p := {| pb_probe := pb_probe o; pb_id_buffer := answer; pb_pad := Some pad |}]>
                  (set_hooks <[(pad, answer) := p]> w))
      end
  end.

(* [src/src/stream/probes.cpp:85-91 Probe::LinkPads] *)
Definition LinkPads (p : nat) (pad : option nat) (answer : Z) (w : pad_world) : outcome pad_world :=
  match pad with None => Ok w | Some _ => Link p pad answer w end.

(* [src/src/stream/probes.cpp:35-37 Probe::~Probe] *)
Definition delete_probe (p : nat) (w : pad_world) : outcome pad_world :=
  w ← Clear p w; Ok (set_objects (delete p) w).

(** ** The stream *)

Definition push_probe (kind : probe_kind) (probe : nat) (w : pad_world) : pad_world :=
  match kind with
  | PROBE_IN => set_lists (pw_probe_in w ++ [probe]) (pw_probe_out w) w
  | PROBE_OUT => set_lists (pw_probe_in w) (pw_probe_out w ++ [probe]) w
  end.

(** [LinkInputPad] and [LinkOutputPad]. *)
(* [src/src/stream/ibase_stream.cpp:188-198 IBaseStream::LinkInputPad] *)
Definition link_stream_pad (kind : probe_kind) (pad : option nat) (id : Z) (answer : Z) (w : pad_world) : outcome pad_world :=
  let '(probe, w) := new_probe kind id w in
  w ← LinkPads probe pad answer w;
  Ok (push_probe kind probe w).

Fixpoint delete_probes (l : list nat) (w : pad_world) : outcome pad_world :=
  match l with [] => Ok w | p :: l => w ← delete_probe p w; delete_probes l w end.

(* [src/src/stream/ibase_stream.cpp:232-237 IBaseStream::ClearOutProbes] *)
Definition delete_out_probes (w : pad_world) : outcome pad_world :=
  w ← delete_probes (pw_probe_out w) w; Ok (set_lists (pw_probe_in w) [] w).

(* [src/src/stream/ibase_stream.cpp:239-244 IBaseStream::ClearInProbes] *)
Definition delete_in_probes (w : pad_world) : outcome pad_world :=
  w ← delete_probes (pw_probe_in w) w; Ok (set_lists [] (pw_probe_out w) w).

(** The probes' part of the destructor; the elements that it deletes next are
    those whose pads these were. *)
(* [src/src/stream/ibase_stream.cpp:296-299 IBaseStream::~IBaseStream] *)
Definition stream_destroy (w : pad_world) : outcome pad_world := w ← delete_out_probes w; delete_in_probes w.

(** Something passes a pad: its callback of that number runs. *)
(* [src/src/stream/probes.cpp:53-57 Probe::Link] *)
Definition pad_callback (now : Z) (pad : nat) (id : Z) (data : probe_data) (w : pad_world) : outcome pad_world :=
  match pw_hooks w !! (pad, id) with
  | None => Ok w
  | Some user_data =>
      o ← probe_at user_data w;
      let callback := match direction pad with PadSrc => source_callback_probe_buffer | _ => sink_callback_probe_buffer end in
      let '(probe, s, _) := callback now (pb_probe o) data (pw_stream w) in
      Ok (set_pw_stream s
            (set_objects <[user_data := {| pb_probe := probe; pb_id_buffer := pb_id_buffer o; pb_pad := pb_pad o |}]> w))
  end.

(** What happens to probes: the stream links a pad, something passes a pad,
    GStreamer drops a callback, or a pad with all of them, the stream is
    destroyed. *)
Inductive probe_event :=
| PadLinked (kind : probe_kind) (pad : option nat) (id : Z) (answer : Z)
| DataPassed (now : Z) (pad : nat) (id : Z) (data : probe_data)
| CallbackDropped (pad : nat) (id : Z)
| PadGone (pad : nat)
| StreamGone.

Definition probe_react (e : probe_event) (w : pad_world) : outcome pad_world :=
  match e with
  | PadLinked kind pad id answer => link_stream_pad kind pad id answer w
  | DataPassed now pad id data => pad_callback now pad id data w
  | CallbackDropped pad id => drop_callback pad id w
  | PadGone pad => gst_pad_gone pad w
  | StreamGone => stream_destroy w
  end.

(** GStreamer's promises: a pad that it hands out is there and has a direction, and a number that
    a pad gives to a callback is not in use on that pad. *)
Definition possible (e : probe_event) (w : pad_world) : Prop :=
  match e with
  | PadLinked _ (Some pad) _ answer => (pad ∉ pw_gone w) /\ direction pad <> PadUnknown /\ pw_hooks w !! (pad, answer) = None
  | _ => True
  end.

Definition probe_step (w w' : pad_world) : Prop := exists e, possible e w /\ probe_react e w = Ok w'.

(** ** Theorems *)

(** Callbacks and objects know each other: what a pad holds is a live probe that
    is linked under that number, and a probe that thinks it is linked is held. A
    pad that is gone holds nothing. *)
Record linked (w : pad_world) : Prop := {
  lk_hook k p : pw_hooks w !! k = Some p ->
    exists o, pw_objects w !! p = Some o /\ pb_pad o = Some k.1 /\ pb_id_buffer o = k.2;
  lk_object p o pad : pw_objects w !! p = Some o -> pb_pad o = Some pad -> pw_hooks w !! (pad, pb_id_buffer o) = Some p;
  lk_pad k p : pw_hooks w !! k = Some p -> k.1 ∉ pw_gone w
}.

(** The lists of the stream hold every live probe once. *)
Record owned (w : pad_world) : Prop := {
  ow_live p : is_Some (pw_objects w !! p) <-> p ∈ pw_probe_out w ++ pw_probe_in w;
  ow_once : NoDup (pw_probe_out w ++ pw_probe_in w);
  ow_next p : p ∈ pw_probe_out w ++ pw_probe_in w -> p < pw_next w
}.

Definition unlink_object (o : probe_object) : probe_object :=
  {| pb_probe := pb_probe o; pb_id_buffer := 0; pb_pad := None |}.

(** Taking a callback off a pad: its probe forgets the pad. *)
Lemma drop_callback_spec pad id w :
  linked w ->
  exists w', drop_callback pad id w = Ok w' /\ linked w' /\
    pw_hooks w' = delete (pad, id) (pw_hooks w) /\
    pw_objects w' = match pw_hooks w !! (pad, id) with
                    | Some p => alter unlink_object p (pw_objects w) | None => pw_objects w end /\
    w' = set_hooks (fun _ => pw_hooks w') (set_objects (fun _ => pw_objects w') w).
Proof.
  intros Hw. unfold drop_callback. destruct (pw_hooks w !! (pad, id)) as [p|] eqn:Hh.
  - destruct (lk_hook w Hw _ _ Hh) as (o & Ho & Hpad & Hid). cbn in Hpad, Hid.
    unfold destroy_callback_probe, ClearInner, probe_at. cbn. rewrite Ho. cbn. eexists. split; [done|].
    assert (Ha : <[p := unlink_object o]> (pw_objects w) = alter unlink_object p (pw_objects w)).
    { apply map_eq. intros q. destruct (decide (q = p)) as [->|]; [by rewrite lookup_insert_eq, lookup_alter_eq, Ho|].
      by rewrite lookup_insert_ne, lookup_alter_ne by done. }
    split; [|by split_and!]. constructor; cbn; intros *.
    + intros [Hk Hl]%lookup_delete_Some. destruct (lk_hook w Hw _ _ Hl) as (o' & Ho' & Hp' & Hi').
      assert (p0 <> p) by (intros ->; apply Hk; rewrite Ho in Ho'; destruct k; cbn in *; congruence).
      exists o'. by rewrite lookup_insert_ne.
    + intros [[<- <-]|[Hne Ho']]%lookup_insert_Some Hp; [done|].
      rewrite lookup_delete_ne; [by eapply lk_object|]. intros [= <- He].
      pose proof (lk_object w Hw _ _ _ Ho' Hp) as Hl. rewrite <-He, Hh in Hl. congruence.
    + intros [_ Hl]%lookup_delete_Some. by eapply lk_pad.
  - exists w. split_and!; try done; [|by destruct w]. by rewrite delete_id.
Qed.

(** [Clear] at a live probe, linked or not. *)
Lemma Clear_spec p o w :
  linked w -> pw_objects w !! p = Some o ->
  exists w' o', Clear p w = Ok w' /\ linked w' /\ pw_objects w' !! p = Some o' /\ pb_pad o' = None /\
    dom (pw_objects w') = dom (pw_objects w) /\ (forall k, pw_hooks w !! k = None -> pw_hooks w' !! k = None) /\
    w' = set_hooks (fun _ => pw_hooks w') (set_objects (fun _ => pw_objects w') w).
Proof.
  intros Hw Ho. unfold Clear, probe_at. rewrite Ho. cbn. destruct (pb_pad o) as [pad|] eqn:Hp.
  - unfold gst_pad_remove_probe, live_pad. rewrite decide_False by (by apply (lk_pad w Hw _ _ (lk_object w Hw _ _ _ Ho Hp))).
    destruct (drop_callback_spec pad (pb_id_buffer o) w Hw) as (w' & Hr & Hw' & Hh & Hob & He).
    rewrite (lk_object w Hw _ _ _ Ho Hp) in Hob. exists w', (unlink_object o). split_and!; try done.
    + by rewrite Hob, lookup_alter_eq, Ho.
    + by rewrite Hob, dom_alter_L.
    + intros k Hk. rewrite Hh. apply lookup_delete_None. by right.
  - exists w, o. split_and!; try done. by destruct w.
Qed.

(** A deleted probe is held by no pad. *)
Lemma delete_probe_spec p o w :
  linked w -> pw_objects w !! p = Some o ->
  exists w', delete_probe p w = Ok w' /\ linked w' /\ dom (pw_objects w') = dom (pw_objects w) ∖ {[p]} /\
    w' = set_hooks (fun _ => pw_hooks w') (set_objects (fun _ => pw_objects w') w).
Proof.
  intros Hw Ho. destruct (Clear_spec p o w Hw Ho) as (w' & o' & Hc & Hw' & Ho' & Hp & Hd & _ & He).
  unfold delete_probe. rewrite Hc. cbn. eexists. split; [done|]. split_and!.
  - constructor; cbn; intros *.
    + intros Hk. destruct (lk_hook w' Hw' _ _ Hk) as (o2 & Ho2 & Hp2 & Hi2). exists o2.
      rewrite lookup_delete_ne; [done|]. intros ->. rewrite Ho' in Ho2. congruence.
    + intros [_ Hl]%lookup_delete_Some. by eapply lk_object.
    + apply (lk_pad w' Hw').
  - cbn. by rewrite dom_delete_L, Hd.
  - rewrite He. done.
Qed.

Lemma delete_probes_spec l w :
  linked w -> NoDup l -> (forall p, p ∈ l -> is_Some (pw_objects w !! p)) ->
  exists w', delete_probes l w = Ok w' /\ linked w' /\ dom (pw_objects w') = dom (pw_objects w) ∖ list_to_set l /\
    w' = set_hooks (fun _ => pw_hooks w') (set_objects (fun _ => pw_objects w') w).
Proof.
  intros Hw Hl. revert w Hw. induction Hl as [|p l Hp _ IH]; intros w Hw Hlive; cbn [delete_probes].
  { exists w. split_and!; [done|done|set_solver|by destruct w]. }
  destruct (Hlive p) as [o Ho]; [set_solver|].
  destruct (delete_probe_spec p o w Hw Ho) as (w1 & H1 & Hw1 & Hd1 & He1). rewrite H1. cbn.
  destruct (IH w1 Hw1) as (w2 & H2 & Hw2 & Hd2 & He2).
  { intros q Hq. apply elem_of_dom. rewrite Hd1. apply elem_of_difference. split; [apply elem_of_dom, Hlive; set_solver|].
    set_solver. }
  exists w2. split_and!; [done|done| |].
  - rewrite Hd2, Hd1. cbn. set_solver.
  - rewrite He2, He1. done.
Qed.

Lemma dom_owned w : owned w -> dom (pw_objects w) = list_to_set (pw_probe_out w ++ pw_probe_in w).
Proof. intros Hw. apply set_eq. intros p. rewrite elem_of_dom, elem_of_list_to_set. apply (ow_live w Hw). Qed.

(** The destructor leaves nothing. *)
Lemma stream_destroy_spec w :
  linked w -> owned w ->
  exists w', stream_destroy w = Ok w' /\ linked w' /\ owned w' /\ pw_hooks w' = ∅ /\ pw_objects w' = ∅.
Proof.
  intros Hw Ho. pose proof (ow_once w Ho) as (Hn1 & Hn12 & Hn2)%NoDup_app.
  destruct (delete_probes_spec (pw_probe_out w) w Hw Hn1) as (w1 & H1 & Hw1 & Hd1 & He1).
  { intros p Hp. apply (ow_live w Ho). set_solver. }
  set (w2 := set_lists (pw_probe_in w1) [] w1).
  assert (Hi : pw_probe_in w1 = pw_probe_in w) by (by rewrite He1).
  assert (Hw2 : linked w2) by (constructor; [apply (lk_hook w1 Hw1)|apply (lk_object w1 Hw1)|apply (lk_pad w1 Hw1)]).
  destruct (delete_probes_spec (pw_probe_in w2) w2 Hw2) as (w3 & H3 & Hw3 & Hd3 & He3).
  { cbn. by rewrite Hi. }
  { cbn. rewrite Hi. intros p Hp. apply elem_of_dom. rewrite Hd1, (dom_owned w Ho). set_solver. }
  unfold stream_destroy, delete_out_probes, delete_in_probes. rewrite H1. cbn [mbind outcome_bind]. fold w2. rewrite H3. cbn.
  assert (Hob : pw_objects w3 = ∅).
  { apply dom_empty_iff_L. rewrite Hd3. cbn. rewrite Hd1, Hi, (dom_owned w Ho). set_solver. }
  assert (Hh : pw_hooks w3 = ∅).
  { apply map_empty. intros k. destruct (pw_hooks w3 !! k) as [p|] eqn:Hk; [|done].
    destruct (lk_hook w3 Hw3 _ _ Hk) as (o & Ho' & _). by rewrite Hob in Ho'. }
  eexists. split; [done|]. split_and!; [|constructor; cbn|done|done].
  - constructor; cbn; intros *; [by rewrite Hh|by rewrite Hob|by rewrite Hh].
  - rewrite Hob, He3. cbn. intros p. rewrite lookup_empty. split; [by intros []|]. intros Hp. by apply elem_of_nil in Hp.
  - rewrite He3. constructor.
  - rewrite He3. intros p Hp. by apply elem_of_nil in Hp.
Qed.

(** Something passes a pad: the callback finds its probe, and moves nothing. *)
Lemma pad_callback_spec now pad id data w :
  linked w -> owned w -> exists w', pad_callback now pad id data w = Ok w' /\ linked w' /\ owned w'.
Proof.
  intros Hw Ho. unfold pad_callback. destruct (pw_hooks w !! (pad, id)) as [p|] eqn:Hk; [|by exists w].
  destruct (lk_hook w Hw _ _ Hk) as (o & Hop & Hpad & Hid). unfold probe_at. rewrite Hop. cbn.
  destruct (_ : Probe * stream * list stream_event) as [[probe s] es]. eexists. split; [done|].
  split; constructor; cbn; intros *.
  - intros Hl. destruct (lk_hook w Hw _ _ Hl) as (o' & Ho' & Hp' & Hi').
    destruct (decide (p0 = p)) as [->|]; [|by exists o'; rewrite lookup_insert_ne].
    rewrite Hop in Ho'. injection Ho' as <-. eexists. by rewrite lookup_insert_eq.
  - intros [[<- <-]|[Hne Ho']]%lookup_insert_Some Hp; cbn in *; [by apply (lk_object w Hw p o)|by apply (lk_object w Hw p0 o0)].
  - apply (lk_pad w Hw).
  - rewrite lookup_insert_is_Some. rewrite <-(ow_live w Ho). split; [intros [<-|[_ ?]]; [by eexists|done]|].
    intros Hs. destruct (decide (p = p0)); naive_solver.
  - apply (ow_once w Ho).
  - apply (ow_next w Ho).
Qed.

Lemma push_linked kind p w : linked w -> linked (push_probe kind p w).
Proof. intros Hw. destruct kind; constructor; cbn; apply Hw. Qed.

Lemma push_owned kind w w' :
  owned w -> dom (pw_objects w') = {[pw_next w]} ∪ dom (pw_objects w) -> pw_next w' = S (pw_next w) ->
  pw_probe_in w' = pw_probe_in w -> pw_probe_out w' = pw_probe_out w -> owned (push_probe kind (pw_next w) w').
Proof.
  intros Ho Hd Hn Hi Hou.
  assert (Hp : pw_probe_out (push_probe kind (pw_next w) w') ++ pw_probe_in (push_probe kind (pw_next w) w') ≡ₚ
               pw_next w :: (pw_probe_out w ++ pw_probe_in w)).
  { destruct kind; cbn; rewrite Hi, Hou; solve_Permutation. }
  assert (Hnew : pw_next w ∉ pw_probe_out w ++ pw_probe_in w) by (intros Hin%(ow_next w Ho); lia).
  constructor.
  - intros p. rewrite Hp, <-elem_of_dom.
    replace (pw_objects (push_probe kind (pw_next w) w')) with (pw_objects w') by (by destruct kind).
    rewrite Hd, (dom_owned w Ho), elem_of_cons. set_solver.
  - rewrite Hp. apply NoDup_cons. split; [done|apply Ho].
  - intros p. rewrite Hp, elem_of_cons. replace (pw_next (push_probe kind (pw_next w) w')) with (S (pw_next w)) by (by destruct kind).
    intros [->|Hin%(ow_next w Ho)]; lia.
Qed.

(** A pad of the stream gets its probe, or the process ends with the log. *)
Lemma link_stream_pad_spec kind pad id answer w :
  linked w -> owned w -> possible (PadLinked kind pad id answer) w ->
  match link_stream_pad kind pad id answer w with
  | Ok w' => linked w' /\ owned w'
  | Err _ => False
  | Abort r => r = CriticalLog "Cannot add probe" /\ answer = 0%Z
  end.
Proof.
  intros Hw Ho Hposs. unfold link_stream_pad. destruct (new_probe kind id w) as [p w1] eqn:Hn.
  unfold new_probe in Hn. injection Hn as <- Hw1.
  assert (Hfree : pw_objects w !! pw_next w = None).
  { destruct (pw_objects w !! pw_next w) eqn:Hl; [|done]. assert (Hin : is_Some (pw_objects w !! pw_next w)) by (by eexists).
    apply (ow_live w Ho), (ow_next w Ho) in Hin. lia. }
  assert (Hl1 : linked w1).
  { subst w1. constructor; cbn; intros *.
    - intros Hk. destruct (lk_hook w Hw _ _ Hk) as (o & Ho' & Hp). exists o.
      rewrite lookup_insert_ne; [done|]. intros <-. congruence.
    - intros [[<- <-]|[_ ?]]%lookup_insert_Some; [done|]. by eapply lk_object.
    - apply (lk_pad w Hw). }
  assert (Hown : forall w', dom (pw_objects w') = dom (pw_objects w1) -> pw_next w' = pw_next w1 ->
    pw_probe_in w' = pw_probe_in w1 -> pw_probe_out w' = pw_probe_out w1 -> owned (push_probe kind (pw_next w) w')).
  { intros w' Hd Hn Hi Hou. subst w1. cbn in *. apply push_owned; try done. by rewrite Hd, dom_insert_L. }
  destruct pad as [pad|]; cbn [LinkPads]; [|by split; [apply push_linked|apply Hown]].
  destruct Hposs as (Hlive & Hdir & Hfresh). unfold Link, Clear, live_pad, probe_at.
  assert (Hgone : pw_gone w1 = pw_gone w) by (by subst w1).
  assert (Hp : exists o, pw_objects w1 !! pw_next w = Some o /\ pb_pad o = None).
  { subst w1. cbn. rewrite lookup_insert_eq. by eexists. }
  destruct Hp as (o & Hop & Hpn). rewrite Hop. cbn [mbind outcome_bind]. rewrite Hpn. cbn [mbind outcome_bind].
  rewrite (decide_False (P := pad ∈ pw_gone w1)) by (by rewrite Hgone).
  assert (Hok : match (if (answer =? 0)%Z then critical_log "Cannot add probe" ;; Ok w1
                       else Ok (set_objects <[pw_next w := {| pb_probe := pb_probe o; pb_id_buffer := answer; pb_pad := Some pad |}]>
                                  (set_hooks <[(pad, answer) := pw_next w]> w1))) with
                | Ok w' => linked (push_probe kind (pw_next w) w') /\ owned (push_probe kind (pw_next w) w')
                | Err _ => False
                | Abort r => r = CriticalLog "Cannot add probe" /\ answer = 0%Z
                end).
  { destruct (Z.eqb_spec answer 0) as [->|_].
    - unfold critical_log. destruct critical_log_aborts; cbn; [done|]. by split; [apply push_linked|apply Hown].
    - split; [apply push_linked; constructor; cbn; intros *|apply Hown; try done].
      + intros [[<- <-]|[Hne Hk]]%lookup_insert_Some; [eexists; by rewrite lookup_insert_eq|].
        destruct (lk_hook w1 Hl1 _ _ Hk) as (o' & Ho' & Hp'). exists o'. rewrite lookup_insert_ne; [done|].
        intros <-. rewrite Hop in Ho'. injection Ho' as <-. rewrite Hpn in Hp'. by destruct Hp'.
      + intros [[<- <-]|[Hne Hl]]%lookup_insert_Some Hp; cbn in *; [injection Hp as <-; by rewrite lookup_insert_eq|].
        rewrite lookup_insert_ne; [by eapply lk_object|]. intros [= -> ->].
        pose proof (lk_object w1 Hl1 _ _ _ Hl Hp) as Hk. subst w1. cbn in Hk. congruence.
      + rewrite Hgone. intros [[<- <-]|[_ Hk]]%lookup_insert_Some; [done|]. rewrite <-Hgone. by apply (lk_pad w1 Hl1 _ _ Hk).
      + cbn. rewrite dom_insert_L. apply elem_of_dom_2 in Hop. set_solver. }
  destruct (direction pad); [done|..]; cbn in Hok |- *;
    destruct (answer =? 0)%Z; unfold critical_log in *; destruct critical_log_aborts; cbn in Hok |- *; by rewrite ?Hop.
Qed.

(** Taking callbacks off a pad keeps the probes and their lists. *)
Lemma drop_callback_owned pad id w w' : linked w -> owned w -> drop_callback pad id w = Ok w' -> owned w'.
Proof.
  intros Hw Ho He. destruct (drop_callback_spec pad id w Hw) as (w2 & H2 & Hw2 & Hh & Hob & Hset).
  rewrite He in H2. injection H2 as ->. assert (Hd : dom (pw_objects w2) = dom (pw_objects w)).
  { rewrite Hob. destruct (pw_hooks w !! (pad, id)); [apply dom_alter_L|done]. }
  constructor; rewrite Hset; cbn; [|apply Ho..]. intros p. rewrite <-elem_of_dom, Hd, elem_of_dom. apply Ho.
Qed.

Lemma drop_callbacks_spec pad ids w :
  linked w -> owned w ->
  exists w', drop_callbacks pad ids w = Ok w' /\ linked w' /\ owned w' /\
    forall k p, pw_hooks w' !! k = Some p -> pw_hooks w !! k = Some p /\ (k.1 = pad -> k.2 ∉ ids).
Proof.
  revert w. induction ids as [|id ids IH]; intros w Hw Ho; cbn [drop_callbacks].
  { exists w. split; [done|]. split; [done|]. split; [done|]. intros k p Hk. split; [done|]. intros _ Hin. by apply elem_of_nil in Hin. }
  destruct (drop_callback_spec pad id w Hw) as (w1 & H1 & Hw1 & Hh & _). rewrite H1. cbn.
  destruct (IH w1 Hw1) as (w2 & H2 & Hw2 & Ho2 & Hk2); [by apply (drop_callback_owned pad id w)|].
  exists w2. split; [done|]. split; [done|]. split; [done|]. intros k p Hk. destruct (Hk2 k p Hk) as [Hk1 Hni]. rewrite Hh in Hk1.
  apply lookup_delete_Some in Hk1 as [Hne Hk1]. split; [done|]. intros Hp [Heq|Hin]%elem_of_cons; [|by apply Hni].
  apply Hne. destruct k. cbn in *. congruence.
Qed.

(** A pad goes: every probe that was linked to it has forgotten it. *)
Lemma gst_pad_gone_spec pad w : linked w -> owned w -> exists w', gst_pad_gone pad w = Ok w' /\ linked w' /\ owned w'.
Proof.
  intros Hw Ho. destruct (drop_callbacks_spec pad (pad_ids pad w) w Hw Ho) as (w' & Hd & Hw' & Ho' & Hk).
  unfold gst_pad_gone. rewrite Hd. cbn. eexists. split; [done|]. split; [|by constructor; apply Ho'].
  constructor; cbn; [apply (lk_hook w' Hw')|apply (lk_object w' Hw')|].
  intros k p Hkp. apply not_elem_of_union. split; [|by apply (lk_pad w' Hw' _ _ Hkp)].
  intros Heq%elem_of_singleton. destruct (Hk k p Hkp) as [Hkw Hni]. apply (Hni Heq). unfold pad_ids.
  apply list_elem_of_fmap. exists (k, p). split; [done|]. apply list_elem_of_filter. split; [done|]. by apply elem_of_map_to_list.
Qed.

Lemma probe_reach_ok s w : steps probe_step (world_init s) w -> linked w /\ owned w.
Proof.
  apply (steps_inv probe_step (fun w => linked w /\ owned w)).
  - clear. intros w w' [Hw Ho] (e & Hp & He). destruct e as [kind pad id answer|now pad id data|pad id|pad|]; cbn [probe_react] in He.
    + pose proof (link_stream_pad_spec _ _ _ _ _ Hw Ho Hp) as Hl. by rewrite He in Hl.
    + destruct (pad_callback_spec now pad id data w Hw Ho) as (w2 & H2 & ?). rewrite He in H2. by injection H2 as ->.
    + destruct (drop_callback_spec pad id w Hw) as (w2 & H2 & Hw2 & _). rewrite He in H2. injection H2 as ->.
      split; [done|by apply (drop_callback_owned pad id w)].
    + destruct (gst_pad_gone_spec pad w Hw Ho) as (w2 & H2 & ? & ?). rewrite He in H2. by injection H2 as ->.
    + destruct (stream_destroy_spec w Hw Ho) as (w2 & H2 & ? & ? & _). rewrite He in H2. by injection H2 as ->.
  - split; constructor; cbn; intros *; [by rewrite lookup_empty|by rewrite lookup_empty|by rewrite lookup_empty|rewrite lookup_empty|constructor|].
    + split; [by intros []|]. intros Hp. by apply elem_of_nil in Hp.
    + intros Hp. by apply elem_of_nil in Hp.
Qed.

(** C36: no pad ever holds a deleted probe, and no probe ever uses a pad that is
    gone. Whatever pads a stream links, however often, whatever passes them,
    whichever callbacks GStreamer drops and whichever pads go: a callback always
    finds its probe, no address of a pad is followed after it, the only way to end the
    process is a pad that takes no callback, and when the stream is destroyed
    all its probes are deleted and no pad keeps a callback of one. *)
Theorem no_deleted_probe s w e :
  steps probe_step (world_init s) w -> possible e w ->
  match probe_react e w with
  | Ok w' =>
      (forall k p, pw_hooks w' !! k = Some p -> is_Some (pw_objects w' !! p)) /\
      (e = StreamGone -> pw_hooks w' = ∅ /\ pw_objects w' = ∅)
  | Err _ => False
  | Abort r => r = CriticalLog "Cannot add probe" /\ exists kind pad id, e = PadLinked kind pad id 0
  end.
Proof.
  intros Hs Hp. destruct (probe_reach_ok s w Hs) as [Hw Ho].
  assert (Hlive : forall w', probe_react e w = Ok w' ->
    forall k p, pw_hooks w' !! k = Some p -> is_Some (pw_objects w' !! p)).
  { intros w' He k p Hk. assert (Hs' : steps probe_step (world_init s) w').
    { eapply steps_trans; [exact Hs|]. apply steps_one. by exists e. }
    destruct (lk_hook w' (proj1 (probe_reach_ok s w' Hs')) _ _ Hk) as (o & Hop & _). by eexists. }
  destruct e as [kind pad id answer|now pad id data|pad id|pad|]; cbn [probe_react] in *.
  - pose proof (link_stream_pad_spec _ _ _ _ _ Hw Ho Hp) as Hl.
    destruct (link_stream_pad kind pad id answer w) as [w'|er|r]; [|done|destruct Hl as [-> ->]; eauto].
    split; [by apply Hlive|done].
  - destruct (pad_callback_spec now pad id data w Hw Ho) as (w2 & H2 & _). rewrite H2. split; [by apply Hlive|done].
  - destruct (drop_callback_spec pad id w Hw) as (w2 & H2 & _). rewrite H2. split; [by apply Hlive|done].
  - destruct (gst_pad_gone_spec pad w Hw Ho) as (w2 & H2 & _). rewrite H2. split; [by apply Hlive|done].
  - destruct (stream_destroy_spec w Hw Ho) as (w2 & H2 & _ & _ & ? & ?). rewrite H2. split; [by apply Hlive|done].
Qed.
End Probes.

(** ** The theorem at a stream with two pads *)

Section Witness.
#[local] Existing Instances Ref.common.

Definition probed_stream : stream :=
  let mem := {| ss_id := "s1"; ss_type := RELAY; ss_start_time := 0; ss_loop_start_time := 1000; ss_restarts := 2; ss_status := NEW;
                ss_input := [make_channel_stats 0]; ss_output := [make_channel_stats 0] |} in
  {| s_stats := mem; s_status_tick := 0; s_no_data_panic_tick := 0; s_last_exit_status := EXIT_SELF;
     s_is_live := false; s_flags := 0; s_desire_flags := 0; s_loop_running := true |}.

(** Pad 4 gets two probes, pad 5 one; a buffer passes, pad 5 goes, and one callback
    of pad 4. *)
Definition sample_probe_events : list probe_event :=
  [PadLinked PROBE_IN (Some 4) 0 1; PadLinked PROBE_IN (Some 4) 0 2; PadLinked PROBE_OUT (Some 5) 0 1;
   DataPassed 0 4 2 (ProbeBuffer 100); PadGone 5; CallbackDropped 4 1].
Definition world_after (n : nat) : pad_world :=
  fold_left (fun w e => match probe_react (fun _ => PadSrc) e w with Ok w' => w' | _ => w end)
    (take n sample_probe_events) (world_init probed_stream).
Definition sample_world : pad_world := world_after 6.

Lemma no_deleted_probe_witness :
  exists w', probe_react (fun _ => PadSrc) StreamGone sample_world = Ok w' /\ pw_hooks w' = ∅ /\ pw_objects w' = ∅.
Proof.
  assert (Hs : steps (probe_step (fun _ => PadSrc)) (world_init probed_stream) sample_world).
  { assert (Hstep : forall n e, sample_probe_events !! n = Some e -> possible (fun _ => PadSrc) e (world_after n) ->
      match probe_react (fun _ => PadSrc) e (world_after n) with Ok _ => true | _ => false end = true ->
      probe_step (fun _ => PadSrc) (world_after n) (world_after (S n))).
    { intros n e He Hp Hr. exists e. split; [done|]. unfold world_after at 2. rewrite (take_S_r _ _ e) by done.
      rewrite fold_left_app. cbn [fold_left]. fold (world_after n). by destruct (probe_react _ e (world_after n)). }
    change (world_init probed_stream) with (world_after 0).
    apply (steps_step _ _ (world_after 1)); [|apply (steps_step _ _ (world_after 2)); [|apply (steps_step _ _ (world_after 3));
      [|apply (steps_step _ _ (world_after 4)); [|apply (steps_step _ _ (world_after 5)); [|apply steps_one]]]]];
      (eapply Hstep; [reflexivity| |vm_compute; reflexivity]).
    1-3: split; [apply (bool_decide_unpack _); vm_compute; exact I|split; [discriminate|vm_compute; reflexivity]].
    all: exact I. }
  destruct (probe_react (fun _ => PadSrc) StreamGone sample_world) as [w'|e|r] eqn:Hr;
    pose proof (no_deleted_probe (fun _ => PadSrc) probed_stream sample_world StreamGone Hs I) as Ht; rewrite Hr in Ht.
  - exists w'. split; [reflexivity|]. by apply Ht.
  - destruct Ht.
  - by destruct Ht as [_ (? & ? & ? & ?)].
Defined.
End Witness.
