(* ===== verification/Streams.v ===== *)
(** * Streams around a decodebin

    [src/src/stream/streams/src_decodebin_stream.cpp], [encoding/], [relay/],
    [vod/]: what a stream does when its decodebin asks how to go on or offers a
    pad, and what it does before and after a run. The callbacks of GStreamer run
    one at a time. *)

From Stdlib Require Import Ascii.
From S2P Require Import Prelude Platform StreamTypes Constants Uris Options Configs Gst Elements Builders Pipelines PipelineSpec Mosaic Stats BaseStream.

(** ** Caps and pads *)

(** A [GstCaps]: its text, and the fields of its first structure by type. *)
Record gst_caps := {
  caps_text : string;
  caps_has_structure : bool;
  caps_ints : gmap string Z;
  caps_fractions : gmap string (Z * Z)
}.

(** [gst_structure_get_int], [gst_structure_get_fraction]. *)
Definition caps_int (c : gst_caps) (field : string) : option Z :=
  if caps_has_structure c then caps_ints c !! field else None.
Definition caps_fraction (c : gst_caps) (field : string) : option (Z * Z) :=
  if caps_has_structure c then caps_fractions c !! field else None.

(** A pad of a decodebin. [pad_type] is what [pad_get_type] returns, [pad_caps]
    what [gst_pad_get_current_caps] returns. *)
Record gst_pad := { pad_name : string; pad_type : option string; pad_caps : option gst_caps }.

(** The text up to the first comma. *)
Fixpoint before_comma (t : string) : string :=
  match t with
  | String c t' => if Ascii.eqb c "," then "" else String c (before_comma t')
  | EmptyString => ""
  end.

(** [None] stands for a null pointer, for which the function returns [false]. *)
(* [src/src/stream/gstreamer_utils.cpp:111-135 get_type_from_caps] *)
Definition get_type_from_caps (caps : option gst_caps) : option (string * string) :=
  c ← caps;
  Some (before_comma (caps_text c), caps_text c).

(** ** The state of a stream with a pipeline *)

(** What it does to GStreamer, beside what [BaseStream] has. *)
Inductive decode_event :=
| DcStream (e : stream_event)
| PadLink (pad : string) (el : string) (ok : bool).

(** What the library [common] computes about media. *)
Class MediaLib `{CommonLib} := {
  desire_audio : Z -> Z -> desire_bps;          (* rate, channels *)
  desire_mpeg : Z -> Z -> desire_bps;           (* width, height *)
  desire_h264 : Z -> Z -> Z -> Z -> desire_bps; (* width, height, frame rate, profile *)
  desire_add : desire_bps -> desire_bps -> desire_bps
}.

Section Streams.
Context `{JsonC} `{UrlLib} `{PathLib} `{UnnamedCodes} `{GstLib} `{!MediaLib}.

(** [dc_linked] are the pads of decodebins with the elements that they feed. *)
(* [src/src/stream/ibase_stream.h:153-172 IBaseStream] *)
Record decoder := {
  dc_stream : stream;
  dc_line : list element;
  dc_linked : list (string * string);
  dc_probe_in : list Probe;
  dc_probe_out : list Probe
}.

Abbreviation smethod := (act stream stream_event).
Abbreviation dmethod := (hact decoder decode_event).

Definition set_dc_stream (s : stream) (d : decoder) : decoder :=
  {| dc_stream := s; dc_line := dc_line d; dc_linked := dc_linked d;
     dc_probe_in := dc_probe_in d; dc_probe_out := dc_probe_out d |}.
Definition set_dc_linked (l : list (string * string)) (d : decoder) : decoder :=
  {| dc_stream := dc_stream d; dc_line := dc_line d; dc_linked := l;
     dc_probe_in := dc_probe_in d; dc_probe_out := dc_probe_out d |}.
Definition set_dc_probes (i o : list Probe) (d : decoder) : decoder :=
  {| dc_stream := dc_stream d; dc_line := dc_line d; dc_linked := dc_linked d;
     dc_probe_in := i; dc_probe_out := o |}.

(** A method of the base class. *)
Definition on_base {A} (m : smethod A) : dmethod A := fun d =>
  let '(a, s, es) := m (dc_stream d) in (Ok a, set_dc_stream s d, DcStream <$> es).

(* [src/src/stream/ibase_stream.cpp:188-192 IBaseStream::LinkInputPad] *)
Definition LinkInputPad (id : Z) : dmethod unit :=
  hmodify (fun d => set_dc_probes
    (dc_probe_in d ++ [{| p_kind := PROBE_IN; p_id := id; p_consistency := consistency_init |}]) (dc_probe_out d) d).

(* [src/src/stream/ibase_stream.cpp:194-198 IBaseStream::LinkOutputPad] *)
Definition LinkOutputPad (id : Z) : dmethod unit :=
  hmodify (fun d => set_dc_probes (dc_probe_in d)
    (dc_probe_out d ++ [{| p_kind := PROBE_OUT; p_id := id; p_consistency := consistency_init |}]) d).

(* [src/src/stream/ibase_stream.cpp:232-237 IBaseStream::ClearOutProbes] *)
Definition ClearOutProbes : dmethod unit := hmodify (fun d => set_dc_probes (dc_probe_in d) [] d).

(* [src/src/stream/ibase_stream.cpp:239-244 IBaseStream::ClearInProbes] *)
Definition ClearInProbes : dmethod unit := hmodify (fun d => set_dc_probes [] (dc_probe_out d) d).

(* [src/src/stream/ibase_stream.cpp:676-685 IBaseStream::GetElementByName] *)
Definition stream_GetElementByName (name : string) : dmethod element :=
  line ← hgets dc_line;
  hlift (GetElementByName line name).

(** The observer's part of what a builder does: the probes of the ends. *)
(* [src/src/stream/streams/src_decodebin_stream.cpp:104-112 SrcDecodeBinStream::OnInpudSrcPadCreated] *)
Definition on_build_event (e : build_event) : dmethod unit :=
  match e with
  | OnInpudSrcPadCreated _ _ id => LinkInputPad id
  | OnOutputSinkPadCreated _ _ id => LinkOutputPad id
  | _ => mret tt
  end.

(** [InitPipeLine]: the stream takes the elements that its builder made. *)
(* [src/src/stream/ibase_stream.cpp:216-230 IBaseStream::InitPipeLine] *)
Definition stream_InitPipeLine (builder : build bool) : dmethod bool :=
  let '(r, es) := CreatePipeLine builder in
  hact_iter on_build_event es ;;
  p ← hlift r;
  match p with
  | Some p =>
      hmodify (fun d => {| dc_stream := dc_stream d; dc_line := pl_line p; dc_linked := dc_linked d;
                           dc_probe_in := dc_probe_in d; dc_probe_out := dc_probe_out d |}) ;;
      mret true
  | None => mret false
  end.

(** ** The expected rate of an input *)

(** [desire_flags_ |= flag]. *)
Definition set_desire_flags (f : Z) (s : stream) : stream :=
  {| s_stats := s_stats s; s_status_tick := s_status_tick s; s_no_data_panic_tick := s_no_data_panic_tick s;
     s_last_exit_status := s_last_exit_status s; s_is_live := s_is_live s; s_flags := s_flags s;
     s_desire_flags := Z.lor (s_desire_flags s) f; s_loop_running := s_loop_running s |}.

(** [stats_->input[id]] gets more; an index out of the vector has no defined
    behaviour. *)
Definition add_desire (more : desire_bps) (flag id : Z) : dmethod unit :=
  d ← hgets dc_stream;
  let st := s_stats d in
  match ss_input st !! Z.to_nat id with
  | Some c =>
      let c := SetDesireBytesPerSecond (desire_add (cs_desire c) more) c in
      hmodify (fun d => set_dc_stream (set_desire_flags flag
        (set_stats (with_channels (<[Z.to_nat id := c]> (ss_input st)) (ss_output st) st) (dc_stream d))) d)
  | None => hlift (Abort (UndefinedBehaviour "stats_->input[id]"))
  end.

Definition has_desire (flag : Z) (s : stream) : bool := negb (Z.land (s_desire_flags s) flag =? 0)%Z.

(* [src/src/stream/ibase_stream.cpp:364-382 IBaseStream::RegisterAudioCaps] *)
Definition RegisterAudioCaps (caps : gst_caps) (id : Z) : dmethod unit :=
  inited ← hgets (fun d => has_desire INITED_AUDIO (dc_stream d));
  if (inited : bool) then mret tt
  else
    match caps_int caps "rate", caps_int caps "channels" with
    | Some rate, Some channels => add_desire (desire_audio rate channels) INITED_AUDIO id
    | _, _ => mret tt
    end.

(* [src/src/stream/ibase_stream.cpp:42-42 DEFAULT_FRAMERATE] *)
Definition DEFAULT_FRAMERATE : Z := 25.

(* [src/src/stream/ibase_stream.cpp:384-426 IBaseStream::RegisterVideoCaps] *)
Definition RegisterVideoCaps (svideo : SupportedVideoCodec) (caps : gst_caps) (id : Z) : dmethod unit :=
  inited ← hgets (fun d => has_desire INITED_VIDEO (dc_stream d));
  if (inited : bool) then mret tt
  else
    match svideo with
    | VIDEO_MPEG_CODEC =>
        match caps_int caps "width", caps_int caps "height" with
        | Some width, Some height => add_desire (desire_mpeg width height) INITED_VIDEO id
        | _, _ => mret tt
        end
    | VIDEO_H264_CODEC =>
        match caps_int caps "width", caps_int caps "height", caps_int caps "profile" with
        | Some width, Some height, Some profile =>
            framerate ← match caps_fraction caps "framerate" with
                        | Some (num, den) =>
                            hlift (if (den =? 0)%Z then Abort (UndefinedBehaviour "framerate") else Ok (Z.quot num den))
                        | None => mret DEFAULT_FRAMERATE
                        end;
            add_desire (desire_h264 width height framerate profile) INITED_VIDEO id
        | _, _, _ => mret tt
        end
    | VIDEO_H265_CODEC => mret tt
    end.

(** ** Autoplugging *)

(** The body that the classes share: [stop_video] and [stop_audio] tell whether
    the class takes a stream of that medium as it is, so that decodebin shall
    not decode it ([FALSE]). *)
Definition autoplug (stop_video stop_audio : bool) (caps : option gst_caps) : dmethod bool :=
  match caps, get_type_from_caps caps with
  | Some c, Some (type_title, _) =>
      match IsDemuxerFromType type_title, IsVideoCodecFromType type_title, IsAudioCodecFromType type_title with
      | Some _, _, _ => mret true
      | None, Some VIDEO_H264_CODEC, _ =>
          match caps_int c "width", caps_int c "height" with
          | Some _, Some _ => RegisterVideoCaps VIDEO_H264_CODEC c 0 ;; mret (negb stop_video)
          | _, _ => mret true
          end
      | None, Some VIDEO_H265_CODEC, _ => mret (negb stop_video)
      | None, Some VIDEO_MPEG_CODEC, _ => mret true
      | None, None, Some (AUDIO_MPEG_CODEC | AUDIO_AC3_CODEC) =>
          match caps_int c "rate" with
          | Some _ => RegisterAudioCaps c 0 ;; mret (negb stop_audio)
          | None => mret true
          end
      | None, None, _ => mret true
      end
  | _, _ => mret true
  end.

(* [src/src/stream/streams/relay/relay_stream.cpp:47-111 RelayStream::HandleDecodeBinAutoplugger] *)
Definition Relay_HandleDecodeBinAutoplugger : option gst_caps -> dmethod bool := autoplug true true.
(* [src/src/stream/streams/encoding/encoding_stream.cpp:100-165 EncodingStream::HandleDecodeBinAutoplugger] *)
Definition Encoding_HandleDecodeBinAutoplugger : option gst_caps -> dmethod bool := autoplug false false.
(* [src/src/stream/streams/encoding/encoding_only_audio_stream.cpp:41-106 EncodingOnlyAudioStream::HandleDecodeBinAutoplugger] *)
Definition EncodingOnlyAudio_HandleDecodeBinAutoplugger : option gst_caps -> dmethod bool := autoplug true false.
(* [src/src/stream/streams/encoding/encoding_only_video_stream.cpp:41-106 EncodingOnlyVideoStream::HandleDecodeBinAutoplugger] *)
Definition EncodingOnlyVideo_HandleDecodeBinAutoplugger : option gst_caps -> dmethod bool := autoplug false true.

(* [src/src/stream/elements/element.h:25-25 GstAutoplugSelectResult] *)
Inductive GstAutoplugSelectResult := GST_AUTOPLUG_SELECT_TRY | GST_AUTOPLUG_SELECT_EXPOSE | GST_AUTOPLUG_SELECT_SKIP.

(** Both classes have this body. *)
(* [src/src/stream/streams/encoding/encoding_stream.cpp:69-98 EncodingStream::HandleAutoplugSelect] *)
Definition Encoding_HandleAutoplugSelect (config : AudioVideoConfig) (caps : option gst_caps) (factoryName : string)
    : GstAutoplugSelectResult :=
  match get_type_from_caps caps with
  | None => GST_AUTOPLUG_SELECT_TRY
  | Some (type_title, _) =>
      if negb (av_avformat config) then GST_AUTOPLUG_SELECT_TRY
      else if String.eqb (ElementsTraits_name ELEMENT_TS_DEMUX) factoryName then
        match IsDemuxerFromType type_title with
        | Some VIDEO_MPEGTS_DEMUXER => GST_AUTOPLUG_SELECT_SKIP
        | _ => GST_AUTOPLUG_SELECT_TRY
        end
      else GST_AUTOPLUG_SELECT_TRY
  end.
(* [src/src/stream/streams/relay/relay_stream.cpp:177-206 RelayStream::HandleAutoplugSelect] *)
Definition Relay_HandleAutoplugSelect : AudioVideoConfig -> option gst_caps -> string -> GstAutoplugSelectResult :=
  Encoding_HandleAutoplugSelect.

(* [src/src/stream/streams/encoding/encoding_stream.cpp:46-59 EncodingStream::HandleBufferingMessage] *)
Definition Encoding_HandleBufferingMessage (live : bool) (percent : Z) : dmethod unit :=
  is_live ← hgets (fun d => s_is_live (dc_stream d));
  if (is_live : bool) then mret tt
  else if (percent =? 100)%Z then on_base (Play live) else on_base Pause.

(** ** Pads *)

Inductive medium := Video | Audio.

(** [strncmp(type, "video", 5) == 0]. *)
Definition medium_of_type (type : string) : option medium :=
  if String.prefix "video" type then Some Video
  else if String.prefix "audio" type then Some Audio
  else None.

(** [audio_select]: a pad whose name has a number that is no [int] counts as
    track 0. *)
(* [src/src/stream/streams/encoding/encoding_stream.cpp:185-188 EncodingStream::HandleDecodeBinPadAdded] *)
Definition audio_selected (config : AudioVideoConfig) (pad : gst_pad) : bool :=
  match av_audio_select config with
  | None => true
  | Some track =>
      match GetPadId (pad_name pad) with
      | Some n => (track =? default 0 n)%Z
      | None => false
      end
  end.

(** The element that the pad is for, when it has one. *)
(* [src/src/stream/streams/encoding/encoding_stream.cpp:179-194 EncodingStream::HandleDecodeBinPadAdded] *)
Definition pad_destination (config : AudioVideoConfig) (new_pad : gst_pad) (type : string) : dmethod (option element) :=
  match medium_of_type type with
  | Some Video =>
      inited ← hgets (fun d => IsVideoInited (dc_stream d));
      if av_have_video config && negb inited then
        el ← stream_GetElementByName (UDB_VIDEO_NAME_1U 0); mret (Some el)
      else mret None
  | Some Audio =>
      inited ← hgets (fun d => IsAudioInited (dc_stream d));
      if av_have_audio config && negb inited && audio_selected config new_pad then
        el ← stream_GetElementByName (UDB_AUDIO_NAME_1U 0); mret (Some el)
      else mret None
  | None => mret None
  end.

(** Links a pad to the sink pad of an element, unless that has a link;
    [link_ok] is the answer of [gst_pad_link]. [false]: there is no such pad. *)
(* [src/src/stream/streams/encoding/encoding_stream.cpp:199-213 EncodingStream::HandleDecodeBinPadAdded] *)
Definition link_pad (new_pad : gst_pad) (dest : element) (link_ok : bool) : dmethod bool :=
  if negb (StaticPad dest "sink") then mret false
  else
    linked ← hgets dc_linked;
    (if existsb (fun l => String.eqb l.2 (el_name dest)) linked then mret tt
     else
       hemit (PadLink (pad_name new_pad) (el_name dest) link_ok) ;;
       if link_ok then hmodify (fun d => set_dc_linked (dc_linked d ++ [(pad_name new_pad, el_name dest)]) d)
       else mret tt) ;;
    mret true.

(** The flag of the medium is set whether the link was made or not. *)
Definition pad_added (on_no_type : outcome unit) (config : AudioVideoConfig) (new_pad : gst_pad) (link_ok : bool)
    : dmethod unit :=
  match pad_type new_pad with
  | None => hlift on_no_type
  | Some type =>
      dest ← pad_destination config new_pad type;
      match dest with
      | None => mret tt
      | Some dest =>
          valid ← link_pad new_pad dest link_ok;
          if (valid : bool) then
            match medium_of_type type with
            | Some Video => on_base (SetVideoInited true)
            | Some Audio => on_base (SetAudioInited true)
            | None => mret tt
            end
          else mret tt
      end
  end.

(* [src/src/stream/streams/encoding/encoding_stream.cpp:167-221 EncodingStream::HandleDecodeBinPadAdded] *)
Definition Encoding_HandleDecodeBinPadAdded : AudioVideoConfig -> gst_pad -> bool -> dmethod unit :=
  pad_added (Abort (NotReached "pad_get_type")).
(** In a release build [DNOTREACHED] does nothing. *)
(* [src/src/stream/streams/relay/relay_stream.cpp:113-167 RelayStream::HandleDecodeBinPadAdded] *)
Definition Relay_HandleDecodeBinPadAdded : AudioVideoConfig -> gst_pad -> bool -> dmethod unit := pad_added (Ok tt).

(** ** Films *)

(** The directories whose chunks are removed after a film was played. *)
Definition http_roots (outputs : list OutputUri) : list string :=
  outputs ≫= fun output =>
    if decide (url_get_scheme (ou_output output) = http) then [ou_http_root output] else [].

(* [src/src/stream/streams/vod/vod_relay_stream.cpp:32-45 VodRelayStream::PostExecCleanup] *)
Definition VodRelay_PostExecCleanup (vconfig : VodRelayConfig) : list string :=
  if vr_cleanup_ts vconfig then http_roots (c_output (av_base (r_base (vr_base vconfig)))) else [].
(* [src/src/stream/streams/vod/vod_encoding_stream.cpp:32-45 VodEncodeStream::PostExecCleanup] *)
Definition VodEncode_PostExecCleanup (vconfig : VodEncodeConfig) : list string :=
  if ve_cleanup_ts vconfig then http_roots (c_output (av_base (e_base (ve_base vconfig)))) else [].

(** Before a stream runs: the directories and the time up to which their chunks
    are removed, in seconds. *)
(* [src/src/stream/ibase_stream.cpp:200-212 IBaseStream::PreExecCleanup] *)
Definition PreExecCleanup (config : Config) (cur_timestamp old_life_time : Z) : list (string * Z) :=
  let max_life_time :=
    if Builders.stream_IsVod config then cur_timestamp else (cur_timestamp - old_life_time * 1000)%Z in
  (fun dir => (dir, Z.quot max_life_time 1000)) <$> http_roots (c_output config).

(** ** The builder of each class *)

(** The clock, the directory of a timeshift and the chunk to start with. *)
Variables (now : Z) (timshift_dir : string) (start_chunk_index : Z).

(* [src/src/stream/streams/relay/relay_stream.cpp:42-45 RelayStream::CreateBuilder] *)
Definition Relay_CreateBuilder (c : config_object) : outcome (build bool) :=
  rconf ← as_relay c; Ok (InitPipeline (RelayStreamBuilder now rconf)).
(* [src/src/stream/streams/relay/playlist_relay_stream.cpp:52-55 PlaylistRelayStream::CreateBuilder] *)
Definition PlaylistRelay_CreateBuilder (c : config_object) : outcome (build bool) :=
  rconf ← as_relay c; Ok (InitPipeline (PlaylistRelayStreamBuilder now rconf)).
(* [src/src/stream/streams/test/test_life_stream.cpp:31-34 TestLifeStream::CreateBuilder] *)
Definition TestLife_CreateBuilder (c : config_object) : outcome (build bool) :=
  econf ← as_relay c; Ok (InitPipeline (TestLifeStreamBuilder econf)).
(* [src/src/stream/streams/encoding/encoding_stream.cpp:34-37 EncodingStream::CreateBuilder] *)
Definition Encoding_CreateBuilder (c : config_object) : outcome (build bool) :=
  econf ← as_encoding c; Ok (InitPipeline (EncodingStreamBuilder now econf)).
(* [src/src/stream/streams/encoding/encoding_only_audio_stream.cpp:36-39 EncodingOnlyAudioStream::CreateBuilder] *)
Definition EncodingOnlyAudio_CreateBuilder (c : config_object) : outcome (build bool) :=
  econf ← as_encoding c; Ok (InitPipeline (EncodingOnlyAudioStreamBuilder now econf)).
(* [src/src/stream/streams/encoding/encoding_only_video_stream.cpp:36-39 EncodingOnlyVideoStream::CreateBuilder] *)
Definition EncodingOnlyVideo_CreateBuilder (c : config_object) : outcome (build bool) :=
  econf ← as_encoding c; Ok (InitPipeline (EncodingOnlyVideoStreamBuilder now econf)).
(* [src/src/stream/streams/encoding/playlist_encoding_stream.cpp:51-54 PlaylistEncodingStream::CreateBuilder] *)
Definition PlaylistEncoding_CreateBuilder (c : config_object) : outcome (build bool) :=
  econf ← as_encoding c; Ok (InitPipeline (PlaylistEncodingStreamBuilder now econf)).
(* [src/src/stream/streams/encoding/device_stream.cpp:30-33 DeviceStream::CreateBuilder] *)
Definition Device_CreateBuilder (c : config_object) : outcome (build bool) :=
  econf ← as_encoding c; Ok (InitPipeline (DeviceStreamBuilder now econf)).
(* [src/src/stream/streams/test/test_stream.cpp:30-33 TestInputStream::CreateBuilder] *)
Definition TestInput_CreateBuilder (c : config_object) : outcome (build bool) :=
  econf ← as_encoding c; Ok (InitPipeline (TestInputStreamBuilder now econf)).
(* [src/src/stream/streams/mosaic_stream.cpp:304-307 MosaicStream::CreateBuilder] *)
Definition Mosaic_CreateBuilder (c : config_object) : outcome (build bool) :=
  conf ← as_encoding c; Ok (Mosaic_InitPipeline now conf).
(* [src/src/stream/streams/timeshift/timeshift_player_stream.cpp:38-41 TimeShiftPlayerStream::CreateBuilder] *)
Definition TimeShiftPlayer_CreateBuilder (c : config_object) : outcome (build bool) :=
  rconf ← as_relay c; Ok (InitPipeline (TimeShiftPlayerBuilder now timshift_dir start_chunk_index rconf)).
(* [src/src/stream/streams/timeshift/timeshift_recorder_stream.cpp:103-106 TimeShiftRecorderStream::CreateBuilder] *)
Definition TimeShiftRecorder_CreateBuilder (c : config_object) : outcome (build bool) :=
  tconf ← as_timeshift c; Ok (InitPipeline (TimeShiftRecorderStreamBuilder tconf)).
(* [src/src/stream/streams/timeshift/catchup_stream.cpp:56-59 CatchupStream::CreateBuilder] *)
Definition Catchup_CreateBuilder (c : config_object) : outcome (build bool) :=
  tconf ← as_timeshift c; Ok (InitPipeline (CatchupStreamBuilder tconf)).

(** The virtual method, by the class of the object; the films inherit it. *)
Definition CreateBuilder (cls : stream_class) : config_object -> outcome (build bool) :=
  match cls with
  | RelayStream | VodRelayStream => Relay_CreateBuilder
  | PlaylistRelayStream => PlaylistRelay_CreateBuilder
  | TestLifeStream => TestLife_CreateBuilder
  | EncodingStream | VodEncodeStream => Encoding_CreateBuilder
  | EncodingOnlyAudioStream => EncodingOnlyAudio_CreateBuilder
  | EncodingOnlyVideoStream => EncodingOnlyVideo_CreateBuilder
  | PlaylistEncodingStream => PlaylistEncoding_CreateBuilder
  | DeviceStream => Device_CreateBuilder
  | TestInputStream => TestInput_CreateBuilder
  | MosaicStream => Mosaic_CreateBuilder
  | TimeShiftPlayerStream => TimeShiftPlayer_CreateBuilder
  | TimeShiftRecorderStream => TimeShiftRecorder_CreateBuilder
  | CatchupStream => Catchup_CreateBuilder
  end.

(** From a configuration to its pipeline: the factory, the class's builder and
    [InitPipeLine]. *)
Definition init_stream (c : config_object) : dmethod bool :=
  cls ← hlift (CreateStream c);
  builder ← hlift (CreateBuilder cls c);
  stream_InitPipeLine builder.
End Streams.

(** ** Which pads are linked *)

Section StreamsTheorems.
Context `{JsonC} `{UrlLib} `{PathLib} `{UnnamedCodes} `{GstLib} `{!MediaLib} `{!GstLibOk}.

Lemma find_elem_name line name el : GetElementByName line name = Ok el -> el_name el = name /\ el ∈ line.
Proof.
  unfold GetElementByName. destruct (List.find _ line) as [e|] eqn:Hf; [|done]. intros [= <-].
  apply find_some in Hf as [Hin Hn]. split; [by apply String.eqb_eq|by apply list_elem_of_In].
Qed.

(** Whether the stream has the medium, and the queue or parser behind its
    decodebin. *)
Definition have (config : AudioVideoConfig) (m : medium) : bool :=
  match m with Video => av_have_video config | Audio => av_have_audio config end.
Definition entry (m : medium) : string :=
  match m with Video => UDB_VIDEO_NAME_1U 0 | Audio => UDB_AUDIO_NAME_1U 0 end.
Definition inited (m : medium) (d : decoder) : bool :=
  match m with Video => IsVideoInited (dc_stream d) | Audio => IsAudioInited (dc_stream d) end.

(** The medium that a stream takes from a pad. *)
Definition wanted (config : AudioVideoConfig) (pad : gst_pad) : option medium :=
  type ← pad_type pad;
  m ← medium_of_type type;
  if have config m && (match m with Video => true | Audio => audio_selected config pad end) then Some m else None.

(** The entries are there and have a pad, and no medium that is not inited has a
    link. *)
Definition ready (config : AudioVideoConfig) (line : list element) : Prop :=
  forall m, have config m = true -> exists el, GetElementByName line (entry m) = Ok el /\ StaticPad el "sink" = true.
Definition fed (m : medium) (d : decoder) : list string :=
  (List.filter (fun l => String.eqb l.2 (entry m)) (dc_linked d)).*1.
Definition fed_inited (d : decoder) : Prop := forall m, inited m d = false -> fed m d = [].

Lemma entry_inj m m' : entry m = entry m' -> m = m'.
Proof. destruct m, m'; done. Qed.

#[local] Instance medium_eq_dec : EqDecision medium.
Proof. solve_decision. Defined.

Lemma Video_inited_set s : IsVideoInited (set_flags (Z.lor (s_flags s) INITED_VIDEO) s) = true.
Proof.
  unfold IsVideoInited. cbn. rewrite negb_true_iff, Z.eqb_neq, Z.land_lor_distr_l.
  intros Hz. apply (f_equal (fun z => Z.testbit z 0)) in Hz.
  rewrite Z.lor_spec in Hz. cbn in Hz. by rewrite orb_true_r in Hz.
Qed.
Lemma Audio_inited_set s : IsAudioInited (set_flags (Z.lor (s_flags s) INITED_AUDIO) s) = true.
Proof.
  unfold IsAudioInited. cbn. rewrite negb_true_iff, Z.eqb_neq, Z.land_lor_distr_l.
  intros Hz. apply (f_equal (fun z => Z.testbit z 1)) in Hz.
  rewrite Z.lor_spec in Hz. cbn in Hz. by rewrite orb_true_r in Hz.
Qed.
Lemma Video_inited_audio s : IsVideoInited (set_flags (Z.lor (s_flags s) INITED_AUDIO) s) = IsVideoInited s.
Proof. unfold IsVideoInited. cbn. by rewrite Z.land_lor_distr_l, Z.lor_0_r. Qed.
Lemma Audio_inited_video s : IsAudioInited (set_flags (Z.lor (s_flags s) INITED_VIDEO) s) = IsAudioInited s.
Proof. unfold IsAudioInited. cbn. by rewrite Z.land_lor_distr_l, Z.lor_0_r. Qed.

(** What one pad does: nothing, or it claims its medium. *)
Definition claims (m : medium) (pad : gst_pad) (ok : bool) (d d' : decoder) : Prop :=
  dc_line d' = dc_line d /\ inited m d' = true /\ (forall m', m' <> m -> inited m' d' = inited m' d) /\
  dc_linked d' = dc_linked d ++ (if ok then [(pad_name pad, entry m)] else []).

Lemma fed_nil_linked m d :
  fed m d = [] -> existsb (fun l => String.eqb l.2 (entry m)) (dc_linked d) = false.
Proof.
  unfold fed. induction (dc_linked d) as [|l ls IH]; [done|]. cbn. by destruct (String.eqb l.2 (entry m)).
Qed.

Lemma pad_added_step no_type config pad ok d :
  ready config (dc_line d) -> fed_inited d -> is_Some (pad_type pad) ->
  exists d' es, pad_added no_type config pad ok d = (Ok tt, d', es) /\
    match wanted config pad with
    | Some m => if inited m d then d' = d else claims m pad ok d d'
    | None => d' = d
    end.
Proof.
  intros Hr Hf [type Ht]. unfold pad_added, wanted. rewrite Ht. cbn [mbind option_bind].
  destruct (medium_of_type type) as [m|] eqn:Hm;
    [|eexists _, _; unfold pad_destination; rewrite Hm; by split].
  unfold pad_destination. rewrite Hm. cbn [mbind option_bind].
  destruct (inited m d) eqn:Hi.
  { exists d, []. split; [|destruct (have config m && _); [by rewrite Hi|done]]. unfold inited in Hi.
    destruct m; unfold hgets, mbind, hact_bind; rewrite Hi; by rewrite ?andb_false_r. }
  destruct (have config m && _) eqn:Hw.
  2:{ exists d, []. split; [|done]. unfold inited in Hi. unfold have in Hw.
      destruct m; unfold hgets, mbind, hact_bind; rewrite Hi; cbn [negb].
      - rewrite andb_true_r in Hw. by rewrite Hw.
      - by rewrite andb_true_r, Hw. }
  rewrite Hi. destruct (Hr m) as (el & Hel & Hpad); [by destruct (have config m)|].
  destruct (find_elem_name _ _ _ Hel) as [Hn _].
  pose proof (fed_nil_linked m d (Hf m Hi)) as Hnl. rewrite <- Hn in Hnl.
  unfold have in Hw. unfold inited in Hi. unfold stream_GetElementByName, link_pad, on_base.
  destruct m; unfold hgets, hlift, hemit, hmodify, mbind, hact_bind, mret, hact_ret, entry in *;
    rewrite Hi; cbn [negb]; rewrite ?andb_true_r in Hw; rewrite ?andb_true_r, Hw, Hel, Hpad; cbn [negb]; rewrite Hnl;
    (destruct ok; (eexists _, _; split; [reflexivity|])); unfold claims;
    (split_and!; [done| |intros [] Hne; try done|cbn; by rewrite ?app_nil_r, ?Hn]); cbn;
    first [apply Video_inited_set|apply Audio_inited_set|apply Video_inited_audio|apply Audio_inited_video].
Qed.

(** The pads that a decodebin adds, one after the other, each with the answer
    that linking it would get. *)
Definition add_pads (no_type : outcome unit) (config : AudioVideoConfig) : list (gst_pad * bool) -> hact decoder decode_event unit :=
  hact_iter (fun p => pad_added no_type config p.1 p.2).

Definition first_wanted (config : AudioVideoConfig) (m : medium) (ps : list (gst_pad * bool)) : option (gst_pad * bool) :=
  List.find (fun p => bool_decide (wanted config p.1 = Some m)) ps.

Lemma claims_fed m pad ok d d' : claims m pad ok d d' -> fed m d = [] ->
  fed m d' = (if ok then [pad_name pad] else []) /\ forall m', m' <> m -> fed m' d' = fed m' d.
Proof.
  intros (_ & _ & _ & Hl) Hn. unfold fed in *. rewrite Hl, List.filter_app, fmap_app, Hn. split.
  - destruct ok; [|done]. cbn. by rewrite String.eqb_refl.
  - intros m' Hne. rewrite ?Hl, ?List.filter_app, fmap_app. destruct ok; cbn; [|by rewrite app_nil_r].
    destruct (String.eqb_spec (entry m) (entry m')) as [He|_]; [by apply entry_inj in He|by rewrite app_nil_r].
Qed.

Lemma add_pads_spec no_type config ps d :
  ready config (dc_line d) -> fed_inited d -> Forall (fun p => is_Some (pad_type p.1)) ps ->
  exists d' es, add_pads no_type config ps d = (Ok tt, d', es) /\
    forall m, if inited m d then fed m d' = fed m d /\ inited m d' = true
              else fed m d' = (match first_wanted config m ps with Some (p, true) => [pad_name p] | _ => [] end) /\
                   inited m d' = bool_decide (is_Some (first_wanted config m ps)).
Proof.
  intros Hr Hf Ht. revert d Hr Hf. induction Ht as [|[pad ok] ps Hp _ IH]; intros d Hr Hf.
  { exists d, []. split; [done|]. intros m. destruct (inited m d) eqn:Hi; [done|]. cbn. split; [by apply Hf|done]. }
  destruct (pad_added_step no_type config pad ok d Hr Hf Hp) as (d1 & es1 & Hd1 & Hs).
  assert (Hrf : ready config (dc_line d1) /\ fed_inited d1).
  { destruct (wanted config pad) as [m|]; [|by subst]. destruct (inited m d) eqn:Hi; [by subst|].
    pose proof (claims_fed _ _ _ _ _ Hs (Hf m Hi)) as [_ Ho]. destruct Hs as (Hl & Hi1 & Hi2 & _). split; [by rewrite Hl|].
    intros m' Hm'. destruct (decide (m' = m)) as [->|Hne]; [congruence|]. rewrite Ho by done. apply Hf. by rewrite <- Hi2. }
  destruct Hrf as [Hr1 Hf1]. destruct (IH d1 Hr1 Hf1) as (d2 & es2 & Hd2 & Hsp).
  exists d2, (es1 ++ es2). split.
  { unfold add_pads in *. cbn [hact_iter]. unfold mbind at 1, hact_bind at 1. cbn [fst snd]. by rewrite Hd1, Hd2. }
  intros m. specialize (Hsp m). unfold first_wanted in *. cbn [List.find fst].
  destruct (wanted config pad) as [m1|] eqn:Hw.
  2:{ subst d1. by rewrite bool_decide_eq_false_2. }
  destruct (inited m1 d) eqn:Hi1.
  { subst d1. destruct (inited m d) eqn:Hi; [done|]. rewrite bool_decide_eq_false_2; [done|]. congruence. }
  pose proof (claims_fed _ _ _ _ _ Hs (Hf m1 Hi1)) as [Hfe Hfo]. destruct Hs as (_ & Hin & Hio & _).
  destruct (decide (m = m1)) as [->|Hne].
  - rewrite Hin in Hsp. rewrite Hi1, bool_decide_eq_true_2 by done. destruct Hsp as [-> ->]. rewrite Hfe.
    split; [by destruct ok|]. by rewrite bool_decide_eq_true_2.
  - rewrite Hio in Hsp by done. rewrite Hfo in Hsp by done. rewrite bool_decide_eq_false_2 by congruence. exact Hsp.
Qed.

(** ** Composition with the builders *)

Lemma build_events_keep es d :
  exists d' es', hact_iter on_build_event es d = (Ok tt, d', es') /\
    dc_stream d' = dc_stream d /\ dc_linked d' = dc_linked d.
Proof.
  revert d. induction es as [|e es IH]; intros d; [by eexists _, _|]. cbn [hact_iter]. unfold mbind, hact_bind.
  assert (He : exists d1 es1, on_build_event e d = (Ok tt, d1, es1) /\ dc_stream d1 = dc_stream d /\ dc_linked d1 = dc_linked d)
    by (destruct e; by eexists _, _).
  destruct He as (d1 & es1 & -> & Hs & Hl). destruct (IH d1) as (d2 & es2 & -> & Hs2 & Hl2).
  eexists _, _. split; [done|]. by rewrite Hs2, Hl2.
Qed.

Lemma stream_InitPipeLine_Ok builder d d1 es :
  stream_InitPipeLine builder d = (Ok true, d1, es) ->
  exists p, (CreatePipeLine builder).1 = Ok (Some p) /\ dc_line d1 = pl_line p /\
    dc_stream d1 = dc_stream d /\ dc_linked d1 = dc_linked d.
Proof.
  unfold stream_InitPipeLine. destruct (CreatePipeLine builder) as [r evs].
  destruct (build_events_keep evs d) as (d' & es' & He & Hs & Hl). unfold mbind at 1, hact_bind at 1. rewrite He.
  unfold mbind, hact_bind, hlift. destruct r as [[p|]|e|a]; cbn; intros Heq; simplify_eq. by exists p.
Qed.

(** C29: an encoding stream from its configuration to the pads of its decodebin:
    once its pipeline is there, whatever pads the decodebin adds, the video
    entry is fed by the first video pad and the audio entry by the first audio
    pad of the selected track, each at most once; later pads are left alone,
    and so is a medium whose first pad could not be linked. *)
Theorem encoding_pads_linked now dir index conf d d1 es ps :
  CreateStream (ObjEncoding conf) = Ok EncodingStream ->
  init_stream now dir index (ObjEncoding conf) d = (Ok true, d1, es) ->
  s_flags (dc_stream d) = 0%Z -> dc_linked d = [] ->
  (forall m el, GetElementByName (dc_line d1) (entry m) = Ok el -> StaticPad el "sink" = true) ->
  Forall (fun p => is_Some (pad_type p.1)) ps ->
  exists d2 es2,
    hact_iter (fun p => Encoding_HandleDecodeBinPadAdded (e_base conf) p.1 p.2) ps d1 = (Ok tt, d2, es2) /\
    forall m, fed m d2 = match first_wanted (e_base conf) m ps with Some (p, true) => [pad_name p] | _ => [] end.
Proof.
  intros Hc Hi Hf Hl Hpad Ht. unfold init_stream in Hi. rewrite Hc in Hi.
  unfold mbind, hact_bind, hlift in Hi. cbn [CreateBuilder Encoding_CreateBuilder as_encoding mbind outcome_bind] in Hi.
  destruct (stream_InitPipeLine _ d) as [[r s2] es2] eqn:Hin. injection Hi as -> -> ->.
  apply stream_InitPipeLine_Ok in Hin as (p & Hp & Hline & Hs & Hld).
  pose proof (encoding_entries now conf p Hp) as [Hev Hea].
  destruct (add_pads_spec (Abort (NotReached "pad_get_type")) (e_base conf) ps d1) as (d2 & es3 & Hd2 & Hfed).
  - intros m Hm. rewrite <- Hline in Hev, Hea. assert (He : exists el, GetElementByName (dc_line d1) (entry m) = Ok el) by (destruct m; auto).
    destruct He as [el Hel]. exists el. split; [done|]. by eapply Hpad.
  - intros m _. unfold fed. by rewrite Hld, Hl.
  - done.
  - exists d2, es3. split; [exact Hd2|]. intros m. specialize (Hfed m).
    assert (Hni : inited m d1 = false) by (destruct m; unfold inited, IsVideoInited, IsAudioInited; by rewrite Hs, Hf).
    rewrite Hni in Hfed. tauto.
Qed.

(** ** What decodebin shall not decode *)

(** A stream that a class takes as it is: H.264 of a known size or H.265 where
    the class relays video, MPEG or AC-3 audio of a known rate where it relays
    audio. *)
Definition taken (relay_video relay_audio : bool) (c : gst_caps) : bool :=
  let title := before_comma (caps_text c) in
  let known f := bool_decide (is_Some (caps_int c f)) in
  (relay_video && (String.eqb title "video/x-h264" && known "width" && known "height" || String.eqb title "video/x-h265")) ||
  (relay_audio && ((String.eqb title "audio/mpeg" || String.eqb title "audio/x-ac3") && known "rate")).

(** A stream with an input, and a frame rate that is a fraction. *)
Definition has_input (d : decoder) : Prop := ss_input (s_stats (dc_stream d)) <> [].
Definition rate_ok (c : gst_caps) : Prop := forall num den, caps_fraction c "framerate" = Some (num, den) -> den <> 0%Z.

Lemma add_desire_Ok more flag d : has_input d -> exists d' es, add_desire more flag 0 d = (Ok tt, d', es).
Proof.
  unfold has_input. intros Hi. unfold add_desire, mbind, hact_bind, hgets. destruct (ss_input _) as [|ch l] eqn:Hl; [done|].
  cbn. by eexists _, _.
Qed.

Lemma RegisterAudioCaps_Ok c d : has_input d -> exists d' es, RegisterAudioCaps c 0 d = (Ok tt, d', es).
Proof.
  intros Hi. unfold RegisterAudioCaps, mbind, hact_bind, hgets. destruct (has_desire _ _); [by eexists _, _|].
  destruct (caps_int c "rate") as [r|]; [|by eexists _, _]. destruct (caps_int c "channels") as [ch|]; [|by eexists _, _].
  destruct (add_desire_Ok (desire_audio r ch) INITED_AUDIO d Hi) as (d' & es & ->). by eexists _, _.
Qed.

Lemma RegisterVideoCaps_Ok v c d : has_input d -> rate_ok c -> exists d' es, RegisterVideoCaps v c 0 d = (Ok tt, d', es).
Proof.
  intros Hi Hr. unfold RegisterVideoCaps, mbind, hact_bind, hgets, hlift. destruct (has_desire _ _); [by eexists _, _|].
  destruct v; try by eexists _, _.
  - destruct (caps_int c "width") as [w|]; [|by eexists _, _]. destruct (caps_int c "height") as [h|]; [|by eexists _, _].
    destruct (caps_int c "profile") as [pr|]; [|by eexists _, _].
    destruct (caps_fraction c "framerate") as [[num den]|] eqn:Hf.
    + apply Hr in Hf. destruct (Z.eqb_spec den 0) as [|_]; [done|].
      destruct (add_desire_Ok (desire_h264 w h (Z.quot num den) pr) INITED_VIDEO d Hi) as (d' & es & Hd). rewrite Hd. by eexists _, _.
    + destruct (add_desire_Ok (desire_h264 w h DEFAULT_FRAMERATE pr) INITED_VIDEO d Hi) as (d' & es & Hd). cbn. rewrite Hd. by eexists _, _.
  - destruct (caps_int c "width") as [w|]; [|by eexists _, _]. destruct (caps_int c "height") as [h|]; [|by eexists _, _].
    destruct (add_desire_Ok (desire_mpeg w h) INITED_VIDEO d Hi) as (d' & es & Hd). rewrite Hd. by eexists _, _.
Qed.

(** The media types that the classes tell apart. *)
Definition known_types : list string :=
  [""; "video/mpegts"; "video/x-flv"; "video/mpeg"; "video/x-h264"; "video/x-h265"; "audio/mpeg"; "audio/x-ac3"].

Lemma unknown_type t :
  t ∉ known_types ->
  IsDemuxerFromType t = None /\ IsVideoCodecFromType t = None /\ IsAudioCodecFromType t = None /\
  forall t', t' ∈ known_types -> String.eqb t t' = false.
Proof.
  intros Hn. assert (Hne : forall t', t' ∈ known_types -> t <> t') by (intros t' Ht ->; done).
  assert (He : is_empty t = false) by (destruct t; [by destruct Hn; left|done]).
  unfold IsDemuxerFromType, IsVideoCodecFromType, IsAudioCodecFromType. rewrite He.
  split_and!; [..|intros t' Ht; by apply String.eqb_neq, Hne];
    repeat (rewrite decide_False; [|by apply Hne; unfold known_types; set_solver]); done.
Qed.

Ltac classify :=
  repeat match goal with
         | |- context [IsDemuxerFromType ?s] =>
             let v := eval vm_compute in (IsDemuxerFromType s) in change (IsDemuxerFromType s) with v
         | |- context [IsVideoCodecFromType ?s] =>
             let v := eval vm_compute in (IsVideoCodecFromType s) in change (IsVideoCodecFromType s) with v
         | |- context [IsAudioCodecFromType ?s] =>
             let v := eval vm_compute in (IsAudioCodecFromType s) in change (IsAudioCodecFromType s) with v
         end.

(** A class that relays a medium exposes exactly the parsed streams of that
    medium and lets decodebin decode everything else, MPEG video included; a
    class that relays nothing never stops decodebin. The answer does not depend
    on what the stream has seen before, and the bookkeeping of the expected rate
    never gets in the way. *)
Theorem autoplug_takes relay_video relay_audio c d :
  has_input d -> rate_ok c ->
  exists d' es, autoplug relay_video relay_audio (Some c) d = (Ok (negb (taken relay_video relay_audio c)), d', es).
Proof.
  intros Hi Hr. unfold autoplug, taken. cbn [get_type_from_caps mbind option_bind].
  set (t := before_comma (caps_text c)).
  destruct (decide (t ∈ known_types)) as [Ht|Ht].
  2:{ destruct (unknown_type t Ht) as (-> & -> & -> & Hne). exists d, [].
      rewrite !Hne by (unfold known_types; set_solver). by rewrite !andb_false_r. }
  unfold known_types in Ht. repeat (apply elem_of_cons in Ht as [Ht|Ht]; [rewrite Ht|]); [..|by apply not_elem_of_nil in Ht].
  all: classify; cbn -[caps_int RegisterVideoCaps RegisterAudioCaps bool_decide]; rewrite ?andb_false_r, ?orb_false_r, ?andb_true_r, ?orb_true_r.
  1-4: by exists d, [].
  - destruct (caps_int c "width") as [w|]; cbn -[caps_int RegisterVideoCaps]; rewrite ?andb_false_r; [|by exists d, []].
    destruct (caps_int c "height") as [h|]; cbn -[caps_int RegisterVideoCaps]; rewrite ?andb_false_r; [|by exists d, []].
    destruct (RegisterVideoCaps_Ok VIDEO_H264_CODEC c d Hi Hr) as (d' & es & He).
    unfold mbind, hact_bind. rewrite He. by destruct relay_video; eexists _, _.
  - by destruct relay_video; exists d, [].
  - destruct (caps_int c "rate") as [r|]; cbn -[caps_int RegisterAudioCaps]; rewrite ?andb_false_r; [|by exists d, []].
    destruct (RegisterAudioCaps_Ok c d Hi) as (d' & es & He). unfold mbind, hact_bind. rewrite He.
    by destruct relay_audio; eexists _, _.
  - destruct (caps_int c "rate") as [r|]; cbn -[caps_int RegisterAudioCaps]; rewrite ?andb_false_r; [|by exists d, []].
    destruct (RegisterAudioCaps_Ok c d Hi) as (d' & es & He). unfold mbind, hact_bind. rewrite He.
    by destruct relay_audio; eexists _, _.
Qed.

(** C30: the class of stream that the factory picks finds the configuration class
    that its builder needs: no cast of CreateBuilder goes wrong. *)
Theorem CreateBuilder_casts now dir index c cls :
  CreateStream c = Ok cls -> exists b, CreateBuilder now dir index cls c = Ok b.
Proof.
  unfold CreateStream. destruct c as [a|r|v|t|e|v]; cbn; destruct (c_type _); cbn; try done; intros Hc;
    repeat (case_match; try done; cbn in Hc); simplify_eq; cbn; eauto.
Qed.
End StreamsTheorems.

(** ** Witnesses *)

Module RefMedia.
Definition media : @MediaLib Ref.common :=
  @Build_MediaLib Ref.common
    (fun rate channels => show_u rate : string) (fun width height => show_u width : string)
    (fun width height framerate profile => show_u framerate : string) (fun a b => (a : string) +:+ (b : string)).
End RefMedia.

Section Witnesses.
#[local] Existing Instances Ref.common Ref.urls Ref.paths ref_codes RefGst.gst RefGst.gst_ok RefMedia.media.
#[local] Instance wit_streams_json : JsonC := Ref.json_c (fun _ => None).

Definition wit_decoder : decoder :=
  {| dc_stream := sample_stream 0; dc_line := []; dc_linked := []; dc_probe_in := []; dc_probe_out := [] |}.
Definition wit_pad (name type : string) : gst_pad := {| pad_name := name; pad_type := Some type; pad_caps := None |}.
Definition wit_pads : list (gst_pad * bool) :=
  [(wit_pad "src_0" "audio/x-raw", true); (wit_pad "src_1" "video/x-raw", true); (wit_pad "src_2" "video/x-raw", true)].

Lemma wit_init :
  exists d1 es, init_stream 0 "/ts/" 0 (ObjEncoding wit_conf) wit_decoder = (Ok true, d1, es) /\
    forallb el_valid (dc_line d1) = true.
Proof.
  assert (Hr : (init_stream 0 "/ts/" 0 (ObjEncoding wit_conf) wit_decoder).1.1 = Ok true) by (vm_compute; reflexivity).
  assert (Hv : forallb el_valid (dc_line (init_stream 0 "/ts/" 0 (ObjEncoding wit_conf) wit_decoder).1.2) = true)
    by (vm_compute; reflexivity).
  destruct (init_stream _ _ _ _ _) as [[r d1] es]. exists d1, es. cbn in Hr. by rewrite Hr.
Qed.

(** The second video pad is left alone. *)
Lemma encoding_pads_linked_witness :
  exists d1 es d2 es2,
    init_stream 0 "/ts/" 0 (ObjEncoding wit_conf) wit_decoder = (Ok true, d1, es) /\
    hact_iter (fun p => Encoding_HandleDecodeBinPadAdded (e_base wit_conf) p.1 p.2) wit_pads d1 = (Ok tt, d2, es2) /\
    fed Video d2 = ["src_1"] /\ fed Audio d2 = ["src_0"].
Proof.
  destruct wit_init as (d1 & es & Hi & Hv).
  destruct (encoding_pads_linked 0 "/ts/" 0 wit_conf wit_decoder d1 es wit_pads) as (d2 & es2 & Hd & Hf).
  - vm_compute. reflexivity.
  - exact Hi.
  - reflexivity.
  - reflexivity.
  - intros m el [_ Hel]%find_elem_name. rewrite forallb_forall in Hv. unfold StaticPad.
    rewrite Hv; [reflexivity|]. apply list_elem_of_In. exact Hel.
  - repeat constructor; eexists; reflexivity.
  - exists d1, es, d2, es2. split; [exact Hi|]. split; [exact Hd|]. split; [exact (Hf Video)|exact (Hf Audio)].
Defined.

Definition wit_h264 : gst_caps :=
  {| caps_text := "video/x-h264, width=640"; caps_has_structure := true;
     caps_ints := <["width" := 640%Z]> (<["height" := 480%Z]> ∅); caps_fractions := ∅ |}.

(** A relay stream takes H.264, an encoding stream does not. *)
Lemma autoplug_takes_witness :
  (Relay_HandleDecodeBinAutoplugger (Some wit_h264) wit_decoder).1.1 = Ok false /\
  (Encoding_HandleDecodeBinAutoplugger (Some wit_h264) wit_decoder).1.1 = Ok true.
Proof.
  split.
  - destruct (autoplug_takes true true wit_h264 wit_decoder) as (d' & es & He); [discriminate|discriminate|].
    unfold Relay_HandleDecodeBinAutoplugger. rewrite He. reflexivity.
  - destruct (autoplug_takes false false wit_h264 wit_decoder) as (d' & es & He); [discriminate|discriminate|].
    unfold Encoding_HandleDecodeBinAutoplugger. rewrite He. reflexivity.
Defined.

Lemma CreateBuilder_casts_witness :
  exists b, CreateBuilder 0 "/ts/" 0 EncodingStream (ObjEncoding wit_conf) = Ok b.
Proof. apply CreateBuilder_casts. vm_compute. reflexivity. Defined.
End Witnesses.
