(* ===== verification/MosaicStream.v ===== *)
(** * The mosaic stream

    [src/src/stream/streams/mosaic_stream.cpp]: each input has a decodebin of
    its own; the levels of the sound arrive as messages of the bus and are drawn
    as bars into the tiles that [Mosaic] laid out. *)

From S2P Require Import Prelude Platform StreamTypes Constants Uris Options Configs Gst Elements Builders Pipelines PipelineSpec Mosaic Stats BaseStream Streams.

(* [src/src/stream/streams/mosaic_stream.cpp:32-32 COUNT_CHUNKS] *)
Definition COUNT_CHUNKS : Z := 10.
(* [src/src/stream/streams/mosaic_stream.cpp:33-33 CHANNELS] *)
Definition CHANNELS : Z := 2.

Section MosaicStream.
Context `{JsonC} `{UrlLib} `{PathLib} `{UnnamedCodes} `{GstLib} `{!MediaLib}.

(* [src/src/stream/streams/mosaic_stream.h:49-96 MosaicStream] *)
Record mosaic_stream := { mo_dec : decoder; mo_options : MosaicImageOptions }.

Abbreviation mmethod := (hact mosaic_stream decode_event).

Definition on_decoder {A} (m : hact decoder decode_event A) : mmethod A := fun s =>
  let '(a, d, es) := m (mo_dec s) in (a, {| mo_dec := d; mo_options := mo_options s |}, es).

Definition set_sreams (l : list MosaicStreamInfo) (o : MosaicImageOptions) : MosaicImageOptions :=
  {| screen_size := screen_size o; right_padding := right_padding o; sreams := l |}.
Definition set_sound (ch : list AudioChannelInfo) (s : MosaicStreamInfo) : MosaicStreamInfo :=
  {| img := img s; sound_channels := ch |}.

(** [options_.sreams[id].sound.channels = f(...)], when there is such a stream. *)
Definition change_channels (id : Z) (f : list AudioChannelInfo -> list AudioChannelInfo) (s : mosaic_stream) : mosaic_stream :=
  let l := sreams (mo_options s) in
  {| mo_dec := mo_dec s;
     mo_options := set_sreams
       (if (id <? Z.of_nat (length l))%Z then alter (fun x => set_sound (f (sound_channels x)) x) (Z.to_nat id) l else l)
       (mo_options s) |}.

(** [GetElementId(name, &elem_id)], after which [elem_id] is read. *)
Definition element_id (name : string) : outcome (option Z) :=
  match GetElementId name with
  | None => Ok None
  | Some None => Abort (UndefinedBehaviour "elem_id is not set")
  | Some (Some id) => Ok (Some id)
  end.

(* [src/src/stream/streams/mosaic_stream.cpp:53-57 MosaicStream::ConnectCairoSignals] *)
Definition Mosaic_OnCairoCreated (options : MosaicImageOptions) : mmethod unit :=
  hmodify (fun s => {| mo_dec := mo_dec s; mo_options := options |}).

(** Decodebin decodes everything; the rates of MPEG audio all count for the first
    input. *)
(* [src/src/stream/streams/mosaic_stream.cpp:59-135 MosaicStream::HandleDecodeBinAutoplugger] *)
Definition Mosaic_HandleDecodeBinAutoplugger (elem : string) (caps : option gst_caps) : mmethod bool :=
  match caps, get_type_from_caps caps with
  | Some c, Some (type_title, _) =>
      id ← hlift (element_id elem);
      match id with
      | None => mret true
      | Some elem_id =>
          match IsDemuxerFromType type_title, IsVideoCodecFromType type_title, IsAudioCodecFromType type_title with
          | None, Some VIDEO_H264_CODEC, _ =>
              match caps_int c "width", caps_int c "height" with
              | Some _, Some _ => on_decoder (RegisterVideoCaps VIDEO_H264_CODEC c elem_id) ;; mret true
              | _, _ => mret true
              end
          | None, None, Some codec =>
              match caps_int c "rate" with
              | Some _ =>
                  on_decoder (RegisterAudioCaps c (match codec with AUDIO_MPEG_CODEC => 0%Z | _ => elem_id end)) ;;
                  mret true
              | None => mret true
              end
          | _, _, _ => mret true
          end
      end
  | _, _ => mret true
  end.

(** [AudioChannelInfo()]: the members have no value yet. *)
Definition new_channel : AudioChannelInfo := {| rms_dB := dbl_of_Z 0; peak_dB := dbl_of_Z 0; decay_dB := dbl_of_Z 0 |}.

(** The destination of a pad; the channels of its sound are counted. *)
(* [src/src/stream/streams/mosaic_stream.cpp:154-179 MosaicStream::HandleDecodeBinPadAdded] *)
Definition mosaic_pad_destination (config : AudioVideoConfig) (elem_id : Z) (new_pad : gst_pad) (type : string)
    : mmethod (option element) :=
  match medium_of_type type with
  | Some Video =>
      inited ← hgets (fun s => IsVideoInited (dc_stream (mo_dec s)));
      if av_have_video config && negb inited then
        el ← on_decoder (stream_GetElementByName (UDB_VIDEO_NAME_1U elem_id)); mret (Some el)
      else mret None
  | Some Audio =>
      inited ← hgets (fun s => IsAudioInited (dc_stream (mo_dec s)));
      if av_have_audio config && negb inited then
        el ← on_decoder (stream_GetElementByName (UDB_AUDIO_NAME_1U elem_id));
        let channels := default 0%Z (c ← pad_caps new_pad; caps_int c "channels") in
        hmodify (change_channels elem_id (fun l => l ++ replicate (Z.to_nat channels) new_channel)) ;;
        mret (Some el)
      else mret None
  | None => mret None
  end.

(* [src/src/stream/streams/mosaic_stream.cpp:137-206 MosaicStream::HandleDecodeBinPadAdded] *)
Definition Mosaic_HandleDecodeBinPadAdded (config : AudioVideoConfig) (src : string) (new_pad : gst_pad)
    (link_ok : bool) : mmethod unit :=
  match pad_type new_pad with
  | None => hlift (Abort (NotReached "pad_get_type"))
  | Some type =>
      id ← hlift (element_id src);
      match id with
      | None => mret tt
      | Some elem_id =>
          dest ← mosaic_pad_destination config elem_id new_pad type;
          match dest with
          | None => mret tt
          | Some dest => on_decoder (link_pad new_pad dest link_ok) ;; mret tt
          end
      end
  end.

(** [channels[i] = value]: the index is not compared with the size. *)
Definition set_channel (elem_id : Z) (iv : Z * AudioChannelInfo) : mmethod unit :=
  l ← hgets (fun s => sreams (mo_options s));
  match l !! Z.to_nat elem_id with
  | None => mret tt
  | Some x =>
      if (iv.1 <? Z.of_nat (length (sound_channels x)))%Z
      then hmodify (change_channels elem_id (fun ch => <[Z.to_nat iv.1 := iv.2]> ch))
      else hlift (Abort (UndefinedBehaviour "channels[i]"))
  end.

(** A message of a level meter: [values] are the entries of its three arrays,
    which have one entry per channel. *)
(* [src/src/stream/streams/mosaic_stream.cpp:309-351 MosaicStream::HandleAsyncBusMessageReceived] *)
Definition Mosaic_level_message (src : string) (values : list AudioChannelInfo) : mmethod unit :=
  id ← hlift (element_id src);
  match id with
  | None => mret tt
  | Some elem_id => hact_iter (set_channel elem_id) (enumerate values)
  end.

(** ** Drawing *)

(* [src/src/stream/streams/mosaic_stream.cpp:258-268 MosaicStream::HandleCairoDraw] *)
Definition bar_color (pos : Z) (val : double) : string :=
  if dbl_le (dbl_of_Z pos) val then
    if (pos <=? 5)%Z then "green" else if (pos <=? 8)%Z then "yellow" else "red"
  else "white".

(** The coordinates are sums of an [int] and a [size_t]. *)
(* [src/src/stream/streams/mosaic_stream.cpp:240-269 MosaicStream::HandleCairoDraw] *)
Definition draw_bar (rp : Z) (stream : MosaicStreamInfo) (i j : Z) : ImageInfo * string :=
  let width_chunk := Z.quot rp (2 * CHANNELS) in
  let padding := width_chunk in
  let sz := img_size (img stream) in
  let xy := img_x_y (img stream) in
  let x0 := (xy.1 + sz.1 - rp)%Z in
  let y0 := xy.2 in
  let height_chuk := Z.quot sz.2 (COUNT_CHUNKS * 2) in
  let val := match sound_channels stream !! Z.to_nat j with
             | Some ch => dbl_div (rms_dB ch) (dbl_of_Z (-10))
             | None => dbl_of_Z 0
             end in
  let pos := ((COUNT_CHUNKS * 2 - i) / 2)%Z in
  ({| img_x_y := (u64 ((x0 + padding) + width_chunk * j + Z.quot padding 2 * j),
                  u64 ((y0 + height_chuk) + height_chuk * i));
      img_size := (width_chunk, height_chuk) |}, bar_color pos val).

(** The rectangles with their colours, in the order in which they are filled. *)
(* [src/src/stream/streams/mosaic_stream.cpp:223-277 MosaicStream::HandleCairoDraw] *)
Definition HandleCairoDraw (options : MosaicImageOptions) : list (ImageInfo * string) :=
  if MosaicImageOptions_isValid options then
    sreams options ≫= fun stream =>
      ((fun i => 2 * i)%Z <$> seqZ 0 COUNT_CHUNKS) ≫= fun i =>
        draw_bar (right_padding options) stream i <$> seqZ 0 CHANNELS
  else [].
End MosaicStream.

(** ** Properties *)

Section MosaicStreamTheorems.
Context `{JsonC} `{!CommonLibOk} `{UrlLib} `{PathLib} `{UnnamedCodes} `{GstLib} `{!MediaLib}.

(** The options as the overlay has them while the stream runs: the levels have
    changed, the tiles have not. *)
Definition same_tiles (o o' : MosaicImageOptions) : Prop :=
  screen_size o' = screen_size o /\ right_padding o' = right_padding o /\ img <$> sreams o' = img <$> sreams o.

(** A tile that the mosaic uses: wide enough for the bars, on a screen. *)
Definition tile_ok (t : ImageInfo) : Prop :=
  (0 <= (img_x_y t).1 < 2 ^ 31 /\ 0 <= (img_x_y t).2 < 2 ^ 31 /\
   100 <= (img_size t).1 < 2 ^ 31 /\ 0 <= (img_size t).2 < 2 ^ 31)%Z.

Lemma draw_bar_inside s i j :
  tile_ok (img s) -> (0 <= i <= 18)%Z -> (0 <= j < CHANNELS)%Z -> inside (img s) (draw_bar 100 s i j).1 = true.
Proof.
  unfold tile_ok, draw_bar, inside, CHANNELS, COUNT_CHUNKS. cbn [fst snd img_x_y img_size].
  destruct (img_x_y (img s)) as [x y]. destruct (img_size (img s)) as [w h]. cbn [fst snd].
  change (Z.quot 100 (2 * 2)) with 25%Z. change (Z.quot 25 2) with 12%Z. intros (Hx & Hy & Hw & Hh) Hi Hj.
  pose proof (Z.quot_div_nonneg h (10 * 2) ltac:(lia) ltac:(lia)) as Hq. rewrite Hq. clear Hq.
  pose proof (Z.div_mod h (10 * 2) ltac:(lia)) as Hdm. pose proof (Z.mod_pos_bound h (10 * 2) ltac:(lia)) as Hm.
  set (q := (h / (10 * 2))%Z) in *. assert (Hq : (0 <= q < 2 ^ 31)%Z) by lia.
  assert (Hqi : (0 <= q * i <= q * 18)%Z) by nia.
  rewrite !wrap_small by int_range. rewrite !andb_true_iff, !Z.leb_le. split_and!; lia.
Qed.

Lemma HandleCairoDraw_elem o r c :
  (r, c) ∈ HandleCairoDraw o ->
  exists s i j, s ∈ sreams o /\ (0 <= i <= 18)%Z /\ (0 <= j < CHANNELS)%Z /\ draw_bar (right_padding o) s i j = (r, c).
Proof.
  unfold HandleCairoDraw. destruct (MosaicImageOptions_isValid o); [|by intros ?%not_elem_of_nil].
  intros (s & (i & (j & Hj & Hjr)%list_elem_of_fmap & (k & -> & Hk)%list_elem_of_fmap)%list_elem_of_bind & Hs)%list_elem_of_bind.
  apply elem_of_seqZ in Hjr, Hk. unfold COUNT_CHUNKS in Hk. exists s, (2 * k)%Z, j.
  split_and!; [done|lia..|by unfold CHANNELS in *; lia|by unfold CHANNELS in *; lia|done].
Qed.

Lemma mosaic_tile_ok config n rows cols s :
  mosaic_grid n = Some (rows, cols) -> av_have_video config = true ->
  s ∈ sreams (mosaic_options config rows cols) -> tile_ok (img s).
Proof.
  intros Hg Hv Hs. cbn [mosaic_options sreams] in Hs.
  apply list_elem_of_bind in Hs as (r & (c & -> & Hc)%list_elem_of_fmap & Hr). apply elem_of_seqZ in Hr, Hc.
  unfold tile_info, tile_ok. rewrite Hv. cbn [img]. unfold tile, mosaic_screen. cbn [img_x_y img_size fst snd].
  revert Hg. unfold mosaic_grid.
  repeat match goal with
         | |- context [Nat.eqb n ?k] =>
             destruct (Nat.eqb n k);
               [intros [= <- <-];
                repeat match goal with |- context [(?a / ?b)%Z] =>
                         let v := eval vm_compute in (a / b)%Z in change (a / b)%Z with v end; lia|]
         end.
  done.
Qed.

(** Whatever the levels are, every bar that the mosaic draws lies in the tile
    of one of its inputs. *)
Theorem bars_inside_tiles config n rows cols o r c :
  mosaic_grid n = Some (rows, cols) -> av_have_video config = true ->
  same_tiles (mosaic_options config rows cols) o -> (r, c) ∈ HandleCairoDraw o ->
  exists t, t ∈ img <$> sreams o /\ inside t r = true.
Proof.
  intros Hg Hv (_ & Hp & Ht) (s & i & j & Hs & Hi & Hj & Hb)%HandleCairoDraw_elem. rewrite Hp in Hb. change (right_padding _) with 100%Z in Hb.
  exists (img s). split; [by apply list_elem_of_fmap_2|]. replace r with (draw_bar 100 s i j).1 by (by rewrite Hb).
  apply draw_bar_inside; [|done..].
  assert (Hin : img s ∈ img <$> sreams (mosaic_options config rows cols)) by (rewrite <- Ht; by apply list_elem_of_fmap_2).
  apply list_elem_of_fmap in Hin as (s' & -> & Hs'). by eapply mosaic_tile_ok.
Qed.

(** ** The levels *)

Definition channels_of (id : Z) (s : mosaic_stream) : option (list AudioChannelInfo) :=
  sound_channels <$> sreams (mo_options s) !! Z.to_nat id.

Lemma change_channels_of id f s :
  (0 <= id)%Z -> channels_of id (change_channels id f s) = f <$> channels_of id s.
Proof.
  intros Hid. unfold channels_of, change_channels. cbn. destruct (Z.ltb_spec id (Z.of_nat (length (sreams (mo_options s))))).
  - rewrite list_lookup_alter_eq. by destruct (_ !! _).
  - by rewrite lookup_ge_None_2 by lia.
Qed.

Lemma set_channels_run id (values : list AudioChannelInfo) k ch s :
  (0 <= id)%Z -> channels_of id s = Some ch ->
  let r := hact_iter (set_channel id) (imap (fun i v => (Z.of_nat (k + i), v)) values) s in
  if decide (k + length values <= length ch) then r.1.1 = Ok tt /\ channels_of id r.1.2 = Some (take k ch ++ values ++ drop (k + length values) ch)
  else k <= length ch -> r.1.1 = Abort (UndefinedBehaviour "channels[i]").
Proof.
  intros Hid. revert k ch s. induction values as [|v l IH]; intros k ch s Hch r.
  { subst r. cbn [length imap hact_iter]. rewrite Nat.add_0_r. destruct (decide _); [|lia].
    split; [done|]. cbn. by rewrite take_drop. }
  subst r. cbn [imap hact_iter length]. rewrite Nat.add_0_r. unfold mbind at 1 2 3, hact_bind at 1 2 3.
  unfold set_channel at 1 3 5. unfold mbind at 1 2 3, hact_bind at 1 2 3, hgets. unfold channels_of in Hch.
  destruct (sreams (mo_options s) !! Z.to_nat id) as [x|] eqn:Hx; [|done]. injection Hch as Hch. cbn [fst snd].
  rewrite Hch. destruct (Z.ltb_spec (Z.of_nat k) (Z.of_nat (length ch))) as [Hk|Hk].
  2:{ destruct (decide _); [lia|]. done. }
  unfold hmodify. rewrite Nat2Z.id.
  set (s1 := change_channels id (fun ch0 => <[k:=v]> ch0) s).
  assert (Hs1 : channels_of id s1 = Some (<[k:=v]> ch)).
  { unfold s1. rewrite change_channels_of by done. unfold channels_of. rewrite Hx. cbn. by rewrite Hch. }
  specialize (IH (S k) (<[k:=v]> ch) s1 Hs1). cbn zeta in IH. rewrite length_insert in IH.
  replace (imap ((fun i v => (Z.of_nat (k + i), v)) ∘ S) l) with (imap (fun i v => (Z.of_nat (S k + i), v)) l)
    by (apply imap_ext; intros; cbn; f_equal; lia).
  destruct (hact_iter _ _ s1) as [[r2 s2] es2]. cbn [fst snd] in *.
  replace (S k + length l) with (k + S (length l)) in IH by lia.
  destruct (decide _) as [Hle|Hle].
  - destruct IH as [-> IH]. split; [done|]. rewrite IH. f_equal.
    rewrite (take_S_r _ _ v) by (by rewrite list_lookup_insert_eq by lia). rewrite take_insert_ge by lia.
    rewrite drop_insert_lt by lia. by rewrite <- app_assoc.
  - intros _. apply IH. lia.
Qed.

(** A level message of an input of the mosaic stores its channels over the
    first ones that the pads of the input announced; a message with more
    channels than were announced writes past the end of the vector. *)
Theorem level_message_spec i values s ch :
  in_u 64 i -> channels_of i s = Some ch ->
  let r := Mosaic_level_message (AUDIO_LEVEL_NAME_1U i) values s in
  if decide (length values <= length ch)
  then r.1.1 = Ok tt /\ channels_of i r.1.2 = Some (values ++ drop (length values) ch)
  else r.1.1 = Abort (UndefinedBehaviour "channels[i]").
Proof.
  intros Hi Hch r. subst r. unfold Mosaic_level_message, element_id, AUDIO_LEVEL_NAME_1U.
  rewrite GetElementId_elem_name by (reflexivity || done).
  pose proof (set_channels_run i values 0 ch s ltac:(unfold in_u in Hi; lia) Hch) as Hr. cbn [Nat.add] in Hr.
  unfold mbind, hact_bind, hlift. unfold enumerate.
  destruct (hact_iter _ _ s) as [[r2 s2] es2]. cbn [fst snd] in *. destruct (decide _); [done|]. apply Hr. lia.
Qed.
End MosaicStreamTheorems.

(** ** Witnesses *)

Section Witnesses.
#[local] Existing Instances Ref.common Ref.common_ok Ref.urls Ref.paths ref_codes RefGst.gst RefMedia.media.
#[local] Instance wit_mosaic_stream_json : JsonC := Ref.json_c (fun _ => None).

Definition wit_tiles : MosaicImageOptions := mosaic_options (e_base wit_mosaic) 2 2.

(** The first bar of the second tile. *)
Lemma bars_inside_tiles_witness :
  exists t, t ∈ img <$> sreams wit_tiles /\
    inside t {| img_x_y := (1205, 18)%Z; img_size := (25, 18)%Z |} = true.
Proof.
  apply (bars_inside_tiles (e_base wit_mosaic) 4 2 2 wit_tiles
           {| img_x_y := (1205, 18)%Z; img_size := (25, 18)%Z |} "white").
  - reflexivity.
  - reflexivity.
  - repeat split; reflexivity.
  - vm_compute. do 20 right. left.
Defined.

Definition wit_mosaic_stream (n : nat) : mosaic_stream :=
  {| mo_dec := wit_decoder;
     mo_options := set_sreams (set_sound (replicate n new_channel) <$> sreams wit_tiles) wit_tiles |}.
Definition wit_level : AudioChannelInfo := {| rms_dB := dbl_of_Z (-60); peak_dB := dbl_of_Z (-50); decay_dB := dbl_of_Z (-55) |}.

(** Two channels are stored; the third of a message of three is written past the end. *)
Lemma level_message_spec_witness :
  channels_of 1 (Mosaic_level_message "level_1" [wit_level; wit_level] (wit_mosaic_stream 2)).1.2 = Some [wit_level; wit_level] /\
  (Mosaic_level_message "level_1" [wit_level; wit_level; wit_level] (wit_mosaic_stream 2)).1.1
    = Abort (UndefinedBehaviour "channels[i]").
Proof.
  split.
  - apply (level_message_spec 1 [wit_level; wit_level] (wit_mosaic_stream 2) [new_channel; new_channel]);
      [unfold in_u; lia|vm_compute; reflexivity].
  - apply (level_message_spec 1 [wit_level; wit_level; wit_level] (wit_mosaic_stream 2) [new_channel; new_channel]);
      [unfold in_u; lia|vm_compute; reflexivity].
Defined.
End Witnesses.
