(* ===== verification/Signals.v ===== *)
(** * Callbacks of GStreamer

    What a stream registers with GStreamer and GLib while its pipeline is made
    and while it runs, and what its destructor takes back:
    [Element::RegisterCallback] and [Element::~Element] of
    [src/src/stream/elements/element.cpp], the methods of
    [src/src/stream/streams/] that connect signals with the functions that GLib
    calls for them, and the sources of [IBaseStream::Exec]. *)

From S2P Require Import Prelude Platform StreamTypes Stats Constants Uris Options Configs Gst Elements Builders Mosaic BaseStream Streams.

#[export] Instance supported_elements_eq_dec : EqDecision SupportedElements.
Proof. solve_decision. Defined.
#[export] Instance element_eq_dec : EqDecision element.
Proof. solve_decision. Defined.

(** ** Signals of elements *)

(** The functions that are given to GLib, by the class they belong to. *)
Inductive callback :=
| SrcDecodeBin_decodebin_pad_added_callback
| SrcDecodeBin_decodebin_autoplugger_callback
| SrcDecodeBin_decodebin_autoplug_select_callback
| SrcDecodeBin_decodebin_autoplug_sort_callback
| SrcDecodeBin_decodebin_element_added_callback
| SrcDecodeBin_decodebin_element_removed_callback
| Mosaic_decodebin_pad_added_callback
| Mosaic_decodebin_autoplugger_callback
| Mosaic_decodebin_autoplug_sort_callback
| Mosaic_decodebin_element_added_callback
| Mosaic_cairo_draw_callback
| PlaylistRelay_need_data_callback
| PlaylistEncoding_need_data_callback
| TimeShiftRecorder_path_setter_callback
| TimeShiftRecorder_path_setter_full_callback.

#[export] Instance callback_eq_dec : EqDecision callback.
Proof. solve_decision. Defined.

(** [g_signal_connect] gives 0 for a signal that the class of the instance has
    not; otherwise a number that is not in use. *)
Class SignalLib := { g_has_signal : SupportedElements -> string -> bool }.

(** Elements are told apart by the stream whose pipeline holds them; [cn_data]
    is the stream that the callback gets. *)
Record connection := {
  cn_id : Z;
  cn_instance : nat * element;
  cn_signal : string;
  cn_callback : callback;
  cn_data : nat
}.

(** The connections that GLib keeps, the numbers that each [Element] object
    remembers, and the pads that elements were asked for. *)
Record signal_world := {
  sw_next : Z;
  sw_connections : list connection;
  sw_signals : list (nat * element * Z);
  sw_pads : list (nat * element * string)
}.

Definition set_connections (next : Z) (l : list connection) (w : signal_world) : signal_world :=
  {| sw_next := next; sw_connections := l; sw_signals := sw_signals w; sw_pads := sw_pads w |}.
Definition set_signals (l : list (nat * element * Z)) (w : signal_world) : signal_world :=
  {| sw_next := sw_next w; sw_connections := sw_connections w; sw_signals := l; sw_pads := sw_pads w |}.
Definition set_pads (l : list (nat * element * string)) (w : signal_world) : signal_world :=
  {| sw_next := sw_next w; sw_connections := sw_connections w; sw_signals := sw_signals w; sw_pads := l |}.

(** What GLib and GStreamer complain about. *)
Inductive glib_warning := NoSuchHandler (id : Z) | NullElement (what : string).

Abbreviation sig := (hact signal_world glib_warning).

Section Signals.
Context `{SignalLib}.

(** The stream whose pipeline holds the element, and the element. *)
Implicit Types el : nat * element.

Definition g_signal_connect (el : nat * element) (signal_name : string) (cb : callback) (user_data : nat) : sig Z :=
  if el_valid el.2 && g_has_signal (el_type el.2) signal_name then
    id ← hgets sw_next;
    hmodify (fun w => set_connections (id + 1)
      (sw_connections w ++ [{| cn_id := id; cn_instance := el; cn_signal := signal_name; cn_callback := cb; cn_data := user_data |}]) w) ;;
    mret id
  else mret 0%Z.

Definition g_signal_handler_disconnect (el : nat * element) (id : Z) : sig unit :=
  l ← hgets sw_connections;
  if existsb (fun c => bool_decide (cn_id c = id) && bool_decide (cn_instance c = el)) l then
    hmodify (fun w => set_connections (sw_next w) (filter (fun c => ~ (cn_id c = id /\ cn_instance c = el)) (sw_connections w)) w)
  else hemit (NoSuchHandler id).

(* [src/src/stream/elements/element.cpp:98-106 Element::RegisterCallback] *)
Definition RegisterCallback (el : nat * element) (signal_name : string) (cb : callback) (user_data : nat) : sig bool :=
  id ← g_signal_connect el signal_name cb user_data;
  if (id =? 0)%Z then mret false
  else hmodify (fun w => set_signals (sw_signals w ++ [(el, id)]) w) ;; mret true.

(* [src/src/stream/elements/element.cpp:108-110 Element::UnRegisterCallback] *)
Definition UnRegisterCallback (el : nat * element) (signal_id : Z) : sig unit := g_signal_handler_disconnect el signal_id.

(** [delete el]. *)
(* [src/src/stream/elements/element.cpp:90-96 Element::~Element] *)
Definition Element_destroy (el : nat * element) : sig unit :=
  signals ← hgets sw_signals;
  hact_iter (fun x => UnRegisterCallback el x.2) (filter (fun x => x.1 = el) signals) ;;
  hmodify (fun w => set_signals (filter (fun x => x.1 <> el) (sw_signals w)) w).

(* [src/src/stream/elements/element.h:219-221 RegisterElementAdded] *)
Definition RegisterElementAdded (el : nat * element) : callback -> nat -> sig bool := RegisterCallback el "element-added".
(* [src/src/stream/elements/element.h:223-225 RegisterElementRemoved] *)
Definition RegisterElementRemoved (el : nat * element) : callback -> nat -> sig bool := RegisterCallback el "element-removed".
(* [src/src/stream/elements/element.h:227-229 RegisterDeepElementAdded] *)
Definition RegisterDeepElementAdded (el : nat * element) : callback -> nat -> sig bool := RegisterCallback el "deep-element-added".
(* [src/src/stream/elements/element.h:231-233 RegisterDeepElementRemoved] *)
Definition RegisterDeepElementRemoved (el : nat * element) : callback -> nat -> sig bool := RegisterCallback el "deep-element-removed".
(* [src/src/stream/elements/element.cpp:212-214 ElementDecodebin::RegisterPadAddedCallback] *)
Definition RegisterPadAddedCallback (el : nat * element) : callback -> nat -> sig bool := RegisterCallback el "pad-added".
(* [src/src/stream/elements/element.cpp:216-218 ElementDecodebin::RegisterAutoplugContinue] *)
Definition RegisterAutoplugContinue (el : nat * element) : callback -> nat -> sig bool := RegisterCallback el "autoplug-continue".
(* [src/src/stream/elements/element.cpp:220-222 ElementDecodebin::RegisterAutoplugSelect] *)
Definition RegisterAutoplugSelect (el : nat * element) : callback -> nat -> sig bool := RegisterCallback el "autoplug-select".
(* [src/src/stream/elements/element.cpp:224-226 ElementDecodebin::RegisterAutoplugSort] *)
Definition RegisterAutoplugSort (el : nat * element) : callback -> nat -> sig bool := RegisterCallback el "autoplug-sort".
(* [src/src/stream/elements/sources/appsrc.cpp:24-26 ElementAppSrc::RegisterNeedDataCallback] *)
Definition RegisterNeedDataCallback (el : nat * element) : callback -> nat -> sig bool := RegisterCallback el "need-data".
(* [src/src/stream/elements/video/video.cpp:63-65 ElementCairoOverlay::RegisterDrawCallback] *)
Definition RegisterDrawCallback (el : nat * element) : callback -> nat -> sig bool := RegisterCallback el "draw".
(* [src/src/stream/elements/sink/sink.cpp:22-24 ElementSplitMuxSink::RegisterFormatLocationCallback] *)
Definition RegisterFormatLocationCallback (el : nat * element) : callback -> nat -> sig bool := RegisterCallback el "format-location".
(* [src/src/stream/elements/sink/sink.cpp:27-30 ElementSplitMuxSink::RegisterFormatLocationFullCallback] *)
Definition RegisterFormatLocationFullCallback (el : nat * element) : callback -> nat -> sig bool := RegisterCallback el "format-location-full".

(** ** The streams *)

(** The results are looked at in a debug build only. *)
(* [src/src/stream/streams/src_decodebin_stream.cpp:24-42 SrcDecodeBinStream::ConnectDecodebinSignals] *)
Definition SrcDecodeBin_ConnectDecodebinSignals (this : nat) (decodebin : element) : sig unit :=
  RegisterPadAddedCallback (this, decodebin) SrcDecodeBin_decodebin_pad_added_callback this ;;
  RegisterAutoplugContinue (this, decodebin) SrcDecodeBin_decodebin_autoplugger_callback this ;;
  RegisterAutoplugSelect (this, decodebin) SrcDecodeBin_decodebin_autoplug_select_callback this ;;
  RegisterAutoplugSort (this, decodebin) SrcDecodeBin_decodebin_autoplug_sort_callback this ;;
  RegisterElementAdded (this, decodebin) SrcDecodeBin_decodebin_element_added_callback this ;;
  RegisterElementRemoved (this, decodebin) SrcDecodeBin_decodebin_element_removed_callback this ;;
  mret tt.

(* [src/src/stream/streams/mosaic_stream.cpp:39-51 MosaicStream::ConnectDecodebinSignals] *)
Definition Mosaic_ConnectDecodebinSignals (this : nat) (decodebin : element) : sig unit :=
  RegisterPadAddedCallback (this, decodebin) Mosaic_decodebin_pad_added_callback this ;;
  RegisterAutoplugContinue (this, decodebin) Mosaic_decodebin_autoplugger_callback this ;;
  RegisterAutoplugSort (this, decodebin) Mosaic_decodebin_autoplug_sort_callback this ;;
  RegisterElementAdded (this, decodebin) Mosaic_decodebin_element_added_callback this ;;
  mret tt.

(** The part that keeps the options is in [MosaicStream]. *)
(* [src/src/stream/streams/mosaic_stream.cpp:53-57 MosaicStream::ConnectCairoSignals] *)
Definition ConnectCairoSignals (this : nat) (cairo : element) : sig unit :=
  RegisterDrawCallback (this, cairo) Mosaic_cairo_draw_callback this ;; mret tt.

(* [src/src/stream/streams/src_decodebin_stream.cpp:114-116 SrcDecodeBinStream::OnDecodebinCreated] *)
Definition SrcDecodeBin_OnDecodebinCreated : nat -> element -> sig unit := SrcDecodeBin_ConnectDecodebinSignals.
(* [src/src/stream/streams/mosaic_stream.cpp:296-298 MosaicStream::OnDecodebinCreated] *)
Definition Mosaic_OnDecodebinCreated : nat -> element -> sig unit := Mosaic_ConnectDecodebinSignals.
(* [src/src/stream/streams/mosaic_stream.cpp:300-302 MosaicStream::OnCairoCreated] *)
Definition Mosaic_OnCairoCreated : nat -> element -> sig unit := ConnectCairoSignals.

(** [app_src_] is in [Playlist]. *)
(* [src/src/stream/streams/relay/playlist_relay_stream.cpp:46-50 PlaylistRelayStream::OnAppSrcCreatedCreated] *)
Definition PlaylistRelay_OnAppSrcCreatedCreated (this : nat) (src : element) : sig unit :=
  RegisterNeedDataCallback (this, src) PlaylistRelay_need_data_callback this ;; mret tt.
(* [src/src/stream/streams/encoding/playlist_encoding_stream.cpp:45-49 PlaylistEncodingStream::OnAppSrcCreatedCreated] *)
Definition PlaylistEncoding_OnAppSrcCreatedCreated (this : nat) (src : element) : sig unit :=
  RegisterNeedDataCallback (this, src) PlaylistEncoding_need_data_callback this ;; mret tt.

(** The first chunk is chosen in [Timeshift]; the pads are requested when they
    are linked. *)
(* [src/src/stream/streams/timeshift/timeshift_recorder_stream.cpp:84-85 TimeShiftRecorderStream::OnSplitmuxsinkCreated] *)
Definition TimeShiftRecorder_OnSplitmuxsinkCreated (this : nat) (sink : element) : sig unit :=
  RegisterFormatLocationFullCallback (this, sink) TimeShiftRecorder_path_setter_full_callback this ;; mret tt.

(** [audio_pad_] and [video_pad_]. *)
Definition pad_requested (this : nat) (sink : element) (pad : string) : sig unit :=
  hmodify (fun w => set_pads (sw_pads w ++ [(this, sink, pad)]) w).

(** The classes with methods that a builder calls on its observer, and which
    class is one of them. *)
Inductive observer_class := IBaseStream | ISrcDecodeBin | IMosaic | IPlaylistRelay | IPlaylistEncoding | ITimeShiftRecorder.

#[local] Instance observer_class_eq_dec : EqDecision observer_class.
Proof. solve_decision. Defined.

Definition observer_classes (cls : stream_class) : list observer_class :=
  match cls with
  | MosaicStream => [IBaseStream; IMosaic]
  | PlaylistRelayStream => [IBaseStream; ISrcDecodeBin; IPlaylistRelay]
  | PlaylistEncodingStream => [IBaseStream; ISrcDecodeBin; IPlaylistEncoding]
  | TimeShiftRecorderStream | CatchupStream => [IBaseStream; ISrcDecodeBin; ITimeShiftRecorder]
  | _ => [IBaseStream; ISrcDecodeBin]
  end.
Definition is_a (cls : stream_class) (o : observer_class) : bool := bool_decide (o ∈ observer_classes cls).

(** [static_cast<T*>(GetObserver())]: each builder casts its observer to the
    class of the stream that has made it. *)
Definition bad_observer {A} : sig A := hlift (Abort (UndefinedBehaviour "static_cast of the observer")).

(** What the stream does when its builder calls it. *)
Definition on_created (cls : stream_class) (this : nat) (e : build_event) : sig unit :=
  match e with
  | OnDecodebinCreated decodebin =>
      if is_a cls IMosaic then Mosaic_OnDecodebinCreated this decodebin else SrcDecodeBin_OnDecodebinCreated this decodebin
  | OnCairoCreated cairo _ => if is_a cls IMosaic then Mosaic_OnCairoCreated this cairo else bad_observer
  | OnAppSrcCreatedCreated src =>
      if is_a cls IPlaylistRelay then PlaylistRelay_OnAppSrcCreatedCreated this src
      else if is_a cls IPlaylistEncoding then PlaylistEncoding_OnAppSrcCreatedCreated this src
      else bad_observer
  | OnSplitmuxsinkCreated sink =>
      if is_a cls ITimeShiftRecorder then TimeShiftRecorder_OnSplitmuxsinkCreated this sink else bad_observer
  | OnPadLinked _ sink pad => pad_requested this sink pad
  | _ => mret tt
  end.

(** [InitPipeLine]: the elements of the pipeline, if there is one. *)
(* [src/src/stream/ibase_stream.cpp:216-230 IBaseStream::InitPipeLine] *)
Definition signals_InitPipeLine (cls : stream_class) (this : nat) (builder : build bool) : sig (option (list element)) :=
  let '(r, es) := CreatePipeLine builder in
  hact_iter (on_created cls this) es ;;
  p ← hlift r;
  mret (pl_line <$> p).

(** ** What the callbacks call *)

(** The virtual methods of the streams, which [Streams], [MosaicStream],
    [Playlist] and [Timeshift] model by class. *)
Inductive method :=
| HandleDecodeBinPadAdded | HandleDecodeBinAutoplugger | HandleAutoplugSelect | HandleAutoplugSort
| HandleDecodeBinElementAdded | HandleDecodeBinElementRemoved | HandleElementAdded | HandleCairoDraw
| HandleNeedData | OnPathSet
| HandleMainTimerTick | HandleSyncBusMessageReceived | HandleAsyncBusMessageReceived.

(** [reinterpret_cast<T*>(user_data)], of a stream of the class [cls], and the
    call of a method of it. *)
Definition cast_and_call (o : observer_class) (m : method) (cls : stream_class) (user_data : nat) : outcome (nat * method) :=
  if is_a cls o then Ok (user_data, m) else Abort (UndefinedBehaviour "reinterpret_cast of user_data").

(* [src/src/stream/streams/src_decodebin_stream.cpp:63-66 SrcDecodeBinStream::decodebin_pad_added_callback] *)
Definition SrcDecodeBin_call_pad_added : stream_class -> nat -> outcome (nat * method) :=
  cast_and_call ISrcDecodeBin HandleDecodeBinPadAdded.
(* [src/src/stream/streams/src_decodebin_stream.cpp:68-74 SrcDecodeBinStream::decodebin_autoplugger_callback] *)
Definition SrcDecodeBin_call_autoplugger : stream_class -> nat -> outcome (nat * method) :=
  cast_and_call ISrcDecodeBin HandleDecodeBinAutoplugger.
(* [src/src/stream/streams/src_decodebin_stream.cpp:76-83 SrcDecodeBinStream::decodebin_autoplug_select_callback] *)
Definition SrcDecodeBin_call_autoplug_select : stream_class -> nat -> outcome (nat * method) :=
  cast_and_call ISrcDecodeBin HandleAutoplugSelect.
(* [src/src/stream/streams/src_decodebin_stream.cpp:85-92 SrcDecodeBinStream::decodebin_autoplug_sort_callback] *)
Definition SrcDecodeBin_call_autoplug_sort : stream_class -> nat -> outcome (nat * method) :=
  cast_and_call ISrcDecodeBin HandleAutoplugSort.
(* [src/src/stream/streams/src_decodebin_stream.cpp:94-97 SrcDecodeBinStream::decodebin_element_added_callback] *)
Definition SrcDecodeBin_call_element_added : stream_class -> nat -> outcome (nat * method) :=
  cast_and_call ISrcDecodeBin HandleDecodeBinElementAdded.
(* [src/src/stream/streams/src_decodebin_stream.cpp:99-102 SrcDecodeBinStream::decodebin_element_removed_callback] *)
Definition SrcDecodeBin_call_element_removed : stream_class -> nat -> outcome (nat * method) :=
  cast_and_call ISrcDecodeBin HandleDecodeBinElementRemoved.
(* [src/src/stream/streams/mosaic_stream.cpp:365-368 MosaicStream::decodebin_pad_added_callback] *)
Definition Mosaic_call_pad_added : stream_class -> nat -> outcome (nat * method) :=
  cast_and_call IMosaic HandleDecodeBinPadAdded.
(* [src/src/stream/streams/mosaic_stream.cpp:370-376 MosaicStream::decodebin_autoplugger_callback] *)
Definition Mosaic_call_autoplugger : stream_class -> nat -> outcome (nat * method) :=
  cast_and_call IMosaic HandleDecodeBinAutoplugger.
(* [src/src/stream/streams/mosaic_stream.cpp:378-385 MosaicStream::cairo_draw_callback] *)
Definition Mosaic_call_cairo_draw : stream_class -> nat -> outcome (nat * method) :=
  cast_and_call IMosaic HandleCairoDraw.
(* [src/src/stream/streams/mosaic_stream.cpp:387-394 MosaicStream::decodebin_autoplug_sort_callback] *)
Definition Mosaic_call_autoplug_sort : stream_class -> nat -> outcome (nat * method) :=
  cast_and_call IMosaic HandleAutoplugSort.
(* [src/src/stream/streams/mosaic_stream.cpp:396-399 MosaicStream::decodebin_element_added_callback] *)
Definition Mosaic_call_element_added : stream_class -> nat -> outcome (nat * method) :=
  cast_and_call IMosaic HandleElementAdded.
(* [src/src/stream/streams/relay/playlist_relay_stream.cpp:100-103 PlaylistRelayStream::need_data_callback] *)
Definition PlaylistRelay_call_need_data : stream_class -> nat -> outcome (nat * method) :=
  cast_and_call IPlaylistRelay HandleNeedData.
(* [src/src/stream/streams/encoding/playlist_encoding_stream.cpp:95-98 PlaylistEncodingStream::need_data_callback] *)
Definition PlaylistEncoding_call_need_data : stream_class -> nat -> outcome (nat * method) :=
  cast_and_call IPlaylistEncoding HandleNeedData.
(* [src/src/stream/streams/timeshift/timeshift_recorder_stream.cpp:157-165 TimeShiftRecorderStream::path_setter_full_callback] *)
Definition TimeShiftRecorder_call_path_setter_full : stream_class -> nat -> outcome (nat * method) :=
  cast_and_call ITimeShiftRecorder OnPathSet.
(* [src/src/stream/streams/timeshift/timeshift_recorder_stream.cpp:153-155 TimeShiftRecorderStream::path_setter_callback] *)
Definition TimeShiftRecorder_call_path_setter : stream_class -> nat -> outcome (nat * method) :=
  TimeShiftRecorder_call_path_setter_full.

Definition call_callback (cb : callback) : stream_class -> nat -> outcome (nat * method) :=
  match cb with
  | SrcDecodeBin_decodebin_pad_added_callback => SrcDecodeBin_call_pad_added
  | SrcDecodeBin_decodebin_autoplugger_callback => SrcDecodeBin_call_autoplugger
  | SrcDecodeBin_decodebin_autoplug_select_callback => SrcDecodeBin_call_autoplug_select
  | SrcDecodeBin_decodebin_autoplug_sort_callback => SrcDecodeBin_call_autoplug_sort
  | SrcDecodeBin_decodebin_element_added_callback => SrcDecodeBin_call_element_added
  | SrcDecodeBin_decodebin_element_removed_callback => SrcDecodeBin_call_element_removed
  | Mosaic_decodebin_pad_added_callback => Mosaic_call_pad_added
  | Mosaic_decodebin_autoplugger_callback => Mosaic_call_autoplugger
  | Mosaic_cairo_draw_callback => Mosaic_call_cairo_draw
  | Mosaic_decodebin_autoplug_sort_callback => Mosaic_call_autoplug_sort
  | Mosaic_decodebin_element_added_callback => Mosaic_call_element_added
  | PlaylistRelay_need_data_callback => PlaylistRelay_call_need_data
  | PlaylistEncoding_need_data_callback => PlaylistEncoding_call_need_data
  | TimeShiftRecorder_path_setter_full_callback => TimeShiftRecorder_call_path_setter_full
  | TimeShiftRecorder_path_setter_callback => TimeShiftRecorder_call_path_setter
  end.

(** A signal of an element: GLib calls what is connected with it, one after the
    other. *)
Definition g_signal_emit (cls : nat -> stream_class) (el : nat * element) (signal : string) (w : signal_world)
    : list (outcome (nat * method)) :=
  (fun c => call_callback (cn_callback c) (cls (cn_data c)) (cn_data c)) <$>
    filter (fun c => cn_instance c = el /\ cn_signal c = signal) (sw_connections w).

(** ** The end of a stream *)

(** The pads that a recorder has requested are given back; asking for the
    element does not return if it is not there. *)
(* [src/src/stream/streams/timeshift/timeshift_recorder_stream.cpp:64-74 TimeShiftRecorderStream::~TimeShiftRecorderStream] *)
Definition TimeShiftRecorder_destroy (this : nat) (line : list element) : sig unit :=
  splitmuxsink ← hlift (GetElementByName line (SPLIT_SINK_NAME_1U 0));
  hmodify (fun w => set_pads (filter (fun x => x.1 <> (this, splitmuxsink)) (sw_pads w)) w).

(** The elements are deleted before the pipeline; the rest of the destructor,
    which changes the state of the pipeline and of the stream, is
    [StreamLife.stream_destroy]. *)
(* [src/src/stream/ibase_stream.cpp:300-303 IBaseStream::~IBaseStream] *)
Definition IBaseStream_delete_elements (this : nat) (pipeline_elements : list element) : sig unit :=
  hact_iter (fun el : element => Element_destroy (this, el)) pipeline_elements.

(** What the destructors of the class and of its bases do with the elements. *)
Definition signals_destroy (cls : stream_class) (this : nat) (pipeline : option (list element)) : sig unit :=
  (if is_a cls ITimeShiftRecorder then TimeShiftRecorder_destroy this (default [] pipeline) else mret tt) ;;
  IBaseStream_delete_elements this (default [] pipeline).
End Signals.

(** ** The sources of the loop

    [Exec] adds a timer and a watch of the bus to the loop and takes them out
    again; neither of their callbacks returns [FALSE], which would take them out
    before. The handler of synchronous messages belongs to the bus, which goes
    with the pipeline. *)

Inductive source := MainTimer (msecs : Z) | BusWatch.

Record main_context := {
  mc_next : Z;
  mc_sources : list (Z * source * nat);
  mc_sync_handlers : list nat
}.

Section Sources.
Abbreviation loop := (hact main_context unit).

Definition add_source (src : source) (user_data : nat) : loop Z :=
  id ← hgets mc_next;
  hmodify (fun c => {| mc_next := id + 1; mc_sources := mc_sources c ++ [(id, src, user_data)];
                       mc_sync_handlers := mc_sync_handlers c |}) ;;
  mret id.

Definition g_source_remove (id : Z) : loop bool :=
  l ← hgets mc_sources;
  hmodify (fun c => {| mc_next := mc_next c; mc_sources := filter (fun x => x.1.1 <> id) (mc_sources c);
                       mc_sync_handlers := mc_sync_handlers c |}) ;;
  mret (existsb (fun x => bool_decide (x.1.1 = id)) l).

(* [src/src/stream/ibase_stream.h:62-62 main_timer_msecs] *)
Definition main_timer_msecs : Z := 1000.

(* [src/src/stream/ibase_stream.cpp:321-326 IBaseStream::Exec] *)
Definition exec_add_sources (this : nat) : loop (Z * Z) :=
  main_timeout_id ← add_source (MainTimer main_timer_msecs) this;
  hmodify (fun c => {| mc_next := mc_next c; mc_sources := mc_sources c; mc_sync_handlers := mc_sync_handlers c ++ [this] |}) ;;
  bus_watch_id ← add_source BusWatch this;
  mret (main_timeout_id, bus_watch_id).

(* [src/src/stream/ibase_stream.cpp:340-343 IBaseStream::Exec] *)
Definition exec_remove_sources (main_timeout_id bus_watch_id : Z) : loop (bool * bool) :=
  watch ← g_source_remove bus_watch_id;
  timeout ← g_source_remove main_timeout_id;
  mret (watch, timeout).
End Sources.

(* [src/src/stream/ibase_stream.cpp:720-730 IBaseStream::main_timer_callback] *)
Definition main_timer_callback : stream_class -> nat -> outcome (nat * method) := cast_and_call IBaseStream HandleMainTimerTick.
(* [src/src/stream/ibase_stream.cpp:750-753 IBaseStream::sync_bus_callback] *)
Definition sync_bus_callback : stream_class -> nat -> outcome (nat * method) := cast_and_call IBaseStream HandleSyncBusMessageReceived.
(* [src/src/stream/ibase_stream.cpp:755-758 IBaseStream::async_bus_callback] *)
Definition async_bus_callback : stream_class -> nat -> outcome (nat * method) := cast_and_call IBaseStream HandleAsyncBusMessageReceived.
Definition source_callback (s : source) : stream_class -> nat -> outcome (nat * method) :=
  match s with MainTimer _ => main_timer_callback | BusWatch => async_bus_callback end.

(** The sources of a stream are the stream's, and gone when [Exec] returns. *)
Lemma exec_sources this c :
  (forall x, x ∈ mc_sources c -> (x.1.1 < mc_next c)%Z) ->
  exists t w c1, exec_add_sources this c = (Ok (t, w), c1, []) /\
    mc_sources c1 = mc_sources c ++ [(t, MainTimer main_timer_msecs, this); (w, BusWatch, this)] /\
    exists c2, exec_remove_sources t w c1 = (Ok (true, true), c2, []) /\ mc_sources c2 = mc_sources c.
Proof.
  intros Hlt. set (n := mc_next c). exists n, (n + 1)%Z. eexists. split; [done|].
  split; [cbn; by rewrite <-app_assoc|].
  assert (Hf : forall id, (n <= id)%Z -> filter (fun x : Z * source * nat => x.1.1 <> id) (mc_sources c) = mc_sources c).
  { intros id Hid. apply filter_every. intros x Hx. specialize (Hlt x Hx). lia. }
  unfold exec_remove_sources, g_source_remove, mbind, hact_bind, hgets, hmodify, mret, hact_ret. cbn -[filter].
  rewrite !filter_app, !Hf by lia. cbn -[filter]. fold n.
  rewrite !filter_cons, !filter_nil, !existsb_app. cbn.
  rewrite (decide_True (P := n <> (n + 1)%Z)), (decide_False (P := (n + 1)%Z <> (n + 1)%Z)) by lia.
  cbn. rewrite (decide_False (P := n <> n)), !app_nil_r by (intros []; done).
  rewrite (bool_decide_eq_true_2 (n = n)), (bool_decide_eq_true_2 ((n + 1)%Z = (n + 1)%Z)) by done.
  cbn [orb]. rewrite !orb_true_r. by eexists.
Qed.
