(* ===== verification/SignalSpec.v ===== *)
(** * What the builders announce to their stream

    Every element whose signals a stream connects is announced to it by its
    builder, once, and is an element of the pipeline: with this the callbacks of
    [Signals] are all connected when a pipeline has been made and all gone when
    its stream is. *)

From S2P Require Import Prelude Platform StreamTypes Stats Constants Uris Options Configs Gst Elements Builders Pipelines PipelineSpec Mosaic BaseStream Streams Signals.

(** ** Announcements *)

Inductive announcement := Decodebin | CairoOverlay | AppSrc | SplitMuxSink.

#[export] Instance announcement_eq_dec : EqDecision announcement.
Proof. solve_decision. Defined.

(** The elements that are announced, by their class. *)
Definition kind_of (t : SupportedElements) : option announcement :=
  match t with
  | ELEMENT_DECODEBIN => Some Decodebin
  | ELEMENT_CAIRO_OVERLAY => Some CairoOverlay
  | ELEMENT_APP_SRC => Some AppSrc
  | ELEMENT_SPLIT_MUX_SINK => Some SplitMuxSink
  | _ => None
  end.
Definition announced (e : build_event) : list (announcement * element) :=
  match e with
  | OnDecodebinCreated el => [(Decodebin, el)]
  | OnCairoCreated el _ => [(CairoOverlay, el)]
  | OnAppSrcCreatedCreated el => [(AppSrc, el)]
  | Gst.OnSplitmuxsinkCreated el => [(SplitMuxSink, el)]
  | _ => []
  end.
Definition to_announce (el : element) : list (announcement * element) :=
  match kind_of (el_type el) with Some k => [(k, el)] | None => [] end.

(** An element that is not announced. *)
Definition plain (el : element) : Prop := kind_of (el_type el) = None.

(** A pad is requested of the sink of a recorder only. *)
Definition pad_request (e : build_event) : option element := match e with OnPadLinked _ sink _ => Some sink | _ => None end.

Section Announcements.
Context `{CommonLib} `{GstLib} (allowed : announcement -> bool).

(** [announces early late m P]: when [m] returns, it has announced the elements
    [early] that were in the pipeline before, and each that it has added, but for
    [late]; these are all valid, of kinds that are allowed, and have names of
    their own. *)
Definition announces (early late : list (announcement * element)) {A} (m : build A) (P : A -> Prop) : Prop :=
  forall s, match m s with
            | (Ok a, s', es) =>
                P a /\ exists added,
                  pl_line s' = pl_line s ++ added /\ (es ≫= announced) ++ late ≡ₚ early ++ (added ≫= to_announce) /\
                  (forall el, el ∈ added -> el_valid el = true) /\
                  (forall x, x ∈ added ≫= to_announce -> allowed x.1 = true) /\
                  (NoDup (pl_names s) -> NoDup (pl_names s')) /\
                  (forall sink, sink ∈ omap pad_request es ->
                     (SplitMuxSink, sink) ∈ es ≫= announced /\ el_name sink = SPLIT_SINK_NAME_1U 0)
            | _ => True
            end.

Lemma announces_ret {A} (a : A) (P : A -> Prop) : P a -> announces [] [] (mret a) P.
Proof.
  intros Ha s. split; [done|]. exists []. rewrite app_nil_r. split_and!; try done; intros ?; by rewrite elem_of_nil.
Qed.

Lemma announces_bind e1 l1 e2 l2 {A B} (m : build A) (f : A -> build B) P Q :
  announces e1 l1 m P -> (forall a, P a -> announces e2 l2 (f a) Q) -> announces (e1 ++ e2) (l1 ++ l2) (m ≫= f) Q.
Proof.
  intros Hm Hf s. specialize (Hm s). unfold mbind at 1, hact_bind. destruct (m s) as [[[a|e|r] s1] es1]; [|done..].
  destruct Hm as (Ha & a1 & Hl1 & Hp1 & Hv1 & Hk1 & Hn1 & Hq1). specialize (Hf a Ha s1).
  destruct (f a s1) as [[[b|e|r] s2] es2]; [|done..].
  destruct Hf as (Hb & a2 & Hl2 & Hp2 & Hv2 & Hk2 & Hn2 & Hq2). split; [done|]. exists (a1 ++ a2).
  rewrite Hl2, Hl1, app_assoc, !bind_app. split_and!; [done| | | |tauto|].
  - transitivity (((es1 ≫= announced) ++ l1) ++ ((es2 ≫= announced) ++ l2)); [solve_Permutation|].
    rewrite Hp1, Hp2. solve_Permutation.
  - intros el [?|?]%elem_of_app; auto.
  - intros x [?|?]%elem_of_app; auto.
  - intros sink. rewrite omap_app. intros [Hs|Hs]%elem_of_app; [destruct (Hq1 _ Hs)|destruct (Hq2 _ Hs)];
      (split; [rewrite elem_of_app; tauto|done]).
Qed.

Lemma announces_conv e l e' l' {A} (m : build A) (P Q : A -> Prop) :
  announces e l m P -> e ≡ₚ e' -> l ≡ₚ l' -> (forall a, P a -> Q a) -> announces e' l' m Q.
Proof.
  intros Hm He Hl HQ s. specialize (Hm s). destruct (m s) as [[[a|?|?] s1] es1]; [|done..].
  destruct Hm as (Ha & a1 & Hl1 & Hp1 & ?). split; [auto|]. exists a1. split; [done|]. split; [by rewrite <-He, <-Hl|done].
Qed.

(** What is announced later is announced. *)
Lemma announces_settle x e l {A} (m : build A) P : announces (x ++ e) (x ++ l) m P -> announces e l m P.
Proof.
  intros Hm s. specialize (Hm s). destruct (m s) as [[[a|?|?] s1] es1]; [|done..].
  destruct Hm as (Ha & a1 & Hl1 & Hp1 & ?). split; [done|]. exists a1. split; [done|]. split; [|done].
  apply (Permutation_app_inv_l x). rewrite <-app_assoc in Hp1. rewrite <-Hp1. solve_Permutation.
Qed.

(** A step that adds and announces nothing. *)
Definition inert {A} (m : build A) : Prop :=
  forall s, match m s with
            | (Ok _, s', es) => pl_line s' = pl_line s /\ es ≫= announced = [] /\ omap pad_request es = []
            | _ => True
            end.

Lemma announces_inert {A} (m : build A) P : inert m -> only m P -> announces [] [] m P.
Proof.
  intros Hi Ho s. specialize (Hi s). specialize (Ho s). destruct (m s) as [[[a|?|?] s1] es1]; [|done..].
  destruct Hi as (Hl & Hp & Hr). split; [by apply Ho|]. exists []. rewrite Hp, Hr, Hl, app_nil_r. unfold pl_names. rewrite Hl.
  split_and!; try done; intros ?; by rewrite elem_of_nil.
Qed.

Lemma inert_lift {A} (m : outcome A) : inert (hlift m).
Proof. intros s. cbn. by destruct m. Qed.
Lemma inert_modify (f : pipeline -> pipeline) : (forall s, pl_line (f s) = pl_line s) -> inert (hmodify f).
Proof. intros Hf s. cbn. by rewrite Hf. Qed.
Lemma inert_emit e : announced e = [] -> pad_request e = None -> inert (hemit e).
Proof. intros Ha Hp s. cbn. by rewrite Ha, Hp. Qed.

Lemma announces_lift {A} (m : outcome A) : announces [] [] (hlift m) (fun _ => True).
Proof. apply announces_inert; [apply inert_lift|apply only_any]. Qed.
Lemma announces_throw_lift {A} (r : abort_reason) (P : A -> Prop) : announces [] [] (hlift (Abort r)) P.
Proof. by intros s. Qed.
Lemma announces_emit e : announced e = [] -> pad_request e = None -> announces [] [] (hemit e) (fun _ => True).
Proof. intros Ha Hp. apply announces_inert; [by apply inert_emit|apply only_any]. Qed.

Lemma announces_iter {A} (f : A -> build unit) l :
  (forall x, announces [] [] (f x) (fun _ => True)) -> announces [] [] (hact_iter f l) (fun _ => True).
Proof.
  intros Hf. induction l as [|x l IH]; [by apply announces_ret|]. cbn [hact_iter].
  by apply (announces_bind [] [] [] [] _ _ (fun _ => True)).
Qed.

Lemma make_element_announces type name :
  announces [] [] (make_element type name) (fun el => el_type el = type /\ el_name el = name).
Proof.
  intros s. unfold make_element, make_element_safe, mbind, hact_bind, hlift.
  destruct (gst_element_factory_make _ _); cbn.
  - split; [done|]. exists []. rewrite app_nil_r. split_and!; try done; intros ?; by rewrite elem_of_nil.
  - destruct (critical_log _); cbn; [|done..].
    split; [done|]. exists []. rewrite app_nil_r. split_and!; try done; intros ?; by rewrite elem_of_nil.
Qed.

Lemma make_plain_announces type name : kind_of type = None -> announces [] [] (make_element type name) plain.
Proof.
  intros Hk. eapply announces_conv; [apply make_element_announces|done..|]. intros el [Ht _]. unfold plain. by rewrite Ht.
Qed.

Lemma SetProperty_announces el p v : announces [] [] (SetProperty el p v) (fun _ => True).
Proof.
  unfold SetProperty. destruct (el_valid el); [|by apply announces_ret].
  apply announces_inert; [by apply inert_modify|apply only_any].
Qed.

Lemma watch_src_announces sch el id : announces [] [] (watch_src sch el id) (fun _ => True).
Proof. unfold watch_src. destruct (StaticPad el "src"); [by apply announces_emit|by apply announces_ret]. Qed.
Lemma watch_sink_announces sch el id : announces [] [] (watch_sink sch el id) (fun _ => True).
Proof. unfold watch_sink. destruct (StaticPad el "sink"); [by apply announces_emit|by apply announces_ret]. Qed.

Lemma ElementLink_announces s d : announces [] [] (ElementLink s d) (fun _ => True).
Proof.
  unfold ElementLink, deref. destruct s as [s|], d as [d|]; try (by intros p).
  intros p. unfold mbind, hact_bind, mret, hact_ret, hgets, hlift, check; cbn.
  destruct (gst_element_link _ _ _); cbn; [|done]. split; [done|]. exists []. rewrite app_nil_r.
  split_and!; try done; intros ?; by rewrite elem_of_nil.
Qed.

Context `{!GstLibOk}.

Lemma ElementAdd_late el :
  (forall x, x ∈ to_announce el -> allowed x.1 = true) -> announces [] (to_announce el) (ElementAdd el) (fun _ => True).
Proof.
  intros Hk s. unfold ElementAdd, mbind, hact_bind, hgets, hlift, check; cbn.
  destruct (gst_bin_add _ _) eqn:Ha; cbn; [|done]. apply gst_bin_add_ok in Ha as [Hv Hn].
  split; [done|]. exists [el]. cbn. rewrite app_nil_r. split_and!; [done..| | | |].
  - by intros ? ->%list_elem_of_singleton.
  - exact Hk.
  - intros Hd. unfold pl_names. cbn. rewrite fmap_app. apply NoDup_app. split_and!; [done| |apply NoDup_singleton].
    intros x Hx ->%list_elem_of_singleton. done.
  - by intros ? ?%elem_of_nil.
Qed.

Lemma ElementAdd_announces el : plain el -> announces [] [] (ElementAdd el) (fun _ => True).
Proof.
  unfold plain. intros Hp. assert (Ht : to_announce el = []) by (unfold to_announce; by rewrite Hp).
  pose proof (ElementAdd_late el) as Hl. rewrite Ht in Hl. apply Hl. by intros ? ?%elem_of_nil.
Qed.

(** An element that is added, and announced after some steps. *)
Lemma announced_segment {A} k el (m : build A) P :
  kind_of (el_type el) = Some k -> allowed k = true -> announces [(k, el)] [] m P ->
  announces [] [] (ElementAdd el ;; m) P.
Proof.
  intros Hk Ha Hm. apply (announces_settle [(k, el)]). rewrite !app_nil_r.
  assert (Ht : to_announce el = [(k, el)]) by (unfold to_announce; by rewrite Hk).
  apply (announces_bind [] [(k, el)] [(k, el)] [] (ElementAdd el) (fun _ => m) (fun _ => True)); [|done].
  pose proof (ElementAdd_late el) as Hl. rewrite Ht in Hl. apply Hl. by intros ? ->%list_elem_of_singleton.
Qed.

Lemma announces_step e l {A B} (m : build A) (f : A -> build B) P Q :
  announces [] [] m P -> (forall a, P a -> announces e l (f a) Q) -> announces e l (m ≫= f) Q.
Proof. intros Hm Hf. exact (announces_bind [] [] e l m f P Q Hm Hf). Qed.

(** The announcement itself. *)
Lemma announces_now x e {A} (m : build A) P :
  announced e = [x] -> pad_request e = None -> announces [] [] m P -> announces [x] [] (hemit e ;; m) P.
Proof.
  intros He Hp Hm. apply (announces_bind [x] [] [] [] (hemit e) (fun _ => m) (fun _ => True)); [|done].
  intros s. cbn. rewrite He, Hp. split; [done|]. exists []. rewrite !app_nil_r.
  split_and!; try done; intros ?; by rewrite elem_of_nil.
Qed.
End Announcements.

(** ** Running through a builder

    [ann] follows the steps of a builder and unfolds what it calls; the result
    of a step that makes an element is taken to be plain where that can be
    shown. *)

Create HintDb announce.

Ltac head_call t := lazymatch t with ?f _ => head_call f | _ => t end.

Ltac ann_known :=
  lazymatch goal with
  | |- announces _ _ _ (make_element _ _) plain => apply make_plain_announces; first [reflexivity | assumption]
  | |- announces _ _ _ (make_element _ _) _ => eapply announces_conv; [apply make_element_announces|reflexivity|reflexivity|done]
  | |- announces _ _ _ (ElementAdd _) _ => apply ElementAdd_announces; assumption
  | |- announces _ _ _ (ElementLink _ _) _ => apply ElementLink_announces
  | |- announces _ _ _ (SetProperty _ _ _) _ => apply SetProperty_announces
  | |- announces _ _ _ (watch_src _ _ _) _ => apply watch_src_announces
  | |- announces _ _ _ (watch_sink _ _ _) _ => apply watch_sink_announces
  | |- announces _ _ _ (hemit _) _ => apply announces_emit; reflexivity
  | |- announces _ _ _ (hlift (Abort _)) _ => apply announces_throw_lift
  | |- announces _ _ _ (hlift _) _ => apply announces_lift
  end.

Ltac ann :=
  cbv beta zeta;
  lazymatch goal with
  | |- announces _ _ _ (mret _) _ => apply announces_ret; first [exact I | assumption]
  | |- announces _ _ _ (_ ≫= _) _ => ann_bind
  | |- announces _ _ _ (match ?x with _ => _ end) _ => destruct x; ann
  | |- announces _ _ _ (hact_iter _ _) _ => apply announces_iter; intros; ann
  | |- _ =>
      first [ assumption
            | solve [auto with nocore announce]
            | ann_known
            | lazymatch goal with |- announces _ _ _ ?m _ => let h := head_call m in unfold h; ann end ]
  end
with ann_bind :=
  lazymatch goal with
  | |- announces _ _ _ (@mbind _ _ element _ _ _) _ =>
      first [ eapply announces_step with (P := plain); [solve [ann]|intros ? ?; ann]
            | eapply announces_step with (P := fun _ => True); [ann|intros ? ?; ann] ]
  | |- _ => eapply announces_step with (P := fun _ => True); [ann|intros ? ?; ann]
  end.

Section Makers.
Context `{JsonC} `{UrlLib} `{PathLib} `{GstLib} `{!GstLibOk} (allowed : announcement -> bool).

Lemma class_of_name_in classes name el : class_of_name classes name = Some el -> el ∈ classes.
Proof.
  induction classes as [|c l IH]; [done|]. cbn. destruct (String.eqb _ _); [intros [= ->]; by left|]. intros Hc. right. auto.
Qed.

Lemma make_named_plain classes name n what :
  (forall el, el ∈ classes -> kind_of el = None) ->
  announces allowed [] [] (match class_of_name classes name with
                           | Some el => make_element el n | None => hlift (Abort (NotReached what)) end) plain.
Proof.
  intros Hk. destruct (class_of_name classes name) as [el|] eqn:Hc; [|apply announces_throw_lift].
  apply make_plain_announces, Hk. by eapply class_of_name_in.
Qed.

Lemma make_src_plain uri i t : announces allowed [] [] (make_src uri i t) plain.
Proof. ann. Qed.
Lemma build_output_plain now o i v : announces allowed [] [] (build_output now o i v) plain.
Proof. ann. Qed.
Lemma make_muxer_plain scheme i : announces allowed [] [] (make_muxer scheme i) plain.
Proof. ann. Qed.
Lemma make_audio_parser_plain parser name : announces allowed [] [] (make_audio_parser parser name) plain.
Proof. apply make_named_plain. intros el. rewrite !elem_of_cons, elem_of_nil. naive_solver. Qed.
Lemma make_video_parser_plain parser name : announces allowed [] [] (make_video_parser parser name) plain.
Proof. apply make_named_plain. intros el. rewrite !elem_of_cons, elem_of_nil. naive_solver. Qed.
Lemma make_video_encoder_plain codec name : announces allowed [] [] (make_video_encoder codec name) plain.
Proof.
  apply make_named_plain. intros el. unfold video_encoder_classes. rewrite !elem_of_cons, elem_of_nil. naive_solver.
Qed.
Lemma make_audio_encoder_plain codec name rate : announces allowed [] [] (make_audio_encoder codec name rate) plain.
Proof. ann. Qed.
#[local] Hint Resolve make_src_plain build_output_plain make_muxer_plain make_audio_parser_plain make_video_parser_plain
  make_video_encoder_plain make_audio_encoder_plain : announce.

Lemma setup_encoder_params_announces m el : announces allowed [] [] (setup_encoder_params m el) (fun _ => True).
Proof. ann. Qed.
Lemma build_fold_announces {A} (f : element -> A -> build element) last l :
  (forall e x, announces allowed [] [] (f e x) (fun _ => True)) -> announces allowed [] [] (build_fold f last l) (fun _ => True).
Proof.
  intros Hf. revert last. induction l as [|x l IH]; intros last; [by apply announces_ret|]. cbn [build_fold].
  eapply announces_step; [apply Hf|]. intros e _. apply IH.
Qed.
Lemma setup_encoder_str_params_announces m el i : announces allowed [] [] (setup_encoder_str_params m el i) (fun _ => True).
Proof. apply build_fold_announces. intros e x. ann. Qed.
#[local] Hint Resolve setup_encoder_params_announces setup_encoder_str_params_announces : announce.

Lemma build_video_encoder_announces c r a sa i : announces allowed [] [] (build_video_encoder c r a sa i) (fun _ => True).
Proof. ann. Qed.
Lemma build_audio_converters_announces v n i : announces allowed [] [] (build_audio_converters v n i) (fun _ => True).
Proof. ann. Qed.
Lemma build_video_convert_announces d i : announces allowed [] [] (build_video_convert d i) (fun _ => True).
Proof. ann. Qed.
#[local] Hint Resolve build_video_encoder_announces build_audio_converters_announces build_video_convert_announces : announce.

(** ** The builders *)

Section Inputs.
Context (Hdec : allowed Decodebin = true).

Lemma SrcDecode_BuildInput_announces src :
  announces allowed [] [] src (fun _ => True) -> announces allowed [] [] (SrcDecode_BuildInput src) (fun _ => True).
Proof.
  intros Hsrc. unfold SrcDecode_BuildInput. eapply announces_step; [exact Hsrc|]. intros s _.
  eapply announces_step; [apply make_element_announces|]. intros d [Hd _].
  apply (announced_segment _ Decodebin); [by rewrite Hd|done|].
  eapply announces_step; [apply ElementLink_announces|]. intros _ _. apply announces_now; [done..|]. by apply announces_ret.
Qed.
End Inputs.

Lemma Playlist_BuildInputSrc_announces :
  allowed AppSrc = true -> announces allowed [] [] Playlist_BuildInputSrc (fun _ => True).
Proof.
  intros Ha. unfold Playlist_BuildInputSrc. eapply announces_step; [apply make_element_announces|]. intros src [Hs _].
  eapply announces_step; [apply watch_src_announces|]. intros _ _.
  apply (announced_segment _ AppSrc); [by rewrite Hs|done|]. apply announces_now; [done..|]. by apply announces_ret.
Qed.

(** The recorder requests its pads when the sink is announced. *)
Lemma HandleSplitmuxsinkCreated_announces conn sink :
  el_name sink = SPLIT_SINK_NAME_1U 0 ->
  announces allowed [(SplitMuxSink, sink)] [] (HandleSplitmuxsinkCreated conn sink) (fun _ => True).
Proof.
  intros Hn s. unfold HandleSplitmuxsinkCreated, link_splitmuxsink, link_to_multiplexer, deref.
  unfold mbind, hact_bind, hemit, hlift, mret, hact_ret.
  destruct (conn_audio conn) as [a|]; [|done]. destruct (conn_video conn) as [v|];
    [|by destruct (StaticPad a "src"), (RequestPad sink "audio_%u")].
  destruct (StaticPad a "src"), (RequestPad sink "audio_%u"), (StaticPad v "src"), (RequestPad sink "video"); cbn;
    (split; [done|]; exists []; rewrite app_nil_r; split_and!; try done; intros x;
     rewrite ?elem_of_cons, ?elem_of_nil; naive_solver).
Qed.

Lemma TimeShiftRecorder_BuildOutput_announces tconf conn :
  allowed SplitMuxSink = true -> announces allowed [] [] (TimeShiftRecorder_BuildOutput tconf conn) (fun _ => True).
Proof.
  intros Ha. unfold TimeShiftRecorder_BuildOutput. eapply announces_step; [apply make_element_announces|]. intros sink [Hs Hn].
  apply (announced_segment _ SplitMuxSink); [by rewrite Hs|done|].
  do 4 (eapply announces_step with (P := fun _ => True); [ann|intros ? _]).
  apply (announces_bind _ [(SplitMuxSink, sink)] [] [] []) with (P := fun _ => True);
    [by apply HandleSplitmuxsinkCreated_announces|]. intros _ _. by apply announces_ret.
Qed.

Lemma SrcDecode_BuildInputSrc_announces c : announces allowed [] [] (SrcDecode_BuildInputSrc c) (fun _ => True).
Proof. ann. Qed.
Lemma SrcDecode_BuildOutput_announces now c v a conn : announces allowed [] [] (SrcDecode_BuildOutput now c v a conn) (fun _ => True).
Proof. ann. Qed.
Lemma Encoding_BuildVideoPostProc_announces c i : announces allowed [] [] (Encoding_BuildVideoPostProc c i) (fun _ => True).
Proof. ann. Qed.
Lemma Encoding_BuildAudioConverter_announces c i : announces allowed [] [] (Encoding_BuildAudioConverter c i) (fun _ => True).
Proof. ann. Qed.
#[local] Hint Resolve SrcDecode_BuildInputSrc_announces SrcDecode_BuildOutput_announces
  Encoding_BuildVideoPostProc_announces Encoding_BuildAudioConverter_announces : announce.

Section Decoded.
Context (Hdec : allowed Decodebin = true).
#[local] Hint Resolve SrcDecode_BuildInput_announces : announce.

(** What of the steps of [InitPipeline] is left of a class. *)
Lemma InitPipeline_announces b :
  announces allowed [] [] (BuildInput b) (fun _ => True) ->
  (forall conn, announces allowed [] [] (BuildUdbConnections b conn) (fun _ => True)) ->
  (forall conn, announces allowed [] [] (BuildPostProc b conn) (fun _ => True)) ->
  (forall conn, announces allowed [] [] (BuildConverter b conn) (fun _ => True)) ->
  (forall conn, announces allowed [] [] (BuildOutput b conn) (fun _ => True)) ->
  announces allowed [] [] (InitPipeline b) (fun _ => True).
Proof.
  intros H1' H2' H3' H4' H5'. unfold InitPipeline.
  do 5 (eapply announces_step with (P := fun _ => True); [auto|intros ? _]). by apply announces_ret.
Qed.

Definition known_lines (config : EncodingConfig) : list encoding_lines :=
  [encoding_lines_all config; encoding_lines_only_audio config; encoding_lines_only_video config].

Lemma encoding_lines_announces config l conn :
  l ∈ known_lines config ->
  announces allowed [] [] (Encoding_BuildPostProc config l conn) (fun _ => True) /\
  announces allowed [] [] (Encoding_BuildConverter config l conn) (fun _ => True).
Proof.
  unfold known_lines. rewrite !elem_of_cons, elem_of_nil. intros Hl.
  unfold Encoding_BuildPostProc, Encoding_BuildConverter, Encoding_video_converter, Encoding_audio_converter.
  destruct Hl as [->|[->|[->|[]]]]; unfold encoding_lines_all, encoding_lines_only_audio, encoding_lines_only_video;
    cbn [BuildVideoPostProc BuildAudioPostProc BuildVideoConverter BuildAudioConverter]; split; ann.
Qed.

Lemma encoding_steps_announces now config l (input : build Connector) udb :
  l ∈ known_lines config ->
  announces allowed [] [] input (fun _ => True) -> (forall conn, announces allowed [] [] (udb conn) (fun _ => True)) ->
  announces allowed [] [] (InitPipeline {| BuildInput := input; BuildUdbConnections := udb;
    BuildPostProc := Encoding_BuildPostProc config l; BuildConverter := Encoding_BuildConverter config l;
    BuildOutput := SrcDecode_BuildOutput now (e_base config)
      (Encoding_GetVideoCodecType config) (Encoding_GetAudioCodecType config) |}) (fun _ => True).
Proof.
  intros Hl Hi Hu. apply InitPipeline_announces; cbn [BuildInput BuildUdbConnections BuildPostProc BuildConverter BuildOutput];
    [done|done| | |intros conn; apply SrcDecode_BuildOutput_announces].
  - intros conn. by apply encoding_lines_announces.
  - intros conn. by apply encoding_lines_announces.
Qed.

Lemma encoding_builder_announces now config l src :
  l ∈ known_lines config -> announces allowed [] [] src (fun _ => True) ->
  announces allowed [] [] (InitPipeline (encoding_builder now config l src)) (fun _ => True).
Proof.
  intros Hl Hsrc. apply encoding_steps_announces; [done|by apply SrcDecode_BuildInput_announces|intros conn; ann].
Qed.

Lemma relay_builder_announces config src converter output :
  announces allowed [] [] src (fun _ => True) ->
  (forall conn, announces allowed [] [] (converter conn) (fun _ => True)) ->
  (forall conn, announces allowed [] [] (output conn) (fun _ => True)) ->
  announces allowed [] [] (InitPipeline (relay_builder config src converter output)) (fun _ => True).
Proof.
  intros Hsrc Hc Ho. apply InitPipeline_announces; cbn; [by apply SrcDecode_BuildInput_announces| | |done|done]; intros conn; ann.
Qed.

(** *** The mosaic *)

Lemma mosaic_input_announces config vmix amix rows cols r c i :
  announces allowed [] [] (mosaic_input config vmix amix rows cols r c i) (fun _ => True).
Proof.
  unfold mosaic_input. eapply announces_step with (P := fun _ => True); [ann|]. intros uri _.
  eapply announces_step; [apply make_src_plain|]. intros src Hs.
  eapply announces_step; [apply watch_src_announces|]. intros _ _.
  eapply announces_step; [by apply ElementAdd_announces|]. intros _ _.
  eapply announces_step; [apply make_element_announces|]. intros d [Hd _].
  apply (announced_segment _ Decodebin); [by rewrite Hd|done|].
  eapply announces_step; [apply ElementLink_announces|]. intros _ _. apply announces_now; [done..|]. ann.
Qed.

Lemma mosaic_cols_announces cell sz cs i :
  (forall c i, announces allowed [] [] (cell c i) (fun _ => True)) ->
  announces allowed [] [] (mosaic_cols cell sz cs i) (fun _ => True).
Proof.
  intros Hc. revert i. induction cs as [|c cs IH]; intros i; cbn [mosaic_cols]; [by apply announces_ret|].
  eapply announces_step; [apply Hc|]. intros st _. cbv zeta. case_match; [by apply announces_ret|].
  eapply announces_step; [apply IH|]. intros [? ?] _. by apply announces_ret.
Qed.

Lemma mosaic_rows_announces cell sz cols rs i :
  (forall r c i, announces allowed [] [] (cell r c i) (fun _ => True)) ->
  announces allowed [] [] (mosaic_rows cell sz cols rs i) (fun _ => True).
Proof.
  intros Hc. revert i. induction rs as [|r rs IH]; intros i; cbn [mosaic_rows]; [by apply announces_ret|].
  eapply announces_step; [by apply mosaic_cols_announces|]. intros [? ?] _.
  eapply announces_step; [apply IH|]. intros ? _. by apply announces_ret.
Qed.

Lemma mosaic_inputs_announces config rows cols :
  announces allowed [] [] (mosaic_inputs config rows cols) (fun _ => True).
Proof.
  unfold mosaic_inputs. eapply announces_step; [by apply make_plain_announces|]. intros vmix Hv.
  eapply announces_step; [by apply ElementAdd_announces|]. intros _ _.
  eapply announces_step; [by apply make_plain_announces|]. intros amix Hm.
  eapply announces_step; [by apply ElementAdd_announces|]. intros _ _.
  eapply announces_step; [apply mosaic_rows_announces; intros; apply mosaic_input_announces|]. intros ? _. by apply announces_ret.
Qed.

Lemma mosaic_video_line_announces config options v :
  allowed CairoOverlay = true -> announces allowed [] [] (mosaic_video_line config options v) (fun _ => True).
Proof.
  intros Ha. unfold mosaic_video_line. eapply announces_step; [apply make_element_announces|]. intros cairo [Hc _].
  apply (announced_segment _ CairoOverlay); [by rewrite Hc|done|].
  eapply announces_step; [apply ElementLink_announces|]. intros _ _. apply announces_now; [done..|]. ann.
Qed.

Lemma Mosaic_BuildOutput_announces now config v a : announces allowed [] [] (Mosaic_BuildOutput now config v a) (fun _ => True).
Proof. ann. Qed.

Lemma Mosaic_InitPipeline_announces now config :
  allowed CairoOverlay = true -> announces allowed [] [] (Mosaic_InitPipeline now config) (fun _ => True).
Proof.
  intros Ha. unfold Mosaic_InitPipeline. destruct (mosaic_grid _) as [[rows cols]|]; [|by apply announces_ret].
  eapply announces_step; [apply mosaic_inputs_announces|]. intros [[vmix amix] options] _.
  eapply announces_step with (P := fun _ => True).
  { unfold map_conn. eapply announces_step with (P := fun _ => True); [|intros ? _; unfold mosaic_audio_line; ann].
    destruct (av_have_video _); [|by apply announces_ret].
    eapply announces_step; [by apply mosaic_video_line_announces|]. intros ? _. by apply announces_ret. }
  intros conn _. eapply announces_step; [apply Mosaic_BuildOutput_announces|]. intros _ _. by apply announces_ret.
Qed.
End Decoded.
End Makers.

(** ** Every class *)

(** What a stream of the class is told of. *)
Definition listens (cls : stream_class) (k : announcement) : bool :=
  match k with
  | Decodebin => true
  | CairoOverlay => is_a cls IMosaic
  | AppSrc => is_a cls IPlaylistRelay || is_a cls IPlaylistEncoding
  | SplitMuxSink => is_a cls ITimeShiftRecorder
  end.

Section Classes.
Context `{JsonC} `{UrlLib} `{PathLib} `{GstLib} `{!GstLibOk}.

Section OneClass.
Context (cls : stream_class).
#[local] Abbreviation told m := (announces (listens cls) [] [] m (fun _ => True)).

Lemma relay_told config src output :
  told src -> (forall conn, told (output conn)) -> told (InitPipeline (relay_builder config src (Relay_BuildConverter config) output)).
Proof. intros Hs Ho. apply relay_builder_announces; [done|done| |done]. intros conn. unfold Relay_BuildConverter. ann. Qed.

Lemma relay_output_told now config conn : told (Relay_BuildOutput now config conn).
Proof. apply SrcDecode_BuildOutput_announces. Qed.

Lemma recorder_told config : is_a cls ITimeShiftRecorder = true -> told (InitPipeline (TimeShiftRecorderStreamBuilder config)).
Proof.
  intros Hr. apply relay_builder_announces; [done|apply SrcDecode_BuildInputSrc_announces|intros conn; by apply announces_ret|].
  intros conn. by apply TimeShiftRecorder_BuildOutput_announces.
Qed.
End OneClass.

Lemma CreateBuilder_announces now dir start cls c builder :
  CreateBuilder now dir start cls c = Ok builder -> announces (listens cls) [] [] builder (fun _ => True).
Proof.
  destruct cls; intros (x & _ & [= <-])%outcome_bind_Ok.
  - apply relay_told; [by apply Playlist_BuildInputSrc_announces|intros; apply relay_output_told].
  - apply relay_told; [apply SrcDecode_BuildInputSrc_announces|intros; apply relay_output_told].
  - apply encoding_builder_announces; [done|unfold known_lines; rewrite !elem_of_cons; tauto|by apply Playlist_BuildInputSrc_announces].
  - by apply Mosaic_InitPipeline_announces.
  - apply encoding_steps_announces; [unfold known_lines; rewrite !elem_of_cons; tauto|unfold TestInput_BuildInput, test_sources; ann|intros; by apply announces_ret].
  - apply encoding_steps_announces; [unfold known_lines; rewrite !elem_of_cons; tauto|unfold Device_BuildInput; ann|intros; ann].
  - apply encoding_builder_announces; [done|unfold known_lines; rewrite !elem_of_cons; tauto|apply SrcDecode_BuildInputSrc_announces].
  - apply encoding_builder_announces; [done|unfold known_lines; rewrite !elem_of_cons; tauto|apply SrcDecode_BuildInputSrc_announces].
  - apply encoding_builder_announces; [done|unfold known_lines; rewrite !elem_of_cons; tauto|apply SrcDecode_BuildInputSrc_announces].
  - apply relay_told; [unfold TimeShiftPlayer_BuildInputSrc; ann|intros; apply relay_output_told].
  - by apply recorder_told.
  - by apply recorder_told.
  - apply relay_told; [apply SrcDecode_BuildInputSrc_announces|intros; unfold TestLife_BuildTestOutput; ann].
  - apply relay_told; [apply SrcDecode_BuildInputSrc_announces|intros; apply relay_output_told].
  - apply encoding_builder_announces; [done|unfold known_lines; rewrite !elem_of_cons; tauto|apply SrcDecode_BuildInputSrc_announces].
Qed.
End Classes.

(** ** How the signals are connected *)

(** What is connected with an element of a kind: the signals and the functions. *)
Definition wiring (cls : stream_class) (k : announcement) : list (string * callback) :=
  match k with
  | Decodebin =>
      if is_a cls IMosaic then
        [("pad-added", Mosaic_decodebin_pad_added_callback); ("autoplug-continue", Mosaic_decodebin_autoplugger_callback);
         ("autoplug-sort", Mosaic_decodebin_autoplug_sort_callback); ("element-added", Mosaic_decodebin_element_added_callback)]
      else
        [("pad-added", SrcDecodeBin_decodebin_pad_added_callback); ("autoplug-continue", SrcDecodeBin_decodebin_autoplugger_callback);
         ("autoplug-select", SrcDecodeBin_decodebin_autoplug_select_callback);
         ("autoplug-sort", SrcDecodeBin_decodebin_autoplug_sort_callback);
         ("element-added", SrcDecodeBin_decodebin_element_added_callback);
         ("element-removed", SrcDecodeBin_decodebin_element_removed_callback)]
  | CairoOverlay => [("draw", Mosaic_cairo_draw_callback)]
  | AppSrc => [("need-data", if is_a cls IPlaylistRelay then PlaylistRelay_need_data_callback else PlaylistEncoding_need_data_callback)]
  | SplitMuxSink => [("format-location-full", TimeShiftRecorder_path_setter_full_callback)]
  end.

(** The method that is to be called for a signal of an element. *)
Definition handles (cls : stream_class) (t : SupportedElements) (signal : string) : option method :=
  let mosaic := is_a cls IMosaic in
  match kind_of t with
  | Some Decodebin =>
      if decide (signal = "pad-added") then Some HandleDecodeBinPadAdded
      else if decide (signal = "autoplug-continue") then Some HandleDecodeBinAutoplugger
      else if decide (signal = "autoplug-sort") then Some HandleAutoplugSort
      else if decide (signal = "autoplug-select") then if mosaic then None else Some HandleAutoplugSelect
      else if decide (signal = "element-added") then Some (if mosaic then HandleElementAdded else HandleDecodeBinElementAdded)
      else if decide (signal = "element-removed") then if mosaic then None else Some HandleDecodeBinElementRemoved
      else None
  | Some CairoOverlay => if decide (signal = "draw") then Some HandleCairoDraw else None
  | Some AppSrc => if decide (signal = "need-data") then Some HandleNeedData else None
  | Some SplitMuxSink => if decide (signal = "format-location-full") then Some OnPathSet else None
  | None => None
  end.

Lemma one_decodebin_class cls : is_a cls ISrcDecodeBin = negb (is_a cls IMosaic).
Proof. by destruct cls. Qed.

(** The casts of the callbacks fit, and they call these methods. *)
Lemma wiring_handles cls t k this signal :
  kind_of t = Some k -> listens cls k = true ->
  (fun x => call_callback x.2 cls this) <$> filter (fun x => x.1 = signal) (wiring cls k) =
  match handles cls t signal with Some m => [Ok (this, m)] | None => [] end.
Proof.
  intros Hk Hl. unfold handles. rewrite Hk. clear Hk t. pose proof (one_decodebin_class cls) as Hd.
  destruct k; cbn [listens] in Hl; unfold wiring;
    [destruct (is_a cls IMosaic) eqn:Hm| |destruct (is_a cls IPlaylistRelay) eqn:Hm|]; cbn [orb] in Hl;
    rewrite ?filter_cons, ?filter_nil; cbn [fst]; repeat (case_decide; subst; try congruence);
    cbn [fmap list_fmap snd call_callback]; try reflexivity; do 2 f_equal;
    match goal with |- ?f _ _ = _ => unfold f, cast_and_call end; by rewrite ?Hd, ?Hl, ?Hm.
Qed.

(** *** Worlds

    What the announcements of a pipeline add to a world. *)

(** The signals that GStreamer documents for these elements; a signal of another
    name may be there or not. *)
Class SignalLibOk `{SignalLib} := {
  g_has_signal_ok cls t k x : kind_of t = Some k -> x ∈ wiring cls k -> g_has_signal t x.1 = true
}.

(** GLib and the [Element] objects agree about the connections. *)
Record signals_ok (w : signal_world) : Prop := {
  so_next : (0 < sw_next w)%Z;
  so_signals : sw_signals w = (fun c => (cn_instance c, cn_id c)) <$> sw_connections w;
  so_ids : NoDup (cn_id <$> sw_connections w);
  so_below : forall c, c ∈ sw_connections w -> (cn_id c < sw_next w)%Z
}.

(** No signal of the stream's elements is connected, and no pad requested. *)
Definition untouched (this : nat) (w : signal_world) : Prop :=
  (forall c, c ∈ sw_connections w -> (cn_instance c).1 <> this) /\ (forall x, x ∈ sw_pads w -> x.1.1 <> this).

(** An element, the signal, and what is called. *)
Abbreviation hook := (element * (string * callback))%type.

Fixpoint numbered (this : nat) (n : Z) (hooks : list hook) : list connection :=
  match hooks with
  | [] => []
  | x :: hooks' => {| cn_id := n; cn_instance := (this, x.1); cn_signal := x.2.1; cn_callback := x.2.2; cn_data := this |}
                     :: numbered this (n + 1) hooks'
  end.

Definition grow (this : nat) (hooks : list hook) (pads : list (element * string)) (w : signal_world) : signal_world :=
  let new := numbered this (sw_next w) hooks in
  {| sw_next := sw_next w + Z.of_nat (length hooks);
     sw_connections := sw_connections w ++ new;
     sw_signals := sw_signals w ++ ((fun c => (cn_instance c, cn_id c)) <$> new);
     sw_pads := sw_pads w ++ ((fun x => (this, x.1, x.2)) <$> pads) |}.

Lemma numbered_app this n h1 h2 : numbered this n (h1 ++ h2) = numbered this n h1 ++ numbered this (n + Z.of_nat (length h1)) h2.
Proof.
  revert n. induction h1 as [|x h1 IH]; intros n; [cbn; by rewrite Z.add_0_r|].
  cbn [app numbered length]. rewrite IH. do 3 f_equal. lia.
Qed.

Lemma numbered_in this n hooks c :
  c ∈ numbered this n hooks ->
  (n <= cn_id c < n + Z.of_nat (length hooks))%Z /\ cn_data c = this /\
  exists x, x ∈ hooks /\ cn_instance c = (this, x.1) /\ cn_signal c = x.2.1 /\ cn_callback c = x.2.2.
Proof.
  revert n. induction hooks as [|x hooks IH]; intros n; cbn [numbered length]; [by rewrite elem_of_nil|].
  intros [->|Hc]%elem_of_cons.
  - cbn. split_and!; [lia..|done|]. exists x. split; [by left|done].
  - destruct (IH _ Hc) as (? & ? & y & ? & ?). split_and!; [lia..|done|]. exists y. split; [by right|done].
Qed.

Lemma numbered_ids this n hooks : NoDup (cn_id <$> numbered this n hooks).
Proof.
  revert n. induction hooks as [|x hooks IH]; intros n; [constructor|]. cbn. constructor; [|apply IH].
  intros (c & Heq & Hc)%list_elem_of_fmap. apply numbered_in in Hc as (? & _). lia.
Qed.

Lemma grow_app this h1 p1 h2 p2 w : grow this h2 p2 (grow this h1 p1 w) = grow this (h1 ++ h2) (p1 ++ p2) w.
Proof.
  unfold grow. cbn [sw_next sw_connections sw_signals sw_pads].
  rewrite length_app, numbered_app, !fmap_app, !app_assoc. f_equal. lia.
Qed.

Lemma grow_nil this w : grow this [] [] w = w.
Proof. destruct w. unfold grow. cbn. by rewrite !app_nil_r, Z.add_0_r. Qed.

Lemma grow_ok this hooks pads w : signals_ok w -> signals_ok (grow this hooks pads w).
Proof.
  intros [Hn Hs Hi Hb]. constructor; cbn [grow sw_next sw_signals sw_connections].
  - lia.
  - by rewrite Hs, fmap_app.
  - rewrite fmap_app. apply NoDup_app. split_and!; [done| |apply numbered_ids].
    intros id (c & -> & Hc)%list_elem_of_fmap (d & Heq & Hd)%list_elem_of_fmap.
    apply numbered_in in Hd as (? & _). specialize (Hb c Hc). lia.
  - intros c [Hc|Hc]%elem_of_app; [specialize (Hb c Hc); lia|]. apply numbered_in in Hc as (? & _). lia.
Qed.

(** What an event of a builder adds. *)
Definition event_hooks (cls : stream_class) (e : build_event) : list hook :=
  x ← announced e; pair x.2 <$> wiring cls x.1.
Definition event_pads (e : build_event) : list (element * string) :=
  match e with OnPadLinked _ sink pad => [(sink, pad)] | _ => [] end.

Section Worlds.
Context `{SignalLib}.

Lemma RegisterCallback_run this el signal cb w :
  (0 < sw_next w)%Z -> el_valid el = true -> g_has_signal (el_type el) signal = true ->
  RegisterCallback (this, el) signal cb this w = (Ok true, grow this [(el, (signal, cb))] [] w, []).
Proof.
  intros Hn Hv Hs. unfold RegisterCallback, g_signal_connect. cbn [snd]. rewrite Hv, Hs. cbn [andb].
  unfold mbind, hact_bind, hgets, hmodify, mret, hact_ret. cbn beta iota.
  rewrite (proj2 (Z.eqb_neq (sw_next w) 0)) by lia. cbn. unfold grow, set_signals, set_connections. cbn.
  by rewrite app_nil_r.
Qed.

(** A sequence of registrations whose results nobody looks at. *)
Fixpoint register_all (this : nat) (el : element) (l : list (string * callback)) : sig unit :=
  match l with
  | [] => mret tt
  | x :: l' => RegisterCallback (this, el) x.1 x.2 this ;; register_all this el l'
  end.

Lemma register_all_run this el l w :
  (0 < sw_next w)%Z -> el_valid el = true -> (forall x, x ∈ l -> g_has_signal (el_type el) x.1 = true) ->
  register_all this el l w = (Ok tt, grow this (pair el <$> l) [] w, []).
Proof.
  intros Hn Hv. revert w Hn. induction l as [|[signal cb] l IH]; intros w Hn Hl; [cbn; by rewrite grow_nil|].
  cbn [register_all fst snd]. unfold mbind, hact_bind. rewrite RegisterCallback_run; [|done|done|apply (Hl (signal, cb)); by left].
  rewrite IH by (first [intros y Hy; apply Hl; by right | cbn; lia]). by rewrite grow_app.
Qed.

Context `{!SignalLibOk}.

Lemma on_created_run cls this e w :
  (0 < sw_next w)%Z ->
  (forall x, x ∈ announced e -> listens cls x.1 = true /\ kind_of (el_type x.2) = Some x.1 /\ el_valid x.2 = true) ->
  on_created cls this e w = (Ok tt, grow this (event_hooks cls e) (event_pads e) w, []).
Proof.
  intros Hn He.
  assert (Hwire : forall k el, announced e = [(k, el)] -> event_pads e = [] ->
    register_all this el (wiring cls k) w = (Ok tt, grow this (event_hooks cls e) (event_pads e) w, [])).
  { intros k el Ha Hp. destruct (He (k, el)) as (_ & Hk & Hv); [rewrite Ha; by left|]. cbn in Hk, Hv.
    rewrite register_all_run by first [done | intros x Hx; by apply (g_has_signal_ok cls _ k)].
    unfold event_hooks. rewrite Ha, Hp. cbn. by rewrite app_nil_r. }
  destruct e; try (cbn; by rewrite grow_nil).
  - specialize (Hwire Decodebin el eq_refl eq_refl). rewrite <-Hwire. cbn [on_created].
    unfold wiring. by destruct (is_a cls IMosaic).
  - specialize (Hwire CairoOverlay el eq_refl eq_refl). rewrite <-Hwire. cbn [on_created].
    destruct (He (CairoOverlay, el)) as (Hl & _); [by left|]. cbn in Hl. by rewrite Hl.
  - specialize (Hwire AppSrc el eq_refl eq_refl). rewrite <-Hwire. cbn [on_created wiring].
    destruct (He (AppSrc, el)) as (Hl & _); [by left|]. cbn in Hl.
    destruct (is_a cls IPlaylistRelay); [done|]. cbn [orb] in Hl. by rewrite Hl.
  - specialize (Hwire SplitMuxSink el eq_refl eq_refl). rewrite <-Hwire. cbn [on_created].
    destruct (He (SplitMuxSink, el)) as (Hl & _); [by left|]. cbn in Hl. by rewrite Hl.
  - unfold on_created, pad_requested, hmodify, grow. cbn. by rewrite Z.add_0_r, !app_nil_r.
Qed.

Lemma builder_run cls this es w :
  (0 < sw_next w)%Z ->
  (forall x, x ∈ es ≫= announced -> listens cls x.1 = true /\ kind_of (el_type x.2) = Some x.1 /\ el_valid x.2 = true) ->
  hact_iter (on_created cls this) es w = (Ok tt, grow this (es ≫= event_hooks cls) (es ≫= event_pads) w, []).
Proof.
  intros Hn. revert w Hn. induction es as [|e es IH]; intros w Hn He; [cbn; by rewrite grow_nil|].
  cbn [hact_iter]. unfold mbind at 1, hact_bind. rewrite on_created_run; [|done|intros x Hx; apply He; cbn; set_solver].
  rewrite IH by (first [cbn; lia | intros x Hx; apply He; cbn; set_solver]). by rewrite grow_app.
Qed.
End Worlds.

(** *** Elements that go *)

(** A world without the connections of some instances. *)
Definition without (gone : nat * element -> bool) (w : signal_world) : signal_world :=
  {| sw_next := sw_next w;
     sw_connections := filter (fun c => gone (cn_instance c) = false) (sw_connections w);
     sw_signals := filter (fun x => gone x.1 = false) (sw_signals w);
     sw_pads := sw_pads w |}.

Lemma without_ext g1 g2 w : (forall x, g1 x = g2 x) -> without g1 w = without g2 w.
Proof. intros Hg. unfold without. f_equal; apply list_filter_iff; intros x; by rewrite Hg. Qed.

Lemma without_none w : without (fun _ => false) w = w.
Proof. destruct w. unfold without. cbn. by rewrite !filter_every. Qed.

Lemma without_ok gone w : signals_ok w -> signals_ok (without gone w).
Proof.
  intros [Hn Hs Hi Hb]. constructor; cbn [without sw_next sw_signals sw_connections]; [done| | |].
  - rewrite Hs. by rewrite filter_fmap.
  - eapply sublist_NoDup; [exact Hi|]. apply fmap_sublist, sublist_filter.
  - intros c Hc%list_elem_of_filter. apply Hb. tauto.
Qed.

Lemma without_without g1 g2 w : without g2 (without g1 w) = without (fun x => g1 x || g2 x) w.
Proof.
  unfold without. cbn [sw_next sw_signals sw_connections sw_pads]. rewrite !list_filter_filter. f_equal;
    apply list_filter_iff; intros x; cbn; rewrite orb_false_iff; tauto.
Qed.

Lemma disconnect_run el ids w :
  NoDup ids -> (forall id, id ∈ ids -> exists c, c ∈ sw_connections w /\ cn_id c = id /\ cn_instance c = el) ->
  hact_iter (fun x => UnRegisterCallback el x.2) (pair el <$> ids) w =
  (Ok tt, set_connections (sw_next w) (filter (fun c => ~ (cn_id c ∈ ids /\ cn_instance c = el)) (sw_connections w)) w, []).
Proof.
  revert w. induction ids as [|id ids IH]; intros w Hd Hids.
  - cbn. rewrite filter_every; [by destruct w|]. intros c _ [[]%elem_of_nil _].
  - apply NoDup_cons in Hd as [Hnew Hd]. cbn [fmap list_fmap hact_iter snd].
    destruct (Hids id) as (c & Hc & Hid & Hel); [by left|].
    unfold mbind at 1, hact_bind, UnRegisterCallback at 1, g_signal_handler_disconnect, mbind at 1, hact_bind, hgets at 1.
    cbn beta iota.
    rewrite (proj2 (existsb_exists _ _)); [|exists c; split; [by apply list_elem_of_In|by rewrite !bool_decide_eq_true_2]].
    unfold hmodify at 1. cbn beta iota. rewrite IH; cbn [set_connections sw_next sw_connections sw_signals sw_pads]; [|done|].
    + rewrite list_filter_filter. unfold set_connections. cbn. do 3 f_equal. apply list_filter_iff. intros d.
      rewrite elem_of_cons. tauto.
    + intros id' Hin. destruct (Hids id') as (d & Hd' & Hid' & Hel'); [by right|]. exists d.
      split; [|done]. apply list_elem_of_filter. split; [|done]. intros [Heq _]. congruence.
Qed.

Lemma Element_destroy_run el w :
  signals_ok w -> Element_destroy el w = (Ok tt, without (fun x => bool_decide (x = el)) w, []).
Proof.
  intros [Hn Hs Hi Hb]. unfold Element_destroy, mbind, hact_bind, hgets. cbn beta iota.
  set (cs := filter (fun c => cn_instance c = el) (sw_connections w)).
  assert (Hl : filter (fun x => x.1 = el) (sw_signals w) = pair el <$> (cn_id <$> cs)).
  { rewrite Hs, filter_fmap. cbn [fst]. fold cs. rewrite <-list_fmap_compose. apply list_fmap_ext.
    intros i c Hc%list_elem_of_lookup_2. apply list_elem_of_filter in Hc as [<- _]. done. }
  rewrite Hl, disconnect_run; cbn beta iota.
  - unfold hmodify. cbn. unfold set_signals, set_connections, without. cbn. do 2 f_equal. f_equal;
      apply filter_iff_in; intros x Hx; rewrite bool_decide_eq_false; [|done].
    split; [|tauto]. intros Hnot Hel. apply Hnot. split; [|done]. apply list_elem_of_fmap. exists x. split; [done|].
    by apply list_elem_of_filter.
  - eapply sublist_NoDup; [exact Hi|]. apply fmap_sublist, sublist_filter.
  - intros id (c & -> & Hc)%list_elem_of_fmap. apply list_elem_of_filter in Hc as [? ?]. by exists c.
Qed.

(** Deleting the elements of a pipeline disconnects each signal of theirs once. *)
Lemma delete_elements_run this line w :
  signals_ok w ->
  IBaseStream_delete_elements this line w = (Ok tt, without (fun x => bool_decide (x ∈ pair this <$> line)) w, []).
Proof.
  intros Hw. unfold IBaseStream_delete_elements.
  assert (Hi : forall g w, signals_ok (without g w) ->
    hact_iter (fun el => Element_destroy (this, el)) line (without g w) =
    (Ok tt, without (fun x => g x || bool_decide (x ∈ pair this <$> line)) w, [])).
  { clear Hw w. induction line as [|el line IH]; intros g w Hg.
    - cbn [hact_iter]. rewrite (without_ext (fun x => g x || _) g); [done|]. intros x. apply orb_false_r.
    - cbn [hact_iter]. unfold mbind at 1, hact_bind. rewrite Element_destroy_run by done.
      pose proof (without_ok (fun x => bool_decide (x = (this, el))) _ Hg) as Hg'. rewrite without_without in Hg' |- *.
      rewrite IH by done. do 2 f_equal. apply without_ext. intros x.
      destruct (g x); [done|]. cbn [orb fmap list_fmap].
      destruct (decide (x = (this, el))) as [->|Hx].
      + rewrite (bool_decide_eq_true_2 (_ = _)) by done. by rewrite (bool_decide_eq_true_2 (_ ∈ _ :: _)) by (by left).
      + rewrite (bool_decide_eq_false_2 (x = _)) by done. apply bool_decide_ext. rewrite elem_of_cons. tauto. }
  specialize (Hi (fun _ => false) w). rewrite without_none in Hi. by rewrite Hi.
Qed.

(** *** What a pipeline has announced *)

Definition element_hooks (cls : stream_class) (el : element) : list hook :=
  x ← to_announce el; pair x.2 <$> wiring cls x.1.

Lemma emit_numbered classes this el signal n hooks :
  (fun c => call_callback (cn_callback c) (classes (cn_data c)) (cn_data c)) <$>
    filter (fun c => cn_instance c = (this, el) /\ cn_signal c = signal) (numbered this n hooks) =
  (fun x => call_callback x.2.2 (classes this) this) <$> filter (fun x => x.1 = el /\ x.2.1 = signal) hooks.
Proof.
  revert n. induction hooks as [|x hooks IH]; intros n; [done|]. cbn [numbered]. rewrite !filter_cons. cbn [cn_instance cn_signal].
  destruct (decide (x.1 = el /\ x.2.1 = signal)) as [[Hx Hs]|Hx].
  - rewrite decide_True by (by rewrite Hx). cbn. by rewrite IH.
  - rewrite decide_False by (intros [[= ?] ?]; tauto). apply IH.
Qed.

(** An announced element has the callbacks of its kind, and another has none. *)
Lemma element_hooks_handle cls this el signal :
  (forall x, x ∈ to_announce el -> listens cls x.1 = true) ->
  (fun x => call_callback x.2.2 cls this) <$> filter (fun x => x.1 = el /\ x.2.1 = signal) (element_hooks cls el) =
  match handles cls (el_type el) signal with Some m => [Ok (this, m)] | None => [] end.
Proof.
  unfold element_hooks, to_announce. destruct (kind_of (el_type el)) as [k|] eqn:Hk; intros Hl.
  - rewrite <-(wiring_handles cls _ k this signal Hk) by (apply (Hl (k, el)); by left). cbn. rewrite app_nil_r, filter_fmap.
    rewrite <-list_fmap_compose. f_equal. apply list_filter_iff. intros x. cbn. tauto.
  - unfold handles. by rewrite Hk.
Qed.

Section Callbacks.
Context `{JsonC} `{UrlLib} `{PathLib} `{GstLib} `{!GstLibOk} `{SignalLib} `{!SignalLibOk}.

(** The pipeline of a stream and what its builder has told the stream. *)
Record told_of (cls : stream_class) (line : list element) (es : list build_event) : Prop := {
  to_line : es ≫= announced ≡ₚ line ≫= to_announce;
  to_valid : forall el, el ∈ line -> el_valid el = true;
  to_listens : forall x, x ∈ line ≫= to_announce -> listens cls x.1 = true;
  to_names : NoDup (el_name <$> line);
  to_pads : forall sink, sink ∈ omap pad_request es ->
    sink ∈ line /\ el_name sink = SPLIT_SINK_NAME_1U 0 /\ is_a cls ITimeShiftRecorder = true
}.

Lemma to_announce_in (line : list element) x : x ∈ line ≫= to_announce -> x.2 ∈ line /\ kind_of (el_type x.2) = Some x.1.
Proof.
  intros (el & Hx & Hel)%list_elem_of_bind. unfold to_announce in Hx. destruct (kind_of (el_type el)) as [k|] eqn:Hk; [|set_solver].
  apply list_elem_of_singleton in Hx as ->. done.
Qed.

Lemma CreatePipeLine_told now dir start cls c builder p es :
  CreateBuilder now dir start cls c = Ok builder -> CreatePipeLine builder = (Ok (Some p), es) -> told_of cls (pl_line p) es.
Proof.
  intros Hb Hp. pose proof (CreateBuilder_announces now dir start cls c builder Hb pipeline_empty) as Ha.
  unfold CreatePipeLine in Hp. destruct (builder pipeline_empty) as [[[[]|?|?] s] es']; try discriminate Hp.
  injection Hp as <- <-. destruct Ha as (_ & added & Hl & Hes & Hv & Hk & Hn & Hq). cbn in Hl. subst added.
  rewrite app_nil_r in Hes. cbn [app] in Hes. constructor; [done..|apply Hn; constructor|].
  intros sink Hs. destruct (Hq sink Hs) as [Hin Hname]. rewrite Hes in Hin.
  split_and!; [by apply to_announce_in in Hin as [? _]|done|]. exact (Hk _ Hin).
Qed.

Lemma told_hooks cls line es : told_of cls line es -> es ≫= event_hooks cls ≡ₚ line ≫= element_hooks cls.
Proof. intros [Hl _ _ _ _]. unfold event_hooks, element_hooks. rewrite !bind_bind. by rewrite Hl. Qed.

Lemma told_emits cls line es this classes w el signal :
  told_of cls line es -> untouched this w -> classes this = cls -> el ∈ line ->
  g_signal_emit classes (this, el) signal (grow this (es ≫= event_hooks cls) (es ≫= event_pads) w) =
  match handles cls (el_type el) signal with Some m => [Ok (this, m)] | None => [] end.
Proof.
  intros Ht [Hc _] Hcls Hel. unfold g_signal_emit. cbn [grow sw_connections]. rewrite filter_app, filter_none; cbn [app].
  - rewrite emit_numbered, Hcls.
    assert (Hp : filter (fun x : hook => x.1 = el /\ x.2.1 = signal) (es ≫= event_hooks cls) ≡ₚ
                 filter (fun x : hook => x.1 = el /\ x.2.1 = signal) (element_hooks cls el)).
    { rewrite (told_hooks _ _ _ Ht). erewrite filter_one; [done|eapply NoDup_fmap_1, (to_names _ _ _ Ht)|done|].
      intros y Hy. apply filter_none. intros x (z & (b & -> & _)%list_elem_of_fmap & Hz)%list_elem_of_bind [Hx _].
      unfold to_announce in Hz. destruct (kind_of _); [|set_solver]. apply list_elem_of_singleton in Hz as ->. done. }
    apply (fmap_Permutation (fun x : hook => call_callback x.2.2 cls this)) in Hp. rewrite element_hooks_handle in Hp.
    + destruct (handles _ _ _); [by apply Permutation_singleton_r in Hp|by apply Permutation_nil_r in Hp].
    + intros x Hx. apply (to_listens _ _ _ Ht), list_elem_of_bind. by exists el.
  - intros c Hin [Hi _]. apply (Hc c Hin). by rewrite Hi.
Qed.

Lemma GetElementByName_named (line : list element) el :
  NoDup (el_name <$> line) -> el ∈ line -> GetElementByName line (el_name el) = Ok el.
Proof.
  unfold GetElementByName. induction line as [|x line IH]; intros Hd Hin; [by apply elem_of_nil in Hin|].
  apply NoDup_cons in Hd as [Hx Hd]. cbn [List.find]. destruct (String.eqb_spec (el_name x) (el_name el)) as [Heq|Hne].
  - apply elem_of_cons in Hin as [->|Hin]; [done|]. destruct Hx. rewrite Heq. by apply list_elem_of_fmap_2.
  - apply IH; [done|]. apply elem_of_cons in Hin as [->|]; done.
Qed.

Lemma GetElementByName_there (line : list element) name :
  name ∈ el_name <$> line -> exists el, GetElementByName line name = Ok el.
Proof.
  unfold GetElementByName. intros Hin. destruct (List.find _ line) as [el|] eqn:Hf; [by exists el|].
  apply list_elem_of_fmap in Hin as (el & -> & Hel). apply list_elem_of_In in Hel.
  apply (List.find_none _ _ Hf) in Hel. by rewrite String.eqb_refl in Hel.
Qed.

(** A recorder has a pipeline only with its sink. *)
Lemma recorder_has_sink now dir start cls c builder p es :
  is_a cls ITimeShiftRecorder = true ->
  CreateBuilder now dir start cls c = Ok builder -> CreatePipeLine builder = (Ok (Some p), es) ->
  exists sink, GetElementByName (pl_line p) (SPLIT_SINK_NAME_1U 0) = Ok sink.
Proof.
  intros Hr Hb Hp. apply GetElementByName_there.
  assert (exists conf, builder = InitPipeline (TimeShiftRecorderStreamBuilder conf)) as [conf ->].
  { destruct cls; try discriminate Hr; apply outcome_bind_Ok in Hb as (conf & _ & [= <-]); by exists conf. }
  pose proof (recorder_pipeline_spec conf) as Hs. cbv zeta in Hs. unfold pipeline_is in Hs. rewrite Hp in Hs. cbn [fst] in Hs.
  destruct Hs as (_ & Hn & _). unfold pl_names in Hn. rewrite Hn. rewrite !elem_of_cons. tauto.
Qed.

(** The pads of the recorder were requested of the sink that its destructor
    gets by its name. *)
Lemma destroy_pads now dir start cls c builder p es this w w' :
  CreateBuilder now dir start cls c = Ok builder -> CreatePipeLine builder = (Ok (Some p), es) ->
  untouched this w -> sw_pads w' = sw_pads w ++ ((fun x => (this, x.1, x.2)) <$> es ≫= event_pads) ->
  (if is_a cls ITimeShiftRecorder then TimeShiftRecorder_destroy this (pl_line p) else mret tt) w' =
  (Ok tt, set_pads (sw_pads w) w', []).
Proof.
  intros Hb Hp [_ Hw] Hpads. pose proof (CreatePipeLine_told _ _ _ _ _ _ _ _ Hb Hp) as Ht.
  assert (Hof : forall x, x ∈ es ≫= event_pads -> x.1 ∈ omap pad_request es).
  { intros x (e & Hx & He)%list_elem_of_bind. apply list_elem_of_omap. exists e. split; [done|].
    destruct e; set_solver. }
  destruct (is_a cls ITimeShiftRecorder) eqn:Hr.
  - destruct (recorder_has_sink _ _ _ _ _ _ _ _ Hr Hb Hp) as [sink Hs].
    unfold TimeShiftRecorder_destroy. unfold mbind, hact_bind, hlift. rewrite Hs. cbn beta iota. unfold hmodify. rewrite Hpads.
    rewrite filter_app, filter_every, filter_none; [by rewrite app_nil_r| |intros x Hx Heq; apply (Hw x Hx); by rewrite Heq].
    intros x (y & -> & Hy)%list_elem_of_fmap. cbn. destruct (to_pads _ _ _ Ht _ (Hof y Hy)) as (Hin & Hname & _).
    rewrite <-Hname, GetElementByName_named in Hs by (done || apply (to_names _ _ _ Ht)). injection Hs as ->. tauto.
  - destruct (es ≫= event_pads) as [|x l] eqn:He.
    + rewrite app_nil_r in Hpads. rewrite <-Hpads. by destruct w'.
    + exfalso. destruct (to_pads _ _ _ Ht x.1) as (_ & _ & ?); [apply Hof; by left|congruence].
Qed.

(** Without the elements of a stream a world is as it was before them. *)
Lemma grow_without this hooks pads (line : list element) w :
  signals_ok w -> untouched this w -> (forall x, x ∈ hooks -> x.1 ∈ line) ->
  let w' := without (fun x => bool_decide (x ∈ pair this <$> line)) (grow this hooks pads w) in
  sw_connections w' = sw_connections w /\ sw_signals w' = sw_signals w.
Proof.
  intros Hw [Hc _] Hh w'. assert (Hconn : sw_connections w' = sw_connections w).
  { cbn. rewrite filter_app, filter_every, filter_none; [apply app_nil_r| |].
    - intros c (_ & _ & x & Hx & -> & _)%numbered_in. rewrite bool_decide_eq_false. intros Hn. apply Hn.
      by apply list_elem_of_fmap_2, Hh.
    - intros c Hin. apply bool_decide_eq_false. intros (el & Hi & _)%list_elem_of_fmap. apply (Hc c Hin). by rewrite Hi. }
  split; [done|]. rewrite (so_signals w Hw), <-Hconn. apply so_signals, without_ok. by apply grow_ok.
Qed.

Lemma told_hooks_in cls line es x : told_of cls line es -> x ∈ es ≫= event_hooks cls -> x.1 ∈ line.
Proof.
  intros Ht. rewrite (told_hooks _ _ _ Ht).
  intros (el & (z & (b & -> & _)%list_elem_of_fmap & Hz)%list_elem_of_bind & Hel)%list_elem_of_bind.
  assert (Hz' : z ∈ line ≫= to_announce) by (apply list_elem_of_bind; by exists el). by apply to_announce_in in Hz' as [? _].
Qed.

Section OneStream.
Context (now : Z) (dir : string) (start : Z) (cls : stream_class) (c : config_object) (builder : build bool)
  (p : pipeline) (es : list build_event) (this : nat) (w : signal_world).
Hypotheses (Hb : CreateBuilder now dir start cls c = Ok builder) (Hp : CreatePipeLine builder = (Ok (Some p), es)).
Hypotheses (Hw : signals_ok w) (Hu : untouched this w).

(** The world once the pipeline has been made. *)
Definition wired : signal_world := grow this (es ≫= event_hooks cls) (es ≫= event_pads) w.

Lemma InitPipeLine_run : signals_InitPipeLine cls this builder w = (Ok (Some (pl_line p)), wired, []).
Proof.
  pose proof (CreatePipeLine_told _ _ _ _ _ _ _ _ Hb Hp) as Ht.
  unfold signals_InitPipeLine. rewrite Hp. unfold mbind, hact_bind. rewrite builder_run; [done|apply Hw|].
  intros x Hx. rewrite (to_line _ _ _ Ht) in Hx. pose proof (to_announce_in _ _ Hx) as [Hin Hk].
  split_and!; [by apply (to_listens _ _ _ Ht)|done|by apply (to_valid _ _ _ Ht)].
Qed.

Lemma destroy_run :
  exists w2, signals_destroy cls this (Some (pl_line p)) wired = (Ok tt, w2, []) /\
    sw_connections w2 = sw_connections w /\ sw_signals w2 = sw_signals w /\ sw_pads w2 = sw_pads w.
Proof.
  pose proof (CreatePipeLine_told _ _ _ _ _ _ _ _ Hb Hp) as Ht.
  destruct (grow_without this (es ≫= event_hooks cls) (es ≫= event_pads) (pl_line p) w Hw Hu) as [Hconn Hsig];
    [intros x; by apply told_hooks_in|].
  eexists. split.
  - unfold signals_destroy. change (default [] (Some (pl_line p))) with (pl_line p). unfold mbind at 1, hact_bind.
    rewrite (destroy_pads _ _ _ _ _ _ _ _ _ w wired Hb Hp Hu) by done. rewrite delete_elements_run; [done|].
    by apply (grow_ok this (es ≫= event_hooks cls) (es ≫= event_pads)) in Hw as [? ? ? ?].
  - split_and!; [exact Hconn|exact Hsig|done].
Qed.
End OneStream.

(** C7: The callbacks of a stream, whatever its class and configuration. When its
    pipeline has been made, each signal of each element calls the method of this
    stream that is meant for it, once, through casts that fit, or nothing; only
    elements of the pipeline were connected. When the stream is destroyed, every
    signal is disconnected once and every pad given back, without a complaint of
    GLib, and the connections of other streams stay as they were. *)
Theorem stream_callbacks now dir start cls c builder p es this classes w :
  CreateBuilder now dir start cls c = Ok builder -> CreatePipeLine builder = (Ok (Some p), es) ->
  signals_ok w -> untouched this w -> classes this = cls ->
  exists w1 w2,
    signals_InitPipeLine cls this builder w = (Ok (Some (pl_line p)), w1, []) /\
    (forall el signal, el ∈ pl_line p ->
       g_signal_emit classes (this, el) signal w1 =
       match handles cls (el_type el) signal with Some m => [Ok (this, m)] | None => [] end) /\
    (forall cn, cn ∈ sw_connections w1 ->
       cn ∈ sw_connections w \/ exists el, el ∈ pl_line p /\ cn_instance cn = (this, el)) /\
    signals_destroy cls this (Some (pl_line p)) w1 = (Ok tt, w2, []) /\
    sw_connections w2 = sw_connections w /\ sw_signals w2 = sw_signals w /\ sw_pads w2 = sw_pads w.
Proof.
  intros Hb Hp Hw Hu Hcls. pose proof (CreatePipeLine_told _ _ _ _ _ _ _ _ Hb Hp) as Ht.
  destruct (destroy_run _ _ _ _ _ _ _ _ _ _ Hb Hp Hw Hu) as (w2 & Hd & Hrest).
  destruct Hrest as (? & ? & ?). exists (wired cls es this w), w2. split_and!; [by eapply InitPipeLine_run| | |done..].
  - intros el signal. by apply told_emits.
  - intros cn [Hc|Hc]%elem_of_app; [by left|right].
    apply numbered_in in Hc as (_ & _ & x & Hx & Hi & _). exists x.1. split; [by eapply told_hooks_in|done].
Qed.
End Callbacks.

Section Witnesses.
#[local] Existing Instances Ref.common Ref.urls Ref.paths ref_codes RefGst.gst RefGst.gst_ok.
#[local] Instance wit_signals_json : JsonC := Ref.json_c (fun _ => None).
#[local] Instance wit_signals : SignalLib := {|
  g_has_signal t signal :=
    match kind_of t with
    | Some Decodebin => bool_decide (signal ∈ ["pad-added"; "autoplug-continue"; "autoplug-select"; "autoplug-sort";
                                               "element-added"; "element-removed"])
    | Some CairoOverlay => bool_decide (signal = "draw")
    | Some AppSrc => bool_decide (signal = "need-data")
    | Some SplitMuxSink => bool_decide (signal = "format-location-full")
    | None => false
    end
|}.

#[local] Instance wit_signals_ok : SignalLibOk.
Proof.
  constructor. intros cls t k x Hk Hx. cbn. rewrite Hk. destruct k; cbn [wiring] in Hx.
  - destruct (is_a cls IMosaic); repeat (apply elem_of_cons in Hx as [->|Hx]; [done|]); by apply elem_of_nil in Hx.
  - by apply list_elem_of_singleton in Hx as ->.
  - by apply list_elem_of_singleton in Hx as ->.
  - by apply list_elem_of_singleton in Hx as ->.
Qed.

(** Another stream has a decoder. *)
Definition wit_other : nat * element := (0, {| el_id := 0; el_type := ELEMENT_DECODEBIN; el_name := "decodebin_0"; el_valid := true |}).
Definition wit_world : signal_world :=
  {| sw_next := 5;
     sw_connections := [{| cn_id := 3; cn_instance := wit_other; cn_signal := "pad-added";
                           cn_callback := SrcDecodeBin_decodebin_pad_added_callback; cn_data := 0 |}];
     sw_signals := [(wit_other, 3%Z)]; sw_pads := [(wit_other, "audio_0")] |}.

Lemma wit_world_ok : signals_ok wit_world /\ untouched 1 wit_world.
Proof.
  split; [constructor|split]; cbn; try done.
  - apply (bool_decide_unpack _). by vm_compute.
  - by intros c ->%list_elem_of_singleton.
  - by intros c ->%list_elem_of_singleton.
  - by intros c ->%list_elem_of_singleton.
Qed.

(** A recorder. *)
Lemma stream_callbacks_witness :
  exists builder p es w1 w2,
    CreateBuilder 0 "/ts/" 0 TimeShiftRecorderStream (ObjTimeshift wit_recorder) = Ok builder /\
    CreatePipeLine builder = (Ok (Some p), es) /\ signals_ok wit_world /\ untouched 1 wit_world /\
    signals_InitPipeLine TimeShiftRecorderStream 1 builder wit_world = (Ok (Some (pl_line p)), w1, []) /\
    signals_destroy TimeShiftRecorderStream 1 (Some (pl_line p)) w1 = (Ok tt, w2, []) /\
    sw_connections w2 = sw_connections wit_world.
Proof.
  set (builder := InitPipeline (TimeShiftRecorderStreamBuilder wit_recorder)). exists builder.
  assert (Hok : match (CreatePipeLine builder).1 with Ok (Some _) => true | _ => false end = true) by (vm_compute; reflexivity).
  destruct (CreatePipeLine builder) as [[[p|]|?|?] es] eqn:Hp; try discriminate Hok.
  destruct wit_world_ok as [Hw Hu].
  destruct (stream_callbacks 0 "/ts/" 0 TimeShiftRecorderStream (ObjTimeshift wit_recorder) builder p es 1
              (fun _ => TimeShiftRecorderStream) wit_world eq_refl Hp Hw Hu eq_refl) as (w1 & w2 & Hi & _ & _ & Hd & Hc & _).
  exists p, es, w1, w2. by split_and!.
Defined.
End Witnesses.
