(* ===== verification/StreamLife.v ===== *)
(** * The life of a stream

    The constructor, [IBaseStream::Exec] and the destructor of a stream of any
    class, from the configuration to what is left when the stream is gone: the pieces of
    [BaseStream], [Streams] and [Signals] in the order of
    [src/src/stream/ibase_stream.cpp], with the virtual methods that the classes
    of [src/src/stream/streams/] override. *)

From S2P Require Import Prelude Platform StreamTypes Stats Constants Uris Options Configs Gst Elements Builders Pipelines PipelineSpec Mosaic BaseStream Streams Signals SignalSpec.

Section StreamLife.
Context `{JsonC} `{UrlLib} `{PathLib} `{UnnamedCodes} `{GstLib} `{SignalLib}.

(** A stream while it runs, the loop of its process, and what GLib has of its
    elements. *)
Record life := mk_life {
  lf_stream : stream;
  lf_loop : main_context;
  lf_signals : signal_world
}.

Inductive life_event :=
| FromStream (e : stream_event)
| FromGLib (e : glib_warning)
| PipelineCreated
| InputChanged (uri : InputUri)
| OldChunksRemoved (dir : string) (until : Z)  (* in seconds *)
| ChunksRemoved (dir : string)
| M3u8ListWritten.

#[local] Abbreviation smethod := (act stream stream_event).
Abbreviation lmethod := (hact life life_event).

(** The methods of the parts. *)
Definition in_stream {A} (m : smethod A) : lmethod A := fun l =>
  let '(a, s, es) := m (lf_stream l) in
  (Ok a, {| lf_stream := s; lf_loop := lf_loop l; lf_signals := lf_signals l |}, FromStream <$> es).
Definition in_loop {A} (m : hact main_context unit A) : lmethod A := fun l =>
  let '(r, c, _) := m (lf_loop l) in
  (r, {| lf_stream := lf_stream l; lf_loop := c; lf_signals := lf_signals l |}, []).
Definition in_signals {A} (m : sig A) : lmethod A := fun l =>
  let '(r, w, es) := m (lf_signals l) in
  (r, {| lf_stream := lf_stream l; lf_loop := lf_loop l; lf_signals := w |}, FromGLib <$> es).

(** ** The virtual methods *)

(** [input[0]] of no inputs has no defined behaviour. *)
Definition first_input_changed (config : Config) : lmethod unit :=
  match c_input config with
  | [] => hlift (Abort (UndefinedBehaviour "input[0]"))
  | uri :: _ => hemit (InputChanged uri)
  end.

(* [src/src/stream/streams/src_decodebin_stream.cpp:51-57 SrcDecodeBinStream::PreLoop] *)
Definition SrcDecodeBin_PreLoop (config : Config) : lmethod unit := first_input_changed config.
(* [src/src/stream/streams/mosaic_stream.cpp:353-359 MosaicStream::PreLoop] *)
Definition Mosaic_PreLoop (config : Config) : lmethod unit := first_input_changed config.
(* [src/src/stream/streams/relay/playlist_relay_stream.cpp:57-57 PlaylistRelayStream::PreLoop] *)
Definition PlaylistRelay_PreLoop : lmethod unit := mret tt.
(* [src/src/stream/streams/encoding/playlist_encoding_stream.cpp:56-56 PlaylistEncodingStream::PreLoop] *)
Definition PlaylistEncoding_PreLoop : lmethod unit := mret tt.

Definition PreLoop (cls : stream_class) (config : Config) : lmethod unit :=
  match cls with
  | PlaylistRelayStream => PlaylistRelay_PreLoop
  | PlaylistEncodingStream => PlaylistEncoding_PreLoop
  | MosaicStream => Mosaic_PreLoop config
  | _ => SrcDecodeBin_PreLoop config
  end.

(* [src/src/stream/streams/src_decodebin_stream.cpp:59-61 SrcDecodeBinStream::PostLoop] *)
Definition SrcDecodeBin_PostLoop : lmethod unit := mret tt.
(* [src/src/stream/streams/mosaic_stream.cpp:361-363 MosaicStream::PostLoop] *)
Definition Mosaic_PostLoop : lmethod unit := mret tt.
(* [src/src/stream/streams/relay/playlist_relay_stream.cpp:59-61 PlaylistRelayStream::PostLoop] *)
Definition PlaylistRelay_PostLoop : lmethod unit := SrcDecodeBin_PostLoop.
(** The list is in [M3u8]. *)
(* [src/src/stream/streams/timeshift/catchup_stream.cpp:104-107 CatchupStream::PostLoop] *)
Definition Catchup_PostLoop : lmethod unit := hemit M3u8ListWritten ;; SrcDecodeBin_PostLoop.

Definition PostLoop (cls : stream_class) : lmethod unit :=
  match cls with
  | PlaylistRelayStream => PlaylistRelay_PostLoop
  | MosaicStream => Mosaic_PostLoop
  | CatchupStream => Catchup_PostLoop
  | _ => SrcDecodeBin_PostLoop
  end.

(* [src/src/stream/ibase_stream.cpp:214-214 IBaseStream::PostExecCleanup] *)
Definition base_PostExecCleanup : list string := [].
Definition PostExecCleanup (cls : stream_class) (c : config_object) : outcome (list string) :=
  match cls with
  | VodRelayStream => vconfig ← as_vod_relay c; Ok (VodRelay_PostExecCleanup vconfig)
  | VodEncodeStream => vconfig ← as_vod_encode c; Ok (VodEncode_PostExecCleanup vconfig)
  | _ => Ok base_PostExecCleanup
  end.

(* [src/src/stream/ibase_stream.h:65-65 cleanup_life_period_sec] *)
Definition cleanup_life_period_sec : Z := 2 * 15 * 10.

(** ** The constructor *)

(** The controller is told of the status before the checks. *)
(* [src/src/stream/ibase_stream.cpp:164-186 IBaseStream::IBaseStream] *)
Definition IBaseStream_new (config : Config) : lmethod unit :=
  hmodify (fun l => mk_life (new_stream (s_stats (lf_stream l))) (lf_loop l) (lf_signals l)) ;;
  in_stream (SetStatus NEW) ;;
  stats ← hgets (fun l => s_stats (lf_stream l));
  hlift (check (bool_decide (ss_id stats <> "")) "Stats must be!") ;;
  hlift (check (bool_decide (ss_type stats = c_type config)) "GetType() == config_->GetType()").

(* [src/src/stream/streams/vod/vod_relay_stream.cpp:23-26 VodRelayStream::VodRelayStream] *)
Definition VodRelay_new (config : VodRelayConfig) : lmethod unit :=
  IBaseStream_new (av_base (r_base (vr_base config))) ;;
  hlift (check (IsVod (r_base (vr_base config))) "config->IsVod()").

(* [src/src/stream/streams/vod/vod_encoding_stream.cpp:23-26 VodEncodeStream::VodEncodeStream] *)
Definition VodEncode_new (config : VodEncodeConfig) : lmethod unit :=
  IBaseStream_new (av_base (e_base (ve_base config))) ;;
  hlift (check (IsVod (e_base (ve_base config))) "config->IsVod()").

(** The list that a catchup stream reads is in [M3u8]. *)
(* [src/src/stream/streams/timeshift/itimeshift_recorder_stream.cpp:21-27 ITimeShiftRecorderStream::ITimeShiftRecorderStream] *)
Definition ITimeShiftRecorder_new (config : Config) : lmethod unit :=
  IBaseStream_new config ;;
  stats ← hgets (fun l => s_stats (lf_stream l));
  hlift (check (bool_decide (ss_type stats = TIMESHIFT_RECORDER \/ ss_type stats = CATCHUP))
    "GetType() == TIMESHIFT_RECORDER || GetType() == CATCHUP").

(** The constructor of each class. The others only set members of their own. *)
Definition stream_new (cls : stream_class) (c : config_object) : lmethod unit :=
  match cls with
  | VodRelayStream => vconfig ← hlift (as_vod_relay c); VodRelay_new vconfig
  | VodEncodeStream => vconfig ← hlift (as_vod_encode c); VodEncode_new vconfig
  | TimeShiftRecorderStream | CatchupStream => ITimeShiftRecorder_new (config_of c)
  | _ => IBaseStream_new (config_of c)
  end.

(** ** Exec

    [now]: the clock when the old chunks are removed and when the loop starts;
    [live]: whether the pipeline answers that it is live; [run]: what the
    callbacks do to the stream while the loop runs. *)

Variables (cls : stream_class) (c : config_object) (this : nat) (builder : build bool).

(* [src/src/stream/ibase_stream.cpp:314-350 IBaseStream::Exec] *)
Definition stream_Exec (cleanup_time now : Z) (live : bool) (run : smethod unit) : lmethod (ExitStatus * option (list element)) :=
  hact_iter (fun x => hemit (OldChunksRemoved x.1 x.2)) (PreExecCleanup (config_of c) cleanup_time cleanup_life_period_sec) ;;
  pipeline ← in_signals (signals_InitPipeLine cls this builder);
  match pipeline with
  | None => mret (EXIT_INNER, None)
  | Some line =>
      hemit PipelineCreated ;;
      ids ← in_loop (exec_add_sources this);
      in_stream (exec_start now live) ;;
      PreLoop cls (config_of c) ;;
      in_stream run ;;
      PostLoop cls ;;
      in_loop (exec_remove_sources ids.1 ids.2) ;;
      status ← in_stream exec_finish;
      dirs ← hlift (PostExecCleanup cls c);
      hact_iter (fun dir => hemit (ChunksRemoved dir)) dirs ;;
      mret (status, Some line)
  end.

(** Without a pipeline GStreamer is asked to change the state of a null pointer,
    and of its state; the code then logs two variables that nobody has set. *)
(* [src/src/stream/ibase_stream.cpp:707-716 IBaseStream::SetPipelineState] *)
Definition SetPipelineState (pipeline : option (list element)) (state : string) : lmethod unit :=
  match pipeline with
  | Some _ => in_stream (emit (PipelineState state))
  | None => hemit (FromGLib (NullElement "gst_element_set_state")) ;; hemit (FromGLib (NullElement "gst_element_get_state"))
  end.

(** The destructors of the class and of its bases; the probes, which go before the
    elements, are in [Probes]. *)
(* [src/src/stream/ibase_stream.cpp:296-312 IBaseStream::~IBaseStream] *)
Definition stream_destroy (pipeline : option (list element)) : lmethod unit :=
  in_signals (signals_destroy cls this pipeline) ;;
  SetPipelineState pipeline "NULL" ;;
  in_stream (SetStatus NEW).

(** What the controller does with a stream: it makes one, runs it and deletes
    it. *)
(* [src/src/stream/stream_controller.cpp:229-237 StreamController::Exec] *)
Definition stream_life (cleanup_time now : Z) (live : bool) (run : smethod unit) : lmethod ExitStatus :=
  stream_new cls c ;;
  res ← stream_Exec cleanup_time now live run;
  stream_destroy res.2 ;;
  mret res.1.
End StreamLife.

(** ** Its theorems *)

(** The streams that tell their client which input they play when they begin. *)
Definition announces_input (cls : stream_class) : bool :=
  match cls with PlaylistRelayStream | PlaylistEncodingStream => false | _ => true end.

Section StreamLifeTheorems.
Context `{JsonC} `{UrlLib} `{PathLib} `{UnnamedCodes} `{GstLib} `{!GstLibOk} `{SignalLib} `{!SignalLibOk}.
#[local] Abbreviation smethod := (act stream stream_event).

(** A builder that reads an input makes a pipeline only if there is one. *)
Lemma read_input_there b config p es :
  BuildInput b = SrcDecode_BuildInput (SrcDecode_BuildInputSrc config) ->
  CreatePipeLine (InitPipeline b) = (Ok (Some p), es) -> c_input config <> [].
Proof.
  intros Hb. unfold CreatePipeLine. destruct (InitPipeline b _) as [[r s] es'] eqn:Hi. destruct r as [[]|?|?]; try done. intros _.
  unfold InitPipeline in Hi. rewrite Hb in Hi. apply hact_bind_Ok in Hi as (conn & s1 & e1 & e2 & Hi & _).
  apply hact_bind_Ok in Hi as (src & s2 & e3 & e4 & Hs & _). apply hact_bind_Ok in Hs as (u & s3 & e5 & e6 & Hu & _).
  unfold first_input in Hu. by destruct (c_input config).
Qed.

Lemma as_relay_config c r : as_relay c = Ok r -> av_base (r_base r) = config_of c.
Proof. by destruct c; intros [= <-]. Qed.
Lemma as_encoding_config c e : as_encoding c = Ok e -> av_base (e_base e) = config_of c.
Proof. by destruct c; intros [= <-]. Qed.
Lemma as_timeshift_config c t : as_timeshift c = Ok t -> av_base (r_base (ts_base t)) = config_of c.
Proof. by destruct c; intros [= <-]. Qed.

(** A stream that has a pipeline and tells its client of its first input has one;
    only a player of a timeshift needs none. *)
Lemma pipeline_has_input now dir start cls c builder p es :
  CreateStream c = Ok cls -> CreateBuilder now dir start cls c = Ok builder -> CreatePipeLine builder = (Ok (Some p), es) ->
  announces_input cls = true -> cls <> TimeShiftPlayerStream -> exists u l, c_input (config_of c) = u :: l.
Proof.
  intros Hs Hb Hp Ha Hn. destruct (c_input (config_of c)) as [|u l] eqn:Hi; [exfalso|by exists u, l].
  destruct cls; try discriminate Ha; try (by destruct Hn); apply outcome_bind_Ok in Hb as (x & Hx & [= <-]);
    try (apply read_input_there with (config := config_of c) in Hp;
         [congruence|cbn; by rewrite ?(as_relay_config _ _ Hx), ?(as_encoding_config _ _ Hx), ?(as_timeshift_config _ _ Hx)]);
    unfold CreateStream in Hs; rewrite Hi in Hs; cbn in Hs; destruct (c_type _); try done;
    apply outcome_bind_Ok in Hs as (? & _ & Hs); repeat case_match; done || lia.
Qed.

(** The films have the configurations of films. *)
Lemma PostExecCleanup_returns cls c : CreateStream c = Ok cls -> exists dirs, PostExecCleanup cls c = Ok dirs.
Proof.
  intros Hs. unfold PostExecCleanup. destruct cls; try (by eexists); unfold CreateStream in Hs;
    destruct (c_type _); try done; apply outcome_bind_Ok in Hs as (x & Hx & Hs);
    first [by (rewrite Hx; eexists) | by repeat case_match].
Qed.
Lemma hact_step {S E A B} (m : hact S E A) (f : A -> hact S E B) s a s1 es1 r s2 es2 es :
  m s = (Ok a, s1, es1) -> f a s1 = (r, s2, es2) -> es = es1 ++ es2 -> (m ≫= f) s = (r, s2, es).
Proof. intros Hm Hf ->. unfold mbind, hact_bind. by rewrite Hm, Hf. Qed.

(** The next step of a method, by the lemma that runs it. *)
Ltac run_step tac := eapply hact_step; [tac| |reflexivity].

Lemma hact_iter_emit {S E A} (f : A -> E) (l : list A) (s : S) : hact_iter (fun x => hemit (f x)) l s = (Ok tt, s, f <$> l).
Proof. induction l as [|x l IH]; [done|]. cbn [hact_iter fmap list_fmap]. by apply (hact_step _ _ _ tt s [f x] _ s (f <$> l)). Qed.

Lemma in_stream_run {A} (m : smethod A) s c w a s' es :
  m s = (a, s', es) -> in_stream m (mk_life s c w) = (Ok a, mk_life s' c w, FromStream <$> es).
Proof. intros Hm. unfold in_stream. cbn. by rewrite Hm. Qed.
Lemma in_loop_run {A} (m : hact main_context unit A) s c w a c' es :
  m c = (Ok a, c', es) -> in_loop m (mk_life s c w) = (Ok a, mk_life s c' w, []).
Proof. intros Hm. unfold in_loop. cbn. by rewrite Hm. Qed.
Lemma in_signals_run {A} (m : sig A) s c w a w' :
  m w = (Ok a, w', []) -> in_signals m (mk_life s c w) = (Ok a, mk_life s c w', []).
Proof. intros Hm. unfold in_signals. cbn. by rewrite Hm. Qed.

(** What a stream tells its client before and after its loop. *)
Definition told_before (cls : stream_class) (config : Config) : list life_event :=
  if announces_input cls then InputChanged <$> take 1 (c_input config) else [].
Definition told_after (cls : stream_class) : list life_event :=
  match cls with CatchupStream => [M3u8ListWritten] | _ => [] end.

Lemma PreLoop_run cls config l :
  (announces_input cls = true -> exists u rest, c_input config = u :: rest) ->
  PreLoop cls config l = (Ok tt, l, told_before cls config).
Proof.
  unfold PreLoop, SrcDecodeBin_PreLoop, Mosaic_PreLoop, first_input_changed, told_before. intros Hi.
  destruct (announces_input cls) eqn:Ha; [|by destruct cls].
  destruct Hi as (u & rest & ->); [done|]. by destruct cls.
Qed.

Lemma PostLoop_run cls l : PostLoop cls l = (Ok tt, l, told_after cls).
Proof. by destruct cls. Qed.

Lemma recorder_type cls c :
  CreateStream c = Ok cls -> cls = TimeShiftRecorderStream \/ cls = CatchupStream ->
  c_type (config_of c) = TIMESHIFT_RECORDER \/ c_type (config_of c) = CATCHUP.
Proof.
  intros Hs Hc. unfold CreateStream, not_reached in Hs. destruct (c_type (config_of c)); auto; exfalso; try done;
    apply outcome_bind_Ok in Hs as (? & _ & Hs); repeat case_match; destruct Hc; congruence.
Qed.
Lemma vod_relay_film c :
  CreateStream c = Ok VodRelayStream ->
  exists v, as_vod_relay c = Ok v /\ av_base (r_base (vr_base v)) = config_of c /\ IsVod (r_base (vr_base v)) = true.
Proof.
  intros Hs. unfold CreateStream, not_reached in Hs. destruct (c_type (config_of c)); try done;
    apply outcome_bind_Ok in Hs as (v & Hv & Hs); repeat case_match; try congruence.
  exists v. split_and!; try done. by destruct c; cbn in Hv; simplify_eq.
Qed.
Lemma vod_encode_film c :
  CreateStream c = Ok VodEncodeStream ->
  exists v, as_vod_encode c = Ok v /\ av_base (e_base (ve_base v)) = config_of c /\ IsVod (e_base (ve_base v)) = true.
Proof.
  intros Hs. unfold CreateStream, not_reached in Hs. destruct (c_type (config_of c)); try done;
    apply outcome_bind_Ok in Hs as (v & Hv & Hs); repeat case_match; try congruence.
  exists v. split_and!; try done. by destruct c; cbn in Hv; simplify_eq.
Qed.

(** The constructors of the classes do nothing but begin: the checks of a class
    hold for what the factory has made of it. *)
Lemma stream_new_run c cls l :
  CreateStream c = Ok cls -> ss_id (s_stats (lf_stream l)) <> "" ->
  ss_type (s_stats (lf_stream l)) = c_type (config_of c) ->
  stream_new cls c l =
  (Ok tt, mk_life (new_stream (with_status NEW (s_stats (lf_stream l)))) (lf_loop l) (lf_signals l),
   [FromStream (OnStatusChanged NEW)]).
Proof.
  destruct l as [s m w]. cbn [lf_stream lf_loop lf_signals]. intros Hs Hid Ht.
  set (l1 := mk_life (new_stream (with_status NEW (s_stats s))) m w).
  assert (Hbase : forall config, c_type config = c_type (config_of c) ->
    IBaseStream_new config (mk_life s m w) = (Ok tt, l1, [FromStream (OnStatusChanged NEW)])).
  { intros config Hc. unfold IBaseStream_new.
    run_step ltac:(reflexivity). run_step ltac:(by eapply in_stream_run). run_step ltac:(reflexivity).
    run_step ltac:(unfold hlift; cbn; by rewrite bool_decide_eq_true_2). unfold hlift. cbn.
    by rewrite bool_decide_eq_true_2 by (by rewrite Ht, Hc). }
  assert (Htime : cls = TimeShiftRecorderStream \/ cls = CatchupStream ->
    ITimeShiftRecorder_new (config_of c) (mk_life s m w) = (Ok tt, l1, [FromStream (OnStatusChanged NEW)])).
  { intros Hcls. unfold ITimeShiftRecorder_new. run_step ltac:(by apply Hbase). run_step ltac:(reflexivity).
    unfold hlift. cbn. rewrite bool_decide_eq_true_2; [done|]. rewrite Ht. by apply (recorder_type cls). }
  destruct cls; try (by apply Hbase); try (by apply Htime; auto); unfold stream_new.
  - destruct (vod_relay_film c Hs) as (v & Hv & Hc & Hvod). rewrite Hv. run_step ltac:(reflexivity).
    unfold VodRelay_new. run_step ltac:(by apply Hbase; rewrite Hc). by rewrite Hvod.
  - destruct (vod_encode_film c Hs) as (v & Hv & Hc & Hvod). rewrite Hv. run_step ltac:(reflexivity).
    unfold VodEncode_new. run_step ltac:(by apply Hbase; rewrite Hc). by rewrite Hvod.
Qed.

(** C8: A stream that can build its pipeline, of any class but the player of a
    timeshift, from its construction to its end, whatever its callbacks do while
    its loop runs: it tells the controller each change in this order, [NEW] from
    its constructor first, with its first input if it is not a playlist; it
    returns the status that the loop was left with and counts one restart; and
    when it is deleted its pipeline is put into the state [NULL] again, its status
    is [NEW], and it leaves no source in the loop, no connected signal and no
    requested pad, and GLib has not complained. *)
Theorem stream_lives now dir start c cls builder p es this cleanup_time now' live run l :
  CreateStream c = Ok cls -> CreateBuilder now dir start cls c = Ok builder -> CreatePipeLine builder = (Ok (Some p), es) ->
  cls <> TimeShiftPlayerStream -> signals_ok (lf_signals l) -> untouched this (lf_signals l) ->
  (forall x, x ∈ mc_sources (lf_loop l) -> (x.1.1 < mc_next (lf_loop l))%Z) ->
  ss_id (s_stats (lf_stream l)) <> "" -> ss_type (s_stats (lf_stream l)) = c_type (config_of c) ->
  let '(_, s1, es1) := exec_start now' live (new_stream (with_status NEW (s_stats (lf_stream l)))) in
  let '(_, s2, es2) := run s1 in
  exists l' dirs,
    stream_life cls c this builder cleanup_time now' live run l =
    (Ok (s_last_exit_status s2), l',
     [FromStream (OnStatusChanged NEW)] ++
     ((fun x => OldChunksRemoved x.1 x.2) <$> PreExecCleanup (config_of c) cleanup_time cleanup_life_period_sec) ++
     [PipelineCreated; FromStream (OnStatusChanged INIT); FromStream (PipelineState "PLAYING")] ++
     told_before cls (config_of c) ++ (FromStream <$> es2) ++ told_after cls ++
     [FromStream (OnStatusChanged INIT); FromStream (PipelineState "NULL")] ++
     (ChunksRemoved <$> dirs) ++ [FromStream (PipelineState "NULL"); FromStream (OnStatusChanged NEW)]) /\
    (announces_input cls = true -> length (told_before cls (config_of c)) = 1) /\
    PostExecCleanup cls c = Ok dirs /\
    ss_status (s_stats (lf_stream l')) = NEW /\
    ss_restarts (s_stats (lf_stream l')) = u64 (ss_restarts (s_stats s2) + 1) /\
    mc_sources (lf_loop l') = mc_sources (lf_loop l) /\
    sw_connections (lf_signals l') = sw_connections (lf_signals l) /\
    sw_signals (lf_signals l') = sw_signals (lf_signals l) /\ sw_pads (lf_signals l') = sw_pads (lf_signals l).
Proof.
  intros Hs Hb Hp Hn Hw Hu Hlt Hid Hty. pose proof (stream_new_run c cls l Hs Hid Hty) as Hnew.
  destruct l as [s0 m0 w0]. cbn [lf_stream lf_loop lf_signals] in *.
  assert (Hin : announces_input cls = true -> exists u rest, c_input (config_of c) = u :: rest)
    by (intros Ha; by eapply pipeline_has_input).
  destruct (exec_start now' live _) as [[[] s1] es1] eqn:Hs1. destruct (run s1) as [[[] s2] es2] eqn:Hs2.
  destruct (PostExecCleanup_returns cls c Hs) as [dirs Hd].
  destruct (exec_sources this m0 Hlt) as (t & wid & m1 & Hadd & _ & m2 & Hrem & Hsrc).
  destruct (destroy_run _ _ _ _ _ _ _ _ this _ Hb Hp Hw Hu) as (w2 & Hdes & Hconn & Hsig & Hpads).
  assert (es1 = [OnStatusChanged INIT; PipelineState "PLAYING"]) as ->.
  { revert Hs1. unfold exec_start, SetStatus, stream_ResetDataWait, Play. destruct live; cbn; by intros [= _ <-]. }
  set (s3 := set_stats (with_restarts (u64 (ss_restarts (s_stats s2) + 1)) (with_status INIT (s_stats s2))) s2).
  assert (Hfin : exec_finish s2 = (s_last_exit_status s2, s3, [OnStatusChanged INIT; PipelineState "NULL"])) by done.
  exists (mk_life (set_stats (with_status NEW (s_stats s3)) s3) m2 w2), dirs. split.
  - unfold stream_life. run_step ltac:(exact Hnew).
    eapply (hact_step _ _ _ (s_last_exit_status s2, Some (pl_line p)) (mk_life s3 m2 (wired cls es this w0))).
    + unfold stream_Exec. run_step ltac:(apply hact_iter_emit).
      run_step ltac:(by eapply in_signals_run, InitPipeLine_run). cbn beta iota.
      run_step ltac:(reflexivity). run_step ltac:(eapply in_loop_run; exact Hadd).
      run_step ltac:(eapply in_stream_run; exact Hs1). run_step ltac:(by apply PreLoop_run).
      run_step ltac:(eapply in_stream_run; exact Hs2). run_step ltac:(by apply PostLoop_run).
      run_step ltac:(eapply in_loop_run; exact Hrem). run_step ltac:(eapply in_stream_run; exact Hfin).
      run_step ltac:(unfold hlift; by rewrite Hd). run_step ltac:(apply hact_iter_emit). reflexivity.
    + unfold stream_destroy.
      run_step ltac:(run_step ltac:(eapply in_signals_run; exact Hdes); run_step ltac:(by eapply in_stream_run); by eapply in_stream_run).
      reflexivity.
    + by repeat (cbn; rewrite ?app_nil_r, <-?app_assoc).
  - split_and!; try done. intros Ha. unfold told_before. rewrite Ha. by destruct (Hin Ha) as (u & rest & ->).
Qed.
End StreamLifeTheorems.

Section Witnesses.
#[local] Existing Instances Ref.common Ref.urls Ref.paths ref_codes RefGst.gst RefGst.gst_ok wit_signals wit_signals_ok.
#[local] Instance wit_life_json : JsonC := Ref.json_c (fun _ => None).

(** A recorder whose loop is left because its input fails, beside another stream. *)
Definition wit_stats : StreamStruct :=
  {| ss_id := "s1"; ss_type := TIMESHIFT_RECORDER; ss_start_time := 0; ss_loop_start_time := 0; ss_restarts := 0;
     ss_status := FROZEN; ss_input := [make_channel_stats 0]; ss_output := [] |}.
Definition wit_life : life :=
  mk_life (new_stream wit_stats) {| mc_next := 7; mc_sources := [(4%Z, BusWatch, 0)]; mc_sync_handlers := [0] |} wit_world.

Lemma stream_lives_witness :
  exists builder p es l' events,
    CreateStream (ObjTimeshift wit_recorder) = Ok TimeShiftRecorderStream /\
    CreateBuilder 0 "/ts/" 0 TimeShiftRecorderStream (ObjTimeshift wit_recorder) = Ok builder /\
    CreatePipeLine builder = (Ok (Some p), es) /\
    stream_life TimeShiftRecorderStream (ObjTimeshift wit_recorder) 1 builder 5000 6000 true OnInputDataFailed wit_life =
      (Ok EXIT_INNER, l', events) /\
    mc_sources (lf_loop l') = [(4%Z, BusWatch, 0)] /\
    sw_connections (lf_signals l') = sw_connections wit_world.
Proof.
  set (builder := InitPipeline (TimeShiftRecorderStreamBuilder wit_recorder)). exists builder.
  assert (Hok : match (CreatePipeLine builder).1 with Ok (Some _) => true | _ => false end = true) by (vm_compute; reflexivity).
  destruct (CreatePipeLine builder) as [[[p|]|?|?] es] eqn:Hp; try discriminate Hok.
  destruct wit_world_ok as [Hw Hu].
  assert (Hlt : forall x, x ∈ mc_sources (lf_loop wit_life) -> (x.1.1 < mc_next (lf_loop wit_life))%Z)
    by (intros x ->%list_elem_of_singleton; cbn; lia).
  destruct (stream_lives 0 "/ts/" 0 (ObjTimeshift wit_recorder) TimeShiftRecorderStream builder p es 1 5000 6000 true
              OnInputDataFailed wit_life eq_refl eq_refl Hp ltac:(discriminate) Hw Hu Hlt ltac:(discriminate) eq_refl)
    as (l' & dirs & Hl & _ & _ & _ & _ & Hm & Hc & _).
  eexists p, es, l', _. split_and!; [done|done|done|exact Hl|exact Hm|exact Hc].
Defined.
End Witnesses.
