(* ===== verification/Playlist.v ===== *)
(** * Streams that play a list of files

    [src/src/stream/streams/encoding/playlist_encoding_stream.cpp] and
    [src/src/stream/streams/relay/playlist_relay_stream.cpp], whose code is the
    same: the files are read one after the other and pushed into an appsrc, in
    buffers, whenever it asks for data. *)

From Stdlib Require Import Ascii.
From S2P Require Import Prelude Platform StreamTypes Constants Uris Options Configs Stats BaseStream.

Abbreviation bytes := (list ascii).

(* [src/src/stream/streams/encoding/playlist_encoding_stream.cpp:25-25 BUFFER_SIZE] *)
Definition BUFFER_SIZE : nat := Z.to_nat 4096.
#[global] Arguments BUFFER_SIZE : simpl never.

(** [current_file_] by what is left of it. *)
(* [src/src/stream/streams/encoding/playlist_encoding_stream.h:56-58 PlaylistEncodingStream] *)
Record playlist := { current_file : option bytes; curent_pos : nat }.

(* [src/src/stream/streams/encoding/playlist_encoding_stream.cpp:31-32 PlaylistEncodingStream::PlaylistEncodingStream] *)
Definition playlist_new : playlist := {| current_file := None; curent_pos := 0 |}.

Section Playlist.
Context `{UrlLib}.

(** What it tells its client and its appsrc. *)
Inductive play_event :=
| OnInputChanged (uri : InputUri)
| PushBuffer (data : bytes)
| SendEOS
| QuitInner.  (* Quit(EXIT_INNER) *)

(** What [fopen] of a path finds. *)
Variable fopen : string -> option bytes.

Abbreviation pmethod := (hact playlist play_event).

Definition set_file (f : option bytes) (s : playlist) : playlist :=
  {| current_file := f; curent_pos := curent_pos s |}.

(* [src/src/stream/streams/encoding/playlist_encoding_stream.cpp:100-132 PlaylistEncodingStream::OpenNextFile] *)
Definition Encoding_OpenNextFile (econf : AudioVideoConfig) : pmethod (option bytes) :=
  let input := c_input (av_base econf) in
  pos ← hgets curent_pos;
  if negb (av_loop econf) && (length input <=? pos) then mret None
  else
    let pos := if length input <=? pos then 0 else pos in
    match input !! pos with
    | None => hlift (Abort (UndefinedBehaviour "input[curent_pos_]"))
    | Some iuri =>
        hmodify (fun s => {| current_file := current_file s; curent_pos := S pos |}) ;;
        match fopen (url_path (iu_input iuri)) with
        | Some f => hemit (OnInputChanged iuri) ;; mret (Some f)
        | None => mret None
        end
    end.

(* [src/src/stream/streams/relay/playlist_relay_stream.cpp:105-136 PlaylistRelayStream::OpenNextFile] *)
Definition Relay_OpenNextFile : AudioVideoConfig -> pmethod (option bytes) := Encoding_OpenNextFile.

(** One turn of the loop: [Some] when it is left, with the data or, for
    [SendEOS], without. *)
Definition read_turn (OpenNextFile : pmethod (option bytes)) : pmethod (option (option bytes)) :=
  cur ← hgets current_file;
  cur ← match cur with
        | Some f => mret (Some f)
        | None => OpenNextFile
        end;
  match cur with
  | None => hemit SendEOS ;; mret (Some None)
  | Some f =>
      match take BUFFER_SIZE f with
      | [] => hmodify (set_file None) ;; mret None
      | data => hmodify (set_file (Some (drop BUFFER_SIZE f))) ;; mret (Some (Some data))
      end
  end.

(** [while (size == 0)]; [None] stands for a loop that goes on after [fuel] turns. *)
Fixpoint read_loop (fuel : nat) (turn : pmethod (option (option bytes))) : pmethod (option (option bytes)) :=
  match fuel with
  | O => mret None
  | S n => r ← turn; match r with Some x => mret (Some x) | None => read_loop n turn end
  end.

(** [alloc_ok]: [calloc] has memory; [push_ok]: the appsrc takes the buffer. The
    result tells whether the function has returned. *)
(* [src/src/stream/streams/encoding/playlist_encoding_stream.cpp:58-93 PlaylistEncodingStream::HandleNeedData] *)
Definition Encoding_HandleNeedData (econf : AudioVideoConfig) (alloc_ok push_ok : bool) (fuel : nat) : pmethod bool :=
  if negb alloc_ok then hemit SendEOS ;; mret true
  else
    r ← read_loop fuel (read_turn (Encoding_OpenNextFile econf));
    match r with
    | None => mret false
    | Some None => mret true
    | Some (Some data) =>
        hemit (PushBuffer data) ;;
        (if push_ok then mret tt else hemit QuitInner) ;;
        mret true
    end.

(* [src/src/stream/streams/relay/playlist_relay_stream.cpp:63-98 PlaylistRelayStream::HandleNeedData] *)
Definition Relay_HandleNeedData (rconf : AudioVideoConfig) (alloc_ok push_ok : bool) (fuel : nat) : pmethod bool :=
  if negb alloc_ok then hemit SendEOS ;; mret true
  else
    r ← read_loop fuel (read_turn (Relay_OpenNextFile rconf));
    match r with
    | None => mret false
    | Some None => mret true
    | Some (Some data) =>
        hemit (PushBuffer data) ;;
        (if push_ok then mret tt else hemit QuitInner) ;;
        mret true
    end.
End Playlist.

(** ** Properties *)

Section PlaylistTheorems.
Context `{UrlLib}.
Variable fopen : string -> option bytes.

(** What the files hold. *)
Definition contents (c : AudioVideoConfig) : list (option bytes) :=
  (fun u => fopen (url_path (iu_input u))) <$> c_input (av_base c).

(** What the client and the appsrc get, one after the other. *)
Inductive played := Began (u : InputUri) | Byte (a : ascii) | End.

Definition told (es : list play_event) : list played :=
  es ≫= fun e =>
    match e with
    | OnInputChanged u => [Began u]
    | PushBuffer d => Byte <$> d
    | SendEOS => [End]
    | QuitInner => []
    end.

(** What a list of files should give: each file is announced and its bytes
    follow; for one that cannot be opened there is an end of the stream. *)
Definition file_script (u : InputUri) : list played :=
  match fopen (url_path (iu_input u)) with Some b => Began u :: (Byte <$> b) | None => [End] end.
Definition script (c : AudioVideoConfig) (s : playlist) : list played :=
  (Byte <$> default [] (current_file s)) ++ (drop (curent_pos s) (c_input (av_base c)) ≫= file_script).

(** A part of the script is played; behind the end of it there are ends of the
    stream only. *)
Definition plays (c : AudioVideoConfig) (s : playlist) (es : list play_event) (s' : playlist) : Prop :=
  exists n, told es ++ script c s' = script c s ++ replicate n End /\ (n = 0 \/ script c s' = []).

Definition fits (e : play_event) : Prop :=
  match e with PushBuffer d => 0 < length d <= BUFFER_SIZE | _ => True end.

Definition turns (c : AudioVideoConfig) (s : playlist) : nat :=
  2 * (length (c_input (av_base c)) - curent_pos s) + (if current_file s is Some _ then 1 else 0).

Fixpoint pushed (es : list play_event) : bytes :=
  match es with
  | PushBuffer d :: es' => d ++ pushed es'
  | _ :: es' => pushed es'
  | [] => []
  end.

Lemma pushed_app a b : pushed (a ++ b) = pushed a ++ pushed b.
Proof. induction a as [|[] a IH]; cbn; by rewrite ?IH, ?app_assoc. Qed.
Lemma told_app a b : told (a ++ b) = told a ++ told b.
Proof. apply bind_app. Qed.

Lemma plays_step c s es s' : script c s = told es ++ script c s' -> plays c s es s'.
Proof. intros H'. exists 0. rewrite app_nil_r. auto. Qed.
Lemma plays_trans c s es1 s1 es2 s2 : plays c s es1 s1 -> plays c s1 es2 s2 -> plays c s (es1 ++ es2) s2.
Proof.
  intros (n1 & H1 & Hn1) (n2 & H2 & Hn2). exists (n1 + n2). rewrite told_app, <-app_assoc, H2, app_assoc, H1, <-app_assoc.
  destruct Hn1 as [->|Hs]; [by split|]. rewrite Hs in H2. rewrite replicate_add. split; [done|]. right.
  destruct Hn2 as [->|Hs2]; [|done]. by apply app_eq_nil in H2 as [_ ?].
Qed.

Lemma take_buffer_nil (f : bytes) : take BUFFER_SIZE f = [] <-> f = [].
Proof. unfold BUFFER_SIZE. split; [|by intros ->]. destruct f; [done|]. by destruct (Z.to_nat 4096) eqn:He; [lia|]. Qed.

Lemma buffer_fits (f : bytes) : f <> [] -> 0 < length (take BUFFER_SIZE f) <= BUFFER_SIZE.
Proof.
  intros Hf. split; [|rewrite length_take; lia].
  destruct (take BUFFER_SIZE f) eqn:Ht; [by apply (proj1 (take_buffer_nil f)) in Ht|cbn; lia].
Qed.

(** A turn that reads from a file. *)
Lemma read_file f s :
  (match take BUFFER_SIZE f with
   | [] => hmodify (set_file None) ;; mret None
   | data => hmodify (set_file (Some (drop BUFFER_SIZE f))) ;; mret (Some (Some data))
   end : hact playlist play_event _) s =
  match f with
  | [] => (Ok None, set_file None s, [])
  | _ => (Ok (Some (Some (take BUFFER_SIZE f))), set_file (Some (drop BUFFER_SIZE f)) s, [])
  end.
Proof.
  destruct (take BUFFER_SIZE f) as [|a l] eqn:Ht.
  - apply take_buffer_nil in Ht as ->. done.
  - destruct f; [by rewrite take_nil in Ht|]. done.
Qed.

(** What is played by a turn, by its result. *)
Definition turn_plays (c : AudioVideoConfig) (s : playlist) (r : option bytes) (es : list play_event) (s' : playlist) : Prop :=
  match r with
  | Some d => script c s = told es ++ (Byte <$> d) ++ script c s' /\ 0 < length d <= BUFFER_SIZE
  | None => plays c s es s' /\ told es <> []
  end.

Lemma script_read c f pos : script c {| current_file := Some f; curent_pos := pos |} =
  (Byte <$> take BUFFER_SIZE f) ++ script c {| current_file := Some (drop BUFFER_SIZE f); curent_pos := pos |}.
Proof. unfold script. cbn. by rewrite app_assoc, <-fmap_app, take_drop. Qed.

Lemma read_turn_spec c s :
  av_loop c = false ->
  exists r s' es, read_turn (Encoding_OpenNextFile fopen c) s = (Ok r, s', es) /\ pushed es = [] /\ (QuitInner ∉ es) /\
    match r with
    | Some r => turn_plays c s r es s'
    | None => script c s = told es ++ script c s' /\ turns c s' < turns c s
    end.
Proof.
  intros Hloop. unfold read_turn, turns, mbind, hact_bind, hgets, mret, hact_ret.
  destruct s as [[f|] pos]; cbn [current_file curent_pos].
  - rewrite read_file. destruct f as [|a f]; eexists _, _, _; (split; [done|]); (split; [done|]);
      (split; [by intros ?%elem_of_nil|]); [split; [done|cbn; lia]|].
    split; [apply script_read|by apply buffer_fits].
  - unfold Encoding_OpenNextFile, mbind, hact_bind, hgets, mret, hact_ret, hlift. cbn [curent_pos].
    rewrite Hloop. cbn [negb andb].
    destruct (Nat.leb_spec (length (c_input (av_base c))) pos) as [Hle|Hlt].
    + eexists _, _, _. split; [done|]. split; [done|]. split; [by intros [?|?%elem_of_nil]%elem_of_cons|].
      split; [|done]. exists 1. unfold script. cbn [current_file curent_pos default fmap list_fmap app].
      rewrite drop_ge by done. cbn. auto.
    + destruct (lookup_lt_is_Some_2 _ _ Hlt) as [u Hu]. rewrite Hu. unfold hmodify. cbn [current_file curent_pos].
      assert (Hsc : script c {| current_file := None; curent_pos := pos |} =
                    file_script u ++ (drop (S pos) (c_input (av_base c)) ≫= file_script))
        by (unfold script; cbn [current_file curent_pos default fmap list_fmap app]; by rewrite (drop_S _ _ _ Hu)).
      unfold file_script in Hsc. destruct (fopen _) as [f|].
      * unfold hemit. rewrite read_file. destruct f as [|a f]; eexists _, _, _; (split; [done|]); (split; [done|]);
          (split; [by intros [?|?%elem_of_nil]%elem_of_cons|]).
        -- split; [exact Hsc|cbn; lia].
        -- split; [|by apply buffer_fits]. rewrite Hsc.
           exact (f_equal (cons (Began u)) (script_read c (a :: f) (S pos))).
      * eexists _, _, _. split; [done|]. split; [done|]. split; [by intros [?|?%elem_of_nil]%elem_of_cons|].
        split; [|done]. apply plays_step. exact Hsc.
Qed.

Lemma read_loop_spec c s fuel :
  av_loop c = false -> turns c s < fuel ->
  exists r s' es, read_loop fuel (read_turn (Encoding_OpenNextFile fopen c)) s = (Ok (Some r), s', es) /\
    pushed es = [] /\ (QuitInner ∉ es) /\ turn_plays c s r es s'.
Proof.
  intros Hloop. revert s. induction fuel as [|fuel IH]; intros s Hf; [lia|]. cbn [read_loop]. unfold mbind, hact_bind.
  destruct (read_turn_spec c s Hloop) as (r & s1 & es1 & -> & Hp & Hq & Hr). destruct r as [r|].
  - eexists _, _, _. split; [done|]. rewrite app_nil_r. by split_and!.
  - destruct Hr as [Hsc Ht]. destruct (IH s1 ltac:(lia)) as (r & s2 & es2 & -> & Hp2 & Hq2 & Hr).
    eexists r, _, _. split; [done|]. rewrite pushed_app, Hp, Hp2. split; [done|].
    split; [by intros [?|?]%elem_of_app|]. destruct r as [d|]; cbn in *.
    + destruct Hr as [Hr ?]. split; [|done]. by rewrite Hsc, Hr, told_app, <-app_assoc.
    + destruct Hr as [Hr Ht2]. split; [by eapply plays_trans; [apply plays_step|]|].
      rewrite told_app. by intros [_ ?]%app_eq_nil.
Qed.

(** The turns that a call needs at most. *)
Definition enough (c : AudioVideoConfig) : nat := 2 * length (c_input (av_base c)) + 2.

Lemma no_push es : pushed es = [] -> Forall (fun e => match e with PushBuffer d => d = [] | _ => True end) es.
Proof. induction es as [|[] es IH]; intros Hp; constructor; cbn in Hp; try apply app_eq_nil in Hp; naive_solver. Qed.

Lemma HandleNeedData_spec c s push_ok :
  av_loop c = false ->
  exists s' es, Encoding_HandleNeedData fopen c true push_ok (enough c) s = (Ok true, s', es) /\
    plays c s es s' /\ told es <> [] /\ (forall d, PushBuffer d ∈ es -> length d <= BUFFER_SIZE) /\
    (push_ok = true -> QuitInner ∉ es).
Proof.
  intros Hloop. destruct (read_loop_spec c s (enough c) Hloop) as (r & s' & es & He & Hp & Hq & Hr).
  { unfold turns, enough. destruct (current_file s); lia. }
  assert (Hlen : forall d, PushBuffer d ∈ es -> length d <= BUFFER_SIZE).
  { intros d Hd. apply no_push in Hp. rewrite Forall_forall in Hp. specialize (Hp _ Hd). cbn in Hp. subst d. cbn. lia. }
  unfold Encoding_HandleNeedData. cbn [negb]. unfold mbind, hact_bind. rewrite He. destruct r as [d|].
  - destruct Hr as [Hr Hd]. eexists s', (es ++ PushBuffer d :: if push_ok then [] else [QuitInner]).
    split; [destruct push_ok; cbn; by rewrite ?app_nil_r|].
    assert (Ht : told (es ++ PushBuffer d :: if push_ok then [] else [QuitInner]) = told es ++ (Byte <$> d))
      by (rewrite told_app; destruct push_ok; cbn; by rewrite app_nil_r).
    split; [apply plays_step; by rewrite Ht, <-app_assoc|]. rewrite Ht. split_and!.
    + intros [_ Hn]%app_eq_nil. apply fmap_nil_inv in Hn as ->. cbn in Hd. lia.
    + intros d' [Hd'|[[= ->]|Hd']%elem_of_cons]%elem_of_app; [by apply Hlen|lia|].
      destruct push_ok; [by apply elem_of_nil in Hd'|]. by apply list_elem_of_singleton in Hd'.
    + intros ->. intros [?|[?|?%elem_of_nil]%elem_of_cons]%elem_of_app; done.
  - eexists s', es. rewrite ?app_nil_r. split; [by cbn; rewrite ?app_nil_r|]. destruct Hr. by split_and!.
Qed.

(** The appsrc asks once for each of [push_oks], which tell whether it takes what
    it is given. *)
Fixpoint need_data (HandleNeedData : bool -> hact playlist play_event bool) (push_oks : list bool) : hact playlist play_event bool :=
  match push_oks with
  | [] => mret true
  | push_ok :: push_oks =>
      b ← HandleNeedData push_ok; rest ← need_data HandleNeedData push_oks; mret (b && rest)
  end.

Lemma told_length es1 es2 n : told es1 <> [] -> n <= length (told es2) -> S n <= length (told (es1 ++ es2)).
Proof. rewrite told_app, length_app. destruct (told es1); [done|cbn; lia]. Qed.

(** C31: a playlist that does not loop, of either class, asked for data any number
    of times, with memory for its buffers: every request returns and is answered
    with at least one thing. Together the answers are a beginning of the script
    of its files: each file that can be opened is announced and followed by its
    bytes, in order and complete, and for each one that cannot be opened there is
    an end of the stream, behind which the next files follow if the appsrc goes on
    asking; after as many requests as the script is long all of it has been
    played, and from then on there are ends of the stream alone. No buffer is
    larger than [BUFFER_SIZE], and the stream quits only if the appsrc has
    refused one. *)
Theorem playlist_plays c s HandleNeedData push_oks :
  av_loop c = false ->
  HandleNeedData = Encoding_HandleNeedData fopen c \/ HandleNeedData = Relay_HandleNeedData fopen c ->
  exists s' es n,
    need_data (fun push_ok => HandleNeedData true push_ok (enough c)) push_oks s = (Ok true, s', es) /\
    told es ++ script c s' = script c s ++ replicate n End /\ (n = 0 \/ script c s' = []) /\
    length push_oks <= length (told es) /\ (length (script c s) <= length push_oks -> script c s' = []) /\
    (forall d, PushBuffer d ∈ es -> length d <= BUFFER_SIZE) /\
    (false ∉ push_oks -> QuitInner ∉ es).
Proof.
  intros Hloop Hh. assert (HandleNeedData = Encoding_HandleNeedData fopen c) as -> by (by destruct Hh as [->| ->]). clear Hh.
  assert (Hrun : exists s' es,
    need_data (fun push_ok => Encoding_HandleNeedData fopen c true push_ok (enough c)) push_oks s = (Ok true, s', es) /\
    plays c s es s' /\ length push_oks <= length (told es) /\
    (forall d, PushBuffer d ∈ es -> length d <= BUFFER_SIZE) /\ (false ∉ push_oks -> QuitInner ∉ es)).
  { revert s. induction push_oks as [|b l IH]; intros s; cbn [need_data].
    { exists s, []. split; [done|]. split; [by apply plays_step|]. split_and!; [done|by intros ? ?%elem_of_nil|by intros _ ?%elem_of_nil]. }
    destruct (HandleNeedData_spec c s b Hloop) as (s1 & es1 & H1 & Hp1 & Ht1 & Hd1 & Hq1).
    destruct (IH s1) as (s2 & es2 & H2 & Hp2 & Ht2 & Hd2 & Hq2). exists s2, (es1 ++ es2).
    split; [unfold mbind, hact_bind; rewrite H1, H2; cbn; by rewrite app_nil_r|]. split; [by eapply plays_trans|].
    split; [by apply told_length|]. split; [intros d [?|?]%elem_of_app; auto|].
    rewrite not_elem_of_cons. intros [Hb Hl] [Hq|Hq]%elem_of_app; [|by apply (Hq2 Hl)]. destruct b; [by apply Hq1|done]. }
  destruct Hrun as (s' & es & Hrun & (n & Hn & Hz) & Ht & Hrest). exists s', es, n. split_and!; try done; [|apply Hrest..].
  intros Hlen. destruct Hz as [->|?]; [|done]. apply nil_length_inv. apply (f_equal length) in Hn.
  rewrite !length_app, length_replicate in Hn. lia.
Qed.

(** A playlist that loops over files which are all empty never returns from a
    request for data: however many turns its loop has had, it goes on. *)
Theorem empty_loop_hangs c s fuel :
  av_loop c = true -> c_input (av_base c) <> [] -> Forall (eq (Some [])) (contents c) ->
  (current_file s = None \/ current_file s = Some []) ->
  exists s' es, Relay_HandleNeedData fopen c true true fuel s = (Ok false, s', es) /\ pushed es = [].
Proof.
  intros Hloop Hin Hall Hcur.
  assert (Hrun : exists s' es, read_loop fuel (read_turn (Relay_OpenNextFile fopen c)) s = (Ok None, s', es) /\ pushed es = []).
  { revert s Hcur. induction fuel as [|fuel IH]; intros s Hcur; [by eexists _, _|]. cbn [read_loop].
    assert (Ht : exists s1 es1, read_turn (Relay_OpenNextFile fopen c) s = (Ok None, s1, es1) /\ current_file s1 = None /\ pushed es1 = []).
    { unfold read_turn, mbind, hact_bind, hgets, mret, hact_ret. destruct Hcur as [Hc|Hc]; rewrite Hc.
      2:{ rewrite read_file. by eexists _, _. }
      unfold Relay_OpenNextFile, Encoding_OpenNextFile, mbind, hact_bind, hgets, mret, hact_ret, hmodify, hemit. rewrite Hloop. cbn [negb andb].
      set (pos := if length (c_input (av_base c)) <=? curent_pos s then 0 else curent_pos s).
      assert (Hpos : pos < length (c_input (av_base c))).
      { subst pos. destruct (Nat.leb_spec (length (c_input (av_base c))) (curent_pos s)); [|lia]. by destruct (c_input _); [|cbn; lia]. }
      destruct (lookup_lt_is_Some_2 _ _ Hpos) as [u Hu]. rewrite Hu.
      assert (Hf : fopen (url_path (iu_input u)) = Some []).
      { rewrite Forall_forall in Hall. symmetry. apply Hall. unfold contents. apply list_elem_of_fmap_2'
          with (x := u); [by eapply list_elem_of_lookup_2|done]. }
      rewrite Hf, read_file. by eexists _, _. }
    destruct Ht as (s1 & es1 & Ht & Hc1 & Hp1). destruct (IH s1 (or_introl Hc1)) as (s2 & es2 & Hr2 & Hp2).
    unfold mbind, hact_bind. rewrite Ht, Hr2. eexists _, _. split; [done|]. by rewrite pushed_app, Hp1, Hp2. }
  destruct Hrun as (s' & es & Hr & Hp). exists s', es. unfold Relay_HandleNeedData. cbn [negb].
  unfold mbind, hact_bind. rewrite Hr. cbn. rewrite ?app_nil_r. by split.
Qed.
End PlaylistTheorems.

(** ** Witnesses *)

Section Witnesses.
#[local] Existing Instances Ref.common Ref.urls Ref.paths.

Definition wit_list (loop : bool) (files : list string) : AudioVideoConfig :=
  let c := make_audio_video_config (make_base_config ENCODE 10
             ((fun u => {| iu_id := 1; iu_input := u; iu_user_agent := 0 |}%Z) <$> files) []) in
  {| av_base := av_base c; av_have_video := av_have_video c; av_have_audio := av_have_audio c;
     av_audio_select := av_audio_select c; av_avformat := av_avformat c; av_loop := loop |}.
Definition wit_fopen (path : string) : option bytes :=
  if String.eqb path "/a" then Some (String.list_ascii_of_string "ab") else if String.eqb path "/e" then Some [] else None.

Definition wit_files : AudioVideoConfig := wit_list false ["file:///a"; "file:///e"; "file:///missing"; "file:///a"].

(** The file behind the missing one is played too, after an end of the stream. *)
Lemma playlist_plays_witness :
  exists s' es n,
    need_data (fun push_ok => Relay_HandleNeedData wit_fopen wit_files true push_ok (enough wit_files)) (replicate 8 true) playlist_new =
      (Ok true, s', es) /\
    told es = script wit_fopen wit_files playlist_new ++ replicate n End /\
    omap (fun x => match x with Byte a => Some (Some a) | End => Some None | _ => None end) (script wit_fopen wit_files playlist_new) =
      [Some "a"; Some "b"; None; Some "a"; Some "b"]%char.
Proof.
  destruct (playlist_plays wit_fopen wit_files playlist_new (Relay_HandleNeedData wit_fopen wit_files) (replicate 8 true))
    as (s' & es & n & Hrun & Ht & _ & _ & Hall & _); [reflexivity|right; reflexivity|].
  exists s', es, n. split; [exact Hrun|]. split.
  - rewrite Hall, app_nil_r in Ht; [exact Ht|]. vm_compute. lia.
  - vm_compute. reflexivity.
Defined.

Lemma empty_loop_hangs_witness :
  exists s' es, Relay_HandleNeedData wit_fopen (wit_list true ["file:///e"; "file:///e"]) true true 1000 playlist_new = (Ok false, s', es).
Proof.
  destruct (empty_loop_hangs wit_fopen (wit_list true ["file:///e"; "file:///e"]) playlist_new 1000) as (s' & es & Hr & _);
    [reflexivity|discriminate|vm_compute; repeat constructor|left; reflexivity|].
  exists s', es. exact Hr.
Defined.
End Witnesses.
