(* ===== verification/Timeshift.v ===== *)
(** * Chunks on disk: players, recorders and catchups

    [src/src/stream/timeshift.cpp] and [src/src/stream/streams/timeshift/]. A
    recorder writes numbered chunks into a directory; a player starts from the
    chunk that was written at the time it wants to show. What a scan of the
    directory gives and which files exist are arguments. *)

From Stdlib Require Import Ascii.
From S2P Require Import Prelude Platform StreamTypes.

(* [src/src/stream/timeshift.h:27-28 invalid_chunk_index] *)
Definition invalid_chunk_index : Z := 2 ^ 64 - 1.

(* [src/src/stream/timeshift.h:33-43 TimeShiftInfo] *)
Record TimeShiftInfo := {
  ti_dir : string;
  ti_chunk_life_time : Z;
  ti_delay : Z
}.

(** A [.ts] file of the directory: its name without the extension, and the time
    of its last modification when that can be read. *)
Record chunk_file := { cf_base : string; cf_mtime : option Z }.

Section Timeshift.
Context `{CommonLib} `{PathLib}.

(* [src/src/stream/timeshift.cpp:56-57 TimeShiftInfo::TimeShiftInfo] *)
Definition timeshift_info_default : TimeShiftInfo :=
  {| ti_dir := dir_default; ti_chunk_life_time := 12 * 3600; ti_delay := 0 |}.

(* [src/src/stream/timeshift.cpp:34-39 filter_files] *)
Definition filter_files (f : chunk_file) : bool := bool_decide (is_Some (conv_u64 (cf_base f))).

(** The number of a chunk; the sort's [CHECK] and the later conversions are of
    names that [filter_files] accepted. *)
Definition chunk_number (f : chunk_file) : Z := default 0%Z (conv_u64 (cf_base f)).

(* [src/src/stream/timeshift.cpp:41-53 compare_files] *)
Definition compare_files (first second : chunk_file) : outcome bool :=
  match conv_u64 (cf_base first), conv_u64 (cf_base second) with
  | Some a, Some b => Ok (a <? b)%Z
  | None, _ => Abort (CheckFailed ("Must be index but: " +:+ cf_base first))
  | Some _, None => Abort (CheckFailed ("Must be index but: " +:+ cf_base second))
  end.

Definition chunk_le (a b : chunk_file) : Prop := (chunk_number a <= chunk_number b)%Z.
#[export] Instance chunk_le_dec a b : Decision (chunk_le a b).
Proof. unfold chunk_le. apply _. Defined.
#[export] Instance chunk_le_total : Total chunk_le.
Proof. intros a b. unfold chunk_le. lia. Qed.
#[export] Instance chunk_le_trans : Transitive chunk_le.
Proof. intros a b c. unfold chunk_le. lia. Qed.

(** [ScanFolder(dir, CHUNK_EXT, false, &filter_files)] followed by the sort. *)
Definition sorted_chunks (scan : list chunk_file) : list chunk_file :=
  merge_sort chunk_le (List.filter filter_files scan).

(** The loop of [FindChunkToPlay]; [prev] is [prev_index]. A modification time
    that cannot be read leaves [file_created_time] uninitialised: [garbage]. *)
(* [src/src/stream/timeshift.cpp:80-100 TimeShiftInfo::FindChunkToPlay] *)
Fixpoint find_chunk (desired_time chunk_duration garbage prev : Z) (files : list chunk_file) : option Z :=
  match files with
  | [] => None
  | f :: files' =>
      let lindex := chunk_number f in
      let file_created_time := default garbage (cf_mtime f) in
      let diff := (desired_time - file_created_time + chunk_duration)%Z in
      if (- chunk_duration <? diff)%Z && (diff <? chunk_duration)%Z then
        if (0 <? diff)%Z && negb (prev =? invalid_chunk_index)%Z then Some prev else Some lindex
      else find_chunk desired_time chunk_duration garbage lindex files'
  end.

(** [now] is the time in milliseconds. *)
(* [src/src/stream/timeshift.cpp:62-103 TimeShiftInfo::FindChunkToPlay] *)
Definition FindChunkToPlay (t : TimeShiftInfo) (now chunk_duration garbage : Z)
    (dir_exists : bool) (scan : list chunk_file) : outcome (option Z) :=
  let desired_time := (Z.quot now 1000 - ti_delay t * 60)%Z in
  (if dir_exists then Ok tt else critical_log ("Folder with chunks doesn't exist: " +:+ ti_dir t)) ;;
  match sorted_chunks scan with
  | [] => Ok None
  | files => Ok (find_chunk desired_time chunk_duration garbage invalid_chunk_index files)
  end.

(** The number and the time of the last chunk. *)
(* [src/src/stream/timeshift.cpp:105-132 TimeShiftInfo::FindLastChunk] *)
Definition FindLastChunk (t : TimeShiftInfo) (dir_exists : bool) (scan : list chunk_file)
    : outcome (option (Z * Z)) :=
  (if dir_exists then Ok tt else critical_log ("Folder with chunks doesn't exist: " +:+ ti_dir t)) ;;
  match last (sorted_chunks scan) with
  | None => Ok None
  | Some last_file =>
      match cf_mtime last_file with
      | None => Ok None
      | Some file_created_time =>
          match conv_u64 (cf_base last_file) with
          | None => Ok None
          | Some lindex => Ok (Some (lindex, file_created_time))
          end
      end
  end.

(** ** Recorders *)

(** [chunk_] of a recorder; its duration is used by catchups only. *)
(* [src/src/utils/chunk_info.h:24-34 ChunkInfo] *)
Record ChunkInfo := { ch_path : string; ch_duration : Z; ch_index : Z }.

(* [src/src/stream/streams/timeshift/timeshift_recorder_stream.cpp:91-101 TimeShiftRecorderStream::GetNextChunkStrategy] *)
Definition GetNextChunkStrategy (now duration last_index last_index_created_time : Z) : Z :=
  let cur_time := Z.quot now 1000 in
  let diff := (cur_time - last_index_created_time)%Z in
  if (0 <? diff)%Z then u64 (last_index + Z.quot diff duration) else last_index.

(* [src/src/stream/streams/timeshift/catchup_stream.cpp:51-54 CatchupStream::GetNextChunkStrategy] *)
Definition catchup_GetNextChunkStrategy (last_index last_index_created_time : Z) : Z :=
  u64 (last_index + 1).

(** [strategy] is the virtual [GetNextChunkStrategy]. *)
(* [src/src/stream/streams/timeshift/timeshift_recorder_stream.cpp:76-83 TimeShiftRecorderStream::OnSplitmuxsinkCreated] *)
Definition OnSplitmuxsinkCreated (t : TimeShiftInfo) (strategy : Z -> Z -> Z) (dir_exists : bool)
    (scan : list chunk_file) : outcome ChunkInfo :=
  last ← FindLastChunk t dir_exists scan;
  let index := match last with
               | Some (index, file_created_time) => strategy index file_created_time
               | None => invalid_chunk_index
               end in
  Ok {| ch_path := ti_dir t; ch_duration := 2 ^ 64 - 1; ch_index := index |}.

(** [MemSPrintf("%s%llu." TS_EXTENSION, path, index)]. *)
Definition chunk_path (dir : string) (index : Z) : string := dir +:+ (show_u index +:+ ".ts").

(** [exists_] is [common::file_system::is_file_exist]. *)
(* [src/src/stream/streams/timeshift/timeshift_recorder_stream.cpp:128-140 TimeShiftRecorderStream::CalcNextIndex] *)
Definition CalcNextIndex (exists_ : string -> bool) (chunk : ChunkInfo) : Z :=
  let index := if (ch_index chunk =? invalid_chunk_index)%Z then 0%Z else ch_index chunk in
  if exists_ (chunk_path (ch_path chunk) index) then u64 (index + 1) else index.

(** The new chunk and the path that is given to the muxer. *)
(* [src/src/stream/streams/timeshift/timeshift_recorder_stream.cpp:142-151 TimeShiftRecorderStream::OnPathSet] *)
Definition OnPathSet (exists_ : string -> bool) (chunk : ChunkInfo) : ChunkInfo * string :=
  let ind := CalcNextIndex exists_ chunk in
  let chunk' := {| ch_path := ch_path chunk; ch_duration := ch_duration chunk; ch_index := ind |} in
  (chunk', chunk_path (ch_path chunk') (ch_index chunk')).

(** The time after which chunks are kept, on the seconds that the cleanup runs. *)
(* [src/src/stream/streams/timeshift/timeshift_recorder_stream.cpp:114-122 TimeShiftRecorderStream::HandleMainTimerTick] *)
Definition cleanup_time (t : TimeShiftInfo) (now elapsed : Z) : option Z :=
  if (Z.rem elapsed 60 =? 0)%Z then Some (Z.quot now 1000 - ti_chunk_life_time t)%Z else None.

(** ** Catchups *)

Definition GST_CLOCK_TIME_NONE : Z := 2 ^ 64 - 1.
Definition clock_valid (t : Z) : bool := negb (t =? GST_CLOCK_TIME_NONE)%Z.

(** [buffer_time] is the time of the sample's buffer, when there is one. *)
(* [src/src/stream/streams/timeshift/catchup_stream.cpp:109-129 CatchupStream::OnPathSet] *)
Definition catchup_OnPathSet (exists_ : string -> bool) (chunk : ChunkInfo) (chunks : list ChunkInfo)
    (buffer_time : option Z) : ChunkInfo * list ChunkInfo * string :=
  let ind := CalcNextIndex exists_ chunk in
  let new_chunk := {| ch_path := show_u ind +:+ ".ts"; ch_duration := GST_CLOCK_TIME_NONE; ch_index := ind |} in
  let '(chunk, chunks) :=
    match buffer_time with
    | None => (chunk, chunks)
    | Some curr_time =>
        let chunks :=
          if clock_valid curr_time && clock_valid (ch_duration chunk) then
            match chunks with
            | [] => []
            | _ => alter (fun c => {| ch_path := ch_path c; ch_duration := u64 (curr_time - ch_duration chunk);
                                      ch_index := ch_index c |}) (pred (length chunks)) chunks
            end
          else chunks in
        ({| ch_path := ch_path chunk; ch_duration := curr_time; ch_index := ch_index chunk |}, chunks)
    end in
  let chunks := chunks ++ [new_chunk] in
  let '(chunk', path) := OnPathSet exists_ chunk in
  (chunk', chunks, path).
End Timeshift.

(** ** Finding chunks *)

Section Finding.
Context `{CommonLib} `{PathLib}.

Lemma filter_files_elem scan f :
  f ∈ List.filter filter_files scan <-> f ∈ scan /\ is_Some (conv_u64 (cf_base f)).
Proof.
  rewrite !list_elem_of_In, List.filter_In. unfold filter_files. by rewrite bool_decide_eq_true.
Qed.

Lemma sorted_chunks_elem scan f :
  f ∈ sorted_chunks scan <-> f ∈ scan /\ is_Some (conv_u64 (cf_base f)).
Proof. unfold sorted_chunks. by rewrite merge_sort_Permutation, filter_files_elem. Qed.

Lemma sorted_chunks_sorted scan : StronglySorted chunk_le (sorted_chunks scan).
Proof. apply StronglySorted_merge_sort; apply _. Qed.

(** The comparison of the sort never fails on the files that it compares. *)
Lemma compare_files_Ok scan a b :
  a ∈ sorted_chunks scan -> b ∈ sorted_chunks scan ->
  compare_files a b = Ok (chunk_number a <? chunk_number b)%Z.
Proof.
  intros [_ [x Hx]]%sorted_chunks_elem [_ [y Hy]]%sorted_chunks_elem.
  unfold compare_files, chunk_number. by rewrite Hx, Hy.
Qed.

Lemma last_max (l : list chunk_file) f :
  StronglySorted chunk_le l -> last l = Some f -> forall g, g ∈ l -> (chunk_number g <= chunk_number f)%Z.
Proof.
  induction 1 as [|x l Hl IH Hx]; [done|]. intros Hf g. destruct l as [|y l].
  - cbn in Hf. simplify_eq. intros Hg%list_elem_of_singleton. subst g. lia.
  - rewrite last_cons_cons in Hf. intros [->|Hg]%elem_of_cons; [|by apply IH].
    apply last_Some_elem_of in Hf. rewrite Forall_forall in Hx. by apply Hx.
Qed.

(** The last chunk is one of the directory and no chunk of the directory
    has a greater number. *)
Theorem FindLastChunk_max t dir_exists scan index time :
  FindLastChunk t dir_exists scan = Ok (Some (index, time)) ->
  (exists f, f ∈ scan /\ conv_u64 (cf_base f) = Some index /\ cf_mtime f = Some time) /\
  (forall f i, f ∈ scan -> conv_u64 (cf_base f) = Some i -> (i <= index)%Z).
Proof.
  unfold FindLastChunk. intros (_ & _ & Hl)%outcome_bind_Ok.
  destruct (last (sorted_chunks scan)) as [f|] eqn:Hf; [|done].
  destruct (cf_mtime f) as [m|] eqn:Hm; [|done].
  destruct (conv_u64 (cf_base f)) as [i|] eqn:Hi; [|done]. simplify_eq. split.
  - exists f. apply last_Some_elem_of, sorted_chunks_elem in Hf as [? _]. done.
  - intros g j Hg Hj.
    assert (Hle : (chunk_number g <= chunk_number f)%Z).
    { eapply last_max; [apply sorted_chunks_sorted | done |]. apply sorted_chunks_elem. by rewrite Hj. }
    unfold chunk_number in Hle. by rewrite Hi, Hj in Hle.
Qed.

Definition in_window (desired_time d garbage : Z) (f : chunk_file) : Prop :=
  (- d < desired_time - default garbage (cf_mtime f) + d < d)%Z.

#[export] Instance in_window_dec desired_time d garbage f : Decision (in_window desired_time d garbage f).
Proof. unfold in_window. apply _. Defined.

Lemma find_chunk_spec dt d g prev files :
  find_chunk dt d g prev files =
  match list_find (in_window dt d g) files with
  | None => None
  | Some (i, f) =>
      let prev' := default prev (chunk_number <$> (last (take i files))) in
      Some (if (0 <? dt - default g (cf_mtime f) + d)%Z && negb (prev' =? invalid_chunk_index)%Z
            then prev' else chunk_number f)
  end.
Proof.
  revert prev. induction files as [|f files IH]; intros prev; [done|].
  cbn [find_chunk list_find].
  assert (Hb : (- d <? dt - default g (cf_mtime f) + d)%Z && (dt - default g (cf_mtime f) + d <? d)%Z
    = bool_decide (in_window dt d g f)).
  { unfold in_window. repeat case_bool_decide; lia. }
  rewrite Hb. destruct (decide (in_window dt d g f)) as [Hw|Hw].
  - rewrite bool_decide_eq_true_2 by done. cbn -[Z.ltb].
    match goal with |- (if ?b then _ else _) = _ => by destruct b end.
  - rewrite bool_decide_eq_false_2 by done. rewrite IH.
    destruct (list_find (in_window dt d g) files) as [[i f']|] eqn:Hf; [|done]. cbn.
    assert (Hl : default prev (chunk_number <$> last (f :: take i files)) =
                 default (chunk_number f) (chunk_number <$> last (take i files))).
    { rewrite last_cons. by destruct (last (take i files)). }
    by rewrite Hl.
Qed.

(** The chunk to play is that of the first file, in the order of the
    numbers, whose time is in the window around the wanted time, or the one
    before it when the wanted time is past that file's beginning; there is none
    when no file is in the window. *)
Theorem FindChunkToPlay_spec t now d garbage scan :
  FindChunkToPlay t now d garbage true scan = Ok
    (let dt := (Z.quot now 1000 - ti_delay t * 60)%Z in
     '(i, f) ← list_find (in_window dt d garbage) (sorted_chunks scan);
     let prev := default invalid_chunk_index (chunk_number <$> last (take i (sorted_chunks scan))) in
     Some (if (0 <? dt - default garbage (cf_mtime f) + d)%Z && negb (prev =? invalid_chunk_index)%Z
           then prev else chunk_number f)).
Proof.
  unfold FindChunkToPlay. cbn -[sorted_chunks find_chunk Z.quot].
  destruct (sorted_chunks scan) as [|f files] eqn:Hs; [done|].
  rewrite find_chunk_spec. by destruct (list_find _ _) as [[i g]|].
Qed.

(** With a duration that is not positive no chunk is ever found. *)
Lemma FindChunkToPlay_nonpositive t now d garbage scan :
  (d <= 0)%Z -> FindChunkToPlay t now d garbage true scan = Ok None.
Proof.
  intros Hd. unfold FindChunkToPlay. cbn -[sorted_chunks find_chunk Z.quot].
  destruct (sorted_chunks scan) as [|f0 files]; [done|]. generalize (f0 :: files) as l. intros l.
  f_equal. generalize invalid_chunk_index at 1. induction l as [|f l IH]; intros prev; [done|]. cbn.
  destruct (_ && _) eqn:Hb; [|apply IH]. apply andb_true_iff in Hb as [H1%Z.ltb_lt H2%Z.ltb_lt]. lia.
Qed.
End Finding.

(** ** A recorder never writes over a chunk *)

Section Recording.
Context `{CommonLib} `{PathLib}.
Local Open Scope Z_scope.

Lemma digits_no_dot s : all_digits s = true ->
  string_forallb (fun c => bool_decide (c <> "."%char)) s = true.
Proof.
  apply string_forallb_impl. intros c Hc. apply bool_decide_eq_true. by intros ->.
Qed.

Lemma chunk_path_inj dir a b :
  0 <= a -> 0 <= b -> chunk_path dir a = chunk_path dir b -> a = b.
Proof.
  intros Ha Hb Heq. unfold chunk_path in Heq. apply (inj (String.append dir)) in Heq.
  destruct (show_u_digits a Ha) as [_ Hda], (show_u_digits b Hb) as [_ Hdb].
  assert (H1 : split_first "."%char (show_u a +:+ ".ts") = Some (show_u a, "ts"%string)).
  { apply split_first_spec. split; [done|]. by apply digits_no_dot. }
  assert (H2 : split_first "."%char (show_u b +:+ ".ts") = Some (show_u b, "ts"%string)).
  { apply split_first_spec. split; [done|]. by apply digits_no_dot. }
  rewrite Heq, H2 in H1. injection H1 as H1. by apply show_u_inj.
Qed.

(** A recorder and the files of its directory. The muxer creates the file of
    the path it was given, or has nothing to write; old chunks are removed. The
    number of a chunk is below the width of its counter. *)
Inductive rec_step : ChunkInfo * gset string -> ChunkInfo * gset string -> Prop :=
| rec_path_set c files c' path files' :
    (ch_index c < 2 ^ 64 - 2 \/ ch_index c = invalid_chunk_index) ->
    OnPathSet (fun p => bool_decide (p ∈ files)) c = (c', path) ->
    files' = ({[path]} ∪ files) \/ files' = files ->
    rec_step (c, files) (c', files')
| rec_cleanup c files files' : files' ⊆ files -> rec_step (c, files) (c, files').

(** No file of the directory is a chunk after the current one. *)
Definition rec_inv (x : ChunkInfo * gset string) : Prop :=
  let '(c, files) := x in
  let i := if (ch_index c =? invalid_chunk_index) then 0 else ch_index c in
  0 <= ch_index c /\
  (forall j, 0 <= j -> chunk_path (ch_path c) j ∈ files -> j <= i).

Lemma rec_inv_next c files :
  rec_inv (c, files) -> (ch_index c < 2 ^ 64 - 2 \/ ch_index c = invalid_chunk_index) ->
  let ind := CalcNextIndex (fun p => bool_decide (p ∈ files)) c in
  0 <= ind < 2 ^ 64 - 1 /\ (chunk_path (ch_path c) ind ∉ files) /\
  (forall j, 0 <= j -> chunk_path (ch_path c) j ∈ files -> j <= ind).
Proof.
  intros [Hpos Hj] Hlt. unfold CalcNextIndex.
  set (i := if ch_index c =? invalid_chunk_index then 0 else ch_index c) in *.
  assert (Hi : 0 <= i < 2 ^ 64 - 2).
  { unfold i. destruct (Z.eqb_spec (ch_index c) invalid_chunk_index); [lia|]. destruct Hlt; lia. }
  case_bool_decide as Hin.
  - rewrite wrap_small by (unfold in_u; lia). cbn zeta. split; [lia|]. split.
    + intros Hn. apply Hj in Hn; lia.
    + intros j Hj0 Hjin. apply Hj in Hjin; lia.
  - cbn zeta. split; [lia|]. split; [done|]. by apply Hj.
Qed.

Lemma rec_step_inv x y : rec_inv x -> rec_step x y -> rec_inv y.
Proof.
  intros Hx Hs. destruct Hs as [c files c' path files' Hlt Hp Hf|c files files' Hsub].
  - destruct (rec_inv_next c files Hx Hlt) as (Hr & Hn & Hj).
    unfold OnPathSet in Hp. injection Hp as <- <-. cbn in *.
    rewrite (proj2 (Z.eqb_neq _ _)) by (unfold invalid_chunk_index; lia).
    split; [lia|]. intros j Hj0 Hin. destruct Hf as [-> | ->]; [|by apply Hj].
    apply elem_of_union in Hin as [Hin%elem_of_singleton|Hin]; [|by apply Hj].
    apply chunk_path_inj in Hin; lia.
  - destruct Hx as [Hpos Hj]. split; [done|]. intros j Hj0 Hin. apply Hj; [done|]. set_solver.
Qed.

(** The scan lists every chunk of the directory and nothing else of them. *)
Definition scan_of (dir : string) (files : gset string) (scan : list chunk_file) : Prop :=
  forall j, 0 <= j -> chunk_path dir j ∈ files ->
    exists f, f ∈ scan /\ conv_u64 (cf_base f) = Some j.

Lemma GetNextChunkStrategy_ge now d last created :
  0 < d -> 0 <= last -> last + Z.quot (Z.quot now 1000 - created) d < 2 ^ 64 ->
  last <= GetNextChunkStrategy now d last created.
Proof.
  intros Hd Hl Hlt. unfold GetNextChunkStrategy. destruct (_ <? _) eqn:Hb; [|done].
  apply Z.ltb_lt in Hb.
  pose proof (Z.quot_pos (Z.quot now 1000 - created) d ltac:(lia) ltac:(lia)).
  rewrite wrap_small by (unfold in_u; lia). lia.
Qed.

(** A directory in which the time of the last chunk can be read. *)
Definition times_known (scan : list chunk_file) : Prop :=
  forall f, f ∈ scan -> is_Some (cf_mtime f).

Lemma FindLastChunk_None t scan :
  FindLastChunk t true scan = Ok None -> times_known scan ->
  forall f, f ∈ scan -> conv_u64 (cf_base f) = None.
Proof.
  unfold FindLastChunk. cbn. intros Hl Ht f Hf.
  destruct (last (sorted_chunks scan)) as [g|] eqn:Hg.
  - apply last_Some_elem_of, sorted_chunks_elem in Hg as [Hgs [i Hi]].
    destruct (Ht g Hgs) as [m Hm]. by rewrite Hm, Hi in Hl.
  - apply last_None in Hg. destruct (conv_u64 (cf_base f)) as [i|] eqn:Hi; [|done].
    assert (Hin : f ∈ sorted_chunks scan) by (apply sorted_chunks_elem; by rewrite Hi).
    rewrite Hg in Hin. by apply elem_of_nil in Hin.
Qed.

Lemma recorder_start_inv `{!CommonLibOk} t now d scan files c :
  0 < d -> scan_of (ti_dir t) files scan -> times_known scan ->
  (forall f i m, f ∈ scan -> conv_u64 (cf_base f) = Some i -> cf_mtime f = Some m ->
     i + Z.max 0 (Z.quot (Z.quot now 1000 - m) d) < 2 ^ 64 - 1) ->
  OnSplitmuxsinkCreated t (GetNextChunkStrategy now d) true scan = Ok c ->
  rec_inv (c, files).
Proof.
  intros Hd Hscan Ht Hb Hc. unfold OnSplitmuxsinkCreated in Hc.
  apply outcome_bind_Ok in Hc as ([[index time]|] & Hl & [= <-]); cbn.
  - destruct (FindLastChunk_max _ _ _ _ _ Hl) as [(f & Hf & Hi & Hm) Hmax].
    assert (Hpos : 0 <= index < 2 ^ 64) by (by apply conv_u64_range in Hi).
    specialize (Hb f index time Hf Hi Hm).
    pose proof (GetNextChunkStrategy_ge now d index time Hd ltac:(lia) ltac:(lia)) as Hge.
    split; [lia|]. intros j Hj Hin. destruct (Hscan j Hj Hin) as (g & Hg & Hgi).
    specialize (Hmax g j Hg Hgi).
    rewrite (proj2 (Z.eqb_neq _ _)); [lia|].
    unfold GetNextChunkStrategy, invalid_chunk_index in *. destruct (_ <? _) eqn:Hbb.
    + apply Z.ltb_lt in Hbb.
      pose proof (Z.quot_pos (Z.quot now 1000 - time) d ltac:(lia) ltac:(lia)).
      rewrite wrap_small by (unfold in_u; lia). lia.
    + lia.
  - split; [unfold invalid_chunk_index; lia|]. intros j Hj Hin.
    destruct (Hscan j Hj Hin) as (g & Hg & Hgi).
    by rewrite (FindLastChunk_None t scan Hl Ht g Hg) in Hgi.
Qed.

(** C18: a recorder that starts on a directory of chunks never gives the muxer
    the path of a file that exists: whatever chunks are written, left empty or
    removed since, the next path is that of a new file. *)
Theorem recorder_never_overwrites `{!CommonLibOk} t now d scan files c c1 files1 c2 path :
  0 < d -> scan_of (ti_dir t) files scan -> times_known scan ->
  (forall f i m, f ∈ scan -> conv_u64 (cf_base f) = Some i -> cf_mtime f = Some m ->
     i + Z.max 0 (Z.quot (Z.quot now 1000 - m) d) < 2 ^ 64 - 1) ->
  OnSplitmuxsinkCreated t (GetNextChunkStrategy now d) true scan = Ok c ->
  steps rec_step (c, files) (c1, files1) ->
  (ch_index c1 < 2 ^ 64 - 2 \/ ch_index c1 = invalid_chunk_index) ->
  OnPathSet (fun p => bool_decide (p ∈ files1)) c1 = (c2, path) ->
  path ∉ files1.
Proof.
  intros Hd Hscan Ht Hb Hc Hsteps Hlt Hp.
  assert (Hinv : rec_inv (c1, files1)).
  { eapply steps_inv; [apply rec_step_inv | | done]. by eapply recorder_start_inv. }
  destruct (rec_inv_next c1 files1 Hinv Hlt) as (_ & Hn & _).
  unfold OnPathSet in Hp. by injection Hp as <- <-.
Qed.

(** The catchup's list of chunks names the file that the muxer is given:
    the last entry has the number and the base name of the returned path. *)
Theorem catchup_OnPathSet_names exists_ chunk chunks buffer_time chunk' chunks' path :
  catchup_OnPathSet exists_ chunk chunks buffer_time = (chunk', chunks', path) ->
  exists e, last chunks' = Some e /\ length chunks' = S (length chunks) /\
    ch_index e = ch_index chunk' /\ ch_path chunk' = ch_path chunk /\
    path = ch_path chunk +:+ ch_path e.
Proof.
  unfold catchup_OnPathSet, OnPathSet. destruct buffer_time as [t|]; cbn -[alter].
  - intros [= <- <- <-]. eexists. split; [by rewrite last_snoc|]. rewrite length_app. cbn -[alter].
    split; [|split_and!; done]. destruct (_ && _); [|lia]. destruct chunks; [done|].
    rewrite length_alter. lia.
  - intros [= <- <- <-]. eexists. split; [by rewrite last_snoc|]. rewrite length_app. cbn.
    split; [lia|]. done.
Qed.
End Recording.

(** ** The theorems at a concrete directory *)

Section Witnesses.
#[local] Existing Instance Ref.common.
#[local] Existing Instance Ref.paths.
Local Open Scope Z_scope.

Definition sample_info : TimeShiftInfo := {| ti_dir := "/ts/"; ti_chunk_life_time := 43200; ti_delay := 0 |}.
Definition sample_scan : list chunk_file :=
  [ {| cf_base := "11"; cf_mtime := Some 1000 |}; {| cf_base := "9"; cf_mtime := Some 760 |};
    {| cf_base := "10"; cf_mtime := Some 880 |}; {| cf_base := "index"; cf_mtime := Some 5 |} ].
Definition sample_files : gset string := {["/ts/9.ts"; "/ts/10.ts"; "/ts/11.ts"]}.

Lemma FindLastChunk_max_witness :
  FindLastChunk sample_info true sample_scan = Ok (Some (11, 1000)) /\
  (forall f i, f ∈ sample_scan -> conv_u64 (cf_base f) = Some i -> i <= 11).
Proof.
  split; [reflexivity|].
  apply (@FindLastChunk_max Ref.common sample_info true sample_scan 11 1000). reflexivity.
Defined.

(** At second 1100 with chunks of 120 seconds the recorder restarts at 11, which
    exists, so that the first chunk is 12. *)
Definition sample_chunk : ChunkInfo :=
  {| ch_path := "/ts/"; ch_duration := GST_CLOCK_TIME_NONE; ch_index := 11 |}.

Lemma sample_scan_of : scan_of "/ts/" sample_files sample_scan.
Proof.
  intros j Hj Hin. unfold sample_files in Hin.
  assert (Hcases : j = 9 \/ j = 10 \/ j = 11).
  { apply elem_of_union in Hin as [[Hin|Hin]%elem_of_union|Hin]; apply elem_of_singleton in Hin.
    - left. by apply (chunk_path_inj "/ts/").
    - right; left. by apply (chunk_path_inj "/ts/").
    - right; right. by apply (chunk_path_inj "/ts/"). }
  destruct Hcases as [->|[->| ->]].
  - exists {| cf_base := "9"; cf_mtime := Some 760 |}. split; [unfold sample_scan; set_solver | reflexivity].
  - exists {| cf_base := "10"; cf_mtime := Some 880 |}. split; [unfold sample_scan; set_solver | reflexivity].
  - exists {| cf_base := "11"; cf_mtime := Some 1000 |}. split; [unfold sample_scan; set_solver | reflexivity].
Qed.

Lemma sample_indexes f i m :
  f ∈ sample_scan -> conv_u64 (cf_base f) = Some i -> cf_mtime f = Some m ->
  i + Z.max 0 (Z.quot (Z.quot 1100000 1000 - m) 120) < 2 ^ 64 - 1.
Proof.
  unfold sample_scan. rewrite !elem_of_cons, elem_of_nil.
  intros [->|[->|[->|[->|[]]]]] Hi Hm; vm_compute in Hi; injection Hm as <-; simplify_eq;
    vm_compute; reflexivity.
Qed.

Lemma recorder_never_overwrites_witness :
  snd (OnPathSet (fun p => bool_decide (p ∈ sample_files)) sample_chunk) = "/ts/12.ts"%string /\
  "/ts/12.ts"%string ∉ sample_files.
Proof.
  split; [vm_compute; reflexivity|].
  apply (@recorder_never_overwrites Ref.common Ref.common_ok sample_info 1100000 120 sample_scan
           sample_files sample_chunk sample_chunk sample_files
           {| ch_path := "/ts/"; ch_duration := GST_CLOCK_TIME_NONE; ch_index := 12 |}).
  - reflexivity.
  - exact sample_scan_of.
  - intros f. unfold sample_scan. rewrite !elem_of_cons, elem_of_nil.
    intros [->|[->|[->|[->|[]]]]]; by eexists.
  - exact sample_indexes.
  - reflexivity.
  - apply steps_refl.
  - left. reflexivity.
  - vm_compute. reflexivity.
Defined.

Lemma catchup_OnPathSet_names_witness :
  exists e, last (snd (fst (catchup_OnPathSet (fun _ => false) sample_chunk [] None))) = Some e /\
    "/ts/11.ts"%string = ch_path sample_chunk +:+ ch_path e.
Proof.
  edestruct (@catchup_OnPathSet_names (fun _ => false) sample_chunk [] None)
    as (e & Hl & _ & _ & _ & Hp); [vm_compute; reflexivity|].
  exists e. split; [exact Hl | exact Hp].
Defined.
End Witnesses.
