(* ===== verification/M3u8.v ===== *)
(** * Playlists of chunks

    [src/src/utils/m3u8_reader.cpp], [m3u8_writer.cpp] and [chunk_info.cpp], and
    the catchup that writes its list of chunks when it ends and reads it when it
    starts ([src/src/stream/streams/timeshift/catchup_stream.cpp]). *)

From Stdlib Require Import Ascii.
From Stdlib Require SpecFloat.
From S2P Require Import Prelude Files Platform Doubles StreamTypes Timeshift.

(** Whether the first byte of the buffer that is no space is a byte of the
    line; after the line there is a null. *)
Fixpoint has_text (t : string) : bool :=
  match t with
  | EmptyString => false
  | String c t' => if isspace c then has_text t' else negb (Ascii.eqb c nul)
  end.

(* [src/src/utils/m3u8_reader.cpp:33-33 MAX_LINE] *)
Definition MAX_LINE : nat := 255.

(** [None]: the fuel has run out. *)
(* [src/src/utils/m3u8_reader.cpp:37-54 GetNonEmptyLine] *)
Fixpoint GetNonEmptyLine (fuel : nat) (fl : FILE) : option (option string * FILE) :=
  match fuel with
  | O => None
  | S fuel =>
      match fgets MAX_LINE fl with
      | (None, fl) => Some (None, fl)
      | (Some t, fl) => if has_text t then Some (Some (c_str t), fl) else GetNonEmptyLine fuel fl
      end
  end.

Fixpoint trim_end (s : string) : string :=
  match s with
  | EmptyString => ""
  | String c s' =>
      let t := trim_end s' in
      if is_empty t && isspace c then "" else String c t
  end.

(** A text of spaces only would be popped beyond its beginning. *)
(* [src/src/utils/m3u8_reader.cpp:56-63 RemoveTrailingSpaces] *)
Definition RemoveTrailingSpaces (str : string) : outcome string :=
  if is_empty str then Ok str
  else if string_forallb isspace str then Abort (UndefinedBehaviour "str->back() of an empty string")
  else Ok (trim_end str).

(** ** Lines *)

Fixpoint strip_suffix (suf s : string) : option string :=
  if String.eqb s suf then Some ""
  else match s with
       | EmptyString => None
       | String c s' => String c <$> strip_suffix suf s'
       end.

(** The group of [^<tag>([<set>]+)$]. *)
Definition match_tag (tag : string) (set : ascii -> bool) (line : string) : option string :=
  rest ← strip_prefix tag line;
  if negb (is_empty rest) && string_forallb set rest then Some rest else None.

Definition is_upper (c : ascii) : bool := let n := N_of_ascii c in (65 <=? n)%N && (n <=? 90)%N.
Definition is_word (c : ascii) : bool :=
  let n := N_of_ascii c in is_digit c || is_upper c || ((97 <=? n)%N && (n <=? 122)%N) || (n =? 95)%N.

(** The group of [^[A-Za-z0-9_]*?([0-9]+)$], whose prefix is the shortest. *)
Fixpoint lazy_digits (s : string) : option string :=
  if negb (is_empty s) && all_digits s then Some s
  else match s with
       | EmptyString => None
       | String c s' => if is_word c then lazy_digits s' else None
       end.

(* [src/src/utils/m3u8_reader.cpp:162-162 M3u8Reader::ParseChunks] *)
Definition m3u8_chunk_header_re (line : string) : option string :=
  rest ← strip_prefix "#EXTINF:" line;
  num ← strip_suffix "," rest;
  if negb (is_empty num) && string_forallb (fun c => is_digit c || Ascii.eqb c ".") num then Some num else None.

(* [src/src/utils/m3u8_reader.cpp:163-163 M3u8Reader::ParseChunks] *)
Definition m3u8_chunk_re (line : string) : option string :=
  name ← strip_suffix ".ts" line; lazy_digits name.

(** ** The reader *)

(* [src/src/utils/m3u8_reader.h:27-53 M3u8Reader] *)
Record M3u8Reader := {
  version_ : Z;
  allow_cache_ : bool;
  media_sequence_ : Z;
  target_duration_ : Z;
  chunks_ : list ChunkInfo
}.

(* [src/src/utils/m3u8_reader.cpp:69-69 M3u8Reader::M3u8Reader] *)
Definition m3u8_reader_new : M3u8Reader :=
  {| version_ := -1; allow_cache_ := false; media_sequence_ := -1; target_duration_ := -1; chunks_ := [] |}.

(* [src/src/utils/m3u8_reader.cpp:205-212 M3u8Reader::Clear] *)
Definition Clear (r : M3u8Reader) : M3u8Reader :=
  {| version_ := -1; allow_cache_ := false; media_sequence_ := -1; target_duration_ := -1; chunks_ := [] |}.

Definition set_version (v : Z) (r : M3u8Reader) : M3u8Reader :=
  {| version_ := v; allow_cache_ := allow_cache_ r; media_sequence_ := media_sequence_ r;
     target_duration_ := target_duration_ r; chunks_ := chunks_ r |}.
Definition set_allow_cache (b : bool) (r : M3u8Reader) : M3u8Reader :=
  {| version_ := version_ r; allow_cache_ := b; media_sequence_ := media_sequence_ r;
     target_duration_ := target_duration_ r; chunks_ := chunks_ r |}.
Definition set_media_sequence (v : Z) (r : M3u8Reader) : M3u8Reader :=
  {| version_ := version_ r; allow_cache_ := allow_cache_ r; media_sequence_ := v;
     target_duration_ := target_duration_ r; chunks_ := chunks_ r |}.
Definition set_target_duration (v : Z) (r : M3u8Reader) : M3u8Reader :=
  {| version_ := version_ r; allow_cache_ := allow_cache_ r; media_sequence_ := media_sequence_ r;
     target_duration_ := v; chunks_ := chunks_ r |}.
Definition push_chunk (c : ChunkInfo) (r : M3u8Reader) : M3u8Reader :=
  {| version_ := version_ r; allow_cache_ := allow_cache_ r; media_sequence_ := media_sequence_ r;
     target_duration_ := target_duration_ r; chunks_ := chunks_ r ++ [c] |}.

(** What a line of the head of the file is. *)
Inductive header_line := NextLine (r : M3u8Reader) | BadLine | ChunkLine.

(* [src/src/utils/m3u8_reader.cpp:25-25 M3U8_HEADER] *)
Definition M3U8_HEADER : string := "#EXTM3U".
(* [src/src/utils/m3u8_reader.cpp:31-31 M3U8_FOOTER] *)
Definition M3U8_FOOTER : string := "#EXT-X-ENDLIST".

(** Nanoseconds in a second. *)
Definition SECOND : Z := 1000000000.
Definition seconds_to_ns (d : double) : outcome Z := dbl_to_u64 (dbl_mul d (dbl_of_Z SECOND)).

Section Reader.
Context `{CommonLib}.

Definition with_int (conv : option Z) (set : Z -> M3u8Reader) : header_line :=
  match conv with Some z => NextLine (set z) | None => BadLine end.

(** One turn of the loop over the head. *)
(* [src/src/utils/m3u8_reader.cpp:98-128 M3u8Reader::ParseFile] *)
Definition parse_header_line (line : string) (r : M3u8Reader) : header_line :=
  if String.eqb line M3U8_HEADER then NextLine r
  else match match_tag "#EXT-X-VERSION:" is_digit line with
  | Some num => with_int (conv_i32 num) (fun v => set_version v r)
  | None =>
  match match_tag "#EXT-X-ALLOW-CACHE:" is_upper line with
  | Some allow_cache =>
      if String.eqb allow_cache "YES" then NextLine (set_allow_cache true r)
      else if String.eqb allow_cache "NO" then NextLine (set_allow_cache false r)
      else BadLine
  | None =>
  match match_tag "#EXT-X-MEDIA-SEQUENCE:" is_digit line with
  | Some num => with_int (conv_i32 num) (fun v => set_media_sequence v r)
  | None =>
  match match_tag "#EXT-X-TARGETDURATION:" is_digit line with
  | Some num => with_int (conv_i32 num) (fun v => set_target_duration v r)
  | None => ChunkLine
  end end end end.

(** The chunk that two lines stand for. *)
(* [src/src/utils/m3u8_reader.cpp:159-181 M3u8Reader::ParseChunks] *)
Definition parse_chunk (header_line chunk_line : string) : outcome (option ChunkInfo) :=
  match m3u8_chunk_header_re header_line ≫= conv_double with
  | None => Ok None
  | Some duration =>
      match m3u8_chunk_re chunk_line ≫= conv_u64 with
      | None => Ok None
      | Some index =>
          ns ← seconds_to_ns duration;
          Ok (Some {| ch_path := chunk_line; ch_duration := ns; ch_index := index |})
      end
  end.

(** A line that is not empty, without the spaces at its end. *)
Definition next_line (fl : FILE) : outcome (option (option string * FILE)) :=
  match GetNonEmptyLine (S (String.length (f_data fl))) fl with
  | None => Ok None
  | Some (None, fl) => Ok (Some (None, fl))
  | Some (Some line, fl) => line ← RemoveTrailingSpaces line; Ok (Some (Some line, fl))
  end.

(** The result and the reader; [None]: the fuel has run out. *)
(* [src/src/utils/m3u8_reader.cpp:138-183 M3u8Reader::ParseChunks] *)
Fixpoint ParseChunks (fuel : nat) (fl : FILE) (r : M3u8Reader) : outcome (option (bool * M3u8Reader)) :=
  match fuel with
  | O => Ok None
  | S fuel =>
      header ← next_line fl;
      match header with
      | None => Ok None
      | Some (None, _) => Ok (Some (negb (bool_decide (chunks_ r = [])), r))
      | Some (Some header_line, fl) =>
          if String.eqb header_line M3U8_FOOTER then Ok (Some (true, r))
          else
            chunk ← next_line fl;
            match chunk with
            | None => Ok None
            | Some (None, _) => Ok (Some (false, r))
            | Some (Some chunk_line, fl) =>
                c ← parse_chunk header_line chunk_line;
                match c with
                | None => Ok (Some (false, r))
                | Some c => ParseChunks fuel fl (push_chunk c r)
                end
            end
      end
  end.

Definition fuel_of (fl : FILE) : nat := S (String.length (f_data fl)).

(* [src/src/utils/m3u8_reader.cpp:96-135 M3u8Reader::ParseFile] *)
Fixpoint parse_head (fuel : nat) (fl : FILE) (r : M3u8Reader) : outcome (option (bool * M3u8Reader)) :=
  match fuel with
  | O => Ok None
  | S fuel =>
      l ← next_line fl;
      match l with
      | None => Ok None
      | Some (None, _) => Ok (Some (false, r))
      | Some (Some line, fl) =>
          match parse_header_line line r with
          | NextLine r => parse_head fuel fl r
          | BadLine => Ok (Some (false, r))
          | ChunkLine =>
              let off := Z.of_nat (f_pos fl) in
              let fl := fseek fl (off - Z.of_nat (String.length line) - 1) in
              ParseChunks (fuel_of fl) fl r
          end
      end
  end.

(* [src/src/utils/m3u8_reader.cpp:82-136 M3u8Reader::ParseFile] *)
Definition ParseFile (fl : option FILE) (r : M3u8Reader) : outcome (option (bool * M3u8Reader)) :=
  let r := Clear r in
  match fl with
  | None => Ok (Some (false, r))
  | Some fl => parse_head (fuel_of fl) fl r
  end.

(** [data]: the file behind the path, when it can be opened. *)
(* [src/src/utils/m3u8_reader.cpp:71-80 M3u8Reader::Parse] *)
Definition Parse (data : option string) (r : M3u8Reader) : outcome (option (bool * M3u8Reader)) :=
  ParseFile ((fun d => {| f_data := d; f_pos := 0 |}) <$> data) r.
End Reader.

(** ** The writer *)

Definition eol : string := String newline "".

(* [src/src/utils/chunk_info.cpp:28-30 ChunkInfo::GetDurationInSecconds] *)
Definition GetDurationInSecconds (c : ChunkInfo) : double :=
  dbl_div (dbl_of_Z (ch_duration c)) (dbl_of_Z SECOND).

(** The texts that the writer hands to the file. *)
(* [src/src/utils/m3u8_writer.cpp:28-35 M3u8Writer::WriteHeader] *)
Definition WriteHeader (first_index target_duration : Z) : string :=
  "#EXTM3U" +:+ eol +:+ ("#EXT-X-MEDIA-SEQUENCE:" +:+ show_u first_index) +:+ eol +:+
  "#EXT-X-ALLOW-CACHE:YES" +:+ eol +:+ "#EXT-X-VERSION:3" +:+ eol +:+
  ("#EXT-X-TARGETDURATION:" +:+ show_u target_duration) +:+ eol.

(* [src/src/utils/m3u8_writer.cpp:37-41 M3u8Writer::WriteLine] *)
Definition WriteLine (chunk : ChunkInfo) : string :=
  ("#EXTINF:" +:+ print_2f (GetDurationInSecconds chunk) +:+ ",") +:+ eol +:+ ch_path chunk +:+ eol.

(* [src/src/utils/m3u8_writer.cpp:43-46 M3u8Writer::WriteFooter] *)
Definition WriteFooter : string := "#EXT-X-ENDLIST".

(** ** A chunk as a text *)

(* [src/src/utils/chunk_info.cpp:23-23 ChunkInfo::ChunkInfo] *)
Definition chunk_info_new : ChunkInfo := {| ch_path := ""; ch_duration := 0; ch_index := 0 |}.

(* [src/src/utils/chunk_info.h:36-42 operator<] *)
Definition chunk_lt (left right : ChunkInfo) : bool :=
  if negb (ch_duration left =? ch_duration right)%Z then (ch_duration left <? ch_duration right)%Z
  else (ch_index left <? ch_index right)%Z.

(* [src/src/utils/chunk_info.cpp:37-39 ConvertToString] *)
Definition chunk_to_string (value : ChunkInfo) : string :=
  ch_path value +:+ ":" +:+ show_u (ch_index value) +:+ ":" +:+ show_u (ch_duration value).

(* [src/src/utils/chunk_info.cpp:41-77 ConvertFromString] *)
Definition conv_chunk `{CommonLib} (from : string) : option ChunkInfo :=
  if is_empty from then None
  else match split_first ":" from with
  | None => Some chunk_info_new
  | Some (path, rest) =>
      match split_first ":" rest with
      | None => Some {| ch_path := path; ch_duration := 0; ch_index := 0 |}
      | Some (line, lts_str) =>
          Some {| ch_path := path; ch_duration := default 0%Z (conv_u64 lts_str);
                  ch_index := default 0%Z (conv_u64 line) |}
      end
  end.

(** ** The catchup's list *)

(* [src/src/stream/streams/timeshift/catchup_stream.cpp:32-45 CatchupStream::CatchupStream] *)
Definition catchup_chunks `{CommonLib} (path_ok : bool) (data : option string) : outcome (option (list ChunkInfo)) :=
  if negb path_ok then Ok (Some [])
  else
    r ← Parse data m3u8_reader_new;
    Ok ((fun x : bool * M3u8Reader => chunks_ x.2) <$> (r : option _)).

(** A chunk whose duration is not known yet gets that of the configuration. *)
Definition with_duration (duration : Z) (c : ChunkInfo) : ChunkInfo :=
  if clock_valid (ch_duration c) then c
  else {| ch_path := ch_path c; ch_duration := u64 (duration * SECOND); ch_index := ch_index c |}.

(** The loop over the chunks; [writes] tells of each write whether it succeeds. *)
(* [src/src/stream/streams/timeshift/catchup_stream.cpp:87-97 CatchupStream::WriteM3u8List] *)
Fixpoint write_chunks (duration : Z) (writes : list bool) (chunks : list ChunkInfo)
    {struct chunks} : bool * list ChunkInfo * string :=
  match chunks with
  | [] => (true, [], "")
  | c :: chunks =>
      let c := with_duration duration c in
      match writes with
      | true :: writes =>
          let '(ok, cs, text) := write_chunks duration writes chunks in
          (ok, c :: cs, WriteLine c +:+ text)
      | _ => (false, c :: chunks, "")
      end
  end.

(** Writing from the beginning of a file that holds [held]. *)
Fixpoint overwrite (held text : string) : string :=
  match text, held with
  | EmptyString, _ => held
  | String c text, EmptyString => String c (overwrite EmptyString text)
  | String c text, String _ held => String c (overwrite held text)
  end.

Lemma overwrite_empty text : overwrite "" text = text.
Proof. induction text as [|c text IH]; [done|]. cbn. by rewrite IH. Qed.

(** The chunks and what the file holds at the end. [opened]: what it holds when
    [FLAG_CREATE] and [FLAG_WRITE] have opened it, which is up to the library: the
    rest of an older list stays if opening does not empty the file. [None]: it
    is not opened. *)
(* [src/src/stream/streams/timeshift/catchup_stream.cpp:61-102 CatchupStream::WriteM3u8List] *)
Definition WriteM3u8List (duration : Z) (path_ok : bool) (opened : option string) (writes : list bool) (chunks : list ChunkInfo)
    : list ChunkInfo * option string :=
  if negb path_ok then (chunks, None)
  else
    match opened with
    | None => (chunks, None)
    | Some held =>
        let first_index := match chunks with [] => 0%Z | c :: _ => ch_index c end in
        match writes with
        | true :: writes =>
            let header := WriteHeader first_index (u64 duration) in
            let '(ok, chunks', text) := write_chunks duration writes chunks in
            if ok && default false (writes !! length chunks)
            then (chunks', Some (overwrite held (header +:+ text +:+ WriteFooter)))
            else (chunks', Some (overwrite held (header +:+ text)))
        | _ => (chunks, Some held)
        end
    end.

#[local] Arguments isspace : simpl never.
#[local] Arguments is_word : simpl never.
#[local] Arguments is_digit : simpl never.

(** ** Reading lines *)

Definition graphic (c : ascii) : bool := negb (isspace c) && negb (Ascii.eqb c nul).
(** A line that fits the reader's buffer and has neither spaces nor nulls. *)
Definition plain (line : string) : Prop :=
  is_empty line = false /\ String.length line <= 252 /\ string_forallb graphic line = true.

Lemma graphic_newline c : graphic c = true -> Ascii.eqb c newline = false.
Proof. intros Hc. apply Ascii.eqb_neq. by intros ->. Qed.

Lemma graphic_cases c : graphic c = true -> isspace c = false /\ Ascii.eqb c nul = false.
Proof. unfold graphic. by destruct (isspace c), (Ascii.eqb c nul). Qed.

Lemma line_of_plain n line e rest :
  string_forallb graphic line = true -> String.length line + String.length e <= n ->
  (e = eol \/ e = String "013" eol \/ e = "" /\ rest = "") ->
  line_of n (line +:+ e +:+ rest) = line +:+ e.
Proof.
  revert n. induction line as [|c line IH]; intros n Hg Hn He.
  - destruct He as [->|[->|[-> ->]]]; cbn in *; [destruct n as [|n]|destruct n as [|[|n]]|destruct n as [|n]]; done || lia.
  - cbn in Hg. apply andb_true_iff in Hg as [Hc Hg]. destruct n as [|n]; [cbn in Hn; lia|].
    rewrite !string_app_cons. cbn [line_of]. rewrite (graphic_newline c Hc), IH; [done..|cbn in Hn; lia|done].
Qed.

Lemma has_text_plain line e : is_empty line = false -> string_forallb graphic line = true -> has_text (line +:+ e) = true.
Proof.
  destruct line as [|c line]; [done|]. rewrite string_app_cons. cbn. intros _ [[Hs Hn]%graphic_cases _]%andb_true_iff. by rewrite Hs, Hn.
Qed.

Lemma c_str_plain line e :
  string_forallb graphic line = true -> string_forallb isspace e = true -> c_str (line +:+ e) = line +:+ e.
Proof.
  intros Hg He. induction line as [|c line IH].
  - change ("" +:+ e) with e. induction e as [|c e IH]; [done|]. cbn in *. apply andb_true_iff in He as [Hc He].
    rewrite IH by done. destruct (Ascii.eqb_spec c nul) as [->|]; done.
  - cbn in Hg. apply andb_true_iff in Hg as [[_ Hc]%graphic_cases Hg]. rewrite string_app_cons. cbn. by rewrite Hc, IH.
Qed.

Lemma trim_end_plain line e :
  string_forallb graphic line = true -> string_forallb isspace e = true -> trim_end (line +:+ e) = line.
Proof.
  intros Hg He. induction line as [|c line IH].
  - change ("" +:+ e) with e. induction e as [|c e IH]; [done|]. cbn in *. apply andb_true_iff in He as [Hc He].
    by rewrite IH, Hc.
  - cbn in Hg. apply andb_true_iff in Hg as [[Hc _]%graphic_cases Hg]. rewrite string_app_cons. cbn.
    by rewrite IH, Hc, andb_false_r.
Qed.

Lemma RemoveTrailingSpaces_plain line e :
  is_empty line = false -> string_forallb graphic line = true -> string_forallb isspace e = true ->
  RemoveTrailingSpaces (line +:+ e) = Ok line.
Proof.
  intros Hl Hg He. unfold RemoveTrailingSpaces. rewrite trim_end_plain by done.
  destruct line as [|c line]; [done|]. rewrite string_app_cons. cbn in *. apply andb_true_iff in Hg as [[Hc _]%graphic_cases _]. by rewrite Hc.
Qed.

Lemma GetNonEmptyLine_step fuel f :
  GetNonEmptyLine (S fuel) f =
  match fgets MAX_LINE f with
  | (None, f) => Some (None, f)
  | (Some t, f) => if has_text t then Some (Some (c_str t), f) else GetNonEmptyLine fuel f
  end.
Proof. done. Qed.

Lemma GetNonEmptyLine_plain fuel pre line e rest :
  plain line -> (e = eol \/ e = String "013" eol \/ e = "" /\ rest = "") ->
  GetNonEmptyLine (S fuel) (file_at pre (line +:+ e +:+ rest)) =
  Some (Some (line +:+ e), file_at (pre +:+ line +:+ e) rest).
Proof.
  intros (Hl & Hn & Hg) He. cbn [GetNonEmptyLine].
  rewrite fgets_some, file_at_rest by (rewrite file_at_rest; by destruct line).
  assert (Hlen : String.length e <= 2) by (by destruct He as [->|[->|[-> _]]]; cbn; lia).
  assert (Hsp : string_forallb isspace e = true) by (by destruct He as [->|[->|[-> _]]]).
  rewrite line_of_plain by (done || (unfold MAX_LINE; lia)).
  rewrite has_text_plain, c_str_plain by done.
  unfold file_at. cbn [f_data f_pos]. by rewrite !string_app_assoc, !string_length_app.
Qed.

Lemma next_line_plain pre line e rest :
  plain line -> (e = eol \/ e = String "013" eol \/ e = "" /\ rest = "") ->
  next_line (file_at pre (line +:+ e +:+ rest)) = Ok (Some (Some line, file_at (pre +:+ line +:+ e) rest)).
Proof.
  intros Hp He. unfold next_line. rewrite GetNonEmptyLine_plain by done. destruct Hp as (Hl & Hn & Hg).
  rewrite RemoveTrailingSpaces_plain; [done..|]. by destruct He as [->|[->|[-> _]]].
Qed.

(** An empty line is passed over. *)
Lemma next_line_eol pre line :
  plain line -> next_line (file_at pre (eol +:+ line)) = Ok (Some (Some line, file_at (pre +:+ eol +:+ line) "")).
Proof.
  intros Hp. unfold next_line. destruct (String.length (f_data (file_at pre (eol +:+ line)))) as [|n] eqn:Hn.
  { exfalso. revert Hn. cbn [file_at f_data]. rewrite !string_length_app. cbn. lia. }
  rewrite GetNonEmptyLine_step, fgets_some, file_at_rest by (by rewrite file_at_rest).
  change (line_of (pred MAX_LINE) (eol +:+ line)) with eol. change (has_text eol) with false.
  replace {| f_data := _; f_pos := _ |} with (file_at (pre +:+ eol) (line +:+ "" +:+ "")).
  2: { unfold file_at. rewrite !string_app_assoc, string_length_app. cbn. by rewrite string_app_nil. }
  rewrite (GetNonEmptyLine_plain _ _ line "" "") by (done || tauto).
  destruct Hp as (Hl & _ & Hg). rewrite RemoveTrailingSpaces_plain by done. by rewrite string_app_nil, string_app_assoc.
Qed.

(** ** Matching *)

Lemma strip_suffix_app suf s : strip_suffix suf (s +:+ suf) = Some s.
Proof.
  induction s as [|c s IH].
  - change ("" +:+ suf) with suf. destruct suf; cbn; by rewrite ?Ascii.eqb_refl, ?String.eqb_refl.
  - rewrite string_app_cons. cbn [strip_suffix]. rewrite IH. destruct (String.eqb_spec (String c (s +:+ suf)) suf) as [He|_]; [|done].
    apply (f_equal String.length) in He. cbn in He. rewrite string_length_app in He. lia.
Qed.

Lemma lazy_digits_all s : is_empty s = false -> all_digits s = true -> lazy_digits s = Some s.
Proof. intros He Hd. destruct s as [|c s]; [done|]. cbn [lazy_digits]. by rewrite He, Hd. Qed.

Lemma match_tag_show tag z : (0 <= z)%Z -> match_tag tag is_digit (tag +:+ show_u z) = Some (show_u z).
Proof.
  intros Hz. unfold match_tag. rewrite strip_prefix_app. cbn. destruct (show_u_digits z Hz) as [He Hd].
  unfold all_digits in Hd. by rewrite He, Hd.
Qed.

Definition numeric (c : ascii) : bool := is_digit c || Ascii.eqb c ".".

Lemma decimal2_numeric n : (0 <= n)%Z -> is_empty (decimal2 n) = false /\ string_forallb numeric (decimal2 n) = true.
Proof.
  intros Hn. unfold decimal2. destruct (show_u_digits (n / 100)) as [He Hd]; [apply Z.div_pos; lia|].
  assert (Hdig : forall s, all_digits s = true -> string_forallb numeric s = true).
  { intros s. apply string_forallb_impl. intros c Hc. unfold numeric. by rewrite Hc. }
  split; [by destruct (show_u (n / 100))|]. rewrite !string_forallb_app, Hdig by done. cbn.
  apply Hdig. unfold two_digits. assert (0 <= n mod 100)%Z by (apply Z.mod_pos_bound; lia).
  destruct (show_u_digits (n mod 100)) as [_ Hd2]; [done|]. case_match; [|done].
  unfold all_digits. rewrite string_forallb_app. cbn. done.
Qed.

Lemma numeric_graphic c : numeric c = true -> graphic c = true.
Proof. by destruct c as [[] [] [] [] [] [] [] []]. Qed.

Lemma show_u_graphic z : (0 <= z)%Z -> is_empty (show_u z) = false /\ string_forallb graphic (show_u z) = true.
Proof.
  intros Hz. destruct (show_u_digits z Hz) as [He Hd]. split; [done|].
  eapply string_forallb_impl; [|exact Hd]. intros c Hc. apply numeric_graphic. unfold numeric. by rewrite Hc.
Qed.

(** A number below [10 ^ k] has at most [k] digits. *)
Lemma show_u_length k z : (0 <= z < 10 ^ Z.of_nat k)%Z -> 1 <= k -> String.length (show_u z) <= k.
Proof.
  assert (Hgo : forall k (n : N) s, (Z.of_N n < 10 ^ Z.of_nat k)%Z -> String.length (pretty_N_go n s) <= k + String.length s).
  { clear. induction k as [|k IH]; intros n s Hn.
    - assert (n = 0%N) as -> by (cbn in Hn; lia). by rewrite pretty_N_go_0.
    - destruct (decide (n = 0%N)) as [->|Hn0]; [rewrite pretty_N_go_0; lia|].
      rewrite pretty_N_go_step by lia. etransitivity; [apply IH|cbn; lia].
      rewrite Nat2Z.inj_succ, Z.pow_succ_r in Hn by lia. rewrite N2Z.inj_div. apply Z.div_lt_upper_bound; lia. }
  intros Hz Hk. unfold show_u, pretty, pretty_N. case_decide; [cbn; lia|].
  etransitivity; [apply Hgo; rewrite Z2N.id by lia; exact (proj2 Hz)|cbn; lia].
Qed.

(** ** Reading what was written *)

Section RoundTrip.
Context `{CommonLibOk}.

(** The duration that is read for one that was written: hundredths of a second. *)
Definition reread_duration (d : Z) : outcome Z :=
  seconds_to_ns (dbl_quot (hundredths_of (dbl_div (dbl_of_Z d) (dbl_of_Z SECOND))) 100).

(** The chunks of a catchup: the name is the number, and the duration can be
    read back and fits the line. *)
Definition chunk_named (c : ChunkInfo) : Prop :=
  ch_path c = show_u (ch_index c) +:+ ".ts" /\ in_u 64 (ch_index c) /\ in_u 64 (ch_duration c).
Definition rereads (c : ChunkInfo) (ns : Z) : Prop :=
  String.length (print_2f (GetDurationInSecconds c)) <= 240 /\ reread_duration (ch_duration c) = Ok ns.
Definition with_ns (c : ChunkInfo) (ns : Z) : ChunkInfo :=
  {| ch_path := ch_path c; ch_duration := ns; ch_index := ch_index c |}.

Lemma print_duration c :
  in_u 64 (ch_duration c) ->
  print_2f (GetDurationInSecconds c) = decimal2 (hundredths_of (GetDurationInSecconds c)).
Proof.
  intros Hc. apply (print_2f_finite 300 900). unfold GetDurationInSecconds.
  assert (dbl_of_Z SECOND = SpecFloat.S754_finite false (1000000000 * 2 ^ 23) (-23)) as -> by (vm_compute; reflexivity).
  apply dbl_div_finite; [by apply dbl_of_Z_finite|vm_compute; discriminate|lia].
Qed.

Definition inf_line (c : ChunkInfo) : string := "#EXTINF:" +:+ print_2f (GetDurationInSecconds c) +:+ ",".

Lemma inf_line_plain c :
  in_u 64 (ch_duration c) -> String.length (print_2f (GetDurationInSecconds c)) <= 240 -> plain (inf_line c).
Proof.
  intros Hc Hl. unfold inf_line, plain. rewrite !string_length_app. split_and!; [done|cbn; lia|].
  rewrite !string_forallb_app, print_duration by done.
  destruct (decimal2_numeric _ (hundredths_of_nonneg (GetDurationInSecconds c))) as [_ Hn].
  by rewrite (string_forallb_impl _ _ _ numeric_graphic Hn).
Qed.

Lemma path_plain c : chunk_named c -> plain (ch_path c).
Proof.
  intros (-> & Hi & _). destruct (show_u_graphic (ch_index c)) as [He Hg]; [by destruct Hi|].
  unfold plain. rewrite string_length_app, string_forallb_app, Hg. split_and!; [by destruct (show_u _)| |done].
  pose proof (show_u_length 20 (ch_index c)) as Hl. unfold in_u in Hi. cbn [String.length].
  assert (String.length (show_u (ch_index c)) <= 20) by (apply Hl; lia). lia.
Qed.

Lemma parse_chunk_written c ns :
  chunk_named c -> rereads c ns -> parse_chunk (inf_line c) (ch_path c) = Ok (Some (with_ns c ns)).
Proof.
  intros (Hp & Hi & Hd) [_ Hr]. unfold parse_chunk, m3u8_chunk_header_re, inf_line.
  rewrite strip_prefix_app. cbn [mbind option_bind]. rewrite strip_suffix_app, print_duration by done.
  set (n := hundredths_of (GetDurationInSecconds c)). destruct (decimal2_numeric n) as [He Hn]; [apply hundredths_of_nonneg|].
  unfold numeric in Hn. cbn [mbind option_bind]. rewrite He, Hn. cbn [negb andb mbind option_bind]. rewrite conv_double_decimal by apply hundredths_of_nonneg.
  unfold m3u8_chunk_re. rewrite Hp, strip_suffix_app. destruct Hi as [Hi0 Hi]. destruct (show_u_digits _ Hi0) as [He' Hd'].
  cbn [mbind option_bind]. rewrite (lazy_digits_all _ He' Hd'). cbn [mbind option_bind]. rewrite conv_u64_show by done.
  unfold reread_duration in Hr. fold (GetDurationInSecconds c) in Hr. subst n. cbn [mbind option_bind]. rewrite Hr.
  cbn. unfold with_ns. by rewrite Hp.
Qed.

Definition chunk_texts (chunks : list ChunkInfo) : string := foldr (fun c t => WriteLine c +:+ t) "" chunks.

Lemma footer_plain : plain WriteFooter.
Proof. split_and!; [done|cbn; lia|done]. Qed.

Lemma next_line_footer pre : next_line (file_at pre WriteFooter) = Ok (Some (Some WriteFooter, file_at (pre +:+ WriteFooter) "")).
Proof.
  pose proof (next_line_plain pre WriteFooter "" "" footer_plain ltac:(tauto)) as Hn. by rewrite !string_app_nil in Hn.
Qed.

Lemma next_line_eol_text pre line rest :
  plain line -> next_line (file_at pre (line +:+ eol +:+ rest)) = Ok (Some (Some line, file_at (pre +:+ line +:+ eol) rest)).
Proof. intros Hl. apply next_line_plain; tauto. Qed.

Definition with_chunks (r : M3u8Reader) (l : list ChunkInfo) : M3u8Reader :=
  {| version_ := version_ r; allow_cache_ := allow_cache_ r; media_sequence_ := media_sequence_ r;
     target_duration_ := target_duration_ r; chunks_ := chunks_ r ++ l |}.

(** The end of what a writer wrote: all of it, or the footer is missing. *)
Definition m3u8_end (full : bool) : string := if full then WriteFooter else "".

Lemma next_line_eof pre : next_line (file_at pre "") = Ok (Some (None, file_at pre "")).
Proof. unfold next_line. rewrite GetNonEmptyLine_step. unfold fgets. by rewrite file_at_rest. Qed.

Lemma ParseChunks_written fuel pre chunks durs full r :
  Forall chunk_named chunks -> Forall2 rereads chunks durs -> length chunks < fuel ->
  exists b, ParseChunks fuel (file_at pre (chunk_texts chunks +:+ m3u8_end full)) r =
    Ok (Some (b, with_chunks r (zip_with with_ns chunks durs))) /\ (full = true -> b = true).
Proof.
  intros Hn Hr. revert fuel pre r Hn. induction Hr as [|c ns chunks durs Hc Hr IH]; intros [|fuel] pre r Hn Hf; cbn in Hf; try lia.
  - cbn [ParseChunks chunk_texts foldr]. change ("" +:+ ?s) with s. unfold with_chunks. cbn [zip_with]. rewrite app_nil_r.
    destruct r, full; cbn [m3u8_end]; [rewrite next_line_footer|rewrite next_line_eof]; cbn; by eexists.
  - apply Forall_cons_1 in Hn as [Hnc Hn]. cbn [ParseChunks chunk_texts foldr]. unfold WriteLine. fold (inf_line c).
    rewrite !string_app_assoc, next_line_eol_text.
    2: { destruct Hnc as (_ & _ & Hd), Hc as [Hl _]. by apply inf_line_plain. }
    cbn [mbind outcome_bind]. rewrite (proj2 (String.eqb_neq _ _)) by (by intros [=]).
    rewrite next_line_eol_text by (by apply path_plain). cbn [mbind outcome_bind].
    rewrite (parse_chunk_written c ns) by done. cbn [mbind outcome_bind].
    fold (chunk_texts chunks). edestruct IH as (b & -> & Hb); [done|lia|]. exists b. split; [|done].
    unfold with_chunks, push_chunk. cbn. by rewrite <- app_assoc.
Qed.

Lemma parse_head_step fuel pre line rest r r' :
  plain line -> parse_header_line line r = NextLine r' ->
  parse_head (S fuel) (file_at pre (line +:+ eol +:+ rest)) r = parse_head fuel (file_at (pre +:+ line +:+ eol) rest) r'.
Proof. intros Hl Hh. cbn [parse_head]. rewrite next_line_eol_text by done. cbn [mbind outcome_bind]. by rewrite Hh. Qed.

(** The reader goes back to the beginning of the first line that is not of the head. *)
Lemma parse_head_chunk fuel pre line rest r :
  plain line -> parse_header_line line r = ChunkLine ->
  exists n, parse_head (S fuel) (file_at pre (line +:+ eol +:+ rest)) r =
    ParseChunks n (file_at pre (line +:+ eol +:+ rest)) r /\ String.length (line +:+ eol +:+ rest) < n.
Proof.
  intros Hl Hh. cbn [parse_head]. rewrite next_line_eol_text by done. cbn [mbind outcome_bind]. rewrite Hh.
  eexists. split.
  - f_equal. unfold fseek, file_at. cbn [f_pos f_data]. rewrite !string_length_app. cbn.
    rewrite (proj2 (Z.ltb_ge _ _)) by lia. f_equal; [by rewrite !string_app_assoc|lia].
  - unfold fuel_of, fseek, file_at. case_match; cbn [f_data]; rewrite !string_length_app; lia.
Qed.

(** Without an end of line it goes back one character more. *)
Lemma parse_head_footer fuel pre r :
  parse_head (S fuel) (file_at (pre +:+ eol) WriteFooter) r = Ok (Some (true, r)).
Proof.
  cbn [parse_head]. rewrite next_line_footer. cbn [mbind outcome_bind].
  change (parse_header_line WriteFooter r) with ChunkLine. cbn iota.
  replace (fseek _ _) with (file_at pre (eol +:+ WriteFooter)).
  2: { unfold fseek, file_at. cbn [f_pos f_data]. rewrite !string_length_app. cbn.
       rewrite (proj2 (Z.ltb_ge _ _)) by lia. f_equal; [by rewrite !string_app_assoc|lia]. }
  unfold fuel_of. cbn [ParseChunks]. by rewrite next_line_eol by apply footer_plain.
Qed.

Lemma tag_plain tag z :
  string_forallb graphic tag = true -> String.length tag <= 40 -> is_empty tag = false -> (0 <= z < 2 ^ 31)%Z ->
  plain (tag +:+ show_u z).
Proof.
  intros Hg Hl He Hz. destruct (show_u_graphic z) as [_ Hs]; [lia|].
  pose proof (show_u_length 10 z ltac:(lia) ltac:(lia)). unfold plain. rewrite string_length_app, string_forallb_app, Hg, Hs.
  split_and!; [by destruct tag|lia|done].
Qed.

Lemma written_lines_plain first dur :
  (0 <= first < 2 ^ 31)%Z -> (0 <= dur < 2 ^ 31)%Z ->
  plain ("#EXT-X-MEDIA-SEQUENCE:" +:+ show_u first) /\ plain ("#EXT-X-TARGETDURATION:" +:+ show_u dur) /\
  plain "#EXTM3U" /\ plain "#EXT-X-ALLOW-CACHE:YES" /\ plain "#EXT-X-VERSION:3".
Proof. intros Hf Hd. split_and!; [apply tag_plain; (done || (cbn; lia))..| | |]; split_and!; (done || (cbn; lia)). Qed.

Lemma parse_sequence first r :
  (0 <= first < 2 ^ 31)%Z ->
  parse_header_line ("#EXT-X-MEDIA-SEQUENCE:" +:+ show_u first) r = NextLine (set_media_sequence first r).
Proof.
  intros Hf. unfold parse_header_line. rewrite (match_tag_show "#EXT-X-MEDIA-SEQUENCE:") by lia.
  cbn -[show_u]. by rewrite conv_i32_show.
Qed.

Lemma parse_target dur r :
  (0 <= dur < 2 ^ 31)%Z ->
  parse_header_line ("#EXT-X-TARGETDURATION:" +:+ show_u dur) r = NextLine (set_target_duration dur r).
Proof.
  intros Hf. unfold parse_header_line. rewrite (match_tag_show "#EXT-X-TARGETDURATION:") by lia.
  cbn -[show_u]. by rewrite conv_i32_show.
Qed.

Lemma parse_version r : parse_header_line "#EXT-X-VERSION:3" r = NextLine (set_version 3 r).
Proof.
  unfold parse_header_line. change "#EXT-X-VERSION:3" with ("#EXT-X-VERSION:" +:+ show_u 3).
  rewrite (match_tag_show "#EXT-X-VERSION:") by lia. cbn -[show_u]. by rewrite conv_i32_show.
Qed.

(** What is left of a playlist after its head. *)
Definition head_reader (first dur : Z) : M3u8Reader :=
  {| version_ := 3; allow_cache_ := true; media_sequence_ := first; target_duration_ := dur; chunks_ := [] |}.

Lemma parse_head_written fuel first dur rest :
  (0 <= first < 2 ^ 31)%Z -> (0 <= dur < 2 ^ 31)%Z ->
  exists pre, parse_head (5 + fuel) (file_at "" (WriteHeader first dur +:+ rest)) m3u8_reader_new =
              parse_head fuel (file_at (pre +:+ eol) rest) (head_reader first dur).
Proof.
  intros Hf Hd. destruct (written_lines_plain first dur Hf Hd) as (Hs & Ht & Hh & Ha & Hv).
  unfold WriteHeader.
  set (seq := "#EXT-X-MEDIA-SEQUENCE:" +:+ show_u first) in *. set (target := "#EXT-X-TARGETDURATION:" +:+ show_u dur) in *.
  rewrite !string_app_assoc. cbn [Nat.add].
  rewrite (parse_head_step _ _ "#EXTM3U" _ _ m3u8_reader_new) by done.
  rewrite (parse_head_step _ _ seq) with (r' := set_media_sequence first m3u8_reader_new) by (done || by apply parse_sequence).
  rewrite (parse_head_step _ _ "#EXT-X-ALLOW-CACHE:YES") with (r' := set_allow_cache true (set_media_sequence first m3u8_reader_new)) by done.
  erewrite (parse_head_step _ _ "#EXT-X-VERSION:3") by (done || by apply parse_version).
  erewrite (parse_head_step _ _ target) by (done || by apply parse_target).
  eexists. rewrite <- string_app_assoc. reflexivity.
Qed.

(** The text that a writer makes of a list. *)
Definition m3u8_text (first dur : Z) (chunks : list ChunkInfo) (full : bool) : string :=
  WriteHeader first dur +:+ chunk_texts chunks +:+ m3u8_end full.

Lemma chunk_texts_length l : length l <= String.length (chunk_texts l).
Proof.
  induction l as [|c l IH]; cbn; [lia|]. unfold WriteLine at 1. rewrite !string_length_app. cbn. unfold chunk_texts in IH. lia.
Qed.

Lemma Parse_written first dur chunks durs full r :
  (0 <= first < 2 ^ 31)%Z -> (0 <= dur < 2 ^ 31)%Z -> Forall chunk_named chunks -> Forall2 rereads chunks durs ->
  exists b, Parse (Some (m3u8_text first dur chunks full)) r =
    Ok (Some (b, with_chunks (head_reader first dur) (zip_with with_ns chunks durs))) /\ (full = true -> b = true).
Proof.
  intros Hf Hd Hn Hr. unfold Parse, ParseFile. cbn [fmap option_fmap option_map].
  set (text := m3u8_text first dur chunks full).
  change (Clear r) with m3u8_reader_new. change {| f_data := text; f_pos := 0 |} with (file_at "" text).
  assert (exists k, fuel_of (file_at "" text) = 5 + S k) as [k ->].
  { exists (String.length text - 5). subst text. unfold fuel_of, file_at, m3u8_text, WriteHeader. cbn [f_data].
    change ("" +:+ ?s) with s. rewrite !string_length_app. cbn. lia. }
  subst text. destruct (parse_head_written (S k) first dur (chunk_texts chunks +:+ m3u8_end full) Hf Hd) as [pre Hp].
  unfold m3u8_text. rewrite Hp. destruct Hr as [|c ns chunks durs Hc Hr].
  - cbn [chunk_texts foldr]. change ("" +:+ ?s) with s. destruct full; cbn [m3u8_end]; [by rewrite parse_head_footer; eexists|].
    cbn [parse_head]. rewrite next_line_eof. by eexists.
  - assert (Hpl : plain (inf_line c)).
    { apply Forall_inv in Hn. destruct Hn as (_ & _ & Hcd), Hc as [Hl _]. by apply inf_line_plain. }
    cbn [chunk_texts foldr]. unfold WriteLine at 1. fold (inf_line c). rewrite !string_app_assoc.
    edestruct (parse_head_chunk k (pre +:+ eol) (inf_line c)) as (n & -> & Hlen); [done|done|].
    pose proof (ParseChunks_written n (pre +:+ eol) (c :: chunks) (ns :: durs) full (head_reader first dur) Hn ltac:(by constructor)) as Hw.
    cbn [chunk_texts foldr] in Hw. unfold WriteLine at 1 in Hw. fold (inf_line c) in Hw. rewrite !string_app_assoc in Hw.
    apply Hw. revert Hlen. rewrite !string_length_app. fold (chunk_texts chunks).
    pose proof (chunk_texts_length chunks). cbn. lia.
Qed.

(** ** The catchup's list on disk *)

(** The writes that succeed before the first that fails. *)
Fixpoint successes (writes : list bool) : nat :=
  match writes with true :: writes => S (successes writes) | _ => 0 end.

Lemma write_chunks_spec dur writes chunks :
  write_chunks dur writes chunks =
  (length chunks <=? successes writes,
   (with_duration dur <$> take (S (successes writes)) chunks) ++ drop (S (successes writes)) chunks,
   chunk_texts (with_duration dur <$> take (successes writes) chunks)).
Proof.
  revert writes. induction chunks as [|c chunks IH]; intros writes.
  { by destruct (successes writes). }
  cbn [write_chunks]. destruct writes as [|[] writes]; cbn [successes]; [done| |done].
  by rewrite IH.
Qed.

Lemma successes_lookup writes n : n < successes writes -> writes !! n = Some true.
Proof. revert n. induction writes as [|[] writes IH]; intros [|n]; cbn; [lia..|done| |lia|lia]. intros. apply IH. lia. Qed.

Lemma successes_stop writes : default false (writes !! successes writes) = false.
Proof. by induction writes as [|[] writes IH]. Qed.

(** The chunks whose lines a run of WriteM3u8List has written. *)
Definition listed (dur : Z) (writes : list bool) (chunks : list ChunkInfo) : list ChunkInfo :=
  with_duration dur <$> take (pred (successes writes)) chunks.

Lemma WriteM3u8List_text dur writes chunks :
  (WriteM3u8List dur true (Some "") writes chunks).2 =
  Some (if successes writes =? 0 then ""
        else m3u8_text (match chunks with [] => 0%Z | c :: _ => ch_index c end) (u64 dur)
               (listed dur writes chunks) (length chunks <? pred (successes writes))).
Proof.
  unfold WriteM3u8List, listed, m3u8_text. cbn [negb]. destruct writes as [|[] writes]; cbn [successes]; [done| |done].
  cbn [pred Nat.eqb]. rewrite write_chunks_spec. set (n := successes writes).
  destruct (Nat.leb_spec (length chunks) n) as [Hle|Hgt]; cbn [andb].
  - destruct (Nat.ltb_spec (length chunks) n) as [Hlt|Hge].
    + rewrite successes_lookup by done. cbn. by rewrite overwrite_empty.
    + replace (length chunks) with n by lia. subst n. rewrite successes_stop. cbn [m3u8_end snd]. by rewrite overwrite_empty, string_app_nil.
  - destruct (Nat.ltb_spec (length chunks) n); [lia|]. cbn [m3u8_end snd]. by rewrite overwrite_empty, string_app_nil.
Qed.

(** C20: the list of chunks of a catchup survives its end, also when writing it
    fails, if the file was empty when it had been opened: the next catchup, which reads the file, starts with exactly the
    chunks whose lines were written, in order and under their numbers; their
    durations are those that were written, to hundredths of a second, where
    one that was not known yet counts as that of the configuration. *)
Theorem catchup_list_survives dur writes chunks durs :
  (0 <= dur < 2 ^ 31)%Z -> (match chunks with [] => True | c :: _ => ch_index c < 2 ^ 31 end)%Z ->
  Forall chunk_named chunks -> Forall2 rereads (listed dur writes chunks) durs ->
  catchup_chunks true (WriteM3u8List dur true (Some "") writes chunks).2 =
  Ok (Some (zip_with with_ns (listed dur writes chunks) durs)).
Proof.
  intros Hd Hf Hn Hr. rewrite WriteM3u8List_text. unfold catchup_chunks. cbn [negb].
  destruct (Nat.eqb_spec (successes writes) 0) as [Hz|Hz].
  { unfold listed. rewrite Hz, take_0. done. }
  assert (Hfirst : (0 <= match chunks with [] => 0 | c :: _ => ch_index c end < 2 ^ 31)%Z).
  { destruct chunks as [|c chunks]; [lia|]. apply Forall_inv in Hn as (_ & [? _] & _). lia. }
  assert (Hl : Forall chunk_named (listed dur writes chunks)).
  { unfold listed. apply Forall_fmap, Forall_take. eapply Forall_impl; [exact Hn|]. intros c Hc.
    unfold compose, with_duration. destruct (clock_valid _); [done|]. destruct Hc as (Hp & Hi & _). split_and!; [done..|by apply wrap_range]. }
  rewrite wrap_small by (unfold in_u; lia).
  destruct (Parse_written _ dur _ durs (length chunks <? pred (successes writes)) m3u8_reader_new Hfirst Hd Hl Hr) as (b & -> & _).
  done.
Qed.
End RoundTrip.

(** ** The reader returns *)

Section Returns.
Context `{CommonLib}.

Lemma has_text_trims t : has_text t = true -> exists u, RemoveTrailingSpaces (c_str t) = Ok u.
Proof.
  intros Ht. assert (Hs : string_forallb isspace (c_str t) = false).
  { induction t as [|c t IH]; [done|]. cbn in *. destruct (isspace c) eqn:Hc.
    - destruct (Ascii.eqb_spec c nul) as [->|]; [done|]. cbn. rewrite Hc. by apply IH.
    - apply negb_true_iff in Ht. rewrite Ht. cbn. by rewrite Hc. }
  unfold RemoveTrailingSpaces. rewrite Hs. case_match; by eexists.
Qed.

Definition smaller (f' f : FILE) : Prop :=
  f_data f' = f_data f /\ String.length (f_rest f') < String.length (f_rest f).

Lemma GetNonEmptyLine_returns fuel f :
  String.length (f_rest f) < fuel ->
  (exists f', GetNonEmptyLine fuel f = Some (None, f')) \/
  (exists t u f', GetNonEmptyLine fuel f = Some (Some t, f') /\ RemoveTrailingSpaces t = Ok u /\ smaller f' f).
Proof.
  revert f. induction fuel as [|fuel IH]; intros f Hf; [lia|]. rewrite GetNonEmptyLine_step.
  destruct (is_empty (f_rest f)) eqn:He.
  { left. unfold fgets. destruct (f_rest f); [|done]. by eexists. }
  rewrite fgets_some by done. set (l := line_of (pred MAX_LINE) (f_rest f)). set (f' := {| f_data := _; f_pos := _ |}).
  assert (Hs : smaller f' f).
  { split; [done|]. unfold f_rest at 1. cbn [f' f_data f_pos]. rewrite str_drop_add. fold (f_rest f). rewrite length_str_drop.
    pose proof (line_of_length 253 (f_rest f) He) as Hl. subst l. cbn [MAX_LINE pred]. destruct (f_rest f); [done|]. cbn [String.length]. lia. }
  destruct (has_text l) eqn:Ht.
  - right. destruct (has_text_trims l Ht) as [u Hu]. by exists (c_str l), u, f'.
  - destruct Hs as [Hd Hlt]. destruct (IH f') as [[f2 ->]|(t & u & f2 & -> & Hu & Hd2 & Hlt2)]; [lia|left; by eexists|right].
    exists t, u, f2. split_and!; [done..|split; [congruence|lia]].
Qed.

Lemma next_line_returns f :
  (exists f', next_line f = Ok (Some (None, f'))) \/
  (exists u f', next_line f = Ok (Some (Some u, f')) /\ smaller f' f).
Proof.
  unfold next_line. destruct (GetNonEmptyLine_returns (S (String.length (f_data f))) f) as [[f' ->]|(t & u & f' & -> & Hu & Hs)].
  - unfold f_rest. rewrite length_str_drop. lia.
  - left. by eexists.
  - right. rewrite Hu. by eexists _, _.
Qed.

(** A result, or the process ends in the conversion of a duration. *)
Definition returns {A} (m : outcome (option A)) : Prop :=
  (exists x, m = Ok (Some x)) \/ m = Abort (UndefinedBehaviour "double to uint64_t").

Lemma parse_chunk_returns h c :
  (exists x, parse_chunk h c = Ok x) \/ parse_chunk h c = Abort (UndefinedBehaviour "double to uint64_t").
Proof.
  unfold parse_chunk. repeat case_match; try (left; by eexists).
  assert (Hu : forall x, (exists z, dbl_to_u64 x = Ok z) \/ dbl_to_u64 x = Abort (UndefinedBehaviour "double to uint64_t")).
  { intros x. unfold dbl_to_u64. repeat case_match; eauto. }
  unfold seconds_to_ns. destruct (Hu (dbl_mul d (dbl_of_Z SECOND))) as [[? ->]| ->]; [left; by eexists|by right].
Qed.

Lemma ParseChunks_returns fuel f r : String.length (f_rest f) < fuel -> returns (ParseChunks fuel f r).
Proof.
  revert f r. induction fuel as [|fuel IH]; intros f r Hf; [lia|]. cbn [ParseChunks].
  destruct (next_line_returns f) as [[f1 ->]|(h & f1 & -> & _ & H1)]; cbn [mbind outcome_bind]; [left; by eexists|].
  case_match; [left; by eexists|].
  destruct (next_line_returns f1) as [[f2 ->]|(c & f2 & -> & _ & H2)]; cbn [mbind outcome_bind]; [left; by eexists|].
  destruct (parse_chunk_returns h c) as [[[x|] ->]| ->]; cbn [mbind outcome_bind]; [|left; by eexists|by right].
  apply IH. lia.
Qed.

Lemma parse_head_returns fuel f r : String.length (f_rest f) < fuel -> returns (parse_head fuel f r).
Proof.
  revert f r. induction fuel as [|fuel IH]; intros f r Hf; [lia|]. cbn [parse_head].
  destruct (next_line_returns f) as [[f1 ->]|(h & f1 & -> & _ & H1)]; cbn [mbind outcome_bind]; [left; by eexists|].
  destruct (parse_header_line h r) as [r'| |]; [apply IH; lia|left; by eexists|].
  apply ParseChunks_returns. unfold fuel_of, f_rest. rewrite length_str_drop. lia.
Qed.

(** C21: the reader returns for every file, whatever it holds: the fuel of its
    loops is enough, no line makes it pop beyond the beginning of a string, and
    the only way it ends the process is a duration that is out of range. *)
Theorem Parse_returns data r : returns (Parse data r).
Proof.
  unfold Parse, ParseFile. destruct data as [d|]; cbn [fmap option_fmap option_map]; [|left; by eexists].
  apply parse_head_returns. unfold fuel_of, f_rest. cbn [f_data f_pos]. rewrite length_str_drop. lia.
Qed.
End Returns.

(** ** Other ends of lines *)

Section Crlf.
Context `{CommonLibOk}.

Definition crlf : string := String "013" eol.

(** A playlist whose lines end with a carriage return is refused at its first
    chunk: the reader goes back by one end of line, which is one character, and
    so into the chunk's line. *)
Theorem crlf_refused c rest r :
  in_u 64 (ch_duration c) -> String.length (print_2f (GetDurationInSecconds c)) <= 240 -> plain (ch_path c) ->
  Parse (Some ("#EXTM3U" +:+ crlf +:+ inf_line c +:+ crlf +:+ ch_path c +:+ crlf +:+ rest)) r =
  Ok (Some (false, m3u8_reader_new)).
Proof.
  intros Hc Hl Hp. pose proof (inf_line_plain c Hc Hl) as Hi.
  assert (Hn : forall pre line rest, plain line ->
    next_line (file_at pre (line +:+ crlf +:+ rest)) = Ok (Some (Some line, file_at (pre +:+ line +:+ crlf) rest))).
  { intros pre line rest' Hpl. apply next_line_plain; tauto. }
  unfold Parse, ParseFile. cbn [fmap option_fmap option_map]. set (text := "#EXTM3U" +:+ _).
  change {| f_data := text; f_pos := 0 |} with (file_at "" text).
  assert (exists k, fuel_of (file_at "" text) = S (S k)) as [k ->] by (by eexists).
  cbn [parse_head]. unfold text at 1. rewrite Hn by (split_and!; (done || (cbn; lia))). cbn [mbind outcome_bind].
  change (parse_header_line "#EXTM3U" (Clear r)) with (NextLine m3u8_reader_new). cbn iota.
  rewrite Hn by done. cbn [mbind outcome_bind]. change (parse_header_line (inf_line c) m3u8_reader_new) with ChunkLine. cbn iota.
  set (tail := "EXTINF:" +:+ print_2f (GetDurationInSecconds c) +:+ ",").
  set (pre := "" +:+ "#EXTM3U" +:+ crlf). set (after := ch_path c +:+ crlf +:+ rest).
  replace (fseek _ _) with (file_at (pre +:+ "#") (tail +:+ crlf +:+ after)).
  2: { unfold fseek, file_at. cbn [f_pos f_data]. change (inf_line c) with ("#" +:+ tail). rewrite !string_length_app. cbn [String.length crlf eol].
       rewrite (proj2 (Z.ltb_ge _ _)) by lia. f_equal; [by rewrite !string_app_assoc|lia]. }
  assert (Ht : plain tail).
  { destruct Hi as (_ & Hlen & Hg). change (inf_line c) with ("#" +:+ tail) in Hlen, Hg.
    rewrite string_length_app in Hlen. cbn in Hlen, Hg. split_and!; [done|lia|done]. }
  unfold fuel_of. cbn [ParseChunks]. rewrite Hn by done. cbn [mbind outcome_bind].
  rewrite (proj2 (String.eqb_neq _ _)) by (by intros [=]). unfold after. rewrite Hn by done. cbn [mbind outcome_bind].
  change (parse_chunk tail (ch_path c)) with (@Ok (option ChunkInfo) None). done.
Qed.
End Crlf.

(** ** Chunks as texts *)

Lemma conv_chunk_print `{CommonLibOk} c :
  string_forallb (fun x => bool_decide (x <> ":"%char)) (ch_path c) = true ->
  in_u 64 (ch_index c) -> in_u 64 (ch_duration c) -> conv_chunk (chunk_to_string c) = Some c.
Proof.
  intros Hp Hi Hd. unfold conv_chunk, chunk_to_string.
  change (":" +:+ ?s) with (String ":" s).
  destruct (is_empty _) eqn:He; [by destruct (ch_path c)|].
  rewrite (proj2 (split_first_spec ":" _ (ch_path c) _)) by (split; [done|exact Hp]).
  rewrite (proj2 (split_first_spec ":" _ (show_u (ch_index c)) _)) by (split; [done|by apply show_u_no; [|destruct Hi]]).
  rewrite !conv_u64_show by done. by destruct c.
Qed.

(** Whole seconds are read as they were written; 2.01 s is not: the product
    with a billion is truncated. *)
Lemma reread_whole_seconds s : (0 <= s < 3600)%Z -> reread_duration (s * SECOND) = Ok (s * SECOND)%Z.
Proof.
  intros Hs.
  assert (Hall : forallb (fun k => let z := (Z.of_nat k * SECOND)%Z in
    match reread_duration z with Ok y => (y =? z)%Z | _ => false end) (seq 0 3600) = true) by (vm_compute; reflexivity).
  rewrite forallb_forall in Hall. specialize (Hall (Z.to_nat s)). cbv zeta in Hall. rewrite Z2Nat.id in Hall by lia.
  destruct (reread_duration (s * SECOND)) as [y| |]; [|discriminate Hall; apply in_seq; lia..].
  f_equal. apply Z.eqb_eq, Hall, in_seq. lia.
Qed.

Lemma reread_201_hundredths : reread_duration 2010000000 = Ok 2009999999%Z.
Proof. vm_compute. reflexivity. Qed.

(** ** Witnesses *)

Section Witnesses.
#[local] Existing Instances Ref.common Ref.common_ok.

Definition wit_chunks : list ChunkInfo :=
  [{| ch_path := "7.ts"; ch_duration := 10000000000; ch_index := 7 |};
   {| ch_path := "8.ts"; ch_duration := 2010000000; ch_index := 8 |};
   {| ch_path := "9.ts"; ch_duration := GST_CLOCK_TIME_NONE; ch_index := 9 |}].

Lemma wit_chunks_named : Forall chunk_named wit_chunks.
Proof.
  unfold wit_chunks. repeat (apply Forall_cons_2; [split; [reflexivity|split; (split; [vm_compute; discriminate|vm_compute; reflexivity])]|]). apply Forall_nil_2.
Qed.

(** Everything is written; then the last chunk and the footer are not. *)
Lemma catchup_list_survives_witness :
  catchup_chunks true (WriteM3u8List 10 true (Some "") [true; true; true; true; true] wit_chunks).2 =
    Ok (Some [{| ch_path := "7.ts"; ch_duration := 10000000000; ch_index := 7 |};
              {| ch_path := "8.ts"; ch_duration := 2009999999; ch_index := 8 |};
              {| ch_path := "9.ts"; ch_duration := 10000000000; ch_index := 9 |}]%Z) /\
  catchup_chunks true (WriteM3u8List 10 true (Some "") [true; true; true; false] wit_chunks).2 =
    Ok (Some [{| ch_path := "7.ts"; ch_duration := 10000000000; ch_index := 7 |};
              {| ch_path := "8.ts"; ch_duration := 2009999999; ch_index := 8 |}]%Z).
Proof.
  assert (Hr : forall c ns, (String.length (print_2f (GetDurationInSecconds c)) <=? 240) = true ->
    reread_duration (ch_duration c) = Ok ns -> rereads c ns).
  { intros c ns Hl Hr. split; [by apply Nat.leb_le|done]. }
  split.
  - refine (catchup_list_survives 10 [true; true; true; true; true] wit_chunks [10000000000; 2009999999; 10000000000]%Z _ _ wit_chunks_named _);
      [lia|cbn; lia|]. repeat (apply Forall2_cons_2; [apply Hr; vm_compute; reflexivity|]). apply Forall2_nil_2.
  - refine (catchup_list_survives 10 [true; true; true; false] wit_chunks [10000000000; 2009999999]%Z _ _ wit_chunks_named _);
      [lia|cbn; lia|]. repeat (apply Forall2_cons_2; [apply Hr; vm_compute; reflexivity|]). apply Forall2_nil_2.
Defined.

Lemma crlf_refused_witness :
  Parse (Some ("#EXTM3U" +:+ crlf +:+ "#EXTINF:10.00," +:+ crlf +:+ "7.ts" +:+ crlf +:+ "#EXT-X-ENDLIST")) m3u8_reader_new =
  Ok (Some (false, m3u8_reader_new)).
Proof.
  refine (crlf_refused {| ch_path := "7.ts"; ch_duration := 10000000000; ch_index := 7 |} "#EXT-X-ENDLIST" m3u8_reader_new _ _ _).
  - unfold in_u. cbn. lia.
  - apply Nat.leb_le. vm_compute. reflexivity.
  - split; [reflexivity|split; [cbn; lia|reflexivity]].
Defined.
End Witnesses.
