(* ===== verification/Protocol.v ===== *)
(** * Requests and responses

    The JSON-RPC messages that the daemon exchanges with its clients and with
    the stream processes. Their text form and the numbering of requests belong
    to the [common] library; [src/src/base/stream_commands.cpp] builds the
    messages of a stream process. *)

From S2P Require Import Prelude Platform.

(** ** The library's part *)

Class RpcLib := {
  json_rpc_id : Type;
  json_rpc_id_eq_dec :: EqDecision json_rpc_id;
  null_id : json_rpc_id;               (* the id of a notification *)
  MakeRequestID : Z -> json_rpc_id
}.

(** Different numbers are different identifiers. *)
Class RpcLibOk `{RpcLib} := {
  MakeRequestID_inj a b : in_u 64 a -> in_u 64 b -> MakeRequestID a = MakeRequestID b -> a = b
}.

Definition ref_rpc : RpcLib :=
  {| json_rpc_id := Z; null_id := (-1)%Z; MakeRequestID z := z |}.

Lemma ref_rpc_ok : @RpcLibOk ref_rpc.
Proof. by constructor. Qed.

Section Protocol.
Context `{RpcLib}.

(* [src/src/protocol/types.h:25-25 request_t] *)
Record request_t := { req_id : json_rpc_id; req_method : string; req_params : option string }.

Inductive rpc_message :=
| SuccessMessage
| SuccessResult (text : string)
| ServerError (text : string).

(* [src/src/protocol/types.h:24-24 response_t] *)
Record response_t := { resp_id : json_rpc_id; resp_message : rpc_message }.

(** What [ParseJsonRPC] makes of a text. *)
Inductive rpc_parsed :=
| ParseError (e : error)
| ParsedRequest (r : request_t)
| ParsedResponse (r : response_t)
| ParsedNothing.

(** ** Messages of a stream process *)

(* [src/src/base/stream_commands.cpp:19-24 RestartStreamRequest] *)
Definition RestartStreamRequest (id : json_rpc_id) : request_t :=
  {| req_id := id; req_method := "restart"; req_params := None |}.

(* [src/src/base/stream_commands.cpp:26-28 RestartStreamResponceSuccess] *)
Definition RestartStreamResponceSuccess (id : json_rpc_id) : response_t :=
  {| resp_id := id; resp_message := SuccessMessage |}.

(* [src/src/base/stream_commands.cpp:30-35 StopStreamRequest] *)
Definition StopStreamRequest (id : json_rpc_id) : request_t :=
  {| req_id := id; req_method := "stop"; req_params := None |}.

(* [src/src/base/stream_commands.cpp:37-39 StopStreamResponceSuccess] *)
Definition StopStreamResponceSuccess (id : json_rpc_id) : response_t :=
  {| resp_id := id; resp_message := SuccessMessage |}.

(* [src/src/base/stream_commands.cpp:41-43 ChangedSourcesStreamBroadcast] *)
Definition ChangedSourcesStreamBroadcast (params : string) : request_t :=
  {| req_id := null_id; req_method := "changed_source_stream"; req_params := Some params |}.

(* [src/src/base/stream_commands.cpp:45-47 StatisticStreamBroadcast] *)
Definition StatisticStreamBroadcast (params : string) : request_t :=
  {| req_id := null_id; req_method := "statistic_stream"; req_params := Some params |}.
End Protocol.

(** ** The [fastotv] library

    What the servers use of the data of the protocol with the subscribers,
    which is shared by several programs and not part of the repository. *)

Class FastotvLib `{JsonC} := {
  ClientPingInfo_DeSerialize : option json -> outcome unit;
  ServerPingInfo_SerializeToString : outcome string;
  ChannelsInfo : Type;
  channels_empty : ChannelsInfo;                          (* ChannelsInfo() *)
  ChannelsInfo_DeSerialize : option json -> outcome ChannelsInfo;
  ChannelsInfo_Serialize : ChannelsInfo -> outcome (option json);
  AuthInfo : Type;
  AuthInfo_DeSerialize : option json -> outcome AuthInfo;
  auth_login : AuthInfo -> string;
  auth_password : AuthInfo -> string;
  auth_device : AuthInfo -> string;
  auth_IsValid : AuthInfo -> bool;
  auth_default : AuthInfo;                                (* AuthInfo() *)
  RuntimeChannelLiteInfo_DeSerialize : option json -> outcome string (* its stream *)
}.

(** A default [AuthInfo] identifies nobody, and channels that were printed are
    read back. *)
Class FastotvLibOk `{FastotvLib} := {
  auth_default_invalid : auth_IsValid auth_default = false;
  channels_roundtrip c j : ChannelsInfo_Serialize c = Ok j -> ChannelsInfo_DeSerialize j = Ok c
}.

Section RefFastotv.
Context `{JsonC}.

Definition ref_auth_get (j : option json) (k : string) : outcome string :=
  match jget j k with Some v => get_std_string v | None => Err error_inval end.

(** Channels are a text; the fields of an [AuthInfo] are its login, password
    and device. *)
Definition ref_fastotv : FastotvLib :=
  {| ClientPingInfo_DeSerialize j := match j with Some _ => Ok tt | None => Err error_inval end;
     ServerPingInfo_SerializeToString := Ok "{}";
     ChannelsInfo := string;
     channels_empty := "";
     ChannelsInfo_DeSerialize j := get_std_string j;
     ChannelsInfo_Serialize c := Ok (Some (json_new_string c));
     AuthInfo := string * string * string;
     AuthInfo_DeSerialize j :=
       l ← ref_auth_get j "login"; p ← ref_auth_get j "password"; d ← ref_auth_get j "device_id";
       Ok (l, p, d);
     auth_login a := a.1.1;
     auth_password a := a.1.2;
     auth_device a := a.2;
     auth_IsValid a := negb (is_empty a.1.1) && negb (is_empty a.1.2) && negb (is_empty a.2);
     auth_default := ("", "", "");
     RuntimeChannelLiteInfo_DeSerialize j := ref_auth_get j "id" |}.

Lemma ref_fastotv_ok `{!JsonCOk} : @FastotvLibOk _ _ ref_fastotv.
Proof.
  constructor; [done|]. intros c j Hj. cbn in *. simplify_eq. cbn.
  by rewrite json_get_string_new.
Qed.
End RefFastotv.
