(* ===== verification/Controller.v ===== *)
(** * The controller of a stream process

    [src/src/stream/stream_controller.cpp]. A stream process has two threads:
    the main thread runs [Exec], which makes one stream after the other until
    it is told to stop; the loop thread reads commands and calls [Stop] and
    [Restart]. The first part of the file is the sequential logic, the second
    the interleaving of both threads as a step relation. *)

From S2P Require Import Prelude Platform StreamTypes Stats Constants Uris Configs BaseStream Timeshift Protocol.

(** ** After a stream has ended *)

(* [src/src/stream/stream_controller.h:35-35 restart_after_frozen_sec] *)
Definition restart_after_frozen_sec : Z := 60.

(** What [Exec] does next: leave the loop, start again, or wait first. *)
Inductive decision :=
| Break
| Continue (restart_attempts : Z)
| Wait (restart_attempts : Z) (wait_time : Z) (frozen : bool).

(** [without_restart] is [mem_->WithoutRestartTime()], in milliseconds. *)
(* [src/src/stream/stream_controller.cpp:235-268 StreamController::Exec] *)
Definition after_run (max_attempts restart_attempts : Z) (is_vod : bool) (res : ExitStatus)
    (without_restart : Z) : decision :=
  if is_vod then Break
  else if decide (res = EXIT_SELF) then Continue 0
  else if (restart_after_frozen_sec * 10 <? Z.quot without_restart 1000)%Z then Continue 0
  else
    let restart_attempts := u64 (restart_attempts + 1) in
    if (restart_attempts =? max_attempts)%Z then Wait 0 restart_after_frozen_sec true
    else Wait restart_attempts (u64 (restart_attempts * (restart_after_frozen_sec / max_attempts))) false.

(** The number of attempts after a decision and the wait that follows it. *)
Definition next_attempts (d : decision) : Z :=
  match d with Break => 0 | Continue n => n | Wait n _ _ => n end.
Definition wait_of (d : decision) : option Z :=
  match d with Wait _ w _ => Some w | _ => None end.

Section Backoff.
Local Open Scope Z_scope.

Lemma after_run_attempts max n is_vod res w :
  1 <= max < 2 ^ 64 -> 0 <= n < max -> 0 <= next_attempts (after_run max n is_vod res w) < max.
Proof.
  intros Hm Hn. unfold after_run. destruct is_vod; cbn; [lia|]. case_decide; cbn; [lia|].
  destruct (_ <? _); cbn -[Z.pow]; [lia|]. rewrite wrap_small by (unfold in_u; lia).
  destruct (Z.eqb_spec (n + 1) max); cbn -[Z.pow]; lia.
Qed.

Lemma backoff_le max n : 1 <= max -> 0 <= n < max -> 0 <= n * (restart_after_frozen_sec / max) < 60 \/ n = 0.
Proof.
  intros Hm Hn. unfold restart_after_frozen_sec.
  pose proof (Z.mul_div_le 60 max ltac:(lia)). pose proof (Z.div_pos 60 max ltac:(lia) ltac:(lia)).
  destruct (Z.eq_dec n 0); [by right|]. left. nia.
Qed.

(** A failed stream that did not live for ten minutes is started again
    after a wait of at most a minute; the wait is a whole minute, and the stream
    is shown as frozen, exactly on the last of the allowed attempts, and the
    count of attempts stays below their maximum. *)
Theorem after_run_failure max n w :
  1 <= max < 2 ^ 64 -> 0 <= n < max -> Z.quot w 1000 <= 600 ->
  exists n' wait frozen, after_run max n false EXIT_INNER w = Wait n' wait frozen /\
    0 <= n' < max /\ 0 <= wait <= 60 /\
    (frozen = true <-> n + 1 = max) /\ (frozen = true -> wait = 60 /\ n' = 0) /\
    (frozen = false -> n' = n + 1 /\ wait = (n + 1) * (60 / max)).
Proof.
  intros Hm Hn Hw. unfold after_run. rewrite decide_False by done.
  rewrite (proj2 (Z.ltb_ge _ _)) by (unfold restart_after_frozen_sec; lia).
  rewrite wrap_small by (unfold in_u; lia).
  destruct (Z.eqb_spec (n + 1) max) as [He|He].
  - exists 0, 60, true. split; [done|]. split_and!; try lia; done.
  - destruct (backoff_le max (n + 1)) as [Hb|Hb]; [lia..| |lia]. unfold restart_after_frozen_sec in *.
    rewrite wrap_small by (unfold in_u; lia).
    eexists _, _, false. split; [done|]. split_and!; try lia; done.
Qed.

(** [k] failures in a row, from the count [n]. *)
Fixpoint failures (max n : Z) (ws : list Z) : Z :=
  match ws with
  | [] => n
  | w :: ws' => failures max (next_attempts (after_run max n false EXIT_INNER w)) ws'
  end.

(** After [k] short failures in a row the count of attempts is [k] modulo
    their maximum, so that the stream freezes once every maximum. *)
Theorem failures_mod max ws :
  1 <= max < 2 ^ 64 -> Forall (fun w => Z.quot w 1000 <= 600) ws ->
  failures max 0 ws = Z.of_nat (length ws) mod max.
Proof.
  intros Hm Hws.
  assert (Hg : forall n, 0 <= n < max -> failures max n ws = (n + Z.of_nat (length ws)) mod max).
  { induction Hws as [|w ws Hw _ IH]; intros n Hn; cbn [failures length].
    - rewrite Z.add_0_r. by rewrite Z.mod_small.
    - destruct (after_run_failure max n w Hm Hn Hw) as (n' & wt & fr & -> & Hn' & _ & Hf & Ht & Hfl).
      cbn. rewrite IH by done. destruct fr.
      + destruct (Ht eq_refl) as [_ ->]. destruct Hf as [Hf _]. specialize (Hf eq_refl).
        replace (n + Z.of_nat (S (length ws))) with (Z.of_nat (length ws) + 1 * max) by lia.
        by rewrite Z.mod_add by lia.
      + destruct (Hfl eq_refl) as [-> _]. f_equal. lia. }
  rewrite Hg by lia. f_equal.
Qed.

(** With more than sixty attempts the division gives no wait at all. *)
Lemma backoff_zero max n w :
  60 < max < 2 ^ 64 -> 0 <= n -> n + 1 < max -> Z.quot w 1000 <= 600 ->
  after_run max n false EXIT_INNER w = Wait (n + 1) 0 false.
Proof.
  intros Hm Hn0 Hn1 Hw.
  destruct (after_run_failure max n w) as (n' & wt & fr & -> & _ & _ & Hf & _ & Hfl); [lia..|].
  destruct fr; [destruct Hf as [Hf _]; specialize (Hf eq_refl); lia|].
  destruct (Hfl eq_refl) as [-> ->]. rewrite Z.div_small by lia. by rewrite Z.mul_0_r.
Qed.
End Backoff.

(** ** Commands *)

Section Commands.
Context `{RpcLib}.

(** What the loop thread does on a message. *)
Inductive controller_event :=
| WriteResponse (r : response_t)
| CallStop
| CallRestart.

(* [src/src/stream/stream_controller.cpp:443-451 StreamController::HandleRequestStopStream] *)
Definition HandleRequestStopStream (req : request_t) : list controller_event :=
  [WriteResponse (StopStreamResponceSuccess (req_id req)); CallStop].

(* [src/src/stream/stream_controller.cpp:453-461 StreamController::HandleRequestRestartStream] *)
Definition HandleRequestRestartStream (req : request_t) : list controller_event :=
  [WriteResponse (RestartStreamResponceSuccess (req_id req)); CallRestart].

(* [src/src/stream/stream_controller.cpp:411-420 StreamController::HandleRequestCommand] *)
Definition controller_HandleRequestCommand (req : request_t) : list controller_event :=
  if decide (req_method req = "stop") then HandleRequestStopStream req
  else if decide (req_method req = "restart") then HandleRequestRestartStream req
  else [].

(** A command that cannot be read or parsed is an error. *)
(* [src/src/stream/stream_controller.cpp:334-370 StreamController::StreamDataRecived] *)
Definition StreamDataRecived `{CommonLib} (read : string + error) (parse : string -> rpc_parsed)
    : outcome (list controller_event) :=
  match read with
  | inr err => Err err
  | inl input_command =>
      match parse input_command with
      | ParseError e => Err (make_errno_error (description e) EAGAIN)
      | ParsedRequest req => Ok (controller_HandleRequestCommand req)
      | ParsedResponse _ => Ok []
      | ParsedNothing => Abort (NotReached "StreamDataRecived")
      end
  end.

(* [src/src/stream/stream_controller.cpp:372-380 StreamController::DataReceived] *)
Definition DataReceived `{CommonLib} (read : string + error) (parse : string -> rpc_parsed)
    : outcome (list controller_event) :=
  match StreamDataRecived read parse with
  | Err _ => Ok [CallStop]
  | r => r
  end.

(** The time to live: a timer is made when it is set and not zero. *)
(* [src/src/stream/stream_controller.cpp:300-310 StreamController::PreLooped] *)
Definition ttl_timer (ttl_sec : option Z) : option Z :=
  match ttl_sec with
  | Some t => if (t =? 0)%Z then None else Some t
  | None => None
  end.

(* [src/src/stream/stream_controller.cpp:386-395 StreamController::TimerEmited] *)
Definition TimerEmited (ttl_master_timer id : Z) : list controller_event :=
  if (id =? ttl_master_timer)%Z then [CallStop] else [].

(** A request number is the counter's value before it is incremented. *)
(* [src/src/stream/stream_controller.cpp:438-441 StreamController::NextRequestID] *)
Definition controller_NextRequestID (id : Z) : json_rpc_id * Z := (MakeRequestID id, u64 (id + 1)).

(** The stream process stops on any message that it cannot read. *)
Lemma DataReceived_error `{CommonLib} read parse e :
  StreamDataRecived read parse = Err e -> DataReceived read parse = Ok [CallStop].
Proof. unfold DataReceived. by intros ->. Qed.
End Commands.

(** [OnPipelineEOS]: the end of a film ends its stream for good, the end of any
    other stream is a failure. *)
(* [src/src/stream/stream_controller.cpp:498-504 StreamController::OnPipelineEOS] *)
Definition controller_OnPipelineEOS `{CommonLib} : act stream stream_event unit :=
  is_vod ← gets stream_IsVod;
  if is_vod : bool then Quit EXIT_SELF else Quit EXIT_INNER.

(** ** Timeshift arguments *)

Section TimeshiftArgs.
Context `{CommonLib} `{PathLib}.

(* [src/src/stream/stream_controller.cpp:50-69 make_timeshift_info] *)
Definition make_timeshift_info (args : ArgsMap) : outcome TimeShiftInfo :=
  let dir := args_get conv_string args TIMESHIFT_DIR_FIELD in
  (match dir with
   | None => critical_log "Define timeshift_dir variable and make it valid."
   | Some _ => Ok tt
   end) ;;
  Ok {| ti_dir := dir_path (default "" dir);
        ti_chunk_life_time :=
          default (ti_chunk_life_time timeshift_info_default)
            (args_get conv_i64 args TIMESHIFT_CHUNK_LIFE_TIME_FIELD);
        ti_delay := default (ti_delay timeshift_info_default)
            (args_get conv_i64 args TIMESHIFT_DELAY_FIELD) |}.
End TimeshiftArgs.

(** ** The two threads

    The main thread is in [Exec]; the loop thread calls [Stop] and [Restart], which
    wake the main thread under the mutex and then, without it, ask the stream that
    runs to quit. *)

(** Where the main thread is; a wait that is [woken] is inside [wait_for] and has
    been notified. *)
Inductive main_pc :=
| AtCheck                                   (* while (!stop_) *)
| Looking                                   (* a player looks for its first chunk *)
| BeforeLookWait                            (* there is none; before the mutex is taken *)
| LookWaiting (woken : bool)
| Creating                                  (* CreateStream: origin_ is null *)
| Building                                  (* origin_ is set; before g_main_loop_run *)
| Running                                   (* in g_main_loop_run *)
| Ended (res : ExitStatus)                  (* origin_ is destroyed *)
| BeforeWait (wait_time : Z)                (* before the mutex is taken *)
| Waiting (wait_time : Z) (woken : bool)
| Exited.

(** Where the loop thread is: in [Stop] or [Restart] it lets the mutex go before
    it calls [StopStream]. *)
Inductive loop_pc := Idle | BeforeStopStream.

Section Threads.
Context `{CommonLib}.

(* [src/src/stream/stream_controller.h:98-118 StreamController] *)
Record ctl := {
  ct_pc : main_pc;
  ct_loop : loop_pc;
  ct_stop : bool;
  ct_attempts : Z;
  ct_origin : option stream;                (* origin_ *)
  ct_runs : nat                             (* calls of CreateStream so far *)
}.

(** What the callbacks of a stream do to it while its loop runs: they make it quit,
    or they leave its loop alone. *)
Inductive loop_callback : stream -> stream -> Prop :=
| cb_quit status s : loop_callback s (act_state (Quit status s))
| cb_other s s' : s_loop_running s' = s_loop_running s -> s_last_exit_status s' = s_last_exit_status s -> loop_callback s s'.

Context (max_attempts : Z) (is_vod is_player : bool).

Definition goto (pc : main_pc) (c : ctl) : ctl :=
  {| ct_pc := pc; ct_loop := ct_loop c; ct_stop := ct_stop c; ct_attempts := ct_attempts c; ct_origin := ct_origin c;
     ct_runs := ct_runs c |}.
Definition set_loop_pc (pc : loop_pc) (c : ctl) : ctl :=
  {| ct_pc := ct_pc c; ct_loop := pc; ct_stop := ct_stop c; ct_attempts := ct_attempts c; ct_origin := ct_origin c;
     ct_runs := ct_runs c |}.
Definition set_stop (c : ctl) : ctl :=
  {| ct_pc := ct_pc c; ct_loop := ct_loop c; ct_stop := true; ct_attempts := ct_attempts c; ct_origin := ct_origin c;
     ct_runs := ct_runs c |}.
Definition set_attempts (n : Z) (c : ctl) : ctl :=
  {| ct_pc := ct_pc c; ct_loop := ct_loop c; ct_stop := ct_stop c; ct_attempts := n; ct_origin := ct_origin c;
     ct_runs := ct_runs c |}.
Definition set_origin (s : option stream) (c : ctl) : ctl :=
  {| ct_pc := ct_pc c; ct_loop := ct_loop c; ct_stop := ct_stop c; ct_attempts := ct_attempts c; ct_origin := s;
     ct_runs := ct_runs c |}.
Definition count_run (c : ctl) : ctl :=
  {| ct_pc := ct_pc c; ct_loop := ct_loop c; ct_stop := ct_stop c; ct_attempts := ct_attempts c; ct_origin := ct_origin c;
     ct_runs := S (ct_runs c) |}.

(** The main thread. A player looks for a chunk first, and goes back to the check
    if it is woken, or if the chunk has no valid number. A stream may fail to
    build its pipeline; its loop goes on until one of its callbacks, or the loop
    thread, makes it quit. *)
(* [src/src/stream/stream_controller.cpp:201-278 StreamController::Exec] *)
Inductive main_step : ctl -> ctl -> Prop :=
| m_stop c : ct_pc c = AtCheck -> ct_stop c = true -> main_step c (goto Exited c)
| m_look c : ct_pc c = AtCheck -> ct_stop c = false -> is_player = true -> main_step c (goto Looking c)
| m_found c : ct_pc c = Looking -> main_step c (goto Creating (count_run c))
| m_found_invalid c : ct_pc c = Looking -> main_step c (goto AtCheck c)
| m_not_found c : ct_pc c = Looking -> main_step c (goto BeforeLookWait c)
| m_look_lock c : ct_pc c = BeforeLookWait -> main_step c (goto (LookWaiting false) c)
| m_look_timeout c : ct_pc c = LookWaiting false -> main_step c (goto Looking c)
| m_look_woken c : ct_pc c = LookWaiting true -> main_step c (goto AtCheck c)
| m_create c : ct_pc c = AtCheck -> ct_stop c = false -> is_player = false -> main_step c (goto Creating (count_run c))
| m_no_stream c : ct_pc c = Creating -> main_step c (goto Exited c)
| m_created c mem : ct_pc c = Creating -> main_step c (goto Building (set_origin (Some (new_stream (with_status NEW mem))) c))
| m_build_fails c : ct_pc c = Building -> main_step c (goto (Ended EXIT_INNER) (set_origin None c))
| m_run c s now live : ct_pc c = Building -> ct_origin c = Some s ->
    main_step c (goto Running (set_origin (Some (act_state (exec_start now live s))) c))
| m_callback c s s' : ct_pc c = Running -> ct_origin c = Some s -> s_loop_running s = true -> loop_callback s s' ->
    main_step c (set_origin (Some s') c)
| m_end c s : ct_pc c = Running -> ct_origin c = Some s -> s_loop_running s = false ->
    main_step c (goto (Ended (s_last_exit_status s)) (set_origin None c))
| m_break c res w : ct_pc c = Ended res ->
    after_run max_attempts (ct_attempts c) is_vod res w = Break -> main_step c (goto Exited c)
| m_continue c res w n : ct_pc c = Ended res ->
    after_run max_attempts (ct_attempts c) is_vod res w = Continue n ->
    main_step c (set_attempts n (goto AtCheck c))
| m_wait c res w n t frozen : ct_pc c = Ended res ->
    after_run max_attempts (ct_attempts c) is_vod res w = Wait n t frozen ->
    main_step c (set_attempts n (goto (BeforeWait t) c))
| m_lock c t : ct_pc c = BeforeWait t -> main_step c (goto (Waiting t false) c)
| m_timeout c t : ct_pc c = Waiting t false -> main_step c (goto AtCheck c)
| m_woken c t : ct_pc c = Waiting t true -> main_step c (set_attempts 0 (goto AtCheck c)).

(** [notify_all] wakes a thread that waits, and no other. *)
Definition notify (pc : main_pc) : main_pc :=
  match pc with Waiting t _ => Waiting t true | LookWaiting _ => LookWaiting true | _ => pc end.

(** What a message to quit does is up to the stream: [HandleSyncExitMessage] looks
    whether its loop runs. *)
(* [src/src/stream/stream_controller.cpp:463-467 StreamController::StopStream] *)
Definition StopStream (c : ctl) : ctl :=
  set_loop_pc Idle (set_origin ((fun s => act_state (Quit EXIT_SELF s)) <$> ct_origin c) c).

(** The part under the mutex. *)
(* [src/src/stream/stream_controller.cpp:284-288 StreamController::Stop] *)
Definition stop_notify (c : ctl) : ctl := set_loop_pc BeforeStopStream (set_stop (goto (notify (ct_pc c)) c)).
(* [src/src/stream/stream_controller.cpp:293-296 StreamController::Restart] *)
Definition restart_notify (c : ctl) : ctl := set_loop_pc BeforeStopStream (goto (notify (ct_pc c)) c).

(** The calls with no step of the main thread in between. *)
(* [src/src/stream/stream_controller.cpp:283-290 StreamController::Stop] *)
Definition ctl_Stop (c : ctl) : ctl := StopStream (stop_notify c).
(* [src/src/stream/stream_controller.cpp:292-298 StreamController::Restart] *)
Definition ctl_Restart (c : ctl) : ctl := StopStream (restart_notify c).

Inductive ctl_step : ctl -> ctl -> Prop :=
| step_main c c' : main_step c c' -> ctl_step c c'
| step_stop c : ct_loop c = Idle -> ctl_step c (stop_notify c)
| step_restart c : ct_loop c = Idle -> ctl_step c (restart_notify c)
| step_stop_stream c : ct_loop c = BeforeStopStream -> ctl_step c (StopStream c).

Definition ctl_init : ctl :=
  {| ct_pc := AtCheck; ct_loop := Idle; ct_stop := false; ct_attempts := 0; ct_origin := None; ct_runs := 0 |}.

Lemma ctl_Stop_steps c : ct_loop c = Idle -> steps ctl_step c (ctl_Stop c).
Proof. intros Hl. eapply steps_step; [by apply step_stop|]. by apply steps_one, step_stop_stream. Qed.
Lemma ctl_Restart_steps c : ct_loop c = Idle -> steps ctl_step c (ctl_Restart c).
Proof. intros Hl. eapply steps_step; [by apply step_restart|]. by apply steps_one, step_stop_stream. Qed.

(** A step of the main thread, by the place it is at. *)
Ltac main_cases Hs :=
  inversion Hs as [? Hx|? Hx|? Hx|? Hx|? Hx|? Hx|? Hx|? Hx|? Hx|? Hx|? ? Hx|? Hx|? ? ? ? Hx|? ? ? Hx|? ? Hx|? ? ? Hx|? ? ? ? Hx|
                  ? ? ? ? ? ? Hx|? ? Hx|? ? Hx|? ? Hx]; subst.

(** *** The stream of the controller *)

(** [origin_] is there exactly from its creation to its end, and its loop runs at
    most in [g_main_loop_run]. *)
Definition origin_ok (c : ctl) : Prop :=
  match ct_pc c with
  | Building => exists s, ct_origin c = Some s /\ s_loop_running s = false
  | Running => exists s, ct_origin c = Some s
  | _ => ct_origin c = None
  end.

(** A message to quit does nothing to a stream whose loop does not run. *)
Lemma Quit_not_running status s : s_loop_running s = false -> act_state (Quit status s) = s.
Proof. intros Hs. unfold Quit, HandleSyncExitMessage, modify. cbn. by rewrite Hs. Qed.
Lemma Quit_stops status s : s_loop_running (act_state (Quit status s)) = false.
Proof. unfold Quit, HandleSyncExitMessage, modify. cbn. by destruct (s_loop_running s) eqn:Hs. Qed.
Lemma exec_start_runs now live s : s_loop_running (act_state (exec_start now live s)) = true.
Proof. by destruct live. Qed.

Lemma StopStream_not_running c :
  (forall s, ct_origin c = Some s -> s_loop_running s = false) -> StopStream c = set_loop_pc Idle c.
Proof.
  intros Hc. unfold StopStream. f_equal. destruct c as [pc lp st n [s|] r]; [|done]. unfold set_origin.
  cbn -[Quit]. by rewrite Quit_not_running by (by apply Hc).
Qed.

Lemma StopStream_origin c : origin_ok c -> origin_ok (StopStream c).
Proof.
  intros Ho. unfold origin_ok in *. destruct (ct_pc c) eqn:Hpc.
  6: { destruct Ho as (s & Hs & Hr). rewrite StopStream_not_running by (intros s' Hs'; congruence).
       cbn. rewrite Hpc. by exists s. }
  all: cbn; rewrite Hpc; try (by rewrite Ho). destruct Ho as [s ->]. by eexists.
Qed.

Lemma main_step_origin c c' : origin_ok c -> main_step c c' -> origin_ok c'.
Proof.
  unfold origin_ok. intros Ho Hs. main_cases Hs; rewrite Hx in Ho; cbn; try rewrite Hx; eauto.
Qed.

Lemma ctl_step_origin c c' : origin_ok c -> ctl_step c c' -> origin_ok c'.
Proof.
  intros Ho Hstep. destruct Hstep as [? ? Hs|? _|? _|x _]; [by eapply main_step_origin| | |].
  - unfold origin_ok in *. cbn. by destruct (ct_pc _).
  - unfold origin_ok in *. cbn. by destruct (ct_pc _).
  - by apply StopStream_origin.
Qed.

Lemma reachable_origin c : steps ctl_step ctl_init c -> origin_ok c.
Proof. intros Hs. by refine (steps_inv _ origin_ok _ _ ctl_step_origin _ Hs). Qed.

(** *** Safety *)

Lemma ctl_step_attempts c c' :
  (1 <= max_attempts < 2 ^ 64)%Z -> (0 <= ct_attempts c < max_attempts)%Z -> ctl_step c c' ->
  (0 <= ct_attempts c' < max_attempts)%Z.
Proof.
  intros Hm Hc Hstep. destruct Hstep as [? ? Hs|? _|? _|? _]; [|done..].
  main_cases Hs; cbn; try done; try lia;
    match goal with Ha : after_run _ _ _ ?res ?w = _ |- _ =>
      pose proof (after_run_attempts max_attempts (ct_attempts _) is_vod res w Hm Hc) as Hn; by rewrite Ha in Hn end.
Qed.

(** In every interleaving of commands and streams, the count of attempts
    stays below the configured maximum. *)
Theorem attempts_bounded c :
  (1 <= max_attempts < 2 ^ 64)%Z -> steps ctl_step ctl_init c ->
  (0 <= ct_attempts c < max_attempts)%Z.
Proof.
  intros Hm Hs. refine (steps_inv _ (fun c => (0 <= ct_attempts c < max_attempts)%Z) _ _ _ _ Hs).
  - intros a b Ha Hab. by eapply ctl_step_attempts.
  - cbn. lia.
Qed.

(** A player that looks for a chunk does not look at [stop_]. *)
Definition looks (pc : main_pc) : bool :=
  match pc with Looking | BeforeLookWait | LookWaiting _ => true | _ => false end.

Lemma ctl_step_stopped c c' :
  ct_stop c = true -> looks (ct_pc c) = false -> ctl_step c c' ->
  ct_stop c' = true /\ looks (ct_pc c') = false /\ ct_runs c' = ct_runs c.
Proof.
  intros Hc Hl Hstep. destruct Hstep as [? ? Hs|x _|x _|? _]; [|by split_and!; try done; cbn; destruct (ct_pc x)..|done].
  main_cases Hs; cbn; rewrite ?Hx in *; try done; congruence.
Qed.

(** Once [Stop] has been called no stream is created any more, whatever
    other commands arrive, unless a player was looking for its first chunk. *)
Theorem no_stream_after_stop c c' :
  looks (ct_pc c) = false -> steps ctl_step (stop_notify c) c' -> ct_stop c' = true /\ ct_runs c' = ct_runs c.
Proof.
  intros Hl Hs.
  destruct (steps_inv ctl_step (fun x => ct_stop x = true /\ looks (ct_pc x) = false /\ ct_runs x = ct_runs c) (stop_notify c) c')
    as (? & _ & ?); [| |done|done].
  - intros a b (Ha & Hb & Hr) Hab. destruct (ctl_step_stopped a b Ha Hb Hab) as (? & ? & ->). done.
  - split_and!; [done| |done]. cbn. by destruct (ct_pc c).
Qed.

(** *** After [Stop] *)

(** Steps that the main thread of a stream that is no player has still to make,
    once it is told to stop, without the callbacks of a stream whose loop runs. *)
Definition remaining (pc : main_pc) : nat :=
  match pc with
  | Creating => 7 | Building => 6 | Running => 5 | Ended _ => 4 | BeforeWait _ => 3 | Waiting _ _ => 2
  | AtCheck => 1 | Exited => 0
  | Looking | BeforeLookWait | LookWaiting _ => 8
  end.

(** The loop of a stream runs. *)
Definition loop_runs (c : ctl) : Prop :=
  ct_pc c = Running /\ exists s, ct_origin c = Some s /\ s_loop_running s = true.
Definition making (pc : main_pc) : bool := match pc with Creating | Building => true | _ => false end.

Lemma main_step_remaining c c' :
  ct_stop c = true -> looks (ct_pc c) = false -> main_step c c' ->
  loop_runs c /\ ct_pc c' = Running \/ remaining (ct_pc c') < remaining (ct_pc c).
Proof.
  intros Hc Hl Hs. main_cases Hs; rewrite Hx in *; cbn; try (right; lia); try done; try congruence.
  left. split; [|done]. split; [done|]. by eexists.
Qed.

Lemma main_progress c :
  (1 <= max_attempts < 2 ^ 64)%Z -> origin_ok c -> ct_pc c <> Exited -> exists c', main_step c c'.
Proof.
  intros Hm Ho Hne. unfold origin_ok in Ho.
  destruct (ct_pc c) as [| | |woken| | | |res|t|t woken|] eqn:Hpc; [| | | | | | | | | |done].
  - destruct (ct_stop c) eqn:Hst; [by eexists; apply m_stop|].
    destruct is_player eqn:Hp; eexists; [by apply m_look|by apply m_create].
  - eexists. by apply m_found.
  - eexists. by apply m_look_lock.
  - destruct woken; eexists; [by apply m_look_woken|by apply m_look_timeout].
  - eexists. by apply m_no_stream.
  - eexists. by apply m_build_fails.
  - destruct Ho as [s Ho]. destruct (s_loop_running s) eqn:Hr; eexists; [|by eapply m_end].
    by eapply m_callback, (cb_quit EXIT_SELF).
  - destruct (after_run max_attempts (ct_attempts c) is_vod res 0) eqn:Ha; eexists;
      [by eapply m_break | by eapply m_continue | by eapply m_wait].
  - eexists. by apply (m_lock _ t).
  - destruct woken; eexists; [by apply (m_woken _ t) | by apply (m_timeout _ t)].
Qed.

Lemma StopStream_stops c : ~ loop_runs (StopStream c).
Proof.
  intros [_ (s & Hs & Hrun)]. unfold StopStream, set_origin, set_loop_pc in Hs. cbn [ct_origin] in Hs.
  destruct (ct_origin c) as [s0|]; [|done]. cbn -[Quit] in Hs. injection Hs as <-. by rewrite Quit_stops in Hrun.
Qed.

(** A stopped controller that makes no stream and whose stream does not run. *)
Definition settled (c : ctl) : Prop :=
  ct_stop c = true /\ looks (ct_pc c) = false /\ making (ct_pc c) = false /\ ~ loop_runs c.

Lemma ctl_step_settled c c' : origin_ok c -> settled c -> ctl_step c c' -> settled c'.
Proof.
  intros Ho (Hst & Hl & Hm & Hr) Hs. destruct (ctl_step_stopped _ _ Hst Hl Hs) as (Hst' & Hl' & _).
  assert (Hnr : ct_pc c = Running -> exists s, ct_origin c = Some s /\ s_loop_running s = false).
  { intros Hpc. unfold origin_ok in Ho. rewrite Hpc in Ho. destruct Ho as [s Hs']. exists s. split; [done|].
    apply not_true_iff_false. intros Ht. apply Hr. split; [done|]. by exists s. }
  split; [done|]. split; [done|]. clear Hl' Hst'.
  destruct Hs as [? ? Hs|x _|x _|x _].
  - main_cases Hs; rewrite Hx in *; cbn; try done; try congruence; try (by split; [done|intros [? _]]).
    destruct (Hnr eq_refl) as (? & ? & ?). congruence.
  - cbn. split; [by destruct (ct_pc x)|]. intros [Hp (s & Hs & Hrun)]. apply Hr. cbn in *. split; [by destruct (ct_pc x)|by exists s].
  - cbn. split; [by destruct (ct_pc x)|]. intros [Hp (s & Hs & Hrun)]. apply Hr. cbn in *. split; [by destruct (ct_pc x)|by exists s].
  - split; [done|apply StopStream_stops].
Qed.

(** C34: the end of a controller, of a stream that is no player, to which [Stop] is
    called in any state that it can be in, with any steps of its main thread
    between the part of [Stop] under the mutex and [StopStream]. Whatever commands
    follow, the main thread is never stuck, and each step of it, but for the
    callbacks of a stream whose loop runs, brings it closer to the end of [Exec],
    which it has left after at most seven. If no stream was being made when
    [StopStream] was called there are no such callbacks either: the stream that
    ran has been told to quit, and at most five steps are left. *)
Theorem stop_terminates c c1 c' :
  (1 <= max_attempts < 2 ^ 64)%Z -> is_player = false -> steps ctl_step ctl_init c ->
  steps main_step (stop_notify c) c1 -> steps ctl_step (StopStream c1) c' ->
  (ct_pc c' <> Exited -> exists c'', main_step c' c'') /\
  remaining (ct_pc c') <= 7 /\
  (forall c'', main_step c' c'' -> loop_runs c' /\ ct_pc c'' = Running \/ remaining (ct_pc c'') < remaining (ct_pc c')) /\
  (making (ct_pc c1) = false ->
     remaining (ct_pc c') <= 5 /\ forall c'', main_step c' c'' -> remaining (ct_pc c'') < remaining (ct_pc c')).
Proof.
  intros Hm Hp Hc H1 H'.
  assert (Hnl : looks (ct_pc c) = false).
  { refine (steps_inv ctl_step (fun x => looks (ct_pc x) = false) _ _ _ _ Hc); [|done].
    intros a b Ha Hstep. destruct Hstep as [? ? Hs|x _|x _|? _]; [|cbn; by destruct (ct_pc x)..|done].
    main_cases Hs; rewrite Hx in *; cbn; try done; congruence. }
  assert (Ho : origin_ok (stop_notify c)).
  { pose proof (reachable_origin c Hc) as Ho. unfold origin_ok in *. cbn. by destruct (ct_pc c). }
  assert (Hinv : forall x y, main_step x y -> origin_ok x /\ ct_stop x = true /\ looks (ct_pc x) = false ->
                             origin_ok y /\ ct_stop y = true /\ looks (ct_pc y) = false).
  { intros x y Hxy (Hox & Hsx & Hlx). destruct (ctl_step_stopped x y Hsx Hlx (step_main _ _ Hxy)) as (? & ? & _).
    split_and!; [by eapply main_step_origin|done..]. }
  assert (H1ok : origin_ok c1 /\ ct_stop c1 = true /\ looks (ct_pc c1) = false).
  { refine (steps_inv main_step (fun x => origin_ok x /\ ct_stop x = true /\ looks (ct_pc x) = false) _ _ _ _ H1).
    - intros a b Ha Hab. by eapply Hinv.
    - split_and!; [done..|]. cbn. by destruct (ct_pc c). }
  destruct H1ok as (Ho1 & Hs1 & Hl1).
  assert (Hok : origin_ok (StopStream c1)) by (by apply StopStream_origin).
  assert (Hend : origin_ok c' /\ ct_stop c' = true /\ looks (ct_pc c') = false /\
                 (making (ct_pc c1) = false -> settled c')).
  { refine (steps_inv ctl_step (fun x => origin_ok x /\ ct_stop x = true /\ looks (ct_pc x) = false /\
                                          (making (ct_pc c1) = false -> settled x)) _ _ _ _ H').
    - intros a b (Hoa & Hsa & Hla & Hma) Hab. destruct (ctl_step_stopped a b Hsa Hla Hab) as (? & ? & _).
      split_and!; [by eapply ctl_step_origin|done..|]. intros Hmk. by eapply ctl_step_settled, Hab; [|apply Hma].
    - split_and!; [done..|]. intros Hmk. split_and!; [done..|]. apply StopStream_stops. }
  destruct Hend as (Ho' & Hs' & Hl' & Hset). split_and!.
  - by apply main_progress.
  - destruct (ct_pc c'); cbn in *; try done; lia.
  - intros c''. by apply main_step_remaining.
  - intros Hmk. destruct (Hset Hmk) as (_ & _ & Hm' & Hr'). split; [destruct (ct_pc c'); cbn in *; try done; lia|]. intros c'' Hs''.
    by destruct (main_step_remaining _ _ Hs' Hl' Hs'') as [[? _]|?].
Qed.

(** C35: any [Stop] that comes while a stream is being made, from the call of
    [CreateStream] to that of [g_main_loop_run], is lost on it: nothing but [stop_]
    has changed when it returns, since there is no stream to tell, or one that
    drops the message because its loop does not run. The loop can be entered
    after it all the same, and then the main thread stays there: each step of it
    is a callback of the stream. *)
Theorem stop_can_be_lost c :
  steps ctl_step ctl_init c -> ct_loop c = Idle -> making (ct_pc c) = true ->
  ctl_Stop c = set_stop c /\
  exists c1 s, steps main_step (ctl_Stop c) c1 /\ ct_pc c1 = Running /\ ct_stop c1 = true /\
    ct_origin c1 = Some s /\ s_loop_running s = true /\
    forall c2, main_step c1 c2 -> exists s', loop_callback s s' /\ c2 = set_origin (Some s') c1.
Proof.
  intros Hc Hl Hm. pose proof (reachable_origin c Hc) as Ho. unfold origin_ok in Ho.
  assert (Hstop : ctl_Stop c = set_stop c).
  { unfold ctl_Stop. rewrite StopStream_not_running.
    - destruct c as [pc lp st n o r]. cbn in *. subst lp. by destruct pc.
    - intros s Hs. cbn in Hs. destruct (ct_pc c); try done; [congruence|]. destruct Ho as (? & ? & ?). congruence. }
  split; [done|]. rewrite Hstop.
  assert (Hb : forall b s, ct_pc b = Building -> ct_origin b = Some s -> ct_stop b = true ->
    exists c1 s1, steps main_step b c1 /\ ct_pc c1 = Running /\ ct_stop c1 = true /\ ct_origin c1 = Some s1 /\
      s_loop_running s1 = true /\ forall c2, main_step c1 c2 -> exists s', loop_callback s1 s' /\ c2 = set_origin (Some s') c1).
  { intros b s Hpc Hob Hsb. eexists _, _. split; [apply steps_one; by apply (m_run b s 0 false)|].
    split_and!; [done..|]. intros c2 Hs. main_cases Hs; try done.
    - cbn in *. simplify_eq. by eexists.
    - cbn in *. simplify_eq. }
  destruct (ct_pc c) eqn:Hpc; try done.
  - pose (mem := {| ss_id := "s"; ss_type := RELAY; ss_start_time := 0; ss_loop_start_time := 0; ss_restarts := 0;
                    ss_status := NEW; ss_input := []; ss_output := [] |}).
    set (b := goto Building (set_origin (Some (new_stream (with_status NEW mem))) (set_stop c))).
    destruct (Hb b (new_stream (with_status NEW mem))) as (c1 & s1 & Hs & Hrest); [done..|].
    exists c1, s1. split; [|done]. eapply steps_step; [by apply m_created|exact Hs].
  - destruct Ho as (s & Hs & _). by apply (Hb (set_stop c) s).
Qed.

(** A [Stop] that comes while a player looks for its first chunk, and does not
    wait, is missed: it sets [stop_] alone, and the player goes on looking for as
    long as it finds none. *)
Theorem player_stop_missed c n :
  steps ctl_step ctl_init c -> ct_loop c = Idle -> ct_pc c = Looking \/ ct_pc c = BeforeLookWait ->
  ctl_Stop c = set_stop c /\
  exists c1, nsteps main_step n (ctl_Stop c) c1 /\ looks (ct_pc c1) = true /\ ct_runs c1 = ct_runs c.
Proof.
  intros Hc Hl Hm. pose proof (reachable_origin c Hc) as Ho. unfold origin_ok in Ho.
  assert (Hn : ct_origin c = None) by (by destruct Hm as [Hp|Hp]; rewrite Hp in Ho).
  assert (Hstop : ctl_Stop c = set_stop c)
    by (destruct c as [pc lp st k o r]; cbn in *; subst lp o; by destruct Hm as [->| ->]).
  split; [done|]. rewrite Hstop. clear Hc Hl Ho Hn Hstop.
  assert (Hgo : forall x, looks (ct_pc x) = true -> ct_pc x <> LookWaiting true ->
    exists y, main_step x y /\ looks (ct_pc y) = true /\ ct_pc y <> LookWaiting true /\ ct_runs y = ct_runs x).
  { intros x Hlx Hnx. destruct (ct_pc x) as [| | |[]| | | | | | |] eqn:Hpx; try done; eexists.
    - split; [by apply m_not_found|done].
    - split; [by apply m_look_lock|done].
    - split; [by apply m_look_timeout|done]. }
  assert (Hall : forall x, looks (ct_pc x) = true -> ct_pc x <> LookWaiting true ->
    exists y, nsteps main_step n x y /\ looks (ct_pc y) = true /\ ct_runs y = ct_runs x).
  { induction n as [|n IH]; intros x Hlx Hnx; [exists x; split; [constructor|done]|].
    destruct (Hgo x Hlx Hnx) as (y & Hxy & Hly & Hny & Hr). destruct (IH y Hly Hny) as (z & Hyz & Hlz & Hrz).
    exists z. split; [by econstructor|]. split; [done|congruence]. }
  destruct (Hall (set_stop c)) as (y & ? & ? & ?); [by destruct Hm as [Hp|Hp]; cbn; rewrite Hp..|]. by exists y.
Qed.

(** A [Stop] that comes while the main thread runs a stream, or waits to
    start one again, takes effect at once: the stream is told to end, and the
    wait is over. *)
Theorem stop_in_time c :
  (forall s, ct_pc c = Running -> ct_origin c = Some s -> s_loop_running s = true ->
     forall c', main_step (ctl_Stop c) c' -> c' = goto (Ended EXIT_SELF) (set_origin None (ctl_Stop c))) /\
  (forall t woken, ct_pc c = Waiting t woken ->
     forall c', main_step (ctl_Stop c) c' -> c' = set_attempts 0 (goto AtCheck (ctl_Stop c))).
Proof.
  split.
  - intros s Hpc Ho Hr c' Hs.
    assert (Hq : ct_origin (ctl_Stop c) = Some (set_loop false EXIT_SELF s)).
    { cbn. rewrite Ho. cbn. by rewrite Hr. }
    assert (Hp : ct_pc (ctl_Stop c) = Running) by (cbn; by rewrite Hpc).
    main_cases Hs; rewrite Hp in *; try done; rewrite Hq in *; simplify_eq. done.
  - intros t woken Hpc c' Hs. assert (Hp : ct_pc (ctl_Stop c) = Waiting t true) by (cbn; by rewrite Hpc).
    main_cases Hs; rewrite Hp in *; try done.
Qed.
End Threads.

(** ** The theorems at concrete values *)

Lemma after_run_failure_witness :
  exists n' wait frozen, after_run 10 9 false EXIT_INNER 5000 = Wait n' wait frozen /\
    (frozen = true <-> (9 + 1 = 10)%Z).
Proof.
  destruct (after_run_failure 10 9 5000) as (n' & w & f & He & _ & _ & Hf & _);
    [lia | lia | vm_compute; discriminate |]. exists n', w, f. split; [exact He | exact Hf].
Defined.

Lemma failures_mod_witness : failures 10 0 (repeat 5000%Z 23) = 3%Z.
Proof.
  rewrite (failures_mod 10 (repeat 5000%Z 23)); [reflexivity | lia |].
  repeat constructor; vm_compute; discriminate.
Defined.

Section Witnesses.
#[local] Existing Instance Ref.common.

(** A stream is being made. *)
Definition wit_creating : ctl :=
  {| ct_pc := Creating; ct_loop := Idle; ct_stop := false; ct_attempts := 0; ct_origin := None; ct_runs := 1 |}.
Lemma wit_creating_reached : steps (ctl_step 10 false false) ctl_init wit_creating.
Proof. apply steps_one, step_main. by apply (m_create 10 false false ctl_init). Qed.

(** It has been made, and its loop runs. *)
Definition wit_stream : stream := act_state (exec_start 0 false (new_stream (with_status NEW (s_stats (sample_stream 0))))).
Definition wit_running : ctl :=
  {| ct_pc := Running; ct_loop := Idle; ct_stop := false; ct_attempts := 0; ct_origin := Some wit_stream; ct_runs := 1 |}.
Lemma wit_running_reached : steps (ctl_step 10 false false) ctl_init wit_running.
Proof.
  eapply steps_trans; [exact wit_creating_reached|].
  set (b := goto Building (set_origin (Some (new_stream (with_status NEW (s_stats (sample_stream 0))))) wit_creating)).
  eapply (steps_step _ _ b); [by apply step_main, (m_created 10 false false wit_creating (s_stats (sample_stream 0)))|].
  apply steps_one, step_main. by apply (m_run 10 false false b (new_stream (with_status NEW (s_stats (sample_stream 0)))) 0 false).
Qed.

Lemma attempts_bounded_witness : (0 <= ct_attempts wit_creating < 10)%Z.
Proof. apply (attempts_bounded 10 false false wit_creating); [lia | exact wit_creating_reached]. Defined.

Lemma no_stream_after_stop_witness : ct_runs (StopStream (stop_notify wit_running)) = 1.
Proof.
  apply (no_stream_after_stop 10 false false wit_running (StopStream (stop_notify wit_running))); [reflexivity|].
  apply steps_one, step_stop_stream. reflexivity.
Defined.

(** The stream that runs is told to quit, and one step is made. *)
Lemma stop_terminates_witness :
  let c' := StopStream (stop_notify wit_running) in
  remaining (ct_pc c') = 5 /\ forall c'', main_step 10 false false c' c'' -> remaining (ct_pc c'') < 5.
Proof.
  intros c'. split; [reflexivity|].
  destruct (stop_terminates 10 false false wit_running (stop_notify wit_running) c') as (_ & _ & _ & Hq);
    [lia | reflexivity | exact wit_running_reached | apply steps_refl | apply steps_refl|].
  apply Hq. reflexivity.
Defined.

Lemma stop_can_be_lost_witness :
  ctl_Stop wit_creating = set_stop wit_creating /\
  exists c1 s, steps (main_step 10 false false) (ctl_Stop wit_creating) c1 /\ ct_pc c1 = Running /\ ct_stop c1 = true /\
    ct_origin c1 = Some s /\ s_loop_running s = true.
Proof.
  destruct (stop_can_be_lost 10 false false wit_creating wit_creating_reached) as [Hs (c1 & s & Hs1 & Hpc & Hst & Ho & Hr & _)];
    [reflexivity | reflexivity|].
  split; [exact Hs|]. exists c1, s. split; [exact Hs1|]. split; [exact Hpc|]. split; [exact Hst|]. split; [exact Ho | exact Hr].
Defined.

Lemma player_stop_missed_witness :
  exists c1, nsteps (main_step 10 false true) 1000 (ctl_Stop (goto Looking ctl_init)) c1 /\ looks (ct_pc c1) = true.
Proof.
  destruct (player_stop_missed 10 false true (goto Looking ctl_init) 1000) as (_ & c1 & Hn & Hl & _);
    [|reflexivity|left; reflexivity|exists c1; split; [exact Hn | exact Hl]].
  apply steps_one, step_main, m_look; reflexivity.
Defined.

Lemma stop_in_time_witness :
  main_step 10 false false (ctl_Stop wit_running) (goto (Ended EXIT_SELF) (set_origin None (ctl_Stop wit_running))).
Proof.
  destruct (main_progress 10 false false (ctl_Stop wit_running)) as [c' Hc']; [lia| |discriminate|].
  - apply StopStream_origin. by exists wit_stream.
  - pose proof Hc' as Hq. apply (proj1 (stop_in_time 10 false false wit_running) wit_stream) in Hq as ->; [exact Hc'|reflexivity..].
Defined.
End Witnesses.
