(* ===== verification/Commands.v ===== *)
(** * The daemon's messages

    [src/src/server/daemon/commands.cpp] builds the messages that the daemon
    exchanges with its clients; the classes of
    [src/src/server/daemon/commands_info/] are their parameters. The file also
    has the answer to [prepare_service], which creates the directories of the
    service, and the parameters of the notification of a source change. *)

From S2P Require Import Prelude Platform StreamTypes Uris Protocol.

(** ** The file system

    A state, and the calls that [utils::CreateAndCheckDir] and [ScanFolder]
    make on it. *)

Class FsLib := {
  fs : Type;
  is_directory_exist : fs -> string -> bool;
  create_directory : fs -> string -> option error * fs;     (* with parents *)
  node_access : fs -> string -> option error;
  ScanFolder : fs -> string -> option (list string);        (* files "*.*" *)
  make_file_path : string -> string -> option string        (* dir.MakeFileStringPath(name) *)
}.

(** After a directory was created it exists, and what existed still does. *)
Class FsLibOk `{FsLib} := {
  create_directory_exists s d s' : create_directory s d = (None, s') -> is_directory_exist s' d = true;
  create_directory_keeps s d r s' d' :
    create_directory s d = (r, s') -> is_directory_exist s d' = true -> is_directory_exist s' d' = true
}.

(** A file system that is the set of its directories, with some that cannot
    be made. *)
Definition ref_fs (forbidden : gset string) : FsLib :=
  {| fs := gset string;
     is_directory_exist s d := bool_decide (d ∈ s);
     create_directory s d :=
       if decide (d ∈ forbidden) then (Some (make_errno_error "Permission denied" (ErrnoCode 13)), s)
       else (None, {[d]} ∪ s);
     node_access s d := None;
     ScanFolder s d := None;
     make_file_path d n := Some (d +:+ n) |}.

Lemma ref_fs_ok forbidden : @FsLibOk (ref_fs forbidden).
Proof.
  constructor; cbn; intros s d; intros; case_decide; simplify_eq; rewrite ?bool_decide_eq_true in *;
    set_solver.
Qed.

Section Commands.
Context `{JsonC} `{UrlLib} `{RpcLib} `{FsLib}.

(* [src/src/utils/utils.cpp:34-42 CreateAndCheckDir] *)
Definition CreateAndCheckDir (s : fs) (directory_path : string) : option error * fs :=
  if is_directory_exist s directory_path then (node_access s directory_path, s)
  else
    match create_directory s directory_path with
    | (Some errn, s') => (Some errn, s')
    | (None, s') => (node_access s' directory_path, s')
    end.

(** ** commands.h *)

(* [src/src/server/daemon/commands.h:24-24 DAEMON_START_STREAM] *)
Definition DAEMON_START_STREAM : string := "start_stream".
(* [src/src/server/daemon/commands.h:25-25 DAEMON_STOP_STREAM] *)
Definition DAEMON_STOP_STREAM : string := "stop_stream".
(* [src/src/server/daemon/commands.h:26-26 DAEMON_RESTART_STREAM] *)
Definition DAEMON_RESTART_STREAM : string := "restart_stream".
(* [src/src/server/daemon/commands.h:27-27 DAEMON_GET_LOG_STREAM] *)
Definition DAEMON_GET_LOG_STREAM : string := "get_log_stream".
(* [src/src/server/daemon/commands.h:28-28 DAEMON_GET_PIPELINE_STREAM] *)
Definition DAEMON_GET_PIPELINE_STREAM : string := "get_pipeline_stream".
(* [src/src/server/daemon/commands.h:30-30 DAEMON_ACTIVATE] *)
Definition DAEMON_ACTIVATE : string := "activate_request".
(* [src/src/server/daemon/commands.h:31-31 DAEMON_STOP_SERVICE] *)
Definition DAEMON_STOP_SERVICE : string := "stop_service".
(* [src/src/server/daemon/commands.h:32-34 DAEMON_PREPARE_SERVICE] *)
Definition DAEMON_PREPARE_SERVICE : string := "prepare_service".
(* [src/src/server/daemon/commands.h:35-35 DAEMON_SYNC_SERVICE] *)
Definition DAEMON_SYNC_SERVICE : string := "sync_service".
(* [src/src/server/daemon/commands.h:36-36 DAEMON_PING_SERVICE] *)
Definition DAEMON_PING_SERVICE : string := "ping_service".
(* [src/src/server/daemon/commands.h:37-37 DAEMON_GET_LOG_SERVICE] *)
Definition DAEMON_GET_LOG_SERVICE : string := "get_log_service".
(* [src/src/server/daemon/commands.h:39-39 DAEMON_SERVER_PING] *)
Definition DAEMON_SERVER_PING : string := "ping_client".

(** ** commands.cpp *)

Definition success (id : json_rpc_id) : response_t := {| resp_id := id; resp_message := SuccessMessage |}.
Definition success_with (id : json_rpc_id) (result : string) : response_t :=
  {| resp_id := id; resp_message := SuccessResult result |}.
Definition fail_with (id : json_rpc_id) (error_text : string) : response_t :=
  {| resp_id := id; resp_message := ServerError error_text |}.
Definition notification (method params : string) : request_t :=
  {| req_id := null_id; req_method := method; req_params := Some params |}.

(* [src/src/server/daemon/commands.cpp:20-22 StopServiceResponceSuccess] *)
Definition StopServiceResponceSuccess (id : json_rpc_id) : response_t := success id.
(* [src/src/server/daemon/commands.cpp:24-27 StopServiceResponceFail] *)
Definition StopServiceResponceFail (id : json_rpc_id) (error_text : string) : response_t :=
  fail_with id error_text.
(* [src/src/server/daemon/commands.cpp:29-31 GetLogServiceResponceSuccess] *)
Definition GetLogServiceResponceSuccess (id : json_rpc_id) : response_t := success id.
(* [src/src/server/daemon/commands.cpp:33-36 GetLogServiceResponceFail] *)
Definition GetLogServiceResponceFail (id : json_rpc_id) (error_text : string) : response_t :=
  fail_with id error_text.
(* [src/src/server/daemon/commands.cpp:38-44 StopServiceRequest] *)
Definition StopServiceRequest (id : json_rpc_id) (params : string) : request_t :=
  {| req_id := id; req_method := DAEMON_STOP_SERVICE; req_params := Some params |}.
(* [src/src/server/daemon/commands.cpp:46-48 ActivateResponce] *)
Definition ActivateResponce (id : json_rpc_id) (result : string) : response_t := success_with id result.
(* [src/src/server/daemon/commands.cpp:50-53 ActivateResponceFail] *)
Definition ActivateResponceFail (id : json_rpc_id) (error_text : string) : response_t :=
  fail_with id error_text.
(* [src/src/server/daemon/commands.cpp:55-57 StateServiceResponce] *)
Definition StateServiceResponce (id : json_rpc_id) (result : string) : response_t :=
  success_with id result.
(* [src/src/server/daemon/commands.cpp:59-61 SyncServiceResponceSuccess] *)
Definition SyncServiceResponceSuccess (id : json_rpc_id) : response_t := success id.
(* [src/src/server/daemon/commands.cpp:63-65 StartStreamResponceSuccess] *)
Definition StartStreamResponceSuccess (id : json_rpc_id) : response_t := success id.
(* [src/src/server/daemon/commands.cpp:67-70 StartStreamResponceFail] *)
Definition StartStreamResponceFail (id : json_rpc_id) (error_text : string) : response_t :=
  fail_with id error_text.
(* [src/src/server/daemon/commands.cpp:72-74 StopStreamResponceSuccess] *)
Definition StopStreamResponceSuccess (id : json_rpc_id) : response_t := success id.
(* [src/src/server/daemon/commands.cpp:76-79 StopStreamResponceFail] *)
Definition StopStreamResponceFail (id : json_rpc_id) (error_text : string) : response_t :=
  fail_with id error_text.
(* [src/src/server/daemon/commands.cpp:81-83 RestartStreamResponceSuccess] *)
Definition RestartStreamResponceSuccess (id : json_rpc_id) : response_t := success id.
(* [src/src/server/daemon/commands.cpp:85-88 RestartStreamResponceFail] *)
Definition RestartStreamResponceFail (id : json_rpc_id) (error_text : string) : response_t :=
  fail_with id error_text.
(* [src/src/server/daemon/commands.cpp:90-92 GetLogStreamResponceSuccess] *)
Definition GetLogStreamResponceSuccess (id : json_rpc_id) : response_t := success id.
(* [src/src/server/daemon/commands.cpp:94-97 GetLogStreamResponceFail] *)
Definition GetLogStreamResponceFail (id : json_rpc_id) (error_text : string) : response_t :=
  fail_with id error_text.
(* [src/src/server/daemon/commands.cpp:99-105 PingDaemonRequest] *)
Definition PingDaemonRequest (id : json_rpc_id) (params : string) : request_t :=
  {| req_id := id; req_method := DAEMON_SERVER_PING; req_params := Some params |}.
(* [src/src/server/daemon/commands.cpp:107-109 PingServiceResponce] *)
Definition PingServiceResponce (id : json_rpc_id) (result : string) : response_t :=
  success_with id result.
(* [src/src/server/daemon/commands.cpp:111-114 PingServiceResponceFail] *)
Definition PingServiceResponceFail (id : json_rpc_id) (error_text : string) : response_t :=
  fail_with id error_text.
(* [src/src/server/daemon/commands.cpp:116-118 ChangedSourcesStreamBroadcast] *)
Definition daemon_ChangedSourcesStreamBroadcast (params : string) : request_t :=
  notification "changed_source_stream" params.
(* [src/src/server/daemon/commands.cpp:120-122 StatisitcStreamBroadcast] *)
Definition StatisitcStreamBroadcast (params : string) : request_t :=
  notification "statistic_stream" params.
(* [src/src/server/daemon/commands.cpp:124-126 StatisitcServiceBroadcast] *)
Definition StatisitcServiceBroadcast (params : string) : request_t :=
  notification "statistic_service" params.
(* [src/src/server/daemon/commands.cpp:128-130 QuitStatusStreamBroadcast] *)
Definition QuitStatusStreamBroadcast (params : string) : request_t :=
  notification "quit_status_stream" params.

(** ** The parameters of the requests to the service *)

(** An optional string field of a parameter object. *)
Definition string_field (j : option json) (k : string) : outcome string :=
  match jget j k with Some v => get_std_string v | None => Ok "" end.

(* [src/src/server/daemon/commands_info/service/license_info.cpp:27-30 LicenseInfo::SerializeFields] *)
Definition LicenseInfo_SerializeFields (license : string) (out : json) : json :=
  json_add_all out [("license_key", json_new_string license)].

(** A [LicenseInfo], like the [ActivateInfo] that derives from it, is its
    license. *)
(* [src/src/server/daemon/commands_info/service/license_info.cpp:32-42 LicenseInfo::DoDeSerialize] *)
Definition LicenseInfo_DoDeSerialize (serialized : option json) : outcome string :=
  string_field serialized "license_key".

Record service_StopInfo := { si_license : string; si_delay : Z }.

(* [src/src/server/daemon/commands_info/service/stop_info.cpp:27-42 StopInfo::DoDeSerialize] *)
Definition service_StopInfo_DoDeSerialize (serialized : option json) : outcome service_StopInfo :=
  license ← LicenseInfo_DoDeSerialize serialized;
  Ok {| si_license := license;
        si_delay := field serialized "delay" (fun j _ => json_get_int64 j) 0%Z |}.

(* [src/src/server/daemon/commands_info/service/stop_info.cpp:44-47 StopInfo::SerializeFields] *)
Definition service_StopInfo_SerializeFields (i : service_StopInfo) (out : json) : json :=
  LicenseInfo_SerializeFields (si_license i)
    (json_add_all out [("delay", json_new_int64 (si_delay i))]).

Record SyncInfo := { sy_streams : list string; sy_users : list string }.

(** [json_object_get_string] on every element of an array. *)
Fixpoint string_items (l : list (option json)) : outcome (list string) :=
  match l with
  | [] => Ok []
  | j :: l' => s ← get_std_string j; ss ← string_items l'; Ok (s :: ss)
  end.

Definition strings_field (j : option json) (k : string) : outcome (list string) :=
  match jget j k with Some v => items ← get_array v; string_items items | None => Ok [] end.

(* [src/src/server/daemon/commands_info/service/sync_info.cpp:51-79 SyncInfo::DoDeSerialize] *)
Definition SyncInfo_DoDeSerialize (serialized : option json) : outcome SyncInfo :=
  streams ← strings_field serialized "streams";
  users ← strings_field serialized "subscribers";
  Ok {| sy_streams := streams; sy_users := users |}.

(* [src/src/server/daemon/commands_info/service/sync_info.cpp:34-49 SyncInfo::SerializeFields] *)
Definition SyncInfo_SerializeFields (i : SyncInfo) (out : json) : json :=
  json_add_all out
    [ ("streams", json_new_array ((fun s => Some (json_new_string s)) <$> sy_streams i));
      ("subscribers", json_new_array ((fun s => Some (json_new_string s)) <$> sy_users i)) ].

(** The path to which a log is posted. *)
Definition url_field (j : option json) (k : string) : outcome url :=
  match jget j k with Some v => s ← get_std_string v; Ok (url_of_string s) | None => Ok url_empty end.

(* [src/src/server/daemon/commands_info/service/get_log_info.cpp:35-45 GetLogInfo::DoDeSerialize] *)
Definition service_GetLogInfo_DoDeSerialize (serialized : option json) : outcome url :=
  url_field serialized "path".

(* [src/src/server/daemon/commands_info/service/get_log_info.cpp:29-33 GetLogInfo::SerializeFields] *)
Definition service_GetLogInfo_SerializeFields (path : url) (out : json) : json :=
  json_add_all out [("path", json_new_string (url_to_string path))].

(* [src/src/server/daemon/commands_info/service/prepare_info.h:46-55 PrepareInfo] *)
Record PrepareInfo := {
  pi_feedback : string;
  pi_timeshifts : string;
  pi_hls : string;
  pi_playlists : string;
  pi_dvb : string;
  pi_capture : string;
  pi_vods_in : string;
  pi_vods : string
}.

(* [src/src/server/daemon/commands_info/service/prepare_info.cpp:133-193 PrepareInfo::DoDeSerialize] *)
Definition PrepareInfo_DoDeSerialize (serialized : option json) : outcome PrepareInfo :=
  feedback ← string_field serialized "feedback_directory";
  timeshifts ← string_field serialized "timeshifts_directory";
  hls ← string_field serialized "hls_directory";
  playlists ← string_field serialized "playlists_directory";
  dvb ← string_field serialized "dvb_directory";
  capture ← string_field serialized "capture_card_directory";
  vods_in ← string_field serialized "vods_in_directory";
  vods ← string_field serialized "vods_directory";
  Ok {| pi_feedback := feedback; pi_timeshifts := timeshifts; pi_hls := hls; pi_playlists := playlists;
        pi_dvb := dvb; pi_capture := capture; pi_vods_in := vods_in; pi_vods := vods |}.

(* [src/src/server/daemon/commands_info/service/prepare_info.cpp:115-131 PrepareInfo::SerializeFields] *)
Definition PrepareInfo_SerializeFields (i : PrepareInfo) (out : json) : json :=
  json_add_all out
    [ ("feedback_directory", json_new_string (pi_feedback i));
      ("timeshifts_directory", json_new_string (pi_timeshifts i));
      ("hls_directory", json_new_string (pi_hls i));
      ("playlists_directory", json_new_string (pi_playlists i));
      ("dvb_directory", json_new_string (pi_dvb i));
      ("capture_card_directory", json_new_string (pi_capture i));
      ("vods_in_directory", json_new_string (pi_vods_in i));
      ("vods_directory", json_new_string (pi_vods i)) ].

(** ** The directories of the service *)

(* [src/src/server/daemon/commands_info/service/prepare_info.h:57-68 DirectoryState] *)
Record DirectoryState := {
  ds_key : string;
  ds_dir : string;
  ds_content : option (list string);
  ds_is_valid : bool;
  ds_error_str : string
}.

Context `{PathLib}.

(* [src/src/server/daemon/commands_info/service/prepare_info.cpp:195-211 DirectoryState::DirectoryState] *)
Definition make_DirectoryState (s : fs) (dir_str k : string) : DirectoryState * fs :=
  if is_empty dir_str then
    ({| ds_key := k; ds_dir := dir_default; ds_content := None; ds_is_valid := false;
        ds_error_str := "Invalid input." |}, s)
  else
    let '(errn, s') := CreateAndCheckDir s (dir_path dir_str) in
    match errn with
    | Some e =>
        ({| ds_key := k; ds_dir := dir_path dir_str; ds_content := None; ds_is_valid := false;
            ds_error_str := description e |}, s')
    | None =>
        ({| ds_key := k; ds_dir := dir_path dir_str; ds_content := None; ds_is_valid := true;
            ds_error_str := "" |}, s')
    end.

(* [src/src/server/daemon/commands_info/service/prepare_info.cpp:213-217 DirectoryState::LoadContent] *)
Definition LoadContent (s : fs) (d : DirectoryState) : DirectoryState :=
  if ds_is_valid d then
    {| ds_key := ds_key d; ds_dir := ds_dir d; ds_content := ScanFolder s (ds_dir d);
       ds_is_valid := ds_is_valid d; ds_error_str := ds_error_str d |}
  else d.

(** The members of a [Directories], in the order of their declarations. *)
(* [src/src/server/daemon/commands_info/service/prepare_info.cpp:219-227 Directories::Directories] *)
Definition directory_keys (i : PrepareInfo) : list (string * string) :=
  [ (pi_feedback i, "feedback_directory"); (pi_timeshifts i, "timeshifts_directory");
    (pi_hls i, "hls_directory"); (pi_playlists i, "playlists_directory");
    (pi_dvb i, "dvb_directory"); (pi_capture i, "capture_card_directory");
    (pi_vods_in i, "vods_in_directory"); (pi_vods i, "vods_directory") ].

Fixpoint make_states (s : fs) (l : list (string * string)) : list DirectoryState * fs :=
  match l with
  | [] => ([], s)
  | (dir, k) :: l' =>
      let '(d, s1) := make_DirectoryState s dir k in
      let '(ds, s2) := make_states s1 l' in (d :: ds, s2)
  end.

(* [src/src/server/daemon/commands_info/service/prepare_info.cpp:219-229 Directories::Directories] *)
Definition make_Directories (s : fs) (sinf : PrepareInfo) : list DirectoryState * fs :=
  let '(ds, s') := make_states s (directory_keys sinf) in
  ((fun d => if decide (ds_key d = "vods_in_directory") then LoadContent s' d else d) <$> ds, s').

(* [src/src/server/daemon/commands_info/service/prepare_info.cpp:46-69 MakeDirectoryStateResponce] *)
Definition MakeDirectoryStateResponce (dir : DirectoryState) : json :=
  let obj := json_add_all json_new_object [("path", json_new_string (ds_dir dir))] in
  let obj :=
    if ds_is_valid dir then
      let jcontent := json_new_array
        (match ds_content dir with
         | Some content => (fun path => Some (json_new_string path)) <$> content
         | None => []
         end) in
      json_add_all obj [("result", json_new_string "OK"); ("content", jcontent)]
    else json_add_all obj [("error", json_new_string (ds_error_str dir))] in
  json_add_all json_new_object [(ds_key dir, obj)].

(* [src/src/server/daemon/commands_info/service/prepare_info.cpp:231-244 MakeDirectoryResponce] *)
Definition MakeDirectoryResponce (dirs : list DirectoryState) : string :=
  json_get_string (json_new_array ((fun d => Some (MakeDirectoryStateResponce d)) <$> dirs)).

(** ** The parameters of the requests about a stream *)

(* [src/src/server/daemon/commands_info/stream/stream_info.cpp:31-42 StreamInfo::DoDeSerialize] *)
Definition StreamInfo_DoDeSerialize (serialized : option json) : outcome string :=
  match jget serialized "id" with
  | None => Err error_inval
  | Some jid => get_std_string jid
  end.

(* [src/src/server/daemon/commands_info/stream/stream_info.cpp:44-47 StreamInfo::SerializeFields] *)
Definition StreamInfo_SerializeFields (stream_id : string) (out : json) : json :=
  json_add_all out [("id", json_new_string stream_id)].

(* [src/src/server/daemon/commands_info/stream/start_info.cpp:29-44 StartInfo::DoDeSerialize] *)
Definition StartInfo_DoDeSerialize (serialized : option json) : outcome string :=
  match serialized with
  | None => Err error_inval
  | Some _ =>
      match jget serialized "config" with
      | None => Err error_inval
      | Some jconfig => get_std_string jconfig
      end
  end.

(* [src/src/server/daemon/commands_info/stream/start_info.cpp:46-49 StartInfo::SerializeFields] *)
Definition StartInfo_SerializeFields (config : string) (out : json) : json :=
  json_add_all out [("config", json_new_string config)].

Record stream_GetLogInfo := { gl_stream : string; gl_feedback_dir : string; gl_path : url }.

(* [src/src/server/daemon/commands_info/stream/get_log_info.cpp:39-62 GetLogInfo::DoDeSerialize] *)
Definition stream_GetLogInfo_DoDeSerialize (serialized : option json) : outcome stream_GetLogInfo :=
  id ← StreamInfo_DoDeSerialize serialized;
  match jget serialized "feedback_directory" with
  | None => Err error_inval
  | Some jfeedback_dir =>
      feedback_dir ← get_std_string jfeedback_dir;
      path ← url_field serialized "path";
      Ok {| gl_stream := id; gl_feedback_dir := feedback_dir; gl_path := path |}
  end.

(* [src/src/server/daemon/commands_info/stream/get_log_info.cpp:64-69 GetLogInfo::SerializeFields] *)
Definition stream_GetLogInfo_SerializeFields (i : stream_GetLogInfo) (out : json) : json :=
  StreamInfo_SerializeFields (gl_stream i)
    (json_add_all out
      [ ("path", json_new_string (url_to_string (gl_path i)));
        ("feedback_directory", json_new_string (gl_feedback_dir i)) ]).

Record QuitStatusInfo := { qs_stream : string; qs_exit_status : Z; qs_signal : Z }.

(* [src/src/server/daemon/commands_info/stream/quit_status_info.cpp:37-61 QuitStatusInfo::DoDeSerialize] *)
Definition QuitStatusInfo_DoDeSerialize (serialized : option json) : outcome QuitStatusInfo :=
  id ← StreamInfo_DoDeSerialize serialized;
  match jget serialized "signal", jget serialized "exit_status" with
  | Some jsignal, Some jexit_status =>
      Ok {| qs_stream := id; qs_exit_status := json_get_int jexit_status;
            qs_signal := json_get_int jsignal |}
  | _, _ => Err error_inval
  end.

(* [src/src/server/daemon/commands_info/stream/quit_status_info.cpp:63-67 QuitStatusInfo::SerializeFields] *)
Definition QuitStatusInfo_SerializeFields (i : QuitStatusInfo) (out : json) : json :=
  StreamInfo_SerializeFields (qs_stream i)
    (json_add_all out
      [("signal", json_new_int (qs_signal i)); ("exit_status", json_new_int (qs_exit_status i))]).

(** ** The notification of a source change *)

Record ChangedSouresInfo := { ch_id : string; ch_url : InputUri }.

(* [src/src/stream_commands_info/changed_sources_info.cpp:28-39 ChangedSouresInfo::SerializeFields] *)
Definition ChangedSouresInfo_SerializeFields (i : ChangedSouresInfo) (out : json) : json :=
  json_add_all out
    [ ("id", json_new_string (ch_id i));
      ("url", InputUri_SerializeFields (ch_url i) json_new_object) ].

(* [src/src/stream_commands_info/changed_sources_info.cpp:49-70 ChangedSouresInfo::DoDeSerialize] *)
Definition ChangedSouresInfo_DoDeSerialize (serialized : option json) : outcome ChangedSouresInfo :=
  match jget serialized "id" with
  | None => Err error_inval
  | Some jid =>
      id ← get_std_string jid;
      match jget serialized "url" with
      | None => Ok {| ch_id := id; ch_url := input_uri_default |}
      | Some jurl =>
          url ← DeSerialize InputUri_DoDeSerialize jurl;
          Ok {| ch_id := id; ch_url := url |}
      end
  end.
End Commands.

(** ** Reading back *)

Section RoundTrips.
Context `{JsonCOk} `{UrlLibOk}.

Lemma jget_last out l k :
  json_is_object out = true ->
  jget (Some (json_add_all out l)) k =
  match last_added k l with Some v => Some (Some v) | None => jget (Some out) k end.
Proof. intros Ho. unfold jget. cbn. by apply json_add_all_lookup. Qed.

Lemma json_add_all_object out l : json_is_object (json_add_all out l) = json_is_object out.
Proof.
  revert out. induction l as [|[k v] l IH]; intros out; [done|]. cbn. by rewrite IH, json_is_object_add.
Qed.

(** Looks up through objects that were built in several steps. *)
Local Ltac lookups :=
  repeat first
    [ rewrite jget_new
    | rewrite jget_last by (rewrite ?json_add_all_object; apply json_is_object_new) ];
  cbn [last_added String.eqb Ascii.eqb Bool.eqb fmap option_fmap option_map get_std_string mbind
       outcome_bind];
  rewrite ?json_get_string_new.

Lemma string_items_new l :
  string_items ((fun s => Some (json_new_string s)) <$> l) = Ok l.
Proof. induction l as [|s l IH]; cbn; [done|]. by rewrite json_get_string_new, IH. Qed.

Lemma strings_field_new out k l :
  jget out k = Some (Some (json_new_array ((fun s => Some (json_new_string s)) <$> l))) ->
  strings_field out k = Ok l.
Proof.
  intros Hj. unfold strings_field, get_array. rewrite Hj, json_array_new. cbn. apply string_items_new.
Qed.

Lemma stop_info_roundtrip i :
  in_s 64 (si_delay i) ->
  service_StopInfo_DoDeSerialize (Some (service_StopInfo_SerializeFields i json_new_object)) = Ok i.
Proof.
  intros Hd. destruct i as [license delay]. unfold service_StopInfo_DoDeSerialize, service_StopInfo_SerializeFields,
    LicenseInfo_DoDeSerialize, LicenseInfo_SerializeFields, string_field, field.
  lookups. by rewrite json_get_int64_new.
Qed.

(** What a client of the daemon writes as the parameters of a request, the
    daemon reads back: the license and the delay of a stop, the lists of a
    synchronisation, the eight directories of a preparation, the identifier of a
    stream, where to post its log, and how a stream has ended. *)
Theorem parameters_roundtrip (stop : service_StopInfo) (sync : SyncInfo) (prep : PrepareInfo)
    (log : stream_GetLogInfo) (quit : QuitStatusInfo) :
  in_s 64 (si_delay stop) -> in_s 32 (qs_signal quit) -> in_s 32 (qs_exit_status quit) ->
  service_StopInfo_DoDeSerialize (Some (service_StopInfo_SerializeFields stop json_new_object)) = Ok stop /\
  SyncInfo_DoDeSerialize (Some (SyncInfo_SerializeFields sync json_new_object)) = Ok sync /\
  PrepareInfo_DoDeSerialize (Some (PrepareInfo_SerializeFields prep json_new_object)) = Ok prep /\
  stream_GetLogInfo_DoDeSerialize (Some (stream_GetLogInfo_SerializeFields log json_new_object)) = Ok log /\
  QuitStatusInfo_DoDeSerialize (Some (QuitStatusInfo_SerializeFields quit json_new_object)) = Ok quit.
Proof.
  intros Hd Hs He. split_and!.
  - by apply stop_info_roundtrip.
  - destruct sync as [ss us]. unfold SyncInfo_DoDeSerialize, SyncInfo_SerializeFields. cbn [sy_streams sy_users].
    rewrite (strings_field_new _ "streams" ss), (strings_field_new _ "subscribers" us) by (by lookups). done.
  - destruct prep. unfold PrepareInfo_DoDeSerialize, PrepareInfo_SerializeFields, string_field. by lookups.
  - destruct log as [id dir path]. unfold stream_GetLogInfo_DoDeSerialize, StreamInfo_DoDeSerialize,
      stream_GetLogInfo_SerializeFields, StreamInfo_SerializeFields, url_field.
    lookups. by rewrite url_print_parse.
  - destruct quit as [id st sg]. unfold QuitStatusInfo_DoDeSerialize, StreamInfo_DoDeSerialize,
      QuitStatusInfo_SerializeFields, StreamInfo_SerializeFields.
    lookups. by rewrite !json_get_int_new.
Qed.

(** The other parameters, and the notification of a source change. *)
Lemma StreamInfo_roundtrip id :
  StreamInfo_DoDeSerialize (Some (StreamInfo_SerializeFields id json_new_object)) = Ok id.
Proof. unfold StreamInfo_DoDeSerialize, StreamInfo_SerializeFields. by lookups. Qed.

Lemma StartInfo_roundtrip config :
  StartInfo_DoDeSerialize (Some (StartInfo_SerializeFields config json_new_object)) = Ok config.
Proof. unfold StartInfo_DoDeSerialize, StartInfo_SerializeFields. by lookups. Qed.

Lemma service_GetLogInfo_roundtrip path :
  service_GetLogInfo_DoDeSerialize (Some (service_GetLogInfo_SerializeFields path json_new_object)) = Ok path.
Proof.
  unfold service_GetLogInfo_DoDeSerialize, service_GetLogInfo_SerializeFields, url_field. lookups.
  by rewrite url_print_parse.
Qed.

End RoundTrips.

(** ** The directories of the service *)

Section Prepare.
Context `{JsonC} `{FsLibOk} `{PathLib}.

Lemma CreateAndCheckDir_spec s d e s' :
  CreateAndCheckDir s d = (e, s') ->
  (e = None -> is_directory_exist s' d = true) /\
  (forall d', is_directory_exist s d' = true -> is_directory_exist s' d' = true).
Proof.
  unfold CreateAndCheckDir. destruct (is_directory_exist s d) eqn:Hd.
  - intros [= <- <-]. done.
  - destruct (create_directory s d) as [[errn|] s1] eqn:Hc; intros [= <- <-]; split; try done.
    + intros d'. by eapply create_directory_keeps.
    + intros _. by eapply create_directory_exists.
    + intros d'. by eapply create_directory_keeps.
Qed.

Lemma make_DirectoryState_spec s dir k d s' :
  make_DirectoryState s dir k = (d, s') ->
  ds_key d = k /\ ds_content d = None /\ (dir = "" -> ds_is_valid d = false /\ s' = s) /\
  (dir <> "" -> ds_dir d = dir_path dir) /\
  (ds_is_valid d = true -> is_directory_exist s' (ds_dir d) = true) /\
  (forall d', is_directory_exist s d' = true -> is_directory_exist s' d' = true).
Proof.
  unfold make_DirectoryState. destruct (is_empty dir) eqn:He.
  - apply is_empty_true in He. intros [= <- <-]. cbn. naive_solver.
  - destruct (CreateAndCheckDir s (dir_path dir)) as [[e|] s1] eqn:Hc;
      destruct (CreateAndCheckDir_spec _ _ _ _ Hc) as [Hok Hk]; intros [= <- <-]; cbn;
      split_and!; try done; first [by intros -> | by intros _; apply Hok].
Qed.

Lemma make_states_spec l s ds s' :
  make_states s l = (ds, s') ->
  ds_key <$> ds = l.*2 /\
  (forall d, d ∈ ds -> ds_is_valid d = true -> is_directory_exist s' (ds_dir d) = true) /\
  Forall2 (fun x d => (x.1 = "" -> ds_is_valid d = false) /\ (x.1 <> "" -> ds_dir d = dir_path x.1)) l ds /\
  (forall d', is_directory_exist s d' = true -> is_directory_exist s' d' = true).
Proof.
  revert s ds s'. induction l as [|[dir k] l IH]; intros s ds s'; cbn.
  { intros [= <- <-]. split_and!; try done. intros d Hd. by apply elem_of_nil in Hd. }
  destruct (make_DirectoryState s dir k) as [d s1] eqn:Hd.
  destruct (make_states s1 l) as [ds' s2] eqn:Hs. intros [= <- <-].
  destruct (make_DirectoryState_spec _ _ _ _ _ Hd) as (Hk & _ & He & Hp & Hv & Hm).
  destruct (IH _ _ _ Hs) as (Hks & Hvs & Hf & Hms). split_and!.
  - cbn. by rewrite Hk, Hks.
  - intros d' [->|Hin]%elem_of_cons; [|by apply Hvs]. intros Hd'. by apply Hms, Hv.
  - constructor; [|done]. split; [|done]. cbn. intros Hx. by apply He.
  - intros d' Hd'. by apply Hms, Hm.
Qed.

Lemma Forall2_fmap_same {A B} (P : A -> B -> Prop) (f : B -> B) l k :
  (forall a b, P a b -> P a (f b)) -> Forall2 P l k -> Forall2 P l (f <$> k).
Proof. intros Hf. induction 1; constructor; eauto. Qed.

(** The answer to a preparation has one state per directory, in the order
    of the request; a directory that is reported as good exists when the answer
    is made, one that was not given is reported as bad, and none that existed is
    gone. *)
Theorem make_Directories_spec s i ds s' :
  make_Directories s i = (ds, s') ->
  ds_key <$> ds = (directory_keys i).*2 /\
  (forall d, d ∈ ds -> ds_is_valid d = true -> is_directory_exist s' (ds_dir d) = true) /\
  Forall2 (fun x d => (x.1 = "" -> ds_is_valid d = false) /\ (x.1 <> "" -> ds_dir d = dir_path x.1))
    (directory_keys i) ds /\
  (forall d', is_directory_exist s d' = true -> is_directory_exist s' d' = true).
Proof.
  unfold make_Directories. destruct (make_states s (directory_keys i)) as [ds' s1] eqn:Hs.
  intros [= <- <-]. destruct (make_states_spec _ _ _ _ Hs) as (Hk & Hv & Hf & Hm).
  assert (Hl : forall s d, ds_key (LoadContent s d) = ds_key d /\
    ds_is_valid (LoadContent s d) = ds_is_valid d /\ ds_dir (LoadContent s d) = ds_dir d).
  { intros s0 d. unfold LoadContent. by destruct (ds_is_valid d) eqn:Hd. }
  split_and!; [| | |done].
  - rewrite <- Hk, <- list_fmap_compose. apply list_fmap_ext. intros n d _. cbn. case_decide; [|done].
    apply Hl.
  - intros d (d0 & -> & Hin)%list_elem_of_fmap. case_decide; [|by apply Hv].
    destruct (Hl s1 d0) as (_ & -> & ->). by apply Hv.
  - apply Forall2_fmap_same; [|done]. intros x d Hx. case_decide; [|done].
    by destruct (Hl s1 d) as (_ & -> & ->).
Qed.
End Prepare.

(** ** The theorems at concrete values *)

Section Witnesses.
#[local] Existing Instances Ref.common Ref.urls Ref.paths.
#[local] Instance sample_json : JsonC := Ref.json_c (fun _ => None).
#[local] Instance sample_fs : FsLib := ref_fs {["/root"]}.

Definition sample_prepare : PrepareInfo :=
  {| pi_feedback := "/var/feedback"; pi_timeshifts := ""; pi_hls := "/var/hls"; pi_playlists := "/root";
     pi_dvb := ""; pi_capture := ""; pi_vods_in := "/var/in"; pi_vods := "/var/vods" |}.

Lemma parameters_roundtrip_witness :
  PrepareInfo_DoDeSerialize (Some (PrepareInfo_SerializeFields sample_prepare json_new_object)) =
  Ok sample_prepare.
Proof.
  apply (@parameters_roundtrip _ _ (Ref.json_c_ok _) _ Ref.urls_ok
    {| si_license := "key"; si_delay := 5 |} {| sy_streams := []; sy_users := [] |} sample_prepare
    {| gl_stream := "1"; gl_feedback_dir := "/f"; gl_path := ("http://h/p" : @url Ref.urls) |}
    {| qs_stream := "1"; qs_exit_status := 0; qs_signal := 9 |}); vm_compute; split; (done || discriminate).
Defined.

(** The four directories that are given and can be made are good. *)
Lemma make_Directories_spec_witness :
  (ds_is_valid <$> (make_Directories ∅ sample_prepare).1) =
    [true; false; true; false; false; false; true; true] /\
  (forall d, d ∈ (make_Directories ∅ sample_prepare).1 -> ds_is_valid d = true ->
     is_directory_exist (make_Directories ∅ sample_prepare).2 (ds_dir d) = true).
Proof.
  split; [vm_compute; reflexivity|].
  apply (@make_Directories_spec _ _ (ref_fs_ok _) _ ∅ sample_prepare
           (make_Directories ∅ sample_prepare).1 (make_Directories ∅ sample_prepare).2).
  apply surjective_pairing.
Defined.
End Witnesses.
