(* ===== verification/Users.v ===== *)
(** * The users of the subscribers' server

    [src/src/server/subscribers/commands_info/user_info.cpp] and
    [src/src/server/sync_finder.cpp]: what a client of the daemon sends about
    the subscribers, and the table in which the daemon keeps it. *)

From S2P Require Import Prelude Platform Protocol.

(** ** UserInfo *)

(* [src/src/server/subscribers/commands_info/user_info.h:31-31 Status] *)
Definition BANNED : Z := 2.

Section Users.
Context `{FastotvLib}.

(* [src/src/server/subscribers/commands_info/user_info.h:33-49 DeviceInfo] *)
Record DeviceInfo := { dev_id : string; dev_connections : Z }.

(* [src/src/server/subscribers/commands_info/user_info.cpp:69-71 DeviceInfo::IsValid] *)
Definition DeviceInfo_IsValid (d : DeviceInfo) : bool :=
  negb (is_empty (dev_id d)) && (0 <? dev_connections d)%Z.

(* [src/src/server/subscribers/commands_info/user_info.cpp:40-57 DeviceInfo::DoDeSerialize] *)
Definition DeviceInfo_DoDeSerialize (serialized : option json) : outcome DeviceInfo :=
  match jget serialized "id" with
  | None => Err error_inval
  | Some jdid =>
      did ← get_std_string jdid;
      match jget serialized "connections" with
      | None => Err error_inval
      | Some jconnections => Ok {| dev_id := did; dev_connections := u64 (json_get_int64 jconnections) |}
      end
  end.

(* [src/src/server/subscribers/commands_info/user_info.cpp:59-67 DeviceInfo::SerializeFields] *)
Definition DeviceInfo_SerializeFields (d : DeviceInfo) (out : json) : outcome json :=
  if negb (DeviceInfo_IsValid d) then Err error_inval
  else Ok (json_add_all out
    [("id", json_new_string (dev_id d)); ("connections", json_new_int64 (i64 (dev_connections d)))]).

(** [static_cast<Status>] keeps the number. *)
(* [src/src/server/subscribers/commands_info/user_info.h:51-85 UserInfo] *)
Record UserInfo := {
  us_uid : string;
  us_login : string;
  us_password : string;
  us_ch : ChannelsInfo;
  us_devices : list DeviceInfo;
  us_status : Z
}.

(* [src/src/server/subscribers/commands_info/user_info.cpp:91-93 UserInfo::IsValid] *)
Definition UserInfo_IsValid (u : UserInfo) : bool :=
  negb (is_empty (us_uid u)) && negb (is_empty (us_login u)) && negb (is_empty (us_password u)).

(* [src/src/server/subscribers/commands_info/user_info.cpp:95-97 UserInfo::IsBanned] *)
Definition IsBanned (u : UserInfo) : bool := (us_status u =? BANNED)%Z.

(** The devices that are written: an invalid one is left out. *)
(* [src/src/server/subscribers/commands_info/user_info.cpp:116-123 UserInfo::SerializeFields] *)
Fixpoint devices_Serialize (l : list DeviceInfo) : list (option json) :=
  match l with
  | [] => []
  | d :: l' =>
      match DeviceInfo_SerializeFields d json_new_object with
      | Ok j => Some j :: devices_Serialize l'
      | _ => devices_Serialize l'
      end
  end.

(* [src/src/server/subscribers/commands_info/user_info.cpp:99-126 UserInfo::SerializeFields] *)
Definition UserInfo_SerializeFields (u : UserInfo) (out : json) : outcome json :=
  if negb (UserInfo_IsValid u) then Err error_inval
  else
    let out := json_add_all out
      [ ("id", json_new_string (us_uid u));
        ("login", json_new_string (us_login u));
        ("password", json_new_string (us_password u));
        ("status", json_new_int (us_status u)) ] in
    jchannels ← ChannelsInfo_Serialize (us_ch u);
    Ok (json_add_all (json_object_add out "channels" jchannels)
      [("devices", json_new_array (devices_Serialize (us_devices u)))]).

(** The devices of an array; those that do not parse are left out. *)
(* [src/src/server/subscribers/commands_info/user_info.cpp:175-183 UserInfo::DoDeSerialize] *)
Fixpoint devices_DeSerialize (items : list (option json)) : outcome (list DeviceInfo) :=
  match items with
  | [] => Ok []
  | jdevice :: rest =>
      match DeSerialize DeviceInfo_DoDeSerialize jdevice with
      | Ok d => ds ← devices_DeSerialize rest; Ok (d :: ds)
      | Err _ => devices_DeSerialize rest
      | Abort r => Abort r
      end
  end.

(** A field that must be there, as a text. *)
Definition needed_string (j : option json) (k : string) : outcome string :=
  match jget j k with None => Err error_inval | Some v => get_std_string v end.

(* [src/src/server/subscribers/commands_info/user_info.cpp:128-188 UserInfo::DoDeSerialize] *)
Definition UserInfo_DoDeSerialize (serialized : option json) : outcome UserInfo :=
  chan ← (match jget serialized "channels" with
          | None => Ok channels_empty
          | Some jchan => ChannelsInfo_DeSerialize jchan
          end);
  uid ← needed_string serialized "id";
  login ← needed_string serialized "login";
  password ← needed_string serialized "password";
  match jget serialized "status" with
  | None => Err error_inval
  | Some jstate =>
      devices ← (match jget serialized "devices" with
                 | None => Ok []
                 | Some jdevices => items ← get_array jdevices; devices_DeSerialize items
                 end);
      Ok {| us_uid := uid; us_login := login; us_password := password; us_ch := chan;
            us_devices := devices; us_status := json_get_int jstate |}
  end.

(* [src/src/server/subscribers/commands_info/user_info.cpp:190-203 UserInfo::FindDevice] *)
Definition FindDevice (u : UserInfo) (id : string) : outcome DeviceInfo :=
  if is_empty id then Err error_inval
  else
    match List.find (fun d => String.eqb id (dev_id d)) (us_devices u) with
    | Some d => Ok d
    | None => Err (make_error "Device not found")
    end.

(** ** SyncFinder *)

(** [users_] is a map from logins; [insert] does not replace. *)
(* [src/src/server/sync_finder.cpp:22-40 SyncFinder::FindUser] *)
Definition FindUser (users : gmap string UserInfo) (user : AuthInfo) : outcome UserInfo :=
  if negb (auth_IsValid user) then Err error_inval
  else
    match users !! auth_login user with
    | None => Err (make_error "User not found")
    | Some founded_user =>
        if String.eqb (auth_password user) (us_password founded_user) then Ok founded_user
        else Err (make_error "Invalid password")
    end.

(* [src/src/server/sync_finder.cpp:42-45 SyncFinder::Clear] *)
Definition SyncFinder_Clear (users : gmap string UserInfo) : gmap string UserInfo := ∅.

(* [src/src/server/sync_finder.cpp:47-50 SyncFinder::AddUser] *)
Definition AddUser (user : UserInfo) (users : gmap string UserInfo) : gmap string UserInfo :=
  match users !! us_login user with
  | Some _ => users
  | None => <[us_login user := user]> users
  end.
End Users.

(** ** Reading back *)

Section UsersTheorems.
Context `{FastotvLibOk} `{!JsonCOk}.

Lemma DeviceInfo_roundtrip d j :
  in_u 64 (dev_connections d) -> DeviceInfo_SerializeFields d json_new_object = Ok j ->
  DeSerialize DeviceInfo_DoDeSerialize (Some j) = Ok d.
Proof.
  intros Hd. unfold DeviceInfo_SerializeFields. destruct (DeviceInfo_IsValid d); [|done].
  cbn [negb]. intros <-%Ok_inj. cbn [DeSerialize]. unfold DeviceInfo_DoDeSerialize. json_lookup.
  cbn [get_std_string mbind outcome_bind]. rewrite json_get_string_new, json_get_int64_new.
  - rewrite u64_i64 by done. by destruct d.
  - apply swrap_range. lia.
Qed.

Lemma devices_roundtrip l :
  Forall (fun d => in_u 64 (dev_connections d)) l ->
  devices_DeSerialize (devices_Serialize l) = Ok (filter (fun d => DeviceInfo_IsValid d = true) l).
Proof.
  induction 1 as [|d l Hd Hl IH]; [done|]. cbn [devices_Serialize]. rewrite filter_cons.
  destruct (DeviceInfo_SerializeFields d json_new_object) as [j|e|r] eqn:Hs.
  - cbn [devices_DeSerialize]. rewrite (DeviceInfo_roundtrip d j), IH by done.
    rewrite decide_True; [done|]. unfold DeviceInfo_SerializeFields in Hs.
    by destruct (DeviceInfo_IsValid d).
  - rewrite decide_False; [done|]. unfold DeviceInfo_SerializeFields in Hs.
    by destruct (DeviceInfo_IsValid d).
  - unfold DeviceInfo_SerializeFields in Hs. by destruct (DeviceInfo_IsValid d).
Qed.

(** A subscriber that a client of the daemon describes is read back with
    the same data, less the devices without a name or without a connection. *)
Theorem UserInfo_roundtrip u j :
  Forall (fun d => in_u 64 (dev_connections d)) (us_devices u) -> in_s 32 (us_status u) ->
  UserInfo_SerializeFields u json_new_object = Ok j ->
  UserInfo_DoDeSerialize (Some j) =
  Ok {| us_uid := us_uid u; us_login := us_login u; us_password := us_password u; us_ch := us_ch u;
        us_devices := filter (fun d => DeviceInfo_IsValid d = true) (us_devices u);
        us_status := us_status u |}.
Proof.
  intros Hd Hs. unfold UserInfo_SerializeFields. destruct (UserInfo_IsValid u); [|done]. cbn [negb].
  intros (jch & Hch & <-%Ok_inj)%outcome_bind_Ok.
  set (o := json_add_all json_new_object _).
  assert (Ho : json_is_object o = true).
  { unfold o. cbn. by rewrite !json_is_object_add, json_is_object_new. }
  assert (Hg : forall k, jget (Some (json_add_all (json_object_add o "channels" jch)
      [("devices", json_new_array (devices_Serialize (us_devices u)))])) k =
    if String.eqb "devices" k then Some (Some (json_new_array (devices_Serialize (us_devices u))))
    else if String.eqb "channels" k then Some jch else jget (Some o) k).
  { intros k. unfold jget. cbn [json_add_all mbind option_bind].
    rewrite json_get_ex_add by (by rewrite json_is_object_add).
    destruct (String.eqb_spec "devices" k); [by rewrite decide_True|].
    rewrite decide_False, json_get_ex_add by done.
    destruct (String.eqb_spec "channels" k); [by rewrite decide_True | by rewrite decide_False]. }
  unfold UserInfo_DoDeSerialize, needed_string. rewrite !Hg. unfold o.
  cbn [String.eqb Ascii.eqb Bool.eqb].
  rewrite (channels_roundtrip _ _ Hch). cbn [mbind outcome_bind]. json_lookup.
  cbn [mbind outcome_bind get_std_string]. rewrite !json_get_string_new.
  cbn [get_array mbind outcome_bind]. unfold get_array. rewrite json_array_new. cbn [mbind outcome_bind].
  rewrite devices_roundtrip by done. cbn [mbind outcome_bind]. by rewrite json_get_int_new.
Qed.

(** ** Finding a user *)

Lemma AddUser_lookup u us l :
  AddUser u us !! l = match us !! l with
                      | Some x => Some x
                      | None => if decide (us_login u = l) then Some u else None
                      end.
Proof.
  unfold AddUser. destruct (decide (us_login u = l)) as [<-|Hne].
  - destruct (us !! us_login u) eqn:Hu; [done|]. apply lookup_insert_eq.
  - destruct (us !! us_login u) eqn:Hu; [by destruct (us !! l)|].
    rewrite lookup_insert_ne by done. by destruct (us !! l).
Qed.

(** The first description of a login counts. *)
Definition first_user (l : list UserInfo) (login : string) : option UserInfo :=
  List.find (fun u => String.eqb (us_login u) login) l.

Lemma AddUsers_lookup l us login :
  fold_left (fun us u => AddUser u us) l us !! login =
  match us !! login with Some x => Some x | None => first_user l login end.
Proof.
  revert us. induction l as [|u l IH]; intros us; cbn; [by destruct (us !! login)|].
  rewrite IH, AddUser_lookup. destruct (us !! login); [done|]. unfold first_user. cbn.
  destruct (String.eqb_spec (us_login u) login); [by rewrite decide_True|]. by rewrite decide_False.
Qed.

(** A subscriber is let in exactly with the password of the first description
    of its login; an invalid identification never is. *)
Lemma FindUser_spec l a u :
  FindUser (fold_left (fun us u => AddUser u us) l (SyncFinder_Clear ∅)) a = Ok u <->
  auth_IsValid a = true /\ first_user l (auth_login a) = Some u /\ auth_password a = us_password u.
Proof.
  unfold FindUser, SyncFinder_Clear. rewrite AddUsers_lookup, lookup_empty.
  destruct (auth_IsValid a); cbn [negb]; [|naive_solver].
  destruct (first_user l (auth_login a)) as [u'|]; [|naive_solver].
  destruct (String.eqb_spec (auth_password a) (us_password u')); naive_solver.
Qed.

Lemma FindUser_login us a u : FindUser us a = Ok u -> us !! auth_login a = Some u.
Proof.
  unfold FindUser. destruct (auth_IsValid a); [|done]. cbn [negb].
  destruct (us !! auth_login a) as [u'|]; [|done]. by destruct (String.eqb _ _); intros [= <-].
Qed.
End UsersTheorems.

(** ** The theorems at concrete values *)

Section Witnesses.
#[local] Existing Instances Ref.common.
#[local] Instance sample_json : JsonC := Ref.json_c (fun _ => None).
#[local] Instance sample_fastotv : FastotvLib := ref_fastotv.

Definition sample_user : UserInfo :=
  {| us_uid := "42"; us_login := "ann"; us_password := "secret"; us_ch := ("[]" : @ChannelsInfo _ _ ref_fastotv);
     us_devices := [ {| dev_id := "tv"; dev_connections := 2 |}; {| dev_id := ""; dev_connections := 1 |} ];
     us_status := 1 |}.

Lemma UserInfo_roundtrip_witness :
  exists j, UserInfo_SerializeFields sample_user json_new_object = Ok j /\
  UserInfo_DoDeSerialize (Some j) =
  Ok {| us_uid := "42"; us_login := "ann"; us_password := "secret"; us_ch := ("[]" : @ChannelsInfo _ _ ref_fastotv);
        us_devices := [ {| dev_id := "tv"; dev_connections := 2 |} ]; us_status := 1 |}.
Proof.
  destruct (UserInfo_SerializeFields sample_user json_new_object) as [j|e|r] eqn:Hj;
    [|vm_compute in Hj; discriminate..].
  exists j. split; [done|].
  etransitivity; [apply (@UserInfo_roundtrip _ _ sample_fastotv
    (@ref_fastotv_ok _ _ (Ref.json_c_ok _)) (Ref.json_c_ok _) sample_user j); [| |exact Hj]
  | reflexivity].
  - repeat constructor; vm_compute; done || discriminate.
  - split; vm_compute; done || discriminate.
Defined.
End Witnesses.
