(* ===== verification/Machine.v ===== *)
(** * The state of the machine

    [src/src/utils/utils.cpp]: what the daemon reads of the machine (from the
    texts of [/proc]), its load, and the cleaning of directories of chunks. *)

From Stdlib Require SpecFloat.
From S2P Require Import Prelude Files Platform.

(** ** [long double]

    The extended precision of x86. *)

Definition long_double : Type := SpecFloat.spec_float.
Definition ld_of_Z (z : Z) : long_double := SpecFloat.binary_normalize 64 16384 z 0 false.
Definition ld_sub (x y : long_double) : long_double := SpecFloat.SFsub 64 16384 x y.
Definition ld_mul (x y : long_double) : long_double := SpecFloat.SFmul 64 16384 x y.
Definition ld_div (x y : long_double) : long_double := SpecFloat.SFdiv 64 16384 x y.

(** A conversion to [int]: the fraction is dropped; what is no number or out of
    the range has no defined result. *)
Definition ld_to_int (d : long_double) : outcome Z :=
  let in_range z := if ((- 2 ^ 31 <=? z) && (z <? 2 ^ 31))%Z then Ok z
                    else Abort (UndefinedBehaviour "long double to int") in
  match d with
  | SpecFloat.S754_zero _ => Ok 0%Z
  | SpecFloat.S754_finite false m e => in_range (Z.shiftl (Zpos m) e)
  | SpecFloat.S754_finite true m e => in_range (- Z.shiftl (Zpos m) e)%Z
  | _ => Abort (UndefinedBehaviour "long double to int")
  end.

(** ** Processors *)

(* [src/src/utils/utils.h:26-39 CpuShot] *)
Record CpuShot := {
  user : Z; nice : Z; system : Z; idle : Z; iowait : Z; irq : Z; softirq : Z; steal : Z; guest : Z; guest_nice : Z
}.
(* [src/src/utils/utils.cpp:128-129 CpuShot::CpuShot] *)
Definition cpu_shot_new : CpuShot :=
  {| user := 0; nice := 0; system := 0; idle := 0; iowait := 0; irq := 0; softirq := 0; steal := 0; guest := 0;
     guest_nice := 0 |}.

Definition idle_time (c : CpuShot) : Z := u64 (idle c + iowait c).
Definition busy_time (c : CpuShot) : Z := u64 (user c + nice c + system c + irq c + softirq c + steal c).

(** Zero divided by zero is no number. *)
(* [src/src/utils/utils.cpp:131-148 GetCpuMachineLoad] *)
Definition GetCpuMachineLoad (prev next : CpuShot) : long_double :=
  let PrevIdle := idle_time prev in
  let Idle := idle_time next in
  let PrevTotal := u64 (PrevIdle + busy_time prev) in
  let Total := u64 (Idle + busy_time next) in
  let totald := ld_of_Z (u64 (Total - PrevTotal)) in
  let idled := ld_of_Z (u64 (Idle - PrevIdle)) in
  ld_div (ld_sub totald idled) totald.

(** [file]: the text of [/proc/stat]; [garbage]: what the first four variables
    hold before they are read, which no number of the line replaces if it has
    fewer. The time spent waiting is read, and not stored. *)
(* [src/src/utils/utils.cpp:150-199 GetMachineCpuShot] *)
Definition GetMachineCpuShot (garbage : nat -> Z) (file : option string) : outcome CpuShot :=
  match file with
  | None => Ok cpu_shot_new
  | Some data =>
      match fgets 255 {| f_data := data; f_pos := 0 |} with
      | (None, _) => Abort (UndefinedBehaviour "sscanf of an uninitialised buffer")
      | (Some buffer, _) =>
          let ns := match strip_prefix "cpu" (c_str buffer) with Some rest => scan_us 16 10 rest | None => [] end in
          let get i := default (if i <? 4 then garbage i else 0%Z) (ns !! i) in
          Ok {| user := u64 (get 0 - get 8); nice := u64 (get 1 - get 9); system := get 2; idle := get 3;
                iowait := 0; irq := get 5; softirq := get 6; steal := get 7; guest := get 8; guest_nice := get 9 |}
      end
  end.

(** ** Memory *)

(* [src/src/utils/utils.h:44-52 MemoryShot] *)
Record MemoryShot := { total_bytes_ram : Z; free_bytes_ram : Z; avail_bytes_ram : Z }.
(* [src/src/utils/utils.cpp:201-201 MemoryShot::MemoryShot] *)
Definition memory_shot_new : MemoryShot := {| total_bytes_ram := 0; free_bytes_ram := 0; avail_bytes_ram := 0 |}.

(* [src/src/utils/utils.cpp:203-205 MemoryShot::GetAvailable] *)
Definition GetAvailable (m : MemoryShot) : long_double := ld_div (ld_of_Z (avail_bytes_ram m)) (ld_of_Z (total_bytes_ram m)).

(** [sscanf(line, "<tag> %lu kB", ...) == 1]. *)
Definition scan_kb (tag line : string) : option Z :=
  rest ← strip_prefix tag (c_str line); '(v, _) ← scan_u (String.length rest) rest; Some v.

(** One line; the numbers in kilobytes. *)
(* [src/src/utils/utils.cpp:218-221 GetMachineMemoryShot] *)
Definition memory_line (m : MemoryShot) (line : string) : MemoryShot :=
  match scan_kb "MemTotal:" line with
  | Some v => {| total_bytes_ram := v; free_bytes_ram := free_bytes_ram m; avail_bytes_ram := avail_bytes_ram m |}
  | None =>
  match scan_kb "MemFree:" line with
  | Some v => {| total_bytes_ram := total_bytes_ram m; free_bytes_ram := v; avail_bytes_ram := avail_bytes_ram m |}
  | None =>
  match scan_kb "MemAvailable:" line with
  | Some v => {| total_bytes_ram := total_bytes_ram m; free_bytes_ram := free_bytes_ram m; avail_bytes_ram := v |}
  | None => m
  end end end.

(* [src/src/utils/utils.cpp:207-230 GetMachineMemoryShot] *)
Definition GetMachineMemoryShot (meminfo : option string) : MemoryShot :=
  match meminfo with
  | None => memory_shot_new
  | Some data =>
      let m := fold_left memory_line (lines_of 256 data) memory_shot_new in
      {| total_bytes_ram := u64 (total_bytes_ram m * 1024); free_bytes_ram := u64 (free_bytes_ram m * 1024);
         avail_bytes_ram := u64 (avail_bytes_ram m * 1024) |}
  end.

(** ** Disks *)

(* [src/src/utils/utils.h:56-61 HddShot] *)
Record HddShot := { hdd_bytes_total : Z; hdd_bytes_free : Z }.
(* [src/src/utils/utils.cpp:232-232 HddShot::HddShot] *)
Definition hdd_shot_new : HddShot := {| hdd_bytes_total := 0; hdd_bytes_free := 0 |}.

(** [f_blocks], [f_bfree] and [f_bsize] of [statvfs("/")]. *)
(* [src/src/utils/utils.cpp:234-245 GetMachineHddShot] *)
Definition GetMachineHddShot (statvfs : option (Z * Z * Z)) : HddShot :=
  match statvfs with
  | None => hdd_shot_new
  | Some (f_blocks, f_bfree, f_bsize) =>
      {| hdd_bytes_total := u64 (f_blocks * f_bsize); hdd_bytes_free := u64 (f_bfree * f_bsize) |}
  end.

(** ** Network *)

(* [src/src/utils/utils.h:65-70 NetShot] *)
Record NetShot := { bytes_recv : Z; bytes_send : Z }.
(* [src/src/utils/utils.cpp:247-247 NetShot::NetShot] *)
Definition net_shot_new : NetShot := {| bytes_recv := 0; bytes_send := 0 |}.

(** A line of an interface. The name goes into a buffer of 128 bytes; numbers
    that are missing keep what the stack held: [garbage]. *)
(* [src/src/utils/utils.cpp:262-276 GetMachineNetShot] *)
Definition net_line (garbage : nat -> Z) (shot : NetShot) (line : string) : outcome NetShot :=
  let '(interf, rest) := default ("", "") (scan_s (c_str line)) in
  if 128 <=? String.length interf then Abort (UndefinedBehaviour "overflow of interf")
  else
    let ns := scan_us 16 16 rest in
    let get i := default (garbage i) (ns !! i) in
    match strip_prefix "lo" interf with
    | Some _ => Ok shot
    | None => Ok {| bytes_recv := u64 (bytes_recv shot + get 0); bytes_send := u64 (bytes_send shot + get 8) |}
    end.

Fixpoint net_lines (garbage : nat -> Z) (shot : NetShot) (lines : list string) : outcome NetShot :=
  match lines with
  | [] => Ok shot
  | l :: lines => shot ← net_line garbage shot l; net_lines garbage shot lines
  end.

(** The first two lines are titles. *)
(* [src/src/utils/utils.cpp:249-282 GetMachineNetShot] *)
Definition GetMachineNetShot (garbage : nat -> Z) (netinfo : option string) : outcome NetShot :=
  match netinfo with
  | None => Ok net_shot_new
  | Some data => net_lines garbage net_shot_new (drop 2 (lines_of 512 data))
  end.

(** ** The system *)

(* [src/src/utils/utils.h:74-79 SysinfoShot] *)
Record SysinfoShot := { loads : Z * Z * Z; sys_uptime : Z }.
(* [src/src/utils/utils.cpp:284-284 SysinfoShot::SysinfoShot] *)
Definition sysinfo_shot_new : SysinfoShot := {| loads := (0, 0, 0)%Z; sys_uptime := 0 |}.
(* [src/src/utils/utils.cpp:286-297 GetMachineSysinfoShot] *)
Definition GetMachineSysinfoShot (sysinfo : option SysinfoShot) : SysinfoShot := default sysinfo_shot_new sysinfo.

(** ** Directories of chunks *)

(** An entry of a directory: its name, the time of its last modification when
    that can be read, and whether it can be removed. *)
Record dir_entry := { de_name : string; de_mtime : option Z; de_removable : bool }.

Definition is_chunk_of (ext : string) (d : dir_entry) : bool :=
  negb (String.eqb (de_name d) ".") && negb (String.eqb (de_name d) "..") && contains ext (de_name d).

(** The entries that are left; [None]: the directory cannot be opened. *)
(* [src/src/utils/utils.cpp:44-82 RemoveFilesByExtension] *)
Definition RemoveFilesByExtension (dir_valid : bool) (entries : option (list dir_entry)) (ext : string)
    : option (list dir_entry) :=
  if negb dir_valid then entries
  else List.filter (fun d =>
         if is_chunk_of ext d then
           match de_mtime d with None => true | Some _ => negb (de_removable d) end
         else true) <$> entries.

(* [src/src/utils/utils.cpp:84-126 RemoveOldFilesByTime] *)
Definition RemoveOldFilesByTime (dir_valid : bool) (entries : option (list dir_entry)) (max_life_secs : Z) (ext : string)
    : option (list dir_entry) :=
  if negb dir_valid then entries
  else List.filter (fun d =>
         if is_chunk_of ext d then
           match de_mtime d with
           | None => true
           | Some mtime => if (mtime <? max_life_secs)%Z then negb (de_removable d) else true
           end
         else true) <$> entries.

(** ** The memory, as the kernel writes it *)

Definition meminfo_line (tag : string) (n : nat) (kb : Z) : string := tag +:+ (spaces n +:+ (show_u kb +:+ " kB")).

Definition fits_line (l : string) : Prop := no_newline l /\ S (String.length l) < 256.

(** A line that is none of the three. *)
Definition other_line (l : string) : Prop :=
  Forall (fun tag => scan_kb tag (l +:+ String newline "") = None) ["MemTotal:"; "MemFree:"; "MemAvailable:"].

Lemma no_nul_meminfo tag n kb :
  (0 <= kb)%Z -> no_nul tag = true -> no_nul (meminfo_line tag n kb +:+ String newline "") = true.
Proof.
  intros Hk Ht. unfold meminfo_line, no_nul in *. rewrite !string_forallb_app, Ht.
  rewrite (show_u_no nul kb eq_refl Hk). cbn. rewrite !andb_true_r. by induction n.
Qed.

Lemma scan_kb_line tag n kb :
  in_u 64 kb -> no_nul tag = true -> scan_kb tag (meminfo_line tag n kb +:+ String newline "") = Some kb.
Proof.
  intros Hk Ht. assert (Hk0 : (0 <= kb)%Z) by apply Hk. unfold scan_kb. rewrite c_str_id by by apply no_nul_meminfo.
  unfold meminfo_line. rewrite string_app_assoc, strip_prefix_app. cbn [mbind option_bind].
  rewrite !string_app_assoc, scan_u_show; [done|done| |done]. rewrite !length_string_app. lia.
Qed.

Lemma scan_kb_other tag tag' n kb :
  (0 <= kb)%Z -> no_nul tag' = true ->
  (forall s, strip_prefix tag (tag' +:+ s) = None) -> scan_kb tag (meminfo_line tag' n kb +:+ String newline "") = None.
Proof.
  intros Hk Ht Hp. unfold scan_kb. rewrite c_str_id by by apply no_nul_meminfo.
  unfold meminfo_line. by rewrite string_app_assoc, Hp.
Qed.

Lemma memory_line_others others m :
  Forall other_line others -> fold_left memory_line ((fun l => l +:+ String newline "") <$> others) m = m.
Proof.
  intros Ho. induction Ho as [|l others Hl _ IH]; [done|]. cbn [fmap list_fmap fold_left].
  apply Forall_cons in Hl as [H1 [H2 [H3 _]%Forall_cons]%Forall_cons]. unfold memory_line at 2. by rewrite H1, H2, H3.
Qed.

(** From the text of the kernel, which begins with the three lines, to bytes. *)
Theorem GetMachineMemoryShot_spec nt nf na total free avail others :
  let ls := meminfo_line "MemTotal:" nt total :: meminfo_line "MemFree:" nf free ::
            meminfo_line "MemAvailable:" na avail :: others in
  in_u 64 total -> in_u 64 free -> in_u 64 avail -> Forall fits_line ls -> Forall other_line others ->
  GetMachineMemoryShot (Some (lines_text ls)) =
  {| total_bytes_ram := u64 (total * 1024); free_bytes_ram := u64 (free * 1024); avail_bytes_ram := u64 (avail * 1024) |}.
Proof.
  intros ls Ht Hf Ha Hfit Ho. unfold GetMachineMemoryShot. rewrite lines_of_lines by exact Hfit.
  assert (Hm : fold_left memory_line ((fun l => l +:+ String newline "") <$> ls) memory_shot_new =
               {| total_bytes_ram := total; free_bytes_ram := free; avail_bytes_ram := avail |}); [|by rewrite Hm].
  unfold ls. cbn [fmap list_fmap fold_left].
  unfold memory_line at 4. rewrite scan_kb_line by done.
  unfold memory_line at 3. rewrite (scan_kb_other "MemTotal:" "MemFree:"), scan_kb_line by (done || apply Hf).
  unfold memory_line at 2. rewrite (scan_kb_other "MemTotal:" "MemAvailable:"), (scan_kb_other "MemFree:" "MemAvailable:"), scan_kb_line
    by (done || apply Ha).
  by apply memory_line_others.
Qed.

(** A short text, with one line more. *)
Lemma GetMachineMemoryShot_spec_witness :
  GetMachineMemoryShot (Some (lines_text [meminfo_line "MemTotal:" 7 16000000; meminfo_line "MemFree:" 9 2000000;
    meminfo_line "MemAvailable:" 4 9000000; "Buffers:          812345 kB"])) =
  {| total_bytes_ram := 16384000000; free_bytes_ram := 2048000000; avail_bytes_ram := 9216000000 |}.
Proof.
  rewrite (GetMachineMemoryShot_spec 7 9 4 16000000 2000000 9000000 ["Buffers:          812345 kB"]).
  - vm_compute. reflexivity.
  - by vm_compute.
  - by vm_compute.
  - by vm_compute.
  - repeat (apply Forall_cons; split; [split; [vm_compute; reflexivity|vm_compute; lia]|]). apply Forall_nil; exact I.
  - repeat (apply Forall_cons; split; [repeat (apply Forall_cons; split; [vm_compute; reflexivity|]); apply Forall_nil; exact I|]).
    apply Forall_nil; exact I.
Defined.
