(* ===== verification/LongDoubles.v ===== *)
(** * Rounding of [long double]s

    The extended precision of x86 has 64 bits: integers of 64 bits are exact in
    it, and so are their differences; a quotient and a product are within one
    unit of the last place. These are the bounds that the load of the processors
    needs; the exponents stay far from the ends of their range. *)

From Stdlib Require SpecFloat.
From S2P Require Import Prelude Platform Doubles Machine.
Import SpecFloat.

Section LongDoubles.
Local Open Scope Z_scope.

Abbreviation round := (binary_round_aux 64 16384 false).

(** ** Digits and shifts *)

Lemma digits2_spec p : 2 ^ (Zpos (digits2_pos p) - 1) <= Zpos p < 2 ^ Zpos (digits2_pos p).
Proof.
  induction p as [p IH|p IH|]; cbn [digits2_pos]; [| |done];
    rewrite Pos2Z.inj_succ; replace (Z.succ (Zpos (digits2_pos p)) - 1) with (Z.succ (Zpos (digits2_pos p) - 1)) by lia;
    rewrite !Z.pow_succ_r by lia; lia.
Qed.

Lemma Zdigits2_eq m d : 0 < d -> 2 ^ (d - 1) <= m < 2 ^ d -> Zdigits2 m = d.
Proof.
  intros Hd [Hl Hu]. assert (0 < 2 ^ (d - 1)) by (apply Z.pow_pos_nonneg; lia).
  destruct m as [|p|p]; [lia| |lia]. cbn [Zdigits2]. pose proof (digits2_spec p) as [H1 H2].
  assert (d - 1 < Zpos (digits2_pos p)) by (apply (Z.pow_lt_mono_r_iff 2); lia).
  assert (Zpos (digits2_pos p) - 1 < d) by (apply (Z.pow_lt_mono_r_iff 2); lia). lia.
Qed.

(** A step to the right halves, and drops nothing of an even number. *)
Lemma shr_1_exact m : 0 <= m -> m mod 2 = 0 ->
  shr_1 {| shr_m := m; shr_r := false; shr_s := false |} = {| shr_m := m / 2; shr_r := false; shr_s := false |}.
Proof.
  intros Hm Hr. destruct m as [|[p|p|]|p]; [done| | |done|lia].
  - exfalso. rewrite Pos2Z.inj_xI, Z.add_comm, (Z.mul_comm 2), Z.mod_add in Hr by lia. done.
  - cbn [shr_1 orb]. by rewrite Pos2Z.inj_xO, (Z.mul_comm 2), Z.div_mul by lia.
Qed.

Lemma shr_1_half r : 0 <= shr_m r -> shr_m (shr_1 r) = shr_m r / 2.
Proof.
  destruct r as [[|[p|p|]|p] r s]; cbn [shr_m shr_1]; intros Hm; try done.
  - by rewrite Pos2Z.inj_xI, Z.add_comm, (Z.mul_comm 2), Z.div_add by lia.
  - by rewrite Pos2Z.inj_xO, (Z.mul_comm 2), Z.div_mul by lia.
Qed.

Lemma iter_pos_iter {A} (f : A -> A) p x : iter_pos f p x = Pos.iter f x p.
Proof.
  revert x. induction p as [p IH|p IH|]; intros x; cbn [iter_pos]; [| |done]; rewrite !IH.
  - cbn. rewrite <-!Pos.iter_swap. done.
  - done.
Qed.

(** [n] steps. *)
Lemma shr_shifted m l e n :
  0 <= m -> 0 <= n -> exists r, shr (shr_record_of_loc m l) e n = (r, e + n) /\
    shr_m r = m / 2 ^ n /\ (l = loc_Exact -> m mod 2 ^ n = 0 -> loc_of_shr_record r = loc_Exact).
Proof.
  intros Hm Hn. set (r0 := shr_record_of_loc m l).
  assert (H0 : shr_m r0 = m) by (unfold r0; destruct l as [|[]]; done).
  destruct n as [|p|p]; [| |lia].
  { exists r0. cbn [shr]. rewrite Z.add_0_r, Z.pow_0_r, Z.div_1_r. split_and!; try done. by intros -> _. }
  exists (iter_pos shr_1 p r0). split; [done|]. rewrite iter_pos_iter.
  enough (shr_m (Pos.iter shr_1 r0 p) = m / 2 ^ Zpos p /\
    (l = loc_Exact -> m mod 2 ^ Zpos p = 0 ->
     Pos.iter shr_1 r0 p = {| shr_m := m / 2 ^ Zpos p; shr_r := false; shr_s := false |})) as [H1 H2].
  { split; [done|]. intros Hl Hmod. by rewrite H2. }
  clear Hn. induction p as [|p [IH1 IH2]] using Pos.peano_ind.
  { cbn [Pos.iter]. rewrite Z.pow_1_r, shr_1_half, H0 by lia. split; [done|]. intros -> Hr. by apply shr_1_exact. }
  assert (Hp : 0 < 2 ^ Zpos p) by (apply Z.pow_pos_nonneg; lia).
  assert (Hq : 0 <= m / 2 ^ Zpos p) by (by apply Z.div_pos).
  rewrite Pos.iter_succ, Pos2Z.inj_succ, Z.pow_succ_r, (Z.mul_comm 2), <-Z.div_div by lia.
  split; [by rewrite shr_1_half, IH1 by lia|]. intros Hl Hr. rewrite Z.rem_mul_r in Hr by lia.
  pose proof (Z.mod_pos_bound m (2 ^ Zpos p) Hp). pose proof (Z.mod_pos_bound (m / 2 ^ Zpos p) 2 ltac:(lia)).
  rewrite IH2 by (done || nia). apply shr_1_exact; nia.
Qed.

(** ** Rounding *)

(** A number with a mantissa of 64 bits whose value is [M] at the exponent [x]. *)
Definition is_canon (r : long_double) (M x : Z) : Prop :=
  exists m x', r = S754_finite false m x' /\ 2 ^ 63 <= Zpos m < 2 ^ 64 /\
    ((Zpos m = M /\ x' = x) \/ (2 * Zpos m = M /\ x' = x + 1)).

Lemma nearest_cases q l : round_nearest_even q l = q \/ l <> loc_Exact /\ round_nearest_even q l = q + 1.
Proof. unfold round_nearest_even. destruct l as [|[]]; [by left|case_match; [by left|by right]|by left|by right]. Qed.

Lemma round_spec m e l n :
  Zdigits2 m = 64 + n -> 0 < m -> 0 <= n <= 200 -> -1000 <= e <= 1000 ->
  exists M, is_canon (round m e l) M (e + n) /\ m / 2 ^ n <= M <= m / 2 ^ n + 1 /\
    (l = loc_Exact -> m mod 2 ^ n = 0 -> M = m / 2 ^ n).
Proof.
  intros Hd Hm Hn He.
  assert (Hb : 2 ^ 63 <= m / 2 ^ n < 2 ^ 64).
  { destruct m as [|p|p]; [lia| |lia]. pose proof (digits2_spec p) as [H1 H2]. cbn [Zdigits2] in Hd. rewrite Hd in H1, H2.
    assert (0 < 2 ^ n) by (apply Z.pow_pos_nonneg; lia). split.
    - apply Z.div_le_lower_bound; [done|]. rewrite <-Z.pow_add_r by lia. by replace (n + 63) with (64 + n - 1) by lia.
    - apply Z.div_lt_upper_bound; [done|]. rewrite <-Z.pow_add_r by lia. by replace (n + 64) with (64 + n) by lia. }
  unfold binary_round_aux, shr_fexp at 1. rewrite Hd.
  assert (Hf : fexp 64 16384 (64 + n + e) - e = n) by (unfold fexp, emin; lia). rewrite Hf.
  destruct (shr_shifted m l e n ltac:(lia) ltac:(lia)) as (r & -> & Hr & Hex). rewrite Hr.
  set (M := round_nearest_even (m / 2 ^ n) (loc_of_shr_record r)).
  assert (HM : m / 2 ^ n <= M <= m / 2 ^ n + 1 /\ (loc_of_shr_record r = loc_Exact -> M = m / 2 ^ n)).
  { unfold M. destruct (nearest_cases (m / 2 ^ n) (loc_of_shr_record r)) as [->|[? ->]]; [by split; [lia|]|by split; [lia|]]. }
  destruct HM as [HM HMe]. exists M. split; [|split; [done|auto]].
  unfold shr_fexp. destruct (decide (M = 2 ^ 64)) as [->|Hne].
  - assert (Hf2 : fexp 64 16384 (Zdigits2 (2 ^ 64) + (e + n)) - (e + n) = 1)
      by (change (Zdigits2 (2 ^ 64)) with 65; unfold fexp, emin; lia).
    rewrite Hf2. change (shr (shr_record_of_loc (2 ^ 64) loc_Exact) (e + n) 1)
      with ({| shr_m := 2 ^ 63; shr_r := false; shr_s := false |}, e + n + 1).
    cbn [shr_m]. change (2 ^ 63) with (Zpos 9223372036854775808). rewrite (proj2 (Z.leb_le _ _)) by lia.
    eexists _, _. split; [done|]. split; [lia|]. by right.
  - assert (Hf2 : fexp 64 16384 (Zdigits2 M + (e + n)) - (e + n) = 0)
      by (rewrite (Zdigits2_eq M 64) by lia; unfold fexp, emin; lia).
    rewrite Hf2. cbn [shr shr_record_of_loc shr_m]. destruct M as [|p|p]; [lia| |lia].
    rewrite (proj2 (Z.leb_le _ _)) by lia. exists p, (e + n). split; [done|]. split; [lia|]. by left.
Qed.

(** ** Integers *)

(** The number of digits of a mantissa of 64 bits that [b] lacks. *)
Definition spare (b : Z) : Z := 64 - Zdigits2 b.

Lemma spare_spec b : 0 < b < 2 ^ 64 -> 0 <= spare b <= 63 /\ 2 ^ 63 <= b * 2 ^ spare b < 2 ^ 64.
Proof.
  intros Hb. destruct b as [|p|p]; [lia| |lia]. unfold spare. cbn [Zdigits2]. pose proof (digits2_spec p) as [H1 H2].
  assert (Hd : Zpos (digits2_pos p) - 1 < 64) by (apply (Z.pow_lt_mono_r_iff 2); lia).
  split; [lia|]. split.
  - replace (2 ^ 63) with (2 ^ (Zpos (digits2_pos p) - 1) * 2 ^ (64 - Zpos (digits2_pos p))); [|rewrite <-Z.pow_add_r by lia; f_equal; lia].
    apply Z.mul_le_mono_nonneg_r; [apply Z.pow_nonneg; lia|done].
  - replace (2 ^ 64) with (2 ^ Zpos (digits2_pos p) * 2 ^ (64 - Zpos (digits2_pos p))); [|rewrite <-Z.pow_add_r by lia; f_equal; lia].
    apply Z.mul_lt_mono_pos_r; [apply Z.pow_pos_nonneg; lia|done].
Qed.

(** [b], with its digits at the top of the mantissa. *)
Definition is_int (b : Z) (r : long_double) : Prop :=
  exists m, r = S754_finite false m (- spare b) /\ Zpos m = b * 2 ^ spare b.

Lemma Zdigits2_shift b k : 0 < b < 2 ^ 64 -> 0 <= k -> Zdigits2 (b * 2 ^ k) = 64 - spare b + k.
Proof.
  intros Hb Hk. pose proof (spare_spec b Hb) as [Hs [H1 H2]]. apply Zdigits2_eq; [lia|].
  assert (Hp : 0 < 2 ^ spare b) by (apply Z.pow_pos_nonneg; lia).
  assert (Hq : 0 < 2 ^ k) by (apply Z.pow_pos_nonneg; lia).
  assert (Hl : 2 ^ (63 - spare b) <= b).
  { apply (Z.mul_le_mono_pos_r _ _ (2 ^ spare b)); [done|]. rewrite <-Z.pow_add_r by lia. by replace (63 - spare b + spare b) with 63 by lia. }
  assert (Hu : b < 2 ^ (64 - spare b)).
  { apply (Z.mul_lt_mono_pos_r (2 ^ spare b)); [done|]. rewrite <-Z.pow_add_r by lia. by replace (64 - spare b + spare b) with 64 by lia. }
  split.
  - replace (64 - spare b + k - 1) with (63 - spare b + k) by lia. rewrite Z.pow_add_r by lia. by apply Z.mul_le_mono_nonneg_r; [lia|].
  - rewrite Z.pow_add_r by lia. by apply Z.mul_lt_mono_pos_r.
Qed.

Lemma normalize_int b k : 0 < b < 2 ^ 64 -> 0 <= k <= 100 -> is_int b (binary_normalize 64 16384 (b * 2 ^ k) (- k) false).
Proof.
  intros Hb Hk. pose proof (spare_spec b Hb) as [Hs [H1 H2]]. pose proof (Zdigits2_shift b k Hb ltac:(lia)) as Hd.
  assert (Hq : 0 < 2 ^ k) by (apply Z.pow_pos_nonneg; lia).
  destruct (b * 2 ^ k) as [|p|p] eqn:Hp; [nia| |nia]. cbn [binary_normalize]. unfold binary_round.
  change (Zpos (digits2_pos p)) with (Zdigits2 (Zpos p)). rewrite Hd.
  assert (Hf : fexp 64 16384 (64 - spare b + k + - k) = - spare b) by (unfold fexp, emin; lia). rewrite Hf.
  assert (Hcanon : forall r, is_canon r (b * 2 ^ spare b) (- spare b) -> is_int b r).
  { intros r (m & x & -> & Hm & [[Hv ->]|[Hv _]]); [by exists m|lia]. }
  unfold shl_align. destruct (- spare b - - k) as [|d|d] eqn:Hx.
  - assert (k = spare b) by lia. subst k. destruct (round_spec (Zpos p) (- spare b) loc_Exact 0) as (M & Hc & _ & He); try lia.
    rewrite He in Hc by (done || by rewrite Z.pow_0_r, Z.mod_1_r). rewrite Z.add_0_r, Z.pow_0_r, Z.div_1_r, <-Hp in Hc. rewrite <-Hp. by apply Hcanon.
  - assert (Hn : k = Zpos d + spare b) by lia. destruct (round_spec (Zpos p) (- k) loc_Exact (Zpos d)) as (M & Hc & _ & He); try lia.
    assert (Hpq : Zpos p = b * 2 ^ spare b * 2 ^ Zpos d) by (rewrite <-Hp, Hn, Z.pow_add_r by lia; lia).
    assert (0 < 2 ^ Zpos d) by (apply Z.pow_pos_nonneg; lia).
    rewrite He in Hc by (done || by rewrite Hpq, Z.mod_mul by lia).
    assert (HM : Zpos p / 2 ^ Zpos d = b * 2 ^ spare b) by (by rewrite Hpq, Z.div_mul by lia).
    rewrite HM in Hc. apply Hcanon. by replace (- spare b) with (- k + Zpos d) by lia.
  - assert (Hv : Zpos (Pos.iter xO p d) = b * 2 ^ spare b).
    { rewrite shl_pos, <-Hp, <-Z.mul_assoc, <-Z.pow_add_r by lia. do 2 f_equal. lia. }
    destruct (round_spec (Zpos (Pos.iter xO p d)) (- spare b) loc_Exact 0) as (M & Hc & _ & He); try lia.
    { rewrite Hv. apply Zdigits2_eq; lia. }
    rewrite He in Hc by (done || by rewrite Z.pow_0_r, Z.mod_1_r). rewrite Z.add_0_r, Z.pow_0_r, Z.div_1_r in Hc. apply Hcanon. by rewrite <-Hv.
Qed.

Lemma ld_of_Z_int b : 0 < b < 2 ^ 64 -> is_int b (ld_of_Z b).
Proof. intros Hb. pose proof (normalize_int b 0 Hb ltac:(lia)) as H. by rewrite Z.mul_1_r in H. Qed.

(** The alignment of a subtraction. *)
Lemma shl_align_value m e ez :
  ez <= e -> Zpos (shl_align m e ez).1 = Zpos m * 2 ^ (e - ez).
Proof.
  intros He. unfold shl_align. destruct (ez - e) as [|d|d] eqn:Hd; [|lia|].
  - replace (e - ez) with 0 by lia. cbn [fst]. lia.
  - cbn [fst]. rewrite shl_pos. do 2 f_equal. lia.
Qed.

(** The difference of two integers is exact. *)
Lemma ld_sub_int a b : 0 <= b < a -> a < 2 ^ 64 -> is_int (a - b) (ld_sub (ld_of_Z a) (ld_of_Z b)).
Proof.
  intros Hb Ha. destruct (ld_of_Z_int a) as (ma & Hra & Hva); [lia|].
  destruct (decide (b = 0)) as [->|Hne].
  { rewrite Z.sub_0_r, Hra. cbn. by exists ma. }
  destruct (ld_of_Z_int b) as (mb & Hrb & Hvb); [lia|]. rewrite Hra, Hrb. unfold ld_sub, SFsub. cbn [cond_Zopp].
  pose proof (spare_spec a ltac:(lia)) as [Hsa _]. pose proof (spare_spec b ltac:(lia)) as [Hsb _].
  set (ez := Z.min (- spare a) (- spare b)).
  assert (Hal : forall m x, Zpos m = x * 2 ^ spare x -> ez <= - spare x -> 0 <= spare x ->
    Zpos (shl_align m (- spare x) ez).1 = x * 2 ^ (- ez)).
  { intros m x Hm Hx Hx0. rewrite shl_align_value, Hm, <-Z.mul_assoc, <-Z.pow_add_r by lia. do 2 f_equal. lia. }
  rewrite (Hal ma a), (Hal mb b), <-Z.mul_sub_distr_r by lia.
  replace ez with (- (- ez)) at 2 by lia. apply normalize_int; lia.
Qed.

Lemma ld_sub_same a : 0 < a < 2 ^ 64 -> ld_sub (ld_of_Z a) (ld_of_Z a) = S754_zero false.
Proof.
  intros Ha. destruct (ld_of_Z_int a Ha) as (m & -> & _). unfold ld_sub, SFsub. cbn [cond_Zopp]. by rewrite Z.sub_diag.
Qed.

(** ** A percentage *)

Lemma spare_bounds b : 0 < b < 2 ^ 64 -> 2 ^ (63 - spare b) <= b < 2 ^ (64 - spare b).
Proof.
  intros Hb. pose proof (spare_spec b Hb) as [Hs [H1 H2]]. assert (Hp : 0 < 2 ^ spare b) by (apply Z.pow_pos_nonneg; lia).
  split.
  - apply (Z.mul_le_mono_pos_r _ _ (2 ^ spare b)); [done|]. rewrite <-Z.pow_add_r by lia. by replace (63 - spare b + spare b) with 63 by lia.
  - apply (Z.mul_lt_mono_pos_r (2 ^ spare b)); [done|]. rewrite <-Z.pow_add_r by lia. by replace (64 - spare b + spare b) with 64 by lia.
Qed.

Lemma spare_mono b t : 0 < b <= t -> t < 2 ^ 64 -> spare t <= spare b.
Proof.
  intros Hb Ht. pose proof (spare_bounds b ltac:(lia)) as [H1 _]. pose proof (spare_bounds t ltac:(lia)) as [_ H2].
  pose proof (spare_spec b ltac:(lia)) as [Hs _]. pose proof (spare_spec t ltac:(lia)) as [Hs' _].
  assert (63 - spare b < 64 - spare t) by (apply (Z.pow_lt_mono_r_iff 2); lia). lia.
Qed.

(** A quotient and its mantissa, in units of the last place. *)
Lemma quotient_bounds A B t b n u q k M :
  A = b * 2 ^ u * 2 ^ k -> B * 2 ^ n = t * 2 ^ k -> 0 < B -> 0 <= n -> 0 <= k ->
  q = A / B -> q / 2 ^ n <= M <= q / 2 ^ n + 1 -> - t <= M * t - b * 2 ^ u <= t.
Proof.
  intros HA HB HB0 Hn Hk Hq HM. assert (Hn0 : 0 < 2 ^ n) by (apply Z.pow_pos_nonneg; lia).
  assert (Hk0 : 0 < 2 ^ k) by (apply Z.pow_pos_nonneg; lia).
  pose proof (Z.div_mod A B ltac:(lia)) as H1. pose proof (Z.mod_pos_bound A B HB0) as H2. rewrite <-Hq in H1.
  pose proof (Z.div_mod q (2 ^ n) ltac:(lia)) as H3. pose proof (Z.mod_pos_bound q (2 ^ n) Hn0) as H4.
  assert (Hu : M * 2 ^ n <= q + 2 ^ n) by nia.
  assert (Hl : q + 1 <= (M + 1) * 2 ^ n) by nia.
  assert (Hub : M * (B * 2 ^ n) <= A + B * 2 ^ n) by nia.
  assert (Hlb : A <= (M + 1) * (B * 2 ^ n)) by nia.
  rewrite HA, HB in Hub, Hlb.
  split; apply (Z.mul_le_mono_pos_r _ _ (2 ^ k)); [done| |done|];
    rewrite ?Z.mul_add_distr_r, ?Z.mul_sub_distr_r in *; lia.
Qed.

Lemma ld_div_int b t x y :
  0 < b <= t -> t < 2 ^ 64 -> is_int b x -> is_int t y ->
  exists M u, ld_div x y = S754_finite false M (- u) /\ 2 ^ 63 <= Zpos M < 2 ^ 64 /\ 62 <= u <= 200 /\
    - t <= Zpos M * t - b * 2 ^ u <= t.
Proof.
  intros Hb Ht (mb & -> & Hmb) (mt & -> & Hmt).
  pose proof (spare_spec b ltac:(lia)) as [Hsb Hbb]. pose proof (spare_spec t ltac:(lia)) as [Hst Hbt].
  pose proof (spare_mono b t Hb Ht) as Hmono.
  unfold ld_div, SFdiv, SFdiv_core_binary. rewrite Hmb, Hmt, !Zdigits2_shift by lia.
  replace (64 - spare b + spare b + - spare b - (64 - spare t + spare t + - spare t)) with (spare t - spare b) by lia.
  assert (He : Z.min (fexp 64 16384 (spare t - spare b)) (- spare b - - spare t) = spare t - spare b - 64)
    by (unfold fexp, emin; lia). rewrite He.
  replace (- spare b - - spare t - (spare t - spare b - 64)) with 64 by lia.
  rewrite Z.shiftl_mul_pow2 by lia. set (A := b * 2 ^ spare b * 2 ^ 64). set (B := t * 2 ^ spare t).
  assert (HB : 2 ^ 63 <= B < 2 ^ 64) by exact Hbt.
  assert (HA : 2 ^ 127 <= A < 2 ^ 128) by (unfold A; change (2 ^ 127) with (2 ^ 63 * 2 ^ 64); change (2 ^ 128) with (2 ^ 64 * 2 ^ 64); nia).
  pose proof (Z_div_mod A B ltac:(lia)) as Hqr. destruct (Z.div_eucl A B) as [q r] eqn:Hq.
  assert (Hqd : q = A / B) by (unfold Z.div; by rewrite Hq). cbn [xorb]. clear Hq.
  assert (Hqb : 2 ^ 63 <= q < 2 ^ 65).
  { rewrite Hqd. split; [apply Z.div_le_lower_bound; nia|apply Z.div_lt_upper_bound; nia]. }
  assert (Hn : exists n, Zdigits2 q = 64 + n /\ 0 <= n <= 1).
  { destruct (decide (q < 2 ^ 64)); [exists 0|exists 1]; (split; [apply Zdigits2_eq; lia|lia]). }
  destruct Hn as (n & Hdn & Hn).
  destruct (round_spec q (spare t - spare b - 64) (new_location B r) n Hdn) as (M0 & (m & x' & Hr & Hm & Hc) & HM & _); try lia.
  assert (Hbound : - t <= M0 * t - b * 2 ^ (64 + spare b - spare t - n) <= t).
  { apply (quotient_bounds A B t b n _ q (n + spare t)); try lia.
    - unfold A. rewrite <-!Z.mul_assoc, <-!Z.pow_add_r by lia. do 2 f_equal. lia.
    - unfold B. rewrite <-Z.mul_assoc, <-Z.pow_add_r by lia. do 2 f_equal. lia. }
  destruct Hc as [[Hv Hx]|[Hv Hx]].
  - exists m, (64 + spare b - spare t - n). rewrite Hr, Hx. split; [f_equal; lia|]. split; [done|]. split; [lia|]. by rewrite Hv.
  - exists m, (63 + spare b - spare t - n). rewrite Hr, Hx. split; [f_equal; lia|]. split; [done|]. split; [lia|].
    rewrite <-Hv in Hbound. replace (64 + spare b - spare t - n) with (Z.succ (63 + spare b - spare t - n)) in Hbound by lia.
    rewrite Z.pow_succ_r in Hbound by lia. lia.
Qed.

Lemma ld_to_int_value m w : 0 < w -> Zpos m / 2 ^ w < 2 ^ 31 -> ld_to_int (S754_finite false m (- w)) = Ok (Zpos m / 2 ^ w).
Proof.
  intros Hw Hb. cbn [ld_to_int]. rewrite <-Z.shiftr_opp_r, Z.opp_involutive, Z.shiftr_div_pow2 by lia.
  assert (0 <= Zpos m / 2 ^ w) by (apply Z.div_pos; [lia|apply Z.pow_pos_nonneg; lia]).
  rewrite (proj2 (Z.leb_le _ _)), (proj2 (Z.ltb_lt _ _)) by lia. done.
Qed.

(** The value at [x], whichever of the two mantissas it has. *)
Lemma canon_to_int r M w :
  is_canon r M (- w) -> 1 < w -> M / 2 ^ w < 2 ^ 31 -> ld_to_int r = Ok (M / 2 ^ w).
Proof.
  intros (m & x & -> & _ & [[<- ->]|[<- ->]]) Hw Hb; [by apply ld_to_int_value; [lia|]|].
  assert (He : 2 * Zpos m / 2 ^ w = Zpos m / 2 ^ (w - 1)).
  { replace w with (Z.succ (w - 1)) at 1 by lia. rewrite Z.pow_succ_r by lia. apply Z.div_mul_cancel_l; [apply Z.pow_nonzero; lia|lia]. }
  rewrite He in Hb |- *. replace (- w + 1) with (- (w - 1)) by lia. apply ld_to_int_value; [lia|done].
Qed.

(** A hundred times a quotient, without its fraction: the bound says that it is
    the percentage, or one less when that has no fraction. *)
Lemma percentage_bounds b t M u z N n :
  0 < b <= t -> 228 * t < 2 ^ u -> 0 <= n <= 64 -> 0 <= u ->
  - t <= M * t - b * 2 ^ u <= t ->
  M * 100 * 2 ^ 57 - 2 ^ n < N * 2 ^ n <= M * 100 * 2 ^ 57 + 2 ^ n ->
  z * 2 ^ (u + 57) <= N * 2 ^ n < (z + 1) * 2 ^ (u + 57) ->
  z * t <= 100 * b <= (z + 1) * t.
Proof.
  intros Hb Ht Hn Hu HM HN Hz. assert (H57 : 2 ^ (u + 57) = 2 ^ u * 2 ^ 57) by (apply Z.pow_add_r; lia).
  assert (Hnb : 2 ^ n <= 128 * 2 ^ 57) by (change (128 * 2 ^ 57) with (2 ^ 64); apply Z.pow_le_mono_r; lia).
  rewrite H57 in Hz. set (U := 2 ^ u) in *. assert (HU : 0 < U) by (apply Z.pow_pos_nonneg; lia).
  assert (H1 : z * U <= 100 * M + 128) by lia.
  assert (H2 : 100 * M - 128 < (z + 1) * U) by lia.
  assert (H3 : z * U * t <= (100 * M + 128) * t) by (apply Z.mul_le_mono_nonneg_r; lia).
  assert (H4 : (100 * M - 128) * t <= (z + 1) * U * t) by (apply Z.mul_le_mono_nonneg_r; lia).
  assert (H5 : z * t * U < (100 * b + 1) * U) by lia.
  assert (H6 : (100 * b - 1) * U < (z + 1) * t * U) by lia.
  apply (Z.mul_lt_mono_pos_r U) in H5, H6; [lia..].
Qed.

(** The load in percent that [busy] ticks of [total] make. *)
Lemma percent_of b t x y :
  0 < b <= t -> t < 2 ^ 55 -> is_int b x -> is_int t y ->
  exists z, ld_to_int (ld_mul (ld_div x y) (ld_of_Z 100)) = Ok z /\ 0 <= z /\ z * t <= 100 * b <= (z + 1) * t.
Proof.
  intros Hb Ht Hx Hy. destruct (ld_div_int b t x y) as (M & u & -> & HM & Hu & Hq); [lia..|done|done|].
  assert (Hu63 : 63 <= u).
  { destruct (decide (63 <= u)); [done|]. assert (u = 62) as -> by lia. exfalso. nia. }
  change (ld_of_Z 100) with (S754_finite false 14411518807585587200 (-57)). unfold ld_mul, SFmul. cbn [xorb].
  rewrite Pos2Z.inj_mul. change 14411518807585587200 with (100 * 2 ^ 57).
  set (P := Zpos M * (100 * 2 ^ 57)). assert (HP : 2 ^ 126 <= P < 2 ^ 128) by (unfold P; lia).
  assert (Hn : exists n, Zdigits2 P = 64 + n /\ 63 <= n <= 64).
  { destruct (decide (P < 2 ^ 127)); [exists 63|exists 64]; (split; [apply Zdigits2_eq; lia|lia]). }
  destruct Hn as (n & Hdn & Hn).
  destruct (round_spec P (- u + -57) loc_Exact n Hdn) as (N & Hc & HN & _); [lia..|].
  assert (Hn0 : 0 < 2 ^ n) by (apply Z.pow_pos_nonneg; lia).
  pose proof (Z.div_mod P (2 ^ n) ltac:(lia)) as H3. pose proof (Z.mod_pos_bound P (2 ^ n) Hn0) as H4.
  replace (- u + -57 + n) with (- (u + 57 - n)) in Hc by lia.
  assert (Hw0 : 0 < 2 ^ (u + 57 - n)) by (apply Z.pow_pos_nonneg; lia).
  set (z := N / 2 ^ (u + 57 - n)).
  pose proof (Z.div_mod N (2 ^ (u + 57 - n)) ltac:(lia)) as H5. pose proof (Z.mod_pos_bound N (2 ^ (u + 57 - n)) Hw0) as H6. fold z in H5.
  assert (Hz : z * t <= 100 * b <= (z + 1) * t).
  { apply (percentage_bounds b t (Zpos M) u z N n); try lia.
    - assert (2 ^ 63 <= 2 ^ u) by (apply Z.pow_le_mono_r; lia). lia.
    - fold P. unfold P in *. nia.
    - replace (u + 57) with (u + 57 - n + n) by lia. rewrite Z.pow_add_r by lia. nia. }
  assert (Hz0 : 0 <= z) by (apply Z.div_pos; [|done]; assert (0 <= P / 2 ^ n) by (apply Z.div_pos; lia); lia).
  exists z. split; [|done]. apply canon_to_int; [done|lia|]. fold z. nia.
Qed.

Lemma zero_percent t y : is_int t y -> ld_to_int (ld_mul (ld_div (S754_zero false) y) (ld_of_Z 100)) = Ok 0.
Proof. by intros (m & -> & _). Qed.
End LongDoubles.
