(* ===== verification/GpuStats.v ===== *)
(** * The load of the graphics cards

    [src/src/server/gpu_stats/]: two monitors, each a thread that reads the load
    of the cards once in a second until it is stopped. The libraries of the
    vendors, NVML and CTT, are the answers that the monitors get. *)

From S2P Require Import Prelude Machine.

(** ** NVIDIA *)

(** What NVML answers about one card: whether there is a handle, and the use of
    its decoder and encoder in percent. *)
Record nvml_device := { nd_handle : bool; nd_decoder : option Z; nd_encoder : option Z }.

(** A sample, and the wait of a second after it: whether it was woken, and the
    flag then. The thread holds the lock but while it waits, so that the flag
    changes in a wait only. *)
Record nvml_round := { nr_devices : list nvml_device; nr_notified : bool; nr_stop : bool }.

Record nvml_answers := { nv_init : bool; nv_count : option Z }.

(* [src/src/server/gpu_stats/nvidia_monitor.cpp:26-41 NvidiaMonitor::IsGpuAvailable] *)
Definition NvidiaMonitor_IsGpuAvailable (nv : nvml_answers) : bool :=
  if negb (nv_init nv) then false
  else match nv_count nv with
       | None => false
       | Some devices_num => negb (devices_num =? 0)%Z
       end.

(** The totals of the decoders and of the encoders. *)
(* [src/src/server/gpu_stats/nvidia_monitor.cpp:64-81 NvidiaMonitor::Exec] *)
Definition add_device (totals : Z * Z) (d : nvml_device) : Z * Z :=
  if negb (nd_handle d) then totals
  else match nd_decoder d with
  | None => totals
  | Some dec =>
      match nd_encoder d with
      | None => totals
      | Some enc => (u64 (totals.1 + dec), u64 (totals.2 + enc))
      end
  end.

(** The mean over twice as many units as there are cards, in [unsigned]. *)
(* [src/src/server/gpu_stats/nvidia_monitor.cpp:63-82 NvidiaMonitor::Exec] *)
Definition nvml_load (devices_num : Z) (devices : list nvml_device) : outcome Z :=
  let '(total_dec, total_enc) := fold_left add_device devices (0, 0)%Z in
  let units := u32 (devices_num * 2) in
  if (units =? 0)%Z then Abort (UndefinedBehaviour "division by zero")
  else Ok (i32 (u64 (total_dec + total_enc) / units)).

(** The result of the thread, if it ends within these rounds, and the load. *)
(* [src/src/server/gpu_stats/nvidia_monitor.cpp:62-90 NvidiaMonitor::Exec] *)
Fixpoint nvml_loop (devices_num : Z) (stop_flag_ : bool) (rounds : list nvml_round) (load_ : Z) : outcome (option bool * Z) :=
  if stop_flag_ then Ok (Some true, load_)
  else match rounds with
  | [] => Ok (None, load_)
  | r :: rounds =>
      load_ ← nvml_load devices_num (nr_devices r);
      if nr_notified r && nr_stop r then Ok (Some true, load_)
      else nvml_loop devices_num (nr_stop r) rounds load_
  end.

(** [load_]: the number that is kept up to date, [None] if the pointer is null. *)
(* [src/src/server/gpu_stats/nvidia_monitor.cpp:43-94 NvidiaMonitor::Exec] *)
Definition NvidiaMonitor_Exec (nv : nvml_answers) (stop_flag_ : bool) (rounds : list nvml_round) (load_ : option Z)
    : outcome (option bool * option Z) :=
  match load_ with
  | None => Ok (Some false, None)
  | Some load =>
      if negb (nv_init nv) then Ok (Some false, load_)
      else match nv_count nv with
      | None => Ok (Some false, load_)
      | Some devices_num =>
          if (devices_num =? 0)%Z then Ok (Some false, load_)
          else '(res, load) ← nvml_loop devices_num stop_flag_ rounds load; Ok (res, Some load)
      end
  end.

(** ** Intel *)

(** The six calls that set CTT up, in their order: whether each succeeds. *)
Record ctt_answers := {
  ct_init : bool; ct_metric_count : bool; ct_metric_info : bool; ct_subscribe : bool; ct_sample_count : bool;
  ct_sample_period : bool
}.

(** A sample, a [float] if there is one, and the wait after it. *)
Record ctt_round := { cr_value : option SpecFloat.spec_float; cr_notified : bool; cr_stop : bool }.

(* [src/src/server/gpu_stats/intel_monitor.cpp:30-38 IntelMonitor::IsGpuAvailable] *)
Definition IntelMonitor_IsGpuAvailable (ct : ctt_answers) : bool := ct_init ct.

(* [src/src/server/gpu_stats/intel_monitor.cpp:90-103 IntelMonitor::Exec] *)
Fixpoint ctt_loop (stop_flag_ : bool) (rounds : list ctt_round) (load_ : Z) : outcome (option bool * Z) :=
  if stop_flag_ then Ok (Some true, load_)
  else match rounds with
  | [] => Ok (None, load_)
  | r :: rounds =>
      match cr_value r with
      | None => Ok (Some true, load_)
      | Some value =>
          load_ ← ld_to_int value;
          if cr_notified r && cr_stop r then Ok (Some true, load_) else ctt_loop (cr_stop r) rounds load_
      end
  end.

(* [src/src/server/gpu_stats/intel_monitor.cpp:40-106 IntelMonitor::Exec] *)
Definition IntelMonitor_Exec (ct : ctt_answers) (stop_flag_ : bool) (rounds : list ctt_round) (load_ : option Z)
    : outcome (option bool * option Z) :=
  match load_ with
  | None => Ok (Some false, None)
  | Some load =>
      if forallb id [ct_init ct; ct_metric_count ct; ct_metric_info ct; ct_subscribe ct; ct_sample_count ct; ct_sample_period ct]
      then '(res, load) ← ctt_loop stop_flag_ rounds load; Ok (res, Some load)
      else Ok (Some false, load_)
  end.

(** ** The choice *)

Inductive perf_monitor := NvidiaMonitor | IntelMonitor.

(** [have_nvml], [have_ctt]: what the program was built with. *)
(* [src/src/server/gpu_stats/perf_monitor.cpp:51-66 CreatePerfMonitor] *)
Definition CreatePerfMonitor (have_nvml have_ctt : bool) (nv : nvml_answers) (ct : ctt_answers) : option perf_monitor :=
  if have_nvml && NvidiaMonitor_IsGpuAvailable nv then Some NvidiaMonitor
  else if have_ctt && IntelMonitor_IsGpuAvailable ct then Some IntelMonitor
  else None.

(** ** Theorems *)

Definition percent (o : option Z) : Prop := match o with Some z => (0 <= z <= 100)%Z | None => True end.

Lemma totals_bound devices :
  (Z.of_nat (length devices) < 2 ^ 31)%Z -> Forall (fun d => percent (nd_decoder d) /\ percent (nd_encoder d)) devices ->
  let '(dec, enc) := fold_left add_device devices (0, 0)%Z in
  (0 <= dec <= 100 * Z.of_nat (length devices))%Z /\ (0 <= enc <= 100 * Z.of_nat (length devices))%Z.
Proof.
  intros Hlen Hd.
  assert (Hg : forall k t, (0 <= t.1 <= 100 * k)%Z -> (0 <= t.2 <= 100 * k)%Z -> (0 <= k)%Z ->
    (k + Z.of_nat (length devices) < 2 ^ 31)%Z ->
    let '(dec, enc) := fold_left add_device devices t in
    (0 <= dec <= 100 * (k + Z.of_nat (length devices)))%Z /\ (0 <= enc <= 100 * (k + Z.of_nat (length devices)))%Z).
  { clear Hlen. induction Hd as [|d devices [Hdec Henc] _ IH]; intros k [a b] Ha Hb Hk Hl; cbn [fold_left length fst snd] in *; [lia|].
    specialize (IH (k + 1)%Z (add_device (a, b) d)). revert IH. unfold add_device. rewrite Nat2Z.inj_succ in *.
    replace (k + Z.succ (Z.of_nat (length devices)))%Z with (k + 1 + Z.of_nat (length devices))%Z in * by lia.
    destruct (nd_handle d); cbn [negb]; [|intros IH; apply IH; cbn [fst snd]; lia].
    destruct (nd_decoder d) as [dec|]; [|intros IH; apply IH; cbn [fst snd]; lia].
    destruct (nd_encoder d) as [enc|]; [|intros IH; apply IH; cbn [fst snd]; lia].
    cbn [percent] in *. cbn [fst snd]. rewrite !wrap_small by (unfold in_u; lia). intros IH. apply IH; lia. }
  apply (Hg 0%Z (0, 0)%Z); cbn [fst snd]; lia.
Qed.

(** The load of the cards is a number of percent whenever those of the cards
    are; a card that does not answer counts as idle. *)
Theorem nvml_load_percent devices_num devices load :
  Z.of_nat (length devices) = devices_num -> (0 < devices_num < 2 ^ 31)%Z ->
  Forall (fun d => percent (nd_decoder d) /\ percent (nd_encoder d)) devices ->
  nvml_load devices_num devices = Ok load -> (0 <= load <= 100)%Z.
Proof.
  intros Hlen Hn Hd. unfold nvml_load. pose proof (totals_bound devices ltac:(lia) Hd) as Ht.
  destruct (fold_left add_device devices (0, 0)%Z) as [dec enc]. rewrite Hlen in Ht.
  rewrite (wrap_small 32 (devices_num * 2)) by (unfold in_u; lia). rewrite (proj2 (Z.eqb_neq _ _)) by lia.
  rewrite wrap_small by (unfold in_u; lia). intros [= <-].
  assert (Hq : (0 <= (dec + enc) / (devices_num * 2) <= 100)%Z).
  { split; [apply Z.div_pos; lia|]. apply Z.div_le_upper_bound; lia. }
  rewrite swrap_small by (unfold in_s; lia). exact Hq.
Qed.

(** A monitor that is stopped in a wait ends with it, whether it was woken or not,
    and samples no more. *)
Theorem nvml_stops devices_num before r after load res :
  Forall (fun r => nr_stop r = false) before -> nr_stop r = true ->
  nvml_loop devices_num false (before ++ r :: after) load = Ok res ->
  res.1 = Some true /\ nvml_load devices_num (nr_devices r) = Ok res.2.
Proof.
  intros Hb Hr. revert load. induction Hb as [|b before Hb _ IH]; intros load; cbn [app nvml_loop].
  - intros (load' & Hl & He)%outcome_bind_Ok. rewrite Hr in He. rewrite Hl.
    destruct (nr_notified r), after; cbn in He; by injection He as <-.
  - intros (load' & _ & He)%outcome_bind_Ok. rewrite Hb, andb_false_r in He. by apply (IH load').
Qed.

Lemma nvml_load_percent_witness :
  nvml_load 2 [ {| nd_handle := true; nd_decoder := Some 100%Z; nd_encoder := Some 60%Z |};
                {| nd_handle := true; nd_decoder := None; nd_encoder := Some 50%Z |} ] = Ok 40%Z /\ (0 <= 40 <= 100)%Z.
Proof.
  split; [vm_compute; reflexivity|].
  apply (nvml_load_percent 2 [ {| nd_handle := true; nd_decoder := Some 100%Z; nd_encoder := Some 60%Z |};
                {| nd_handle := true; nd_decoder := None; nd_encoder := Some 50%Z |} ]);
    [reflexivity|lia| |vm_compute; reflexivity].
  repeat (apply Forall_cons; split; [cbn; lia|]). apply Forall_nil; exact I.
Defined.
