(* ===== verification/ServiceInfo.v ===== *)
(** * The statistics of the service

    [src/src/server/daemon/commands_info/service/server_info.cpp] and
    [ProcessSlaveWrapper::MakeServiceStats]: what a client is told about the
    load of the machine and the numbers of users. *)

From S2P Require Import Prelude Files Platform Machine LongDoubles.

(* [src/src/server/daemon/commands_info/service/server_info.h:30-45 OnlineUsers] *)
Record OnlineUsers := { daemon_ : Z; http_ : Z; vods_ : Z; subscriber_ : Z }.
(* [src/src/server/daemon/commands_info/service/server_info.cpp:50-50 OnlineUsers::OnlineUsers] *)
Definition online_users_new : OnlineUsers := {| daemon_ := 0; http_ := 0; vods_ := 0; subscriber_ := 0 |}.

(* [src/src/server/daemon/commands_info/service/server_info.h:47-87 ServerInfo] *)
Record ServerInfo := {
  cpu_load_ : Z;
  gpu_load_ : Z;
  uptime_ : string;
  mem_shot_ : MemoryShot;
  hdd_shot_ : HddShot;
  net_bytes_recv_ : Z;
  net_bytes_send_ : Z;
  current_ts_ : Z;
  sys_shot_ : SysinfoShot;
  online_users_ : OnlineUsers
}.
(* [src/src/server/daemon/commands_info/service/server_info.cpp:93-104 ServerInfo::ServerInfo] *)
Definition server_info_new : ServerInfo :=
  {| cpu_load_ := 0; gpu_load_ := 0; uptime_ := ""; mem_shot_ := memory_shot_new; hdd_shot_ := hdd_shot_new;
     net_bytes_recv_ := 0; net_bytes_send_ := 0; current_ts_ := 0; sys_shot_ := sysinfo_shot_new;
     online_users_ := online_users_new |}.

Section ServiceInfo.
Context `{JsonC, !HostLib}.

(** [PROJECT_VERSION_HUMAN], which the build defines. *)
Variable version : string.

(* [src/src/server/daemon/commands_info/service/server_info.cpp:85-91 OnlineUsers::SerializeFields] *)
Definition OnlineUsers_SerializeFields (u : OnlineUsers) (out : json) : json :=
  json_add_all out
    [ ("daemon", json_new_int64 (i64 (daemon_ u))); ("http", json_new_int64 (i64 (http_ u)));
      ("vods", json_new_int64 (i64 (vods_ u))); ("subscriber", json_new_int64 (i64 (subscriber_ u))) ].

(** A field that is a 64-bit number without a sign, or with one. *)
Definition u64_field (j : option json) (k : string) : Z := field j k (fun v _ => u64 (json_get_int64 v)) 0%Z.
Definition i64_field (j : option json) (k : string) : Z := field j k (fun v _ => json_get_int64 v) 0%Z.
Definition int_field (j : option json) (k : string) : Z := field j k (fun v _ => json_get_int v) 0%Z.

(* [src/src/server/daemon/commands_info/service/server_info.cpp:55-83 OnlineUsers::DoDeSerialize] *)
Definition OnlineUsers_DoDeSerialize (serialized : option json) : outcome OnlineUsers :=
  Ok {| daemon_ := u64_field serialized "daemon"; http_ := u64_field serialized "http";
        vods_ := u64_field serialized "vods"; subscriber_ := u64_field serialized "subscriber" |}.

(* [src/src/server/daemon/commands_info/service/server_info.cpp:128-153 ServerInfo::SerializeFields] *)
Definition ServerInfo_SerializeFields (s : ServerInfo) (out : json) : json :=
  let obj := OnlineUsers_SerializeFields (online_users_ s) json_new_object in
  json_add_all out
    [ ("cpu", json_new_int (cpu_load_ s));
      ("gpu", json_new_int (gpu_load_ s));
      ("load_average", json_new_string (uptime_ s));
      ("memory_total", json_new_int64 (i64 (total_bytes_ram (mem_shot_ s))));
      ("memory_free", json_new_int64 (i64 (free_bytes_ram (mem_shot_ s))));
      ("memory_available", json_new_int64 (i64 (avail_bytes_ram (mem_shot_ s))));
      ("hdd_total", json_new_int64 (i64 (hdd_bytes_total (hdd_shot_ s))));
      ("hdd_free", json_new_int64 (i64 (hdd_bytes_free (hdd_shot_ s))));
      ("bandwidth_in", json_new_int64 (i64 (net_bytes_recv_ s)));
      ("bandwidth_out", json_new_int64 (i64 (net_bytes_send_ s)));
      ("uptime", json_new_int64 (sys_uptime (sys_shot_ s)));
      ("timestamp", json_new_int64 (current_ts_ s));
      ("online_users", obj) ].

(* [src/src/server/daemon/commands_info/service/server_info.cpp:155-247 ServerInfo::DoDeSerialize] *)
Definition ServerInfo_DoDeSerialize (serialized : option json) : outcome ServerInfo :=
  online ← field_m serialized "online_users" (fun j _ => DeSerialize OnlineUsers_DoDeSerialize j) online_users_new;
  uptime ← field_m serialized "load_average" (fun j _ => get_std_string j) "";
  Ok {| cpu_load_ := int_field serialized "cpu";
        gpu_load_ := int_field serialized "gpu";
        uptime_ := uptime;
        mem_shot_ := {| total_bytes_ram := u64_field serialized "memory_total";
                        free_bytes_ram := u64_field serialized "memory_free";
                        avail_bytes_ram := u64_field serialized "memory_available" |};
        hdd_shot_ := {| hdd_bytes_total := u64_field serialized "hdd_total";
                        hdd_bytes_free := u64_field serialized "hdd_free" |};
        net_bytes_recv_ := u64_field serialized "bandwidth_in";
        net_bytes_send_ := u64_field serialized "bandwidth_out";
        current_ts_ := i64_field serialized "timestamp";
        sys_shot_ := {| loads := (0, 0, 0)%Z; sys_uptime := i64_field serialized "uptime" |};
        online_users_ := online |}.

(* [src/src/server/daemon/commands_info/service/server_info.h:89-115 FullServiceInfo] *)
Record FullServiceInfo := {
  fs_base : ServerInfo;
  http_host_ : string * Z;
  vods_host_ : string * Z;
  subscribers_host_ : string * Z;
  bandwidth_host_ : string * Z;
  proj_ver_ : string
}.

(** [FullServiceInfo()]. *)
(* [src/src/server/daemon/commands_info/service/server_info.cpp:285-285 FullServiceInfo::FullServiceInfo] *)
Definition full_service_info_new : FullServiceInfo :=
  {| fs_base := server_info_new; http_host_ := host_port_default; vods_host_ := host_port_default;
     subscribers_host_ := host_port_default; bandwidth_host_ := host_port_default; proj_ver_ := version |}.

(* [src/src/server/daemon/commands_info/service/server_info.cpp:374-387 FullServiceInfo::SerializeFields] *)
Definition FullServiceInfo_SerializeFields (f : FullServiceInfo) (out : json) : json :=
  ServerInfo_SerializeFields (fs_base f) (json_add_all out
    [ ("http_host", json_new_string (host_port_to_string (http_host_ f)));
      ("vods_host", json_new_string (host_port_to_string (vods_host_ f)));
      ("subscribers_host", json_new_string (host_port_to_string (subscribers_host_ f)));
      ("bandwidth_host", json_new_string (host_port_to_string (bandwidth_host_ f)));
      ("version", json_new_string (proj_ver_ f)) ]).

(** A host that does not parse is left as it is. *)
Definition host_field (serialized : option json) (k : string) : outcome (string * Z) :=
  field_m serialized k (fun j h => s ← get_std_string j; Ok (default h (conv_host_port s))) host_port_default.

(* [src/src/server/daemon/commands_info/service/server_info.cpp:319-372 FullServiceInfo::DoDeSerialize] *)
Definition FullServiceInfo_DoDeSerialize (serialized : option json) : outcome FullServiceInfo :=
  base ← ServerInfo_DoDeSerialize serialized;
  http_host ← host_field serialized "http_host";
  vods_host ← host_field serialized "vods_host";
  subscribers_host ← host_field serialized "subscribers_host";
  bandwidth_host ← host_field serialized "bandwidth_host";
  proj_ver ← field_m serialized "version" (fun j _ => get_std_string j) version;
  Ok {| fs_base := base; http_host_ := http_host; vods_host_ := vods_host; subscribers_host_ := subscribers_host;
        bandwidth_host_ := bandwidth_host; proj_ver_ := proj_ver |}.

(** ** Making the statistics *)

(* [src/src/server/process_slave_wrapper.cpp:288-295 ProcessSlaveWrapper::NodeStats] *)
Record NodeStats := { ns_prev : CpuShot; ns_prev_nshot : NetShot; ns_gpu_load : Z; ns_timestamp : Z }.

(** What the machine answers: the texts of [/proc], the system calls, the clock
    in milliseconds, the numbers of clients, and the contents of variables that
    are not initialised. *)
Record readings := {
  rd_stat : option string;
  rd_net_dev : option string;
  rd_meminfo : option string;
  rd_statvfs : option (Z * Z * Z);
  rd_sysinfo : option SysinfoShot;
  rd_now : Z;
  rd_http_clients : Z;
  rd_vods_clients : Z;
  rd_subscribers : Z;
  rd_garbage : nat -> Z
}.

Definition load_text (s : SysinfoShot) : string :=
  let '(a, b, c) := loads s in show_u a +:+ " " +:+ show_u b +:+ " " +:+ show_u c.

(** Bytes in a second; the quotient is one of numbers without a sign. *)
Definition rate (bytes ts_diff : Z) : Z := (bytes / u64 ts_diff)%Z.

(** The statistics and the state for the next time. A part of a second counts
    as none, and none as one. *)
(* [src/src/server/process_slave_wrapper.cpp:1508-1542 ProcessSlaveWrapper::MakeServiceStats] *)
Definition make_server_info (rd : readings) (daemons_client_count : Z) (ns : NodeStats) : outcome (ServerInfo * NodeStats) :=
  next ← GetMachineCpuShot (rd_garbage rd) (rd_stat rd);
  let cpu_load := GetCpuMachineLoad (ns_prev ns) next in
  next_nshot ← GetMachineNetShot (rd_garbage rd) (rd_net_dev rd);
  let bytes_recv := u64 (bytes_recv next_nshot - bytes_recv (ns_prev_nshot ns)) in
  let bytes_send := u64 (bytes_send next_nshot - bytes_send (ns_prev_nshot ns)) in
  let mem_shot := GetMachineMemoryShot (rd_meminfo rd) in
  let hdd_shot := GetMachineHddShot (rd_statvfs rd) in
  let sshot := GetMachineSysinfoShot (rd_sysinfo rd) in
  let current_time := rd_now rd in
  let ts_diff := Z.quot (current_time - ns_timestamp ns) 1000 in
  let ts_diff := if (ts_diff =? 0)%Z then 1%Z else ts_diff in
  let online := {| daemon_ := daemons_client_count; http_ := rd_http_clients rd; vods_ := rd_vods_clients rd;
                   subscriber_ := rd_subscribers rd |} in
  cpu ← ld_to_int (ld_mul cpu_load (ld_of_Z 100));
  Ok ({| cpu_load_ := cpu; gpu_load_ := ns_gpu_load ns; uptime_ := load_text sshot; mem_shot_ := mem_shot;
         hdd_shot_ := hdd_shot; net_bytes_recv_ := rate bytes_recv ts_diff; net_bytes_send_ := rate bytes_send ts_diff;
         current_ts_ := current_time; sys_shot_ := sshot; online_users_ := online |},
      {| ns_prev := next; ns_prev_nshot := next_nshot; ns_gpu_load := ns_gpu_load ns; ns_timestamp := current_time |}).

(** The hosts of the configuration. *)
Record service_hosts := { sh_http : string * Z; sh_vods : string * Z; sh_subscribers : string * Z; sh_bandwidth : string * Z }.

(* [src/src/server/process_slave_wrapper.cpp:1508-1560 ProcessSlaveWrapper::MakeServiceStats] *)
Definition machine_service_stats (hosts : service_hosts) (rd : readings) (full_stat : bool) (daemons_client_count : Z)
    (ns : NodeStats) : outcome (string * NodeStats) :=
  '(stat, ns) ← make_server_info rd daemons_client_count ns;
  let j :=
    if full_stat then
      FullServiceInfo_SerializeFields
        {| fs_base := stat; http_host_ := sh_http hosts; vods_host_ := sh_vods hosts;
           subscribers_host_ := sh_subscribers hosts; bandwidth_host_ := sh_bandwidth hosts; proj_ver_ := version |}
        json_new_object
    else ServerInfo_SerializeFields stat json_new_object in
  Ok (json_to_string j, ns).
End ServiceInfo.

(** ** Theorems *)

Section ServiceInfoTheorems.
Context `{JsonCOk, !CommonLibOk, !HostLib, !HostLibOk}.
Variable version : string.

Lemma json_add_all_app out l1 l2 : json_add_all (json_add_all out l1) l2 = json_add_all out (l1 ++ l2).
Proof. revert out. induction l1 as [|[k v] l1 IH]; intros out; [done|]. cbn. by rewrite IH. Qed.

Definition online_ok (u : OnlineUsers) : Prop :=
  in_u 64 (daemon_ u) /\ in_u 64 (http_ u) /\ in_u 64 (vods_ u) /\ in_u 64 (subscriber_ u).
Definition server_info_ok (s : ServerInfo) : Prop :=
  in_s 32 (cpu_load_ s) /\ in_s 32 (gpu_load_ s) /\
  in_u 64 (total_bytes_ram (mem_shot_ s)) /\ in_u 64 (free_bytes_ram (mem_shot_ s)) /\
  in_u 64 (avail_bytes_ram (mem_shot_ s)) /\ in_u 64 (hdd_bytes_total (hdd_shot_ s)) /\
  in_u 64 (hdd_bytes_free (hdd_shot_ s)) /\ in_u 64 (net_bytes_recv_ s) /\ in_u 64 (net_bytes_send_ s) /\
  in_s 64 (current_ts_ s) /\ in_s 64 (sys_uptime (sys_shot_ s)) /\ online_ok (online_users_ s).
Definition full_info_ok (f : FullServiceInfo) : Prop :=
  server_info_ok (fs_base f) /\ in_u 16 (http_host_ f).2 /\ in_u 16 (vods_host_ f).2 /\
  in_u 16 (subscribers_host_ f).2 /\ in_u 16 (bandwidth_host_ f).2.

(** What arrives: all but the loads of the system, which travel as a text. *)
Definition received_info (s : ServerInfo) : ServerInfo :=
  {| cpu_load_ := cpu_load_ s; gpu_load_ := gpu_load_ s; uptime_ := uptime_ s; mem_shot_ := mem_shot_ s;
     hdd_shot_ := hdd_shot_ s; net_bytes_recv_ := net_bytes_recv_ s; net_bytes_send_ := net_bytes_send_ s;
     current_ts_ := current_ts_ s; sys_shot_ := {| loads := (0, 0, 0)%Z; sys_uptime := sys_uptime (sys_shot_ s) |};
     online_users_ := online_users_ s |}.

Lemma online_roundtrip u :
  online_ok u -> DeSerialize OnlineUsers_DoDeSerialize (Some (OnlineUsers_SerializeFields u json_new_object)) = Ok u.
Proof.
  intros (Hd & Hh & Hv & Hs). unfold DeSerialize, OnlineUsers_DoDeSerialize, u64_field, field, OnlineUsers_SerializeFields.
  json_lookup. rewrite !json_get_int64_new by (by apply swrap_range). rewrite !u64_i64 by done. by destruct u.
Qed.

(** The statistics of the service, as the daemon sends them when it is
    activated, are read back with every number, host and version as it was
    sent; only the three loads of the system, which travel as a text, are not
    read. *)
Theorem service_info_roundtrip f :
  full_info_ok f ->
  DeSerialize (FullServiceInfo_DoDeSerialize version) (Some (FullServiceInfo_SerializeFields f json_new_object)) =
  Ok {| fs_base := received_info (fs_base f); http_host_ := http_host_ f; vods_host_ := vods_host_ f;
        subscribers_host_ := subscribers_host_ f; bandwidth_host_ := bandwidth_host_ f; proj_ver_ := proj_ver_ f |}.
Proof.
  intros ((Hc & Hg & Hmt & Hmf & Hma & Hht & Hhf & Hr & Hse & Hts & Hu & Ho) & Hh1 & Hh2 & Hh3 & Hh4).
  unfold DeSerialize, FullServiceInfo_DoDeSerialize, ServerInfo_DoDeSerialize, host_field, field_m, u64_field, i64_field,
    int_field, field, FullServiceInfo_SerializeFields, ServerInfo_SerializeFields.
  rewrite json_add_all_app. cbn [app]. json_lookup.
  rewrite online_roundtrip by done. cbn [get_std_string mbind outcome_bind]. rewrite !json_get_string_new. cbn [mbind outcome_bind].
  rewrite !conv_host_port_print by done. rewrite !json_get_int_new by done.
  rewrite !json_get_int64_new by (done || by apply swrap_range). rewrite !u64_i64 by done. cbn.
  unfold received_info. by destruct f as [[] [] [] [] [] ?], mem_shot_0, hdd_shot_0.
Qed.

(** *** Bandwidth *)

Lemma rate_forward bytes now ts :
  (0 <= now - ts < 2 ^ 63)%Z ->
  rate bytes (let d := Z.quot (now - ts) 1000 in if (d =? 0)%Z then 1%Z else d) = (bytes / Z.max 1 ((now - ts) / 1000))%Z.
Proof.
  intros Hn. cbv zeta. rewrite Z.quot_div_nonneg by lia. unfold rate.
  assert (Hd : (0 <= (now - ts) / 1000 <= now - ts)%Z) by (split; [apply Z.div_pos; lia|apply Z.div_le_upper_bound; lia]).
  destruct (Z.eqb_spec ((now - ts) / 1000) 0) as [->|Hne]; [done|].
  rewrite wrap_small by (unfold in_u; lia). f_equal. lia.
Qed.

Lemma rate_backward bytes now ts :
  (1000 <= ts - now < 2 ^ 63)%Z -> (0 <= bytes < 2 ^ 63)%Z ->
  rate bytes (let d := Z.quot (now - ts) 1000 in if (d =? 0)%Z then 1%Z else d) = 0%Z.
Proof.
  intros Hn Hb. cbv zeta. replace (now - ts)%Z with (- (ts - now))%Z by lia. rewrite Z.quot_opp_l, Z.quot_div_nonneg by lia.
  set (d := ((ts - now) / 1000)%Z).
  assert (Hd : (1 <= d <= ts - now)%Z) by (subst d; split; [apply Z.div_le_lower_bound; lia|apply Z.div_le_upper_bound; lia]).
  rewrite (proj2 (Z.eqb_neq _ _)) by lia. unfold rate, wrap.
  replace (- d)%Z with (2 ^ 64 - d + (-1) * 2 ^ 64)%Z by lia. rewrite Z.mod_add, Z.mod_small by lia. apply Z.div_small. lia.
Qed.

(** C37: the bandwidths that the service reports, for counters that have not
    gone back: the bytes of the period by its whole seconds, of which there is
    at least one, so that nothing is divided by zero; and if the clock has gone
    back by a second or more in the meantime, nothing. *)
Theorem service_bandwidth rd n ns s ns' :
  make_server_info rd n ns = Ok (s, ns') ->
  let '(p, q) := (ns_prev_nshot ns, ns_prev_nshot ns') in
  (0 <= bytes_recv p <= bytes_recv q)%Z -> (bytes_recv q < 2 ^ 63)%Z ->
  (0 <= bytes_send p <= bytes_send q)%Z -> (bytes_send q < 2 ^ 63)%Z ->
  let t := (rd_now rd - ns_timestamp ns)%Z in
  ((0 <= t < 2 ^ 63)%Z ->
     net_bytes_recv_ s = ((bytes_recv q - bytes_recv p) / Z.max 1 (t / 1000))%Z /\
     net_bytes_send_ s = ((bytes_send q - bytes_send p) / Z.max 1 (t / 1000))%Z) /\
  ((1000 <= - t < 2 ^ 63)%Z -> net_bytes_recv_ s = 0%Z /\ net_bytes_send_ s = 0%Z).
Proof.
  unfold make_server_info. intros (cpu & _ & Hm)%outcome_bind_Ok. apply outcome_bind_Ok in Hm as (net & _ & Hm).
  apply outcome_bind_Ok in Hm as (load & _ & [= <- <-]). cbn. intros Hr Hr' Hs Hs'.
  rewrite !(wrap_small 64 (_ - _)) by (unfold in_u; lia). split.
  - intros Ht. by rewrite !rate_forward.
  - intros Ht. rewrite !rate_backward by lia. done.
Qed.

(** *** The load of the processors *)

(** Two statistics within a tick of the processors' counters: the second
    divides zero by zero and converts what is no number to an [int], which has
    no defined result. A client that activates itself just after the periodic
    statistics brings it about. *)
Theorem stats_twice_in_a_tick rd rd' n n' ns s ns1 net :
  make_server_info rd n ns = Ok (s, ns1) ->
  rd_stat rd' = rd_stat rd -> rd_garbage rd' = rd_garbage rd ->
  GetMachineNetShot (rd_garbage rd') (rd_net_dev rd') = Ok net ->
  make_server_info rd' n' ns1 = Abort (UndefinedBehaviour "long double to int").
Proof.
  unfold make_server_info. intros (cpu & Hcpu & Hm)%outcome_bind_Ok Hst Hga Hnet.
  apply outcome_bind_Ok in Hm as (net1 & _ & Hm). apply outcome_bind_Ok in Hm as (load & _ & [= <- <-]).
  rewrite Hst, Hga, Hcpu. rewrite Hga in Hnet. cbn [mbind outcome_bind]. rewrite Hnet. cbn [mbind outcome_bind ns_prev].
  unfold GetCpuMachineLoad. by rewrite !Z.sub_diag.
Qed.

Section Load.
Local Open Scope Z_scope.

(** The load between two readings whose counters have not gone back. *)
Lemma machine_load_percent p q :
  let b := busy_time q - busy_time p in
  let t := b + (idle_time q - idle_time p) in
  0 <= b -> idle_time p <= idle_time q -> 0 < t < 2 ^ 55 -> idle_time q + busy_time q < 2 ^ 64 ->
  exists z, ld_to_int (ld_mul (GetCpuMachineLoad p q) (ld_of_Z 100)) = Ok z /\ 0 <= z <= 100 /\
    z * t <= 100 * b <= (z + 1) * t.
Proof.
  intros b t Hb Hi Ht Hq. unfold GetCpuMachineLoad.
  assert (Hip : 0 <= idle_time p) by (apply wrap_range; lia).
  assert (Hbp : 0 <= busy_time p) by (apply wrap_range; lia).
  rewrite (wrap_small 64 (idle_time q + _)), (wrap_small 64 (idle_time p + _)) by (unfold in_u; lia).
  rewrite !wrap_small by (unfold in_u; lia).
  replace (idle_time q + busy_time q - (idle_time p + busy_time p)) with t by lia.
  set (i := idle_time q - idle_time p). assert (Hbi : b = t - i) by lia.
  destruct (decide (b = 0)) as [Hb0|Hb0].
  - assert (i = t) as -> by lia. rewrite ld_sub_same by lia. rewrite (zero_percent t) by (apply ld_of_Z_int; lia).
    exists 0. split_and!; try done; lia.
  - destruct (percent_of b t (ld_sub (ld_of_Z t) (ld_of_Z i)) (ld_of_Z t)) as (z & Hz & Hz0 & Hzb); [lia|lia| | |].
    + rewrite Hbi. apply ld_sub_int; lia.
    + apply ld_of_Z_int; lia.
    + exists z. split; [done|]. split; [|done]. split; [done|]. nia.
Qed.

(** C38: the load of the processors that the service reports, when their
    counters have not gone back and at least one has moved: a number from 0 to
    100, and for all the rounding of the long doubles the integral part of the
    percentage of the time that was busy, or one less where the percentage is
    a whole number. *)
Theorem service_cpu_load rd n ns next net :
  GetMachineCpuShot (rd_garbage rd) (rd_stat rd) = Ok next ->
  GetMachineNetShot (rd_garbage rd) (rd_net_dev rd) = Ok net ->
  let b := busy_time next - busy_time (ns_prev ns) in
  let t := b + (idle_time next - idle_time (ns_prev ns)) in
  0 <= b -> idle_time (ns_prev ns) <= idle_time next -> 0 < t < 2 ^ 55 -> idle_time next + busy_time next < 2 ^ 64 ->
  exists s ns', make_server_info rd n ns = Ok (s, ns') /\ 0 <= cpu_load_ s <= 100 /\
    (cpu_load_ s = 100 * b / t \/ 100 * b = (cpu_load_ s + 1) * t).
Proof.
  intros Hc Hn b t Hb Hi Ht Hq. destruct (machine_load_percent (ns_prev ns) next Hb Hi Ht Hq) as (z & Hz & Hz1 & Hz2).
  unfold make_server_info. rewrite Hc. cbn [mbind outcome_bind]. rewrite Hn. cbn [mbind outcome_bind]. rewrite Hz.
  do 2 eexists. split; [done|]. split; [done|]. cbn [cpu_load_]. fold b t in Hz2.
  destruct (decide (100 * b = (z + 1) * t)); [by right|left]. apply Z.div_unique with (100 * b - z * t); lia.
Qed.
End Load.
End ServiceInfoTheorems.

(** ** The theorems at concrete readings *)

Section Witnesses.
#[local] Existing Instance Ref.common.
#[local] Existing Instance Ref.hosts.
#[local] Instance ref_json : JsonC := Ref.json_c (fun _ => None).

Definition sample_service_info : FullServiceInfo :=
  {| fs_base :=
       {| cpu_load_ := 37; gpu_load_ := 0; uptime_ := "1 2 3";
          mem_shot_ := {| total_bytes_ram := 8000000000; free_bytes_ram := 5; avail_bytes_ram := 2 ^ 63 |};
          hdd_shot_ := {| hdd_bytes_total := 100; hdd_bytes_free := 7 |};
          net_bytes_recv_ := 12; net_bytes_send_ := 13; current_ts_ := 1600000000000;
          sys_shot_ := {| loads := (1, 2, 3)%Z; sys_uptime := 99 |};
          online_users_ := {| daemon_ := 1; http_ := 2; vods_ := 0; subscriber_ := 4 |} |};
     http_host_ := ("127.0.0.1", 8000%Z); vods_host_ := ("127.0.0.1", 7000%Z);
     subscribers_host_ := ("127.0.0.1", 6000%Z); bandwidth_host_ := ("127.0.0.1", 5000%Z); proj_ver_ := "1.0" |}.

Lemma service_info_roundtrip_witness :
  full_info_ok sample_service_info /\
  exists f, DeSerialize (FullServiceInfo_DoDeSerialize "2.0")
              (Some (FullServiceInfo_SerializeFields sample_service_info json_new_object)) = Ok f /\
    avail_bytes_ram (mem_shot_ (fs_base f)) = (2 ^ 63)%Z /\ loads (sys_shot_ (fs_base f)) = (0, 0, 0)%Z.
Proof.
  assert (Hok : full_info_ok sample_service_info) by (repeat split; int_range).
  split; [exact Hok|]. eexists. split.
  - apply (@service_info_roundtrip Ref.common ref_json (Ref.json_c_ok _) Ref.hosts Ref.hosts_ok
             "2.0" sample_service_info Hok).
  - split; reflexivity.
Defined.

Definition net_dev_text (recv send : string) : string :=
  "Inter-|   Receive" +:+ String newline (" face |bytes" +:+ String newline
  ("    lo: 5 0 0 0 0 0 0 0 6 0 0 0 0 0 0 0" +:+ String newline
  ("  eth0: " +:+ recv +:+ " 0 0 0 0 0 0 0 " +:+ send +:+ " 0 0 0 0 0 0 0" +:+ String newline ""))).

Definition sample_readings (cpu recv send : string) (now : Z) : readings :=
  {| rd_stat := Some ("cpu  " +:+ cpu +:+ " 0 50 1000 0 0 0 0 0 0" +:+ String newline "");
     rd_net_dev := Some (net_dev_text recv send);
     rd_meminfo := None; rd_statvfs := None; rd_sysinfo := None; rd_now := now;
     rd_http_clients := 0; rd_vods_clients := 0; rd_subscribers := 0; rd_garbage := fun _ => 0%Z |}.

Definition node_stats_at (now : Z) : NodeStats :=
  {| ns_prev := cpu_shot_new; ns_prev_nshot := {| bytes_recv := 1000; bytes_send := 100 |}; ns_gpu_load := 0;
     ns_timestamp := now |}.

Lemma service_bandwidth_witness :
  exists s ns', make_server_info (sample_readings "100" "9000" "300" 5900) 1 (node_stats_at 1000) = Ok (s, ns') /\
    net_bytes_recv_ s = 2000%Z /\ net_bytes_send_ s = 50%Z /\ cpu_load_ s = 13%Z.
Proof.
  pose proof (service_bandwidth (sample_readings "100" "9000" "300" 5900) 1 (node_stats_at 1000)) as Hb.
  do 2 eexists. split; [vm_compute; reflexivity|].
  destruct (Hb _ _ ltac:(vm_compute; reflexivity) ltac:(cbn; lia) ltac:(cbn; lia) ltac:(cbn; lia) ltac:(cbn; lia)) as [Hf _].
  destruct (Hf ltac:(cbn; lia)) as [-> ->]. split; [|split]; reflexivity.
Defined.

(** Of a hundred ticks 53 were busy; 52 percent are reported. *)
Lemma service_cpu_load_witness :
  let ns := {| ns_prev := {| user := 0; nice := 0; system := 50; idle := 953; iowait := 0; irq := 0; softirq := 0; steal := 0;
                             guest := 0; guest_nice := 0 |};
               ns_prev_nshot := net_shot_new; ns_gpu_load := 0; ns_timestamp := 1000 |} in
  exists s ns', make_server_info (sample_readings "53" "9000" "300" 5900) 1 ns = Ok (s, ns') /\ cpu_load_ s = 52%Z /\
    (100 * 53 = (cpu_load_ s + 1) * 100)%Z.
Proof.
  cbv zeta.
  destruct (service_cpu_load (sample_readings "53" "9000" "300" 5900) 1
    {| ns_prev := {| user := 0; nice := 0; system := 50; idle := 953; iowait := 0; irq := 0; softirq := 0; steal := 0;
                     guest := 0; guest_nice := 0 |};
       ns_prev_nshot := net_shot_new; ns_gpu_load := 0; ns_timestamp := 1000 |}
    {| user := 53; nice := 0; system := 50; idle := 1000; iowait := 0; irq := 0; softirq := 0; steal := 0; guest := 0;
       guest_nice := 0 |} {| bytes_recv := 9000; bytes_send := 300 |}) as (s & ns' & Hm & Hr & Hl);
    [vm_compute; reflexivity|vm_compute; reflexivity|vm_compute; discriminate|vm_compute; discriminate|
     split; vm_compute; reflexivity|vm_compute; reflexivity|].
  exists s, ns'. assert (Hs : cpu_load_ s = 52%Z) by (vm_compute in Hm; injection Hm as <- _; reflexivity).
  split; [exact Hm|]. rewrite Hs. split; reflexivity.
Defined.

Lemma stats_twice_in_a_tick_witness :
  exists s ns1, make_server_info (sample_readings "100" "9000" "300" 5900) 1 (node_stats_at 1000) = Ok (s, ns1) /\
    make_server_info (sample_readings "100" "9500" "310" 5903) 2 ns1 = Abort (UndefinedBehaviour "long double to int").
Proof.
  destruct (make_server_info (sample_readings "100" "9000" "300" 5900) 1 (node_stats_at 1000)) as [[s ns1]|?|?] eqn:E;
    [|vm_compute in E; discriminate E|vm_compute in E; discriminate E].
  exists s, ns1. split; [done|].
  eapply (stats_twice_in_a_tick (sample_readings "100" "9000" "300" 5900) (sample_readings "100" "9500" "310" 5903) 1 2
            (node_stats_at 1000) s ns1 {| bytes_recv := 9500; bytes_send := 310 |}); [exact E|done|done|].
  vm_compute. reflexivity.
Defined.
End Witnesses.
