(* ===== verification/Slave.v ===== *)
(** * The daemon

    [src/src/server/process_slave_wrapper.cpp], with [child_stream.cpp] and
    [daemon/client.cpp]. The daemon has one event loop, which owns the
    connections of its clients, one child process per stream with a pipe to it,
    and the timers; every handler runs on the loop's thread, so that a handler is
    one step of the daemon. A handler is an [hact] over the daemon's state; its
    events are the calls it makes on the outside world, in their order.

    What the operating system and the loop answer during a handler is the record
    [os_answers]; the lines that only write to the log are left out. *)

From Stdlib Require Import Ascii.
From S2P Require Import Prelude Platform StreamTypes Stats StatsInfo Constants Uris Options Configs Timeshift Protocol Commands Users.

(** ** Helpers of the file *)

Section Helpers.
Context `{CommonLib} `{UrlLib}.

(** The port is [None] where it stays the one of [HostAndPort()]. *)
(* [src/src/server/process_slave_wrapper.cpp:80-100 GetHttpHostAndPort] *)
Definition GetHttpHostAndPort (host : string) : option (string * option Z) :=
  if is_empty host then None
  else
    match split_last ":" host with
    | Some (h, port_str) => Some (h, conv_u16 port_str)
    | None => Some (host, Some 80%Z)
    end.

(* [src/src/server/process_slave_wrapper.cpp:102-109 GetPostServerFromUrl] *)
Definition GetPostServerFromUrl (u : url) : option (string * option Z) :=
  if negb (url_is_valid u) then None else GetHttpHostAndPort (url_get_host u).

Definition ascii_lower (c : ascii) : ascii :=
  let n := nat_of_ascii c in if (65 <=? n)%nat && (n <=? 90)%nat then ascii_of_nat (n + 32) else c.
Fixpoint string_lower (s : string) : string :=
  match s with EmptyString => EmptyString | String c s' => String (ascii_lower c) (string_lower s') end.
(** [common::EqualsASCII(a, b, false)]. *)
Definition EqualsASCII_nocase (a b : string) : bool := String.eqb (string_lower a) (string_lower b).

(** [chunks] is what the reader of the playlist finds, [None] when it does not
    parse; [exists_ ] tells which files are there. *)
(* [src/src/server/process_slave_wrapper.cpp:265-285 CheckIsFullVod] *)
Definition CheckIsFullVod `{FsLib} (chunks : option (list string)) (dir : string)
    (exists_ : string -> bool) : bool :=
  match chunks with
  | None => false
  | Some chunks =>
      forallb (fun chunk => match make_file_path dir chunk with
                            | None => false
                            | Some chunk_path => exists_ chunk_path
                            end) chunks
  end.
End Helpers.

(** ** State *)

(** A child process and the pipe to it, while that is open. *)
(* [src/src/server/child_stream.h:29-51 Child] *)
Record child := { c_stream : string; c_pid : Z; c_client : option nat }.

Inductive mmap_result := MmapNull | MmapFailed | MmapOk.

(** What the system answers during a handler. *)
Record os_answers := {
  os_write : nat -> option error;          (* WriteRequest to a client *)
  os_pipe_write : nat -> option error;     (* WriteRequest to a pipe *)
  os_mmap : mmap_result;
  os_pipe1 : (Z * Z) + error;              (* the first pipe() *)
  os_pipe2 : (Z * Z) + error;
  os_fork : Z;
  os_service_stats : bool -> nat -> string (* the load of the machine, as a text *)
}.

Section Slave.
Context `{FastotvLib} `{UrlLib} `{PathLib} `{UnnamedCodes} `{RpcLib} `{FsLib}.

(* [src/src/server/process_slave_wrapper.h:137-166 ProcessSlaveWrapper] *)
Record slave := {
  sl_clients : list (nat * bool);          (* connected clients; verified? *)
  sl_pipes : list nat;                     (* registered pipes *)
  sl_children : list child;
  sl_next_pipe : nat;
  sl_id : Z;                               (* the next request *)
  sl_next_timer : nat;
  sl_ping_timer : option nat;              (* None: INVALID_TIMER_ID *)
  sl_stats_timer : option nat;
  sl_cleanup_timer : option nat;
  sl_quit_timer : option nat;
  sl_vods_links : gmap string ArgsMap;
  sl_users : gmap string UserInfo;
  sl_http_root : string;
  sl_vods_root : string;
  sl_fs : fs
}.

Definition set_clients (l : list (nat * bool)) (s : slave) : slave :=
  {| sl_clients := l; sl_pipes := sl_pipes s; sl_children := sl_children s;
     sl_next_pipe := sl_next_pipe s; sl_id := sl_id s; sl_next_timer := sl_next_timer s;
     sl_ping_timer := sl_ping_timer s; sl_stats_timer := sl_stats_timer s;
     sl_cleanup_timer := sl_cleanup_timer s; sl_quit_timer := sl_quit_timer s;
     sl_vods_links := sl_vods_links s; sl_users := sl_users s; sl_http_root := sl_http_root s;
     sl_vods_root := sl_vods_root s; sl_fs := sl_fs s |}.
Definition set_processes (pipes : list nat) (children : list child) (next : nat) (s : slave) : slave :=
  {| sl_clients := sl_clients s; sl_pipes := pipes; sl_children := children;
     sl_next_pipe := next; sl_id := sl_id s; sl_next_timer := sl_next_timer s;
     sl_ping_timer := sl_ping_timer s; sl_stats_timer := sl_stats_timer s;
     sl_cleanup_timer := sl_cleanup_timer s; sl_quit_timer := sl_quit_timer s;
     sl_vods_links := sl_vods_links s; sl_users := sl_users s; sl_http_root := sl_http_root s;
     sl_vods_root := sl_vods_root s; sl_fs := sl_fs s |}.
Definition set_id (id : Z) (s : slave) : slave :=
  {| sl_clients := sl_clients s; sl_pipes := sl_pipes s; sl_children := sl_children s;
     sl_next_pipe := sl_next_pipe s; sl_id := id; sl_next_timer := sl_next_timer s;
     sl_ping_timer := sl_ping_timer s; sl_stats_timer := sl_stats_timer s;
     sl_cleanup_timer := sl_cleanup_timer s; sl_quit_timer := sl_quit_timer s;
     sl_vods_links := sl_vods_links s; sl_users := sl_users s; sl_http_root := sl_http_root s;
     sl_vods_root := sl_vods_root s; sl_fs := sl_fs s |}.
Definition set_timers (next : nat) (ping stats cleanup quit : option nat) (s : slave) : slave :=
  {| sl_clients := sl_clients s; sl_pipes := sl_pipes s; sl_children := sl_children s;
     sl_next_pipe := sl_next_pipe s; sl_id := sl_id s; sl_next_timer := next;
     sl_ping_timer := ping; sl_stats_timer := stats; sl_cleanup_timer := cleanup; sl_quit_timer := quit;
     sl_vods_links := sl_vods_links s; sl_users := sl_users s; sl_http_root := sl_http_root s;
     sl_vods_root := sl_vods_root s; sl_fs := sl_fs s |}.
Definition set_data (links : gmap string ArgsMap) (users : gmap string UserInfo) (http_root vods_root : string)
    (s : slave) : slave :=
  {| sl_clients := sl_clients s; sl_pipes := sl_pipes s; sl_children := sl_children s;
     sl_next_pipe := sl_next_pipe s; sl_id := sl_id s; sl_next_timer := sl_next_timer s;
     sl_ping_timer := sl_ping_timer s; sl_stats_timer := sl_stats_timer s;
     sl_cleanup_timer := sl_cleanup_timer s; sl_quit_timer := sl_quit_timer s;
     sl_vods_links := links; sl_users := users; sl_http_root := http_root;
     sl_vods_root := vods_root; sl_fs := sl_fs s |}.
Definition set_fs (f : fs) (s : slave) : slave :=
  {| sl_clients := sl_clients s; sl_pipes := sl_pipes s; sl_children := sl_children s;
     sl_next_pipe := sl_next_pipe s; sl_id := sl_id s; sl_next_timer := sl_next_timer s;
     sl_ping_timer := sl_ping_timer s; sl_stats_timer := sl_stats_timer s;
     sl_cleanup_timer := sl_cleanup_timer s; sl_quit_timer := sl_quit_timer s;
     sl_vods_links := sl_vods_links s; sl_users := sl_users s; sl_http_root := sl_http_root s;
     sl_vods_root := sl_vods_root s; sl_fs := f |}.
Definition set_links (links : gmap string ArgsMap) (s : slave) : slave :=
  set_data links (sl_users s) (sl_http_root s) (sl_vods_root s) s.
Definition set_users (users : gmap string UserInfo) (s : slave) : slave :=
  set_data (sl_vods_links s) users (sl_http_root s) (sl_vods_root s) s.
Definition set_children (l : list child) (s : slave) : slave :=
  set_processes (sl_pipes s) l (sl_next_pipe s) s.

(** ** Events *)

Inductive slave_event :=
| Respond (c : nat) (r : response_t)
| Request (c : nat) (r : request_t)
| PipeRequest (p : nat) (r : request_t)
| CloseClient (c : nat)
| ClosePipe (p : nat)
| MapStruct (id : string)
| UnmapStruct (id : string)
| PipeOpened (r w : Z)
| CloseDescriptor (fd : Z)
| RegisterChild (id : string) (pid : Z) (read_fd write_fd : Z)
| StreamExec (name feedback_dir : string) (logs_level : Z) (config : ArgsMap) (read_fd write_fd : Z)
| PostFile (server : string * option Z) (path file : string)
| CleanFolder (dir ext : string)
| CreateTimer (id : nat) (sec : Z) (repeat : bool)
| RemoveTimer (id : nat)
| StopServer (name : string).

Definition handler : Type := hact slave slave_event unit.

Context (license_key log_path : string) (ttl_files : Z) (os : os_answers).

(** ** Clients and children *)

(* [src/src/server/daemon/client.cpp:23-25 DaemonClient::IsVerified] *)
Definition IsVerified (c : nat) (s : slave) : bool :=
  existsb (fun x => Nat.eqb x.1 c && x.2) (sl_clients s).

(* [src/src/server/daemon/client.cpp:27-29 DaemonClient::SetVerified] *)
Definition SetVerified (c : nat) (s : slave) : slave :=
  set_clients ((fun x => if Nat.eqb x.1 c then (c, true) else x) <$> sl_clients s) s.

(** A new connection. *)
(* [src/src/server/daemon/client.cpp:20-21 DaemonClient::DaemonClient] *)
Definition ClientConnected (c : nat) (s : slave) : slave := set_clients (sl_clients s ++ [(c, false)]) s.

(** [Close] and [delete]. *)
Definition DropClient (c : nat) : handler :=
  hemit (CloseClient c) ;;
  hmodify (fun s => set_clients (filter (fun x => x.1 <> c) (sl_clients s)) s).

(* [src/src/server/process_slave_wrapper.cpp:1055-1058 ProcessSlaveWrapper::NextRequestID] *)
Definition NextRequestID : hact slave slave_event json_rpc_id :=
  id ← hgets sl_id; hmodify (set_id (u64 (id + 1))) ;; mret (MakeRequestID id).

(** [WriteRequest] to the pipe of a child; a null pipe is an error. *)
Definition pipe_send (ch : child) (r : request_t) : handler :=
  match c_client ch with
  | None => hthrow error_inval
  | Some p =>
      hemit (PipeRequest p r) ;;
      match os_pipe_write os p with Some e => hthrow e | None => mret tt end
  end.

(* [src/src/server/child_stream.cpp:37-44 Child::SendStop] *)
Definition SendStop (ch : child) (id : json_rpc_id) : handler := pipe_send ch (StopStreamRequest id).
(* [src/src/server/child_stream.cpp:46-53 Child::SendRestart] *)
Definition SendRestart (ch : child) (id : json_rpc_id) : handler := pipe_send ch (RestartStreamRequest id).

(* [src/src/server/process_slave_wrapper.cpp:604-614 ProcessSlaveWrapper::FindChildByID] *)
Definition FindChildByID (cid : string) (s : slave) : option child :=
  List.find (fun ch => String.eqb (c_stream ch) cid) (sl_children s).

(** An error of one write does not keep the others from it. *)
(* [src/src/server/process_slave_wrapper.cpp:616-627 ProcessSlaveWrapper::BroadcastClients] *)
Definition BroadcastClients (req : request_t) : handler :=
  clients ← hgets sl_clients;
  hact_iter (fun x : nat * bool => if x.2 then hemit (Request x.1 req) else mret tt) clients.

(** [dclient->WriteResponse(resp)]: its result is not looked at. *)
Definition WriteResponse (c : nat) (r : response_t) : handler := hemit (Respond c r).

(** ** Statistics of the service *)

(** The number of verified clients goes into the text. *)
(* [src/src/server/process_slave_wrapper.cpp:1530-1537 ProcessSlaveWrapper::MakeServiceStats] *)
Definition daemons_client_count (s : slave) : nat := length (filter (fun x : nat * bool => x.2 = true) (sl_clients s)).
Definition MakeServiceStats (full_stat : bool) : hact slave slave_event string :=
  n ← hgets daemons_client_count; mret (os_service_stats os full_stat n).

(** ** Starting a stream *)

Definition h_CreateAndCheckDir (dir : string) : handler := fun s =>
  let '(e, f) := CreateAndCheckDir (sl_fs s) dir in
  (match e with Some e => Err e | None => Ok tt end, set_fs f s, []).

Definition define_error (field : string) : error :=
  make_errno_error ("Define " +:+ field +:+ " variable and make it valid.") EAGAIN.

Definition or_throw {A} (o : option A) (e : error) : hact slave slave_event A :=
  match o with Some a => mret a | None => hthrow e end.

(** The loop over the outputs makes the directories of those that are served
    over HTTP. *)
(* [src/src/server/process_slave_wrapper.cpp:242-253 MakeStreamInfo] *)
Definition check_output (out_uri : OutputUri) : handler :=
  if decide (url_get_scheme (ou_output out_uri) = http) then h_CreateAndCheckDir (ou_http_root out_uri)
  else mret tt.

(** The information of a stream, its feedback directory and its log level. *)
(* [src/src/server/process_slave_wrapper.cpp:177-261 MakeStreamInfo] *)
Definition MakeStreamInfo (config_args : ArgsMap) (check_folders : bool)
    : hact slave slave_event (StreamInfo * string * Z) :=
  id ← or_throw (args_get conv_string config_args ID_FIELD) (define_error ID_FIELD);
  type ← or_throw (args_get conv_u8 config_args TYPE_FIELD) (define_error TYPE_FIELD);
  if decide (cast_type type = PROXY) then
    hthrow (make_errno_error "Proxy streams not handled for now" EINVAL)
  else
  lfeedback_dir ← or_throw (args_get conv_string config_args FEEDBACK_DIR_FIELD)
    (define_error FEEDBACK_DIR_FIELD);
  let llogs_level := default LOG_LEVEL_DEBUG (args_get conv_i32 config_args LOG_LEVEL_FIELD) in
  h_CreateAndCheckDir lfeedback_dir ;;
  input ← hlift (read_input config_args);
  input ← or_throw input (define_error INPUT_FIELD);
  let sha outs :=
    {| si_id := id; si_type := cast_type type; si_input := iu_id <$> input; si_output := outs |} in
  if negb check_folders then mret (sha [], lfeedback_dir, llogs_level)
  else if (type =? stream_type_code TIMESHIFT_RECORDER)%Z || (type =? stream_type_code CATCHUP)%Z then
    timeshift_dir ← or_throw (args_get conv_string config_args TIMESHIFT_DIR_FIELD)
      (define_error TIMESHIFT_DIR_FIELD);
    h_CreateAndCheckDir timeshift_dir ;;
    mret (sha [], lfeedback_dir, llogs_level)
  else
    output ← hlift (read_output config_args);
    output ← or_throw output (define_error OUTPUT_FIELD);
    hact_iter check_output output ;;
    mret (sha (ou_id <$> output), lfeedback_dir, llogs_level).

(** [mmap] reports a failure by [MAP_FAILED], which is not a null pointer. *)
(* [src/src/server/stream_struct_utils.cpp:22-31 AllocSharedStreamStruct] *)
Definition AllocSharedStreamStruct (sha : StreamInfo) : handler :=
  match os_mmap os with
  | MmapNull => hthrow (make_errno_error "Failed to allocate memory." (ErrnoCode 12))
  | MmapFailed => hlift (Abort (UndefinedBehaviour "new (MAP_FAILED)"))
  | MmapOk => hemit (MapStruct (si_id sha))
  end.

(* [src/src/server/stream_struct_utils.cpp:33-46 FreeSharedStreamStruct] *)
Definition FreeSharedStreamStruct (id : string) : handler := hemit (UnmapStruct id).

(* [src/src/server/process_slave_wrapper.cpp:156-170 CreatePipe] *)
Definition CreatePipe (answer : (Z * Z) + error) : hact slave slave_event (Z * Z) :=
  match answer with
  | inr e => hthrow e
  | inl (r, w) => hemit (PipeOpened r w) ;; mret (r, w)
  end.

(** An error frees the shared memory only. *)
Definition CreatePipe_or_free (answer : (Z * Z) + error) (id : string)
    : hact slave slave_event (Z * Z) :=
  match answer with
  | inr e => FreeSharedStreamStruct id ;; hthrow e
  | inl _ => CreatePipe answer
  end.

(** What the new process does, in its copy of the daemon; it does not return. *)
(* [src/src/server/process_slave_wrapper.cpp:896-926 ProcessSlaveWrapper::CreateChildStream] *)
Definition run_stream (sha : StreamInfo) (feedback_dir : string) (logs_level : Z) (config_args : ArgsMap)
    (commands responses : Z * Z) : handler :=
  hemit (CloseDescriptor responses.1) ;;
  hemit (CloseDescriptor commands.2) ;;
  hemit (StreamExec ("streamer_" +:+ si_id sha) feedback_dir logs_level config_args commands.1 responses.2) ;;
  hlift (Abort ProcessExit).

(** What the daemon does after the fork. *)
(* [src/src/server/process_slave_wrapper.cpp:929-946 ProcessSlaveWrapper::CreateChildStream] *)
Definition register_child (id : string) (pid : Z) (commands responses : Z * Z) : handler :=
  hemit (CloseDescriptor commands.1) ;;
  hemit (CloseDescriptor responses.2) ;;
  hemit (RegisterChild id pid responses.1 commands.2) ;;
  hmodify (fun s =>
    set_processes (sl_pipes s ++ [sl_next_pipe s])
      (sl_children s ++ [{| c_stream := id; c_pid := pid; c_client := Some (sl_next_pipe s) |}])
      (S (sl_next_pipe s)) s).

(** A failed fork is only logged. *)
(* [src/src/server/process_slave_wrapper.cpp:853-950 ProcessSlaveWrapper::CreateChildStream] *)
Definition CreateChildStream (config_args : ArgsMap) : handler :=
  x ← MakeStreamInfo config_args true;
  let '(sha, feedback_dir, logs_level) := x in
  stream ← hgets (FindChildByID (si_id sha));
  match stream with
  | Some _ =>
      hthrow (make_errno_error ("Stream with id: " +:+ si_id sha +:+ " exist, skip request.") EINVAL)
  | None =>
      AllocSharedStreamStruct sha ;;
      commands ← CreatePipe_or_free (os_pipe1 os) (si_id sha);
      responses ← CreatePipe_or_free (os_pipe2 os) (si_id sha);
      let pid := os_fork os in
      if (pid =? 0)%Z then run_stream sha feedback_dir logs_level config_args commands responses
      else if (pid <? 0)%Z then mret tt
      else register_child (si_id sha) pid commands responses
  end.

(* [src/src/server/process_slave_wrapper.cpp:847-851 ProcessSlaveWrapper::CreateChildStream] *)
Definition CreateChildStream_text (config : string) : handler :=
  config_args ← hlift (ValidateConfig config); CreateChildStream config_args.

(** ** The parameters of a request *)

(** A request without parameters, parameters that are no JSON, and parameters
    that [DeSerialize] refuses are errors. *)
Definition parse_params {A} (f : option json -> outcome A) (params : option string) : outcome A :=
  match params with
  | None => Err error_inval
  | Some text =>
      match json_tokener_parse text with
      | None => Err error_inval
      | Some j =>
          match DeSerialize f (Some j) with
          | Err e => Err (make_errno_error (description e) EAGAIN)
          | r => r
          end
      end
  end.

(** [if (!dclient->IsVerified()) return inval;] *)
Definition verified (c : nat) : handler :=
  v ← hgets (IsVerified c); if v : bool then mret tt else hthrow error_inval.

(** ** Requests about streams *)

(* [src/src/server/process_slave_wrapper.cpp:1018-1053 ProcessSlaveWrapper::HandleRequestClientStartStream] *)
Definition HandleRequestClientStartStream (c : nat) (req : request_t) : handler :=
  verified c ;;
  config ← hlift (parse_params StartInfo_DoDeSerialize (req_params req));
  err ← htry (CreateChildStream_text config);
  match err with
  | Some e => WriteResponse c (StartStreamResponceFail (req_id req) (description e)) ;; hthrow e
  | None => WriteResponse c (StartStreamResponceSuccess (req_id req))
  end.

(* [src/src/server/process_slave_wrapper.cpp:1060-1096 ProcessSlaveWrapper::HandleRequestClientStopStream] *)
Definition HandleRequestClientStopStream (c : nat) (req : request_t) : handler :=
  verified c ;;
  stream_id ← hlift (parse_params StreamInfo_DoDeSerialize (req_params req));
  chan ← hgets (FindChildByID stream_id);
  match chan with
  | None => WriteResponse c (StopStreamResponceFail (req_id req) "Stream not found.")
  | Some ch =>
      id ← NextRequestID;
      htry (SendStop ch id) ;;
      WriteResponse c (StopStreamResponceSuccess (req_id req))
  end.

(* [src/src/server/process_slave_wrapper.cpp:1098-1134 ProcessSlaveWrapper::HandleRequestClientRestartStream] *)
Definition HandleRequestClientRestartStream (c : nat) (req : request_t) : handler :=
  verified c ;;
  stream_id ← hlift (parse_params StreamInfo_DoDeSerialize (req_params req));
  chan ← hgets (FindChildByID stream_id);
  match chan with
  | None => WriteResponse c (RestartStreamResponceFail (req_id req) "Stream not found.")
  | Some ch =>
      id ← NextRequestID;
      htry (SendRestart ch id) ;;
      WriteResponse c (RestartStreamResponceSuccess (req_id req))
  end.

(** Posting a file; no caller looks at how it ends. *)
(* [src/src/server/process_slave_wrapper.cpp:121-154 PostHttpFile] *)
Definition PostHttpFile (file_path : string) (u : url) : handler :=
  match GetPostServerFromUrl u with
  | None => mret tt
  | Some server => hemit (PostFile server (url_path u) file_path)
  end.

(* [src/src/server/process_slave_wrapper.cpp:111-114 MakeStreamLogPath] *)
Definition MakeStreamLogPath (feedback_dir : string) : option string :=
  make_file_path (dir_path feedback_dir) "logs".
(* [src/src/server/process_slave_wrapper.cpp:116-119 MakeStreamPipelinePath] *)
Definition MakeStreamPipelinePath (feedback_dir : string) : option string :=
  make_file_path (dir_path feedback_dir) "dump.html".

Definition post_stream_file (path : string -> option string) (log_info : stream_GetLogInfo) : handler :=
  if decide (url_get_scheme (gl_path log_info) = http) then
    match path (gl_feedback_dir log_info) with
    | Some stream_file => PostHttpFile stream_file (gl_path log_info)
    | None => mret tt
    end
  else mret tt.

(* [src/src/server/process_slave_wrapper.cpp:1136-1172 ProcessSlaveWrapper::HandleRequestClientGetLogStream] *)
Definition HandleRequestClientGetLogStream (c : nat) (req : request_t) : handler :=
  verified c ;;
  log_info ← hlift (parse_params stream_GetLogInfo_DoDeSerialize (req_params req));
  post_stream_file MakeStreamLogPath log_info ;;
  WriteResponse c (GetLogStreamResponceSuccess (req_id req)).

(* [src/src/server/process_slave_wrapper.cpp:1174-1210 ProcessSlaveWrapper::HandleRequestClientGetPipelineStream] *)
Definition HandleRequestClientGetPipelineStream (c : nat) (req : request_t) : handler :=
  verified c ;;
  log_info ← hlift (parse_params stream_GetLogInfo_DoDeSerialize (req_params req));
  post_stream_file MakeStreamPipelinePath log_info ;;
  WriteResponse c (GetLogStreamResponceSuccess (req_id req)).

(** ** Requests to the service *)

(* [src/src/server/process_slave_wrapper.cpp:1212-1248 ProcessSlaveWrapper::HandleRequestClientPrepareService] *)
Definition HandleRequestClientPrepareService (c : nat) (req : request_t) : handler :=
  verified c ;;
  state_info ← hlift (parse_params PrepareInfo_DoDeSerialize (req_params req));
  hmodify (fun s => set_data (sl_vods_links s) (sl_users s) (dir_path (pi_hls state_info))
                      (dir_path (pi_vods state_info)) s) ;;
  f ← hgets sl_fs;
  let '(dirs, f') := make_Directories f state_info in
  hmodify (set_fs f') ;;
  WriteResponse c (StateServiceResponce (req_id req) (MakeDirectoryResponce dirs)).

(** A film of which an output is served over HTTP is started when its playlist
    is asked for; its arguments keep its chunks. *)
(* [src/src/server/process_slave_wrapper.cpp:1307-1320 ProcessSlaveWrapper::AddStreamLine] *)
Fixpoint add_links (outs : list OutputUri) (config_args : ArgsMap) (links : gmap string ArgsMap)
    : gmap string ArgsMap :=
  match outs with
  | [] => links
  | o :: outs' =>
      if decide (url_get_scheme (ou_output o) = http) then
        let config_args := <[CLEANUP_TS_FIELD := bool_to_string false]> config_args in
        add_links outs' config_args (<[ou_http_root o := config_args]> links)
      else add_links outs' config_args links
  end.

(* [src/src/server/process_slave_wrapper.cpp:1297-1321 ProcessSlaveWrapper::AddStreamLine] *)
Definition AddStreamLine (config : string) : handler :=
  config_args ← hlift (ValidateConfig config);
  x ← MakeStreamInfo config_args false;
  let '(sha, _, _) := x in
  if decide (si_type sha = VOD_ENCODE \/ si_type sha = VOD_RELAY) then
    output ← hlift (read_output config_args);
    match output with
    | None => mret tt
    | Some outs => hmodify (fun s => set_links (add_links outs config_args (sl_vods_links s)) s)
    end
  else mret tt.

(** A line that is not accepted is passed over. *)
Definition add_stream_line (config : string) : handler := htry (AddStreamLine config) ;; mret tt.

(** [uinf.DeSerializeFromString(user)]. *)
Definition add_user_line (user : string) : handler :=
  match DeSerialize UserInfo_DoDeSerialize (json_tokener_parse user) with
  | Ok uinf => hmodify (fun s => set_users (AddUser uinf (sl_users s)) s)
  | Err _ => mret tt
  | Abort r => hlift (Abort r)
  end.

(* [src/src/server/process_slave_wrapper.cpp:1250-1295 ProcessSlaveWrapper::HandleRequestClientSyncService] *)
Definition HandleRequestClientSyncService (c : nat) (req : request_t) : handler :=
  verified c ;;
  sync_info ← hlift (parse_params SyncInfo_DoDeSerialize (req_params req));
  hmodify (set_links ∅) ;;
  hact_iter add_stream_line (sy_streams sync_info) ;;
  hmodify (fun s => set_users (SyncFinder_Clear (sl_users s)) s) ;;
  hact_iter add_user_line (sy_users sync_info) ;;
  WriteResponse c (StopStreamResponceSuccess (req_id req)).

(** The license may be wrong when the client is verified. *)
(* [src/src/server/process_slave_wrapper.cpp:777-822 ProcessSlaveWrapper::HandleRequestClientStopService] *)
Definition HandleRequestClientStopService (c : nat) (req : request_t) : handler :=
  stop_info ← hlift (parse_params service_StopInfo_DoDeSerialize (req_params req));
  v ← hgets (IsVerified c);
  let is_verified_request := String.eqb (si_license stop_info) license_key || v in
  if negb is_verified_request then hthrow error_inval
  else
    quit_cleanup_timer ← hgets sl_quit_timer;
    match quit_cleanup_timer with
    | Some _ => WriteResponse c (StopServiceResponceFail (req_id req) "Stop service in progress...")
    | None =>
        childs ← hgets sl_children;
        hact_iter (fun channel => id ← NextRequestID; htry (SendStop channel id) ;; mret tt) childs ;;
        WriteResponse c (StopServiceResponceSuccess (req_id req)) ;;
        timer ← hgets sl_next_timer;
        hemit (CreateTimer timer 3 false) ;;
        hmodify (fun s => set_timers (S timer) (sl_ping_timer s) (sl_stats_timer s)
                            (sl_cleanup_timer s) (Some timer) s)
    end.

(* [src/src/server/process_slave_wrapper.cpp:1323-1358 ProcessSlaveWrapper::HandleRequestClientActivate] *)
Definition HandleRequestClientActivate (c : nat) (req : request_t) : handler :=
  match req_params req ≫= json_tokener_parse with
  | None => hthrow error_inval
  | Some jactivate =>
      match DeSerialize LicenseInfo_DoDeSerialize (Some jactivate) with
      | Abort r => hlift (Abort r)
      | Err e =>
          WriteResponse c (ActivateResponceFail (req_id req) (description e)) ;;
          hthrow (make_errno_error (description e) EAGAIN)
      | Ok license =>
          if negb (String.eqb license license_key) then
            WriteResponse c (ActivateResponceFail (req_id req) "Wrong license key") ;;
            hthrow error_inval
          else
            node_stats ← MakeServiceStats true;
            WriteResponse c (ActivateResponce (req_id req) node_stats) ;;
            hmodify (SetVerified c)
      end
  end.

(* [src/src/server/process_slave_wrapper.cpp:1360-1396 ProcessSlaveWrapper::HandleRequestClientPingService] *)
Definition HandleRequestClientPingService (c : nat) (req : request_t) : handler :=
  verified c ;;
  hlift (parse_params ClientPingInfo_DeSerialize (req_params req)) ;;
  match ServerPingInfo_SerializeToString with
  | Ok ping_server_json => WriteResponse c (PingServiceResponce (req_id req) ping_server_json)
  | Err e => hthrow (make_errno_error (description e) EAGAIN)
  | Abort r => hlift (Abort r)
  end.

(* [src/src/server/process_slave_wrapper.cpp:1398-1432 ProcessSlaveWrapper::HandleRequestClientGetLogService] *)
Definition HandleRequestClientGetLogService (c : nat) (req : request_t) : handler :=
  verified c ;;
  remote_log_path ← hlift (parse_params service_GetLogInfo_DoDeSerialize (req_params req));
  (if decide (url_get_scheme remote_log_path = http) then PostHttpFile log_path remote_log_path
   else mret tt) ;;
  WriteResponse c (GetLogServiceResponceSuccess (req_id req)).

(* [src/src/server/process_slave_wrapper.cpp:1434-1462 ProcessSlaveWrapper::HandleRequestServiceCommand] *)
Definition HandleRequestServiceCommand (c : nat) (req : request_t) : handler :=
  if decide (req_method req = DAEMON_START_STREAM) then HandleRequestClientStartStream c req
  else if decide (req_method req = DAEMON_STOP_STREAM) then HandleRequestClientStopStream c req
  else if decide (req_method req = DAEMON_RESTART_STREAM) then HandleRequestClientRestartStream c req
  else if decide (req_method req = DAEMON_GET_LOG_STREAM) then HandleRequestClientGetLogStream c req
  else if decide (req_method req = DAEMON_GET_PIPELINE_STREAM) then HandleRequestClientGetPipelineStream c req
  else if decide (req_method req = DAEMON_PREPARE_SERVICE) then HandleRequestClientPrepareService c req
  else if decide (req_method req = DAEMON_SYNC_SERVICE) then HandleRequestClientSyncService c req
  else if decide (req_method req = DAEMON_STOP_SERVICE) then HandleRequestClientStopService c req
  else if decide (req_method req = DAEMON_ACTIVATE) then HandleRequestClientActivate c req
  else if decide (req_method req = DAEMON_PING_SERVICE) then HandleRequestClientPingService c req
  else if decide (req_method req = DAEMON_GET_LOG_SERVICE) then HandleRequestClientGetLogService c req
  else mret tt.

(** ** Responses *)

(** [resp->IsMessage()]. *)
Definition message_result (m : rpc_message) : option string :=
  match m with SuccessMessage => Some "" | SuccessResult t => Some t | ServerError _ => None end.

(* [src/src/server/process_slave_wrapper.cpp:824-845 ProcessSlaveWrapper::HandleResponcePingService] *)
Definition HandleResponcePingService (resp : response_t) : handler :=
  match message_result (resp_message resp) with
  | None => mret tt
  | Some result => hlift (parse_params ClientPingInfo_DeSerialize (Some result))
  end.

(** [popped] is the request that the response answers, if the client had one
    with its number. *)
(* [src/src/server/process_slave_wrapper.cpp:1464-1481 ProcessSlaveWrapper::HandleResponceServiceCommand] *)
Definition HandleResponceServiceCommand (c : nat) (popped : option request_t) (resp : response_t) : handler :=
  verified c ;;
  match popped with
  | None => mret tt
  | Some req =>
      if decide (req_method req = DAEMON_SERVER_PING) then htry (HandleResponcePingService resp) ;; mret tt
      else mret tt
  end.

(** ** Messages of the stream processes *)

Definition serialize {A} (f : A -> json -> outcome json) (x : A) : outcome string :=
  match f x json_new_object with
  | Ok j => Ok (json_to_string j)
  | Err e => Err (make_errno_error (description e) EAGAIN)
  | Abort r => Abort r
  end.

(* [src/src/server/process_slave_wrapper.cpp:952-983 ProcessSlaveWrapper::HandleRequestChangedSourcesStream] *)
Definition HandleRequestChangedSourcesStream (req : request_t) : handler :=
  info ← hlift (parse_params ChangedSouresInfo_DoDeSerialize (req_params req));
  changed_json ← hlift (serialize (fun i out => Ok (ChangedSouresInfo_SerializeFields i out)) info);
  BroadcastClients (daemon_ChangedSourcesStreamBroadcast changed_json).

(** [now] is the time that a statistic takes while it is read. *)
(* [src/src/server/process_slave_wrapper.cpp:985-1016 ProcessSlaveWrapper::HandleRequestStatisticStream] *)
Definition HandleRequestStatisticStream (now : Z) (req : request_t) : handler :=
  stat ← hlift (parse_params (statistic_DoDeSerialize now) (req_params req));
  stream_stats ← hlift (serialize statistic_SerializeFields stat);
  BroadcastClients (StatisitcStreamBroadcast stream_stats).

(* [src/src/server/process_slave_wrapper.cpp:1483-1493 ProcessSlaveWrapper::HandleRequestStreamsCommand] *)
Definition HandleRequestStreamsCommand (now : Z) (req : request_t) : handler :=
  if decide (req_method req = "changed_source_stream") then HandleRequestChangedSourcesStream req
  else if decide (req_method req = "statistic_stream") then HandleRequestStatisticStream now req
  else mret tt.

(** The answers of a stream process are only logged. *)
(* [src/src/server/process_slave_wrapper.cpp:1495-1506 ProcessSlaveWrapper::HandleResponceStreamsCommand] *)
Definition HandleResponceStreamsCommand (resp : response_t) : handler := mret tt.

(** ** Reading *)

(** [read] is what [ReadCommand] gives; an error of a handler is only logged. *)
(* [src/src/server/process_slave_wrapper.cpp:629-666 ProcessSlaveWrapper::DaemonDataReceived] *)
Definition DaemonDataReceived (c : nat) (read : string + error) (parse : string -> rpc_parsed)
    (pop : json_rpc_id -> option request_t) : handler :=
  match read with
  | inr err => hthrow err
  | inl input_command =>
      match parse input_command with
      | ParseError e => hthrow (make_errno_error (description e) EAGAIN)
      | ParsedRequest req => htry (HandleRequestServiceCommand c req) ;; mret tt
      | ParsedResponse resp => htry (HandleResponceServiceCommand c (pop (resp_id resp)) resp) ;; mret tt
      | ParsedNothing => hthrow (make_errno_error "Invalid command type." EINVAL)
      end
  end.

(* [src/src/server/process_slave_wrapper.cpp:668-704 ProcessSlaveWrapper::PipeDataReceived] *)
Definition PipeDataReceived (now : Z) (read : string + error) (parse : string -> rpc_parsed) : handler :=
  match read with
  | inr err => hthrow err
  | inl input_command =>
      match parse input_command with
      | ParseError e => hthrow (make_errno_error (description e) EAGAIN)
      | ParsedRequest req => htry (HandleRequestStreamsCommand now req) ;; mret tt
      | ParsedResponse resp => htry (HandleResponceStreamsCommand resp) ;; mret tt
      | ParsedNothing => hlift (Abort (NotReached "PipeDataReceived"))
      end
  end.

(** The child whose pipe is closed loses it. *)
(* [src/src/server/process_slave_wrapper.cpp:719-726 ProcessSlaveWrapper::DataReceived] *)
Fixpoint forget_pipe (p : nat) (l : list child) : list child :=
  match l with
  | [] => []
  | ch :: l' =>
      if decide (c_client ch = Some p) then
        {| c_stream := c_stream ch; c_pid := c_pid ch; c_client := None |} :: l'
      else ch :: forget_pipe p l'
  end.

Definition DropPipe (p : nat) : handler :=
  hmodify (fun s => set_children (forget_pipe p (sl_children s)) s) ;;
  hemit (ClosePipe p) ;;
  hmodify (fun s => set_processes (filter (fun q => q <> p) (sl_pipes s)) (sl_children s) (sl_next_pipe s) s).

(** A message that cannot be read or parsed closes its connection. *)
(* [src/src/server/process_slave_wrapper.cpp:706-714 ProcessSlaveWrapper::DataReceived] *)
Definition DataReceived_client (c : nat) (read : string + error) (parse : string -> rpc_parsed)
    (pop : json_rpc_id -> option request_t) : handler :=
  err ← htry (DaemonDataReceived c read parse pop);
  match err with Some _ => DropClient c | None => mret tt end.

(* [src/src/server/process_slave_wrapper.cpp:715-733 ProcessSlaveWrapper::DataReceived] *)
Definition DataReceived_pipe (now : Z) (p : nat) (read : string + error) (parse : string -> rpc_parsed) : handler :=
  err ← htry (PipeDataReceived now read parse);
  match err with Some _ => DropPipe p | None => mret tt end.

(** ** Timers *)

(* [src/src/server/process_slave_wrapper.cpp:495-499 ProcessSlaveWrapper::PreLooped] *)
Definition PreLooped : handler :=
  n ← hgets sl_next_timer;
  hemit (CreateTimer n 60 true) ;;
  hemit (CreateTimer (n + 1) 10 true) ;;
  hemit (CreateTimer (n + 2) ttl_files true) ;;
  hmodify (fun s => set_timers (n + 3) (Some n) (Some (n + 1)) (Some (n + 2)) (sl_quit_timer s) s).

(** One client of the ping timer; [online_clients] is a copy. *)
(* [src/src/server/process_slave_wrapper.cpp:516-538 ProcessSlaveWrapper::TimerEmited] *)
Definition ping_client (x : nat * bool) : handler :=
  if x.2 then
    match ServerPingInfo_SerializeToString with
    | Err _ => mret tt
    | Abort r => hlift (Abort r)
    | Ok ping_server_json =>
        id ← NextRequestID;
        hemit (Request x.1 (PingDaemonRequest id ping_server_json)) ;;
        match os_write os x.1 with Some _ => DropClient x.1 | None => mret tt end
    end
  else mret tt.

(* [src/src/server/process_slave_wrapper.cpp:514-553 ProcessSlaveWrapper::TimerEmited] *)
Definition slave_TimerEmited (id : nat) : handler :=
  s ← hgets (fun s => s);
  if decide (sl_ping_timer s = Some id) then hact_iter ping_client (sl_clients s)
  else if decide (sl_stats_timer s = Some id) then
    node_stats ← MakeServiceStats false;
    BroadcastClients (StatisitcServiceBroadcast node_stats)
  else if decide (sl_cleanup_timer s = Some id) then
    hact_iter (fun kv : string * ArgsMap => hemit (CleanFolder kv.1 ".ts")) (std_entries (sl_vods_links s))
  else if decide (sl_quit_timer s = Some id) then
    hact_iter (fun name => hemit (StopServer name))
      ["subscribers_server"; "vods_server"; "http_server"; "client_server"]
  else mret tt.

(* [src/src/server/process_slave_wrapper.cpp:739-754 ProcessSlaveWrapper::PostLooped] *)
Definition PostLooped : handler :=
  s ← hgets (fun s => s);
  hact_iter (fun t : option nat => match t with Some n => hemit (RemoveTimer n) | None => mret tt end)
    [sl_cleanup_timer s; sl_ping_timer s; sl_stats_timer s] ;;
  hmodify (fun s => set_timers (sl_next_timer s) None None None (sl_quit_timer s) s).

(** ** Ends of children *)

(** The status of [waitpid]: [WIFEXITED] with [WEXITSTATUS], or [WIFSIGNALED]
    with [WTERMSIG], or neither. *)
Inductive wait_status := Exited (status : Z) | Signaled (signal : Z) | OtherStatus.

(* [src/src/server/process_slave_wrapper.cpp:565-601 ProcessSlaveWrapper::ChildStatusChanged] *)
Definition quit_status_info (sid : string) (status : wait_status) : QuitStatusInfo :=
  let stabled_status := match status with Exited n => n | _ => 1%Z end in
  let signal_number := match status with Signaled n => n | _ => 0%Z end in
  {| qs_stream := sid; qs_exit_status := if (stabled_status =? 0)%Z then 1 else 0;
     qs_signal := signal_number |}.

(* [src/src/server/process_slave_wrapper.cpp:565-601 ProcessSlaveWrapper::ChildStatusChanged] *)
Definition ChildStatusChanged (ch : child) (status : wait_status) : handler :=
  hmodify (fun s => set_children (filter (fun x => c_pid x <> c_pid ch) (sl_children s)) s) ;;
  FreeSharedStreamStruct (c_stream ch) ;;
  quit_json ← hlift (serialize (fun i out => Ok (QuitStatusInfo_SerializeFields i out))
                       (quit_status_info (c_stream ch) status));
  BroadcastClients (QuitStatusStreamBroadcast quit_json).

(** ** Requests for films *)

(** [chunks] and [exists_ ] are as in [CheckIsFullVod]. *)
(* [src/src/server/process_slave_wrapper.cpp:756-775 ProcessSlaveWrapper::OnHttpRequest] *)
Definition OnHttpRequest (from_vods_server : bool) (directory ext : string)
    (chunks : option (list string)) (exists_ : string -> bool) : handler :=
  if from_vods_server && EqualsASCII_nocase ext "m3u8" then
    links ← hgets sl_vods_links;
    match links !! dir_path directory with
    | None => mret tt
    | Some config =>
        if CheckIsFullVod chunks (dir_path directory) exists_ then mret tt
        else htry (CreateChildStream config) ;; mret tt
    end
  else mret tt.

(** ** The program that stops a daemon *)

(** [connect] is the result of connecting to the daemon, [write] of writing to
    it. The status is that of the process. *)
(* [src/src/server/process_slave_wrapper.cpp:334-362 ProcessSlaveWrapper::SendStopDaemonRequest] *)
Definition SendStopDaemonRequest (license : string) (connect write : bool) : Z * list request_t :=
  if is_empty license then (1%Z, [])
  else
    let stop_str := json_to_string
      (service_StopInfo_SerializeFields {| si_license := license; si_delay := 0 |} json_new_object) in
    let req := StopServiceRequest (MakeRequestID 0) stop_str in
    if negb connect then (1%Z, [])
    else (if write then 0%Z else 1%Z, [req]).
End Slave.

(** ** A sample daemon

    Instances of the libraries and texts on which the theorems about the daemon
    are tried: one stream, one film, one subscriber, and an empty disk. *)

Module Sample.
Definition str (k v : string) : string * option Ref.value := (k, Some (Ref.JString v)).
Definition texts (s : string) : option Ref.value :=
  if decide (s = "in") then
    Some (Ref.JObject [("urls", Some (Ref.JArray [Some (Ref.JObject [str "uri" "http://h/a"])]))])
  else if decide (s = "relay") then
    Some (Ref.JObject [str "id" "1"; str "type" "1"; str "feedback_directory" "/f"; str "input" "in";
                       str "output" "in"])
  else if decide (s = "film") then
    Some (Ref.JObject [str "id" "2"; str "type" "7"; str "feedback_directory" "/f"; str "input" "in";
                       str "output" "in"])
  else if decide (s = "activate") then Some (Ref.JObject [str "license_key" "key"])
  else if decide (s = "activate null") then Some (Ref.JObject [("license_key", None)])
  else if decide (s = "start") then Some (Ref.JObject [str "config" "relay"])
  else if decide (s = "ann") then
    Some (Ref.JObject [str "id" "42"; str "login" "ann"; str "password" "secret";
                       ("status", Some (Ref.JInt 1))])
  else if decide (s = "sync") then
    Some (Ref.JObject [("streams", Some (Ref.JArray [Some (Ref.JString "film")]));
                       ("subscribers", Some (Ref.JArray [Some (Ref.JString "ann")]))])
  else None.

Definition json_c : @JsonC Ref.common := Ref.json_c texts.
Definition fastotv : @FastotvLib Ref.common json_c := @ref_fastotv Ref.common json_c.

Definition answers (pid : Z) : os_answers :=
  {| os_write _ := None; os_pipe_write _ := None; os_mmap := MmapOk; os_pipe1 := inl (10%Z, 11%Z);
     os_pipe2 := inl (12%Z, 13%Z); os_fork := pid; os_service_stats _ _ := "{}" |}.

(** Messages by name: a request whose parameters are the name. *)
Definition parse (s : string) : @rpc_parsed ref_rpc :=
  let req m p := @ParsedRequest ref_rpc (@Build_request_t ref_rpc (7%Z : @json_rpc_id ref_rpc) m (Some p)) in
  if decide (s = "activate") then req "activate_request" "activate"
  else if decide (s = "activate null") then req "activate_request" "activate null"
  else if decide (s = "start") then req "start_stream" "start"
  else if decide (s = "sync") then req "sync_service" "sync"
  else if decide (s = "stop") then req "stop_service" "activate"
  else @ParseError ref_rpc error_inval.
End Sample.
