(* ===== verification/Daemon.v ===== *)
(** * Theorems about the daemon

    The inputs of the daemon, one per callback of its event loop; what holds in
    every state that it reaches, whatever its inputs are and whatever the system
    answers; and the effect of each request. *)

From S2P Require Import Prelude Platform StreamTypes Stats StatsInfo Constants Uris Options Configs Timeshift Protocol Commands Users Slave.

Section Daemon.
Context `{FastotvLib} `{UrlLib} `{PathLib} `{UnnamedCodes} `{RpcLib} `{FsLib}.
Context (license_key log_path : string).

(** ** Inputs *)

Inductive input :=
| InPreLooped (ttl_files : Z)               (* the loop begins, and its timers run *)
| InPostLooped
| InConnect (c : nat)
| InClient (os : os_answers) (c : nat) (read : string + error) (parse : string -> rpc_parsed)
    (pop : json_rpc_id -> option request_t)
| InPipe (now : Z) (p : nat) (read : string + error) (parse : string -> rpc_parsed)
| InTimer (os : os_answers) (id : nat)
| InChildEnd (ch : child) (status : wait_status)
| InHttp (os : os_answers) (from_vods_server : bool) (directory ext : string)
    (chunks : option (list string)) (exists_ : string -> bool)
| InFileSystem (f : fs).                    (* somebody else changes it *)

Definition react (i : input) : handler :=
  match i with
  | InPreLooped ttl_files => PreLooped ttl_files
  | InPostLooped => PostLooped
  | InConnect c => hmodify (ClientConnected c)
  | InClient os c read parse pop => DataReceived_client license_key log_path os c read parse pop
  | InPipe now p read parse => DataReceived_pipe now p read parse
  | InTimer os id => slave_TimerEmited os id
  | InChildEnd ch status => ChildStatusChanged ch status
  | InHttp os v d ext chunks ex => OnHttpRequest os v d ext chunks ex
  | InFileSystem f => hmodify (set_fs f)
  end.

Definition daemon_step (i : input) (s s' : slave) : Prop := s' = act_state (react i s).

(** Runs, with their inputs. *)
Inductive run : slave -> list input -> slave -> Prop :=
| run_nil s : run s [] s
| run_snoc s l i s1 s2 : run s l s1 -> daemon_step i s1 s2 -> run s (l ++ [i]) s2.

Definition daemon_init (f : fs) : slave :=
  {| sl_clients := []; sl_pipes := []; sl_children := []; sl_next_pipe := 0; sl_id := 0;
     sl_next_timer := 0; sl_ping_timer := None; sl_stats_timer := None; sl_cleanup_timer := None;
     sl_quit_timer := None; sl_vods_links := ∅; sl_users := ∅; sl_http_root := dir_default;
     sl_vods_root := dir_default; sl_fs := f |}.

(** ** Parts of the state that a handler leaves alone *)

Section Same.
Context {X : Type} (f : slave -> X).

Definition same (s s' : slave) (_ : list slave_event) : Prop := f s' = f s.

#[export] Instance same_keepable : Keepable same.
Proof. constructor; unfold same; intros; congruence. Qed.

Lemma same_emit e : keeps same (hemit e).
Proof. intros s. reflexivity. Qed.
Lemma same_modify g : (forall s, f (g s) = f s) -> keeps same (hmodify g).
Proof. intros Hg s. apply Hg. Qed.
Lemma same_dir d : (forall g s, f (set_fs g s) = f s) -> keeps same (h_CreateAndCheckDir d).
Proof.
  intros Hg s. unfold h_CreateAndCheckDir. destruct (CreateAndCheckDir (sl_fs s) d) as [[e|] g]; apply Hg.
Qed.
End Same.

End Daemon.

(** Splits a handler that leaves a part of the state alone. *)
Ltac same_step :=
  match goal with
  | |- keeps _ (match ?x with _ => _ end) => destruct x
  | |- keeps _ (_ ≫= _) => apply keeps_bind
  | |- keeps _ (mret _) => apply keeps_ret
  | |- keeps _ (hgets _) => apply keeps_gets
  | |- keeps _ (hlift _) => apply keeps_lift
  | |- keeps _ (hthrow _) => apply keeps_throw
  | |- keeps _ (htry _) => apply keeps_try
  | |- keeps _ (hact_iter _ _) => apply keeps_iter
  | |- keeps _ (hemit _) => apply same_emit
  | |- keeps _ (hmodify _) => apply same_modify; intros ?; reflexivity
  | |- keeps _ (h_CreateAndCheckDir _) => apply same_dir; intros ? ?; reflexivity
  end.
Ltac same_solve := repeat (intros; cbn beta iota zeta; first [assumption | same_step | typeclasses eauto]).

Section Daemon2.
Context `{FastotvLib} `{UrlLib} `{PathLib} `{UnnamedCodes} `{RpcLib} `{FsLib}.
Context (license_key log_path : string).

(** *** Handlers that change neither connections nor processes *)

Definition core (s : slave) : list (nat * bool) * list nat * list child * nat :=
  (sl_clients s, sl_pipes s, sl_children s, sl_next_pipe s).
Abbreviation keeps_core := (keeps (same core)).

(** A relation that holds between states with the same connections and
    processes is kept by such a handler. *)
Lemma keeps_weaken {A} (R : slave -> slave -> list slave_event -> Prop) (m : hact slave slave_event A) :
  (forall s s' es, core s' = core s -> R s s' es) -> keeps_core m -> keeps R m.
Proof. intros HR Hm s. by apply HR, Hm. Qed.

Lemma core_clients s s' : core s' = core s -> sl_clients s' = sl_clients s.
Proof. unfold core. by intros [= -> _ _ _]. Qed.

Lemma core_MakeStreamInfo args b : keeps_core (MakeStreamInfo args b).
Proof. unfold MakeStreamInfo, or_throw, check_output. same_solve. Qed.

Lemma core_verified c : keeps_core (verified c).
Proof. unfold verified. same_solve. Qed.

Lemma core_BroadcastClients req : keeps_core (BroadcastClients req).
Proof. unfold BroadcastClients. same_solve. Qed.

Lemma core_NextRequestID : keeps_core NextRequestID.
Proof. unfold NextRequestID. same_solve. Qed.

Lemma core_pipe_send os ch r : keeps_core (pipe_send os ch r).
Proof. unfold pipe_send. same_solve. Qed.

Lemma core_add_stream_line config : keeps_core (add_stream_line config).
Proof.
  unfold add_stream_line, AddStreamLine. same_solve. all: apply core_MakeStreamInfo.
Qed.

Lemma core_add_user_line user : keeps_core (add_user_line user).
Proof. unfold add_user_line. same_solve. Qed.

Local Ltac core_solve :=
  repeat (intros; cbn beta iota zeta;
    first [ assumption | apply core_verified | apply core_BroadcastClients | apply core_NextRequestID
          | apply core_pipe_send | apply core_add_stream_line | apply core_add_user_line | same_step
          | typeclasses eauto ]).

Lemma core_other_requests os c req :
  req_method req <> DAEMON_START_STREAM -> req_method req <> DAEMON_ACTIVATE ->
  keeps_core (HandleRequestServiceCommand license_key log_path os c req).
Proof.
  intros Hs Ha. unfold HandleRequestServiceCommand.
  rewrite (decide_False (P := req_method req = DAEMON_START_STREAM)) by done.
  rewrite (decide_False (P := req_method req = DAEMON_ACTIVATE)) by done.
  repeat case_decide;
    unfold HandleRequestClientStopStream, HandleRequestClientRestartStream, SendStop, SendRestart,
      HandleRequestClientGetLogStream, HandleRequestClientGetPipelineStream, post_stream_file,
      HandleRequestClientPrepareService, HandleRequestClientSyncService, HandleRequestClientStopService,
      HandleRequestClientPingService, HandleRequestClientGetLogService, PostHttpFile, WriteResponse;
    core_solve.
Qed.

Lemma core_HandleResponceServiceCommand c popped resp :
  keeps_core (HandleResponceServiceCommand c popped resp).
Proof. unfold HandleResponceServiceCommand, HandleResponcePingService. core_solve. Qed.

Lemma core_HandleRequestStreamsCommand now req : keeps_core (HandleRequestStreamsCommand now req).
Proof.
  unfold HandleRequestStreamsCommand, HandleRequestChangedSourcesStream, HandleRequestStatisticStream.
  core_solve.
Qed.

Lemma core_PipeDataReceived now read parse : keeps_core (PipeDataReceived now read parse).
Proof.
  unfold PipeDataReceived, HandleResponceStreamsCommand. core_solve. apply core_HandleRequestStreamsCommand.
Qed.

(** *** Starting a stream *)

(** Making a stream adds one child, whose identifier no other has, or none; it
    does not touch the connections. *)
Lemma CreateChildStream_cases os args s :
  let s' := act_state (CreateChildStream os args s) in
  core s' = core s \/
  exists id pid, FindChildByID id s = None /\ (0 < pid)%Z /\
    act_result (CreateChildStream os args s) = Ok tt /\
    core s' = (sl_clients s, sl_pipes s ++ [sl_next_pipe s],
               sl_children s ++ [{| c_stream := id; c_pid := pid; c_client := Some (sl_next_pipe s) |}],
               S (sl_next_pipe s)).
Proof.
  cbn zeta. unfold CreateChildStream at 1 2 3. pose proof (core_MakeStreamInfo args true s) as Hc.
  unfold mbind, hact_bind, same in *.
  destruct (MakeStreamInfo args true s) as [[[[[sha dir] lvl]|e|r] s1] es1]; [|by left..].
  unfold act_state in *. cbn in Hc. cbn [hgets].
  destruct (FindChildByID (si_id sha) s1) as [ch|] eqn:Hf; [by left|].
  assert (Hcs : sl_clients s1 = sl_clients s /\ sl_pipes s1 = sl_pipes s /\
    sl_children s1 = sl_children s /\ sl_next_pipe s1 = sl_next_pipe s).
  { unfold core in Hc. by simplify_eq. }
  unfold FindChildByID in *. destruct Hcs as (Hcl & Hp & Hch & Hn). rewrite Hch in Hf.
  unfold AllocSharedStreamStruct. destruct (os_mmap os); [by left..|].
  destruct (os_pipe1 os) as [[r1 w1]|e1]; [|by left].
  destruct (os_pipe2 os) as [[r2 w2]|e2]; [|by left].
  cbn. destruct (os_fork os =? 0)%Z eqn:Hzero; [by left|].
  destruct (os_fork os <? 0)%Z eqn:Hneg; [by left|]. right.
  exists (si_id sha), (os_fork os). apply Z.eqb_neq in Hzero. apply Z.ltb_ge in Hneg.
  split_and!; [done | lia | done |].
  unfold register_child, mbind, hact_bind, hemit, hmodify, mret, hact_ret, core. cbn. congruence.
Qed.

(** ** Processes

    No two children have the same stream identifier, every pipe of a child is
    registered, and no two children share one. *)

Record processes_ok (s : slave) : Prop := {
  ok_streams : NoDup (c_stream <$> sl_children s);
  ok_pipes : NoDup (sl_pipes s);
  ok_fresh : Forall (fun p => p < sl_next_pipe s) (sl_pipes s);
  ok_clients : Forall (fun ch => forall p, c_client ch = Some p -> p ∈ sl_pipes s) (sl_children s);
  ok_owners : NoDup (omap c_client (sl_children s))
}.

Lemma processes_ok_core s s' : core s' = core s -> processes_ok s -> processes_ok s'.
Proof.
  unfold core. intros [= _ Hp Hc Hn] [Hst Hpi Hfr Hcl Hown]. constructor; rewrite ?Hp, ?Hc, ?Hn; done.
Qed.

Lemma FindChildByID_None id s :
  FindChildByID id s = None -> id ∉ (c_stream <$> sl_children s).
Proof.
  unfold FindChildByID. intros Hf (ch & -> & Hin)%list_elem_of_fmap.
  apply list_elem_of_In, (List.find_none _ _ Hf ch) in Hin. by rewrite String.eqb_refl in Hin.
Qed.

Lemma register_ok s id pid cl :
  processes_ok s -> FindChildByID id s = None ->
  forall s', core s' = (cl, sl_pipes s ++ [sl_next_pipe s],
     sl_children s ++ [{| c_stream := id; c_pid := pid; c_client := Some (sl_next_pipe s) |}],
     S (sl_next_pipe s)) -> processes_ok s'.
Proof.
  intros [Hst Hpi Hfr Hcl Hown] Hf s' [= _ Hp Hc Hn]. rewrite Forall_forall in Hfr.
  assert (Hnew : sl_next_pipe s ∉ sl_pipes s). { intros Hin. specialize (Hfr _ Hin). lia. }
  constructor; rewrite ?Hp, ?Hc, ?Hn.
  - rewrite fmap_app. apply NoDup_app. split_and!; [done | | apply NoDup_singleton].
    intros x Hx ->%list_elem_of_singleton. by apply FindChildByID_None in Hf.
  - apply NoDup_app. split_and!; [done | | apply NoDup_singleton].
    by intros x Hx ->%list_elem_of_singleton.
  - apply Forall_app. split; [|by repeat constructor; lia].
    apply Forall_forall. intros p Hp'. specialize (Hfr p Hp'). lia.
  - apply Forall_app. split.
    + eapply Forall_impl; [done|]. cbn. intros ch Hch p Hcp. specialize (Hch p Hcp). set_solver.
    + repeat constructor. cbn. intros p [= <-]. set_solver.
  - rewrite omap_app. apply NoDup_app. split_and!; [done | | apply NoDup_singleton].
    cbn. intros p (ch & Hin & Hch)%list_elem_of_omap ->%list_elem_of_singleton.
    rewrite Forall_forall in Hcl. by apply Hnew, (Hcl ch).
Qed.

Lemma filter_children_ok s (P : child -> Prop) `{!forall x, Decision (P x)} :
  processes_ok s -> processes_ok (set_children (filter P (sl_children s)) s).
Proof.
  intros [Hst Hpi Hfr Hcl Hown]. constructor; cbn; try done.
  - eapply sublist_NoDup; [exact Hst|]. apply sublist_fmap, sublist_filter.
  - rewrite Forall_forall in *. intros ch [_ Hin]%list_elem_of_filter. by apply Hcl.
  - eapply sublist_NoDup; [exact Hown|]. apply sublist_omap, sublist_filter.
Qed.

Lemma CreateChildStream_ok os args s :
  processes_ok s -> processes_ok (act_state (CreateChildStream os args s)).
Proof.
  intros Hs. destruct (CreateChildStream_cases os args s) as [Hc|(id & pid & Hf & _ & _ & Hc)].
  - by eapply processes_ok_core.
  - by eapply register_ok.
Qed.

Lemma forget_pipe_streams p l : c_stream <$> forget_pipe p l = c_stream <$> l.
Proof. induction l as [|ch l IH]; [done|]. cbn. case_decide; cbn; congruence. Qed.

(** Once the pipe of a child is forgotten no child has it. *)
Lemma forget_pipe_owners p l :
  NoDup (omap c_client l) -> sublist (omap c_client (forget_pipe p l)) (omap c_client l) /\
  p ∉ omap c_client (forget_pipe p l).
Proof.
  induction l as [|ch l IH]; cbn; [split; [done | by intros ?%elem_of_nil]|].
  case_decide as Hc; cbn.
  - rewrite Hc. intros [Hp Hl]%NoDup_cons. split; [by constructor | done].
  - destruct (c_client ch) as [q|] eqn:Hq; intros Hnd.
    + apply NoDup_cons in Hnd as [Hq' Hl]. destruct (IH Hl) as [IH1 IH2]. split; [by constructor|].
      apply not_elem_of_cons. split; [congruence | done].
    + by apply IH.
Qed.

Lemma forget_pipe_elem p l ch :
  ch ∈ forget_pipe p l -> ch ∈ l \/ c_client ch = None.
Proof.
  induction l as [|x l IH]; cbn; [by left|]. case_decide.
  - intros [->|Hin]%elem_of_cons; [by right|]. left. by apply elem_of_cons; right.
  - intros [->|Hin]%elem_of_cons; [left; by apply elem_of_cons; left|].
    destruct (IH Hin); [left; by apply elem_of_cons; right | by right].
Qed.

Lemma DropPipe_ok p s : processes_ok s -> processes_ok (act_state (DropPipe p s)).
Proof.
  intros [Hst Hpi Hfr Hcl Hown]. destruct (forget_pipe_owners p _ Hown) as [Hsub Hno].
  constructor.
  - change (NoDup (c_stream <$> forget_pipe p (sl_children s))). by rewrite forget_pipe_streams.
  - by apply NoDup_filter.
  - rewrite Forall_forall in *. intros q [_ Hq]%list_elem_of_filter. by apply Hfr.
  - rewrite Forall_forall in *. intros ch Hin q Hq. apply list_elem_of_filter. split.
    + intros ->. apply Hno. apply list_elem_of_omap. by exists ch.
    + destruct (forget_pipe_elem _ _ _ Hin) as [Hin'|Hn]; [by eapply Hcl | congruence].
  - by eapply sublist_NoDup.
Qed.

Definition keeps_ok : slave -> slave -> list slave_event -> Prop :=
  fun s s' _ => processes_ok s -> processes_ok s'.
#[local] Instance keeps_ok_keepable : Keepable keeps_ok.
Proof. constructor; unfold keeps_ok; auto. Qed.

Lemma ok_of_core {A} (m : hact slave slave_event A) : keeps_core m -> keeps keeps_ok m.
Proof. apply keeps_weaken. intros s s' _ Hc Hs. by eapply processes_ok_core. Qed.

Lemma ok_modify g : (forall s, processes_ok s -> processes_ok (g s)) -> keeps keeps_ok (hmodify g).
Proof. intros Hg s Hs. by apply Hg. Qed.

Lemma ok_CreateChildStream os args : keeps keeps_ok (CreateChildStream os args).
Proof. intros s Hs. by apply CreateChildStream_ok. Qed.

(** A change of the other parts of the state. *)
Lemma ok_same (g : slave -> slave) s :
  sl_pipes (g s) = sl_pipes s -> sl_children (g s) = sl_children s -> sl_next_pipe (g s) = sl_next_pipe s ->
  processes_ok s -> processes_ok (g s).
Proof. intros Hp Hc Hn [H1' H2' H3' H4' H5']. constructor; rewrite ?Hp, ?Hc, ?Hn; done. Qed.

Lemma ok_set_clients f : keeps keeps_ok (hmodify (fun s => set_clients (f s) s)).
Proof. apply ok_modify. intros s. by apply (ok_same (fun s => set_clients (f s) s)). Qed.

Local Ltac ok_solve :=
  repeat (intros; cbn beta iota zeta;
    first [ assumption | apply ok_CreateChildStream | apply ok_set_clients
          | apply ok_of_core, core_verified | apply ok_of_core, core_BroadcastClients
          | apply ok_of_core, core_NextRequestID | apply ok_of_core, core_HandleResponceServiceCommand
          | apply ok_of_core, same_emit
          | same_step | typeclasses eauto ]).

(** Which handler gets a request. *)
Lemma dispatch_start os c req :
  req_method req = DAEMON_START_STREAM ->
  HandleRequestServiceCommand license_key log_path os c req = HandleRequestClientStartStream os c req.
Proof. intros Hm. unfold HandleRequestServiceCommand. rewrite Hm. reflexivity. Qed.
Lemma dispatch_sync os c req :
  req_method req = DAEMON_SYNC_SERVICE ->
  HandleRequestServiceCommand license_key log_path os c req = HandleRequestClientSyncService c req.
Proof. intros Hm. unfold HandleRequestServiceCommand. rewrite Hm. reflexivity. Qed.
Lemma dispatch_stop os c req :
  req_method req = DAEMON_STOP_SERVICE ->
  HandleRequestServiceCommand license_key log_path os c req = HandleRequestClientStopService license_key os c req.
Proof. intros Hm. unfold HandleRequestServiceCommand. rewrite Hm. reflexivity. Qed.
Lemma dispatch_activate os c req :
  req_method req = DAEMON_ACTIVATE ->
  HandleRequestServiceCommand license_key log_path os c req = HandleRequestClientActivate license_key os c req.
Proof. intros Hm. unfold HandleRequestServiceCommand. rewrite Hm. reflexivity. Qed.

Lemma ok_requests os c req :
  keeps keeps_ok (HandleRequestServiceCommand license_key log_path os c req).
Proof.
  destruct (decide (req_method req = DAEMON_START_STREAM)) as [Hs|Hs].
  { rewrite dispatch_start by done. unfold HandleRequestClientStartStream, CreateChildStream_text, WriteResponse. ok_solve. }
  destruct (decide (req_method req = DAEMON_ACTIVATE)) as [Ha|Ha].
  { rewrite dispatch_activate by done. unfold HandleRequestClientActivate, MakeServiceStats, WriteResponse, SetVerified. ok_solve. }
  by apply ok_of_core, core_other_requests.
Qed.

Lemma ok_react i : keeps keeps_ok (react license_key log_path i).
Proof.
  destruct i; cbn.
  - unfold PreLooped. ok_solve.
  - unfold PostLooped. ok_solve.
  - apply ok_set_clients.
  - unfold DataReceived_client, DaemonDataReceived, DropClient. ok_solve. apply ok_requests.
  - unfold DataReceived_pipe. ok_solve; [apply ok_of_core, core_PipeDataReceived|].
    intros s Hs. by apply DropPipe_ok.
  - unfold slave_TimerEmited, ping_client, DropClient, MakeServiceStats. ok_solve.
  - unfold ChildStatusChanged, FreeSharedStreamStruct. ok_solve.
    apply ok_modify. intros s. apply filter_children_ok.
  - unfold OnHttpRequest. ok_solve.
  - apply ok_modify. intros s. by apply (ok_same (set_fs f)).
Qed.

(** C1: whatever the daemon is sent and whatever the system answers, no two
    of its stream processes have the same stream, each one's pipe is registered,
    and no two share a pipe. *)
Theorem daemon_processes_ok f l s :
  run license_key log_path (daemon_init f) l s -> processes_ok s.
Proof.
  assert (Hi : processes_ok (daemon_init f)) by (constructor; cbn; constructor).
  intros Hr. remember (daemon_init f) as s0 eqn:Hs0. induction Hr as [s|s l i s1 s2 Hr IH Hstep]; [by subst|].
  rewrite Hstep. by apply ok_react, IH.
Qed.

(** ** Verified clients *)

Lemma IsVerified_elem c s : IsVerified c s = true <-> (c, true) ∈ sl_clients s.
Proof.
  unfold IsVerified. rewrite existsb_exists. split.
  - intros ([c' b] & Hin & [Hc Hb]%andb_true_iff). cbn in *. apply Nat.eqb_eq in Hc. subst.
    by apply list_elem_of_In.
  - intros Hin. exists (c, true). split; [by apply list_elem_of_In|]. cbn. by rewrite Nat.eqb_refl.
Qed.

Lemma SetVerified_elem c c' s :
  (c', true) ∈ sl_clients (SetVerified c s) -> (c', true) ∈ sl_clients s \/ c' = c.
Proof.
  cbn. intros ([c0 b] & Heq & Hin)%list_elem_of_fmap. cbn in Heq.
  destruct (Nat.eqb_spec c0 c); simplify_eq; [by right | by left].
Qed.

(** Every client verified afterwards was so before, or satisfies [P]. *)
Definition keeps_verified (P : nat -> Prop) : slave -> slave -> list slave_event -> Prop :=
  fun s s' _ => forall c, (c, true) ∈ sl_clients s' -> (c, true) ∈ sl_clients s \/ P c.
#[local] Instance keeps_verified_keepable P : Keepable (keeps_verified P).
Proof.
  constructor; unfold keeps_verified; [by left|]. intros s1 s2 s3 _ _ H12 H23 c Hc.
  destruct (H23 c Hc) as [H2'|]; [|by right]. by apply H12.
Qed.

Lemma verified_of_core P {A} (m : hact slave slave_event A) : keeps_core m -> keeps (keeps_verified P) m.
Proof.
  apply keeps_weaken. intros s s' _ Hc%core_clients c. rewrite Hc. by left.
Qed.

Lemma verified_modify P g :
  (forall s c, (c, true) ∈ sl_clients (g s) -> (c, true) ∈ sl_clients s \/ P c) ->
  keeps (keeps_verified P) (hmodify g).
Proof. intros Hg s c Hc. by apply Hg. Qed.

Lemma verified_drop P f `{!forall x, Decision (f x)} :
  keeps (keeps_verified P) (hmodify (fun s => set_clients (filter f (sl_clients s)) s)).
Proof. apply verified_modify. cbn. intros s c [_ Hin]%list_elem_of_filter. by left. Qed.

Lemma verified_CreateChildStream P os args : keeps (keeps_verified P) (CreateChildStream os args).
Proof.
  intros s. destruct (CreateChildStream_cases os args s) as [Hc|(id & pid & _ & _ & _ & Hc)].
  - apply core_clients in Hc. intros c. rewrite Hc. by left.
  - unfold core in Hc. injection Hc as Hc _ _ _. intros c. rewrite Hc. by left.
Qed.

Lemma verified_DropPipe P p : keeps (keeps_verified P) (DropPipe p).
Proof. intros s c Hc. by left. Qed.

Local Ltac verified_solve :=
  repeat (intros; cbn beta iota zeta;
    first [ assumption | apply verified_CreateChildStream | apply verified_drop | apply verified_DropPipe
          | apply verified_of_core, core_verified | apply verified_of_core, core_BroadcastClients
          | apply verified_of_core, core_NextRequestID
          | apply verified_of_core, core_HandleResponceServiceCommand
          | apply verified_of_core, core_PipeDataReceived
          | apply verified_of_core, same_emit
          | same_step | typeclasses eauto ]).

(** The only request that verifies a client is an activation of its own, with
    the license of the daemon. *)
Definition right_license (req : request_t) : Prop :=
  req_method req = DAEMON_ACTIVATE /\
  parse_params LicenseInfo_DoDeSerialize (req_params req) = Ok license_key.

Lemma verified_Activate os c req :
  req_method req = DAEMON_ACTIVATE ->
  keeps (keeps_verified (fun c' => c' = c /\ right_license req)) (HandleRequestClientActivate license_key os c req).
Proof.
  intros Hm. unfold HandleRequestClientActivate. destruct (req_params req) as [text|] eqn:Hp;
    cbn [mbind option_bind]; [|verified_solve].
  destruct (json_tokener_parse text) as [j|] eqn:Hj; [|verified_solve].
  destruct (DeSerialize LicenseInfo_DoDeSerialize (Some j)) as [license|e|r] eqn:Hd;
    [|unfold WriteResponse; verified_solve..].
  destruct (String.eqb_spec license license_key) as [->|Hne]; cbn [negb];
    unfold WriteResponse, MakeServiceStats; [|verified_solve].
  verified_solve. intros _. apply verified_modify. intros s c' Hc'.
  destruct (SetVerified_elem _ _ _ Hc') as [|Heq]; [by left|]. right. split; [done|]. split; [done|].
  unfold parse_params. by rewrite Hp, Hj, Hd.
Qed.

Lemma verified_requests os c req :
  keeps (keeps_verified (fun c' => c' = c /\ right_license req))
    (HandleRequestServiceCommand license_key log_path os c req).
Proof.
  destruct (decide (req_method req = DAEMON_START_STREAM)) as [Hs|Hs].
  { rewrite dispatch_start by done.
    unfold HandleRequestClientStartStream, CreateChildStream_text, WriteResponse. verified_solve. }
  destruct (decide (req_method req = DAEMON_ACTIVATE)) as [Ha|Ha].
  { rewrite dispatch_activate by done. by apply verified_Activate. }
  by apply verified_of_core, core_other_requests.
Qed.

(** An input by which [c] activates itself with the right license. *)
Definition activates (c : nat) (i : input) : Prop :=
  match i with
  | InClient os c' (inl text) parse pop =>
      c' = c /\ exists req, parse text = ParsedRequest req /\ right_license req
  | _ => False
  end.

Lemma verified_react i :
  keeps (keeps_verified (fun c => activates c i)) (react license_key log_path i).
Proof.
  destruct i as [ttl| |c|os c read parse pop|now p read parse|os id|ch status|os v d ext chunks ex|f]; cbn [react].
  - unfold PreLooped. verified_solve.
  - unfold PostLooped. verified_solve.
  - apply verified_modify. cbn. intros s c' [|Hin]%elem_of_app; [by left|].
    by apply list_elem_of_singleton in Hin.
  - unfold DataReceived_client, DaemonDataReceived, DropClient. destruct read as [text|e]; [|verified_solve].
    destruct (parse text) as [e|req|resp|] eqn:Hp; [verified_solve| |verified_solve..].
    apply keeps_bind; [typeclasses eauto| |verified_solve]. apply keeps_try, keeps_bind; [typeclasses eauto| |verified_solve].
    apply keeps_try. intros s c' Hc'. destruct (verified_requests os c req s c' Hc') as [|[-> Hr]]; [by left|].
    right. split; [done|]. by exists req.
  - unfold DataReceived_pipe. verified_solve.
  - unfold slave_TimerEmited, ping_client, DropClient, MakeServiceStats. verified_solve.
  - unfold ChildStatusChanged, FreeSharedStreamStruct. verified_solve. apply verified_modify. by left.
  - unfold OnHttpRequest. verified_solve.
  - apply verified_modify. by left.
Qed.

(** C4: a client is verified only after it has itself sent an activation with
    the license of the daemon. *)
Theorem verified_by_license f l s c :
  run license_key log_path (daemon_init f) l s -> IsVerified c s = true ->
  exists i, i ∈ l /\ activates c i.
Proof.
  rewrite IsVerified_elem. intros Hr. remember (daemon_init f) as s0 eqn:Hs0.
  induction Hr as [s|s l i s1 s2 Hr IH Hstep]; intros Hc.
  { subst. by apply elem_of_nil in Hc. }
  rewrite Hstep in Hc. destruct (verified_react i s1 c Hc) as [Hc1|Ha].
  - destruct (IH Hs0 Hc1) as (i' & Hin & Ha). exists i'. split; [apply elem_of_app; by left | done].
  - exists i. split; [apply elem_of_app; right; by apply list_elem_of_singleton | done].
Qed.

Lemma unverified_request os c req s :
  IsVerified c s = false ->
  req_method req <> DAEMON_ACTIVATE -> req_method req <> DAEMON_STOP_SERVICE ->
  exists r, HandleRequestServiceCommand license_key log_path os c req s = (r, s, []) /\
    (r = Ok tt \/ r = Err error_inval).
Proof.
  intros Hv Ha Hs.
  assert (Hg : forall m : handler, (verified c ;; m) s = (Err error_inval, s, [])).
  { intros m. unfold verified, mbind, hact_bind, hgets. cbn. by rewrite Hv. }
  unfold HandleRequestServiceCommand.
  rewrite (decide_False (P := req_method req = DAEMON_ACTIVATE)) by done.
  rewrite (decide_False (P := req_method req = DAEMON_STOP_SERVICE)) by done.
  repeat case_decide; try (eexists; split; [apply Hg | by right]).
  eexists. split; [reflexivity | by left].
Qed.

(** C5: a client that is not verified gets nothing done: except for activating
    itself and stopping the service, for which it needs the license, its
    requests change no state, have no effect and are not answered. *)
Theorem unverified_inert os c text parse pop req s :
  IsVerified c s = false -> parse text = ParsedRequest req ->
  req_method req <> DAEMON_ACTIVATE -> req_method req <> DAEMON_STOP_SERVICE ->
  react license_key log_path (InClient os c (inl text) parse pop) s = (Ok tt, s, []).
Proof.
  intros Hv Hp Ha Hs. destruct (unverified_request os c req s Hv Ha Hs) as (r & Hr & Hrs). cbn [react].
  unfold DataReceived_client, DaemonDataReceived. rewrite Hp. unfold mbind, hact_bind, htry. rewrite Hr.
  by destruct Hrs as [-> | ->].
Qed.

(** A message that cannot be read or parsed closes the connection it came
    by, and has no other effect; an error of a request's handler does not. *)
Theorem bad_message_closes os c read parse pop s :
  let '(r, s', es) := react license_key log_path (InClient os c read parse pop) s in
  (match read with inr _ => True | inl text => exists e, parse text = ParseError e end ->
     r = Ok tt /\ es = [CloseClient c] /\
     s' = set_clients (filter (fun x => x.1 <> c) (sl_clients s)) s) /\
  (forall text req, read = inl text -> parse text = ParsedRequest req ->
     let '(r1, s1, es1) := HandleRequestServiceCommand license_key log_path os c req s in
     s' = s1 /\ es = es1).
Proof.
  cbn [react].
  destruct (DataReceived_client license_key log_path os c read parse pop s) as [[r s'] es] eqn:Hd.
  unfold DataReceived_client, DaemonDataReceived, mbind, hact_bind, htry in Hd. split.
  - destruct read as [text|e]; [intros [e He]; rewrite He in Hd | intros _];
      cbn in Hd; by injection Hd as <- <- <-.
  - intros text req -> Hp. rewrite Hp in Hd.
    destruct (HandleRequestServiceCommand license_key log_path os c req s) as [[r1 s1] es1].
    destruct r1; cbn in Hd; injection Hd as <- <- <-; by rewrite ?app_nil_r.
Qed.

(** C23: anybody who can connect to the daemon can end it: an activation whose
    license is the JSON value [null] dereferences a null pointer, whatever the
    license of the daemon is. *)
Theorem null_license_ends_daemon os c text parse pop req params j s :
  parse text = ParsedRequest req -> req_method req = DAEMON_ACTIVATE -> req_params req = Some params ->
  json_tokener_parse params = Some j -> json_object_get_ex j "license_key" = Some None ->
  act_result (react license_key log_path (InClient os c (inl text) parse pop) s) =
  Abort (NullPointer "json_object_get_string").
Proof.
  intros Hp Hm Hr Hj Hk. cbn [react]. unfold DataReceived_client, DaemonDataReceived. rewrite Hp.
  rewrite dispatch_activate by done. unfold HandleRequestClientActivate. rewrite Hr. cbn [mbind option_bind].
  rewrite Hj. cbn [DeSerialize]. unfold LicenseInfo_DoDeSerialize, string_field, jget. cbn [mbind option_bind].
  by rewrite Hk.
Qed.

(** A stop of the service needs the license, or a client that is verified;
    otherwise nothing happens. *)
Theorem stop_service_guarded os c req s :
  IsVerified c s = false -> req_method req = DAEMON_STOP_SERVICE ->
  (forall i, parse_params service_StopInfo_DoDeSerialize (req_params req) = Ok i -> si_license i <> license_key) ->
  exists r, HandleRequestServiceCommand license_key log_path os c req s = (r, s, []) /\ r <> Ok tt.
Proof.
  intros Hv Hm Hl. rewrite dispatch_stop by done. unfold HandleRequestClientStopService, hlift.
  unfold mbind, hact_bind at 1.
  destruct (parse_params service_StopInfo_DoDeSerialize (req_params req)) as [i|e|r]; [|by eexists..].
  specialize (Hl i eq_refl). cbn. rewrite Hv.
  destruct (String.eqb_spec (si_license i) license_key); [done|]. cbn. by eexists.
Qed.

(** [react], one input after the other, is a run. *)
Lemma run_fold l s : run license_key log_path s l (fold_left (fun s i => act_state (react license_key log_path i s)) l s).
Proof.
  induction l as [|i l IH] using rev_ind; [constructor|]. rewrite fold_left_app. cbn.
  eapply run_snoc; [exact IH | reflexivity].
Qed.
End Daemon2.

(** ** The theorems at concrete runs *)

Section Witnesses.
#[local] Existing Instances Ref.common Ref.urls Ref.paths ref_codes ref_rpc Sample.json_c Sample.fastotv.
#[local] Instance sample_fs : FsLib := ref_fs ∅.

(** The loop begins; a client connects, activates itself and starts a stream. *)
Definition sample_inputs : list input :=
  let msg text := InClient (Sample.answers 77) 0 (inl text) Sample.parse (fun _ => None) in
  [InPreLooped 3600; InConnect 0; msg "activate"; msg "start"].

Definition sample_state : slave :=
  fold_left (fun s i => act_state (react "key" "/log" i s)) sample_inputs (daemon_init (∅ : @fs sample_fs)).

Lemma sample_run : run "key" "/log" (daemon_init (∅ : @fs sample_fs)) sample_inputs sample_state.
Proof. apply run_fold. Qed.

Lemma daemon_processes_ok_witness :
  (c_stream <$> sl_children sample_state) = ["1"] /\ processes_ok sample_state.
Proof. split; [vm_compute; reflexivity|]. exact (daemon_processes_ok _ _ _ _ _ sample_run). Defined.

Lemma verified_by_license_witness :
  IsVerified 0 sample_state = true /\ exists i, i ∈ sample_inputs /\ activates "key" 0 i.
Proof.
  assert (Hv : IsVerified 0 sample_state = true) by (vm_compute; reflexivity).
  split; [exact Hv|]. exact (verified_by_license _ _ _ _ _ 0 sample_run Hv).
Defined.

(** A second client, which is not verified. *)
Definition sample_request (m p : string) : request_t :=
  {| req_id := (7%Z : @json_rpc_id ref_rpc); req_method := m; req_params := Some p |}.

Lemma unverified_inert_witness :
  react "key" "/log" (InClient (Sample.answers 77) 1 (inl "start") Sample.parse (fun _ => None)) sample_state =
  (Ok tt, sample_state, []).
Proof.
  apply (unverified_inert _ _ _ _ _ _ _ (sample_request "start_stream" "start"));
    [vm_compute; reflexivity | reflexivity | vm_compute; discriminate | vm_compute; discriminate].
Defined.

Lemma bad_message_closes_witness :
  sl_clients (act_state (react "key" "/log" (InClient (Sample.answers 77) 0 (inl "?") Sample.parse
                           (fun _ => None)) sample_state)) = [].
Proof.
  pose proof (bad_message_closes "key" "/log" (Sample.answers 77) 0 (inl "?") Sample.parse (fun _ => None)
    sample_state) as H.
  destruct (react _ _ _ _) as [[r s'] es]. destruct H as [H _].
  destruct H as (_ & _ & ->); [by exists error_inval|]. vm_compute. reflexivity.
Defined.

Lemma null_license_ends_daemon_witness :
  act_result (react "key" "/log" (InClient (Sample.answers 77) 1 (inl "activate null") Sample.parse
                (fun _ => None)) sample_state) = Abort (NullPointer "json_object_get_string").
Proof.
  eapply (null_license_ends_daemon "key" "/log" (Sample.answers 77) 1 "activate null" Sample.parse
    (fun _ => None) (sample_request "activate_request" "activate null") "activate null");
    [reflexivity | reflexivity | reflexivity | vm_compute; reflexivity | vm_compute; reflexivity].
Defined.

Lemma stop_service_guarded_witness :
  exists r, HandleRequestServiceCommand "other key" "/log" (Sample.answers 77) 1
              (sample_request "stop_service" "activate") sample_state = (r, sample_state, []) /\ r <> Ok tt.
Proof.
  apply stop_service_guarded; [vm_compute; reflexivity | reflexivity |].
  intros i Hi. vm_compute in Hi. injection Hi as <-. discriminate.
Defined.
End Witnesses.
