(* ===== verification/Supervisor.v ===== *)
(** * The daemon as a supervisor

    What the daemon promises, without its pipes, timers, files and messages: it
    keeps a set of running streams, the clients that are connected and those
    that it trusts, and the films that may be started on demand. [sup_step] says
    who may change what; [daemon_refines_supervisor] that the handlers of
    [Slave] do nothing else, with the processes that they register and the
    connections that they close as what is seen of it. *)

From S2P Require Import Prelude Platform StreamTypes Stats StatsInfo Constants Uris Options Configs Timeshift Protocol Commands Users Slave Daemon.

(** ** The specification *)

Record supervisor := {
  sup_running : gset (string * Z);         (* streams with their processes *)
  sup_clients : gset nat;
  sup_trusted : gset nat;
  sup_films : gset string                  (* directories *)
}.

Definition sup_init : supervisor := {| sup_running := ∅; sup_clients := ∅; sup_trusted := ∅; sup_films := ∅ |}.

(** Who acts: a new connection, a client (with the license in its message, or
    not), a process that ends, somebody who asks for a film, or nobody. *)
Inductive actor :=
| NewClient (c : nat)
| Client (c : nat) (licensed : bool)
| EndOf (pid : Z)
| Viewer (film : string)
| Clock
| Other.

Inductive sup_label := Started (id : string) (pid : Z) | Left (c : nat).

Definition may_start (who : actor) (a : supervisor) : Prop :=
  match who with
  | Client c _ => c ∈ sup_trusted a
  | Viewer film => film ∈ sup_films a
  | _ => False
  end.
(** A client leaves for its own message; the clock dismisses a client that is
    trusted (or one that has left already). *)
Definition may_dismiss (who : actor) (c : nat) (a : supervisor) : Prop :=
  match who with Client c' _ => c' = c | Clock => c ∈ sup_clients a -> c ∈ sup_trusted a | _ => False end.

Definition dismiss (gone : gset nat) (a : supervisor) : supervisor :=
  {| sup_running := sup_running a; sup_clients := sup_clients a ∖ gone;
     sup_trusted := sup_trusted a ∖ gone; sup_films := sup_films a |}.

Inductive sup_step : actor -> supervisor -> list sup_label -> supervisor -> Prop :=
| SupJoin c a :
    sup_step (NewClient c) a []
      {| sup_running := sup_running a; sup_clients := sup_clients a ∪ {[c]};
         sup_trusted := sup_trusted a; sup_films := sup_films a |}
| SupTrust c a : c ∈ sup_clients a ->
    sup_step (Client c true) a []
      {| sup_running := sup_running a; sup_clients := sup_clients a;
         sup_trusted := sup_trusted a ∪ {[c]}; sup_films := sup_films a |}
| SupDismiss who c a : may_dismiss who c a -> sup_step who a [Left c] (dismiss {[c]} a)
| SupStart who id pid a :
    may_start who a -> (0 < pid)%Z -> (forall p, (id, p) ∉ sup_running a) ->
    sup_step who a [Started id pid]
      {| sup_running := sup_running a ∪ {[(id, pid)]}; sup_clients := sup_clients a;
         sup_trusted := sup_trusted a; sup_films := sup_films a |}
| SupEnd pid a :
    sup_step (EndOf pid) a []
      {| sup_running := filter (fun x => x.2 <> pid) (sup_running a); sup_clients := sup_clients a;
         sup_trusted := sup_trusted a; sup_films := sup_films a |}
| SupSync c l films a : c ∈ sup_trusted a ->
    sup_step (Client c l) a []
      {| sup_running := sup_running a; sup_clients := sup_clients a;
         sup_trusted := sup_trusted a; sup_films := films |}.

(** What one actor does in a row. *)
Inductive sup_steps (who : actor) : supervisor -> list sup_label -> supervisor -> Prop :=
| sup_done a : sup_steps who a [] a
| sup_more a b c l1 l2 : sup_step who a l1 b -> sup_steps who b l2 c -> sup_steps who a (l1 ++ l2) c.

Lemma sup_steps_one who a l b : sup_step who a l b -> sup_steps who a l b.
Proof. intros Hs. rewrite <- (app_nil_r l). eapply sup_more; [exact Hs|constructor]. Qed.

Lemma sup_steps_app who a l1 b l2 c : sup_steps who a l1 b -> sup_steps who b l2 c -> sup_steps who a (l1 ++ l2) c.
Proof.
  induction 1 as [|a a' b l l' Hs _ IH]; [done|]. intros Hc. rewrite <- app_assoc. eapply sup_more; [exact Hs|by apply IH].
Qed.

(** One actor after the other. *)
Inductive sup_exec : supervisor -> list actor -> list sup_label -> supervisor -> Prop :=
| sup_exec_nil a : sup_exec a [] [] a
| sup_exec_cons a b c who whos l1 l2 :
    sup_steps who a l1 b -> sup_exec b whos l2 c -> sup_exec a (who :: whos) (l1 ++ l2) c.

(** ** What the specification guarantees *)

(** No stream runs twice, and only connected clients are trusted. *)
Definition sup_ok (a : supervisor) : Prop :=
  (forall id p q, (id, p) ∈ sup_running a -> (id, q) ∈ sup_running a -> p = q) /\ sup_trusted a ⊆ sup_clients a.

Lemma sup_step_ok who a l b : sup_step who a l b -> sup_ok a -> sup_ok b.
Proof.
  unfold sup_ok. intros Hs [Hr Ht].
  destruct Hs as [c a|c a Hc|who c a _|who id pid a _ _ Hnew|pid a|c l films a _]; cbn; (split; [|set_solver]); try done.
  - intros i p q [Hp|Hp%elem_of_singleton]%elem_of_union [Hq|Hq%elem_of_singleton]%elem_of_union; simplify_eq; [by eapply Hr| | |done];
      by exfalso; eapply Hnew.
  - intros i p q [_ Hp]%elem_of_filter [_ Hq]%elem_of_filter. by eapply Hr.
Qed.

Lemma sup_steps_ok who a l b : sup_steps who a l b -> sup_ok a -> sup_ok b.
Proof. induction 1; [done|]. intros. by apply IHsup_steps, (sup_step_ok _ _ _ _ H). Qed.

Lemma sup_exec_ok a whos l b : sup_exec a whos l b -> sup_ok a -> sup_ok b.
Proof. induction 1; [done|]. intros. by apply IHsup_exec, (sup_steps_ok _ _ _ _ H). Qed.

(** Nobody is trusted, and no film is known, who has not shown the license
    before; so nothing is started. *)
Definition untrusting (a : supervisor) : Prop := sup_trusted a = ∅ /\ sup_films a = ∅.

Lemma sup_exec_untrusted a whos l b :
  sup_exec a whos l b -> untrusting a -> (forall c, Client c true ∉ whos) ->
  untrusting b /\ forall id pid, Started id pid ∉ l.
Proof.
  induction 1 as [a|a b c who whos l1 l2 Hs Hx IH]; intros Ha Hw; [split; [done|by intros ?? ?%elem_of_nil]|].
  assert (Hb : untrusting b /\ forall id pid, Started id pid ∉ l1).
  { clear IH Hx. assert (Hwho : forall c, who <> Client c true) by (intros c' ->; apply (Hw c'); by left). clear Hw.
    induction Hs as [a|a b d l l' Hstep _ IH]; [split; [done|by intros ?? ?%elem_of_nil]|].
    assert (Hm : untrusting b /\ forall id pid, Started id pid ∉ l).
    { clear IH. destruct Ha as [Ht Hf]. destruct Hstep as [x a|x a _|who x a _|who id pid a Hw _ _|pid a|x l films a Hx].
      - split; [done|]. by intros ?? ?%elem_of_nil.
      - by exfalso; eapply Hwho.
      - split; [split; [cbn; rewrite Ht; set_solver|done]|]. by intros ?? ?%list_elem_of_singleton.
      - exfalso. destruct who; cbn in Hw; try done; [rewrite Ht in Hw|rewrite Hf in Hw]; by apply elem_of_empty in Hw.
      - split; [done|]. by intros ?? ?%elem_of_nil.
      - rewrite Ht in Hx. by apply elem_of_empty in Hx. }
    destruct Hm as [Hm Hl]. destruct (IH Hm) as [Hd Hl']. split; [done|]. intros ?? [?|?]%elem_of_app; [by eapply Hl|by eapply Hl']. }
  destruct Hb as [Hb Hl1]. destruct (IH Hb) as [Hc Hl2]; [set_solver|]. split; [done|].
  intros ?? [?|?]%elem_of_app; [by eapply Hl1|by eapply Hl2].
Qed.

(** A stream that runs was running before or has been started. *)
Lemma sup_exec_running a whos l b :
  sup_exec a whos l b -> forall id pid, (id, pid) ∈ sup_running b -> (id, pid) ∈ sup_running a \/ Started id pid ∈ l.
Proof.
  assert (Hsteps : forall who a l b, sup_steps who a l b ->
    forall id pid, (id, pid) ∈ sup_running b -> (id, pid) ∈ sup_running a \/ Started id pid ∈ l).
  { clear. intros who a l b. induction 1 as [a|a b c l1 l2 Hs _ IH]; intros i p Hin; [by left|].
    destruct (IH i p Hin) as [Hb|Hb]; [|right; by apply elem_of_app; right].
    assert (Hone : (i, p) ∈ sup_running a \/ Started i p ∈ l1).
    { destruct Hs as [x a|x a _|who x a _|who id pid a _ _ _|pid a|x l films a _]; cbn in Hb; try (by left).
      - apply elem_of_union in Hb as [Hb|Hb%elem_of_singleton]; [by left|]. simplify_eq. right. by left.
      - apply elem_of_filter in Hb as [_ Hb]. by left. }
    destruct Hone; [by left|right; apply elem_of_app; by left]. }
  induction 1 as [a|a b c who whos l1 l2 Hs _ IH]; intros i p Hin; [by left|].
  destruct (IH i p Hin) as [Hb|Hb]; [|right; by apply elem_of_app; right].
  destruct (Hsteps _ _ _ _ Hs i p Hb); [by left|right; apply elem_of_app; by left].
Qed.

(** ** The daemon implements it *)

Section Refinement.
Context `{FastotvLib} `{UrlLib} `{PathLib} `{UnnamedCodes} `{RpcLib} `{FsLib}.
Context (license_key log_path : string).

Definition supervisor_of (s : slave) : supervisor :=
  {| sup_running := list_to_set ((fun ch => (c_stream ch, c_pid ch)) <$> sl_children s);
     sup_clients := list_to_set ((sl_clients s).*1);
     sup_trusted := list_to_set ((filter (fun x => x.2 = true) (sl_clients s)).*1);
     sup_films := dom (sl_vods_links s) |}.

Definition obs (e : slave_event) : option sup_label :=
  match e with
  | RegisterChild id pid _ _ => Some (Started id pid)
  | CloseClient c => Some (Left c)
  | _ => None
  end.

(** A message that activates with the license of the daemon. *)
Definition licensed (req : request_t) : bool :=
  bool_decide (req_method req = DAEMON_ACTIVATE) &&
  match parse_params LicenseInfo_DoDeSerialize (req_params req) with
  | Ok license => String.eqb license license_key
  | _ => false
  end.

Definition actor_of (i : input) : actor :=
  match i with
  | InPreLooped _ | InPostLooped => Other
  | InConnect c => NewClient c
  | InClient os c (inl text) parse pop =>
      Client c (match parse text with ParsedRequest req => licensed req | _ => false end)
  | InClient os c (inr _) parse pop => Client c false
  | InPipe now p read parse => Other
  | InTimer os id => Clock
  | InChildEnd ch status => EndOf (c_pid ch)
  | InHttp os v directory ext chunks ex => Viewer (dir_path directory)
  | InFileSystem f => Other
  end.

(** *** Handlers that are not seen *)

Section Quiet.
Context {X : Type} (f : slave -> X).
Definition quiet (s s' : slave) (es : list slave_event) : Prop := f s' = f s /\ omap obs es = [].

#[export] Instance quiet_keepable : Keepable quiet.
Proof.
  constructor; unfold quiet; [done|]. intros s1 s2 s3 e1 e2 [H12 He1] [H23 He2].
  by rewrite omap_app, He1, He2, H23.
Qed.

Lemma quiet_emit e : obs e = None -> keeps quiet (hemit e).
Proof. intros He s. split; [done|]. cbn. by rewrite He. Qed.
Lemma quiet_modify g : (forall s, f (g s) = f s) -> keeps quiet (hmodify g).
Proof. intros Hg s. by split; [apply Hg|]. Qed.
Lemma quiet_dir d : (forall g s, f (set_fs g s) = f s) -> keeps quiet (h_CreateAndCheckDir d).
Proof.
  intros Hg s. unfold h_CreateAndCheckDir. destruct (CreateAndCheckDir (sl_fs s) d) as [[e|] g]; by split; [apply Hg|].
Qed.
End Quiet.

(** All that the specification speaks of; the same without the films. *)
Definition visible (s : slave) : list (nat * bool) * list child * gmap string ArgsMap :=
  (sl_clients s, sl_children s, sl_vods_links s).
Definition visible_but_films (s : slave) : list (nat * bool) * list child := (sl_clients s, sl_children s).

Lemma visible_supervisor s s' : visible s' = visible s -> supervisor_of s' = supervisor_of s.
Proof. unfold visible, supervisor_of. by intros [= -> -> ->]. Qed.

Lemma films_supervisor s s' :
  visible_but_films s' = visible_but_films s ->
  supervisor_of s' = {| sup_running := sup_running (supervisor_of s); sup_clients := sup_clients (supervisor_of s);
    sup_trusted := sup_trusted (supervisor_of s); sup_films := dom (sl_vods_links s') |}.
Proof. unfold visible_but_films, supervisor_of. cbn. by intros [= -> ->]. Qed.

Local Ltac quiet_step :=
  match goal with
  | |- keeps _ (match ?x with _ => _ end) => destruct x
  | |- keeps _ (_ ≫= _) => apply keeps_bind
  | |- keeps _ (mret _) => apply keeps_ret
  | |- keeps _ (hgets _) => apply keeps_gets
  | |- keeps _ (hlift _) => apply keeps_lift
  | |- keeps _ (hthrow _) => apply keeps_throw
  | |- keeps _ (htry _) => apply keeps_try
  | |- keeps _ (hact_iter _ _) => apply keeps_iter
  | |- keeps _ (hemit _) => apply quiet_emit; reflexivity
  | |- keeps _ (hmodify _) => apply quiet_modify; intros ?; reflexivity
  | |- keeps _ (h_CreateAndCheckDir _) => apply quiet_dir; intros ? ?; reflexivity
  end.
Local Ltac quiet_solve := repeat (intros; cbn beta iota zeta; first [assumption | quiet_step | typeclasses eauto]).

Lemma quiet_MakeStreamInfo {X} (f : slave -> X) args b :
  (forall g s, f (set_fs g s) = f s) -> keeps (quiet f) (MakeStreamInfo args b).
Proof.
  intros Hf. unfold MakeStreamInfo, or_throw, check_output.
  repeat (intros; cbn beta iota zeta; first [quiet_step | apply quiet_dir; assumption | typeclasses eauto]).
Qed.

Lemma quiet_other_requests os c req :
  req_method req <> DAEMON_START_STREAM -> req_method req <> DAEMON_ACTIVATE -> req_method req <> DAEMON_SYNC_SERVICE ->
  keeps (quiet visible) (HandleRequestServiceCommand license_key log_path os c req).
Proof.
  intros Hs Ha Hy. unfold HandleRequestServiceCommand.
  rewrite (decide_False (P := req_method req = DAEMON_START_STREAM)) by done.
  rewrite (decide_False (P := req_method req = DAEMON_ACTIVATE)) by done.
  rewrite (decide_False (P := req_method req = DAEMON_SYNC_SERVICE)) by done.
  repeat case_decide;
    unfold HandleRequestClientStopStream, HandleRequestClientRestartStream, HandleRequestClientGetLogStream,
      HandleRequestClientGetPipelineStream, HandleRequestClientPrepareService, HandleRequestClientStopService,
      HandleRequestClientPingService, HandleRequestClientGetLogService, post_stream_file, PostHttpFile,
      SendStop, SendRestart, pipe_send, verified, NextRequestID, WriteResponse;
    quiet_solve.
Qed.

Lemma quiet_response c popped resp : keeps (quiet visible) (HandleResponceServiceCommand c popped resp).
Proof. unfold HandleResponceServiceCommand, HandleResponcePingService, verified. quiet_solve. Qed.

Lemma quiet_PipeDataReceived now read parse : keeps (quiet visible) (PipeDataReceived now read parse).
Proof.
  unfold PipeDataReceived, HandleResponceStreamsCommand, HandleRequestStreamsCommand,
    HandleRequestChangedSourcesStream, HandleRequestStatisticStream, BroadcastClients. quiet_solve.
Qed.

Lemma quiet_add_stream_line config : keeps (quiet visible_but_films) (add_stream_line config).
Proof.
  unfold add_stream_line, AddStreamLine. quiet_solve. all: by apply quiet_MakeStreamInfo.
Qed.

Lemma quiet_add_user_line user : keeps (quiet visible) (add_user_line user).
Proof. unfold add_user_line. quiet_solve. Qed.

(** A stream is started at most; the system's answers decide. *)
Lemma CreateChildStream_seen os args s :
  let '(r, s', es) := CreateChildStream os args s in
  visible s' = visible s /\ omap obs es = [] \/
  exists id pid, FindChildByID id s = None /\ (0 < pid)%Z /\ omap obs es = [Started id pid] /\
    visible s' = (sl_clients s, sl_children s ++ [{| c_stream := id; c_pid := pid; c_client := Some (sl_next_pipe s) |}],
                  sl_vods_links s).
Proof.
  unfold CreateChildStream.
  assert (Hq : keeps (quiet (fun s => (visible s, sl_next_pipe s))) (MakeStreamInfo args true)) by (by apply quiet_MakeStreamInfo).
  specialize (Hq s). unfold quiet, act_state, act_events in Hq. unfold mbind, hact_bind.
  destruct (MakeStreamInfo args true s) as [[[[[sha dir] lvl]|e|r] s1] es1]; cbn in Hq; destruct Hq as [Hv He];
    injection Hv as Hcl Hch Hli Hn; [|left; split; [|done]; unfold visible; congruence..].
  assert (Hv : visible s1 = visible s) by (unfold visible; congruence).
  assert (Hf : FindChildByID (si_id sha) s1 = FindChildByID (si_id sha) s) by (unfold FindChildByID; by rewrite Hch).
  cbn [hgets]. rewrite Hf. destruct (FindChildByID (si_id sha) s) as [ch|] eqn:Hfind.
  { left. split; [done|]. by rewrite !omap_app, He. }
  unfold AllocSharedStreamStruct. destruct (os_mmap os); [left; split; [done|]; by rewrite ?omap_app, He..|].
  destruct (os_pipe1 os) as [[r1 w1]|e1]; [|left; split; [done|]; cbn; by rewrite ?omap_app, He].
  destruct (os_pipe2 os) as [[r2 w2]|e2]; [|left; split; [done|]; cbn; by rewrite ?omap_app, He].
  cbn. destruct (os_fork os =? 0)%Z eqn:Hzero; [left; split; [done|]; cbn; by rewrite ?omap_app, He|].
  destruct (os_fork os <? 0)%Z eqn:Hneg; [left; split; [done|]; cbn; by rewrite ?omap_app, He|]. right.
  exists (si_id sha), (os_fork os). apply Z.eqb_neq in Hzero. apply Z.ltb_ge in Hneg.
  split_and!; [done|lia|cbn; by rewrite !omap_app, He|].
  unfold register_child, mbind, hact_bind, hemit, hmodify, mret, hact_ret, visible. cbn. congruence.
Qed.

(** *** Handlers as steps of the specification *)

Definition refines (who : actor) (s s' : slave) (es : list slave_event) : Prop :=
  sup_steps who (supervisor_of s) (omap obs es) (supervisor_of s').
#[local] Instance refines_keepable who : Keepable (refines who).
Proof.
  constructor; unfold refines; [by constructor|]. intros s1 s2 s3 e1 e2 H12 H23. rewrite omap_app.
  by eapply sup_steps_app.
Qed.

(** The same for a client that is trusted. *)
Definition refines_trusted (c : nat) (l : bool) (s s' : slave) (es : list slave_event) : Prop :=
  c ∈ sup_trusted (supervisor_of s) -> refines (Client c l) s s' es /\ c ∈ sup_trusted (supervisor_of s').
#[local] Instance refines_trusted_keepable c l : Keepable (refines_trusted c l).
Proof.
  constructor; unfold refines_trusted; [intros s Hc; split; [constructor|done]|].
  intros s1 s2 s3 e1 e2 H12 H23 Hc. destruct (H12 Hc) as [Hr1 Hc2]. destruct (H23 Hc2) as [Hr2 Hc3].
  split; [|done]. unfold refines in *. rewrite omap_app. by eapply sup_steps_app.
Qed.

Lemma keeps_quiet {A} (R : slave -> slave -> list slave_event -> Prop) {X} (f : slave -> X) (m : hact slave slave_event A) :
  (forall s s' es, quiet f s s' es -> R s s' es) -> keeps (quiet f) m -> keeps R m.
Proof. intros HR Hm s. by apply HR, Hm. Qed.

Lemma refines_quiet who {A} (m : hact slave slave_event A) : keeps (quiet visible) m -> keeps (refines who) m.
Proof.
  apply keeps_quiet. intros s s' es [Hv He]. unfold refines. rewrite He, (visible_supervisor _ _ Hv). constructor.
Qed.

Lemma trusted_quiet c l {A} (m : hact slave slave_event A) :
  keeps (quiet visible) m -> keeps (refines_trusted c l) m.
Proof.
  apply keeps_quiet. intros s s' es [Hv He] Hc. unfold refines. rewrite He, (visible_supervisor _ _ Hv). by split; [constructor|].
Qed.

(** What changes the films only, for a client that is trusted. *)
Lemma trusted_films c l {A} (m : hact slave slave_event A) :
  keeps (quiet visible_but_films) m -> keeps (refines_trusted c l) m.
Proof.
  apply keeps_quiet. intros s s' es [Hv He] Hc. unfold refines. rewrite He, (films_supervisor _ _ Hv).
  split; [|done]. apply sup_steps_one. by constructor.
Qed.

Lemma find_not_running id s p : FindChildByID id s = None -> (id, p) ∉ sup_running (supervisor_of s).
Proof.
  intros Hf%FindChildByID_None. cbn. rewrite elem_of_list_to_set. intros (ch & Hid & Hin)%list_elem_of_fmap.
  apply Hf. simplify_eq. by apply list_elem_of_fmap_2.
Qed.

Lemma CreateChildStream_refines os args s who :
  may_start who (supervisor_of s) ->
  refines who s (act_state (CreateChildStream os args s)) (act_events (CreateChildStream os args s)).
Proof.
  intros Hw. pose proof (CreateChildStream_seen os args s) as Hs. unfold refines.
  destruct (CreateChildStream os args s) as [[r s'] es]. cbn. destruct Hs as [[Hv ->]|(id & pid & Hf & Hp & -> & Hv)].
  - rewrite (visible_supervisor _ _ Hv). constructor.
  - replace (supervisor_of s') with
      {| sup_running := sup_running (supervisor_of s) ∪ {[(id, pid)]}; sup_clients := sup_clients (supervisor_of s);
         sup_trusted := sup_trusted (supervisor_of s); sup_films := sup_films (supervisor_of s) |}.
    { apply sup_steps_one, SupStart; [done..|]. intros p. by apply find_not_running. }
    unfold visible in Hv. unfold supervisor_of. cbn. injection Hv as -> -> ->. f_equal.
    rewrite fmap_app, list_to_set_app_L. cbn. by rewrite union_empty_r_L.
Qed.

Lemma trusted_CreateChildStream c l os args : keeps (refines_trusted c l) (CreateChildStream os args).
Proof.
  intros s Hc. split; [by apply CreateChildStream_refines|].
  pose proof (CreateChildStream_seen os args s) as Hs. destruct (CreateChildStream os args s) as [[r s'] es]. cbn.
  unfold supervisor_of in *. cbn in *. destruct Hs as [[Hv _]|(id & pid & _ & _ & _ & Hv)]; unfold visible in Hv;
    by injection Hv as -> _ _.
Qed.

Local Ltac trusted_solve :=
  repeat (intros; cbn beta iota zeta;
    first [ assumption
          | match goal with
            | |- keeps _ (CreateChildStream _ _) => apply trusted_CreateChildStream
            | |- keeps _ (add_stream_line _) => apply trusted_films, quiet_add_stream_line
            | |- keeps _ (add_user_line _) => apply trusted_quiet, quiet_add_user_line
            | |- keeps _ (match ?x with _ => _ end) => destruct x
            | |- keeps _ (_ ≫= _) => apply keeps_bind
            | |- keeps _ (htry _) => apply keeps_try
            | |- keeps _ (hact_iter _ _) => apply keeps_iter
            | |- keeps _ (hmodify (set_links _)) => apply trusted_films; quiet_step
            | |- keeps _ _ => apply trusted_quiet; quiet_step
            end
          | typeclasses eauto ]).

Lemma IsVerified_trusted c s : IsVerified c s = true <-> c ∈ sup_trusted (supervisor_of s).
Proof.
  rewrite IsVerified_elem. cbn. rewrite elem_of_list_to_set. split.
  - intros Hin. apply list_elem_of_fmap. exists (c, true). split; [done|]. by apply list_elem_of_filter.
  - intros ([c' b] & -> & [Hb Hin]%list_elem_of_filter)%list_elem_of_fmap. cbn in *. by subst.
Qed.

(** A handler that begins with the check of the client. *)
Lemma refines_verified c l (m : handler) :
  keeps (refines_trusted c l) m -> keeps (refines (Client c l)) (verified c ;; m).
Proof.
  intros Hm s. unfold verified, mbind, hact_bind, hgets. cbn. destruct (IsVerified c s) eqn:Hv; cbn.
  - apply IsVerified_trusted in Hv. specialize (Hm s Hv). by destruct (m s) as [[r s'] es], Hm.
  - unfold act_state, act_events. cbn. constructor.
Qed.

Lemma refines_start os c l req : keeps (refines (Client c l)) (HandleRequestClientStartStream os c req).
Proof.
  apply refines_verified. unfold CreateChildStream_text, WriteResponse. trusted_solve.
Qed.

Lemma refines_sync c l req : keeps (refines (Client c l)) (HandleRequestClientSyncService c req).
Proof. apply refines_verified. unfold WriteResponse. trusted_solve. Qed.

Lemma SetVerified_supervisor c s :
  supervisor_of (SetVerified c s) =
  if decide (c ∈ sup_clients (supervisor_of s))
  then {| sup_running := sup_running (supervisor_of s); sup_clients := sup_clients (supervisor_of s);
          sup_trusted := sup_trusted (supervisor_of s) ∪ {[c]}; sup_films := sup_films (supervisor_of s) |}
  else supervisor_of s.
Proof.
  unfold supervisor_of, SetVerified. cbn.
  assert (Hfst : ((fun x : nat * bool => if x.1 =? c then (c, true) else x) <$> sl_clients s).*1 = (sl_clients s).*1).
  { rewrite <- list_fmap_compose. apply list_fmap_ext. intros i [x b] _. cbn. destruct (Nat.eqb_spec x c); by subst. }
  rewrite Hfst. case_decide as Hc; f_equal.
  - apply set_eq. intros x. rewrite elem_of_union, elem_of_singleton, !elem_of_list_to_set, !list_elem_of_fmap. split.
    + intros ([x' b] & -> & [Hb ([y b'] & Hy & Hin)%list_elem_of_fmap]%list_elem_of_filter). cbn in *.
      destruct (Nat.eqb_spec y c); simplify_eq; [by right|left]. exists (y, true). by rewrite list_elem_of_filter.
    + intros [([x' b] & -> & [Hb Hin]%list_elem_of_filter)| ->]; cbn in *.
      * subst b. exists (x', true). split; [done|]. apply list_elem_of_filter. split; [done|]. apply list_elem_of_fmap.
        exists (x', true). split; [|done]. cbn. destruct (Nat.eqb_spec x' c); by subst.
      * apply elem_of_list_to_set, list_elem_of_fmap in Hc as ([y b] & -> & Hin). exists (y, true).
        split; [done|]. apply list_elem_of_filter. split; [done|]. apply list_elem_of_fmap. exists (y, b).
        split; [|done]. cbn. by rewrite Nat.eqb_refl.
  - replace ((fun x : nat * bool => if x.1 =? c then (c, true) else x) <$> sl_clients s) with (sl_clients s); [done|].
    symmetry. rewrite <- (list_fmap_id (sl_clients s)) at 2. apply list_fmap_ext. intros i [x b] Hx.
    cbn. destruct (Nat.eqb_spec x c) as [->|]; [|done]. exfalso. apply Hc, elem_of_list_to_set, list_elem_of_fmap.
    exists (c, b). split; [done|]. by eapply list_elem_of_lookup_2.
Qed.

Lemma refines_SetVerified c : keeps (refines (Client c true)) (hmodify (SetVerified c)).
Proof.
  intros s. unfold refines, act_state, act_events. cbn. rewrite SetVerified_supervisor.
  case_decide; [|constructor]. by apply sup_steps_one, SupTrust.
Qed.

Lemma refines_activate os c req :
  req_method req = DAEMON_ACTIVATE ->
  keeps (refines (Client c (licensed req))) (HandleRequestClientActivate license_key os c req).
Proof.
  intros Hm. unfold licensed, parse_params. rewrite bool_decide_eq_true_2 by done. unfold HandleRequestClientActivate.
  destruct (req_params req) as [text|]; cbn [mbind option_bind andb]; [|apply refines_quiet; quiet_solve].
  destruct (json_tokener_parse text) as [j|]; [|apply refines_quiet; quiet_solve].
  destruct (DeSerialize LicenseInfo_DoDeSerialize (Some j)) as [license|e|r];
    [|unfold WriteResponse; apply refines_quiet; quiet_solve..].
  destruct (String.eqb license license_key); cbn [negb]; unfold WriteResponse, MakeServiceStats;
    [|apply refines_quiet; quiet_solve].
  repeat (apply keeps_bind; [typeclasses eauto|apply refines_quiet; quiet_solve|intros ?]). apply refines_SetVerified.
Qed.

Lemma refines_request os c req :
  keeps (refines (Client c (licensed req))) (HandleRequestServiceCommand license_key log_path os c req).
Proof.
  destruct (decide (req_method req = DAEMON_START_STREAM)) as [Hs|Hs].
  { rewrite dispatch_start by done. apply refines_start. }
  destruct (decide (req_method req = DAEMON_SYNC_SERVICE)) as [Hy|Hy].
  { rewrite dispatch_sync by done. apply refines_sync. }
  destruct (decide (req_method req = DAEMON_ACTIVATE)) as [Ha|Ha].
  { rewrite dispatch_activate by done. by apply refines_activate. }
  by apply refines_quiet, quiet_other_requests.
Qed.

Lemma drop_client_supervisor c s :
  supervisor_of (set_clients (filter (fun x => x.1 <> c) (sl_clients s)) s) = dismiss {[c]} (supervisor_of s).
Proof.
  unfold supervisor_of, dismiss. cbn. f_equal; apply set_eq; intros x;
    rewrite elem_of_difference, not_elem_of_singleton, !elem_of_list_to_set, !list_elem_of_fmap; split.
  - intros ([y b] & -> & [Hy Hin]%list_elem_of_filter). split; [by exists (y, b)|done].
  - intros [([y b] & -> & Hin) Hy]. exists (y, b). by rewrite list_elem_of_filter.
  - intros ([y b] & -> & [Hb [Hy Hin]%list_elem_of_filter]%list_elem_of_filter). split; [|done].
    exists (y, b). by rewrite list_elem_of_filter.
  - intros [([y b] & -> & [Hb Hin]%list_elem_of_filter) Hy]. exists (y, b). by rewrite !list_elem_of_filter.
Qed.

Lemma refines_DropClient c l : keeps (refines (Client c l)) (DropClient c).
Proof.
  intros s.
  change (sup_steps (Client c l) (supervisor_of s) [Left c] (supervisor_of (set_clients (filter (fun x => x.1 <> c) (sl_clients s)) s))).
  rewrite drop_client_supervisor. by apply sup_steps_one, SupDismiss.
Qed.

(** *** The ping of the clock *)

Lemma dismiss_none a : dismiss ∅ a = a.
Proof. destruct a. unfold dismiss. cbn. f_equal; set_solver. Qed.
Lemma dismiss_dismiss g1 g2 a : dismiss g2 (dismiss g1 a) = dismiss (g1 ∪ g2) a.
Proof. unfold dismiss. cbn. f_equal; set_solver. Qed.

(** A ping reaches the client, or it is dismissed, or nothing is sent. *)
Lemma ping_client_seen os x s :
  let '(r, s', es) := ping_client os x s in
  (supervisor_of s' = supervisor_of s /\ omap obs es = [] \/
   x.2 = true /\ supervisor_of s' = dismiss {[x.1]} (supervisor_of s) /\ omap obs es = [Left x.1]) /\
  (forall text, ServerPingInfo_SerializeToString = Ok text ->
     r = Ok tt /\ supervisor_of s' =
     if x.2 && bool_decide (is_Some (os_write os x.1)) then dismiss {[x.1]} (supervisor_of s) else supervisor_of s).
Proof.
  unfold ping_client. destruct (x.2); [|split; [by left|done]].
  destruct ServerPingInfo_SerializeToString as [j|e|r]; [|split; [by left|done]..].
  unfold NextRequestID, DropClient, mbind, hact_bind, hgets, hmodify, hemit, mret, hact_ret. cbn.
  destruct (os_write os x.1) as [e|]; cbn.
  - assert (Hd : forall s1 : slave, sl_clients s1 = sl_clients s -> sl_children s1 = sl_children s -> sl_vods_links s1 = sl_vods_links s ->
      supervisor_of (set_clients (filter (fun y => y.1 <> x.1) (sl_clients s1)) s1) = dismiss {[x.1]} (supervisor_of s)).
    { intros s1 H1' H2' H3'. rewrite drop_client_supervisor. f_equal. by apply visible_supervisor; unfold visible; rewrite H1', H2', H3'. }
    pose proof (Hd (set_id (u64 (sl_id s + 1)) s) eq_refl eq_refl eq_refl) as Hdrop.
    split; [by right|]. intros _ _. by split.
  - split; [by left|]. done.
Qed.

(** The clients of the list that do not take the ping. *)
Definition unreachable (os : os_answers) (l : list (nat * bool)) : gset nat :=
  list_to_set (filter (fun x => x.2 = true /\ is_Some (os_write os x.1)) l).*1.

Lemma ping_clients_refine os l s :
  (forall x, x ∈ l -> x.2 = true -> x.1 ∈ sup_clients (supervisor_of s) -> x.1 ∈ sup_trusted (supervisor_of s)) ->
  let '(r, s', es) := hact_iter (ping_client os) l s in
  refines Clock s s' es /\
  (forall text, ServerPingInfo_SerializeToString = Ok text -> supervisor_of s' = dismiss (unreachable os l) (supervisor_of s)).
Proof.
  revert s. induction l as [|x l IH]; intros s Hl.
  { split; [by constructor|]. intros _ _. cbn. by rewrite dismiss_none. }
  cbn [hact_iter]. unfold mbind, hact_bind. pose proof (ping_client_seen os x s) as Hx.
  destruct (ping_client os x s) as [[r1 s1] es1]. destruct Hx as [Hx Hok].
  assert (Href : refines Clock s s1 es1).
  { unfold refines. destruct Hx as [[-> ->]|(Hv & -> & ->)]; [constructor|].
    apply sup_steps_one, SupDismiss. cbn -[supervisor_of]. apply Hl; [by left|done]. }
  assert (Hl1 : forall y, y ∈ l -> y.2 = true -> y.1 ∈ sup_clients (supervisor_of s1) -> y.1 ∈ sup_trusted (supervisor_of s1)).
  { intros y Hy Hv. specialize (Hl y ltac:(by right) Hv).
    destruct Hx as [[-> _]|(_ & -> & _)]; [done|]. unfold dismiss. cbn -[supervisor_of].
    rewrite !elem_of_difference. intros [? ?]. split; [by apply Hl|done]. }
  specialize (IH s1 Hl1). destruct r1 as [[]|e|r].
  - destruct (hact_iter (ping_client os) l s1) as [[r2 s2] es2]. destruct IH as [IHr IHs]. split.
    + unfold refines in *. rewrite omap_app. by eapply sup_steps_app.
    + intros text Ht. rewrite (IHs text Ht), (proj2 (Hok text Ht)). unfold unreachable. rewrite filter_cons.
      destruct (x.2) eqn:Hv; cbn [andb]; [|by rewrite decide_False by (by intros [? _])].
      case_bool_decide as Hw; [rewrite decide_True by done|by rewrite decide_False by tauto].
      rewrite dismiss_dismiss. done.
  - split; [done|]. intros text Ht. by destruct (Hok text Ht).
  - split; [done|]. intros text Ht. by destruct (Hok text Ht).
Qed.

Lemma clients_trusted s x :
  x ∈ sl_clients s -> x.2 = true -> x.1 ∈ sup_clients (supervisor_of s) -> x.1 ∈ sup_trusted (supervisor_of s).
Proof.
  intros Hx Hv _. cbn. apply elem_of_list_to_set, list_elem_of_fmap. exists x. split; [done|]. by apply list_elem_of_filter.
Qed.

(** Those of the trusted clients that do not take a ping. *)
Definition silent (os : os_answers) (a : supervisor) : gset nat := filter (fun c => is_Some (os_write os c)) (sup_trusted a).

Lemma unreachable_silent os s : unreachable os (sl_clients s) = silent os (supervisor_of s).
Proof.
  apply set_eq. intros c. unfold unreachable, silent. cbn.
  rewrite elem_of_filter, !elem_of_list_to_set, !list_elem_of_fmap. split.
  - intros (x & -> & [[Hv Hw] Hx]%list_elem_of_filter). split; [done|]. exists x. by rewrite list_elem_of_filter.
  - intros [Hw (x & -> & [Hv Hx]%list_elem_of_filter)]. exists x. by rewrite list_elem_of_filter.
Qed.

Lemma end_supervisor pid s :
  supervisor_of (set_children (filter (fun x => c_pid x <> pid) (sl_children s)) s) =
  {| sup_running := filter (fun x => x.2 <> pid) (sup_running (supervisor_of s)); sup_clients := sup_clients (supervisor_of s);
     sup_trusted := sup_trusted (supervisor_of s); sup_films := sup_films (supervisor_of s) |}.
Proof.
  unfold supervisor_of. cbn. f_equal. apply set_eq. intros [id p].
  rewrite elem_of_filter, !elem_of_list_to_set, !list_elem_of_fmap. split.
  - intros (ch & Heq & [Hp Hin]%list_elem_of_filter). simplify_eq. split; [done|by exists ch].
  - intros [Hp (ch & Heq & Hin)]. exists ch. simplify_eq. by rewrite list_elem_of_filter.
Qed.

Lemma connect_supervisor c s :
  supervisor_of (ClientConnected c s) =
  {| sup_running := sup_running (supervisor_of s); sup_clients := sup_clients (supervisor_of s) ∪ {[c]};
     sup_trusted := sup_trusted (supervisor_of s); sup_films := sup_films (supervisor_of s) |}.
Proof.
  unfold supervisor_of, ClientConnected. cbn. rewrite fmap_app, list_to_set_app_L, filter_app, filter_cons_False by done.
  cbn. by rewrite ?filter_nil, ?app_nil_r, union_empty_r_L.
Qed.

(** A handler that changes the state once and sends nothing. *)
Lemma refines_modify who g :
  (forall s, sup_step who (supervisor_of s) [] (supervisor_of (g s))) -> keeps (refines who) (hmodify g).
Proof. intros Hg s. apply sup_steps_one, Hg. Qed.

Lemma refines_end pid : keeps (refines (EndOf pid))
  (hmodify (fun s => set_children (filter (fun x => c_pid x <> pid) (sl_children s)) s)).
Proof. apply refines_modify. intros s. rewrite end_supervisor. apply SupEnd. Qed.

Lemma forget_pipe_processes p l :
  (fun ch => (c_stream ch, c_pid ch)) <$> forget_pipe p l = (fun ch => (c_stream ch, c_pid ch)) <$> l.
Proof. induction l as [|ch l IH]; [done|]. cbn. case_decide; cbn; by rewrite ?IH. Qed.

Lemma refines_quiet_of who {A} (m : hact slave slave_event A) :
  (forall s, supervisor_of (act_state (m s)) = supervisor_of s) -> (forall s, omap obs (act_events (m s)) = []) ->
  keeps (refines who) m.
Proof. intros Hs He s. unfold refines. rewrite Hs, He. constructor. Qed.

Lemma refines_DropPipe who p : keeps (refines who) (DropPipe p).
Proof.
  apply refines_quiet_of; intros s; [|done].
  unfold supervisor_of, act_state, DropPipe, mbind, hact_bind, hmodify, hemit. cbn. by rewrite forget_pipe_processes.
Qed.

Lemma refines_film os v directory ext chunks ex :
  keeps (refines (Viewer (dir_path directory))) (OnHttpRequest os v directory ext chunks ex).
Proof.
  intros s. unfold OnHttpRequest. case_match; [|constructor]. unfold mbind, hact_bind, hgets. cbn.
  destruct (sl_vods_links s !! dir_path directory) as [config|] eqn:Hl; [|constructor].
  destruct (CheckIsFullVod _ _ _); [constructor|].
  assert (Hf : may_start (Viewer (dir_path directory)) (supervisor_of s)) by (cbn; by apply elem_of_dom_2 in Hl).
  pose proof (CreateChildStream_refines os config s _ Hf) as Hr. unfold htry.
  destruct (CreateChildStream os config s) as [[[u|e|r] s'] es]; unfold act_state, act_events in *; cbn in *;
    by rewrite ?app_nil_r.
Qed.

Lemma hgets_bind {S E A B} (f : S -> A) (k : A -> hact S E B) s : (hgets f ≫= k) s = k (f s) s.
Proof. unfold mbind, hact_bind, hgets. by destruct (k (f s) s) as [[? ?] ?]. Qed.

Lemma refines_timer os id : keeps (refines Clock) (slave_TimerEmited os id).
Proof.
  intros s. unfold slave_TimerEmited. rewrite hgets_bind. destruct (decide (sl_ping_timer s = Some id)).
  - pose proof (ping_clients_refine os (sl_clients s) s (clients_trusted s)) as Hp.
    destruct (hact_iter (ping_client os) (sl_clients s) s) as [[r s'] es]. apply Hp.
  - match goal with |- refines _ _ (act_state (?m s)) _ => assert (Hm : keeps (refines Clock) m); [|exact (Hm s)] end.
    apply refines_quiet. unfold MakeServiceStats, BroadcastClients. repeat case_decide; quiet_solve.
Qed.

(** Every input is a sequence of steps that the specification allows to whoever
    sent it. *)
Lemma react_refines i s :
  sup_steps (actor_of i) (supervisor_of s) (omap obs (act_events (react license_key log_path i s)))
    (supervisor_of (act_state (react license_key log_path i s))).
Proof.
  change (refines (actor_of i) s (act_state (react license_key log_path i s)) (act_events (react license_key log_path i s))).
  revert s. change (keeps (refines (actor_of i)) (react license_key log_path i)).
  destruct i as [ttl| |c|os c read parse pop|now p read parse|os id|ch status|os v d ext chunks ex|f]; cbn [react actor_of].
  - apply refines_quiet. unfold PreLooped. quiet_solve.
  - apply refines_quiet. unfold PostLooped. quiet_solve.
  - apply refines_modify. intros s. rewrite connect_supervisor. apply SupJoin.
  - unfold DataReceived_client, DaemonDataReceived. destruct read as [text|e].
    2: { apply keeps_bind; [typeclasses eauto|apply refines_quiet; quiet_solve|]. intros [e'|]; [apply refines_DropClient|].
         apply keeps_ret. typeclasses eauto. }
    apply keeps_bind; [typeclasses eauto| |intros [e'|]; [apply refines_DropClient|apply keeps_ret; typeclasses eauto]].
    apply keeps_try. destruct (parse text) as [e|req|resp|]; [apply refines_quiet; quiet_solve| | |apply refines_quiet; quiet_solve].
    + apply keeps_bind; [typeclasses eauto|apply keeps_try, refines_request|]. intros ?. apply keeps_ret. typeclasses eauto.
    + apply refines_quiet. apply keeps_bind; [typeclasses eauto|apply keeps_try, quiet_response|]. intros ?. quiet_solve.
  - unfold DataReceived_pipe. apply keeps_bind; [typeclasses eauto|apply keeps_try, refines_quiet, quiet_PipeDataReceived|].
    intros [e|]; [apply refines_DropPipe|apply keeps_ret; typeclasses eauto].
  - apply refines_timer.
  - unfold ChildStatusChanged, FreeSharedStreamStruct, BroadcastClients.
    apply keeps_bind; [typeclasses eauto|apply refines_end|]. intros _. apply refines_quiet. quiet_solve.
  - apply refines_film.
  - apply refines_quiet. quiet_solve.
Qed.

(** The state and the events of a run. *)
Definition run_state (l : list input) (s : slave) : slave :=
  fold_left (fun s i => act_state (react license_key log_path i s)) l s.
Fixpoint run_events (l : list input) (s : slave) : list slave_event :=
  match l with
  | [] => []
  | i :: l => act_events (react license_key log_path i s) ++ run_events l (act_state (react license_key log_path i s))
  end.

Lemma run_refines l s :
  sup_exec (supervisor_of s) (actor_of <$> l) (omap obs (run_events l s)) (supervisor_of (run_state l s)).
Proof.
  revert s. induction l as [|i l IH]; intros s; [constructor|]. cbn [run_events]. rewrite omap_app. cbn [fmap list_fmap].
  eapply sup_exec_cons; [apply react_refines|apply IH].
Qed.

Lemma supervisor_of_init f : supervisor_of (daemon_init f) = sup_init.
Proof. done. Qed.

(** C2: a run of the daemon, whatever it is sent and whatever the system
    answers, is a run of the specification: it registers processes and closes
    connections exactly where the specification does; a stream is started only
    for a trusted client or for the viewer of a known film, and only if it does
    not run; trust is gained with the license only; only trusted clients change
    the films; a client is dismissed for its own message, and by the clock only
    if it is trusted; and a process that ends takes only its own stream along.
    So no stream runs twice and only connected clients are trusted. When the
    timer of the pings runs out in such a run, exactly the trusted clients that
    the ping cannot be written to are dismissed, and nothing else changes. *)
Theorem daemon_refines_supervisor f l :
  let s := run_state l (daemon_init f) in
  sup_exec sup_init (actor_of <$> l) (omap obs (run_events l (daemon_init f))) (supervisor_of s) /\
  sup_ok (supervisor_of s) /\
  (forall os id text, sl_ping_timer s = Some id -> ServerPingInfo_SerializeToString = Ok text ->
     supervisor_of (act_state (react license_key log_path (InTimer os id) s)) =
     dismiss (silent os (supervisor_of s)) (supervisor_of s)).
Proof.
  pose proof (run_refines l (daemon_init f)) as Hr. rewrite supervisor_of_init in Hr. split_and!; [done| |].
  - eapply sup_exec_ok; [done|]. split; cbn; set_solver.
  - set (s := run_state l (daemon_init f)). intros os id text Ht Hj. cbn [react].
    unfold slave_TimerEmited, mbind, hact_bind, hgets. rewrite decide_True by done.
    pose proof (ping_clients_refine os (sl_clients s) s (clients_trusted s)) as Hp.
    destruct (hact_iter (ping_client os) (sl_clients s) s) as [[r s'] es]. destruct Hp as [_ Hp].
    change (supervisor_of s' = dismiss (silent os (supervisor_of s)) (supervisor_of s)).
    by rewrite <-unreachable_silent, <-(Hp text Hj).
Qed.

(** C3: before some client has shown the license of the daemon, the daemon
    registers no process, whatever it is sent, and knows no film. *)
Theorem nothing_before_license f l :
  (forall i c, i ∈ l -> actor_of i <> Client c true) ->
  sl_children (run_state l (daemon_init f)) = [] /\ sl_vods_links (run_state l (daemon_init f)) = ∅ /\
  forall id pid r w, RegisterChild id pid r w ∉ run_events l (daemon_init f).
Proof.
  intros Hl. pose proof (run_refines l (daemon_init f)) as Hr. rewrite supervisor_of_init in Hr.
  assert (Hw : forall c, Client c true ∉ (actor_of <$> l)).
  { intros c (i & Hi & Hin)%list_elem_of_fmap. by eapply Hl. }
  destruct (sup_exec_untrusted _ _ _ _ Hr) as [[_ Hf] Hs]; [done|done|].
  assert (Hreg : forall id pid r w, RegisterChild id pid r w ∉ run_events l (daemon_init f)).
  { intros id pid r w Hin. apply (Hs id pid). apply list_elem_of_omap. by exists (RegisterChild id pid r w). }
  split_and!; [|by apply dom_empty_inv_L|done].
  pose proof (sup_exec_running _ _ _ _ Hr) as Hrun. destruct (sl_children (run_state l (daemon_init f))) as [|ch chs] eqn:Hc; [done|].
  destruct (Hrun (c_stream ch) (c_pid ch)) as [Hin|Hin].
  - unfold supervisor_of. cbn. rewrite Hc. cbn. set_solver.
  - by apply elem_of_empty in Hin.
  - by apply Hs in Hin.
Qed.
End Refinement.

(** ** A run *)

Section Witnesses.
#[local] Existing Instances Ref.common Ref.urls Ref.paths ref_codes ref_rpc Sample.json_c Sample.fastotv.
#[local] Instance supervisor_fs : FsLib := ref_fs ∅.

(** Two clients connect; one that is not trusted asks for a stream. *)
Definition sup_inputs : list input :=
  [InConnect 0; InConnect 1; InClient (Sample.answers 77) 1 (inl "start") Sample.parse (fun _ => None)].

Lemma nothing_before_license_witness :
  sl_children (run_state "key" "/log" sup_inputs (daemon_init (∅ : @fs supervisor_fs))) = [].
Proof.
  destruct (nothing_before_license "key" "/log" (∅ : @fs supervisor_fs) sup_inputs) as (Hc & _ & _); [|exact Hc].
  intros i c Hi. unfold sup_inputs in Hi. repeat (apply elem_of_cons in Hi as [->|Hi]; [vm_compute; discriminate|]).
  by apply elem_of_nil in Hi.
Defined.

(** A client that is trusted and does not take the ping. *)
Definition ping_inputs : list input :=
  [InPreLooped 3600; InConnect 0; InConnect 1;
   InClient (Sample.answers 77) 0 (inl "activate") Sample.parse (fun _ => None)].
Definition deaf_answers : os_answers :=
  let a := Sample.answers 77 in
  {| os_write _ := Some error_inval; os_pipe_write := os_pipe_write a; os_mmap := os_mmap a; os_pipe1 := os_pipe1 a;
     os_pipe2 := os_pipe2 a; os_fork := os_fork a; os_service_stats := os_service_stats a |}.

Lemma daemon_refines_supervisor_witness :
  let s := run_state "key" "/log" ping_inputs (daemon_init (∅ : @fs supervisor_fs)) in
  let s' := act_state (react "key" "/log" (InTimer deaf_answers 0) s) in
  sl_clients s = [(0, true); (1, false)] /\ sl_clients s' = [(1, false)] /\
  supervisor_of s' = dismiss (silent deaf_answers (supervisor_of s)) (supervisor_of s).
Proof.
  intros s s'. split; [vm_compute; reflexivity|]. split; [vm_compute; reflexivity|].
  destruct (daemon_refines_supervisor "key" "/log" (∅ : @fs supervisor_fs) ping_inputs) as (_ & _ & Hp).
  apply (Hp deaf_answers 0 "{}"); [vm_compute; reflexivity|reflexivity].
Defined.
End Witnesses.
