(* ===== verification/DaemonRequests.v ===== *)
(** * What the requests to the daemon do

    The effect of each kind of request, with the messages that it sends and the
    resources that it takes, and how the daemon treats messages that it cannot
    accept. *)

From S2P Require Import Prelude Platform StreamTypes Stats StatsInfo Constants Uris Options Configs Timeshift Protocol Commands Users Slave Daemon.

Section Requests.
Context `{FastotvLib} `{UrlLib} `{PathLib} `{UnnamedCodes} `{RpcLib} `{FsLib}.
Context (license_key log_path : string).

(** ** Broadcasts *)

Definition to_verified (req : request_t) (s : slave) : list slave_event :=
  (fun x : nat * bool => Request x.1 req) <$> filter (fun x : nat * bool => x.2 = true) (sl_clients s).

(** A broadcast goes once to every verified client and to no other. *)
Lemma BroadcastClients_spec req s : BroadcastClients req s = (Ok tt, s, to_verified req s).
Proof.
  unfold BroadcastClients, to_verified, mbind at 1, hact_bind, hgets.
  assert (Hl : forall l : list (nat * bool),
    hact_iter (fun x : nat * bool => if x.2 then hemit (Request x.1 req) else mret tt) l s =
    (Ok tt, s, (fun x : nat * bool => Request x.1 req) <$> filter (fun x : nat * bool => x.2 = true) l)).
  { induction l as [|[c []] l IH]; [done|..]; cbn [hact_iter snd]; unfold mbind, hact_bind; cbn;
      rewrite IH; done. }
  by rewrite Hl.
Qed.

(** The end of a stream process removes it and no other, frees its shared
    memory, and tells every verified client, once, that the stream has ended:
    with the signal if there was one, and with 1 for a regular end with status
    zero and 0 for any other. *)
Theorem child_end_spec ch status s :
  exists text,
    ChildStatusChanged ch status s =
      (Ok tt, set_children (filter (fun x => c_pid x <> c_pid ch) (sl_children s)) s,
       UnmapStruct (c_stream ch) :: to_verified (QuitStatusStreamBroadcast text) s) /\
    text = json_to_string (QuitStatusInfo_SerializeFields
      {| qs_stream := c_stream ch;
         qs_exit_status := match status with Exited 0 => 1 | _ => 0 end;
         qs_signal := match status with Signaled n => n | _ => 0 end |} json_new_object).
Proof.
  eexists. split; [|reflexivity]. unfold ChildStatusChanged, mbind, hact_bind, hmodify, FreeSharedStreamStruct,
    hemit, hlift, serialize. cbn. rewrite BroadcastClients_spec. cbn. unfold to_verified. cbn.
  repeat f_equal. unfold quit_status_info. destruct status as [n|n|]; cbn; [|done..].
  by destruct n.
Qed.

(** ** Stopping the service *)

(** The stops that the children get, when the next request has number [id]. *)
Fixpoint stops (id : Z) (l : list child) : list slave_event :=
  match l with
  | [] => []
  | ch :: l' =>
      match c_client ch with
      | Some p => [PipeRequest p (StopStreamRequest (MakeRequestID id))]
      | None => []
      end ++ stops (u64 (id + 1)) l'
  end.

Lemma send_stops os l s :
  hact_iter (fun channel => id ← NextRequestID; htry (SendStop os channel id) ;; mret tt) l s =
  (Ok tt, set_id (fold_left (fun id _ => u64 (id + 1)) l (sl_id s)) s, stops (sl_id s) l).
Proof.
  revert s. induction l as [|ch l IH]; intros s; [by destruct s|]. cbn [hact_iter fold_left stops].
  unfold mbind at 1, hact_bind at 1, NextRequestID, SendStop, pipe_send.
  unfold mbind at 1, hact_bind at 1. cbn [hgets].
  unfold mbind at 1, hact_bind at 1. cbn [hmodify mret hact_ret app].
  destruct (c_client ch) as [p|]; cbn.
  - unfold mbind, hact_bind, htry, hemit. cbn. destruct (os_pipe_write os p); cbn; by rewrite IH.
  - unfold mbind, hact_bind, htry, hthrow, hlift. cbn. by rewrite IH.
Qed.

(** Every child that has a pipe is in the list, and nothing else is. *)
Lemma stops_elem id l e :
  e ∈ stops id l -> exists ch p k, ch ∈ l /\ c_client ch = Some p /\ e = PipeRequest p (StopStreamRequest k).
Proof.
  revert id. induction l as [|ch l IH]; intros id; [by intros ?%elem_of_nil|]. cbn [stops].
  intros [Hin|Hin]%elem_of_app.
  - destruct (c_client ch) as [p|] eqn:Hp; [|by apply elem_of_nil in Hin].
    apply list_elem_of_singleton in Hin. exists ch, p, (MakeRequestID id).
    split; [apply elem_of_cons; by left | done].
  - destruct (IH _ Hin) as (ch' & p & k & Hin' & Hr). exists ch', p, k.
    split; [apply elem_of_cons; by right | done].
Qed.

Definition stop_targets (es : list slave_event) : list nat :=
  omap (fun e => match e with PipeRequest p _ => Some p | _ => None end) es.

Lemma stops_targets id l : stop_targets (stops id l) = omap c_client l.
Proof.
  revert id. induction l as [|ch l IH]; intros id; [done|]. cbn [stops]. unfold stop_targets in *.
  rewrite omap_app, IH. cbn. by destruct (c_client ch).
Qed.

Lemma stop_allowed i c s :
  si_license i = license_key \/ IsVerified c s = true -> (si_license i =? license_key)%string || IsVerified c s = true.
Proof. intros [->| ->]; [by rewrite String.eqb_refl | by rewrite orb_true_r]. Qed.

Lemma stop_service_started os c req s i :
  parse_params service_StopInfo_DoDeSerialize (req_params req) = Ok i ->
  si_license i = license_key \/ IsVerified c s = true -> sl_quit_timer s = None ->
  HandleRequestClientStopService license_key os c req s =
  (Ok tt, set_timers (S (sl_next_timer s)) (sl_ping_timer s) (sl_stats_timer s) (sl_cleanup_timer s)
            (Some (sl_next_timer s)) (set_id (fold_left (fun id _ => u64 (id + 1)) (sl_children s) (sl_id s)) s),
   stops (sl_id s) (sl_children s) ++
     [Respond c (StopServiceResponceSuccess (req_id req)); CreateTimer (sl_next_timer s) 3 false]).
Proof.
  intros Hp Hv Hq. unfold HandleRequestClientStopService. unfold mbind at 1, hact_bind at 1, hlift.
  rewrite Hp. unfold mbind at 1, hact_bind at 1. cbn [hgets app].
  rewrite stop_allowed by done. cbn [negb]. unfold mbind at 1, hact_bind at 1. cbn [hgets app]. rewrite Hq.
  unfold mbind at 1, hact_bind at 1. cbn [hgets app].
  unfold mbind at 1, hact_bind at 1. rewrite send_stops.
  unfold WriteResponse, mbind, hact_bind, hemit, hgets, hmodify. done.
Qed.

(** C12: the first stop of the service sends one stop to every stream process
    whose pipe is open, answers with success and starts the timer that ends the
    daemon; while that timer runs, a further stop is answered with "in progress"
    and does nothing else. *)
Theorem stop_service_spec os c req s i :
  parse_params service_StopInfo_DoDeSerialize (req_params req) = Ok i ->
  si_license i = license_key \/ IsVerified c s = true ->
  let '(r, s', es) := HandleRequestClientStopService license_key os c req s in
  r = Ok tt /\ sl_children s' = sl_children s /\
  match sl_quit_timer s with
  | Some n => s' = s /\ es = [Respond c (StopServiceResponceFail (req_id req) "Stop service in progress...")]
  | None =>
      sl_quit_timer s' = Some (sl_next_timer s) /\
      stop_targets es = omap c_client (sl_children s) /\
      es = stops (sl_id s) (sl_children s) ++
           [Respond c (StopServiceResponceSuccess (req_id req)); CreateTimer (sl_next_timer s) 3 false]
  end.
Proof.
  intros Hp Hv. destruct (sl_quit_timer s) as [n|] eqn:Hq.
  - unfold HandleRequestClientStopService. unfold mbind at 1, hact_bind at 1, hlift.
    rewrite Hp. unfold mbind at 1, hact_bind at 1. cbn [hgets app].
    rewrite stop_allowed by done. cbn [negb]. unfold mbind at 1, hact_bind at 1. cbn [hgets app]. by rewrite Hq.
  - rewrite (stop_service_started os c req s i) by done. split_and!; try done.
    unfold stop_targets. rewrite omap_app. fold (stop_targets (stops (sl_id s) (sl_children s))).
    rewrite stops_targets. cbn. by rewrite app_nil_r.
Qed.

(** ** Descriptors and shared memory of a stream *)

(** The descriptors that are open after some events. *)
Fixpoint open_descriptors (held : list Z) (es : list slave_event) : list Z :=
  match es with
  | [] => held
  | PipeOpened r w :: es' => open_descriptors (held ++ [r; w]) es'
  | CloseDescriptor fd :: es' => open_descriptors (filter (fun x => x <> fd) held) es'
  | _ :: es' => open_descriptors held es'
  end.

(** The shared memory that is mapped after some events. *)
Fixpoint mapped_structs (held : list string) (es : list slave_event) : list string :=
  match es with
  | [] => held
  | MapStruct id :: es' => mapped_structs (held ++ [id]) es'
  | UnmapStruct id :: es' => mapped_structs (erase_first id held) es'
  | _ :: es' => mapped_structs held es'
  end.

Lemma FindChildByID_new id pid s :
  FindChildByID id s = None ->
  FindChildByID id (set_processes (sl_pipes s ++ [sl_next_pipe s])
      (sl_children s ++ [{| c_stream := id; c_pid := pid; c_client := Some (sl_next_pipe s) |}])
      (S (sl_next_pipe s)) s) =
    Some {| c_stream := id; c_pid := pid; c_client := Some (sl_next_pipe s) |}.
Proof.
  unfold FindChildByID. cbn [sl_children set_processes].
  induction (sl_children s) as [|ch l IH]; cbn; [by rewrite String.eqb_refl|].
  by destruct (String.eqb (c_stream ch) id).
Qed.

(** C13: once the arguments of a stream are accepted and no stream has its
    identifier, starting it takes shared memory and two pipes. With a child the
    daemon keeps one end of each. When the second pipe cannot be made, both ends
    of the first stay open; when the process cannot be made, all four stay open
    and the shared memory stays mapped, no child is registered, and yet the
    caller is told of a success. *)
Theorem CreateChildStream_resources os args s s1 es1 sha dir lvl r1 w1 :
  MakeStreamInfo args true s = (Ok (sha, dir, lvl), s1, es1) ->
  FindChildByID (si_id sha) s1 = None -> os_mmap os = MmapOk -> os_pipe1 os = inl (r1, w1) ->
  let '(r, s', es) := CreateChildStream os args s in
  exists es', es = es1 ++ es' /\
  match os_pipe2 os with
  | inr e => r = Err e /\ s' = s1 /\ open_descriptors [] es' = [r1; w1] /\ mapped_structs [] es' = []
  | inl (r2, w2) =>
      ((os_fork os < 0)%Z ->
         r = Ok tt /\ s' = s1 /\ open_descriptors [] es' = [r1; w1; r2; w2] /\
         mapped_structs [] es' = [si_id sha]) /\
      ((0 < os_fork os)%Z -> NoDup [r1; w1; r2; w2] ->
         r = Ok tt /\ open_descriptors [] es' = [w1; r2] /\ mapped_structs [] es' = [si_id sha] /\
         FindChildByID (si_id sha) s' =
           Some {| c_stream := si_id sha; c_pid := os_fork os; c_client := Some (sl_next_pipe s1) |})
  end.
Proof.
  intros Hm Hf Ho Hp1.
  destruct (CreateChildStream os args s) as [[r s'] es] eqn:Hc.
  unfold CreateChildStream in Hc. unfold mbind at 1, hact_bind at 1 in Hc. rewrite Hm in Hc.
  unfold mbind at 1, hact_bind at 1, hgets in Hc. rewrite Hf in Hc.
  unfold AllocSharedStreamStruct in Hc. rewrite Ho, Hp1 in Hc.
  unfold CreatePipe_or_free, CreatePipe, FreeSharedStreamStruct, register_child in Hc.
  unfold mbind, hact_bind, hemit, hmodify, hthrow, hlift, mret, hact_ret in Hc.
  destruct (os_pipe2 os) as [[r2 w2]|e]; cbn in Hc.
  2:{ injection Hc as <- <- <-. eexists. split; [done|]. cbn. by rewrite decide_True. }
  destruct (Z.ltb_spec (os_fork os) 0) as [Hn|Hn].
  - rewrite (proj2 (Z.eqb_neq _ _)) in Hc by lia. cbn in Hc. injection Hc as <- <- <-.
    eexists. split; [done|]. split; [done | lia].
  - destruct (Z.eqb_spec (os_fork os) 0) as [Hz|Hz]; cbn in Hc; injection Hc as <- <- <-;
      (eexists; split; [done|]; split; [lia|]; intros Hpos Hnd; try lia).
    assert (Hne : r1 <> w1 /\ r1 <> r2 /\ r1 <> w2 /\ w1 <> w2 /\ r2 <> w2).
    { rewrite !NoDup_cons, !not_elem_of_cons in Hnd. naive_solver. }
    split_and!; [done | | done | by apply FindChildByID_new].
    unfold open_descriptors. cbn [app]. rewrite !filter_cons.
    destruct Hne as (? & ? & ? & ? & ?). repeat (case_decide; try congruence; cbn [filter list_filter]).
Qed.

(** A stream that is running is not started a second time: the request is
    refused, and nothing is taken for it. *)
Lemma CreateChildStream_duplicate os args s s1 es1 sha dir lvl ch :
  MakeStreamInfo args true s = (Ok (sha, dir, lvl), s1, es1) -> FindChildByID (si_id sha) s1 = Some ch ->
  exists e, CreateChildStream os args s = (Err e, s1, es1).
Proof.
  intros Hm Hf. unfold CreateChildStream, mbind, hact_bind, hgets. rewrite Hm, Hf. eexists. cbn.
  by rewrite app_nil_r.
Qed.

(** ** Synchronisation *)

Definition user_of_line (text : string) : option UserInfo :=
  match DeSerialize UserInfo_DoDeSerialize (json_tokener_parse text) with Ok u => Some u | _ => None end.

Lemma add_users l s s' es :
  hact_iter add_user_line l s = (Ok tt, s', es) ->
  sl_users s' = fold_left (fun us u => AddUser u us) (omap user_of_line l) (sl_users s) /\
  sl_vods_links s' = sl_vods_links s.
Proof.
  revert s s' es. induction l as [|text l IH]; intros s s' es; cbn [hact_iter].
  { intros [= <- <-]. done. }
  unfold mbind at 1, hact_bind at 1. unfold add_user_line at 1. cbn [omap list_omap]. unfold user_of_line at 1.
  destruct (DeSerialize UserInfo_DoDeSerialize (json_tokener_parse text)) as [u|e|r]; cbn; [| |done].
  - destruct (hact_iter add_user_line l _) as [[r s2] es2] eqn:Hi. intros [= -> <- <-].
    by apply IH in Hi.
  - destruct (hact_iter add_user_line l _) as [[r s2] es2] eqn:Hi. intros [= -> <- <-].
    by apply IH in Hi.
Qed.

(** *** The films of a request

    A line of the request is a film if it is a valid configuration of a film,
    with an identifier, inputs, outputs and a feedback directory that is there or
    can be made. The directory is made when the line is read, so that the file
    system goes from line to line. *)

(** The feedback directory that the line asks for. *)
Definition line_dir (config : string) : option string :=
  match ValidateConfig config with
  | Ok a =>
      _ ← args_get conv_string a ID_FIELD;
      type ← args_get conv_u8 a TYPE_FIELD;
      if decide (cast_type type = PROXY) then None else args_get conv_string a FEEDBACK_DIR_FIELD
  | _ => None
  end.
Definition line_fs (f : fs) (config : string) : fs :=
  match line_dir config with Some dir => (CreateAndCheckDir f dir).2 | None => f end.

(** The arguments and the outputs of a film. *)
Definition line_film (f : fs) (config : string) : option (ArgsMap * list OutputUri) :=
  match ValidateConfig config, line_dir config with
  | Ok a, Some dir =>
      match (CreateAndCheckDir f dir).1, cast_type <$> args_get conv_u8 a TYPE_FIELD, read_input a, read_output a with
      | None, Some VOD_ENCODE, Ok (Some _), Ok (Some outs) | None, Some VOD_RELAY, Ok (Some _), Ok (Some outs) => Some (a, outs)
      | _, _, _, _ => None
      end
  | _, _ => None
  end.

(** One of the outputs is served over HTTP from there. *)
Definition serves (outs : list OutputUri) (root : string) : bool :=
  existsb (fun o => bool_decide (url_get_scheme (ou_output o) = http) && String.eqb (ou_http_root o) root) outs.

(** What is started for a request of a film from [root]: the last film of the
    lines that is served from there, which keeps its chunks. *)
Fixpoint last_film (f : fs) (lines : list string) (root : string) : option ArgsMap :=
  match lines with
  | [] => None
  | config :: lines =>
      match last_film (line_fs f config) lines root with
      | Some args => Some args
      | None =>
          x ← line_film f config;
          if serves x.2 root then Some (<[CLEANUP_TS_FIELD := bool_to_string false]> x.1) else None
      end
  end.

Lemma add_links_lookup outs a links root :
  add_links outs a links !! root =
  if serves outs root then Some (<[CLEANUP_TS_FIELD := bool_to_string false]> a) else links !! root.
Proof.
  revert a links. induction outs as [|o outs IH]; intros a links; [done|]. cbn [add_links serves existsb].
  destruct (decide (url_get_scheme (ou_output o) = http)) as [Hh|Hh].
  - rewrite IH, (bool_decide_eq_true_2 _ Hh), insert_insert_eq. cbn [andb]. fold (serves outs root).
    destruct (String.eqb_spec (ou_http_root o) root) as [->|Hne]; cbn [orb].
    + rewrite lookup_insert_eq. by destruct (serves outs root).
    + by rewrite lookup_insert_ne.
  - rewrite IH, (bool_decide_eq_false_2 _ Hh). done.
Qed.

(** A line is read: it changes the file system and the films, and no users. *)
Lemma add_stream_line_run config s s' es :
  add_stream_line config s = (Ok tt, s', es) ->
  sl_fs s' = line_fs (sl_fs s) config /\ sl_users s' = sl_users s /\
  sl_vods_links s' = match line_film (sl_fs s) config with
                     | Some (a, outs) => add_links outs a (sl_vods_links s)
                     | None => sl_vods_links s
                     end.
Proof.
  unfold add_stream_line, AddStreamLine, MakeStreamInfo, line_fs, line_film, line_dir.
  unfold mbind, hact_bind, htry, hlift, mret, hact_ret.
  destruct (ValidateConfig config) as [a|e|r]; [|by intros [= <- _]|done]. cbn [or_throw].
  destruct (args_get conv_string a ID_FIELD) as [id|]; cbn -[cast_type]; [|by intros [= <- _]].
  destruct (args_get conv_u8 a TYPE_FIELD) as [type|]; cbn -[cast_type]; [|by intros [= <- _]].
  destruct (decide (cast_type type = PROXY)) as [Hp|Hp]; cbn -[cast_type]; [by intros [= <- _]|].
  destruct (args_get conv_string a FEEDBACK_DIR_FIELD) as [dir|]; cbn -[cast_type]; [|by intros [= <- _]].
  unfold h_CreateAndCheckDir.
  destruct (CreateAndCheckDir (sl_fs s) dir) as [[e|] f]; cbn -[cast_type]; [by intros [= <- _]|].
  destruct (read_input a) as [[input|]|e|r]; cbn -[cast_type];
    try (intros [= <- _]; by destruct (cast_type type)); [].
  destruct (decide (cast_type type = VOD_ENCODE \/ cast_type type = VOD_RELAY)) as [Hv|Hv].
  - destruct (read_output a) as [[outs|]|e|r]; cbn -[cast_type];
      try (intros [= <- _]; by destruct (cast_type type)); [].
    intros [= <- _]. by destruct Hv as [-> | ->].
  - intros [= <- _]. destruct (cast_type type); naive_solver.
Qed.

Lemma add_lines l s s' es root :
  hact_iter add_stream_line l s = (Ok tt, s', es) ->
  sl_users s' = sl_users s /\
  sl_vods_links s' !! root = match last_film (sl_fs s) l root with Some args => Some args | None => sl_vods_links s !! root end.
Proof.
  revert s es. induction l as [|config l IH]; intros s es; cbn [hact_iter]; [by intros [= -> _]|].
  unfold mbind at 1, hact_bind at 1. destruct (add_stream_line config s) as [[[[]|e|r] s1] es1] eqn:Ha; cbn; [|done..].
  destruct (hact_iter add_stream_line l s1) as [[r s2] es2] eqn:Hi. intros [= -> -> _].
  apply add_stream_line_run in Ha as (Hf & Hu & Hl). apply IH in Hi as [Hu' Hl']. split; [congruence|].
  rewrite Hl', Hf. cbn [last_film]. destruct (last_film (line_fs (sl_fs s) config) l root); [done|]. rewrite Hl.
  destruct (line_film (sl_fs s) config) as [[a outs]|]; cbn -[add_links serves]; [|done].
  rewrite add_links_lookup. by destruct (serves outs root).
Qed.

(** C15: after a synchronisation the daemon knows exactly the subscribers and the
    films of its request, and no older ones: a subscriber is let in exactly with
    the password of the first line with its login, and the film that is started
    on demand for a directory is the last line of the request that is a valid
    configuration of a film, with an output served over HTTP from there and a
    feedback directory that could be made; for any other directory none is. *)
Theorem sync_replaces c req s i s' es :
  HandleRequestClientSyncService c req s = (Ok tt, s', es) ->
  parse_params SyncInfo_DoDeSerialize (req_params req) = Ok i ->
  (forall a u, FindUser (sl_users s') a = Ok u <->
     auth_IsValid a = true /\ first_user (omap user_of_line (sy_users i)) (auth_login a) = Some u /\
     auth_password a = us_password u) /\
  (forall root, sl_vods_links s' !! root = last_film (sl_fs s) (sy_streams i) root).
Proof.
  intros Hs Hp. unfold HandleRequestClientSyncService in Hs. rewrite Hp in Hs.
  unfold mbind at 1, hact_bind at 1 in Hs.
  assert (Hv0 : act_state (verified c s) = s) by (unfold verified, mbind, hact_bind, hgets; cbn; by destruct (IsVerified c s)).
  destruct (verified c s) as [[[[]|e|r] s0] es0] eqn:Hv; [|done..]. cbn in Hv0. subst s0.
  unfold mbind at 1, hact_bind at 1, hlift in Hs. unfold mbind at 1, hact_bind at 1, hmodify in Hs.
  unfold mbind at 1, hact_bind at 1 in Hs.
  destruct (hact_iter add_stream_line (sy_streams i) (set_links ∅ s)) as [[[[]|e|r] s1] es1] eqn:Hl; [|done..].
  unfold mbind at 1, hact_bind at 1 in Hs. unfold mbind at 1, hact_bind at 1 in Hs.
  destruct (hact_iter add_user_line (sy_users i) _) as [[[[]|e|r] s2] es2] eqn:Hu; [|done..].
  cbn in Hs. injection Hs as <- _.
  apply add_users in Hu as [Hu Hlinks]. cbn in Hu, Hlinks. split.
  - intros a u. rewrite Hu. apply FindUser_spec.
  - intros root. rewrite Hlinks. apply (add_lines _ _ _ _ root) in Hl as [_ ->]. cbn.
    by destruct (last_film _ _ _).
Qed.
End Requests.

(** ** The theorems at concrete requests *)

Section Witnesses.
#[local] Existing Instances Ref.common Ref.urls Ref.paths ref_codes ref_rpc Sample.json_c Sample.fastotv
  sample_fs.

(** The daemon of [sample_state] has one stream, whose pipe has number 0. *)
Lemma stop_service_spec_witness :
  let '(r, s', es) := HandleRequestClientStopService "key" (Sample.answers 77) 1
                        (sample_request "stop_service" "activate") sample_state in
  stop_targets es = [0] /\ sl_quit_timer s' = Some 3.
Proof.
  assert (H : let '(r, s', es) := HandleRequestClientStopService "key" (Sample.answers 77) 1
                 (sample_request "stop_service" "activate") sample_state in
              sl_quit_timer s' = Some 3 /\ stop_targets es = omap c_client (sl_children sample_state)).
  { pose proof (stop_service_spec "key" (Sample.answers 77) 1 (sample_request "stop_service" "activate")
      sample_state {| si_license := "key"; si_delay := 0 |} eq_refl (or_introl eq_refl)) as Hs.
    destruct (HandleRequestClientStopService _ _ _ _ _) as [[r s'] es].
    assert (Hq : sl_quit_timer sample_state = None) by (vm_compute; reflexivity). rewrite Hq in Hs.
    assert (Hn : sl_next_timer sample_state = 3) by (vm_compute; reflexivity). rewrite Hn in Hs.
    split; apply Hs. }
  destruct (HandleRequestClientStopService _ _ _ _ _) as [[r s'] es]. destruct H as [Hq Ht].
  split; [|exact Hq]. rewrite Ht. vm_compute. reflexivity.
Defined.

Definition relay_args : ArgsMap :=
  <["output" := "in"]> (<["input" := "in"]> (<["feedback_directory" := "/f"]> (<["type" := "1"]> {["id" := "1"]}))).

(** With a fork that fails, the stream is reported as started. *)
Lemma CreateChildStream_resources_witness :
  act_result (CreateChildStream (Sample.answers (-1)) relay_args (daemon_init (∅ : @fs sample_fs))) = Ok tt.
Proof.
  destruct (MakeStreamInfo relay_args true (daemon_init (∅ : @fs sample_fs))) as [[r0 s1] es1] eqn:Hm.
  assert (Hr : r0 = Ok ({| si_id := "1"; si_type := RELAY; si_input := [0%Z]; si_output := [0%Z] |}, "/f", 7%Z)).
  { transitivity (act_result (MakeStreamInfo relay_args true (daemon_init (∅ : @fs sample_fs))));
      [by rewrite Hm | vm_compute; reflexivity]. }
  assert (Hs : sl_children s1 = []).
  { transitivity (sl_children (act_state (MakeStreamInfo relay_args true (daemon_init (∅ : @fs sample_fs)))));
      [by rewrite Hm | vm_compute; reflexivity]. }
  rewrite Hr in Hm.
  pose proof (CreateChildStream_resources (Sample.answers (-1)) relay_args _ _ _ _ _ _ 10%Z 11%Z Hm) as H.
  cbn [si_id] in H.
  destruct (CreateChildStream _ _ _) as [[r s'] es]. cbn [os_pipe2 Sample.answers] in H.
  assert (Hf : FindChildByID "1" s1 = None) by (unfold FindChildByID; by rewrite Hs).
  destruct (H Hf eq_refl eq_refl) as (es' & _ & Hneg & _). by destruct (Hneg eq_refl).
Defined.

(** One film and one subscriber. *)
Lemma sync_replaces_witness :
  let '(r, s', es) := HandleRequestClientSyncService 0 (sample_request "sync_service" "sync") sample_state in
  r = Ok tt /\ size (sl_vods_links s') = 1 /\
  (forall root, sl_vods_links s' !! root = last_film (sl_fs sample_state) ["film"] root).
Proof.
  assert (Hr : act_result (HandleRequestClientSyncService 0 (sample_request "sync_service" "sync") sample_state) = Ok tt /\
    size (sl_vods_links (act_state (HandleRequestClientSyncService 0 (sample_request "sync_service" "sync") sample_state))) = 1)
    by (vm_compute; split; reflexivity).
  pose proof (sync_replaces 0 (sample_request "sync_service" "sync") sample_state
    {| sy_streams := ["film"]; sy_users := ["ann"] |}) as H.
  destruct (HandleRequestClientSyncService _ _ _) as [[r s'] es]. destruct Hr as [Hr Hsz]. cbn in Hr, Hsz. subst r.
  destruct (H s' es eq_refl eq_refl) as [_ Hl]. split; [reflexivity|]. split; [exact Hsz | exact Hl].
Defined.
End Witnesses.
