(* ===== verification/Service.v ===== *)
(** * The process of the daemon

    [src/src/server/config.cpp], [src/src/server/daemon_slave.cpp] and
    [ProcessSlaveWrapper::Exec]: the configuration file, the main function, and
    the four servers with their threads. *)

From Stdlib Require Import Ascii.
From S2P Require Import Prelude Files Platform StreamTypes Stats Uris Configs Timeshift Machine ServiceInfo Protocol Commands Users Slave Daemon DaemonRequests.

(** ** The configuration file *)

(** The lines that [std::getline] takes from a text. *)
Fixpoint get_lines (s : string) : list string :=
  match s with
  | EmptyString => []
  | String c s' =>
      if Ascii.eqb c newline then "" :: get_lines s'
      else match get_lines s' with [] => [String c ""] | l :: ls => String c l :: ls end
  end.

(** [std::map::insert]: a key that is there keeps its value. *)
Definition map_insert (kv : string * string) (m : ArgsMap) : ArgsMap :=
  match m !! kv.1 with Some _ => m | None => <[kv.1 := kv.2]> m end.

(* [src/src/server/config.cpp:22-29 SERVICE_LOG_PATH_FIELD] *)
Definition service_fields : list string :=
  [ "log_path"; "log_level"; "host"; "http_host"; "vods_host"; "subscribers_host"; "bandwidth_host"; "ttl_files" ].
(* [src/src/server/config.cpp:31-31 DUMMY_LOG_FILE_PATH] *)
Definition DUMMY_LOG_FILE_PATH : string := "/dev/null".

(* [src/src/server/config.cpp:50-69 ReadSlaveConfig] *)
Definition read_line (options : ArgsMap) (line : string) : ArgsMap :=
  let pair := GetKeyValue line "=" in
  if bool_decide (pair.1 ∈ service_fields) then map_insert pair options else options.

(** [file]: the bytes of the file, if it can be opened. *)
(* [src/src/server/config.cpp:34-73 ReadSlaveConfig] *)
Definition ReadSlaveConfig (path : string) (file : option string) : outcome ArgsMap :=
  if is_empty path then Err (make_errno_error "Invalid config path" EINVAL)
  else match file with
       | None => Err (make_errno_error ("Failed to open config path: " +:+ path) EINVAL)
       | Some data => Ok (fold_left read_line (get_lines data) ∅)
       end.

(* [src/src/server/config.h:25-38 Config] *)
Record Config := {
  host : string * Z;
  log_path : string;
  log_level : Z;
  http_host : string * Z;
  vods_host : string * Z;
  subscribers_host : string * Z;
  bandwidth_host : string * Z;
  ttl_files : Z
}.

(** The numbers of [src/src/server/CMakeLists.txt]. *)
Definition CLIENT_PORT : Z := 6317.
Definition HTTP_PORT : Z := 8000.
Definition VODS_PORT : Z := 7000.
Definition SUBSCRIPERS_PORT : Z := 6000.
Definition BANDWIDTH_PORT : Z := 5000.
Definition TTL_FILES : Z := 3600.

Section Configuration.
Context `{CommonLib, !HostLib}.

(* [src/src/server/config.cpp:86-88 Config::GetDefaultHost] *)
Definition GetDefaultHost : string * Z := CreateLocalHost CLIENT_PORT.

(* [src/src/server/config.cpp:80-84 Config::Config] *)
Definition config_default : Config :=
  {| host := GetDefaultHost; log_path := DUMMY_LOG_FILE_PATH; log_level := LOG_LEVEL_INFO;
     http_host := host_port_default; vods_host := host_port_default; subscribers_host := host_port_default;
     bandwidth_host := host_port_default; ttl_files := TTL_FILES |}.

(** The default of the bandwidth host goes to the local variable of the
    subscribers' host, which has been copied already. *)
(* [src/src/server/config.cpp:90-155 load_config_from_file] *)
Definition load_config_from_file (path : string) (file : option string) : outcome Config :=
  args ← ReadSlaveConfig path file;
  let log_path := default DUMMY_LOG_FILE_PATH (args_get conv_string args "log_path") in
  let level :=
    match args_get conv_string args "log_level" with
    | Some level_str => default LOG_LEVEL_INFO (text_to_log_level level_str)
    | None => LOG_LEVEL_INFO
    end in
  let host_or k port := default (CreateLocalHost port) (args_get conv_host_port args k) in
  let bandwidth_host := default host_port_default (args_get conv_host_port args "bandwidth_host") in
  let ttl_files := default TTL_FILES (args_get conv_i64 args "ttl_files") in
  Ok {| host := host_or "host" CLIENT_PORT; log_path := log_path; log_level := level;
        http_host := host_or "http_host" HTTP_PORT; vods_host := host_or "vods_host" VODS_PORT;
        subscribers_host := host_or "subscribers_host" SUBSCRIPERS_PORT; bandwidth_host := bandwidth_host;
        ttl_files := ttl_files |}.
End Configuration.

(** *** Reference

    The value of a key is that of the first line that has it. *)

Fixpoint first_value (k : string) (lines : list string) : option string :=
  match lines with
  | [] => None
  | l :: lines => let '(k', v) := GetKeyValue l "=" in if decide (k' = k) then Some v else first_value k lines
  end.

Definition first_setting {T} (data : string) (conv : string -> option T) (k : string) : option T :=
  v ← first_value k (get_lines data); conv v.

Lemma read_line_lookup options line k :
  k ∈ service_fields ->
  read_line options line !! k =
  match options !! k with
  | Some v => Some v
  | None => let '(k', v) := GetKeyValue line "=" in if decide (k' = k) then Some v else None
  end.
Proof.
  intros Hk. unfold read_line, map_insert. destruct (GetKeyValue line "=") as [k' v]. cbn [fst snd].
  destruct (decide (k' = k)) as [->|Hne].
  - rewrite bool_decide_eq_true_2 by done. destruct (options !! k) eqn:E; [done|]. by rewrite lookup_insert_eq.
  - destruct (bool_decide (k' ∈ service_fields)); [|by destruct (options !! k)].
    destruct (options !! k') eqn:E; [|rewrite lookup_insert_ne by done]; by destruct (options !! k).
Qed.

Lemma read_lines_lookup lines options k :
  k ∈ service_fields ->
  fold_left read_line lines options !! k =
  match options !! k with Some v => Some v | None => first_value k lines end.
Proof.
  intros Hk. revert options. induction lines as [|l lines IH]; intros options; cbn [fold_left first_value].
  - by destruct (options !! k).
  - rewrite IH, read_line_lookup by done. destruct (options !! k) as [v|] eqn:E; [done|].
    destruct (GetKeyValue l "=") as [k' v]. by destruct (decide (k' = k)).
Qed.

Lemma read_lines_get {T} (conv : string -> option T) lines k :
  k ∈ service_fields -> args_get conv (fold_left read_line lines ∅) k = first_value k lines ≫= conv.
Proof. intros Hk. unfold args_get. by rewrite read_lines_lookup, lookup_empty by done. Qed.

(** *** Lines of a file that was written *)

Abbreviation no c := (string_forallb (fun x => bool_decide (x <> c))).

Lemma get_lines_line l s : no newline l = true -> get_lines (l +:+ String newline s) = l :: get_lines s.
Proof.
  induction l as [|c l IH]; intros Hl; [done|].
  change (String c l +:+ String newline s) with (String c (l +:+ String newline s)). cbn [get_lines string_forallb] in *.
  apply andb_true_iff in Hl as [Hc Hl]. apply bool_decide_eq_true in Hc.
  rewrite (proj2 (Ascii.eqb_neq _ _) Hc). by rewrite IH.
Qed.

Definition setting (kv : string * string) : string := kv.1 +:+ "=" +:+ kv.2.
Definition settings_text (l : list (string * string)) : string :=
  fold_right (fun kv s => setting kv +:+ String newline s) "" l.

Fixpoint setting_of (k : string) (l : list (string * string)) : option string :=
  match l with
  | [] => None
  | (k', v) :: l => if String.eqb k' k then Some v else setting_of k l
  end.

Lemma GetKeyValue_setting kv : no "="%char kv.1 = true -> GetKeyValue (setting kv) "=" = kv.
Proof.
  intros Hk. destruct kv as [k v]. unfold GetKeyValue, setting. cbn [fst snd] in *.
  change ("=" +:+ v) with (String "=" v). by rewrite (proj2 (split_first_spec "=" _ k v)).
Qed.

(** A list of settings without line ends, as a text, is read as an association
    list. *)
Lemma first_value_settings k l :
  Forall (fun kv => no newline kv.1 = true /\ no newline kv.2 = true /\ no "="%char kv.1 = true) l ->
  first_value k (get_lines (settings_text l)) = setting_of k l.
Proof.
  induction 1 as [|kv l (Hk & Hv & He) _ IH]; [done|]. cbn [settings_text fold_right].
  rewrite get_lines_line.
  - cbn [first_value]. rewrite GetKeyValue_setting by done. destruct kv as [k' v]. cbn [setting_of].
    destruct (decide (k' = k)) as [->|Hne]; [by rewrite String.eqb_refl|].
    by rewrite (proj2 (String.eqb_neq _ _) Hne), <-IH.
  - unfold setting. by rewrite !string_forallb_app, Hk, Hv.
Qed.

Section ConfigurationTheorems.
Context `{CommonLibOk, !HostLib, !HostLibOk}.

(** Every setting of the daemon is the value of the first line of the file
    that has its key, if that converts, and its default otherwise; but the host
    for measuring the bandwidth has no default: a file that does not set it leaves
    an empty address. *)
Theorem load_config_spec path data :
  path <> "" ->
  load_config_from_file path (Some data) =
  Ok {| host := default (CreateLocalHost 6317) (first_setting data conv_host_port "host");
        log_path := default "/dev/null" (first_setting data conv_string "log_path");
        log_level := default LOG_LEVEL_INFO (first_setting data text_to_log_level "log_level");
        http_host := default (CreateLocalHost 8000) (first_setting data conv_host_port "http_host");
        vods_host := default (CreateLocalHost 7000) (first_setting data conv_host_port "vods_host");
        subscribers_host := default (CreateLocalHost 6000) (first_setting data conv_host_port "subscribers_host");
        bandwidth_host := default host_port_default (first_setting data conv_host_port "bandwidth_host");
        ttl_files := default 3600%Z (first_setting data conv_i64 "ttl_files") |}.
Proof.
  intros Hp. unfold first_setting, load_config_from_file, ReadSlaveConfig. destruct path; [done|]. cbn [is_empty mbind outcome_bind].
  rewrite !read_lines_get by (by apply (bool_decide_eq_true_1 (_ ∈ service_fields))).
  by destruct (first_value "log_level" (get_lines data)).
Qed.

(** [service.conf.in], the file that is installed, filled in. *)
Definition service_conf (c : Config) (level : string) : string :=
  settings_text
    [ ("log_path", log_path c); ("log_level", level);
      ("host", host_port_to_string (host c)); ("http_host", host_port_to_string (http_host c));
      ("vods_host", host_port_to_string (vods_host c));
      ("subscribers_host", host_port_to_string (subscribers_host c));
      ("bandwidth_host", host_port_to_string (bandwidth_host c)); ("ttl_files", show_u (ttl_files c)) ].

Definition plain_host (h : string * Z) : Prop := in_u 16 h.2 /\ no newline (host_port_to_string h) = true.
Definition config_ok (c : Config) : Prop :=
  no newline (log_path c) = true /\ plain_host (host c) /\ plain_host (http_host c) /\ plain_host (vods_host c) /\
  plain_host (subscribers_host c) /\ plain_host (bandwidth_host c) /\ (0 <= ttl_files c < 2 ^ 63)%Z.

(** A configuration that is written in the form of the installed file is read
    back as it was. *)
Theorem service_conf_loads path c level :
  path <> "" -> config_ok c -> no newline level = true -> text_to_log_level level = Some (log_level c) ->
  load_config_from_file path (Some (service_conf c level)) = Ok c.
Proof.
  intros Hp (Hlp & [Hh1 Hn1] & [Hh2 Hn2] & [Hh3 Hn3] & [Hh4 Hn4] & [Hh5 Hn5] & Ht) Hl Hlv.
  unfold load_config_from_file, ReadSlaveConfig. destruct path; [done|]. cbn [is_empty mbind outcome_bind].
  rewrite !read_lines_get by (by apply (bool_decide_eq_true_1 (_ ∈ service_fields))). unfold service_conf.
  rewrite !first_value_settings.
  1: cbn; rewrite !conv_host_port_print, conv_i64_show, Hlv by done; by destruct c.
  all: assert (no newline (show_u (ttl_files c)) = true) by (apply show_u_no; [done|lia]).
  all: repeat (apply Forall_cons; split; [by repeat split|]); by apply Forall_nil.
Qed.
End ConfigurationTheorems.

(** ** The servers and their threads *)

(** What [Bind] and [Listen] of a server answer. *)
Record server_start := { ss_bind : option error; ss_listen : option error }.

Definition gets_port (s : server_start) : bool :=
  match ss_bind s, ss_listen s with None, None => true | _, _ => false end.

(** Whether the thread of a server ends: its loop runs until it is stopped. *)
(* [src/src/server/process_slave_wrapper.cpp:406-421 ProcessSlaveWrapper::Exec] *)
Definition server_thread (s : server_start) (stopped : bool) : bool :=
  match ss_bind s with
  | Some _ => true
  | None => match ss_listen s with Some _ => true | None => stopped end
  end.

(** What the system answers while the daemon runs. [ea_loop]: the loop of the
    daemon, its result and the servers that were stopped in it, if it ends;
    [ea_perf]: the monitor of a graphics card, if there is one, and whether its
    thread ends when it is stopped. *)
Record exec_answers := {
  ea_library : bool;
  ea_symbol : bool;
  ea_perf : option bool;
  ea_http : server_start;
  ea_vods : server_start;
  ea_subscribers : server_start;
  ea_daemon : server_start;
  ea_stat : option string;
  ea_net_dev : option string;
  ea_garbage : nat -> Z;
  ea_now : Z;
  ea_loop : NodeStats -> option (Z * list string)
}.

Definition EXIT_SUCCESS : Z := 0.
Definition EXIT_FAILURE : Z := 1.

(** The loop of the daemon's own server; [finished] is the label behind it. *)
(* [src/src/server/process_slave_wrapper.cpp:460-477 ProcessSlaveWrapper::Exec] *)
Definition daemon_loop (ea : exec_answers) (gpu_load : Z) : outcome (option (Z * list string)) :=
  match ss_bind (ea_daemon ea), ss_listen (ea_daemon ea) with
  | None, None =>
      prev ← GetMachineCpuShot (ea_garbage ea) (ea_stat ea);
      prev_nshot ← GetMachineNetShot (ea_garbage ea) (ea_net_dev ea);
      Ok (ea_loop ea {| ns_prev := prev; ns_prev_nshot := prev_nshot; ns_gpu_load := gpu_load; ns_timestamp := ea_now ea |})
  | _, _ => Ok (Some (EXIT_FAILURE, []))
  end.

(** The threads that are joined after the loop. *)
(* [src/src/server/process_slave_wrapper.cpp:479-489 ProcessSlaveWrapper::Exec] *)
Definition threads_end (ea : exec_answers) (stopped : list string) : bool :=
  server_thread (ea_subscribers ea) (bool_decide ("subscribers_server" ∈ stopped)) &&
  server_thread (ea_vods ea) (bool_decide ("vods_server" ∈ stopped)) &&
  server_thread (ea_http ea) (bool_decide ("http_server" ∈ stopped)) &&
  default true (ea_perf ea).

(** [None]: it never returns. *)
(* [src/src/server/process_slave_wrapper.cpp:377-493 ProcessSlaveWrapper::Exec] *)
Definition Exec (ea : exec_answers) (gpu_load : Z) : outcome (option Z) :=
  if negb (ea_library ea) then Ok (Some EXIT_FAILURE)
  else if negb (ea_symbol ea) then Ok (Some EXIT_FAILURE)
  else
    loop ← daemon_loop ea gpu_load;
    Ok (match loop with
        | Some (res, stopped) => if threads_end ea stopped then Some res else None
        | None => None
        end).

(** The hosts that the servers are made with. *)
(* [src/src/server/process_slave_wrapper.cpp:297-332 ProcessSlaveWrapper::ProcessSlaveWrapper] *)
Definition server_hosts (config : Config) : list (string * (string * Z)) :=
  [ ("client_server", host config); ("http_server", http_host config); ("vods_server", vods_host config);
    ("subscribers_server", subscribers_host config) ].

(** Those that a client is told. *)
(* [src/src/server/process_slave_wrapper.cpp:1545-1552 ProcessSlaveWrapper::MakeServiceStats] *)
Definition service_hosts_of (config : Config) : service_hosts :=
  {| sh_http := http_host config; sh_vods := vods_host config; sh_subscribers := subscribers_host config;
     sh_bandwidth := bandwidth_host config |}.

(** ** The main function *)

Inductive command := ShowVersion | ShowHelp | BadOption | RequestStop | Serve (run_as_daemon : bool).

(** The first option that is not [--daemon] decides. *)
(* [src/src/server/daemon_slave.cpp:78-100 main] *)
Fixpoint parse_args (run_as_daemon : bool) (argv : list string) : command :=
  match argv with
  | [] => Serve run_as_daemon
  | arg :: argv =>
      if String.eqb arg "--version" then ShowVersion
      else if String.eqb arg "--daemon" then parse_args true argv
      else if String.eqb arg "--stop" then RequestStop
      else if String.eqb arg "--help" || String.eqb arg "-h" then ShowHelp
      else BadOption
  end.

Record main_answers := {
  ma_hardware : option string;       (* the hash of the machine *)
  ma_config : option string;         (* the bytes of the configuration file *)
  ma_connect : bool;
  ma_write_request : bool;
  ma_as_daemon : bool;
  ma_dir_exists : bool;
  ma_create_dir : option error;
  ma_access : option error;
  ma_open : option error;
  ma_lock : option error;
  ma_write : option error;
  ma_unlock : option error;
  ma_remove : option error;
  ma_exec : exec_answers
}.

Section Main.
Context `{JsonC, !HostLib, !RpcLib}.

(** Fixed when the program is built: the license, the paths of the configuration
    and of the file of the process number, and the directory of that. *)
Variables (LICENSE_KEY config_path pid_dir : string).

Inductive main_event :=
| StopSent (host : string * Z) (r : request_t)
| MakeDirectory
| OpenPidFile
| LockPidFile
| WritePidFile
| RunService (license : string) (config : Config)
| UnlockPidFile
| RemovePidFile.

(* [src/src/server/daemon_slave.cpp:49-74 create_license_key] *)
Definition create_license_key (hardware : option string) : option string :=
  match hardware with
  | Some license_key => if String.eqb license_key LICENSE_KEY then Some license_key else None
  | None => None
  end.

Definition failed (err : option error) : bool := match err with Some _ => true | None => false end.

(** Reports and ends the process if the step has failed. *)
Definition or_exit (wrong : bool) (k : hact unit main_event (option Z)) : hact unit main_event (option Z) :=
  if wrong then mret (Some EXIT_FAILURE) else k.

(** The directory of the file: a directory that was made is taken for one that
    could not be made, and the other way round. *)
(* [src/src/server/daemon_slave.cpp:125-130 main] *)
Definition pid_directory (ma : main_answers) (k : hact unit main_event (option Z)) : hact unit main_event (option Z) :=
  if ma_dir_exists ma then k
  else hemit MakeDirectory ;; or_exit (negb (failed (ma_create_dir ma))) k.

(* [src/src/server/daemon_slave.cpp:102-186 main] *)
Definition serve (ma : main_answers) (run_as_daemon : bool) : hact unit main_event (option Z) :=
  match load_config_from_file config_path (ma_config ma) with
  | Abort r => hlift (Abort r)
  | Err _ => mret (Some EXIT_FAILURE)
  | Ok config =>
      or_exit (run_as_daemon && negb (ma_as_daemon ma)) (
      or_exit (is_empty pid_dir) (
      pid_directory ma (
      or_exit (failed (ma_access ma)) (
      hemit OpenPidFile ;;
      or_exit (failed (ma_open ma)) (
      hemit LockPidFile ;;
      or_exit (failed (ma_lock ma)) (
      hemit WritePidFile ;;
      or_exit (failed (ma_write ma)) (
      match create_license_key (ma_hardware ma) with
      | None => mret (Some EXIT_FAILURE)
      | Some license_key =>
          hemit (RunService license_key config) ;;
          res ← hlift (Exec (ma_exec ma) 0);
          match res with
          | None => mret None
          | Some res =>
              hemit UnlockPidFile ;;
              or_exit (failed (ma_unlock ma)) (hemit RemovePidFile ;; mret (Some res))
          end
      end)))))))
  end.

(** The status of the process; [None]: it goes on. *)
(* [src/src/server/daemon_slave.cpp:77-186 main] *)
Definition main (ma : main_answers) (argv : list string) : hact unit main_event (option Z) :=
  match parse_args false argv with
  | ShowVersion | ShowHelp => mret (Some EXIT_SUCCESS)
  | BadOption => mret (Some EXIT_FAILURE)
  | RequestStop =>
      match create_license_key (ma_hardware ma) with
      | None => mret (Some EXIT_FAILURE)
      | Some license_key =>
          let '(status, requests) := SendStopDaemonRequest license_key (ma_connect ma) (ma_write_request ma) in
          hact_iter (fun r => hemit (StopSent GetDefaultHost r)) requests ;; mret (Some status)
      end
  | Serve run_as_daemon => serve ma run_as_daemon
  end.
End Main.

(** ** Theorems *)

Lemma server_thread_spec s stopped : server_thread s stopped = negb (gets_port s) || stopped.
Proof. unfold server_thread, gets_port. by destruct (ss_bind s), (ss_listen s), stopped. Qed.

(** Whether a thread would go on for ever if nobody stopped a server. *)
Definition thread_left (ea : exec_answers) : bool :=
  gets_port (ea_subscribers ea) || gets_port (ea_vods ea) || gets_port (ea_http ea) || negb (default true (ea_perf ea)).

(** If the daemon cannot have its port, its process does not end unless none
    of the three other servers got theirs: the threads of those that did are
    waited for, and nobody stops them. *)
Theorem daemon_without_port ea gpu_load :
  ea_library ea = true -> ea_symbol ea = true -> gets_port (ea_daemon ea) = false ->
  Exec ea gpu_load = Ok (if thread_left ea then None else Some EXIT_FAILURE).
Proof.
  intros Hl Hs Hd. unfold Exec, daemon_loop. rewrite Hl, Hs. unfold gets_port in Hd. cbn [negb].
  assert (Ht : threads_end ea [] = negb (thread_left ea)).
  { unfold threads_end, thread_left. rewrite !server_thread_spec, !negb_orb, !bool_decide_eq_false_2 by apply not_elem_of_nil.
    by rewrite !orb_false_r, negb_involutive. }
  destruct (ss_bind (ea_daemon ea)), (ss_listen (ea_daemon ea)); cbn [mbind outcome_bind]; rewrite ?Ht;
    try done; by destruct (thread_left ea).
Qed.

Lemma Exec_stopped ea gpu_load cpu net res stopped :
  ea_library ea = true -> ea_symbol ea = true -> gets_port (ea_daemon ea) = true ->
  GetMachineCpuShot (ea_garbage ea) (ea_stat ea) = Ok cpu -> GetMachineNetShot (ea_garbage ea) (ea_net_dev ea) = Ok net ->
  ea_loop ea {| ns_prev := cpu; ns_prev_nshot := net; ns_gpu_load := gpu_load; ns_timestamp := ea_now ea |} =
    Some (res, stopped) ->
  default true (ea_perf ea) = true ->
  Forall (fun name => name ∈ stopped) ["subscribers_server"; "vods_server"; "http_server"] ->
  Exec ea gpu_load = Ok (Some res).
Proof.
  intros Hl Hs Hd Hc Hn Hloop Hp (H1 & (H2 & (H3 & _)%Forall_cons)%Forall_cons)%Forall_cons.
  unfold Exec, daemon_loop. rewrite Hl, Hs. unfold gets_port in Hd.
  destruct (ss_bind (ea_daemon ea)), (ss_listen (ea_daemon ea)); try done.
  rewrite Hc. cbn [mbind outcome_bind]. rewrite Hn. cbn [mbind outcome_bind negb]. rewrite Hloop.
  unfold threads_end. rewrite !server_thread_spec, !bool_decide_eq_true_2, Hp, !orb_true_r by done. done.
Qed.

Section StopTheorem.
Context `{JsonCOk, !FastotvLib, !UrlLib, !PathLib, !StreamTypes.UnnamedCodes, !RpcLib, !FsLib}.

Definition stopped_servers (es : list slave_event) : list string :=
  omap (fun e => match e with StopServer name => Some name | _ => None end) es.

(** The timers have numbers that were given out. *)
Definition timers_given (s : slave) : Prop :=
  Forall (fun t => t <> Some (sl_next_timer s)) [sl_ping_timer s; sl_stats_timer s; sl_cleanup_timer s].

Lemma quit_timer_stops os s n :
  sl_quit_timer s = Some n ->
  Forall (fun t => t <> Some n) [sl_ping_timer s; sl_stats_timer s; sl_cleanup_timer s] ->
  slave_TimerEmited os n s =
  (Ok tt, s, StopServer <$> ["subscribers_server"; "vods_server"; "http_server"; "client_server"]).
Proof.
  intros Hq (Hpi & (Hst & (Hcl & _)%Forall_cons)%Forall_cons)%Forall_cons.
  unfold slave_TimerEmited, mbind at 1, hact_bind at 1, hgets. by rewrite !decide_False, decide_True by done.
Qed.

(** C16: the option [--stop] ends a daemon: the request that it sends is accepted
    from a client that was never activated, if both have the license of the same
    machine; it makes a timer, at which the daemon stops its four servers, and
    then its process returns what its loop returned. *)
Theorem stop_option_ends_daemon license log_path os c text parse pop s :
  let info := service_StopInfo_SerializeFields {| si_license := license; si_delay := 0 |} json_new_object in
  let req := StopServiceRequest (MakeRequestID 0) (json_to_string info) in
  license <> "" -> json_tokener_parse (json_to_string info) = Some info -> parse text = ParsedRequest req ->
  sl_quit_timer s = None -> timers_given s ->
  SendStopDaemonRequest license true true = (EXIT_SUCCESS, [req]) /\
  let '(r1, s1, es1) := DataReceived_client license log_path os c (inl text) parse pop s in
  let '(r2, s2, es2) := slave_TimerEmited os (sl_next_timer s) s1 in
  r1 = Ok tt /\ r2 = Ok tt /\ CreateTimer (sl_next_timer s) 3 false ∈ es1 /\
  forall ea gpu_load cpu net res,
    ea_library ea = true -> ea_symbol ea = true -> gets_port (ea_daemon ea) = true ->
    GetMachineCpuShot (ea_garbage ea) (ea_stat ea) = Ok cpu -> GetMachineNetShot (ea_garbage ea) (ea_net_dev ea) = Ok net ->
    default true (ea_perf ea) = true ->
    ea_loop ea {| ns_prev := cpu; ns_prev_nshot := net; ns_gpu_load := gpu_load; ns_timestamp := ea_now ea |} =
      Some (res, stopped_servers es2) ->
    Exec ea gpu_load = Ok (Some res).
Proof.
  intros info req Hl Hj Hp Hq Ht. split; [by destruct license|].
  assert (Hi : parse_params service_StopInfo_DoDeSerialize (req_params req) = Ok {| si_license := license; si_delay := 0 |}).
  { unfold parse_params. cbn [req_params req StopServiceRequest mbind option_bind]. rewrite Hj.
    cbn [DeSerialize]. unfold info. rewrite stop_info_roundtrip by int_range. done. }
  unfold DataReceived_client, DaemonDataReceived, htry, mbind, hact_bind. rewrite Hp, dispatch_stop by done.
  rewrite (stop_service_started license os c req s _ Hi (or_introl eq_refl) Hq). cbn.
  rewrite quit_timer_stops by done.
  split_and!; [done..| |].
  - rewrite !app_nil_r. apply elem_of_app. right. apply elem_of_cons. right. by apply list_elem_of_singleton.
  - intros ea gpu cpu net res. intros. eapply Exec_stopped; [done..|]. cbn.
    repeat (apply Forall_cons; split; [by apply (bool_decide_eq_true_1 (_ ∈ _))|]). by apply Forall_nil.
Qed.
End StopTheorem.

Section MainTheorems.
Context `{JsonC, !HostLib, !RpcLib}.
Variables (LICENSE_KEY config_path pid_dir : string).

Lemma or_exit_run wrong k :
  or_exit wrong k tt = if wrong then (Ok (Some EXIT_FAILURE), tt, []) else k tt.
Proof. by destruct wrong. Qed.

Lemma emit_then (e : main_event) (k : hact unit main_event (option Z)) :
  (hemit e ;; k) tt = let '(r, s, es) := k tt in (r, s, e :: es).
Proof. unfold mbind, hact_bind, hemit. by destruct (k tt) as [[r []] es]. Qed.

(** The service, with what surrounds it once the file is written. *)
Definition guarded_run (ma : main_answers) (config : Config) : outcome (option Z) * unit * list main_event :=
  match Exec (ma_exec ma) 0 with
  | Abort r => (Abort r, tt, [RunService LICENSE_KEY config])
  | Err e => (Err e, tt, [RunService LICENSE_KEY config])
  | Ok None => (Ok None, tt, [RunService LICENSE_KEY config])
  | Ok (Some res) =>
      if failed (ma_unlock ma) then (Ok (Some EXIT_FAILURE), tt, [RunService LICENSE_KEY config; UnlockPidFile])
      else (Ok (Some res), tt, [RunService LICENSE_KEY config; UnlockPidFile; RemovePidFile])
  end.

(** Everything behind the directory of the file. *)
Definition after_directory (ma : main_answers) (config : Config) : outcome (option Z) * unit * list main_event :=
  let stop es := (Ok (Some EXIT_FAILURE), tt, es) in
  if failed (ma_access ma) then stop []
  else if failed (ma_open ma) then stop [OpenPidFile]
  else if failed (ma_lock ma) then stop [OpenPidFile; LockPidFile]
  else if failed (ma_write ma) then stop [OpenPidFile; LockPidFile; WritePidFile]
  else if bool_decide (ma_hardware ma = Some LICENSE_KEY) then
    let '(r, s, es) := guarded_run ma config in (r, s, [OpenPidFile; LockPidFile; WritePidFile] ++ es)
  else stop [OpenPidFile; LockPidFile; WritePidFile].

Lemma create_license_key_spec hardware :
  create_license_key LICENSE_KEY hardware = if bool_decide (hardware = Some LICENSE_KEY) then Some LICENSE_KEY else None.
Proof.
  destruct hardware as [k|]; [|done]. cbn. destruct (String.eqb_spec k LICENSE_KEY) as [->|Hne].
  - by rewrite bool_decide_eq_true_2.
  - rewrite bool_decide_eq_false_2; [done|congruence].
Qed.

Lemma serve_cases ma run_as_daemon config :
  load_config_from_file config_path (ma_config ma) = Ok config ->
  run_as_daemon && negb (ma_as_daemon ma) = false -> pid_dir <> "" ->
  serve LICENSE_KEY config_path pid_dir ma run_as_daemon tt =
  if ma_dir_exists ma then after_directory ma config
  else if failed (ma_create_dir ma) then
    let '(r, s, es) := after_directory ma config in (r, s, MakeDirectory :: es)
  else (Ok (Some EXIT_FAILURE), tt, [MakeDirectory]).
Proof.
  intros Hc Hd Hp. unfold serve. rewrite Hc, or_exit_run, Hd, or_exit_run.
  assert (He : is_empty pid_dir = false) by (by destruct pid_dir). rewrite He. unfold pid_directory.
  match goal with |- context[if ma_dir_exists ma then ?k else _] => assert (Hk : k tt = after_directory ma config) end.
  { unfold after_directory.
    rewrite or_exit_run. destruct (failed (ma_access ma)); [done|].
    rewrite emit_then, or_exit_run. destruct (failed (ma_open ma)); [done|].
    rewrite emit_then, or_exit_run. destruct (failed (ma_lock ma)); [done|].
    rewrite emit_then, or_exit_run. destruct (failed (ma_write ma)); [done|].
    rewrite create_license_key_spec. destruct (bool_decide _); [|done].
    rewrite emit_then. unfold guarded_run, hlift, mbind, hact_bind.
    destruct (Exec (ma_exec ma) 0) as [[res|]|e|r]; try done. unfold hemit. cbn.
    by destruct (failed (ma_unlock ma)). }
  destruct (ma_dir_exists ma); [exact Hk|].
  rewrite emit_then, or_exit_run. destruct (failed (ma_create_dir ma)); cbn [negb]; [by rewrite Hk|done].
Qed.

(** On a machine without the directory of its file, the service ends when it
    has just made that directory, and with a failure; if the directory cannot be
    made, it goes on as if it were there. *)
Theorem pid_directory_inverted ma run_as_daemon config :
  load_config_from_file config_path (ma_config ma) = Ok config ->
  run_as_daemon && negb (ma_as_daemon ma) = false -> pid_dir <> "" -> ma_dir_exists ma = false ->
  serve LICENSE_KEY config_path pid_dir ma run_as_daemon tt =
  match ma_create_dir ma with
  | None => (Ok (Some EXIT_FAILURE), tt, [MakeDirectory])
  | Some _ => let '(r, s, es) := after_directory ma config in (r, s, MakeDirectory :: es)
  end.
Proof.
  intros Hc Hd Hp Hx. rewrite (serve_cases ma run_as_daemon config) by done. rewrite Hx. by destruct (ma_create_dir ma).
Qed.

(** The service is not among the events that are listed. *)
Ltac no_run Hin :=
  exfalso; unfold mret, hact_ret, hlift in *; simplify_eq/=; repeat (apply elem_of_cons in Hin as [Hin|Hin]; [discriminate Hin|]); by apply elem_of_nil in Hin.

Lemma after_directory_runs ma config license config' r es :
  after_directory ma config = (r, tt, es) -> RunService license config' ∈ es ->
  config' = config /\ license = LICENSE_KEY /\ ma_hardware ma = Some LICENSE_KEY /\ ma_lock ma = None /\
  exists after, es = [OpenPidFile; LockPidFile; WritePidFile; RunService LICENSE_KEY config] ++ after /\
    match Exec (ma_exec ma) 0 with
    | Ok (Some _) => after = [UnlockPidFile] \/ after = [UnlockPidFile; RemovePidFile]
    | _ => after = []
    end.
Proof.
  unfold after_directory. intros Hr Hin.
  destruct (failed (ma_access ma)); [no_run Hin|].
  destruct (failed (ma_open ma)); [no_run Hin|].
  destruct (ma_lock ma) as [e|]; [no_run Hin|].
  cbn [failed] in Hr.
  destruct (failed (ma_write ma)); [no_run Hin|].
  case_bool_decide as Hk; [|no_run Hin].
  unfold guarded_run in Hr.
  destruct (Exec (ma_exec ma) 0) as [[res|]|e|a]; [destruct (failed (ma_unlock ma))|..]; simplify_eq;
    repeat (apply elem_of_cons in Hin as [Hin|Hin]; [try done|]); try (by apply elem_of_nil in Hin); simplify_eq;
    split_and!; try done; eexists; (split; [reflexivity|]); tauto.
Qed.

(** C17: the service runs only in a process that has the license of its machine,
    a configuration that could be read, and the lock on the file of the process
    number, which it has written; and that file is unlocked, and then removed,
    only after the service has returned. *)
Theorem service_holds_pid_file ma argv r es license config :
  main LICENSE_KEY config_path pid_dir ma argv tt = (r, tt, es) -> RunService license config ∈ es ->
  load_config_from_file config_path (ma_config ma) = Ok config /\
  license = LICENSE_KEY /\ ma_hardware ma = Some LICENSE_KEY /\ ma_lock ma = None /\
  exists before after,
    es = before ++ [OpenPidFile; LockPidFile; WritePidFile; RunService LICENSE_KEY config] ++ after /\
    (before = [] \/ before = [MakeDirectory]) /\
    match Exec (ma_exec ma) 0 with
    | Ok (Some _) => after = [UnlockPidFile] \/ after = [UnlockPidFile; RemovePidFile]
    | _ => after = []
    end.
Proof.
  intros Hm Hin. unfold main in Hm. destruct (parse_args false argv) as [| | | |d]; [no_run Hin..| |].
  { destruct (create_license_key LICENSE_KEY (ma_hardware ma)) as [k|]; [|no_run Hin].
    unfold SendStopDaemonRequest in Hm. destruct (is_empty k), (ma_connect ma); unfold mbind, hact_bind in Hm; cbn in Hm; no_run Hin. }
  destruct (load_config_from_file config_path (ma_config ma)) as [config0|e|a] eqn:Hc;
    [|unfold serve in Hm; rewrite Hc in Hm; no_run Hin..].
  destruct (d && negb (ma_as_daemon ma)) eqn:Hd.
  { unfold serve in Hm. rewrite Hc, or_exit_run, Hd in Hm. no_run Hin. }
  destruct (decide (pid_dir = "")) as [Hp|Hp].
  { unfold serve in Hm. rewrite Hc, or_exit_run, Hd, or_exit_run, Hp in Hm. no_run Hin. }
  rewrite (serve_cases ma d config0) in Hm by done.
  destruct (after_directory ma config0) as [[r0 []] es0] eqn:Ha.
  destruct (ma_dir_exists ma); [|destruct (failed (ma_create_dir ma))]; simplify_eq.
  - destruct (after_directory_runs _ _ _ _ _ _ Ha Hin) as (-> & -> & ? & ? & after & -> & ?).
    split_and!; try done. exists [], after. tauto.
  - apply elem_of_cons in Hin as [?|Hin]; [done|].
    destruct (after_directory_runs _ _ _ _ _ _ Ha Hin) as (-> & -> & ? & ? & after & -> & ?).
    split_and!; try done. exists [MakeDirectory], after. tauto.
  - no_run Hin.
Qed.
End MainTheorems.

(** ** The theorems at concrete files and answers *)

Section Witnesses.
#[local] Existing Instances Ref.common Ref.hosts Ref.urls Ref.paths ref_codes ref_rpc sample_fs.

Definition two_hosts : string :=
  settings_text [("host", "1.2.3.4:1"); ("host", "5.6.7.8:2"); ("log_level", "DEBUG"); ("other", "x")].

Lemma load_config_spec_witness :
  exists c, load_config_from_file "/etc/service.conf" (Some two_hosts) = Ok c /\
    host c = ("1.2.3.4", 1%Z) /\ subscribers_host c = ("127.0.0.1", 6000%Z) /\ bandwidth_host c = ("", 0%Z) /\
    log_level c = 7%Z.
Proof.
  eexists. split; [apply (@load_config_spec Ref.common Ref.hosts "/etc/service.conf" two_hosts); done|].
  repeat split; vm_compute; reflexivity.
Defined.

Definition sample_config : Config :=
  {| host := ("127.0.0.1", 6317%Z); log_path := "/dev/null"; log_level := 7; http_host := ("127.0.0.1", 8000%Z);
     vods_host := ("127.0.0.1", 7000%Z); subscribers_host := ("127.0.0.1", 6000%Z);
     bandwidth_host := ("127.0.0.1", 5000%Z); ttl_files := 3600 |}.

Lemma service_conf_loads_witness :
  config_ok sample_config /\
  load_config_from_file "/etc/service.conf" (Some (service_conf sample_config "DEBUG")) = Ok sample_config.
Proof.
  assert (Hok : config_ok sample_config) by (repeat split; int_range || (vm_compute; reflexivity)).
  split; [exact Hok|].
  apply (@service_conf_loads Ref.common Ref.common_ok Ref.hosts Ref.hosts_ok "/etc/service.conf" sample_config "DEBUG");
    [done|exact Hok|vm_compute; reflexivity|vm_compute; reflexivity].
Defined.

Definition port_free : server_start := {| ss_bind := None; ss_listen := None |}.
Definition port_taken : server_start := {| ss_bind := Some error_inval; ss_listen := None |}.
Definition sample_exec (daemon : server_start) (loop : NodeStats -> option (Z * list string)) : exec_answers :=
  {| ea_library := true; ea_symbol := true; ea_perf := None; ea_http := port_free; ea_vods := port_taken;
     ea_subscribers := port_free; ea_daemon := daemon;
     ea_stat := Some ("cpu  100 0 50 1000 0 0 0 0 0 0" +:+ String newline ""); ea_net_dev := None;
     ea_garbage := fun _ => 0%Z; ea_now := 1000; ea_loop := loop |}.

Lemma daemon_without_port_witness :
  Exec (sample_exec port_taken (fun _ => None)) 0 = Ok None.
Proof. apply (daemon_without_port (sample_exec port_taken (fun _ => None)) 0); reflexivity. Defined.

Definition stop_texts (s : string) : option Ref.value :=
  if decide (s = "{}") then Some (Ref.JObject [Sample.str "license_key" "key"; ("delay", Some (Ref.JInt 0))]) else None.
#[local] Instance stop_json : JsonC := Ref.json_c stop_texts.
#[local] Instance stop_fastotv : FastotvLib := ref_fastotv.
Definition stop_message (s : string) : rpc_parsed :=
  ParsedRequest (StopServiceRequest (MakeRequestID 0) "{}").

Lemma stop_option_ends_daemon_witness :
  let s := ClientConnected 1 (act_state (PreLooped 3600 (daemon_init (∅ : fs)))) in
  let s1 := act_state (DataReceived_client "key" "/log" (Sample.answers 77) 1 (inl "stop") stop_message (fun _ => None) s) in
  let es2 := act_events (slave_TimerEmited (Sample.answers 77) (sl_next_timer s) s1) in
  IsVerified 1 s = false /\
  Exec (sample_exec port_free (fun _ => Some (0%Z, stopped_servers es2))) 0 = Ok (Some 0%Z).
Proof.
  cbv zeta. split; [reflexivity|].
  set (s := ClientConnected 1 (act_state (PreLooped 3600 (daemon_init (∅ : fs))))).
  assert (Ht : timers_given s).
  { unfold timers_given. repeat (apply Forall_cons; split; [vm_compute; discriminate|]). by apply Forall_nil. }
  pose proof (@stop_option_ends_daemon Ref.common stop_json (Ref.json_c_ok _) stop_fastotv Ref.urls Ref.paths ref_codes
    ref_rpc sample_fs "key" "/log" (Sample.answers 77) 1 "stop" stop_message (fun _ => None) s
    ltac:(discriminate) eq_refl eq_refl eq_refl Ht) as [_ Hs].
  destruct (DataReceived_client _ _ _ _ _ _ _ s) as [[r1 s1] es1]. change (act_state (r1, s1, es1)) with s1.
  destruct (slave_TimerEmited _ _ s1) as [[r2 s2] es2]. change (act_events (r2, s2, es2)) with es2.
  destruct Hs as (_ & _ & _ & Hs).
  eapply (Hs (sample_exec port_free (fun _ => Some (0%Z, stopped_servers es2))) 0%Z); reflexivity.
Defined.

Definition sample_main (dir_exists : bool) (create_dir : option error) : main_answers :=
  {| ma_hardware := Some "key"; ma_config := Some (service_conf sample_config "DEBUG"); ma_connect := true;
     ma_write_request := true; ma_as_daemon := true; ma_dir_exists := dir_exists; ma_create_dir := create_dir;
     ma_access := None; ma_open := None; ma_lock := None; ma_write := None; ma_unlock := None; ma_remove := None;
     ma_exec := sample_exec port_free (fun _ => Some (0%Z, ["subscribers_server"; "vods_server"; "http_server"])) |}.

Lemma service_holds_pid_file_witness :
  exists es, main "key" "/etc/service.conf" "/run" (sample_main true None) ["--daemon"] tt = (Ok (Some 0%Z), tt, es) /\
    exists before after, es = before ++ [OpenPidFile; LockPidFile; WritePidFile; RunService "key" sample_config] ++ after.
Proof.
  destruct (main "key" "/etc/service.conf" "/run" (sample_main true None) ["--daemon"] tt) as [[r []] es] eqn:Hm.
  assert (He : es = [OpenPidFile; LockPidFile; WritePidFile; RunService "key" sample_config; UnlockPidFile; RemovePidFile]).
  { transitivity (act_events (main "key" "/etc/service.conf" "/run" (sample_main true None) ["--daemon"] tt));
      [by rewrite Hm|vm_compute; reflexivity]. }
  assert (Hr : r = Ok (Some 0%Z)).
  { transitivity (act_result (main "key" "/etc/service.conf" "/run" (sample_main true None) ["--daemon"] tt));
      [by rewrite Hm|vm_compute; reflexivity]. }
  exists es. rewrite Hr. split; [done|].
  destruct (service_holds_pid_file "key" "/etc/service.conf" "/run" (sample_main true None) ["--daemon"] r es "key" sample_config Hm)
    as (_ & _ & _ & _ & before & after & Hes & _).
  - rewrite He. do 3 (apply elem_of_cons; right). apply elem_of_cons. by left.
  - by exists before, after.
Defined.

Lemma pid_directory_inverted_witness :
  serve "key" "/etc/service.conf" "/run" (sample_main false None) true tt = (Ok (Some 1%Z), tt, [MakeDirectory]).
Proof.
  apply (pid_directory_inverted "key" "/etc/service.conf" "/run" (sample_main false None) true sample_config);
    [vm_compute; reflexivity|reflexivity|discriminate|reflexivity].
Defined.
End Witnesses.
