(* ===== verification/StreamProcess.v ===== *)
(** * The process of a stream

    [src/src/stream/stream_wrapper.cpp], [StreamController] of
    [src/src/stream/stream_controller.cpp] and what it sends: from the arguments
    of the process to the loop that makes one stream after the other, and from a
    change of a stream to the clients of the daemon. *)

From Stdlib Require Import Ascii.
From S2P Require Import Prelude Platform StreamTypes Stats StatsInfo Constants Uris Configs Builders BaseStream Timeshift Protocol Controller Commands Users Slave Daemon DaemonRequests.

(** ** GStreamer's environment *)

(** The variables of the environment that are set; GStreamer is set up once in a
    process. *)
(* [src/src/stream/ibase_stream.cpp:108-156 streams_init] *)
Definition streams_init (initialized debug : bool) (enc : EncoderType) : list (string * string) :=
  if initialized then []
  else
    match enc with
    | GPU_MFX => [("LIBVA_DRIVER_NAME", "iHD"); ("LIBVA_DRIVERS_PATH", "/opt/intel/mediasdk/lib64")]
    | GPU_VAAPI => [("LIBVA_DRIVER_NAME", "i965"); ("LIBVA_DRIVERS_PATH", "/usr/local/lib/dri/")]
    | CPU => []
    end ++ (if debug then [("GST_DEBUG", "3")] else []).

Section StreamProcess.
Context `{JsonC} `{UrlLib} `{PathLib} `{UnnamedCodes} `{RpcLib}.

(** ** Making a controller *)

(* [src/src/stream/stream_controller.h:93-118 StreamController] *)
Record controller := {
  sc_config : config_object;
  sc_timeshift_info : TimeShiftInfo;
  sc_env : list (string * string)     (* what the environment of the process has got *)
}.

(* [src/src/stream/stream_controller.cpp:159-184 StreamController::Init] *)
Definition Init (initialized debug : bool) (config_args : ArgsMap) : outcome controller :=
  config ← make_config config_args;
  let stream_type := c_type (config_of config) in
  timeshift_info ←
    (if bool_decide (stream_type = TIMESHIFT_RECORDER) || bool_decide (stream_type = TIMESHIFT_PLAYER) ||
        bool_decide (stream_type = CATCHUP)
     then make_timeshift_info config_args else Ok timeshift_info_default);
  let enc := default CPU (args_get conv_string config_args VIDEO_CODEC_FIELD ≫= GetEncoderType) in
  Ok {| sc_config := config; sc_timeshift_info := timeshift_info; sc_env := streams_init initialized debug enc |}.

(** ** Messages *)

(** What a statistic takes from the system. *)
Record load := { ld_cpu : double; ld_rss : Z; ld_time : Z }.

Definition is_finite (d : double) : bool :=
  match d with SpecFloat.S754_zero _ | SpecFloat.S754_finite _ _ _ => true | _ => false end.

Definition status_info (stats : StreamStruct) (ld : load) : StatisticInfo :=
  {| st_stream_struct := stats; st_cpu_load := if is_finite (ld_cpu ld) then ld_cpu ld else dbl_of_Z 0;
     st_rss_bytes := u64 (ld_rss ld * 1024); st_timestamp := ld_time ld |}.

(** [None]: nothing can be written. *)
(* [src/src/stream/stream_controller.cpp:71-92 PrepareStatus] *)
Definition PrepareStatus (stats : StreamStruct) (ld : load) : option string :=
  match statistic_SerializeFields (status_info stats ld) json_new_object with
  | Ok j => Some (json_to_string j)
  | _ => None
  end.

(** The requests that are written to the daemon. *)
(* [src/src/stream/stream_controller.cpp:540-546 StreamController::DumpStreamStatus] *)
Definition DumpStreamStatus (ld : load) (stat : StreamStruct) : list request_t :=
  match PrepareStatus stat ld with Some status_json => [StatisticStreamBroadcast status_json] | None => [] end.

(* [src/src/stream/stream_controller.cpp:520-530 StreamController::OnInputChanged] *)
Definition OnInputChanged (mem : StreamStruct) (uri : InputUri) : list request_t :=
  [ChangedSourcesStreamBroadcast
     (json_to_string (ChangedSouresInfo_SerializeFields {| ch_id := ss_id mem; ch_url := uri |} json_new_object))].

(** What the controller, as the client of a stream, sends when the stream calls
    it. *)
(* [src/src/stream/stream_controller.cpp:475-518 StreamController::OnStatusChanged] *)
Definition client_messages (ld : load) (s : stream) (e : stream_event) : list request_t :=
  match e with
  | OnStatusChanged _ | OnTimeoutUpdated => DumpStreamStatus ld (s_stats s)
  | _ => []
  end.

(** ** The loop *)

Record xstate := { x_attempts : Z; x_mem : StreamStruct }.

Inductive xevent :=
| StreamCreated (class : stream_class) (start_chunk_index : Z)
| Send (r : request_t)
| WaitFor (seconds : Z).

Definition set_x_attempts (n : Z) (x : xstate) : xstate := {| x_attempts := n; x_mem := x_mem x |}.
Definition set_x_mem (m : StreamStruct) (x : xstate) : xstate := {| x_attempts := x_attempts x; x_mem := m |}.

(** A look for the first chunk: the clock, the directory, and whether the wait
    that follows, if there is none, is interrupted. *)
Record look := { lk_now : Z; lk_exists : bool; lk_scan : list chunk_file; lk_garbage : Z; lk_notified : bool }.

(** One turn of the loop, as the world answers it: [stop_] at its beginning; the
    looks for a chunk; how the stream ended, the shared memory then and the
    clock; whether the wait before the next turn is interrupted. *)
Record turn := {
  tn_stop : bool;
  tn_looks : list look;
  tn_exit : ExitStatus;
  tn_mem : StreamStruct;
  tn_now : Z;
  tn_load : load;
  tn_notified : bool
}.

(** What follows a turn; [Pending]: it has not ended. *)
Inductive turn_result := LeaveLoop | NextTurn | Pending.

Context (c : controller).

Definition dump (ld : load) : hact xstate xevent unit :=
  mem ← hgets x_mem; hact_iter (fun r => hemit (Send r)) (DumpStreamStatus ld mem).

Definition set_status (status : StreamStatus) : hact xstate xevent unit :=
  hmodify (fun x => set_x_mem (with_status status (x_mem x)) x).

(** [None]: it goes on waiting. *)
(* [src/src/stream/stream_controller.cpp:206-218 StreamController::Exec] *)
Fixpoint find_start (duration : Z) (ld : load) (looks : list look) : hact xstate xevent (option Z) :=
  match looks with
  | [] => mret None
  | k :: looks =>
      found ← hlift (FindChunkToPlay (sc_timeshift_info c) (lk_now k) duration (lk_garbage k) (lk_exists k) (lk_scan k));
      match found with
      | Some start_chunk_index => mret (Some start_chunk_index)
      | None =>
          set_status WAITING ;;
          dump ld ;;
          hemit (WaitFor duration) ;;
          if lk_notified k then
            hmodify (fun x => set_x_mem (with_restarts (u64 (ss_restarts (x_mem x) + 1)) (x_mem x)) x) ;;
            mret (Some invalid_chunk_index)
          else find_start duration ld looks
      end
  end.

(* [src/src/stream/stream_controller.cpp:202-224 StreamController::Exec] *)
Definition start_chunk (t : turn) : hact xstate xevent (option Z) :=
  if bool_decide (c_type (config_of (sc_config c)) = TIMESHIFT_PLAYER) then
    tconfig ← hlift (as_timeshift (sc_config c));
    find_start (ts_chunk_duration tconfig) (tn_load t) (tn_looks t)
  else mret (Some invalid_chunk_index).

Definition mem_is_vod (m : StreamStruct) : bool :=
  bool_decide (ss_type m = VOD_ENCODE) || bool_decide (ss_type m = VOD_RELAY).

(** The stream is made with the shared memory that the daemon filled; what its
    constructor does besides these checks is in [StreamLife]. *)
(* [src/src/stream/ibase_stream.cpp:183-185 IBaseStream::IBaseStream] *)
Definition base_stream_checks (m : StreamStruct) : outcome unit :=
  check (StreamStruct_IsValid m) "Stats must be!" ;;
  check (bool_decide (ss_type m = c_type (config_of (sc_config c)))) "GetType() == config_->GetType()".

(** After a stream has ended. *)
(* [src/src/stream/stream_controller.cpp:246-277 StreamController::Exec] *)
Definition after_stream (t : turn) (is_vod : bool) : hact xstate xevent turn_result :=
  restart_attempts ← hgets x_attempts;
  mem ← hgets x_mem;
  match after_run (c_max_restart_attempts (config_of (sc_config c))) restart_attempts is_vod (tn_exit t)
          (WithoutRestartTime (tn_now t) mem) with
  | Break => mret LeaveLoop
  | Continue n => hmodify (set_x_attempts n) ;; mret NextTurn
  | Wait n wait_time frozen =>
      hmodify (set_x_attempts n) ;;
      (if frozen then set_status FROZEN ;; dump (tn_load t) else mret tt) ;;
      hemit (WaitFor wait_time) ;;
      (if tn_notified t then hmodify (set_x_attempts 0) else mret tt) ;;
      mret NextTurn
  end.

(* [src/src/stream/stream_controller.cpp:201-278 StreamController::Exec] *)
Definition exec_turn (t : turn) : hact xstate xevent turn_result :=
  start ← start_chunk t;
  match start with
  | None => mret Pending
  | Some start_chunk_index =>
      if bool_decide (c_type (config_of (sc_config c)) = TIMESHIFT_PLAYER) && (start_chunk_index =? invalid_chunk_index)%Z
      then mret NextTurn
      else
        class ← hlift (CreateStream (sc_config c));
        mem ← hgets x_mem;
        hlift (base_stream_checks mem) ;;
        hemit (StreamCreated class start_chunk_index) ;;
        hmodify (set_x_mem (tn_mem t)) ;;
        after_stream t (mem_is_vod mem)
  end.

(** The status that [Exec] returns, if it does within these turns. *)
(* [src/src/stream/stream_controller.cpp:193-281 StreamController::Exec] *)
Fixpoint Exec (turns : list turn) : hact xstate xevent (option Z) :=
  match turns with
  | [] => mret None
  | t :: turns =>
      if tn_stop t then mret (Some 0%Z)
      else
        res ← exec_turn t;
        match res with
        | LeaveLoop => mret (Some 0%Z)
        | NextTurn => Exec turns
        | Pending => mret None
        end
  end.
End StreamProcess.

(** ** The process *)

Section Process.
Context `{JsonC} `{UrlLib} `{PathLib} `{UnnamedCodes} `{RpcLib}.

(** [ev_thread_] is a thread only once [Exec] has begun: joining it before that
    throws, and an exception that leaves a destructor ends the process. *)
(* [src/src/stream/stream_controller.cpp:185-192 StreamController::~StreamController] *)
Definition controller_destroy (exec_began : bool) : outcome unit :=
  if exec_began then Ok tt else Abort (Terminated "join of ev_thread_").

(** The controller is destroyed when the function returns. *)
(* [src/src/stream/stream_wrapper.cpp:38-59 start_stream] *)
Definition start_stream (initialized debug : bool) (config_args : ArgsMap) (mem : StreamStruct) (turns : list turn)
    : outcome (option Z) * xstate * list xevent :=
  let x := {| x_attempts := 0; x_mem := mem |} in
  match Init initialized debug config_args with
  | Abort r => (Abort r, x, [])
  | Err _ => (controller_destroy false ;; Ok (Some 1%Z), x, [])
  | Ok c =>
      let '(r, x, es) := Exec c turns x in
      (res ← r;
       match res with None => Ok None | Some status => controller_destroy true ;; Ok (Some status) end, x, es)
  end.

(** The pointers of the arguments may be null. *)
(* [src/src/stream/stream_wrapper.cpp:63-84 stream_exec] *)
Definition stream_exec (initialized debug : bool) (process_name : option string) (args : option (option string))
    (config_args : option ArgsMap) (command_client : bool) (mem : option StreamStruct) (turns : list turn)
    : outcome (option Z) * list xevent :=
  match process_name, args, config_args, command_client, mem with
  | Some _, Some feedback_dir, Some config_args, true, Some mem =>
      match feedback_dir with
      | None => (critical_log "Define feedback_directory variable and make it valid." ;; Ok (Some 1%Z), [])
      | Some _ => let '(r, _, es) := start_stream initialized debug config_args mem turns in (r, es)
      end
  | _, _, _, _, _ => (critical_log "Invalid arguments." ;; Ok (Some 1%Z), [])
  end.
End Process.

(** ** The picture of a pipeline

    A file in the directory of the stream, which a client can ask the daemon
    for. *)

Section Dumps.
Context `{CommonLib, !PathLib, !FsLib}.

Inductive dumper := HtmlDump.

(** The extension makes no difference. *)
(* [src/src/stream/dumpers/dumpers_factory.cpp:29-40 DumpersFactory::CreateDumper] *)
Definition CreateDumper (path : string) : option dumper := if is_valid_path path then Some HtmlDump else None.

Definition quoted (s : string) : string := String "034"%char s +:+ String "034"%char "".
Definition JS_LIB : string := "https://github.com/mdaines/viz.js/releases/download/v1.8.2/viz-lite.js".

(** [opens]: the file can be written, which empties it; [dot]: the description
    of the pipeline by GStreamer. The result, and the file with its content if
    it was touched. *)
(* [src/src/stream/dumpers/htmldump.cpp:30-56 HtmlDump::Dump] *)
Definition Dump (path : string) (opens : bool) (dot : option string) : bool * option (string * string) :=
  if negb (is_valid_path path) then (false, None)
  else if negb opens then (false, None)
  else
    match dot with
    | None => (false, Some (path, ""))
    | Some pipeline_description =>
        (true, Some (path,
          "<html><head></head>" +:+ "<body>" +:+
          "  <script type=" +:+ quoted "text/javascript" +:+ " src=" +:+ quoted JS_LIB +:+ "></script>" +:+
          "  <script>" +:+
          "    document.body.innerHTML += Viz(String.raw`" +:+ pipeline_description +:+ "`);" +:+
          "  </script>" +:+ "</body>" +:+ "</html>"))
    end.

(* [src/src/stream/ibase_stream.cpp:760-771 IBaseStream::DumpIntoFile] *)
Definition DumpIntoFile (path : string) (opens : bool) (dot : option string) : bool * option (string * string) :=
  if negb (is_valid_path path) then (false, None)
  else match CreateDumper path with Some HtmlDump => Dump path opens dot | None => (false, None) end.

(** The file that is written, if any. *)
(* [src/src/stream/stream_controller.cpp:532-538 StreamController::OnPipelineCreated] *)
Definition OnPipelineCreated (feedback_dir_ : string) (opens : bool) (dot : option string) : option (string * string) :=
  match make_file_path (dir_path feedback_dir_) "dump.html" with
  | Some dump_file => (DumpIntoFile dump_file opens dot).2
  | None => None
  end.

(** What the daemon posts for a request of the pipeline of a stream is the file
    that the process of the stream has written, if both have the same
    directory. *)
Lemma dump_is_posted feedback_dir opens dot file content :
  OnPipelineCreated feedback_dir opens dot = Some (file, content) -> MakeStreamPipelinePath feedback_dir = Some file.
Proof.
  unfold OnPipelineCreated, MakeStreamPipelinePath. destruct (make_file_path _ _) as [path|]; [|done].
  unfold DumpIntoFile, Dump, CreateDumper. destruct (is_valid_path path), opens, dot; cbn; naive_solver.
Qed.
End Dumps.

(** ** Theorems *)

(** *** The loop and the two threads

    [Exec] on the answers of the world is a run of the main thread of
    [Controller], with the commands that explain the answers. *)

Section Refinement.
Context `{JsonC} `{UrlLib} `{PathLib} `{UnnamedCodes} `{RpcLib}.
Context (c : controller).

Abbreviation max_attempts := (c_max_restart_attempts (config_of (sc_config c))).

Definition process_is_vod : bool :=
  bool_decide (c_type (config_of (sc_config c)) = VOD_ENCODE) || bool_decide (c_type (config_of (sc_config c)) = VOD_RELAY).

Definition process_is_player : bool := bool_decide (c_type (config_of (sc_config c)) = TIMESHIFT_PLAYER).

Abbreviation step := (ctl_step max_attempts process_is_vod process_is_player).

Definition created (es : list xevent) : nat :=
  length (List.filter (fun e => match e with StreamCreated _ _ => true | _ => false end) es).

Lemma created_app es1 es2 : created (es1 ++ es2) = created es1 + created es2.
Proof. unfold created. by rewrite List.filter_app, length_app. Qed.

(** Counts the streams in a list of events. *)
Ltac count := unfold created in *; repeat (rewrite List.filter_app, length_app); cbn; lia.

Lemma dump_quiet ld x : exists es, dump ld x = (Ok tt, x, es) /\ created es = 0.
Proof.
  unfold dump, mbind, hact_bind, hgets, DumpStreamStatus. destruct (PrepareStatus (x_mem x) ld); cbn; by eexists.
Qed.

(** Nobody has called [Stop], and the loop thread waits for commands. *)
Definition quiet (cc : ctl) : Prop := ct_stop cc = false /\ ct_loop cc = Idle.

(** What does not change while the main thread looks for a chunk or runs a stream. *)
Definition same_counts (cc cc' : ctl) : Prop := quiet cc' /\ ct_attempts cc' = ct_attempts cc /\ ct_runs cc' = ct_runs cc.

(** The looks for a chunk make no stream and leave the attempts alone; a wait that
    is interrupted is one that a restart has interrupted. *)
Lemma find_start_steps duration ld looks x r x' es cc :
  find_start c duration ld looks x = (Ok r, x', es) -> ct_pc cc = Looking -> quiet cc ->
  x_attempts x' = x_attempts x /\ created es = 0 /\
  (forall i, r = Some i -> exists cc', steps step cc cc' /\ same_counts cc cc' /\
     (ct_pc cc' = Looking \/ i = invalid_chunk_index /\ ct_pc cc' = AtCheck)).
Proof.
  revert x es cc. induction looks as [|k looks IH]; intros x es cc; [by intros [= <- <- <-]|]. cbn [find_start].
  intros ([i|] & s1 & es1 & es2 & Hf & Hr & ->)%hact_bind_Ok Hpc [Hst Hlp]; unfold hlift in Hf; injection Hf as Hf <- <-.
  { injection Hr as <- <- <-. split_and!; [done..|]. intros i' _. exists cc. split; [constructor|]. split; [done|by left]. }
  unfold mbind, hact_bind, set_status, hmodify, hemit in Hr.
  destruct (dump_quiet ld (set_x_mem (with_status WAITING (x_mem x)) x)) as (des & Hd & Hd0). rewrite Hd in Hr.
  set (c1 := goto (LookWaiting false) (goto BeforeLookWait cc)).
  assert (Hwait : steps step cc c1).
  { eapply steps_step; [by apply step_main, m_not_found|]. by apply steps_one, step_main, m_look_lock. }
  destruct (lk_notified k).
  - cbn in Hr. injection Hr as <- <- <-. split; [done|]. split; [count|]. intros i [= <-].
    exists (goto AtCheck (ctl_Restart c1)). split; [|split; [done|by right]].
    eapply steps_trans; [exact Hwait|]. eapply steps_trans; [by apply ctl_Restart_steps|].
    by apply steps_one, step_main, m_look_woken.
  - match type of Hr with context[find_start ?a ?b ?d looks ?y] => destruct (find_start a b d looks y) as [[[r1|e|q] s2] es3] eqn:Hl end;
      cbn in Hr; try done. injection Hr as <- <- <-.
    destruct (IH _ _ (goto Looking c1) Hl) as (Ha & Hc & Hi); [done..|]. split; [by rewrite Ha|]. split; [count|].
    intros i Hr. destruct (Hi i Hr) as (cc' & Hs & Hrest). exists cc'. split; [|exact Hrest].
    eapply steps_trans; [exact Hwait|]. eapply steps_step; [by apply step_main, m_look_timeout|exact Hs].
Qed.

(** A turn begins: the main thread passes the check, and a player looks for its
    chunk. *)
Lemma start_chunk_steps t x r x' es cc :
  start_chunk c t x = (Ok r, x', es) -> ct_pc cc = AtCheck -> quiet cc ->
  x_attempts x' = x_attempts x /\ created es = 0 /\
  (forall i, r = Some i -> exists cc',
     (if process_is_player && (i =? invalid_chunk_index)%Z then steps step cc cc' /\ ct_pc cc' = AtCheck /\ same_counts cc cc'
      else steps step cc (goto Creating (count_run cc')) /\ same_counts cc cc')).
Proof.
  unfold start_chunk. intros Hr Hpc Hq. pose proof Hq as [Hst Hlp]. case_bool_decide as Hp.
  - apply hact_bind_Ok in Hr as (tc & s1 & es1 & es2 & Hf & Hr & ->). unfold hlift in Hf. injection Hf as Hf <- <-.
    assert (Hpl : process_is_player = true) by (by apply bool_decide_eq_true).
    apply (find_start_steps _ _ _ _ _ _ _ (goto Looking cc)) in Hr as (Ha & He & Hi); [|done..].
    split_and!; [done..|]. intros i Hi'. destruct (Hi i Hi') as (cc' & Hs & Hsame & Hat).
    assert (Hin : steps step cc cc') by (eapply steps_step; [by apply step_main, m_look|exact Hs]).
    destruct (process_is_player && _) eqn:Hv.
    + destruct Hat as [Hat|[_ Hat]]; [|by exists cc'].
      exists (goto AtCheck cc'). split; [|done]. eapply steps_trans; [exact Hin|]. by apply steps_one, step_main, m_found_invalid.
    + destruct Hat as [Hat|[-> _]]; [|by rewrite Hpl in Hv]. exists cc'. split; [|done].
      eapply steps_trans; [exact Hin|]. by apply steps_one, step_main, m_found.
  - injection Hr as <- <- <-. split_and!; [done..|]. intros i _. exists cc.
    assert (Hpl : process_is_player = false) by (by apply bool_decide_eq_false).
    destruct (process_is_player && _) eqn:Hv; [by rewrite Hpl in Hv|]. split; [|done]. by apply steps_one, step_main, m_create.
Qed.

(** A stream is made, and its loop runs until it quits with a status of its own. *)
Lemma stream_steps cc res :
  ct_pc cc = Creating -> quiet cc -> exists cc', steps step cc cc' /\ ct_pc cc' = Ended res /\ same_counts cc cc'.
Proof.
  intros Hpc Hq. pose (mem := {| ss_id := "s"; ss_type := RELAY; ss_start_time := 0; ss_loop_start_time := 0; ss_restarts := 0;
                                 ss_status := NEW; ss_input := []; ss_output := [] |}).
  set (s := new_stream (with_status NEW mem)). set (b := goto Building (set_origin (Some s) cc)).
  set (s1 := act_state (exec_start 0 false s)). set (ru := goto Running (set_origin (Some s1) b)).
  exists (goto (Ended res) (set_origin None (set_origin (Some (act_state (Quit res s1))) ru))). split; [|by split].
  eapply steps_step; [by apply step_main, m_created|].
  eapply (steps_step _ _ ru); [by apply step_main, (m_run _ _ _ b s 0 false)|].
  eapply steps_step; [by apply step_main, (m_callback _ _ _ ru s1 (act_state (Quit res s1)) eq_refl eq_refl eq_refl), (cb_quit res)|].
  apply steps_one, step_main. by apply (m_end _ _ _ (set_origin (Some (act_state (Quit res s1))) ru) (act_state (Quit res s1))).
Qed.

(** How a controller stands when [Exec] is between two turns, or has left. *)
Definition stands (res : turn_result) (cc : ctl) : Prop :=
  match res with LeaveLoop => ct_pc cc = Controller.Exited | NextTurn | Pending => ct_pc cc = AtCheck /\ quiet cc end.

Lemma after_stream_steps t x r x' es cc :
  after_stream c t process_is_vod x = (Ok r, x', es) ->
  ct_pc cc = Ended (tn_exit t) -> quiet cc -> ct_attempts cc = x_attempts x ->
  created es = 0 /\
  exists cc', steps step cc cc' /\ ct_attempts cc' = x_attempts x' /\ ct_runs cc' = ct_runs cc /\ stands r cc'.
Proof.
  intros Hr Hpc [Hst Hlp] Ha. unfold after_stream, mbind at 1 2, hact_bind at 1 2, hgets in Hr.
  rewrite <-Ha in Hr.
  destruct (after_run _ _ _ _ _) as [|n|n w fr] eqn:Hd.
  - injection Hr as <- <- <-. split; [done|]. eexists. split; [by eapply steps_one, step_main, m_break|done].
  - cbn in Hr. injection Hr as <- <- <-. split; [done|]. eexists. split; [by eapply steps_one, step_main, m_continue|done].
  - assert (Hs : steps step cc (goto (Waiting w false) (set_attempts n (goto (BeforeWait w) cc)))).
    { eapply steps_step; [by eapply step_main, m_wait|]. by eapply steps_one, step_main, m_lock. }
    assert (Hq : exists es', (if fr then set_status FROZEN ;; dump (tn_load t) else mret tt) (set_x_attempts n x) =
                   (Ok tt, set_x_mem (if fr then with_status FROZEN (x_mem x) else x_mem x) (set_x_attempts n x), es') /\
                   created es' = 0).
    { destruct fr; [|by destruct x; eexists].
      destruct (dump_quiet (tn_load t) (set_x_mem (with_status FROZEN (x_mem x)) (set_x_attempts n x))) as (des & Hdu & Hdq).
      exists des. unfold mbind, hact_bind, set_status, hmodify. cbn. by rewrite Hdu. }
    destruct Hq as (es' & Hq & Hq0). unfold mbind, hact_bind, hmodify, hemit in Hr, Hq. cbn in Hr, Hq.
    rewrite Hq in Hr. destruct (tn_notified t); cbn in Hr; injection Hr as <- <- <-.
    + split; [count|]. eexists. split.
      { eapply steps_trans; [exact Hs|]. eapply steps_trans; [by apply ctl_Restart_steps|].
        by eapply steps_one, step_main, (m_woken _ _ _ _ w). }
      done.
    + split; [count|]. eexists. split.
      { eapply steps_trans; [exact Hs|]. by eapply steps_one, step_main, (m_timeout _ _ _ _ w). }
      done.
Qed.

Lemma base_stream_checks_Ok m u : base_stream_checks c m = Ok u -> mem_is_vod m = process_is_vod.
Proof.
  intros (u' & _ & Ht)%outcome_bind_Ok. apply check_Ok, bool_decide_eq_true in Ht.
  unfold mem_is_vod, process_is_vod. by rewrite Ht.
Qed.

Lemma exec_turn_steps t x r x' es cc :
  exec_turn c t x = (Ok r, x', es) -> ct_pc cc = AtCheck -> quiet cc -> ct_attempts cc = x_attempts x ->
  exists cc', steps step cc cc' /\ ct_attempts cc' = x_attempts x' /\ ct_runs cc' = ct_runs cc + created es /\ stands r cc'.
Proof.
  intros (start & s1 & es1 & es2 & Hs & Hr & ->)%hact_bind_Ok Hpc Hq Ha.
  destruct (start_chunk_steps _ _ _ _ _ _ Hs Hpc Hq) as (Hs1 & He1 & Hstart).
  destruct start as [i|].
  2: { injection Hr as <- <- <-. exists cc. split; [constructor|]. rewrite app_nil_r, He1, Ha, Hs1. split_and!; [done|lia|done]. }
  destruct (Hstart i eq_refl) as (c0 & Hc0). clear Hstart. fold process_is_player in Hr.
  destruct (process_is_player && _).
  { injection Hr as <- <- <-. destruct Hc0 as (Hst & Hp0 & Hq0 & Ha0 & Hr0). exists c0.
    rewrite app_nil_r, He1, Ha0, Ha, Hs1, Hr0. split_and!; [done|done|lia|done]. }
  destruct Hc0 as (Hst & Hq0 & Ha0 & Hr0).
  apply hact_bind_Ok in Hr as (class & s2 & es3 & es4 & [= _ <- <-] & Hr & ->).
  apply hact_bind_Ok in Hr as (mem & s3 & es5 & es6 & [= <- <- <-] & Hr & ->).
  apply hact_bind_Ok in Hr as (u & s4 & es7 & es8 & Hc & Hr & ->). injection Hc as Hc <- <-.
  apply base_stream_checks_Ok in Hc. rewrite Hc in Hr.
  apply hact_bind_Ok in Hr as (u1 & s5 & es9 & es10 & [= <- <- <-] & Hr & ->).
  apply hact_bind_Ok in Hr as (u2 & s6 & es11 & es12 & [= <- <- <-] & Hr & ->).
  destruct (stream_steps (goto Creating (count_run c0)) (tn_exit t)) as (c1 & Hs1' & Hp1 & Hq1 & Ha1 & Hr1); [done..|].
  destruct (after_stream_steps t _ r x' _ c1 Hr) as (He & cc' & Hst' & Ha' & Hr' & Hstand); [done..|cbn in *; congruence|].
  exists cc'. split_and!; [|done| |done].
  - eapply steps_trans; [exact Hst|]. eapply steps_trans; [exact Hs1'|exact Hst'].
  - rewrite Hr', Hr1. cbn. rewrite Hr0. count.
Qed.

Lemma Exec_steps turns x r x' es cc :
  Exec c turns x = (Ok r, x', es) -> ct_pc cc = AtCheck -> quiet cc -> ct_attempts cc = x_attempts x ->
  exists cc', steps step cc cc' /\ ct_attempts cc' = x_attempts x' /\ ct_runs cc' = ct_runs cc + created es /\
    match r with Some z => z = 0%Z /\ ct_pc cc' = Controller.Exited | None => ct_pc cc' = AtCheck /\ quiet cc' end.
Proof.
  revert x es cc. induction turns as [|t turns IH]; intros x es cc; cbn [Exec].
  { intros [= <- <- <-] Hpc Hst Ha. exists cc. split; [constructor|]. split_and!; [done|cbn; lia|done|apply Hst..]. }
  destruct (tn_stop t).
  { intros [= <- <- <-] Hpc [Hst Hlp] Ha. exists (goto Controller.Exited (ctl_Stop cc)). split.
    - eapply steps_trans; [by apply ctl_Stop_steps|]. apply steps_one, step_main, m_stop; [|done]. cbn. by rewrite Hpc.
    - split_and!; [done|cbn; lia|done..]. }
  intros (res & s1 & es1 & es2 & Ht & Hr & ->)%hact_bind_Ok Hpc Hst Ha.
  destruct (exec_turn_steps _ _ _ _ _ cc Ht Hpc Hst Ha) as (c1 & Hs1 & Ha1 & Hr1 & Hstand).
  destruct res.
  - injection Hr as <- <- <-. exists c1. split_and!; try done. rewrite Hr1. count.
  - destruct Hstand as [Hp1 Ht1]. destruct (IH _ _ _ Hr Hp1 Ht1 Ha1) as (c2 & Hs2 & Ha2 & Hr2 & Hend).
    exists c2. split; [by eapply steps_trans|]. split_and!; [done| |done]. rewrite Hr2, Hr1. count.
  - injection Hr as <- <- <-. exists c1. split_and!; try done; [|apply Hstand..]. rewrite Hr1. count.
Qed.

(** C10: the loop of the controller, on any answers of the world, is a run of the
    machine of two threads in [Controller]: the same number of streams, the same
    count of attempts, and the loop is left, with status zero, where the machine
    has left it. *)
Theorem exec_refines_threads turns mem r x' es :
  Exec c turns {| x_attempts := 0; x_mem := mem |} = (Ok r, x', es) ->
  exists cc, steps step ctl_init cc /\ ct_attempts cc = x_attempts x' /\ ct_runs cc = created es /\
    match r with Some z => z = 0%Z /\ ct_pc cc = Controller.Exited | None => ct_pc cc = AtCheck end.
Proof.
  intros He. destruct (Exec_steps _ _ _ _ _ ctl_init He eq_refl (conj eq_refl eq_refl) eq_refl) as (cc & Hs & Ha & Hr & Hend).
  exists cc. split_and!; try done. destruct r; [done|]. apply Hend.
Qed.
End Refinement.

Section ProcessTheorems.
Context `{JsonC} `{UrlLib} `{PathLib} `{UnnamedCodes} `{RpcLib}.

(** A film is played once, however it ends. *)
Theorem film_runs_once c t turns x class :
  process_is_vod c = true -> tn_stop t = false -> CreateStream (sc_config c) = Ok class ->
  base_stream_checks c (x_mem x) = Ok tt ->
  Exec c (t :: turns) x = (Ok (Some 0%Z), set_x_mem (tn_mem t) x, [StreamCreated class invalid_chunk_index]).
Proof.
  intros Hv Hs Hc Hb. cbn [Exec]. rewrite Hs. unfold exec_turn, start_chunk.
  assert (Hp : bool_decide (c_type (config_of (sc_config c)) = TIMESHIFT_PLAYER) = false).
  { unfold process_is_vod in Hv. by destruct (c_type (config_of (sc_config c))). }
  rewrite Hp. unfold mbind, hact_bind. cbn. rewrite Hc. cbn. rewrite Hb. cbn.
  rewrite (base_stream_checks_Ok c _ _ Hb), Hv. done.
Qed.

(** A process of a timeshift player that is not stopped at once casts its
    configuration to a class that it has not, before it makes a stream or sends
    anything. *)
Lemma player_process_undefined initialized debug name dir args mem t turns cfg :
  make_config args = Ok cfg -> c_type (config_of cfg) = TIMESHIFT_PLAYER ->
  args_get conv_string args TIMESHIFT_DIR_FIELD <> None -> tn_stop t = false ->
  stream_exec initialized debug (Some name) (Some (Some dir)) (Some args) true (Some mem) (t :: turns) =
  (Abort (UndefinedBehaviour "static_cast to TimeshiftConfig"), []).
Proof.
  intros Hm Ht Hd Hs. unfold stream_exec, start_stream, Init. rewrite Hm. cbn [mbind outcome_bind].
  rewrite Ht, (bool_decide_eq_true_2 (TIMESHIFT_PLAYER = TIMESHIFT_PLAYER)), orb_true_r by done. cbn [orb].
  unfold make_timeshift_info. destruct (args_get conv_string args TIMESHIFT_DIR_FIELD) as [d|]; [|done].
  cbn -[make_config]. rewrite Hs. unfold exec_turn, start_chunk, mbind, hact_bind. cbn.
  rewrite Ht, bool_decide_eq_true_2 by done. cbn.
  apply make_config_Ok in Hm as [Hcl _]. rewrite Ht in Hcl. by destruct cfg.
Qed.

(** C33: a stream process that has got all its arguments never returns a failure.
    The status that it returns is zero, and then it had a configuration. With
    arguments that make no configuration it is ended by its controller's
    destructor, before it sends anything, and a timeshift player that is not
    stopped at once by a cast to a class that its configuration has not. *)
Theorem process_exit_status initialized debug name dir args mem turns :
  let run := stream_exec initialized debug (Some name) (Some (Some dir)) (Some args) true (Some mem) turns in
  match make_config args with
  | Ok cfg =>
      (forall status, run.1 = Ok (Some status) -> status = 0%Z) /\
      (c_type (config_of cfg) = TIMESHIFT_PLAYER -> args_get conv_string args TIMESHIFT_DIR_FIELD <> None ->
       tn_stop <$> head turns = Some false -> run = (Abort (UndefinedBehaviour "static_cast to TimeshiftConfig"), []))
  | Err _ => run = (Abort (Terminated "join of ev_thread_"), [])
  | Abort r => run = (Abort r, [])
  end.
Proof.
  cbv zeta. destruct (make_config args) as [cfg|e|r] eqn:Hm.
  2, 3: by unfold stream_exec, start_stream, Init; rewrite Hm.
  split.
  - intros status. unfold stream_exec, start_stream.
    destruct (Init initialized debug args) as [c|e|r] eqn:Hi; cbn; try done.
    destruct (Exec c turns _) as [[[[z|]|e|r] x] es] eqn:He; cbn; try done. intros [= <-].
    by destruct (Exec_steps c turns _ _ _ _ ctl_init He eq_refl (conj eq_refl eq_refl) eq_refl) as (? & _ & _ & _ & ? & _).
  - intros Ht Hd Hs. destruct turns as [|t turns]; [done|]. injection Hs as Hs.
    by eapply player_process_undefined.
Qed.
End ProcessTheorems.

(** *** From a stream to the clients *)

Section StatusTheorem.
Context `{JsonCOk, !CommonLibOk, !FastotvLib, !UrlLib, !PathLib, !UnnamedCodes, !RpcLib, !FsLib}.

Lemma statistic_SerializeFields_Ok st :
  ss_id (st_stream_struct st) <> "" -> exists out, statistic_SerializeFields st json_new_object = Ok out.
Proof.
  intros Hid. unfold statistic_SerializeFields, StreamStruct_IsValid.
  destruct (ss_id (st_stream_struct st)); [done|]. by eexists.
Qed.

Lemma pipe_statistic st out now p text parse sl :
  stream_ok (st_stream_struct st) -> in_u 64 (st_rss_bytes st) -> in_s 64 (st_timestamp st) ->
  statistic_SerializeFields st json_new_object = Ok out -> json_tokener_parse (json_to_string out) = Some out ->
  parse text = ParsedRequest (StatisticStreamBroadcast (json_to_string out)) ->
  exists out', statistic_SerializeFields (received_statistic now st) json_new_object = Ok out' /\
    DataReceived_pipe now p (inl text) parse sl =
      (Ok tt, sl, to_verified (StatisitcStreamBroadcast (json_to_string out')) sl).
Proof.
  intros Hs Hr Ht Ho Hj Hp. destruct (statistic_SerializeFields_Ok (received_statistic now st)) as [out' Ho']; [apply Hs|].
  exists out'. split; [done|].
  unfold DataReceived_pipe, PipeDataReceived, htry at 1, mbind at 1, hact_bind at 1. rewrite Hp.
  unfold HandleRequestStreamsCommand, HandleRequestStatisticStream, parse_params, htry, mbind, hact_bind, hlift.
  cbn [StatisticStreamBroadcast req_method req_params]. rewrite decide_False, decide_True by done.
  rewrite Hj. cbn [DeSerialize]. rewrite (statistic_read now st out) by done. unfold serialize. rewrite Ho'.
  rewrite BroadcastClients_spec. cbn. by rewrite !app_nil_r.
Qed.

(** C9: when a stream changes its status, its process writes one message, which
    the daemon, whatever its state, takes from the pipe and sends on to every
    verified client, and that client reads the new status of the stream, its
    name, its restarts, and its channels in their order. *)
Theorem status_reaches_clients s status ld now now' p text parse sl out :
  let s' := act_state (SetStatus status s) in
  stream_ok (s_stats s) -> in_s 64 (ld_time ld) -> in_s 64 now -> in_s 64 now' ->
  statistic_SerializeFields (status_info (s_stats s') ld) json_new_object = Ok out ->
  json_tokener_parse (json_to_string out) = Some out ->
  parse text = ParsedRequest (StatisticStreamBroadcast (json_to_string out)) ->
  act_events (SetStatus status s) ≫= client_messages ld s' = [StatisticStreamBroadcast (json_to_string out)] /\
  exists out' st', 
    DataReceived_pipe now p (inl text) parse sl =
      (Ok tt, sl, to_verified (StatisitcStreamBroadcast (json_to_string out')) sl) /\
    statistic_DoDeSerialize now' (Some out') = Ok st' /\
    let m := st_stream_struct st' in
    ss_status m = status /\ ss_id m = ss_id (s_stats s) /\ ss_restarts m = ss_restarts (s_stats s) /\
    cs_id <$> ss_input m = cs_id <$> ss_input (s_stats s) /\ cs_id <$> ss_output m = cs_id <$> ss_output (s_stats s).
Proof.
  intros s' Hs Ht Hn Hn' Ho Hj Hp.
  assert (Hs' : stream_ok (st_stream_struct (status_info (s_stats s') ld))) by exact Hs.
  assert (Hr : in_u 64 (st_rss_bytes (status_info (s_stats s') ld))) by (apply wrap_range; lia).
  split.
  - unfold s', act_events, act_state, SetStatus, mbind, act_bind, modify, emit in *. cbn in *.
    unfold DumpStreamStatus, PrepareStatus. by rewrite Ho.
  - destruct (pipe_statistic _ out now p text parse sl Hs' Hr Ht Ho Hj Hp) as (out' & Ho' & Hd).
    destruct (received_statistic_ok now _ Hn Hs' Hr) as [Hs2 Hr2].
    exists out', (received_statistic now' (received_statistic now (status_info (s_stats s') ld))).
    split; [done|]. split; [by apply statistic_read|].
    assert (Hch : forall l : list ChannelStats, cs_id <$> (received now' <$> rev (received now <$> rev l)) = cs_id <$> l).
    { intros l. rewrite <-list_fmap_compose, <-List.map_rev, List.rev_involutive.
      change (List.map (received now)) with (fmap (M:=list) (received now)). by rewrite <-list_fmap_compose. }
    cbn -[fmap received]. split_and!; try done; apply Hch.
Qed.
End StatusTheorem.

(** *** A stream that fails again and again *)

Section Freezing.
Context `{JsonC} `{UrlLib} `{PathLib} `{UnnamedCodes} `{RpcLib}.
Context (c : controller) (class : stream_class).

Abbreviation max := (c_max_restart_attempts (config_of (sc_config c))).

Definition sent (es : list xevent) : list request_t := omap (fun e => match e with Send r => Some r | _ => None end) es.
Definition waits (es : list xevent) : list Z := omap (fun e => match e with WaitFor w => Some w | _ => None end) es.

(** A turn whose stream fails within ten minutes, with nobody interfering. *)
Definition failing (t : turn) : Prop :=
  tn_stop t = false /\ tn_exit t = EXIT_INNER /\ tn_notified t = false /\
  (Z.quot (WithoutRestartTime (tn_now t) (tn_mem t)) 1000 <= 600)%Z /\ base_stream_checks c (tn_mem t) = Ok tt.

Lemma base_stream_checks_status m st : base_stream_checks c (with_status st m) = base_stream_checks c m.
Proof. done. Qed.

Lemma dump_frozen ld x :
  base_stream_checks c (x_mem x) = Ok tt -> exists r, dump ld x = (Ok tt, x, [Send r]).
Proof.
  intros (u & Hv & _)%outcome_bind_Ok. apply check_Ok in Hv. unfold dump, mbind, hact_bind, hgets, DumpStreamStatus, PrepareStatus.
  unfold StreamStruct_IsValid in Hv.
  destruct (statistic_SerializeFields_Ok (status_info (x_mem x) ld)) as [out ->]; [|by eexists].
  cbn. by destruct (ss_id (x_mem x)).
Qed.

Hypothesis Hclass : CreateStream (sc_config c) = Ok class.
Hypothesis Hplayer : c_type (config_of (sc_config c)) <> TIMESHIFT_PLAYER.
Hypothesis Hvod : process_is_vod c = false.
Hypothesis Hmax : (1 <= max < 2 ^ 64)%Z.

Lemma failing_turn t x :
  failing t -> base_stream_checks c (x_mem x) = Ok tt -> (0 <= x_attempts x < max)%Z ->
  exists x' es w, exec_turn c t x = (Ok NextTurn, x', es) /\ base_stream_checks c (x_mem x') = Ok tt /\
    created es = 1 /\ waits es = [w] /\ (0 <= w <= 60)%Z /\
    x_attempts x' = ((x_attempts x + 1) mod max)%Z /\ Z.of_nat (length (sent es)) = ((x_attempts x + 1) / max)%Z.
Proof.
  intros (Hs & Hexit & Hn & Hshort & Hmem) Hx Ha.
  destruct (after_run_failure max (x_attempts x) _ Hmax Ha Hshort) as (n' & w & fr & Hd & Hn' & Hw & Hfr & Hfrt & Hfrf).
  unfold exec_turn, start_chunk. rewrite (bool_decide_eq_false_2 _ Hplayer). unfold mbind, hact_bind, hgets, hlift, hemit, hmodify.
  cbn. rewrite Hclass, Hx, (base_stream_checks_Ok c _ _ Hx), Hvod.
  unfold after_stream, mbind, hact_bind, hgets, hmodify, hemit. cbn -[after_run]. rewrite Hexit, Hd. cbn. destruct fr.
  - destruct Hfrt as [-> ->]; [done|]. assert (He : (x_attempts x + 1 = max)%Z) by (by apply Hfr).
    unfold set_status, hmodify. cbn.
    match goal with |- context[dump ?ld ?y] => destruct (dump_frozen ld y) as [r ->]; [done|] end. cbn. rewrite Hn. cbn.
    do 3 eexists. split; [reflexivity|]. rewrite He, Z.mod_same, Z.div_same by lia.
    split_and!; try done; lia.
  - destruct Hfrf as [-> Hwt]; [done|]. assert (Hne : (x_attempts x + 1 <> max)%Z) by (intros He; by apply Hfr in He).
    rewrite Hn. cbn. do 3 eexists. split; [reflexivity|].
    rewrite Z.mod_small, Z.div_small by lia. split_and!; try done; lia.
Qed.

Lemma Exec_failing turns x :
  Forall failing turns -> base_stream_checks c (x_mem x) = Ok tt -> (0 <= x_attempts x < max)%Z ->
  exists x' es, Exec c turns x = (Ok None, x', es) /\ created es = length turns /\
    length (waits es) = length turns /\ Forall (fun w => 0 <= w <= 60)%Z (waits es) /\
    x_attempts x' = ((x_attempts x + Z.of_nat (length turns)) mod max)%Z /\
    Z.of_nat (length (sent es)) = ((x_attempts x + Z.of_nat (length turns)) / max)%Z.
Proof.
  intros Ht. revert x. induction Ht as [|t turns Hf _ IH]; intros x Hx Ha.
  - exists x, []. cbn. rewrite Z.add_0_r, Z.mod_small, Z.div_small by done. by split_and!.
  - destruct (failing_turn t x Hf Hx Ha) as (x1 & es1 & w & Ht1 & Hx1 & Hc1 & Hw1 & Hwb & Ha1 & Hs1).
    destruct (IH x1 Hx1) as (x2 & es2 & He & Hc & Hl & Hw & Ha2 & Hs2); [rewrite Ha1; apply Z.mod_pos_bound; lia|].
    exists x2, (es1 ++ es2). cbn [Exec]. rewrite (proj1 Hf). unfold mbind, hact_bind. rewrite Ht1, He.
    assert (Hsum : (x_attempts x + Z.of_nat (length (t :: turns)) = (x_attempts x + 1) + Z.of_nat (length turns))%Z) by (cbn; lia).
    rewrite Hsum. unfold waits, sent in *. rewrite !omap_app, !length_app, created_app, Hw1.
    split; [done|]. split; [cbn; lia|]. split; [cbn; lia|]. split; [by apply Forall_cons|]. split.
    + by rewrite Ha2, Ha1, Zplus_mod_idemp_l.
    + rewrite Nat2Z.inj_add, Hs1, Hs2, Ha1.
      rewrite (Z.div_mod (x_attempts x + 1) max) at 3 by lia. rewrite Z.mul_comm, <-Z.add_assoc, Z.div_add_l by lia. done.
Qed.

(** C32: a stream that fails again and again is made anew after each failure, with
    a wait of at most a minute, for ever; once in as many failures as there are
    attempts, and at no other time, the controller reports it as frozen. *)
Theorem failing_stream_freezes turns mem :
  Forall failing turns -> base_stream_checks c mem = Ok tt ->
  exists x' es, Exec c turns {| x_attempts := 0; x_mem := mem |} = (Ok None, x', es) /\
    created es = length turns /\ length (waits es) = length turns /\ Forall (fun w => 0 <= w <= 60)%Z (waits es) /\
    Z.of_nat (length (sent es)) = (Z.of_nat (length turns) / max)%Z.
Proof.
  intros Ht Hm. destruct (Exec_failing turns {| x_attempts := 0; x_mem := mem |} Ht Hm) as (x' & es & He & Hc & Hl & Hw & _ & Hs).
  - cbn. lia.
  - exists x', es. split_and!; try done. 
Qed.
End Freezing.

(** ** The theorems at concrete processes *)

Section Witnesses.
#[local] Existing Instances Ref.common Ref.urls Ref.paths ref_codes ref_rpc sample_fs Sample.json_c.

Definition process_args (type : string) : ArgsMap :=
  <["output" := "in"]> (<["restart_attempts" := "3"]> (<["timeshift_dir" := "/ts"]> (<["input" := "in"]> {["type" := type]}))).

Definition process_config (type : string) : config_object :=
  match make_config (process_args type) with
  | Ok c => c
  | _ => ObjAudioVideo (make_audio_video_config (make_base_config SCREEN 1 [] []))
  end.

Definition relay_controller : controller :=
  {| sc_config := process_config "1"; sc_timeshift_info := timeshift_info_default; sc_env := [] |}.

Definition process_mem (type : StreamType) : StreamStruct :=
  {| ss_id := "s1"; ss_type := type; ss_start_time := 0; ss_loop_start_time := 1000; ss_restarts := 2; ss_status := NEW;
     ss_input := [make_channel_stats 7; make_channel_stats 8]; ss_output := [make_channel_stats 9] |}.

Definition process_turn (stop notified : bool) : turn :=
  {| tn_stop := stop; tn_looks := []; tn_exit := EXIT_INNER; tn_mem := process_mem RELAY; tn_now := 5000;
     tn_load := {| ld_cpu := SpecFloat.S754_nan; ld_rss := 5; ld_time := 5000 |}; tn_notified := notified |}.

(** Two failures, an interruption of the second wait, and a stop. *)
Definition sample_exec_run : outcome (option Z) * xstate * list xevent :=
  Exec relay_controller [process_turn false false; process_turn false true; process_turn true false]
    {| x_attempts := 0; x_mem := process_mem RELAY |}.

Lemma exec_refines_threads_witness :
  exists cc, steps (ctl_step 3 false false) ctl_init cc /\ ct_runs cc = 2 /\ ct_attempts cc = 0%Z.
Proof.
  assert (Hr : act_result sample_exec_run = Ok (Some 0%Z)) by (vm_compute; reflexivity).
  assert (Hc : created (act_events sample_exec_run) = 2) by (vm_compute; reflexivity).
  assert (Ha : x_attempts (act_state sample_exec_run) = 0%Z) by (vm_compute; reflexivity).
  destruct (exec_refines_threads relay_controller [process_turn false false; process_turn false true; process_turn true false]
    (process_mem RELAY) (Some 0%Z) (act_state sample_exec_run) (act_events sample_exec_run)) as (cc & Hs & Hat & Hrun & _).
  - fold sample_exec_run. rewrite <-Hr. by destruct sample_exec_run as [[? ?] ?].
  - exists cc. split; [exact Hs|]. split; [by rewrite Hrun|by rewrite Hat].
Defined.

(** Arguments without a type; and those of a player. *)
Lemma process_exit_status_witness :
  stream_exec false false (Some "streamer") (Some (Some "/f")) (Some {["input" := "in"]}) true
      (Some (process_mem RELAY)) [process_turn false false] = (Abort (Terminated "join of ev_thread_"), []) /\
  stream_exec false false (Some "streamer") (Some (Some "/f")) (Some (process_args "3")) true
      (Some (process_mem TIMESHIFT_PLAYER)) [process_turn false false] =
  (Abort (UndefinedBehaviour "static_cast to TimeshiftConfig"), []).
Proof.
  split.
  - exact (process_exit_status false false "streamer" "/f" {["input" := "in"]} (process_mem RELAY) [process_turn false false]).
  - assert (Hm : make_config (process_args "3") = Ok (process_config "3")) by (vm_compute; reflexivity).
    generalize (process_exit_status false false "streamer" "/f" (process_args "3") (process_mem TIMESHIFT_PLAYER)
                  [process_turn false false]); rewrite Hm.
    intros [_ Hp]. apply Hp; [vm_compute; reflexivity|vm_compute; discriminate|reflexivity].
Defined.

Lemma failing_stream_freezes_witness :
  exists x' es, Exec relay_controller (repeat (process_turn false false) 7) {| x_attempts := 0; x_mem := process_mem RELAY |} =
      (Ok None, x', es) /\ created es = 7 /\ length (sent es) = 2.
Proof.
  destruct (failing_stream_freezes relay_controller RelayStream) with (turns := repeat (process_turn false false) 7)
    (mem := process_mem RELAY) as (x' & es & He & Hc & _ & _ & Hs).
  - vm_compute; reflexivity.
  - discriminate.
  - vm_compute; reflexivity.
  - vm_compute. split; [discriminate|reflexivity].
  - repeat (apply Forall_cons; split; [repeat split; vm_compute; discriminate || reflexivity|]). apply Forall_nil; exact I.
  - vm_compute; reflexivity.
  - exists x', es. split; [exact He|]. split; [exact Hc|]. apply Nat2Z.inj. rewrite Hs. vm_compute. reflexivity.
Defined.
End Witnesses.

Section StatusWitness.
#[local] Existing Instances Ref.common Ref.urls Ref.paths ref_codes ref_rpc sample_fs.

Definition sample_stream : stream :=
  {| s_stats := process_mem RELAY; s_status_tick := 0; s_no_data_panic_tick := 0; s_last_exit_status := EXIT_SELF;
     s_is_live := false; s_flags := 0; s_desire_flags := 0; s_loop_running := true |}.
Definition sample_load : load := {| ld_cpu := dbl_of_Z 1; ld_rss := 5; ld_time := 5000 |}.

(** The message, and the library that reads it. *)
Definition status_value : option Ref.value :=
  match @statistic_SerializeFields Ref.common (Ref.json_c (fun _ => None))
          (status_info (with_status PLAYING (process_mem RELAY)) sample_load) (Ref.JObject []) with
  | Ok j => Some j
  | _ => None
  end.
#[local] Instance status_json : JsonC := Ref.json_c (fun s => if decide (s = "{}") then status_value else None).
#[local] Instance status_fastotv : FastotvLib := ref_fastotv.

Definition two_clients : slave :=
  set_clients [(0, true); (1, false)] (daemon_init (∅ : fs)).

Lemma status_reaches_clients_witness :
  exists req st', 
    DataReceived_pipe 6000 0 (inl "status") (fun _ => ParsedRequest (StatisticStreamBroadcast "{}")) two_clients =
      (Ok tt, two_clients, [Request 0 req]) /\ ss_status (st_stream_struct st') = PLAYING.
Proof.
  assert (Hok : stream_ok (s_stats sample_stream)).
  { assert (Hn : forall n, in_u 64 n -> channel_ok (make_channel_stats n)) by apply make_channel_stats_ok.
    refine (conj _ (conj _ (conj _ (conj _ (conj _ _))))); try int_range; [done|..];
      repeat (apply Forall_cons; split; [apply Hn; int_range|]); apply Forall_nil; exact I. }
  destruct status_value as [out|] eqn:Hv; [|discriminate Hv].
  destruct (@status_reaches_clients Ref.common status_json (Ref.json_c_ok _) Ref.common_ok status_fastotv Ref.urls ref_codes
    ref_rpc sample_fs sample_stream PLAYING sample_load 6000 7000 0 "status"
    (fun _ => ParsedRequest (StatisticStreamBroadcast "{}")) two_clients out) as [_ (out' & st' & Hd & _ & Hst & _)];
    [exact Hok|int_range..| | |reflexivity|].
  - unfold status_value in Hv. by injection Hv as <-.
  - exact Hv.
  - exists (StatisitcStreamBroadcast (json_to_string out')), st'. split; [exact Hd|exact Hst].
Defined.
End StatusWitness.
