(* ===== verification/EndToEnd.v ===== *)
(** * From an accepted request to a running stream

    The daemon of [Slave] and the process of [StreamProcess] read the same
    arguments, the first to describe the stream and to fill the shared memory,
    the second to make its configuration, which it compares with that memory.
    Here the two are composed: what becomes of every stream that the daemon has
    accepted. *)

From S2P Require Import Prelude Platform StreamTypes Stats Constants Uris Options Configs BaseStream Timeshift Protocol Controller Commands Users Slave Daemon StreamProcess.

Section EndToEnd.
Context `{FastotvLib} `{UrlLib} `{PathLib} `{UnnamedCodes} `{RpcLib} `{FsLib}.

(** ** What the daemon has found in the arguments *)

(** The streams that write chunks and have no other output. *)
Definition recording (t : StreamType) : bool := bool_decide (t = TIMESHIFT_RECORDER) || bool_decide (t = CATCHUP).

Record described (args : ArgsMap) (sha : StreamInfo) (dir : string) (code : Z) (input : list InputUri) : Prop := {
  ds_id : args !! ID_FIELD = Some (si_id sha);
  ds_code : args_get conv_u8 args TYPE_FIELD = Some code;
  ds_type : si_type sha = cast_type code;
  ds_proxy : cast_type code <> PROXY;
  ds_dir : args !! FEEDBACK_DIR_FIELD = Some dir;
  ds_input : read_input args = Ok (Some input);
  ds_inputs : si_input sha = iu_id <$> input;
  ds_outputs :
    if ((code =? stream_type_code TIMESHIFT_RECORDER) || (code =? stream_type_code CATCHUP))%Z
    then is_Some (args !! TIMESHIFT_DIR_FIELD) /\ si_output sha = []
    else exists output, read_output args = Ok (Some output) /\ si_output sha = ou_id <$> output
}.

Lemma or_throw_Ok {A} (o : option A) e s a s' es :
  or_throw o e s = (Ok a, s', es) -> o = Some a /\ s' = s.
Proof. by destruct o; intros [=]; subst. Qed.

Lemma hlift_Ok {S E A} (m : outcome A) (s s' : S) (es : list E) a : hlift m s = (Ok a, s', es) -> m = Ok a /\ s' = s.
Proof. by intros [= -> <- _]. Qed.

Lemma args_get_string args key v : args_get conv_string args key = Some v -> args !! key = Some v.
Proof. unfold args_get, conv_string. by destruct (args !! key). Qed.

(** One step of [MakeStreamInfo] that has returned. *)
Ltac info_step H :=
  apply hact_bind_Ok in H as (? & ? & ? & ? & Hstep & H & ->);
  first [apply or_throw_Ok in Hstep as [? ->] | apply hlift_Ok in Hstep as [? ->] | idtac]; cbv beta zeta in H.

Lemma MakeStreamInfo_described args s sha dir lvl s1 es :
  MakeStreamInfo args true s = (Ok (sha, dir, lvl), s1, es) -> exists code input, described args sha dir code input.
Proof.
  unfold MakeStreamInfo. intros Hm. info_step Hm. info_step Hm. case_decide; [done|].
  info_step Hm. info_step Hm. clear Hstep. info_step Hm. info_step Hm. cbn [negb] in Hm.
  destruct (_ || _) eqn:Hrec.
  - info_step Hm. info_step Hm. clear Hstep. injection Hm as <- <- _ _ _.
    do 2 eexists. constructor; try (by apply args_get_string); try eassumption; try done; [congruence|].
    rewrite Hrec. split; [|done]. eexists. by apply args_get_string.
  - info_step Hm. info_step Hm. info_step Hm. clear Hstep. injection Hm as <- <- _ _ _.
    do 2 eexists. constructor; try (by apply args_get_string); try eassumption; try done; [congruence|].
    rewrite Hrec. eexists. split; [|done]. congruence.
Qed.

(** ** What the process makes of them *)

Lemma type_code_named z : (stream_type_code PROXY <= z <= stream_type_code SCREEN)%Z -> exists t, z = stream_type_code t.
Proof.
  intros Hz. destruct (stream_type_of_code z) as [t|] eqn:Ht.
  { exists t. symmetry. by apply stream_type_code_of. }
  assert (z ∈ [0; 1; 2; 3; 4; 5; 6; 7; 8; 9]%Z) as Hin by (cbn in Hz; rewrite !elem_of_cons; lia).
  rewrite !elem_of_cons, elem_of_nil in Hin. by repeat destruct Hin as [->|Hin]; try done.
Qed.

Section Accepted.
Context (text : string) (args : ArgsMap) (Ha : ValidateConfig text = Ok args).

Lemma validated_type z : args_get conv_u8 args TYPE_FIELD = Some z -> exists t, z = stream_type_code t.
Proof.
  unfold args_get. destruct (args !! TYPE_FIELD) as [v|] eqn:Hv; [|done]. cbn. intros Hz.
  apply (ValidateConfig_valid text) in Hv; [|done]. apply (valid_value_find _ _ validate_type) in Hv; [|reflexivity].
  unfold validate_type, validate_range in Hv. rewrite Hz in Hv.
  destruct (_ && _) eqn:Hb; [|done]. apply andb_true_iff in Hb as [?%Z.leb_le ?%Z.leb_le]. by apply type_code_named.
Qed.

Lemma validated_id v : args !! ID_FIELD = Some v -> v <> "".
Proof.
  intros Hv. apply (ValidateConfig_valid text) in Hv; [|done]. apply (valid_value_find _ _ validate_id) in Hv; [|reflexivity].
  intros ->. discriminate Hv.
Qed.

(** The outputs that the process reads; [None]: they are missing. *)
Definition process_outputs (t : StreamType) (input : list InputUri) (output : option (list OutputUri)) :
    option (list OutputUri) :=
  if recording t && bool_decide (length input <= 1) then Some [] else output.

Definition zero_duration (t : StreamType) : Prop :=
  recording t = true /\ args_get conv_i64 args TIMESHIFT_CHUNK_DURATION_FIELD = Some 0%Z.

Lemma typed_config_returns t aconf :
  t <> PROXY ->
  (exists cfg, make_typed_config args (stream_type_code t) aconf = Ok cfg /\ audio_video_of cfg = aconf) \/
  (zero_duration t /\ make_typed_config args (stream_type_code t) aconf = Abort (CheckFailed "Avoid division by zero")).
Proof.
  intros Hp. destruct (make_typed_config args (stream_type_code t) aconf) as [cfg|e|r] eqn:Hm.
  - left. exists cfg. split; [done|]. by apply make_typed_config_Ok in Hm as (? & _ & _ & ?); [|destruct t].
  - exfalso. revert Hm. unfold make_typed_config, zero_duration, recording.
    destruct (validated_encoding text args Ha aconf) as [c ->].
    destruct t; try done; cbn -[get_or bool_decide];
      match goal with |- context[check (bool_decide ?P)] => by destruct (bool_decide P) end.
  - right. pose proof Hm as [-> Hd]%(validated_typed text args Ha). split; [split|]; [|done..].
    revert Hm. unfold make_typed_config. destruct (validated_encoding text args Ha aconf) as [c ->].
    by destruct t.
Qed.

(** The last part of [make_config], once inputs and outputs are known. *)
Lemma config_after_inputs t input outs :
  t <> PROXY ->
  let conf := make_base_config (cast_type (stream_type_code t)) (get_or conv_u64 args RESTART_ATTEMPTS_FIELD 10%Z) input outs in
  let r := check (0 <? get_or conv_u64 args RESTART_ATTEMPTS_FIELD 10)%Z "restart attempts must be grether than 0" ;;
    make_typed_config args (stream_type_code t) (read_audio_video args
      (match args_get conv_i64 args AUTO_EXIT_TIME_FIELD with
       | Some ttl_sec => SetTimeToLigeStream (Some ttl_sec) conf | None => conf end)) in
  (exists cfg, r = Ok cfg /\ c_type (config_of cfg) = t /\ c_input (config_of cfg) = input /\ c_output (config_of cfg) = outs) \/
  (zero_duration t /\ r = Abort (CheckFailed "Avoid division by zero")).
Proof.
  intros Hp conf r. subst r. pose proof (validated_restart_attempts text args Ha) as Hr%Z.ltb_lt. rewrite Hr.
  cbn [check mbind outcome_bind].
  set (aconf := read_audio_video _ _).
  assert (Hc : c_type (av_base aconf) = t /\ c_input (av_base aconf) = input /\ c_output (av_base aconf) = outs).
  { unfold aconf. rewrite read_audio_video_base. unfold conf. rewrite cast_type_code. by case_match. }
  destruct (typed_config_returns t aconf Hp) as [(cfg & Hm & Hav)|[Hz Hm]]; [left|right]; cbn; rewrite Hm; [|done].
  exists cfg. split; [done|]. unfold config_of. by rewrite Hav.
Qed.

(** The configuration of the process agrees with the description of the daemon;
    otherwise a chunk is to last no time, or several inputs are to be recorded
    without an output. *)
Lemma make_config_described sha dir code input :
  described args sha dir code input ->
  exists output, read_output args = Ok output /\
  match process_outputs (si_type sha) input output with
  | None => exists e, make_config args = Err e
  | Some outs =>
      (exists cfg, make_config args = Ok cfg /\ c_type (config_of cfg) = si_type sha /\
         c_input (config_of cfg) = input /\ c_output (config_of cfg) = outs) \/
      (zero_duration (si_type sha) /\ make_config args = Abort (CheckFailed "Avoid division by zero"))
  end.
Proof.
  intros D. destruct (validated_output text args Ha) as [output Ho]. exists output. split; [done|].
  destruct (validated_type code (ds_code _ _ _ _ _ D)) as [t ->].
  assert (Ht : si_type sha = t) by (rewrite (ds_type _ _ _ _ _ D); apply cast_type_code). rewrite Ht.
  assert (Hp : t <> PROXY) by (rewrite <-Ht, (ds_type _ _ _ _ _ D); apply D).
  unfold make_config. rewrite (ds_code _ _ _ _ _ D), decide_False by (by destruct t).
  rewrite (ds_input _ _ _ _ _ D), Ho. cbn [mbind outcome_bind].
  assert (Hrec : ((bool_decide (stream_type_code t = stream_type_code TIMESHIFT_RECORDER) &&
                   negb (bool_decide (1 < length input))) ||
                  (bool_decide (stream_type_code t = stream_type_code CATCHUP) &&
                   negb (bool_decide (1 < length input)))) = recording t && bool_decide (length input <= 1)).
  { unfold recording. repeat case_bool_decide; try (by destruct t); try lia; destruct t; done. }
  cbv zeta. rewrite Hrec. unfold process_outputs.
  pose proof (fun outs => config_after_inputs t input outs Hp) as Hgo. cbv zeta in Hgo.
  destruct (recording t && _); [apply (Hgo [])|]. destruct output as [outs|]; [apply (Hgo outs)|]. by eexists.
Qed.

(** ** What becomes of an accepted stream *)

(** Why its process ends before it has made a stream. *)
Inductive ends_early (t : StreamType) (input : list InputUri) : abort_reason -> Prop :=
| early_duration : zero_duration t -> ends_early t input (CheckFailed "Avoid division by zero")
| early_outputs :
    recording t = true -> 1 < length input -> read_output args = Ok None ->
    ends_early t input (Terminated "join of ev_thread_")
| early_player_dir :
    t = TIMESHIFT_PLAYER -> args !! TIMESHIFT_DIR_FIELD = None ->
    ends_early t input (CriticalLog "Define timeshift_dir variable and make it valid.")
| early_player : t = TIMESHIFT_PLAYER -> ends_early t input (UndefinedBehaviour "static_cast to TimeshiftConfig")
| early_class cfg r :
    make_config args = Ok cfg -> ~ playable cfg -> CreateStream cfg = Abort r -> ends_early t input r.

Lemma make_timeshift_info_returns :
  (args !! TIMESHIFT_DIR_FIELD = None /\
   make_timeshift_info args = Abort (CriticalLog "Define timeshift_dir variable and make it valid.")) \/
  exists info, make_timeshift_info args = Ok info.
Proof.
  unfold make_timeshift_info, args_get, critical_log. destruct (args !! TIMESHIFT_DIR_FIELD) as [d|]; cbn; [right; by eexists|].
  destruct critical_log_aborts; [by left|right; by eexists].
Qed.

Lemma described_recorder_dir sha dir code input :
  described args sha dir code input -> recording (si_type sha) = true -> is_Some (args !! TIMESHIFT_DIR_FIELD).
Proof.
  intros D Hr. pose proof (ds_outputs _ _ _ _ _ D) as Ho. pose proof (ds_type _ _ _ _ _ D) as Ht.
  destruct (validated_type code (ds_code _ _ _ _ _ D)) as [t ->]. rewrite cast_type_code in Ht.
  rewrite Ht in Hr. by destruct t; destruct Ho.
Qed.

Lemma described_outputs sha dir code input :
  described args sha dir code input -> recording (si_type sha) = false ->
  exists output, read_output args = Ok (Some output) /\ si_output sha = ou_id <$> output.
Proof.
  intros D Hr. pose proof (ds_outputs _ _ _ _ _ D) as Ho. pose proof (ds_type _ _ _ _ _ D) as Ht.
  destruct (validated_type code (ds_code _ _ _ _ _ D)) as [t ->]. rewrite cast_type_code in Ht.
  rewrite Ht in Hr. by destruct t.
Qed.

Lemma channel_ids (l : list Z) : cs_id <$> (make_channel_stats <$> l) = l.
Proof. rewrite <-list_fmap_compose. by induction l as [|z l IH]; [|cbn; f_equal]. Qed.

(** The shared memory passes the checks of a stream of the same type. *)
Lemma shared_memory_passes sha dir code input c now :
  described args sha dir code input -> si_type sha = c_type (config_of (sc_config c)) ->
  base_stream_checks c (make_stream_struct sha now 0 0) = Ok tt.
Proof.
  intros D Ht. unfold base_stream_checks, StreamStruct_IsValid. cbn [ss_id ss_type make_stream_struct].
  pose proof (validated_id _ (ds_id _ _ _ _ _ D)) as Hid. rewrite Ht, bool_decide_eq_true_2 by done.
  by destruct (si_id sha).
Qed.

Lemma Init_described sha dir code input initialized debug cfg :
  described args sha dir code input -> make_config args = Ok cfg -> c_type (config_of cfg) = si_type sha ->
  (exists c, Init initialized debug args = Ok c /\ sc_config c = cfg) \/
  (si_type sha = TIMESHIFT_PLAYER /\ args !! TIMESHIFT_DIR_FIELD = None /\
   Init initialized debug args = Abort (CriticalLog "Define timeshift_dir variable and make it valid.")).
Proof.
  intros D Hm Ht. unfold Init. rewrite Hm. cbn [mbind outcome_bind]. cbv zeta. rewrite Ht.
  destruct make_timeshift_info_returns as [[Hd Hi]|[info Hi]]; rewrite Hi.
  - destruct (recording (si_type sha)) eqn:Hr.
    { destruct (described_recorder_dir _ _ _ _ D Hr) as [? ?]. congruence. }
    destruct (si_type sha) eqn:Hs; try discriminate Hr; cbn -[streams_init]; try (left; by eexists).
    by right.
  - left. case_match; cbn -[streams_init]; by eexists.
Qed.

(** The first turn of the loop. *)
Lemma exec_first_event c t turns x class :
  c_type (config_of (sc_config c)) <> TIMESHIFT_PLAYER -> tn_stop t = false ->
  CreateStream (sc_config c) = Ok class -> base_stream_checks c (x_mem x) = Ok tt ->
  exists es, act_events (Exec c (t :: turns) x) = StreamCreated class invalid_chunk_index :: es.
Proof.
  intros Hp Hs Hc Hb. cbn [Exec]. rewrite Hs. unfold mbind at 1, hact_bind at 1.
  assert (He : exists es, act_events (exec_turn c t x) = StreamCreated class invalid_chunk_index :: es).
  { unfold exec_turn, start_chunk. rewrite bool_decide_eq_false_2 by done.
    unfold mbind, hact_bind, mret, hact_ret, hlift, hgets, hemit, hmodify. cbn -[after_stream]. rewrite Hc. cbn -[after_stream].
    rewrite Hb. cbn -[after_stream]. destruct (after_stream _ _ _ _) as [[? ?] ?]. cbn. by eexists. }
  destruct He as [es He]. destruct (exec_turn c t x) as [[[res|e|r] s1] es1]; cbn in He; subst es1; [|by eexists..].
  match goal with |- context[match ?m with (_, _) => _ end] => destruct m as [[? ?] ?] end. cbn. by eexists.
Qed.

Lemma exec_first_abort c t turns x r :
  c_type (config_of (sc_config c)) <> TIMESHIFT_PLAYER -> tn_stop t = false -> CreateStream (sc_config c) = Abort r ->
  Exec c (t :: turns) x = (Abort r, x, []).
Proof.
  intros Hp Hs Hc. cbn [Exec]. rewrite Hs. unfold exec_turn, start_chunk. rewrite bool_decide_eq_false_2 by done.
  unfold mbind, hact_bind. cbn. by rewrite Hc.
Qed.

Lemma exec_player c t turns x :
  make_config args = Ok (sc_config c) -> c_type (config_of (sc_config c)) = TIMESHIFT_PLAYER -> tn_stop t = false ->
  Exec c (t :: turns) x = (Abort (UndefinedBehaviour "static_cast to TimeshiftConfig"), x, []).
Proof.
  intros Hm Ht Hs. cbn [Exec]. rewrite Hs. unfold exec_turn, start_chunk. rewrite bool_decide_eq_true_2 by done.
  unfold mbind, hact_bind. cbn. by rewrite (timeshift_player_cast _ _ Hm Ht).
Qed.

Lemma accepted_process sha dir code input initialized debug name now t turns :
  described args sha dir code input -> tn_stop t = false ->
  let mem := make_stream_struct sha now 0 0 in
  let run := stream_exec initialized debug (Some name) (Some (Some dir)) (Some args) true (Some mem) (t :: turns) in
  (exists cfg class es,
     make_config args = Ok cfg /\ CreateStream cfg = Ok class /\ run.2 = StreamCreated class invalid_chunk_index :: es /\
     ss_type mem = c_type (config_of cfg) /\ cs_id <$> ss_input mem = iu_id <$> c_input (config_of cfg) /\
     (recording (ss_type mem) = false -> cs_id <$> ss_output mem = ou_id <$> c_output (config_of cfg))) \/
  (exists r, run = (Abort r, []) /\ ends_early (si_type sha) input r).
Proof.
  intros D Hs mem run. destruct (make_config_described sha dir code input D) as (output & Ho & Hm).
  subst run. unfold stream_exec, start_stream.
  destruct (process_outputs (si_type sha) input output) as [outs|] eqn:Hp.
  2:{ destruct Hm as [e Hm]. right. eexists. split; [unfold Init; by rewrite Hm|].
      unfold process_outputs in Hp. destruct (recording (si_type sha)) eqn:Hr; cbn in Hp.
      - case_bool_decide; [done|]. apply early_outputs; [done|lia|congruence].
      - destruct (described_outputs _ _ _ _ D Hr) as (? & ? & _). congruence. }
  destruct Hm as [(cfg & Hm & Ht & Hin & Hout)|[Hz Hm]].
  2:{ right. eexists. split; [unfold Init; by rewrite Hm|]. by apply early_duration. }
  destruct (Init_described sha dir code input initialized debug cfg D Hm Ht) as [(c & Hi & <-)|(Hty & Hd & Hi)]; rewrite Hi.
  2:{ right. eexists. split; [done|]. by apply early_player_dir. }
  destruct (decide (si_type sha = TIMESHIFT_PLAYER)) as [Hpl|Hpl].
  { right. rewrite (exec_player c t turns) by (done || congruence). eexists. split; [done|]. by apply early_player. }
  destruct (CreateStream_spec _ _ Hm) as [Hok Hbad].
  destruct (CreateStream (sc_config c)) as [class|e|r] eqn:Hc.
  - left. assert (Hb : base_stream_checks c mem = Ok tt) by (eapply shared_memory_passes; [exact D|congruence]).
    destruct (exec_first_event c t turns {| x_attempts := 0; x_mem := mem |} class) as [es He]; [congruence|done..|].
    exists (sc_config c), class, es. split; [done|]. split; [done|].
    destruct (Exec _ _ _) as [[? ?] ?]. split; [exact He|]. split; [done|].
    rewrite Hin, Hout. subst mem. cbn [ss_type ss_input ss_output make_stream_struct make_inputs make_outputs].
    unfold make_inputs, make_outputs. rewrite (ds_inputs _ _ _ _ _ D), !channel_ids.
    split; [done|].
    intros Hr. destruct (described_outputs _ _ _ _ D Hr) as (? & ? & ->). unfold process_outputs in Hp. rewrite Hr in Hp.
    cbn in Hp. congruence.
  - exfalso. destruct Hbad as [?|?]; [|done..]. by intros [? ?]%Hok.
  - right. rewrite (exec_first_abort c t turns _ r) by (done || congruence). exists r. split; [done|].
    eapply early_class; [exact Hm| |exact Hc]. intros [s Hs']%Hok. congruence.
Qed.

(** ** From the handler of the daemon on *)

(** Describing a stream forks nothing and leaves the children alone. *)
Definition unseen (s s' : slave) (es : list slave_event) : Prop := es = [] /\ sl_children s' = sl_children s.

#[local] Instance unseen_keepable : Keepable unseen.
Proof. constructor; unfold unseen; [done|]. intros s1 s2 s3 es1 es2 [-> ?] [-> ?]. split; [done|congruence]. Qed.

Lemma unseen_dir d : keeps unseen (h_CreateAndCheckDir d).
Proof. intros s. unfold h_CreateAndCheckDir. by destruct (CreateAndCheckDir _ _). Qed.

Lemma MakeStreamInfo_no_event s x s1 es : MakeStreamInfo args true s = (x, s1, es) -> es = [] /\ sl_children s1 = sl_children s.
Proof.
  intros Hm. assert (Hk : keeps unseen (MakeStreamInfo args true)).
  { unfold MakeStreamInfo, or_throw, check_output.
    repeat (intros; cbn beta iota zeta; first [apply unseen_dir | same_step | typeclasses eauto]). }
  specialize (Hk s). by rewrite Hm in Hk.
Qed.

(** A process is started with the description that the daemon has made. *)
Lemma CreateChildStream_exec os s name dir lvl cfg rd wr :
  StreamExec name dir lvl cfg rd wr ∈ act_events (CreateChildStream os args s) ->
  exists sha s1, MakeStreamInfo args true s = (Ok (sha, dir, lvl), s1, []) /\ FindChildByID (si_id sha) s = None /\
    os_fork os = 0%Z /\ name = "streamer_" +:+ si_id sha /\ cfg = args.
Proof.
  unfold CreateChildStream, mbind at 1, hact_bind at 1.
  destruct (MakeStreamInfo args true s) as [[[[[sha dir'] lvl']|e|r] s1] es1] eqn:Hm;
    destruct (MakeStreamInfo_no_event _ _ _ _ Hm) as [-> Hch]; try (by intros []%elem_of_nil).
  unfold mbind at 1, hact_bind at 1, hgets.
  assert (Hf : FindChildByID (si_id sha) s1 = FindChildByID (si_id sha) s) by (unfold FindChildByID; by rewrite Hch).
  rewrite Hf. destruct (FindChildByID (si_id sha) s) as [ch|] eqn:Hnone; [by intros []%elem_of_nil|].
  unfold AllocSharedStreamStruct, CreatePipe_or_free, CreatePipe, FreeSharedStreamStruct, run_stream, register_child.
  unfold mbind, hact_bind, hemit, hmodify, hthrow, hlift, mret, hact_ret.
  intros Hin. exists sha, s1.
  assert (Hgoal : os_fork os = 0%Z /\ name = "streamer_" +:+ si_id sha /\ cfg = args /\ dir' = dir /\ lvl' = lvl).
  { destruct (os_mmap os); cbn in Hin; try by apply elem_of_nil in Hin.
    destruct (os_pipe1 os) as [[? ?]|?]; cbn in Hin; [|by rewrite !elem_of_cons, elem_of_nil in Hin; naive_solver].
    destruct (os_pipe2 os) as [[? ?]|?]; cbn in Hin; [|by rewrite !elem_of_cons, elem_of_nil in Hin; naive_solver].
    destruct (Z.eqb_spec (os_fork os) 0); [|destruct (os_fork os <? 0)%Z]; cbn in Hin;
      rewrite !elem_of_cons, elem_of_nil in Hin; naive_solver. }
  destruct Hgoal as (? & ? & ? & -> & ->). by split_and!.
Qed.
End Accepted.

(** C6: every stream whose request the daemon has accepted and for which it has
    made a process: the process makes the stream, and the shared memory that the daemon filled passes the checks of
    the stream, with a counter for each input and, unless chunks are recorded,
    for each output; or it ends before that for one of the reasons of
    [ends_early], all of them configurations that the validation lets through. *)
Theorem accepted_stream_starts text args os s name dir lvl cfg rd wr initialized debug now t turns :
  ValidateConfig text = Ok args ->
  StreamExec name dir lvl cfg rd wr ∈ act_events (CreateChildStream os args s) -> tn_stop t = false ->
  exists sha input, act_result (MakeStreamInfo args true s) = Ok (sha, dir, lvl) /\ si_id sha <> "" /\ name = "streamer_" +:+ si_id sha /\ FindChildByID (si_id sha) s = None /\
    read_input args = Ok (Some input) /\
    let mem := make_stream_struct sha now 0 0 in
    let run := stream_exec initialized debug (Some name) (Some (Some dir)) (Some cfg) true (Some mem) (t :: turns) in
    (exists config class es,
       make_config args = Ok config /\ CreateStream config = Ok class /\
       run.2 = StreamCreated class invalid_chunk_index :: es /\
       ss_type mem = c_type (config_of config) /\ cs_id <$> ss_input mem = iu_id <$> c_input (config_of config) /\
       (recording (ss_type mem) = false -> cs_id <$> ss_output mem = ou_id <$> c_output (config_of config))) \/
    (exists r, run = (Abort r, []) /\ ends_early args (si_type sha) input r).
Proof.
  intros Ha (sha & s1 & Hm & Hf & _ & -> & ->)%CreateChildStream_exec Hs.
  destruct (MakeStreamInfo_described _ _ _ _ _ _ _ Hm) as (code & input & D).
  exists sha, input. split; [by rewrite Hm|]. split; [eapply validated_id; [exact Ha|apply D]|]. split; [done|]. split; [done|]. split; [apply D|].
  by eapply accepted_process.
Qed.
End EndToEnd.

(** ** The theorem at concrete requests *)

Section Witnesses.
#[local] Existing Instances Ref.common Ref.urls Ref.paths ref_codes ref_rpc Sample.json_c Sample.fastotv sample_fs.

Definition sample_turn : turn :=
  {| tn_stop := false; tn_looks := []; tn_exit := EXIT_SELF;
     tn_mem := make_stream_struct {| si_id := "1"; si_type := RELAY; si_input := [0%Z]; si_output := [0%Z] |} 5000 0 0;
     tn_now := 5000; tn_load := {| ld_cpu := SpecFloat.S754_nan; ld_rss := 5; ld_time := 5000 |}; tn_notified := false |}.

Definition accepted_args (text : string) : ArgsMap := match ValidateConfig text with Ok a => a | _ => ∅ end.

(** What the new process does first, by the name of its configuration. *)
Definition opening (text : string) (t : StreamType) : outcome (option Z) * list xevent :=
  stream_exec false false (Some "streamer_1") (Some (Some "/f")) (Some (accepted_args text)) true
    (Some (make_stream_struct {| si_id := "1"; si_type := t; si_input := [0%Z]; si_output := [0%Z] |} 5000 0 0)) [sample_turn].

Lemma accepted_stream_starts_witness :
  exists es, (opening "relay" RELAY).2 = StreamCreated RelayStream invalid_chunk_index :: es.
Proof.
  destruct (accepted_stream_starts "relay" (accepted_args "relay") (Sample.answers 0) (daemon_init (∅ : @fs sample_fs))
    "streamer_1" "/f" 7 (accepted_args "relay") 10 13 false false 5000 sample_turn [])
    as (sha & input & Hm & _ & _ & _ & _ & H).
  - vm_compute. reflexivity.
  - apply list_elem_of_lookup. exists 5. vm_compute. reflexivity.
  - reflexivity.
  - assert (Hsha : sha = {| si_id := "1"; si_type := RELAY; si_input := [0%Z]; si_output := [0%Z] |}).
    { vm_compute in Hm. injection Hm as <-. reflexivity. }
    subst sha. destruct H as [(config & class & es & Hc & Hk & He & _)|(r & Hr & _)].
    + exists es. assert (class = RelayStream) as <-; [|exact He].
      assert (Hx : (c ← make_config (accepted_args "relay"); CreateStream c) = Ok RelayStream) by (vm_compute; reflexivity).
      rewrite Hc in Hx. cbn in Hx. rewrite Hk in Hx. by injection Hx.
    + exfalso. assert (Ho : (opening "relay" RELAY).1 = Ok None) by (vm_compute; reflexivity).
      unfold opening in Ho. rewrite Hr in Ho. discriminate Ho.
Defined.
End Witnesses.
