(* ===== verification/Subscribers.v ===== *)
(** * The server of the subscribers

    [src/src/server/subscribers/handler.cpp], with [server_auth_info.cpp],
    [client.cpp] and [rpc/user_rpc_info.cpp]. Subscribers connect with a login, a
    password and a device; the handler keeps the connections of each user, limits
    them per device, and answers the requests of those it knows. The table of the
    users is the daemon's [SyncFinder].

    Closing a connection calls the handler's [Closed]. The texts of the answers,
    and the names of the requests, belong to the [fastotv] library. *)

From S2P Require Import Prelude Platform Protocol Users.

(** ** The library's part *)

Class FastotvMethods `{JsonC} := {
  CLIENT_ACTIVATE : string;
  CLIENT_PING : string;
  CLIENT_GET_SERVER_INFO : string;
  CLIENT_GET_CHANNELS : string;
  CLIENT_GET_RUNTIME_CHANNEL_INFO : string;
  SERVER_PING : string;
  SERVER_GET_CLIENT_INFO : string;
  ClientInfo_DeSerialize : option json -> outcome unit
}.

Definition ref_methods `{JsonC} : FastotvMethods :=
  {| CLIENT_ACTIVATE := "client_active"; CLIENT_PING := "client_ping";
     CLIENT_GET_SERVER_INFO := "get_server_info"; CLIENT_GET_CHANNELS := "client_get_channels";
     CLIENT_GET_RUNTIME_CHANNEL_INFO := "get_runtime_channel_info"; SERVER_PING := "server_ping";
     SERVER_GET_CLIENT_INFO := "get_client_info"; ClientInfo_DeSerialize _ := Ok tt |}.

Section Subscribers.
Context `{FastotvLib} `{!FastotvMethods} `{RpcLib}.

(** ** Identities *)

(* [src/src/server/subscribers/rpc/user_rpc_info.h:36-55 UserRpcInfo] *)
Record UserRpcInfo := { ur_user_id : string; ur_device_id : string }.

(* [src/src/server/subscribers/rpc/user_rpc_info.cpp:34-36 UserRpcInfo::IsValid] *)
Definition UserRpcInfo_IsValid (u : UserRpcInfo) : bool :=
  negb (is_empty (ur_user_id u)) && negb (is_empty (ur_device_id u)).

(* [src/src/server/subscribers/rpc/user_rpc_info.cpp:46-48 UserRpcInfo::Equals] *)
Definition UserRpcInfo_Equals (a b : UserRpcInfo) : bool :=
  String.eqb (ur_user_id a) (ur_user_id b) && String.eqb (ur_device_id a) (ur_device_id b).

(* [src/src/server/subscribers/rpc/user_rpc_info.cpp:50-54 UserRpcInfo::SerializeFields] *)
Definition UserRpcInfo_SerializeFields (u : UserRpcInfo) (out : json) : json :=
  json_add_all out
    [("user_id", json_new_string (ur_user_id u)); ("device_id", json_new_string (ur_device_id u))].

(* [src/src/server/subscribers/rpc/user_rpc_info.cpp:56-72 UserRpcInfo::DoDeSerialize] *)
Definition UserRpcInfo_DoDeSerialize (serialized : option json) : outcome UserRpcInfo :=
  user_id ← (match jget serialized "user_id" with Some jid => get_std_string jid | None => Ok "" end);
  device_id ← (match jget serialized "device_id" with Some j => get_std_string j | None => Ok "" end);
  Ok {| ur_user_id := user_id; ur_device_id := device_id |}.

(* [src/src/server/subscribers/server_auth_info.h:30-52 ServerAuthInfo] *)
Record ServerAuthInfo := { sa_uid : string; sa_auth : AuthInfo }.

(* [src/src/server/subscribers/server_auth_info.cpp:27-27 ServerAuthInfo::ServerAuthInfo] *)
Definition server_auth_default : ServerAuthInfo := {| sa_uid := ""; sa_auth := auth_default |}.

(* [src/src/server/subscribers/server_auth_info.cpp:31-33 ServerAuthInfo::IsValid] *)
Definition ServerAuthInfo_IsValid (i : ServerAuthInfo) : bool :=
  negb (is_empty (sa_uid i)) && auth_IsValid (sa_auth i).

(* [src/src/server/subscribers/server_auth_info.cpp:70-72 ServerAuthInfo::MakeUserRpc] *)
Definition MakeUserRpc (i : ServerAuthInfo) : UserRpcInfo :=
  {| ur_user_id := sa_uid i; ur_device_id := auth_device (sa_auth i) |}.

(** *** The JSON form

    The library's part: the fields of an [AuthInfo], and their comparison. *)

Section ServerAuthJson.
Context (AuthInfo_SerializeFields : AuthInfo -> json -> outcome json).
Context (AuthInfo_DoDeSerialize : option json -> outcome AuthInfo).
Context (AuthInfo_Equals : AuthInfo -> AuthInfo -> bool).

(* [src/src/server/subscribers/server_auth_info.cpp:35-42 ServerAuthInfo::SerializeFields] *)
Definition ServerAuthInfo_SerializeFields (i : ServerAuthInfo) (out : json) : outcome json :=
  if negb (ServerAuthInfo_IsValid i) then Err error_inval
  else AuthInfo_SerializeFields (sa_auth i) (json_object_add out "id" (Some (json_new_string (sa_uid i)))).

(* [src/src/server/subscribers/server_auth_info.cpp:44-60 ServerAuthInfo::DoDeSerialize] *)
Definition ServerAuthInfo_DoDeSerialize (serialized : option json) : outcome ServerAuthInfo :=
  auth ← AuthInfo_DoDeSerialize serialized;
  match jget serialized "id" with
  | None => Err error_inval
  | Some jid => uid ← get_std_string jid; Ok {| sa_uid := uid; sa_auth := auth |}
  end.

(* [src/src/server/subscribers/server_auth_info.cpp:66-68 ServerAuthInfo::Equals] *)
Definition ServerAuthInfo_Equals (a b : ServerAuthInfo) : bool :=
  String.eqb (sa_uid a) (sa_uid b) && AuthInfo_Equals (sa_auth a) (sa_auth b).

(** The library reads its own fields back, and leaves that of the identifier
    alone. *)
Hypothesis AuthInfo_roundtrip : forall a out j,
  json_is_object out = true -> AuthInfo_SerializeFields a out = Ok j ->
  AuthInfo_DoDeSerialize (Some j) = Ok a /\ json_object_get_ex j "id" = json_object_get_ex out "id".

(** A valid identity is read back; another is not written. *)
Lemma server_auth_roundtrip `{!JsonCOk} i :
  match ServerAuthInfo_SerializeFields i json_new_object with
  | Ok j => ServerAuthInfo_IsValid i = true /\ ServerAuthInfo_DoDeSerialize (Some j) = Ok i
  | Err e => ServerAuthInfo_IsValid i = false \/ exists out, AuthInfo_SerializeFields (sa_auth i) out = Err e
  | Abort r => exists out, AuthInfo_SerializeFields (sa_auth i) out = Abort r
  end.
Proof.
  unfold ServerAuthInfo_SerializeFields. destruct (ServerAuthInfo_IsValid i); cbn [negb]; [|by left].
  destruct (AuthInfo_SerializeFields _ _) as [j|e|r] eqn:Hj; [|by eauto..]. split; [done|].
  apply AuthInfo_roundtrip in Hj as [Ha Hid]; [|by rewrite json_is_object_add, json_is_object_new].
  unfold ServerAuthInfo_DoDeSerialize, jget. rewrite Ha. cbn. rewrite Hid, json_get_ex_add, decide_True by
    (done || apply json_is_object_new). cbn. rewrite json_get_string_new. by destruct i.
Qed.
End ServerAuthJson.

Lemma user_rpc_roundtrip `{!JsonCOk} u :
  UserRpcInfo_DoDeSerialize (Some (UserRpcInfo_SerializeFields u json_new_object)) = Ok u.
Proof.
  unfold UserRpcInfo_DoDeSerialize, UserRpcInfo_SerializeFields. json_lookup. cbn.
  rewrite !json_get_string_new. by destruct u.
Qed.

(** ** State *)

(* [src/src/server/subscribers/client.h:26-45 SubscriberClient] *)
Record SubscriberClient := { hinfo : ServerAuthInfo; current_stream_id : string }.

(* [src/src/server/subscribers/client.cpp:25-26 SubscriberClient::SubscriberClient] *)
Definition make_subscriber : SubscriberClient :=
  {| hinfo := server_auth_default; current_stream_id := "" |}.

(** The clients of the loop by a number that stands for their address, the
    connections of each user, and the count of [IServerHandler]. *)
(* [src/src/server/subscribers/handler.h:80-83 SubscribersHandler] *)
Record subs := {
  sb_clients : gmap nat SubscriberClient;
  sb_connections : gmap string (list nat);
  sb_online : Z;
  sb_ping_timer : option nat
}.

Definition set_sub_clients (m : gmap nat SubscriberClient) (s : subs) : subs :=
  {| sb_clients := m; sb_connections := sb_connections s; sb_online := sb_online s;
     sb_ping_timer := sb_ping_timer s |}.
Definition set_connections (m : gmap string (list nat)) (s : subs) : subs :=
  {| sb_clients := sb_clients s; sb_connections := m; sb_online := sb_online s;
     sb_ping_timer := sb_ping_timer s |}.
Definition set_online (n : Z) (s : subs) : subs :=
  {| sb_clients := sb_clients s; sb_connections := sb_connections s; sb_online := n;
     sb_ping_timer := sb_ping_timer s |}.

Inductive sub_event :=
| SubActivateFail (c : nat) (e : error)
| SubActivateSuccess (c : nat)
| SubCheckActivateFail (c : nat) (e : error)
| SubPing (c : nat)
| SubPong (c : nat)
| SubServerInfo (c : nat) (bandwidth_host : string)
| SubChannels (c : nat) (ch : ChannelsInfo)
| SubRuntimeChannelInfo (c : nat) (sid : string) (watchers : nat)
| SubClose (c : nat)
| SubCreateTimer (id : nat) (sec : Z)
| SubRemoveTimer (id : nat).

Definition sub_handler : Type := hact subs sub_event unit.

(** [users] is the table of [finder_], [write] the result of writing to a
    client. *)
Context (users : gmap string UserInfo) (bandwidth_host : string) (write : nat -> option error).

(** A pointer to a client that was deleted must not be followed. *)
Definition get_client (c : nat) : hact subs sub_event SubscriberClient := fun s =>
  (match sb_clients s !! c with
   | Some x => Ok x
   | None => Abort (UndefinedBehaviour "use of a deleted client")
   end, s, []).

(* [src/src/server/subscribers/client.cpp:36-38 SubscriberClient::GetServerHostInfo] *)
Definition GetServerHostInfo (c : nat) : hact subs sub_event ServerAuthInfo :=
  x ← get_client c; mret (hinfo x).

(* [src/src/server/subscribers/client.cpp:32-34 SubscriberClient::SetServerHostInfo] *)
Definition SetServerHostInfo (c : nat) (info : ServerAuthInfo) : sub_handler :=
  x ← get_client c;
  hmodify (fun s => set_sub_clients
    (<[c := {| hinfo := info; current_stream_id := current_stream_id x |}]> (sb_clients s)) s).

(* [src/src/server/subscribers/client.cpp:40-42 SubscriberClient::SetCurrentStreamID] *)
Definition SetCurrentStreamID (c : nat) (sid : string) : sub_handler :=
  x ← get_client c;
  hmodify (fun s => set_sub_clients (<[c := {| hinfo := hinfo x; current_stream_id := sid |}]> (sb_clients s)) s).

(** A message to a client, and the error of its write. *)
Definition send (c : nat) (e : sub_event) : sub_handler :=
  hemit e ;; match write c with Some err => hthrow err | None => mret tt end.

(** ** Connections *)

(* [src/src/server/base/iserver_handler.cpp:31-34 IServerHandler::Accepted] *)
Definition handler_Accepted (s : subs) : subs := set_online (u64 (sb_online s + 1)) s.
(* [src/src/server/base/iserver_handler.cpp:41-44 IServerHandler::Closed] *)
Definition handler_Closed (s : subs) : subs := set_online (u64 (sb_online s - 1)) s.

(** A new connection: the server makes the client, the handler counts it. *)
(* [src/src/server/subscribers/handler.cpp:96-98 SubscribersHandler::Accepted] *)
Definition sub_Accepted (c : nat) : sub_handler :=
  hmodify (fun s => handler_Accepted (set_sub_clients (<[c := make_subscriber]> (sb_clients s)) s)).

(* [src/src/server/subscribers/handler.cpp:131-141 SubscribersHandler::RegisterInnerConnectionByHost] *)
Definition RegisterInnerConnectionByHost (info : ServerAuthInfo) (c : nat) : sub_handler :=
  hlift (check (ServerAuthInfo_IsValid info) "info.IsValid()") ;;
  SetServerHostInfo c info ;;
  hmodify (fun s => set_connections
    (<[sa_uid info := default [] (sb_connections s !! sa_uid info) ++ [c]]> (sb_connections s)) s).

(* [src/src/server/subscribers/handler.cpp:143-170 SubscribersHandler::UnRegisterInnerConnectionByHost] *)
Definition UnRegisterInnerConnectionByHost (c : nat) : sub_handler :=
  sinf ← GetServerHostInfo c;
  if negb (ServerAuthInfo_IsValid sinf) then hthrow error_inval
  else
    connections ← hgets sb_connections;
    match connections !! sa_uid sinf with
    | None => mret tt
    | Some hs =>
        let hs := erase_first c hs in
        hmodify (set_connections
          (match hs with [] => delete (sa_uid sinf) connections | _ => <[sa_uid sinf := hs]> connections end))
    end.

(* [src/src/server/subscribers/handler.cpp:100-110 SubscribersHandler::Closed] *)
Definition sub_Closed (c : nat) : sub_handler :=
  GetServerHostInfo c ;;
  htry (UnRegisterInnerConnectionByHost c) ;;
  hmodify handler_Closed.

(** [client->Close(); delete client;] *)
Definition sub_drop (c : nat) : sub_handler :=
  hemit (SubClose c) ;;
  sub_Closed c ;;
  hmodify (fun s => set_sub_clients (delete c (sb_clients s)) s).

(** The connections among [l] of a user's device. *)
Fixpoint connections_of (user : UserRpcInfo) (l : list nat) : hact subs sub_event (list nat) :=
  match l with
  | [] => mret []
  | c :: l' =>
      uinf ← GetServerHostInfo c;
      rest ← connections_of user l';
      mret (if UserRpcInfo_Equals (MakeUserRpc uinf) user then c :: rest else rest)
  end.

(* [src/src/server/subscribers/handler.cpp:172-187 SubscribersHandler::FindInnerConnectionsByUser] *)
Definition FindInnerConnectionsByUser (user : UserRpcInfo) : hact subs sub_event (list nat) :=
  connections ← hgets sb_connections;
  match connections !! ur_user_id user with
  | None => mret []
  | Some devices => connections_of user devices
  end.

(* [src/src/server/subscribers/handler.cpp:189-202 SubscribersHandler::GetAndUpdateOnlineUserByStreamID] *)
Definition GetAndUpdateOnlineUserByStreamID (sid : string) (s : subs) : nat :=
  size (filter (fun kv : nat * SubscriberClient => current_stream_id kv.2 = sid) (sb_clients s)).

(** ** Requests *)

(** A failure is told to the client and returned. *)
Definition activate_fail (c : nat) (e : error) : sub_handler :=
  htry (send c (SubActivateFail c e)) ;; hthrow (make_errno_error (description e) EINVAL).

(** Continues with the value, or fails the activation. *)
Definition or_activate_fail {A} (c : nat) (m : outcome A) (k : A -> sub_handler) : sub_handler :=
  match m with
  | Ok a => k a
  | Err e => activate_fail c e
  | Abort r => hlift (Abort r)
  end.

(* [src/src/server/subscribers/handler.cpp:204-263 SubscribersHandler::HandleRequestClientActivate] *)
Definition sub_HandleRequestClientActivate (c : nat) (req : request_t) : sub_handler :=
  match req_params req ≫= json_tokener_parse with
  | None => hthrow error_inval
  | Some jauth =>
      or_activate_fail c (AuthInfo_DeSerialize (Some jauth)) (fun uauth =>
      or_activate_fail c (FindUser users uauth) (fun registered_user =>
      if IsBanned registered_user then activate_fail c (make_error "Banned user")
      else
      or_activate_fail c (FindDevice registered_user (auth_device uauth)) (fun d =>
      let server_user_auth := {| sa_uid := us_uid registered_user; sa_auth := uauth |} in
      fconnections ← FindInnerConnectionsByUser (MakeUserRpc server_user_auth);
      if (dev_connections d <=? Z.of_nat (length fconnections))%Z then
        activate_fail c (make_error "Limit connection reject")
      else
      send c (SubActivateSuccess c) ;;
      RegisterInnerConnectionByHost server_user_auth c)))
  end.

(* [src/src/server/subscribers/handler.cpp:311-319 SubscribersHandler::CheckIsAuthClient] *)
Definition CheckIsAuthClient (c : nat) : hact subs sub_event (outcome UserInfo) :=
  hinf ← GetServerHostInfo c; mret (FindUser users (sa_auth hinf)).

(** The beginning of the other requests: a client that is not known any more
    is told so and closed. *)
Definition authenticated (c : nat) (k : UserInfo -> sub_handler) : sub_handler :=
  r ← CheckIsAuthClient c;
  match r with
  | Ok user => k user
  | Err err =>
      htry (send c (SubCheckActivateFail c err)) ;;
      sub_drop c ;;
      hthrow (make_errno_error (description err) EINVAL)
  | Abort r => hlift (Abort r)
  end.

(** Parameters that are needed. *)
Definition sub_params {A} (f : option json -> outcome A) (params : option string) : outcome A :=
  match params ≫= json_tokener_parse with
  | None => Err error_inval
  | Some j =>
      match f (Some j) with
      | Err e => Err (make_errno_error (description e) EAGAIN)
      | r => r
      end
  end.

(* [src/src/server/subscribers/handler.cpp:265-295 SubscribersHandler::HandleRequestClientPing] *)
Definition sub_HandleRequestClientPing (c : nat) (req : request_t) : sub_handler :=
  authenticated c (fun _ =>
    hlift (sub_params ClientPingInfo_DeSerialize (req_params req)) ;; send c (SubPong c)).

(* [src/src/server/subscribers/handler.cpp:297-309 SubscribersHandler::HandleRequestClientGetServerInfo] *)
Definition sub_HandleRequestClientGetServerInfo (c : nat) (req : request_t) : sub_handler :=
  authenticated c (fun _ => send c (SubServerInfo c bandwidth_host)).

(* [src/src/server/subscribers/handler.cpp:321-334 SubscribersHandler::HandleRequestClientGetChannels] *)
Definition sub_HandleRequestClientGetChannels (c : nat) (req : request_t) : sub_handler :=
  authenticated c (fun user => send c (SubChannels c (us_ch user))).

(* [src/src/server/subscribers/handler.cpp:336-372 SubscribersHandler::HandleRequestClientGetRuntimeChannelInfo] *)
Definition sub_HandleRequestClientGetRuntimeChannelInfo (c : nat) (req : request_t) : sub_handler :=
  authenticated c (fun _ =>
    sid ← hlift (sub_params RuntimeChannelLiteInfo_DeSerialize (req_params req));
    watchers ← hgets (GetAndUpdateOnlineUserByStreamID sid);
    SetCurrentStreamID c sid ;;
    send c (SubRuntimeChannelInfo c sid watchers)).

(* [src/src/server/subscribers/handler.cpp:406-423 SubscribersHandler::HandleRequestCommand] *)
Definition sub_HandleRequestCommand (c : nat) (req : request_t) : sub_handler :=
  if decide (req_method req = CLIENT_ACTIVATE) then sub_HandleRequestClientActivate c req
  else if decide (req_method req = CLIENT_PING) then sub_HandleRequestClientPing c req
  else if decide (req_method req = CLIENT_GET_SERVER_INFO) then sub_HandleRequestClientGetServerInfo c req
  else if decide (req_method req = CLIENT_GET_CHANNELS) then sub_HandleRequestClientGetChannels c req
  else if decide (req_method req = CLIENT_GET_RUNTIME_CHANNEL_INFO) then
    sub_HandleRequestClientGetRuntimeChannelInfo c req
  else mret tt.

(** ** Responses *)

Definition answer (m : rpc_message) : option string :=
  match m with SuccessMessage => Some "" | SuccessResult t => Some t | ServerError _ => None end.

(* [src/src/server/subscribers/handler.cpp:425-445 SubscribersHandler::HandleResponceServerPing] *)
Definition HandleResponceServerPing (resp : response_t) : sub_handler :=
  match answer (resp_message resp) with
  | Some result => hlift (sub_params ClientPingInfo_DeSerialize (Some result))
  | None => mret tt
  end.

(* [src/src/server/subscribers/handler.cpp:447-467 SubscribersHandler::HandleResponceServerGetClientInfo] *)
Definition HandleResponceServerGetClientInfo (resp : response_t) : sub_handler :=
  match answer (resp_message resp) with
  | Some result => hlift (sub_params ClientInfo_DeSerialize (Some result))
  | None => mret tt
  end.

(** [popped] is the request that is answered, if there is one. *)
(* [src/src/server/subscribers/handler.cpp:469-488 SubscribersHandler::HandleResponceCommand] *)
Definition sub_HandleResponceCommand (popped : option request_t) (resp : response_t) : sub_handler :=
  match popped with
  | None => mret tt
  | Some req =>
      if decide (req_method req = SERVER_PING) then HandleResponceServerPing resp
      else if decide (req_method req = SERVER_GET_CLIENT_INFO) then HandleResponceServerGetClientInfo resp
      else mret tt
  end.

(** ** Callbacks *)

(* [src/src/server/subscribers/handler.cpp:374-404 SubscribersHandler::HandleInnerDataReceived] *)
Definition HandleInnerDataReceived (c : nat) (input_command : string) (parse : string -> rpc_parsed)
    (pop : json_rpc_id -> option request_t) : sub_handler :=
  match parse input_command with
  | ParseError e => hthrow (make_errno_error (description e) EAGAIN)
  | ParsedRequest req => htry (sub_HandleRequestCommand c req) ;; mret tt
  | ParsedResponse resp => htry (sub_HandleResponceCommand (pop (resp_id resp)) resp) ;; mret tt
  | ParsedNothing => hthrow (make_errno_error "Invalid command type" EINVAL)
  end.

(** Only a read that fails closes the connection. *)
(* [src/src/server/subscribers/handler.cpp:112-125 SubscribersHandler::DataReceived] *)
Definition sub_DataReceived (c : nat) (read : string + error) (parse : string -> rpc_parsed)
    (pop : json_rpc_id -> option request_t) : sub_handler :=
  match read with
  | inr err => sub_drop c
  | inl buff => htry (HandleInnerDataReceived c buff parse pop) ;; mret tt
  end.

(* [src/src/server/subscribers/handler.cpp:43-46 SubscribersHandler::PreLooped] *)
Definition sub_PreLooped (timer : nat) : sub_handler :=
  hemit (SubCreateTimer timer 60) ;;
  hmodify (fun s => {| sb_clients := sb_clients s; sb_connections := sb_connections s;
                       sb_online := sb_online s; sb_ping_timer := Some timer |}).

(* [src/src/server/subscribers/handler.cpp:52-58 SubscribersHandler::PostLooped] *)
Definition sub_PostLooped : sub_handler :=
  t ← hgets sb_ping_timer;
  match t with
  | None => mret tt
  | Some n =>
      hemit (SubRemoveTimer n) ;;
      hmodify (fun s => {| sb_clients := sb_clients s; sb_connections := sb_connections s;
                           sb_online := sb_online s; sb_ping_timer := None |})
  end.

(** [online_clients] is the loop's list, in its order. *)
(* [src/src/server/subscribers/handler.cpp:60-80 SubscribersHandler::TimerEmited] *)
Definition sub_TimerEmited (id : nat) (online_clients : list nat) : sub_handler :=
  t ← hgets sb_ping_timer;
  if decide (t = Some id) then
    hact_iter (fun c =>
      err ← htry (send c (SubPing c));
      match err with Some _ => sub_drop c | None => mret tt end) online_clients
  else mret tt.
End Subscribers.

(** ** The table of connections *)

Section Theorems.
Context `{FastotvLibOk} `{!FastotvMethods} `{RpcLib}.

(** Every entry of the table is a client of the server that has authenticated
    as that user, once; and every client that has authenticated is in it. *)
Record subs_ok (s : subs) : Prop := {
  sb_entries uid l : sb_connections s !! uid = Some l -> NoDup l /\ l <> [] /\
    forall c, c ∈ l -> exists x, sb_clients s !! c = Some x /\ sa_uid (hinfo x) = uid /\
      ServerAuthInfo_IsValid (hinfo x) = true;
  sb_registered c x : sb_clients s !! c = Some x -> ServerAuthInfo_IsValid (hinfo x) = true ->
    exists l, sb_connections s !! sa_uid (hinfo x) = Some l /\ c ∈ l
}.

(** The table without a client. *)
Definition unregister (c : nat) (x : SubscriberClient) (m : gmap string (list nat)) : gmap string (list nat) :=
  if ServerAuthInfo_IsValid (hinfo x) then
    match m !! sa_uid (hinfo x) with
    | None => m
    | Some hs => match erase_first c hs with
                 | [] => delete (sa_uid (hinfo x)) m
                 | hs' => <[sa_uid (hinfo x) := hs']> m
                 end
    end
  else m.

Lemma sub_drop_eq c x s :
  sb_clients s !! c = Some x ->
  sub_drop c s =
    (Ok tt, set_sub_clients (delete c (sb_clients s))
              (handler_Closed (set_connections (unregister c x (sb_connections s)) s)), [SubClose c]).
Proof.
  intros Hx. unfold sub_drop, sub_Closed, UnRegisterInnerConnectionByHost, GetServerHostInfo, get_client, unregister.
  unfold mbind, hact_bind, htry, hemit, hgets, hmodify, hthrow, hlift, mret, hact_ret. cbn. repeat (rewrite Hx; cbn).
  destruct (ServerAuthInfo_IsValid (hinfo x)); cbn; [|by destruct s].
  destruct (sb_connections s !! sa_uid (hinfo x)) as [hs|]; cbn; [|by destruct s].
  by destruct (erase_first c hs).
Qed.

Lemma erase_first_elem (c c' : nat) l : c' <> c -> c' ∈ erase_first c l <-> c' ∈ l.
Proof.
  intros Hne. induction l as [|y l IH]; [done|]. cbn. case_decide.
  - rewrite elem_of_cons. naive_solver.
  - rewrite !elem_of_cons, IH. done.
Qed.

(** The table without [c], entry by entry. *)
Lemma unregister_lookup c x m uid :
  unregister c x m !! uid =
  if decide (ServerAuthInfo_IsValid (hinfo x) = true /\ uid = sa_uid (hinfo x)) then
    match m !! uid with
    | None => None
    | Some hs => match erase_first c hs with [] => None | hs' => Some hs' end
    end
  else m !! uid.
Proof.
  unfold unregister. destruct (ServerAuthInfo_IsValid (hinfo x)).
  - destruct (decide (uid = sa_uid (hinfo x))) as [->|Hne].
    + rewrite decide_True by done. destruct (m !! sa_uid (hinfo x)) as [hs|] eqn:Hm; [|done].
      destruct (erase_first c hs); [apply lookup_delete_eq | apply lookup_insert_eq].
    + rewrite decide_False by naive_solver. destruct (m !! sa_uid (hinfo x)) as [hs|]; [|done].
      destruct (erase_first c hs); [by apply lookup_delete_ne | by apply lookup_insert_ne].
  - rewrite decide_False by naive_solver. done.
Qed.

Lemma sub_drop_ok c s : subs_ok s -> subs_ok (act_state (sub_drop c s)).
Proof.
  intros [He Hr]. destruct (sb_clients s !! c) as [x|] eqn:Hx.
  2:{ unfold sub_drop, sub_Closed, GetServerHostInfo, get_client, mbind, hact_bind, hemit. cbn. by rewrite Hx. }
  rewrite (sub_drop_eq c x s Hx). constructor; cbn.
  - intros uid l. rewrite unregister_lookup. case_decide as Hd.
    + destruct Hd as [Hv ->]. destruct (sb_connections s !! sa_uid (hinfo x)) as [hs|] eqn:Hm; [|done].
      destruct (He _ _ Hm) as (Hnd & _ & Hall). destruct (erase_first_NoDup c hs Hnd) as [Hnd' Hno].
      destruct (erase_first c hs) as [|y ys] eqn:Hee; [done|]. intros [= <-]. split; [done|]. split; [done|].
      intros c' Hc'. assert (c' <> c) by (intros ->; done). rewrite <- Hee in Hc'.
      rewrite erase_first_elem in Hc' by done. rewrite lookup_delete_ne by done. by apply Hall.
    + intros Hm. destruct (He _ _ Hm) as (Hnd & Hne & Hall). split; [done|]. split; [done|].
      intros c' Hc'. destruct (Hall c' Hc') as (x' & Hx' & Hu & Hv'). exists x'. split; [|done].
      rewrite lookup_delete_ne; [done|]. intros <-. rewrite Hx in Hx'. injection Hx' as <-. by apply Hd.
  - intros c' x' Hx' Hv'. apply lookup_delete_Some in Hx' as [Hne Hx'].
    destruct (Hr c' x' Hx' Hv') as (l & Hl & Hin). rewrite unregister_lookup. case_decide as Hd; [|by exists l].
    rewrite Hl. assert (Hin' : c' ∈ erase_first c l) by (rewrite erase_first_elem; done).
    destruct (erase_first c l) as [|y ys]; [by apply elem_of_nil in Hin'|]. by eexists.
Qed.

(** No connection of the table is a deleted client. *)
Lemma FindInnerConnectionsByUser_ok user s :
  subs_ok s -> exists l, FindInnerConnectionsByUser user s = (Ok l, s, []).
Proof.
  intros [He _]. unfold FindInnerConnectionsByUser, mbind at 1, hact_bind at 1. cbn [hgets app].
  destruct (sb_connections s !! ur_user_id user) as [l|] eqn:Hl; [|by eexists].
  destruct (He _ _ Hl) as (_ & _ & Hall). clear Hl.
  induction l as [|c l IH]; [by eexists|]. cbn [connections_of].
  destruct (Hall c ltac:(apply elem_of_cons; by left)) as (x & Hx & _).
  destruct IH as [r Hr]. { intros c' Hc'. apply Hall. apply elem_of_cons. by right. }
  unfold GetServerHostInfo, get_client, mbind, hact_bind in *. rewrite Hx. cbn in *.
  destruct (connections_of user l s) as [[[r'|e|e] s'] es]; [|done..].
  cbn in *. injection Hr as -> -> ->. by eexists.
Qed.

Lemma sub_Accepted_ok c s : subs_ok s -> sb_clients s !! c = None -> subs_ok (act_state (sub_Accepted c s)).
Proof.
  intros [He Hr] Hc. constructor; cbn.
  - intros uid l Hl. destruct (He _ _ Hl) as (Hnd & Hne & Hall). split_and!; [done..|].
    intros c' Hc'. destruct (Hall c' Hc') as (x & Hx & Hrest). exists x. split; [|done].
    rewrite lookup_insert_ne; [done|]. congruence.
  - intros c' x Hx Hv. destruct (decide (c' = c)) as [->|Hne].
    + rewrite lookup_insert_eq in Hx. injection Hx as <-. cbn in Hv. unfold ServerAuthInfo_IsValid in Hv.
      cbn in Hv. done.
    + rewrite lookup_insert_ne in Hx by done. by apply (Hr c').
Qed.

Definition registered (c : nat) (s : subs) : Prop :=
  exists x, sb_clients s !! c = Some x /\ ServerAuthInfo_IsValid (hinfo x) = true.

(** The state after a registration. *)
Definition registered_state (info : ServerAuthInfo) (c : nat) (x : SubscriberClient) (s : subs) : subs :=
  set_connections
    (<[sa_uid info := default [] (sb_connections s !! sa_uid info) ++ [c]]> (sb_connections s))
    (set_sub_clients (<[c := {| hinfo := info; current_stream_id := current_stream_id x |}]> (sb_clients s)) s).

(** Registering a client that is not yet in the table. *)
Lemma register_subs_ok info c x s :
  subs_ok s -> sb_clients s !! c = Some x -> ServerAuthInfo_IsValid (hinfo x) = false ->
  ServerAuthInfo_IsValid info = true ->
  subs_ok (registered_state info c x s).
Proof.
  intros [He Hr] Hx Hnv Hv. constructor; cbn.
  - intros uid l. destruct (decide (sa_uid info = uid)) as [<-|Hne].
    + rewrite lookup_insert_eq. intros [= <-].
      assert (Hc : forall l, sb_connections s !! sa_uid info = Some l -> NoDup (l ++ [c]) /\
        forall c', c' ∈ l -> exists x', sb_clients s !! c' = Some x' /\ sa_uid (hinfo x') = sa_uid info /\
          ServerAuthInfo_IsValid (hinfo x') = true /\ c' <> c).
      { intros l Hl. destruct (He _ _ Hl) as (Hnd & _ & Hall).
        assert (Hin : forall c', c' ∈ l -> exists x', sb_clients s !! c' = Some x' /\ sa_uid (hinfo x') = sa_uid info /\
          ServerAuthInfo_IsValid (hinfo x') = true /\ c' <> c).
        { intros c' Hc'. destruct (Hall c' Hc') as (x' & Hx' & Hu & Hv'). exists x'. split_and!; try done.
          intros ->. congruence. }
        split; [|done]. apply NoDup_app. split_and!; [done | | apply NoDup_singleton].
        intros c' Hc' ->%list_elem_of_singleton. destruct (Hin c Hc') as (? & _ & _ & _ & ?). done. }
      destruct (sb_connections s !! sa_uid info) as [l|] eqn:Hl; cbn.
      * destruct (Hc l eq_refl) as [Hnd Hin]. split; [done|]. split; [by destruct l|].
        intros c' [Hc'| ->%list_elem_of_singleton]%elem_of_app.
        -- destruct (Hin c' Hc') as (x' & Hx' & Hu & Hv' & Hne). exists x'.
           by rewrite lookup_insert_ne by done.
        -- eexists. by rewrite lookup_insert_eq.
      * split; [apply NoDup_singleton|]. split; [done|]. intros c' ->%list_elem_of_singleton.
        eexists. by rewrite lookup_insert_eq.
    + rewrite lookup_insert_ne by done. intros Hl. destruct (He _ _ Hl) as (Hnd & Hn & Hall). split_and!; [done..|].
      intros c' Hc'. destruct (Hall c' Hc') as (x' & Hx' & Hu & Hv'). exists x'. split; [|done].
      rewrite lookup_insert_ne; [done|]. intros <-. congruence.
  - intros c' x' Hx' Hv'. destruct (decide (c' = c)) as [->|Hne].
    + rewrite lookup_insert_eq in Hx'. injection Hx' as <-. cbn. rewrite lookup_insert_eq. eexists.
      split; [done|]. apply elem_of_app. right. by apply list_elem_of_singleton.
    + rewrite lookup_insert_ne in Hx' by done. destruct (Hr c' x' Hx' Hv') as (l & Hl & Hin).
      destruct (decide (sa_uid info = sa_uid (hinfo x'))) as [Hu|Hu].
      * rewrite Hu, lookup_insert_eq. rewrite Hl. cbn. eexists. split; [done|]. apply elem_of_app. by left.
      * rewrite lookup_insert_ne by done. by exists l.
Qed.

(** ** Activation *)

Lemma FindInnerConnectionsByUser_state user s :
  exists r, FindInnerConnectionsByUser user s = (r, s, []).
Proof.
  unfold FindInnerConnectionsByUser, mbind at 1, hact_bind at 1. cbn [hgets app].
  destruct (sb_connections s !! ur_user_id user) as [l|]; [|by eexists].
  induction l as [|c l IH]; [by eexists|]. cbn [connections_of]. destruct IH as [r Hr].
  unfold GetServerHostInfo, get_client, mbind, hact_bind in *.
  destruct (sb_clients s !! c) as [x|]; cbn; [|by eexists].
  destruct (connections_of user l s) as [[[r'|e|e] s'] es]; cbn in *; injection Hr as <- -> ->; by eexists.
Qed.

Lemma send_state write c e s : exists r, send write c e s = (r, s, [e]).
Proof.
  unfold send, mbind, hact_bind, hemit, hthrow, hlift. cbn. destruct (write c); by eexists.
Qed.

Lemma activate_fail_spec write c e s :
  activate_fail write c e s = (Err (make_errno_error (description e) EINVAL), s, [SubActivateFail c e]).
Proof.
  unfold activate_fail, send, mbind, hact_bind, htry, hemit, hthrow, hlift. cbn. by destruct (write c).
Qed.

(** What an accepted activation says of the client, its user and its device. *)
Definition accepted (users : gmap string UserInfo) (c : nat) (req : request_t) (s : subs)
    (info : ServerAuthInfo) (conns : list nat) : Prop :=
  exists params jauth u d,
    req_params req = Some params /\ json_tokener_parse params = Some jauth /\
    AuthInfo_DeSerialize (Some jauth) = Ok (sa_auth info) /\
    FindUser users (sa_auth info) = Ok u /\ IsBanned u = false /\ sa_uid info = us_uid u /\
    FindDevice u (auth_device (sa_auth info)) = Ok d /\
    FindInnerConnectionsByUser (MakeUserRpc info) s = (Ok conns, s, []) /\
    (Z.of_nat (length conns) < dev_connections d)%Z.

(** An activation changes nothing, or it registers its client. *)
Lemma activate_cases users write c req s r s' es :
  sub_HandleRequestClientActivate users write c req s = (r, s', es) ->
  (s' = s /\ r <> Ok tt) \/
  exists info conns x, accepted users c req s info conns /\ write c = None /\
    sb_clients s !! c = Some x /\ ServerAuthInfo_IsValid info = true /\
    r = Ok tt /\ s' = registered_state info c x s /\ es = [SubActivateSuccess c].
Proof.
  unfold sub_HandleRequestClientActivate.
  destruct (req_params req) as [params|] eqn:Hp; cbn [mbind option_bind]; [|intros [= <- <- <-]; by left].
  destruct (json_tokener_parse params) as [jauth|] eqn:Hj; [|intros [= <- <- <-]; by left].
  unfold or_activate_fail.
  destruct (AuthInfo_DeSerialize (Some jauth)) as [uauth|e|a] eqn:Hau;
    [|rewrite activate_fail_spec; intros [= <- <- <-]; by left | intros [= <- <- <-]; by left].
  destruct (FindUser users uauth) as [u|e|a] eqn:Hu;
    [|rewrite activate_fail_spec; intros [= <- <- <-]; by left | intros [= <- <- <-]; by left].
  destruct (IsBanned u) eqn:Hb; [rewrite activate_fail_spec; intros [= <- <- <-]; by left|].
  destruct (FindDevice u (auth_device uauth)) as [d|e|a] eqn:Hd;
    [|rewrite activate_fail_spec; intros [= <- <- <-]; by left | intros [= <- <- <-]; by left].
  set (info := {| sa_uid := us_uid u; sa_auth := uauth |}).
  unfold mbind at 1, hact_bind at 1.
  destruct (FindInnerConnectionsByUser_state (MakeUserRpc info) s) as [[conns|e|a] Hc]; rewrite Hc;
    [|intros [= <- <- <-]; by left..].
  destruct (Z.leb_spec (dev_connections d) (Z.of_nat (length conns))) as [Hle|Hlt].
  { rewrite activate_fail_spec. intros [= <- <- <-]. by left. }
  unfold mbind at 1, hact_bind at 1. unfold send at 1, mbind at 1, hact_bind at 1. cbn [hemit].
  destruct (write c) as [e|] eqn:Hw; cbn [hthrow hlift mret hact_ret].
  { intros [= <- <- <-]. by left. }
  unfold RegisterInnerConnectionByHost, mbind at 1, hact_bind at 1, hlift.
  destruct (ServerAuthInfo_IsValid info) eqn:Hv; cbn [check]; [|intros [= <- <- <-]; by left].
  unfold SetServerHostInfo, get_client, mbind, hact_bind.
  destruct (sb_clients s !! c) as [x|] eqn:Hx; cbn; [|intros [= <- <- <-]; by left].
  intros [= <- <- <-]. right. exists info, conns, x. split_and!; try done.
  exists params, jauth, u, d. done.
Qed.

(** The credentials [a] are those of the user [u] of the table, who is not banned
    (the status 2) and has the device [d]; of several devices of a name the first
    counts. *)
Definition admitted (users : gmap string UserInfo) (a : AuthInfo) (u : UserInfo) (d : DeviceInfo) : Prop :=
  auth_IsValid a = true /\ users !! auth_login a = Some u /\ auth_password a = us_password u /\ us_status u <> 2%Z /\
  auth_device a <> "" /\ dev_id d = auth_device a /\
  exists before after, us_devices u = before ++ d :: after /\ forall d', d' ∈ before -> dev_id d' <> auth_device a.

(** The connections that a user has on a device. *)
Definition on_device (uid device : string) (s : subs) : list nat :=
  filter (fun c => match sb_clients s !! c with
                   | Some x => String.eqb (sa_uid (hinfo x)) uid && String.eqb (auth_device (sa_auth (hinfo x))) device
                   | None => false
                   end = true) (default [] (sb_connections s !! uid)).

Lemma FindDevice_first u id d :
  FindDevice u id = Ok d <->
  id <> "" /\ dev_id d = id /\ exists before after, us_devices u = before ++ d :: after /\ forall d', d' ∈ before -> dev_id d' <> id.
Proof.
  unfold FindDevice. destruct (is_empty id) eqn:He; [apply is_empty_true in He; naive_solver|].
  assert (Hne : id <> "") by (intros ->; done).
  assert (Hf : List.find (fun d => String.eqb id (dev_id d)) (us_devices u) = Some d <->
    dev_id d = id /\ exists before after, us_devices u = before ++ d :: after /\ forall d', d' ∈ before -> dev_id d' <> id).
  { induction (us_devices u) as [|d0 l IH]; cbn [List.find].
    - split; [done|]. intros (_ & before & after & Hl & _). by destruct before.
    - destruct (String.eqb_spec id (dev_id d0)) as [Heq|Hn].
      + split.
        * intros [= <-]. split; [done|]. exists [], l. split; [done|]. by intros d' ?%elem_of_nil.
        * intros (Hd & [|d1 before] & after & Hl & Hb); [by injection Hl as -> _|].
          injection Hl as -> _. exfalso. by apply (Hb d1); [left|].
      + rewrite IH. split; intros (Hd & before & after & Hl & Hb); (split; [done|]).
        * exists (d0 :: before), after. rewrite Hl. split; [done|]. intros d' [->|?]%elem_of_cons; [congruence|by apply Hb].
        * destruct before as [|d1 before]; [injection Hl as -> _; congruence|]. injection Hl as -> ->.
          exists before, after. split; [done|]. intros d' ?. apply Hb. by right. }
  destruct (List.find _ _) as [d1|]; [|split; [done|intros (_ & Hx); by apply Hf in Hx]].
  split; [intros [= ->]; split; [done|by apply Hf]|intros (_ & Hx); by apply Hf in Hx as [= ->]].
Qed.

Lemma admitted_spec users a u d :
  admitted users a u d <-> FindUser users a = Ok u /\ IsBanned u = false /\ FindDevice u (auth_device a) = Ok d.
Proof.
  rewrite FindDevice_first. unfold admitted, FindUser, IsBanned. rewrite Z.eqb_neq.
  destruct (auth_IsValid a); cbn [negb]; [|naive_solver]. destruct (users !! auth_login a) as [u'|]; [|naive_solver].
  destruct (String.eqb_spec (auth_password a) (us_password u')); naive_solver.
Qed.

Lemma connections_on_device uid device l s :
  (forall c, c ∈ l -> is_Some (sb_clients s !! c)) ->
  connections_of {| ur_user_id := uid; ur_device_id := device |} l s =
  (Ok (filter (fun c => match sb_clients s !! c with
                   | Some x => String.eqb (sa_uid (hinfo x)) uid && String.eqb (auth_device (sa_auth (hinfo x))) device
                   | None => false
                   end = true) l), s, []).
Proof.
  induction l as [|c l IH]; intros Hl; [done|]. cbn [connections_of].
  unfold GetServerHostInfo, get_client, mbind, hact_bind, mret, hact_ret in *.
  destruct (Hl c ltac:(by left)) as [x Hx]. rewrite Hx, IH by (intros c' ?; apply Hl; by right). cbn -[filter].
  rewrite filter_cons, Hx. unfold UserRpcInfo_Equals, MakeUserRpc. cbn.
  by destruct (_ && _).
Qed.

Lemma connections_all user l s r : connections_of user l s = (Ok r, s, []) -> forall c, c ∈ l -> is_Some (sb_clients s !! c).
Proof.
  revert r. induction l as [|c l IH]; intros r; cbn [connections_of]; [by intros _ ? ?%elem_of_nil|].
  unfold GetServerHostInfo, get_client, mbind, hact_bind, mret, hact_ret in *.
  destruct (sb_clients s !! c) as [x|] eqn:Hx; cbn; [|done].
  destruct (connections_of user l s) as [[[r'|?|?] s'] es] eqn:Hr; cbn; [|done..]. intros [= _ -> He].
  destruct es; [|done]. intros c' [->|Hc']%elem_of_cons; [by eexists|by eapply IH].
Qed.

Lemma FindInner_on_device uid device s r :
  FindInnerConnectionsByUser {| ur_user_id := uid; ur_device_id := device |} s = (Ok r, s, []) -> r = on_device uid device s.
Proof.
  unfold FindInnerConnectionsByUser, mbind at 1, hact_bind at 1, on_device. cbn [hgets app ur_user_id].
  destruct (sb_connections s !! uid) as [l|] eqn:Hl; [|by intros [= <-]].
  destruct (connections_of _ l s) as [[r' s'] es] eqn:Hr. intros [= -> -> ->].
  pose proof (connections_all _ _ _ _ Hr) as Hall. rewrite connections_on_device in Hr by done. by injection Hr as <-.
Qed.

(** C14: a subscriber's activation succeeds only for a user of the table with
    the right password, who is not banned, on one of the devices of the user and
    while the user has fewer connections on that device than the device may have;
    it makes the client the last connection of the user and keeps its
    credentials, and touches no other client. And in every state that the server
    reaches (as long as nobody activates twice) it succeeds for each of these whose
    identifier is not empty, if the answer can be written. *)
Theorem activate_ok users write c req s :
  (forall s' es, sub_HandleRequestClientActivate users write c req s = (Ok tt, s', es) ->
     exists params jauth a u d x,
       req_params req = Some params /\ json_tokener_parse params = Some jauth /\
       AuthInfo_DeSerialize (Some jauth) = Ok a /\ admitted users a u d /\
       (Z.of_nat (length (on_device (us_uid u) (auth_device a) s)) < dev_connections d)%Z /\
       sb_clients s !! c = Some x /\ es = [SubActivateSuccess c] /\
       sb_connections s' = <[us_uid u := default [] (sb_connections s !! us_uid u) ++ [c]]> (sb_connections s) /\
       sb_clients s' = <[c := {| hinfo := {| sa_uid := us_uid u; sa_auth := a |};
                                 current_stream_id := current_stream_id x |}]> (sb_clients s)) /\
  (forall params jauth a u d x,
     subs_ok s -> req_params req = Some params -> json_tokener_parse params = Some jauth ->
     AuthInfo_DeSerialize (Some jauth) = Ok a -> admitted users a u d -> us_uid u <> "" ->
     (Z.of_nat (length (on_device (us_uid u) (auth_device a) s)) < dev_connections d)%Z ->
     sb_clients s !! c = Some x -> write c = None ->
     exists s', sub_HandleRequestClientActivate users write c req s = (Ok tt, s', [SubActivateSuccess c])).
Proof.
  split.
  - intros s' es [[_ ?]|(info & conns & x & Ha & _ & Hx & Hv & _ & -> & ->)]%activate_cases; [done|].
    destruct Ha as (params & jauth & u & d & Hp & Hj & Hau & Hu & Hb & Huid & Hd & Hc & Hlt).
    exists params, jauth, (sa_auth info), u, d, x. rewrite <-Huid.
    split_and!; [done..|by apply admitted_spec| |done|done|done|by destruct info].
    unfold MakeUserRpc in Hc. by rewrite <-(FindInner_on_device _ _ _ _ Hc).
  - intros params jauth a u d x Hs Hp Hj Hau Hadm Huid Hlt Hx Hw.
    pose proof Hadm as (Hu & Hb & Hd)%admitted_spec. unfold sub_HandleRequestClientActivate.
    rewrite Hp. cbn [mbind option_bind]. rewrite Hj, Hau. cbn [or_activate_fail]. rewrite Hu. cbn [or_activate_fail].
    rewrite Hb, Hd. cbn [or_activate_fail].
    set (info := {| sa_uid := us_uid u; sa_auth := a |}).
    destruct (FindInnerConnectionsByUser_ok (MakeUserRpc info) s Hs) as [conns Hc].
    pose proof (FindInner_on_device _ _ _ _ Hc) as Hcs. cbn in Hcs.
    unfold mbind at 1, hact_bind at 1. rewrite Hc, Hcs. rewrite (proj2 (Z.leb_gt _ _)) by done.
    assert (Hv : ServerAuthInfo_IsValid info = true).
    { unfold ServerAuthInfo_IsValid, info. cbn. destruct Hadm as (-> & _). by destruct (us_uid u). }
    unfold send, RegisterInnerConnectionByHost, SetServerHostInfo, get_client, mbind, hact_bind, hemit, hlift, hmodify.
    rewrite Hw, Hv. cbn. rewrite Hx. by eexists.
Qed.

(** ** Clients that are not known *)

(** A client whose identity is not in the table of the users - because it
    has not activated itself, or because a synchronisation has removed or changed
    it - gets no answer to its requests: it is told so and closed. *)
Theorem unknown_client_closed users bandwidth_host write c x req s err :
  sb_clients s !! c = Some x -> FindUser users (sa_auth (hinfo x)) = Err err ->
  req_method req <> CLIENT_ACTIVATE ->
  req_method req ∈ [CLIENT_PING; CLIENT_GET_SERVER_INFO; CLIENT_GET_CHANNELS; CLIENT_GET_RUNTIME_CHANNEL_INFO] ->
  sub_HandleRequestCommand users bandwidth_host write c req s =
    (Err (make_errno_error (description err) EINVAL),
     set_sub_clients (delete c (sb_clients s))
       (handler_Closed (set_connections (unregister c x (sb_connections s)) s)),
     [SubCheckActivateFail c err; SubClose c]).
Proof.
  intros Hx Hf Ha Hin.
  assert (Hauth : forall k, authenticated users write c k s =
    (Err (make_errno_error (description err) EINVAL),
     set_sub_clients (delete c (sb_clients s))
       (handler_Closed (set_connections (unregister c x (sb_connections s)) s)),
     [SubCheckActivateFail c err; SubClose c])).
  { intros k. unfold authenticated, CheckIsAuthClient, GetServerHostInfo, get_client.
    unfold mbind, hact_bind, mret, hact_ret. rewrite Hx, Hf. unfold htry.
    destruct (send_state write c (SubCheckActivateFail c err) s) as [r Hr].
    assert (Hna : forall z, r <> Abort z).
    { intros z ->. unfold send, mbind, hact_bind, hemit in Hr. cbn in Hr. destruct (write c); done. }
    rewrite Hr. destruct r as [u|e|z]; [| |by destruct (Hna z)]; cbn -[sub_drop];
      rewrite (sub_drop_eq c x s Hx); done. }
  unfold sub_HandleRequestCommand. rewrite decide_False by done.
  repeat case_decide; try apply Hauth.
  exfalso. revert Hin. rewrite !elem_of_cons, elem_of_nil. naive_solver.
Qed.

(** ** Reachable states *)

Definition keeps_subs : subs -> subs -> list sub_event -> Prop := fun s s' _ => subs_ok s -> subs_ok s'.
#[local] Instance keeps_subs_keepable : Keepable keeps_subs.
Proof. constructor; unfold keeps_subs; auto. Qed.

Lemma subs_ok_hinfo s s' :
  (forall c, hinfo <$> sb_clients s' !! c = hinfo <$> sb_clients s !! c) ->
  sb_connections s' = sb_connections s -> subs_ok s -> subs_ok s'.
Proof.
  intros Hc Hm [He Hr]. constructor; rewrite Hm.
  - intros uid l Hl. destruct (He uid l Hl) as (Hnd & Hne & Hall). split_and!; [done..|].
    intros c Hin. destruct (Hall c Hin) as (x & Hx & Hu & Hv). specialize (Hc c). rewrite Hx in Hc.
    destruct (sb_clients s' !! c) as [x'|]; [|done]. cbn in Hc. injection Hc as Hc. exists x'. by rewrite Hc.
  - intros c x' Hx' Hv. specialize (Hc c). rewrite Hx' in Hc.
    destruct (sb_clients s !! c) as [x|] eqn:Hx; [|done]. cbn in Hc. injection Hc as Hc.
    rewrite Hc in *. by apply (Hr c).
Qed.

Lemma send_keeps write c e : keeps keeps_subs (send write c e).
Proof. intros s Hs. by destruct (send_state write c e s) as [r ->]. Qed.

Lemma drop_keeps c : keeps keeps_subs (sub_drop c).
Proof. intros s Hs. by apply sub_drop_ok. Qed.

Lemma get_client_keeps c : keeps keeps_subs (get_client c).
Proof. intros s Hs. exact Hs. Qed.

Lemma SetCurrentStreamID_keeps c sid : keeps keeps_subs (SetCurrentStreamID c sid).
Proof.
  intros s Hs. unfold SetCurrentStreamID, get_client, mbind, hact_bind, hmodify.
  destruct (sb_clients s !! c) as [x|] eqn:Hx; [|done]. cbn.
  eapply subs_ok_hinfo; [| |exact Hs]; [|done]. cbn. intros c'.
  destruct (decide (c' = c)) as [->|Hne]; [by rewrite lookup_insert_eq, Hx | by rewrite lookup_insert_ne].
Qed.

Local Ltac subs_solve :=
  repeat (intros; cbn beta iota zeta;
    first [ assumption | apply send_keeps | apply drop_keeps | apply get_client_keeps
          | apply SetCurrentStreamID_keeps | apply keeps_bind | apply keeps_ret | apply keeps_gets
          | apply keeps_lift | apply keeps_throw | apply keeps_try | apply keeps_iter
          | match goal with |- keeps _ (match ?x with _ => _ end) => destruct x end
          | typeclasses eauto ]).

Lemma authenticated_keeps users write c k :
  (forall u, keeps keeps_subs (k u)) -> keeps keeps_subs (authenticated users write c k).
Proof. intros Hk. unfold authenticated, CheckIsAuthClient, GetServerHostInfo. subs_solve. apply Hk. Qed.

Lemma requests_keep users bandwidth_host write c req s :
  (req_method req = CLIENT_ACTIVATE -> forall x, sb_clients s !! c = Some x ->
     ServerAuthInfo_IsValid (hinfo x) = false) ->
  subs_ok s -> subs_ok (act_state (sub_HandleRequestCommand users bandwidth_host write c req s)).
Proof.
  intros Hnr Hs. unfold sub_HandleRequestCommand. case_decide as Ha.
  - destruct (sub_HandleRequestClientActivate users write c req s) as [[r s'] es] eqn:Hact. cbn.
    apply activate_cases in Hact as [[-> _]|(info & conns & x & _ & _ & Hx & Hv & _ & -> & _)]; [done|].
    apply register_subs_ok; auto.
  - refine (_ Hs). clear Hnr Hs. revert s. match goal with |- forall s, _ -> subs_ok (act_state (?m s)) => change (keeps keeps_subs m) end.
    repeat case_decide; unfold sub_HandleRequestClientPing, sub_HandleRequestClientGetServerInfo,
      sub_HandleRequestClientGetChannels, sub_HandleRequestClientGetRuntimeChannelInfo;
      first [apply authenticated_keeps; subs_solve | subs_solve].
Qed.

(** The steps of the server, as long as no client that has activated itself
    does so again. The table of users may be another one at every step. *)
Inductive sub_step : subs -> subs -> Prop :=
| step_accept c s : sb_clients s !! c = None -> sub_step s (act_state (sub_Accepted c s))
| step_data users bandwidth_host write c read parse pop s :
    (forall text req, read = inl text -> parse text = ParsedRequest req -> req_method req = CLIENT_ACTIVATE ->
       ~ registered c s) ->
    sub_step s (act_state (sub_DataReceived users bandwidth_host write c read parse pop s))
| step_timer write id online s : sub_step s (act_state (sub_TimerEmited write id online s))
| step_begin timer s : sub_step s (act_state (sub_PreLooped timer s))
| step_end s : sub_step s (act_state (sub_PostLooped s)).

Definition subs_init : subs :=
  {| sb_clients := ∅; sb_connections := ∅; sb_online := 0; sb_ping_timer := None |}.

Lemma sub_step_ok s s' : subs_ok s -> sub_step s s' -> subs_ok s'.
Proof.
  intros Hs Hstep. destruct Hstep as [c s Hc|users bh write c read parse pop s Hnr|write id online s|timer s|s].
  - by apply sub_Accepted_ok.
  - unfold sub_DataReceived. destruct read as [text|e]; [|by apply sub_drop_ok].
    unfold HandleInnerDataReceived. destruct (parse text) as [e|req|resp|] eqn:Hp; [by cbn| | |by cbn].
    + assert (Hk : subs_ok (act_state (sub_HandleRequestCommand users bh write c req s))).
      { apply requests_keep; [|done]. intros Hm x Hx. destruct (ServerAuthInfo_IsValid (hinfo x)) eqn:Hv; [|done].
        exfalso. apply (Hnr text req); [done..|]. by exists x. }
      unfold mbind, hact_bind, htry.
      by destruct (sub_HandleRequestCommand users bh write c req s) as [[[|e|a] s1] es1].
    + refine (_ Hs). generalize s.
      change (keeps keeps_subs (htry (htry (sub_HandleResponceCommand (pop (resp_id resp)) resp) ;; mret tt) ;; mret tt)).
      unfold sub_HandleResponceCommand, HandleResponceServerPing, HandleResponceServerGetClientInfo. subs_solve.
  - refine (_ Hs). generalize s. change (keeps keeps_subs (sub_TimerEmited write id online)).
    unfold sub_TimerEmited. subs_solve.
  - by apply (subs_ok_hinfo s).
  - unfold sub_PostLooped, mbind, hact_bind, hgets. destruct (sb_ping_timer s); [by apply (subs_ok_hinfo s)|done].
Qed.

(** *** The ping *)

Definition ping_one (write : nat -> option error) (c : nat) : sub_handler :=
  err ← htry (send write c (SubPing c)); match err with Some _ => sub_drop c | None => mret tt end.

Lemma ping_one_run write c x s :
  sb_clients s !! c = Some x ->
  exists s' es, ping_one write c s = (Ok tt, s', es) /\
    sb_clients s' = match write c with Some _ => delete c (sb_clients s) | None => sb_clients s end.
Proof.
  intros Hx. unfold ping_one, send, htry, mbind at 1, hact_bind at 1, mbind at 1, hact_bind at 1, hemit. cbn beta iota.
  destruct (write c) as [e|]; cbn -[sub_drop]; [|by eexists _, _].
  rewrite (sub_drop_eq c x s Hx). by eexists _, _.
Qed.

(** A ping of clients that are connected returns, and leaves those that took
    it. *)
Lemma ping_run write online s :
  NoDup online -> (forall c, c ∈ online -> is_Some (sb_clients s !! c)) ->
  exists s' es, hact_iter (ping_one write) online s = (Ok tt, s', es) /\
    forall c, sb_clients s' !! c = if decide (c ∈ online /\ is_Some (write c)) then None else sb_clients s !! c.
Proof.
  intros Hd. revert s. induction Hd as [|c online Hc Hd IH]; intros s Hin.
  { exists s, []. split; [done|]. intros c. by rewrite decide_False by (by intros [?%elem_of_nil _]). }
  destruct (Hin c ltac:(by left)) as [x Hx]. destruct (ping_one_run write c x s Hx) as (s1 & es1 & H1' & Hs1).
  destruct (IH s1) as (s2 & es2 & H2' & Hs2).
  { intros c' Hc'. rewrite Hs1. assert (c' <> c) by (intros ->; done).
    destruct (write c); [rewrite lookup_delete_ne by done|]; apply Hin; by right. }
  exists s2, (es1 ++ es2). split; [cbn [hact_iter]; unfold mbind, hact_bind; by rewrite H1', H2'|].
  intros c'. rewrite Hs2, Hs1. destruct (decide (c' = c)) as [->|Hne].
  - rewrite decide_False by tauto. destruct (write c).
    + rewrite lookup_delete_eq, decide_True; [done|]. split; [by left|by eexists].
    + rewrite decide_False; [done|]. by intros [_ [? ?]].
  - replace (match write c with Some _ => delete c (sb_clients s) | None => sb_clients s end !! c') with (sb_clients s !! c')
      by (destruct (write c); [by rewrite lookup_delete_ne|done]).
    destruct (decide (c' ∈ online /\ is_Some (write c'))) as [[? ?]|Hn].
    + rewrite decide_True; [done|]. split; [by right|done].
    + rewrite decide_False; [done|]. intros [[?|?]%elem_of_cons ?]; [done|tauto].
Qed.

(** C11: as long as no client activates itself twice, the table of connections
    never holds a client that was deleted: whatever clients, users,
    synchronisations and the timer of the pings do, looking a user's connections
    up follows valid pointers only, and a client that is closed is in no entry.
    When that timer runs out, the ping of the connected clients returns, and
    exactly those that it cannot be written to are deleted, and are in no entry
    any more. *)
Theorem no_dangling_connection s user :
  steps sub_step subs_init s ->
  (exists l, FindInnerConnectionsByUser user s = (Ok l, s, [])) /\
  (forall uid l c, sb_connections s !! uid = Some l -> c ∈ l -> is_Some (sb_clients s !! c)) /\
  forall write id online, sb_ping_timer s = Some id -> NoDup online -> (forall c, c ∈ online -> is_Some (sb_clients s !! c)) ->
    exists s' es, sub_TimerEmited write id online s = (Ok tt, s', es) /\
      (forall c, sb_clients s' !! c = if decide (c ∈ online /\ is_Some (write c)) then None else sb_clients s !! c) /\
      (forall uid l c, sb_connections s' !! uid = Some l -> c ∈ l -> ~ (c ∈ online /\ is_Some (write c))).
Proof.
  intros Hsteps. assert (Hs : subs_ok s).
  { refine (steps_inv _ subs_ok _ _ sub_step_ok _ Hsteps).
    constructor; cbn; intros ? ?; rewrite lookup_empty; done. }
  assert (Hall : forall s uid l c, subs_ok s -> sb_connections s !! uid = Some l -> c ∈ l -> is_Some (sb_clients s !! c)).
  { intros s0 uid l c Hs0 Hl Hin. destruct (sb_entries s0 Hs0 uid l Hl) as (_ & _ & Hc). destruct (Hc c Hin) as (x & Hx & _). by exists x. }
  split; [by apply FindInnerConnectionsByUser_ok|]. split; [intros uid l c; by apply Hall|].
  intros write id online Ht Hd Hin. destruct (ping_run write online s Hd Hin) as (s' & es & Hr & Hc).
  assert (He : sub_TimerEmited write id online s = (Ok tt, s', es)).
  { unfold sub_TimerEmited, mbind at 1, hact_bind at 1, hgets. rewrite decide_True by done.
    change (hact_iter _ online) with (hact_iter (ping_one write) online). by rewrite Hr. }
  exists s', es. split; [done|]. split; [done|]. intros uid l c Hl Hcl Hdead.
  assert (Hs' : subs_ok s') by (replace s' with (act_state (sub_TimerEmited write id online s)) by (by rewrite He); eapply sub_step_ok, step_timer; exact Hs).
  destruct (Hall s' uid l c Hs' Hl Hcl) as [x Hx]. rewrite Hc, decide_True in Hx by done. done.
Qed.

(** C24: a client that activates itself a second time is listed twice, but is
    taken out once when it is closed: the table then holds a deleted client. *)
Theorem double_activation_dangles users write c req s s1 es x :
  subs_ok s -> sb_clients s !! c = Some x -> ServerAuthInfo_IsValid (hinfo x) = true ->
  sub_HandleRequestClientActivate users write c req s = (Ok tt, s1, es) ->
  let s2 := act_state (sub_drop c s1) in
  sb_clients s2 !! c = None /\ exists uid l, sb_connections s2 !! uid = Some l /\ c ∈ l.
Proof.
  intros Hs Hx Hv Hact.
  apply activate_cases in Hact as [[_ ?]|(info & conns & x' & _ & _ & Hx' & Hvi & _ & -> & _)]; [done|].
  rewrite Hx in Hx'. injection Hx' as <-. destruct (sb_registered s Hs c x Hx Hv) as (l & Hl & Hin).
  cbn zeta. rewrite (sub_drop_eq c {| hinfo := info; current_stream_id := current_stream_id x |})
    by (cbn; by rewrite lookup_insert_eq).
  cbn. split; [by rewrite lookup_delete_eq|].
  exists (sa_uid (hinfo x)). rewrite unregister_lookup. cbn [hinfo].
  destruct (decide (sa_uid info = sa_uid (hinfo x))) as [Hu|Hu].
  - rewrite decide_True by done. rewrite Hu, lookup_insert_eq, Hl. cbn [default].
    assert (Hc : c ∈ erase_first c (l ++ [c])).
    { clear -Hin. induction l as [|y l IH]; [by apply elem_of_nil in Hin|]. cbn. case_decide.
      - apply elem_of_app. right. by apply list_elem_of_singleton.
      - apply elem_of_cons in Hin as [->|Hin]; [done|]. apply elem_of_cons. right. by apply IH. }
    cbn. destruct (erase_first c (l ++ [c])) as [|y ys] eqn:He; [by apply elem_of_nil in Hc|]. by eexists.
  - rewrite decide_False by naive_solver. rewrite lookup_insert_ne by done. by exists l.
Qed.
End Theorems.

(** ** The theorems at a concrete subscriber *)

Section Witnesses.
#[local] Existing Instances Ref.common.
#[local] Instance sample_sub_json : JsonC :=
  Ref.json_c (fun s => if decide (s = "auth") then
    Some (Ref.JObject [("login", Some (Ref.JString "ann")); ("password", Some (Ref.JString "secret"));
                       ("device_id", Some (Ref.JString "tv"))]) else None).
#[local] Instance sample_sub_fastotv : FastotvLib := ref_fastotv.
#[local] Existing Instances ref_methods ref_rpc.

Lemma sample_sub_ok : FastotvLibOk.
Proof. exact (@ref_fastotv_ok _ _ (Ref.json_c_ok _)). Qed.
#[local] Existing Instance sample_sub_ok.

(** Ann may have two connections on her television. *)
Definition sample_users : gmap string UserInfo :=
  {["ann" := {| us_uid := "42"; us_login := "ann"; us_password := "secret"; us_ch := channels_empty;
                us_devices := [{| dev_id := "tv"; dev_connections := 2 |}]; us_status := 1 |}]}.

Definition sample_activation : request_t :=
  {| req_id := (1%Z : @json_rpc_id ref_rpc); req_method := CLIENT_ACTIVATE; req_params := Some "auth" |}.

Definition sample_connected : subs := act_state (sub_Accepted 5 subs_init).
Definition sample_activate (s : subs) :=
  sub_HandleRequestClientActivate sample_users (fun _ => None) 5 sample_activation s.

Lemma activate_ok_witness :
  exists info, sb_connections (act_state (sample_activate sample_connected)) !! sa_uid info = Some [5].
Proof.
  destruct (sample_activate sample_connected) as [[r s'] es] eqn:Ha.
  assert (Hr : r = Ok tt).
  { transitivity (act_result (sample_activate sample_connected)); [by rewrite Ha | vm_compute; reflexivity]. }
  rewrite Hr in Ha. destruct (proj1 (activate_ok _ _ _ _ _) _ _ Ha) as (params & jauth & a & u & d & x & _ & _ & _ & Hu & _ & _ & _ & Hc & _).
  exists {| sa_uid := us_uid u; sa_auth := a |}. cbn [act_state snd fst sa_uid]. rewrite Hc, lookup_insert_eq. reflexivity.
Defined.

Definition sample_channels : request_t :=
  {| req_id := (2%Z : @json_rpc_id ref_rpc); req_method := CLIENT_GET_CHANNELS; req_params := None |}.

Lemma unknown_client_closed_witness :
  act_events (sub_HandleRequestCommand sample_users "" (fun _ => None) 5 sample_channels sample_connected) =
  [SubCheckActivateFail 5 error_inval; SubClose 5].
Proof.
  pose proof (unknown_client_closed sample_users "" (fun _ => None) 5 make_subscriber sample_channels
    sample_connected error_inval) as H.
  assert (H1 : sb_clients sample_connected !! 5 = Some make_subscriber) by reflexivity.
  assert (H2 : FindUser sample_users (sa_auth (hinfo make_subscriber)) = Err error_inval) by reflexivity.
  assert (H3 : req_method sample_channels <> CLIENT_ACTIVATE) by (cbn; discriminate).
  assert (H4 : req_method sample_channels ∈
    [CLIENT_PING; CLIENT_GET_SERVER_INFO; CLIENT_GET_CHANNELS; CLIENT_GET_RUNTIME_CHANNEL_INFO]).
  { apply elem_of_cons; right. apply elem_of_cons; right. apply elem_of_cons; left. reflexivity. }
  specialize (H H1 H2 H3 H4). unfold act_events. rewrite H. reflexivity.
Defined.

Definition sample_online : subs := act_state (sub_Accepted 5 (act_state (sub_PreLooped 3 subs_init))).

Lemma no_dangling_connection_witness :
  let s := act_state (sample_activate sample_online) in
  sb_connections s !! "42" = Some [5] /\ is_Some (sb_clients s !! 5) /\
  exists s' es, sub_TimerEmited (fun _ => Some error_inval) 3 [5] s = (Ok tt, s', es) /\ sb_clients s' !! 5 = None.
Proof.
  intros s. assert (Hc : sb_connections s !! "42" = Some [5]) by reflexivity.
  split; [exact Hc|].
  destruct (no_dangling_connection s {| ur_user_id := "42"; ur_device_id := "tv" |}) as (_ & Hin & Hp).
  - eapply steps_step; [apply (step_begin 3)|]. eapply steps_step; [apply (step_accept 5); reflexivity|].
    eapply steps_step; [|apply steps_refl].
    assert (Hs : s = act_state (sub_DataReceived sample_users "" (fun _ => None) 5 (inl "auth")
      (fun _ => ParsedRequest sample_activation) (fun _ => None) sample_online)) by reflexivity.
    rewrite Hs. apply step_data. intros text req _ _ _ (x & Hx & Hv). cbn in Hx.
    injection Hx as <-. cbn in Hv. discriminate.
  - assert (H5 : is_Some (sb_clients s !! 5)) by (apply (Hin "42" [5] 5 Hc); apply elem_of_cons; left; reflexivity).
    split; [exact H5|]. assert (Ht : sb_ping_timer s = Some 3) by reflexivity.
    destruct (Hp (fun _ => Some error_inval) 3 [5] Ht (NoDup_singleton 5)) as (s' & es & Hr & Hcl & _).
    + intros c Hc5. apply list_elem_of_singleton in Hc5. rewrite Hc5. exact H5.
    + exists s', es. split; [exact Hr|]. rewrite Hcl. rewrite decide_True; [reflexivity|].
      split; [apply list_elem_of_singleton; reflexivity|eexists; reflexivity].
Defined.

(** A second activation on the same connection. *)
Lemma double_activation_dangles_witness :
  let s := act_state (sample_activate sample_connected) in
  let s2 := act_state (sub_drop 5 (act_state (sample_activate s))) in
  sb_clients s2 !! 5 = None /\ exists uid l, sb_connections s2 !! uid = Some l /\ 5 ∈ l.
Proof.
  intros s. assert (Hok : subs_ok s).
  { assert (Hi : subs_ok subs_init) by (constructor; cbn; intros ? ?; rewrite lookup_empty; done).
    assert (Hc : subs_ok sample_connected) by (apply sub_Accepted_ok; [done | reflexivity]).
    unfold s. destruct (sample_activate sample_connected) as [[r s'] es] eqn:Ha.
    destruct (activate_cases _ _ _ _ _ _ _ _ Ha) as [[-> _]|(info & conns & x & _ & _ & Hx & Hv & _ & -> & _)];
      [done|]. apply register_subs_ok; [done..| |done]. cbn in Hx. by injection Hx as <-. }
  destruct (sample_activate s) as [[r s1] es] eqn:Ha.
  assert (Hr : r = Ok tt).
  { transitivity (act_result (sample_activate s)); [by rewrite Ha | vm_compute; reflexivity]. }
  rewrite Hr in Ha.
  eapply (double_activation_dangles sample_users (fun _ => None) 5 sample_activation s s1 es);
    [exact Hok | reflexivity | reflexivity | exact Ha].
Defined.
End Witnesses.
