(* ===== verification/Http.v ===== *)
(** * The HTTP servers

    [src/src/server/http/handler.cpp] serves the files of the live streams and
    [src/src/server/vods/handler.cpp], whose code is the same but for its names
    and its root, those of the films. A request is one step: what it does to the
    connection and to the outside world is a list of events, in their order.

    The parser of requests, paths and the system's answers are parameters. *)

From S2P Require Import Prelude Platform.

(** ** The libraries' part *)

Inductive http_method := HM_GET | HM_HEAD | HM_OTHER (name : string).
#[export] Instance http_method_eq_dec : EqDecision http_method.
Proof. solve_decision. Defined.

Inductive http_status := HS_OK | HS_BAD_REQUEST | HS_FORBIDDEN | HS_NOT_FOUND | HS_OTHER (code : Z).
#[export] Instance http_status_eq_dec : EqDecision http_status.
Proof. solve_decision. Defined.

(** [common::uri::Upath]. *)
Record Upath := {
  up_IsValid : bool;
  up_IsRoot : bool;
  up_Hpath : string;
  up_FileName : string;
  up_Mime : string
}.

(** A parsed request; [hr_connection] is the header [Connection]. *)
Record HttpRequest := {
  hr_method : http_method;
  hr_protocol : string;
  hr_connection : option string;
  hr_path : Upath
}.

Record file_stat := { fst_is_dir : bool; fst_size : Z; fst_mtime : Z }.

Class HttpLib := {
  parse_http_request : string -> HttpRequest + (http_status * string);
  equals_nocase : string -> string -> bool;         (* common::EqualsASCII(a, b, false) *)
  MakeDirectoryStringPath : string -> string -> option string;
  MakeFileStringPath : string -> string -> option string
}.

(** What the system answers to one request. *)
Record http_answers := {
  ha_stat : string -> option file_stat;
  ha_open : string -> option Z;
  ha_send_headers : option error;
  ha_send_file : option error
}.

Inductive http_event :=
| SendError (protocol : string) (status : http_status) (text : string) (is_keep_alive : bool)
| SendHeaders (protocol mime : string) (size mtime : Z) (is_keep_alive : bool)
| SendFile (protocol : string) (fd size : Z)
| OpenFile (path : string) (fd : Z)
| CloseFile (fd : Z)
| NotifyRequest (path : string)                     (* observer_->OnHttpRequest *)
| CloseConnection.

(** The state of a handler: its root, whether it has an observer, and the number of
    its connections. *)
(* [src/src/server/http/handler.h:29-60 HttpHandler] *)
Record http_state := { ht_root : string; ht_observer : bool; ht_online_clients : Z }.

Section Http.
Context `{HttpLib}.

(** [std::string::substr(1)] throws on an empty string, and nothing catches it. *)
Definition substr1 (s : string) : outcome string :=
  match s with
  | EmptyString => Abort (LibraryAssert "std::string::substr")
  | String _ s' => Ok s'
  end.

(** The file of a request, below [root]. *)
(* [src/src/server/http/handler.cpp:132-138 HttpHandler::ProcessReceived] *)
Definition requested_file (root : string) (path : Upath) : outcome (option string) :=
  dirs ← substr1 (up_Hpath path);
  let dirs_path := default root (MakeDirectoryStringPath root dirs) in
  Ok (MakeFileStringPath dirs_path (up_FileName path)).

(** The answer to a request for a file; the second component tells whether the
    handler goes on to the end, where it looks at the kind of the connection. *)
(* [src/src/server/http/handler.cpp:120-203 HttpHandler::ProcessReceived] *)
Definition serve (a : http_answers) (s : http_state) (hrequest : HttpRequest) (keep : bool)
    : outcome (list http_event * bool) :=
  let protocol := hr_protocol hrequest in
  let path := hr_path hrequest in
  let refuse status text := [SendError protocol status text keep] in
  if negb (up_IsValid path) || up_IsRoot path then Ok (refuse HS_NOT_FOUND "File not found.", false)
  else
  file_path ← requested_file (ht_root s) path;
  match file_path with
  | None => Ok (refuse HS_NOT_FOUND "File not found.", false)
  | Some file_path =>
      let told := if ht_observer s then [NotifyRequest file_path] else [] in
      match ha_stat a file_path with
      | None => Ok (told ++ refuse HS_NOT_FOUND "File not found.", false)
      | Some sb =>
          if fst_is_dir sb then Ok (told ++ refuse HS_BAD_REQUEST "Bad filename.", false)
          else
          match ha_open a file_path with
          | None => Ok (told ++ refuse HS_FORBIDDEN "File is protected.", false)
          | Some fd =>
              let headers := told ++ [OpenFile file_path fd;
                SendHeaders protocol (up_Mime path) (fst_size sb) (fst_mtime sb) keep] in
              match ha_send_headers a with
              | Some _ => Ok (headers ++ [CloseFile fd], false)
              | None =>
                  let body := if decide (hr_method hrequest = HM_GET)
                              then [SendFile protocol fd (fst_size sb)] else [] in
                  Ok (headers ++ body ++ [CloseFile fd], true)
              end
          end
      end
  end.

(* [src/src/server/http/handler.cpp:115-117 HttpHandler::ProcessReceived] *)
Definition IsKeepAlive (hrequest : HttpRequest) : bool :=
  match hr_connection hrequest with
  | Some value => equals_nocase value "Keep-Alive"
  | None => false
  end.

(* [src/src/server/http/handler.cpp:94-209 HttpHandler::ProcessReceived] *)
Definition ProcessReceived (a : http_answers) (s : http_state) (request : string) : outcome (list http_event) :=
  match parse_http_request request with
  | inr (status, error_text) => Ok [SendError "HTTP/1.1" status error_text false; CloseConnection]
  | inl hrequest =>
      let keep := IsKeepAlive hrequest in
      r ← (if decide (hr_method hrequest = HM_GET \/ hr_method hrequest = HM_HEAD)
           then serve a s hrequest keep else Ok ([], true));
      let '(es, on) := r in
      Ok (es ++ if on && negb keep then [CloseConnection] else [])
  end.

(** [read] is what the connection gives; an error other than [EAGAIN], or
    nothing, closes it. *)
(* [src/src/server/http/handler.cpp:71-84 HttpHandler::DataReceived] *)
Definition http_DataReceived (a : http_answers) (s : http_state) (read : option (error * errno_code))
    (buff : string) : outcome (list http_event) :=
  let failed := match read with Some (_, code) => negb (bool_decide (code = EAGAIN)) | None => false end in
  if failed || is_empty buff then Ok [CloseConnection]
  else ProcessReceived a s buff.

(** *** Roots and connections *)

(* [src/src/server/http/handler.cpp:33-35 HttpHandler::SetHttpRoot] *)
Definition SetHttpRoot (http_root : string) (s : http_state) : http_state :=
  {| ht_root := http_root; ht_observer := ht_observer s; ht_online_clients := ht_online_clients s |}.

Definition set_online_clients (n : Z) (s : http_state) : http_state :=
  {| ht_root := ht_root s; ht_observer := ht_observer s; ht_online_clients := n |}.

(** The callbacks of the loop that do something. *)
Inductive connection_event := ClientAccepted | ClientClosed | ChildMoved.

(* [src/src/server/base/iserver_handler.cpp:31-60 IServerHandler::Accepted] *)
Definition on_connection (e : connection_event) (s : http_state) : http_state :=
  match e with
  | ClientAccepted => set_online_clients (u64 (ht_online_clients s + 1)) s
  | ClientClosed => set_online_clients (u64 (ht_online_clients s - 1)) s
  | ChildMoved => set_online_clients (u64 (ht_online_clients s - 1)) s
  end.

(* [src/src/server/base/iserver_handler.cpp:23-25 IServerHandler::GetOnlineClients] *)
Definition GetOnlineClients (s : http_state) : Z := ht_online_clients s.

(** The handler of the films, whose code is that of the live streams; its root is
    [vods_root_]. *)
(* [src/src/server/vods/handler.cpp:94-208 VodsHandler::ProcessReceived] *)
Definition vods_ProcessReceived (a : http_answers) (s : http_state) (request : string) : outcome (list http_event) :=
  ProcessReceived a s request.
(* [src/src/server/vods/handler.cpp:71-84 VodsHandler::DataReceived] *)
Definition vods_DataReceived (a : http_answers) (s : http_state) (read : option (error * errno_code))
    (buff : string) : outcome (list http_event) :=
  http_DataReceived a s read buff.

(** ** What is answered *)

(** The descriptors that are open after some events. *)
Fixpoint open_files (held : list Z) (es : list http_event) : list Z :=
  match es with
  | [] => held
  | OpenFile _ fd :: es' => open_files (held ++ [fd]) es'
  | CloseFile fd :: es' => open_files (filter (fun x => x <> fd) held) es'
  | _ :: es' => open_files held es'
  end.

Definition occurrences (e : connection_event) (es : list connection_event) : Z :=
  Z.of_nat (length (List.filter (fun x => match x, e with
    | ClientAccepted, ClientAccepted | ClientClosed, ClientClosed | ChildMoved, ChildMoved => true | _, _ => false end) es)).

(** The number of clients is that of the connections that were accepted and have
    not been closed, as long as no child is moved to another loop. *)
Lemma online_clients_count es s :
  ht_online_clients s = 0%Z -> occurrences ChildMoved es = 0%Z ->
  (occurrences ClientClosed es <= occurrences ClientAccepted es < 2 ^ 64)%Z ->
  GetOnlineClients (fold_left (fun s e => on_connection e s) es s) =
  (occurrences ClientAccepted es - occurrences ClientClosed es)%Z.
Proof.
  intros Hs Hm Hle.
  assert (Hg : forall s, in_u 64 (ht_online_clients s) ->
    GetOnlineClients (fold_left (fun s e => on_connection e s) es s) =
    u64 (ht_online_clients s + occurrences ClientAccepted es - occurrences ClientClosed es)).
  { clear Hs Hle. unfold occurrences in *. induction es as [|e es IH]; intros s' Hs'; cbn [fold_left].
    - cbn. rewrite Z.add_0_r, Z.sub_0_r. by rewrite wrap_small.
    - destruct e; [| |cbn in Hm; lia]; rewrite IH by (done || (apply wrap_range; lia)); cbn -[Z.of_nat Z.add Z.sub];
        unfold wrap; rewrite Nat2Z.inj_succ, <-Zminus_mod_idemp_l, Zplus_mod_idemp_l, Zminus_mod_idemp_l; f_equal; lia. }
  rewrite Hg by (rewrite Hs; unfold in_u; lia). rewrite Hs, wrap_small by (unfold in_u, occurrences in *; lia). lia.
Qed.

(** Responses: an error or headers. *)
Definition responses (es : list http_event) : list http_status :=
  omap (fun e => match e with
                 | SendError _ status _ _ => Some status
                 | SendHeaders _ _ _ _ _ => Some HS_OK
                 | _ => None
                 end) es.

(** The file that a request asks for, if it is one that can be opened. *)
Definition found_file (a : http_answers) (s : http_state) (hrequest : HttpRequest) : option (string * file_stat * Z) :=
  let path := hr_path hrequest in
  if negb (up_IsValid path) || up_IsRoot path then None
  else
    match requested_file (ht_root s) path with
    | Ok (Some p) =>
        sb ← ha_stat a p;
        if fst_is_dir sb then None else (fun fd => (p, sb, fd)) <$> ha_open a p
    | _ => None
    end.

Definition wants_file (hrequest : HttpRequest) : bool :=
  bool_decide (hr_method hrequest = HM_GET \/ hr_method hrequest = HM_HEAD).
Definition headers_sent (a : http_answers) : bool := match ha_send_headers a with None => true | Some _ => false end.

(** The observer is told, and nobody else. *)
Definition notices (s : http_state) (es : list http_event) : Prop :=
  es = [] \/ ht_observer s = true /\ exists p, es = [NotifyRequest p].

Local Ltac refused := eexists _, _; split_and!; [|reflexivity|reflexivity]; discriminate.

(** What is sent for a file, or instead of it. *)
Lemma serve_spec a s hrequest keep es on :
  serve a s hrequest keep = Ok (es, on) ->
  exists told, notices s told /\
    match found_file a s hrequest with
    | Some (p, sb, fd) =>
        es = told ++ [OpenFile p fd; SendHeaders (hr_protocol hrequest) (up_Mime (hr_path hrequest)) (fst_size sb) (fst_mtime sb) keep] ++
             (if headers_sent a && bool_decide (hr_method hrequest = HM_GET)
              then [SendFile (hr_protocol hrequest) fd (fst_size sb)] else []) ++ [CloseFile fd] /\
        on = headers_sent a
    | None =>
        exists status text, status <> HS_OK /\ es = told ++ [SendError (hr_protocol hrequest) status text keep] /\ on = false
    end.
Proof.
  unfold serve, found_file, headers_sent. destruct (negb _ || _).
  { intros [= <- <-]. exists []. split; [by left|]. refused. }
  destruct (requested_file _ _) as [[p|]|e|r]; cbn; [| |done..].
  2: { intros [= <- <-]. exists []. split; [by left|]. refused. }
  assert (Hn : notices s (if ht_observer s then [NotifyRequest p] else [])).
  { destruct (ht_observer s) eqn:Ho; [right; split; [done|by exists p]|by left]. }
  destruct (ha_stat a p) as [sb|]; cbn; [|intros [= <- <-]; eexists; split; [exact Hn|refused]].
  destruct (fst_is_dir sb); [intros [= <- <-]; eexists; split; [exact Hn|refused]|].
  destruct (ha_open a p) as [fd|]; cbn; [|intros [= <- <-]; eexists; split; [exact Hn|refused]].
  destruct (ha_send_headers a); intros [= <- <-]; eexists; (split; [exact Hn|]); rewrite <-app_assoc; [done|].
  split; [|done]. do 2 f_equal. cbn. by case_decide; [rewrite bool_decide_eq_true_2|rewrite bool_decide_eq_false_2].
Qed.

(** What the observer is told is neither an answer nor a file. *)
Lemma notices_quiet s told es :
  notices s told -> open_files [] (told ++ es) = open_files [] es /\ responses (told ++ es) = responses es.
Proof. by intros [->|[_ [p ->]]]. Qed.
Lemma notices_elem s told es e : notices s told -> (forall p, e <> NotifyRequest p) -> e ∈ told ++ es <-> e ∈ es.
Proof. intros [->|[_ [p ->]]] He; [done|]. cbn. rewrite elem_of_cons. naive_solver. Qed.
Lemma notices_observer s told p : notices s told -> NotifyRequest p ∈ told -> ht_observer s = true.
Proof. intros [->|[? _]]; [by intros ?%elem_of_nil|done]. Qed.

Lemma serve_abort a s h keep r :
  serve a s h keep = Abort r ->
  up_IsValid (hr_path h) = true /\ up_IsRoot (hr_path h) = false /\ up_Hpath (hr_path h) = "" /\
  r = LibraryAssert "std::string::substr".
Proof.
  unfold serve, requested_file. destruct (up_IsValid _), (up_IsRoot _); cbn; try done.
  destruct (up_Hpath _); cbn; [by intros [= <-]|]. repeat case_match; done.
Qed.
Lemma serve_no_error a s h keep e : serve a s h keep <> Err e.
Proof.
  unfold serve, requested_file. destruct (negb _ || _); [done|]. destruct (up_Hpath _); cbn; [done|]. repeat case_match; done.
Qed.

(** The events for a request of a file, with the end of the connection. *)
Lemma served a s h es on :
  serve a s h (IsKeepAlive h) = Ok (es, on) ->
  let found := found_file a s h in
  let closes := negb (IsKeepAlive h) && (bool_decide (is_Some found) && headers_sent a) in
  let es' := es ++ if on && negb (IsKeepAlive h) then [CloseConnection] else [] in
  open_files [] es' = [] /\
  (exists status, responses es' = [status] /\ (status = HS_OK <-> is_Some found)) /\
  (forall protocol fd size, SendFile protocol fd size ∈ es' <->
     hr_method h = HM_GET /\ headers_sent a = true /\ protocol = hr_protocol h /\
     exists p sb, found = Some (p, sb, fd) /\ size = fst_size sb) /\
  (exists es0, es' = es0 ++ (if closes then [CloseConnection] else []) /\ CloseConnection ∉ es0) /\
  (forall p, NotifyRequest p ∈ es' -> ht_observer s = true).
Proof.
  intros Hs found closes es'. subst found closes es'. apply serve_spec in Hs as (told & Hn & Hs).
  destruct (found_file a s h) as [[[p sb] fd]|].
  - destruct Hs as [-> ->]. rewrite (bool_decide_eq_true_2 (is_Some _)) by done. cbn [andb].
    rewrite (andb_comm (headers_sent a) (negb (IsKeepAlive h))), <-app_assoc.
    set (c := if negb (IsKeepAlive h) && headers_sent a then [CloseConnection] else []).
    assert (Hc : c = [] \/ c = [CloseConnection]) by (unfold c; case_match; auto).
    set (b := if headers_sent a && bool_decide (hr_method h = HM_GET)
              then [SendFile (hr_protocol h) fd (fst_size sb)] else []).
    assert (Hb : b = [] /\ (headers_sent a = false \/ hr_method h <> HM_GET) \/
                 b = [SendFile (hr_protocol h) fd (fst_size sb)] /\ headers_sent a = true /\ hr_method h = HM_GET).
    { unfold b. destruct (headers_sent a); cbn; [|auto]. case_bool_decide; auto. }
    clearbody b c.
    destruct (notices_quiet s told (([OpenFile p fd;
      SendHeaders (hr_protocol h) (up_Mime (hr_path h)) (fst_size sb) (fst_mtime sb) (IsKeepAlive h)] ++ b ++ [CloseFile fd]) ++ c) Hn)
      as [Ho Hr]. rewrite Ho, Hr. clear Ho Hr. split_and!.
    + destruct Hb as [[-> _]|[-> _]], Hc as [->| ->]; cbn; by rewrite decide_False by (intros Hf; by apply Hf).
    + exists HS_OK. split; [by destruct Hb as [[-> _]|[-> _]], Hc as [->| ->]|]. by split.
    + intros. rewrite (notices_elem s) by done. rewrite !elem_of_app, !elem_of_cons, !elem_of_nil.
      destruct Hb as [(-> & Hb)|(-> & ? & ?)], Hc as [->| ->]; rewrite ?elem_of_cons, ?elem_of_nil;
        (split; [intros Hin; intuition (simplify_eq; eauto 10)|intros (? & ? & -> & p0 & sb0 & Hf & ->); injection Hf as <- <- <-; intuition congruence]).
    + eexists. rewrite app_assoc. split; [done|]. rewrite (notices_elem s) by done.
      rewrite !elem_of_app, !elem_of_cons, !elem_of_nil.
      destruct Hb as [(-> & Hb)|(-> & ? & ?)]; rewrite ?elem_of_cons, ?elem_of_nil; naive_solver.
    + intros q. rewrite elem_of_app. intros [Hq|Hq]; [by eapply notices_observer|exfalso].
      rewrite !elem_of_app, !elem_of_cons, !elem_of_nil in Hq.
      destruct Hb as [(-> & Hb)|(-> & ? & ?)], Hc as [->| ->]; rewrite ?elem_of_cons, ?elem_of_nil in Hq; naive_solver.
  - destruct Hs as (status & text & Hst & -> & ->). rewrite (bool_decide_eq_false_2 (is_Some _)) by (by intros [? ?]).
    rewrite andb_false_r, !app_nil_r. cbn [andb].
    destruct (notices_quiet s told [SendError (hr_protocol h) status text (IsKeepAlive h)] Hn) as [Ho Hr]. rewrite Ho, Hr.
    split_and!.
    + done.
    + exists status. split; [done|]. split; [done|by intros [? ?]].
    + intros. rewrite (notices_elem s) by done. rewrite elem_of_cons, elem_of_nil. naive_solver.
    + eexists. rewrite app_nil_r. split; [done|]. rewrite (notices_elem s) by done. rewrite elem_of_cons, elem_of_nil. naive_solver.
    + intros q. rewrite elem_of_app, elem_of_cons, elem_of_nil. intros [Hq|[?|[]]]; [by eapply notices_observer|done].
Qed.

(** C40: what becomes of a request. One that cannot be parsed is answered by an
    error, and the connection is closed. One for a file (GET or HEAD) is answered
    exactly once: with the headers of the file if there is one that can be opened,
    and otherwise by an error; the file follows its headers exactly for GET, if
    they could be sent. One with another method gets no answer. No descriptor is
    left open. The connection is closed, once and as the last thing, exactly if
    the client has not asked to keep it and either it wanted no file, or it got
    one whose headers could be sent: after an error, and after headers that could
    not be sent, it is left open. The observer is told only if there is one, and
    the handler aborts only for a path that is valid and has an empty directory. *)
Theorem ProcessReceived_spec a s request :
  match parse_http_request request with
  | inr (status, text) => ProcessReceived a s request = Ok [SendError "HTTP/1.1" status text false; CloseConnection]
  | inl hrequest =>
      match ProcessReceived a s request with
      | Ok es =>
          let found := if wants_file hrequest then found_file a s hrequest else None in
          let closes := negb (IsKeepAlive hrequest) &&
            (negb (wants_file hrequest) || (bool_decide (is_Some found) && headers_sent a)) in
          open_files [] es = [] /\
          (if wants_file hrequest then exists status, responses es = [status] /\ (status = HS_OK <-> is_Some found)
           else responses es = []) /\
          (forall protocol fd size, SendFile protocol fd size ∈ es <->
             hr_method hrequest = HM_GET /\ headers_sent a = true /\ protocol = hr_protocol hrequest /\
             exists p sb, found = Some (p, sb, fd) /\ size = fst_size sb) /\
          (exists es', es = es' ++ (if closes then [CloseConnection] else []) /\ CloseConnection ∉ es') /\
          (forall p, NotifyRequest p ∈ es -> ht_observer s = true)
      | Err _ => False
      | Abort r =>
          wants_file hrequest = true /\ up_IsValid (hr_path hrequest) = true /\ up_IsRoot (hr_path hrequest) = false /\
          up_Hpath (hr_path hrequest) = "" /\ r = LibraryAssert "std::string::substr"
      end
  end.
Proof.
  unfold ProcessReceived. destruct (parse_http_request request) as [h|[status text]]; [|done].
  unfold wants_file. case_decide as Hm; [rewrite (bool_decide_eq_true_2 _ Hm)|rewrite (bool_decide_eq_false_2 _ Hm)]; cbn [negb orb].
  2: { cbn. rewrite andb_true_r. destruct (IsKeepAlive h); cbn; (split_and!; [done|done| | |set_solver]).
       - intros. split; [set_solver|]. naive_solver.
       - exists []. split; [done|set_solver].
       - intros. split; [set_solver|]. naive_solver.
       - exists []. split; [done|set_solver]. }
  destruct (serve a s h (IsKeepAlive h)) as [[es on]|e|r] eqn:Hs; cbn [mbind outcome_bind].
  - by apply served.
  - by apply serve_no_error in Hs.
  - split; [done|]. by eapply serve_abort.
Qed.
End Http.

(** ** The theorem at a concrete request *)

Section Witnesses.
(** A parser that knows one request, without [Connection], and a disk that has
    no file. *)
Definition sample_http_request : HttpRequest :=
  {| hr_method := HM_GET; hr_protocol := "HTTP/1.1"; hr_connection := None;
     hr_path := {| up_IsValid := true; up_IsRoot := false; up_Hpath := "/live/"; up_FileName := "a.m3u8";
                   up_Mime := "audio/mpegurl" |} |}.
#[local] Instance sample_http : HttpLib :=
  {| parse_http_request _ := inl sample_http_request;
     equals_nocase := String.eqb;
     MakeDirectoryStringPath d n := Some (d +:+ n);
     MakeFileStringPath d n := Some (d +:+ n) |}.

Definition sample_answers : http_answers :=
  {| ha_stat _ := None; ha_open _ := None; ha_send_headers := None; ha_send_file := None |}.

Definition sample_http_state : http_state := {| ht_root := "/srv/"; ht_observer := false; ht_online_clients := 1 |}.

(** The file is not there: the answer is 404, and the connection stays open. *)
Lemma ProcessReceived_spec_witness :
  exists es, ProcessReceived sample_answers sample_http_state "GET /live/a.m3u8" = Ok es /\
    responses es = [HS_NOT_FOUND] /\ CloseConnection ∉ es.
Proof.
  pose proof (@ProcessReceived_spec sample_http sample_answers sample_http_state "GET /live/a.m3u8") as H.
  exists [SendError "HTTP/1.1" HS_NOT_FOUND "File not found." false]. split; [reflexivity|]. split; [reflexivity|].
  destruct H as (_ & _ & _ & (es' & He & Hn) & _). cbn in He. rewrite app_nil_r in He. rewrite He. exact Hn.
Defined.
End Witnesses.
